(* ===== verification/_CoqProject ===== *)
-Q . S2P
Prelude.v
JsNum.v
JsValue.v
Json.v
GoJson.v
GoMarshal.v
Fixed64.v
DecimalLib.v
MathHelpers.v
NumberInput.v
CryptoLib.v
CryptoHelpers.v
Address.v
Runtime.v
Store.v
AxiosPlugin.v
Server.v
Vault.v
Serialization.v
Config.v
ConfigSpec.v
NodeState.v
Routes.v
NodeRuns.v
InitSpec.v
Protocol.v
StoreSpec.v
Transport.v
System.v
Interleaving.v
NuxtConfig.v
RouterPlugin.v
TaskPlugin.v
Dialogs.v
Vue.v
DialogViews.v
Pages.v
Widgets.v
WidgetViews.v
Locales.v
PageViews.v
LayoutViews.v
Translations.v
ServiceWorker.v
Components.v
EndToEnd.v
