(* ===== verification/Prelude.v ===== *)
(** * A verification of the NKN dashboard

    The dashboard is the web interface of an NKN node: a Nuxt application
    (src/dashboard/web) that a browser loads from the node and that talks to
    the HTTP API of the node (src/dashboard, in Go).  The development models
    the application as it is written, with the API of the node and what stands
    behind it, the wallet, the parameters and the startup of the node, and
    proves what makes the two work together.

    ** The program and its model

    - JavaScript itself.  [JsNum]: numbers are IEEE-754 binary64 values, with
      their decimal text; integers below 2^53 are exact.  [JsValue]: values,
      conversions and operators, exceptions as [js A], a value or what was
      thrown.  [Json]: JSON.stringify and JSON.parse, and that one undoes the
      other.  Strings are UTF-8 byte strings on both sides.  Reading a property
      covers the plain properties the sources read.
    - Third-party code.  [CryptoLib] (crypto-js, and SHA, HMAC and AES in CFB
      mode) and [DecimalLib] (decimal.js) are interfaces: a class of operations,
      a class of laws that state their documented behaviour, and a concrete
      instance that satisfies them.  So are base58 and RIPEMD-160 in [Address],
      AES in CBC mode, scrypt and Ed25519 keys in [Vault], lodash's countBy in [Store], what
      Vuetify shows of a dialog, a window and a table in [Vue] and [WidgetViews],
      the paths of nuxt-i18n in [NuxtConfig] and Workbox in [ServiceWorker];
      Vuetify's form reset and vue-i18n's $t are arguments of the definitions
      that use them.
    - [CryptoHelpers]: helpers/crypto.js.  [MathHelpers]: helpers/math.js and
      helpers/tools.js.
    - [Runtime]: async functions as trees of commands, run up to the next await;
      what is proved of a continuation for every world holds under every
      interleaving.
    - [Store]: store/*.js, the state as records, getters and mutations as
      functions, the thirteen actions as programs.  [StoreSpec]: what each action
      does, error paths included.  [System]: the specification of a call, how it
      begins and how it is answered.  [Interleaving]: the labelled transition
      system of the actions with their continuations, and the system that
      answers each call atomically.
    - [AxiosPlugin]: plugins/axios.js, the encryption of requests and the search
      for the key of a response.  [Server]: dashboard/helpers/crypto.go,
      dashboard/auth and crypto/helper.go.  [Protocol]: both ends together.
    - Go.  [GoJson]: decoding into a struct with encoding/json.  [GoMarshal]:
      writing with it, and that what is written is read back.  [Fixed64],
      [Address]: common/Fixed64.go, common/uint160.go and program/program.go,
      amounts and addresses as text.  [Vault]: vault/*.go with the disk, and the
      errors and panics of Go as values.  [Serialization]:
      common/serialization and the streams of amounts, hashes and programs.
      [Config]: config/config.go, the fields
      of the configuration with their defaults, the file, [Init] with the command
      line, the search for free ports and what is computed from the memory, and
      [verify].  [ConfigSpec]: writing the file and reading it again.
      [InitSpec]: what a successful [Init] guarantees, and that the search for
      ports ends.  [NodeState]: the parameters the dashboard uses, the flags of
      the service and the password (dashboard/config, util/password),
      [GetWallet], a round of the startup loop of cmd/nknd, and what nodes say
      about themselves (node, lnode).  [NodeRuns]: a process of the node as a
      step relation, requests, rounds of the startup loop, the dashboard given
      what the node has, and restarts on the same disk.  [Routes]: dashboard/service.go and
      dashboard/routes, the token and the sessions, the clock check, the thirteen
      routes and how a request reaches its handler ([serve]).
    - [Transport]: a request on its way from the store to its handler, and the
      answer on its way back.  [EndToEnd]: what a user does on a page, and what
      it does to the node.
    - [NuxtConfig]: nuxt.config.js as a value, and the routes of the pages.
    - [RouterPlugin]: plugins/router.js and the two loading pages.  [TaskPlugin]:
      plugins/task.js and helpers/task.js.
    - [NumberInput], [Dialogs], [Pages], [Widgets]: the scripts of the components
      and of the pages, as state machines whose events are the user, the parent
      and the answers to the actions in flight, or as programs that dispatch the
      actions of the store.
    - [Vue]: a template as a function from the data of its component to a tree
      of elements, whose listeners raise the events of the state machines; what
      of a tree is on the screen, which events it offers, what a form validates.
      [DialogViews], [WidgetViews], [PageViews], [LayoutViews]: the templates of
      components/, pages/ and layouts/ as such functions, and the whole
      application, a layout around a page.
    - [Components]: the options of every component, what it registers, declares,
      uses and maps, and which components are rendered.
    - [ServiceWorker]: src/web/sw.js as a sequence of calls into Workbox.
    - [Locales]: the message tables of locales/en and locales/zh.
      [Translations]: that the templates use no key without a message.

    ** What the theorems show

    - Protocol: the node accepts the header the store computes and decrypts the
      bodies it sends, and the browser recovers what the node encrypted, when the
      clocks are within the window of twenty seconds each way; the filter of the
      node accepts nothing else; the clock of the store stays in that window.
      The searches on both sides take the first key that decrypts to JSON, so
      the theorems ask that no earlier second of the window does.
    - End to end: synchronising makes browser and node agree on a token and a
      clock, and from then on: creating the wallet in the browser writes one the node then
      opens, and opening it brings the node up, after which both have the same
      seed; the numbers of the settings form and the beneficiary arrive in the
      parameters and the file of the node, or are refused with 400 as a whole;
      saving unedited settings changes nothing; the seed, the status of the
      wallet and the neighbours the browser shows are those of the node; the
      backup it saves opens to the account of the node.
    - The node: once the wallet is open, nothing changes its state or reads a
      protected route without the key of the password; every route but the sync
      routes needs a clock in the window; a wallet file opens with its password
      and only to an account of its address; the flags say what a round of
      opening the wallet did; with a single browser the session carries the
      token the sync route reports.
    - Runs of the node: settings and beneficiary survive a restart; a wallet file
      is never overwritten and stays the one the dashboard has open; a process
      refines an abstract node that has settings and a wallet; a wallet created
      in the dashboard is opened after a restart with the saved password.  These
      theorems are about a configuration file whose members have the names the
      code writes (what a shipped file with another spelling does is a theorem
      of its own), settings that are integers a float holds exactly, and no
      beneficiary on the command line.  A started node has its parameters within
      their bounds.
    - Streams: what is written is read back; a stream that ends early is filled
      up with zeros.
    - Store: the asynchronous actions refine their atomic specification under
      every interleaving; every call settles with its answer; the statuses can
      always be read; a seed in the session comes from an accepted password.
    - Termination: the decryption loop is a function with fuel; 41 is enough
      for its forty rounds, in every reachable state, as long as the clock is
      below 2^53.  A navigation has fuel 2: it ends after at most one redirect.
      A loading page is left as soon as a status says where to go.  The search
      for ports has as fuel the number of its attempts: more than the index of
      the first port that can be opened is enough, and none is where there is no
      such port.
    - Components: exact outcomes of the forms, dialogs and pages on every answer,
      round trips of fees, hexadecimal text, settings and downloads, bounds of
      the number field, completeness of the translations.
    - Screens: every page renders inside its layout in every state the store can
      reach; each dialog offers exactly the events of its step; the seed is on
      the screen on one step only; a form validates the fields its template puts
      into it; each field of the settings is bound to its own setting; the tabs
      lead to pages of the application; every component that is rendered finds
      the components, properties and store members it names; the service worker never answers a call
      of the store from a cache.
    - Some theorems state behaviour the code hardly intends: errors with an
      unlisted status are taken for success by the actions, the password dialog
      and the settings page; the secret seed dialog can show the seed without
      asking for the password, and nothing at all after a double click; what its
      window writes lets the address dialog skip the verification; a second
      browser can leave the first with an outdated token; a header computed
      before the first token does not depend on the time; the node waits for a
      beneficiary in a branch it never takes; after a wallet was created the
      flags say for a while that it is missing; a changed password leaves the
      hash of the old one in memory; a damaged wallet file makes the node panic;
      with the shipped configuration file a saved beneficiary is lost at the next
      start; a request to create a wallet changes the beneficiary of a node whose
      wallet is closed; a large cache size becomes a small one, and a batch size
      of 0 a panic.

    ** What is not modelled

    Styles; the paging, sorting and searching of Vuetify's tables and the other
    internals of third-party components; the configuration of the test runner.
    Of the node: the chain, the ledger (its balances are an argument), the
    peer-to-peer network and its messages (what protojson writes of them is an
    argument), the consensus parameters that depend on the height, the signing
    of transactions, the files under /web and the log; starting them is one step
    of [NodeRuns], which sets what the dashboard reads.  gin is modelled as far as the routes use it:
    the middlewares in their order, the status that is written first, panics
    answered with 500, bodies that are JSON.  A file is written as a whole or
    not at all.  An event handler of a page that only assigns to its data is a
    function ([open_update] and the like), without the requests in flight.
    Timers are taken to be on time, watchers to run with the change that
    triggers them, and a child that throws to break its parent.  Requests and
    rounds of the startup loop take effect one after the other.  The text of
    error messages is shortened where it carries values. *)

From Stdlib Require Export ZArith Lia Ascii.
From stdpp Require Export base tactics strings list gmap option.

(** * Results: fallible code returns a value or a thrown error *)

Inductive result (E A : Type) : Type :=
| Ok (a : A)
| Err (e : E).
Arguments Ok {E A} a.
Arguments Err {E A} e.

#[export] Instance result_ret {E} : MRet (result E) := fun A a => Ok a.
#[export] Instance result_bind {E} : MBind (result E) :=
  fun A B f m => match m with Ok a => f a | Err e => Err e end.
#[export] Instance result_fmap {E} : FMap (result E) :=
  fun A B f m => match m with Ok a => Ok (f a) | Err e => Err e end.
#[export] Instance result_eq_dec {E A} `{EqDecision E, EqDecision A} : EqDecision (result E A).
Proof. solve_decision. Defined.

#[export] Instance Ok_inj {E A} : Inj (=) (=) (@Ok E A).
Proof. by intros ? ? [= ->]. Qed.

(** [try r catch h]: the JavaScript [try]/[catch] on a pure computation. *)
Definition try_catch {E F A} (r : result E A) (h : E -> result F A) : result F A :=
  match r with Ok a => Ok a | Err e => h e end.

Definition is_Ok {E A} (r : result E A) : bool :=
  match r with Ok _ => true | Err _ => false end.

Definition result_to_option {E A} (r : result E A) : option A :=
  match r with Ok a => Some a | Err _ => None end.

Lemma bind_Ok {E A B} (m : result E A) (f : A -> result E B) b :
  m ≫= f = Ok b <-> exists a, m = Ok a /\ f a = Ok b.
Proof.
  destruct m as [a | e]; cbn; split.
  - intros H. by exists a.
  - intros (a' & [= ->] & H). done.
  - intros [=].
  - by intros (a & [=] & _).
Qed.

Lemma bind_Err {E A B} (m : result E A) (f : A -> result E B) e :
  m ≫= f = Err e <-> m = Err e \/ exists a, m = Ok a /\ f a = Err e.
Proof.
  destruct m as [a | e']; cbn; split.
  - intros H. right. by exists a.
  - by intros [[=] | (a' & [= ->] & H)].
  - intros [= ->]. by left.
  - by intros [[= ->] | (a & [=] & _)].
Qed.

(** * Tactics *)

(** Split every conjunction and existential of the context. *)
Ltac dest_all :=
  repeat match goal with
  | H : _ /\ _ |- _ => destruct H
  | H : ex _ |- _ => destruct H
  | H : Ok _ = Ok _ |- _ => injection H as H; subst
  | H : Err _ = Err _ |- _ => injection H as H; subst
  | H : Ok _ = Err _ |- _ => discriminate H
  | H : Err _ = Ok _ |- _ => discriminate H
  end.

(** Case analysis on the scrutinee of a [match] or [if], in the goal or in a
    hypothesis, keeping the equation. *)
Ltac case_scrut :=
  match goal with
  | |- context [match ?x with _ => _ end] =>
      lazymatch x with context [match _ with _ => _ end] => fail | _ => destruct x eqn:? end
  | H : context [match ?x with _ => _ end] |- _ =>
      lazymatch x with context [match _ with _ => _ end] => fail | _ => destruct x eqn:? end
  end.

Ltac crush := repeat (cbn in *; simplify_eq; dest_all; try done; try case_scrut).

(** Reduce the binds of the option and result monads, and nothing else. *)
Ltac bind_simpl := cbn [mbind option_bind result_bind mret result_ret].

Create HintDb nkn.
Create Rewrite HintDb nkn.

(** * Strings as byte sequences *)

Lemma string_app_cons c (s t : string) :
  (String c s +:+ t)%string = String c (s +:+ t)%string.
Proof. reflexivity. Qed.

Lemma string_app_empty (t : string) : ("" +:+ t)%string = t.
Proof. reflexivity. Qed.

Lemma string_app_nil_r (s : string) : (s +:+ "")%string = s.
Proof. induction s as [|c s IH]; [done |]. by rewrite string_app_cons, IH. Qed.

Lemma string_app_assoc (a b c : string) :
  (a +:+ (b +:+ c) = (a +:+ b) +:+ c)%string.
Proof. induction a as [|x a IH]; [done |]. by rewrite !string_app_cons, IH. Qed.

Lemma string_length_app (a b : string) :
  String.length (a +:+ b) = (String.length a + String.length b)%nat.
Proof. induction a as [|x a IH]; [done |]. rewrite string_app_cons. cbn. by rewrite IH. Qed.

(** Push the concatenation of strings with a known head inside. *)
Ltac str_simpl := repeat (rewrite string_app_cons || rewrite string_app_empty).

#[export] Hint Rewrite string_app_cons string_app_empty string_app_nil_r string_length_app : nkn.

(** [s.slice(0, n)]: the first [n] characters. *)
Fixpoint str_take (n : nat) (s : string) : string :=
  match n, s with
  | S n', String c s' => String c (str_take n' s')
  | _, _ => EmptyString
  end.

(** [s.substring(n)]: everything after the first [n] characters. *)
Fixpoint str_drop (n : nat) (s : string) : string :=
  match n, s with
  | S n', String _ s' => str_drop n' s'
  | _, _ => s
  end.

Lemma str_take_drop n s : (str_take n s +:+ str_drop n s)%string = s.
Proof.
  revert s; induction n as [|n IH]; intros [|c s]; cbn; try done.
  by rewrite string_app_cons, IH.
Qed.

Lemma str_take_length n s : (n <= String.length s)%nat -> String.length (str_take n s) = n.
Proof. revert s; induction n as [|n IH]; intros [|c s] H; cbn in *; try lia. rewrite IH; lia. Qed.

(** Does [p] occur in [s]?  ([~s.indexOf(p)] in the source.) *)
Fixpoint str_contains (p s : string) : bool :=
  String.prefix p s || match s with EmptyString => false | String _ s' => str_contains p s' end.

Lemma prefix_app (p s : string) : String.prefix p (p +:+ s) = true.
Proof.
  induction p as [|c p IH]; [by destruct s |].
  rewrite string_app_cons. cbn. destruct (ascii_dec c c); [done | congruence].
Qed.

Lemma str_drop_app (p s : string) : str_drop (String.length p) (p +:+ s) = s.
Proof. induction p as [|c p IH]; [by destruct s | by rewrite string_app_cons]. Qed.

Lemma str_contains_app (a p b : string) : str_contains p (a +:+ (p +:+ b)) = true.
Proof.
  induction a as [|c a IH].
  - rewrite string_app_empty. pose proof (prefix_app p b) as Hp.
    destruct (p +:+ b)%string; cbn [str_contains]; by rewrite Hp.
  - rewrite string_app_cons. cbn [str_contains]. rewrite IH. apply orb_true_r.
Qed.

(** * Association lists: JavaScript objects keep their keys in insertion order *)

Section Assoc.
Context {V : Type}.

Fixpoint assoc (k : string) (l : list (string * V)) : option V :=
  match l with
  | [] => None
  | (k', v) :: l' => if String.eqb k k' then Some v else assoc k l'
  end.

(** Assignment [o.k = v]: overwrite in place, or append a new key. *)
Fixpoint assoc_set (k : string) (v : V) (l : list (string * V)) : list (string * V) :=
  match l with
  | [] => [(k, v)]
  | (k', v') :: l' =>
      if String.eqb k k' then (k', v) :: l' else (k', v') :: assoc_set k v l'
  end.

Lemma assoc_set_eq k v l : assoc k (assoc_set k v l) = Some v.
Proof.
  induction l as [|[k' v'] l IH]; cbn; [by rewrite String.eqb_refl |].
  destruct (String.eqb k k') eqn:E; cbn; by rewrite E.
Qed.

Lemma assoc_set_ne k k' v l : k <> k' -> assoc k' (assoc_set k v l) = assoc k' l.
Proof.
  intros Hne. induction l as [|[j w] l IH]; cbn.
  - destruct (String.eqb_spec k' k); congruence.
  - destruct (String.eqb_spec k j); cbn; [subst j |].
    + destruct (String.eqb_spec k' k); congruence.
    + by rewrite IH.
Qed.
End Assoc.
