(* ===== verification/JsNum.v ===== *)
(** * JavaScript numbers

    A JavaScript number is an IEEE-754 binary64 value: the Standard Library's
    [spec_float] at precision 53 and exponent range 1024.  The file defines the
    conversions the sources use (integers, 32-bit integers for [&], decimal
    text in both directions) and proves that integers below 2^53 are computed
    with exactly, which is what the clock arithmetic of the dashboard relies
    on. *)

From S2P Require Import Prelude.
From Stdlib Require Import Floats.SpecFloat.
Local Open Scope Z_scope.

Abbreviation num := spec_float.

Definition num_nan : num := S754_nan.
Definition num_of_Z (z : Z) : num := binary_normalize 53 1024 z 0 false.
Definition num_add : num -> num -> num := SFadd 53 1024.
Definition num_sub : num -> num -> num := SFsub 53 1024.
Definition num_mul : num -> num -> num := SFmul 53 1024.
Definition num_div : num -> num -> num := SFdiv 53 1024.
Definition num_ltb : num -> num -> bool := SFltb.
Definition num_leb : num -> num -> bool := SFleb.
Definition num_eqb : num -> num -> bool := SFeqb.
Definition num_gtb (x y : num) : bool := SFltb y x.
Definition num_geb (x y : num) : bool := SFleb y x.
Definition is_nan (x : num) : bool := match x with S754_nan => true | _ => false end.

#[export] Instance num_eq_dec : EqDecision num.
Proof. solve_decision. Defined.

(** The integer part, towards zero ([None] for NaN and the infinities). *)
Definition num_trunc (x : num) : option Z :=
  match x with
  | S754_zero _ => Some 0
  | S754_finite s m e =>
      let a := if 0 <=? e then Z.pos m * 2 ^ e else Z.pos m / 2 ^ (- e) in
      Some (if s then - a else a)
  | _ => None
  end.

(** [Math.floor]. *)
Definition num_floor (x : num) : num :=
  match x with
  | S754_finite s m e =>
      if 0 <=? e then x
      else let q := Z.pos m / 2 ^ (- e) in
           let up := negb (Z.pos m mod 2 ^ (- e) =? 0) in
           let r := if s then (if up then - q - 1 else - q) else q in
           if r =? 0 then S754_zero s else num_of_Z r
  | _ => x
  end.

(** The exact integer a number stands for, when it is one. *)
Definition num_integer (x : num) : option Z :=
  match x with
  | S754_zero _ => Some 0
  | S754_finite s m e =>
      if 0 <=? e then Some (if s then - (Z.pos m * 2 ^ e) else Z.pos m * 2 ^ e)
      else if Z.pos m mod 2 ^ (- e) =? 0
           then Some (if s then - (Z.pos m / 2 ^ (- e)) else Z.pos m / 2 ^ (- e))
           else None
  | _ => None
  end.

(** ECMAScript [ToInt32] and the bitwise [&] on numbers. *)
Definition wrap32 (z : Z) : Z := (z + 2 ^ 31) mod 2 ^ 32 - 2 ^ 31.
Definition num_int32 (x : num) : Z :=
  match num_trunc x with Some z => wrap32 z | None => 0 end.
Definition num_and (x y : num) : num := num_of_Z (Z.land (num_int32 x) (num_int32 y)).

(** ** Decimal text to a number: the correctly rounded value of m * 10^e *)

Fixpoint dec_len (fuel : nat) (n : Z) : Z :=
  match fuel with
  | O => 0
  | S f => if n <? 10 then 1 else 1 + dec_len f (n / 10)
  end.
Definition dec_digits (n : Z) : Z := dec_len (Z.to_nat (Z.log2 n) + 1) n.

Definition num_of_decimal (s : bool) (m e : Z) : num :=
  if m =? 0 then S754_zero s
  else if 400 <? dec_digits m + e then S754_infinity s
  else if dec_digits m + e <? -400 then S754_zero s
  else if 0 <=? e then binary_normalize 53 1024 ((if s then -1 else 1) * (m * 10 ^ e)) 0 s
  else let '(q, e', l) := SFdiv_core_binary 53 1024 m 0 (10 ^ (- e)) 0 in
       binary_round_aux 53 1024 s q e' l.

(** ** Printing integers in decimal *)

Definition digit_char (d : Z) : ascii := ascii_of_N (Z.to_N (48 + d)).
Definition digit_val (c : ascii) : option Z :=
  let n := Z.of_N (N_of_ascii c) in
  if (48 <=? n) && (n <=? 57) then Some (n - 48) else None.
Definition is_digit (c : ascii) : bool :=
  match digit_val c with Some _ => true | None => false end.

Fixpoint digits_go (fuel : nat) (n : Z) (acc : string) : string :=
  match fuel with
  | O => acc
  | S f =>
      let acc' := String (digit_char (n mod 10)) acc in
      if n <? 10 then acc' else digits_go f (n / 10) acc'
  end.

(** The decimal digits of a non-negative integer. *)
Definition nat_str (n : Z) : string := digits_go (Z.to_nat (Z.log2 n) + 1) n EmptyString.
Definition int_str (z : Z) : string :=
  if z <? 0 then String "-" (nat_str (- z)) else nat_str z.

(** Read the longest run of digits: the value accumulated so far, how many
    digits were read, and the rest. *)
Fixpoint read_digits (acc : Z) (cnt : Z) (s : string) : Z * Z * string :=
  match s with
  | String c s' =>
      match digit_val c with
      | Some d => read_digits (acc * 10 + d) (cnt + 1) s'
      | None => (acc, cnt, s)
      end
  | EmptyString => (acc, cnt, s)
  end.

(** ** Number to text: ECMAScript [Number::toString] in base 10 *)

(** The positive value m * 2^e as a fraction. *)
Definition frac_of (m e : Z) : Z * Z :=
  if 0 <=? e then (m * 2 ^ e, 1) else (m, 2 ^ (- e)).

(** The [n] with 10^(n-1) <= p/q < 10^n. *)
Fixpoint scale_down (fuel : nat) (p q n : Z) : Z :=
  match fuel with
  | O => n
  | S f => if p <? q * 10 ^ n then n else scale_down f p q (n + 1)
  end.
Fixpoint scale_up (fuel : nat) (p q n : Z) : Z :=
  match fuel with
  | O => n
  | S f => if q <=? p * 10 ^ (1 - n) then n else scale_up f p q (n - 1)
  end.
Definition dec_scale (p q : Z) : Z :=
  if q <=? p then scale_down 400 p q 1 else scale_up 400 p q 0.

(** p/q * 10^k rounded to the nearest integer. *)
Definition scaled_round (p q k : Z) : Z :=
  let '(a, b) := if 0 <=? k then (p * 10 ^ k, q) else (p, q * 10 ^ (- k)) in
  (2 * a + b) / (2 * b).

(** The shortest [k]-digit decimal s * 10^(n-k) that reads back as the number:
    the digits [s], their count [k] and the point position [n]. *)
Fixpoint shortest (fuel : nat) (x : num) (p q n k : Z) : Z * Z * Z :=
  match fuel with
  | O => (scaled_round p q (k - n), k, n)
  | S f =>
      let s := scaled_round p q (k - n) in
      if decide (num_of_decimal false s (n - k) = x)
      then (if s =? 10 ^ k then (10 ^ (k - 1), k, n + 1) else (s, k, n))
      else shortest f x p q n (k + 1)
  end.

Fixpoint zeros (n : nat) : string :=
  match n with O => EmptyString | S n' => String "0" (zeros n') end.

Definition exp_str (e : Z) : string :=
  if e <? 0 then ("e-" +:+ nat_str (- e))%string else ("e+" +:+ nat_str e)%string.

Definition layout_digits (s k n : Z) : string :=
  let ds := nat_str s in
  if (k <=? n) && (n <=? 21) then (ds +:+ zeros (Z.to_nat (n - k)))%string
  else if (0 <? n) && (n <=? 21) then
    (str_take (Z.to_nat n) ds +:+ "." +:+ str_drop (Z.to_nat n) ds)%string
  else if (-6 <? n) && (n <=? 0) then ("0." +:+ zeros (Z.to_nat (- n)) +:+ ds)%string
  else if k =? 1 then (ds +:+ exp_str (n - 1))%string
  else (str_take 1 ds +:+ "." +:+ str_drop 1 ds +:+ exp_str (n - 1))%string.

Definition pos_str (x : num) (m : positive) (e : Z) : string :=
  match num_integer x with
  | Some z => if z <? 2 ^ 53 then nat_str z
              else let '(p, q) := frac_of (Z.pos m) e in
                   let '(s, k, n) := shortest 17 x p q (dec_scale p q) 1 in layout_digits s k n
  | None => let '(p, q) := frac_of (Z.pos m) e in
            let '(s, k, n) := shortest 17 x p q (dec_scale p q) 1 in layout_digits s k n
  end.

Definition num_str (x : num) : string :=
  match x with
  | S754_nan => "NaN"
  | S754_zero _ => "0"
  | S754_infinity false => "Infinity"
  | S754_infinity true => "-Infinity"
  | S754_finite false m e => pos_str x m e
  | S754_finite true m e => String "-" (pos_str (S754_finite false m e) m e)
  end.

(** * Exactness of integer arithmetic below 2^53 *)

(** The integers every binary64 operation of the sources is exact on. *)
Definition safe (z : Z) : Prop := - 2 ^ 53 < z < 2 ^ 53.

Lemma digits2_log2 p : Z.pos (digits2_pos p) = Z.log2 (Z.pos p) + 1.
Proof.
  assert (digits2_pos p = Pos.size p) as -> by (induction p; cbn; congruence).
  destruct p; cbn [Pos.size Z.log2]; rewrite ?Pos2Z.inj_succ; lia.
Qed.

Lemma iter_xO p k : Z.pos (Pos.iter xO p k) = Z.pos p * 2 ^ Z.pos k.
Proof.
  induction k as [|k IH] using Pos.peano_ind; [cbn; lia |].
  rewrite Pos.iter_succ, Pos2Z.inj_succ, Z.pow_succ_r, Pos2Z.inj_xO, IH by lia. lia.
Qed.

Lemma shl_align_le m e e' :
  e' <= e -> Z.pos (fst (shl_align m e e')) = Z.pos m * 2 ^ (e - e') /\ snd (shl_align m e e') = e'.
Proof.
  intros H. unfold shl_align. destruct (e' - e) as [|d|d] eqn:E; cbn.
  - assert (e = e') by lia. subst. rewrite Z.sub_diag. lia.
  - lia.
  - rewrite iter_xO. replace (e - e') with (Z.pos d) by lia. lia.
Qed.

Lemma shl_align_gt m e e' : e < e' -> shl_align m e e' = (m, e).
Proof. intros H. unfold shl_align. destruct (e' - e) eqn:E; [done | done | lia]. Qed.

Lemma iter_pos_nat {A} (f : A -> A) n x : iter_pos f n x = Nat.iter (Pos.to_nat n) f x.
Proof.
  revert x. induction n as [n IH|n IH|]; intros x; cbn [iter_pos].
  - rewrite !IH.
    replace (Pos.to_nat n~1) with (Pos.to_nat n + Pos.to_nat n + 1)%nat by lia.
    by rewrite !Nat.iter_add.
  - rewrite !IH. replace (Pos.to_nat n~0) with (Pos.to_nat n + Pos.to_nat n)%nat by lia.
    by rewrite Nat.iter_add.
  - done.
Qed.

Lemma shr_1_even a : 0 <= a -> shr_1 (Build_shr_record (2 * a) false false) = Build_shr_record a false false.
Proof. destruct a; cbn; [done | done | lia]. Qed.

Lemma iter_shr_exact (n : nat) a :
  0 <= a ->
  Nat.iter n shr_1 (Build_shr_record (a * 2 ^ Z.of_nat n) false false) = Build_shr_record a false false.
Proof.
  revert a. induction n as [|n IH]; intros a Ha; [cbn; by rewrite Z.mul_1_r |].
  rewrite Nat.iter_succ_r, Nat2Z.inj_succ, Z.pow_succ_r by lia.
  replace (a * (2 * 2 ^ Z.of_nat n)) with (2 * (a * 2 ^ Z.of_nat n)) by lia.
  rewrite shr_1_even by lia. by apply IH.
Qed.

(** Shifting the aligned mantissa of an integer right drops only zeros. *)
Lemma shr_fexp_exact a n e :
  0 < a -> 0 <= n -> fexp 53 1024 (Zdigits2 (a * 2 ^ n) + e) - e = n ->
  shr_fexp 53 1024 (a * 2 ^ n) e loc_Exact = (Build_shr_record a false false, e + n).
Proof.
  intros Ha Hn E. unfold shr_fexp. rewrite E. cbn [shr_record_of_loc].
  unfold shr. destruct n as [|p|p]; [| | lia].
  - by rewrite Z.mul_1_r, Z.add_0_r.
  - rewrite iter_pos_nat. f_equal.
    rewrite <- (positive_nat_Z p). by apply iter_shr_exact; lia.
Qed.

Lemma Zdigits2_pos z : 0 < z -> Zdigits2 z = Z.log2 z + 1.
Proof. destruct z; cbn [Zdigits2]; try lia. intros _. apply digits2_log2. Qed.

Lemma log2_shift a n : 0 < a -> 0 <= n -> Z.log2 (a * 2 ^ n) = Z.log2 a + n.
Proof. intros. rewrite Z.log2_mul_pow2 by lia. lia. Qed.

(** The normal form of a positive integer below 2^53: 53 mantissa bits. *)
Definition int_mant (z : Z) : Z := z * 2 ^ (52 - Z.log2 z).
Definition int_exp (z : Z) : Z := Z.log2 z - 52.

Lemma log2_safe z : 0 < z < 2 ^ 53 -> 0 <= Z.log2 z <= 52.
Proof.
  intros [H1 H2]. split; [apply Z.log2_nonneg |].
  apply Z.log2_lt_pow2 in H2; lia.
Qed.

Lemma fexp_safe z : 0 < z < 2 ^ 53 -> fexp 53 1024 (Z.log2 z + 1) = int_exp z.
Proof. intros H. pose proof (log2_safe z H). unfold fexp, emin, int_exp. lia. Qed.

Lemma binary_round_aux_int s z k e :
  0 < z < 2 ^ 53 -> 0 <= k -> e + k = int_exp z ->
  binary_round_aux 53 1024 s (int_mant z * 2 ^ k) e loc_Exact
  = S754_finite s (Z.to_pos (int_mant z)) (int_exp z).
Proof.
  intros Hz Hk E. pose proof (log2_safe z Hz) as Hl.
  assert (0 < int_mant z) as Hm by (unfold int_mant; lia).
  assert (Z.log2 (int_mant z) = 52) as Hlm
    by (unfold int_mant; rewrite log2_shift by lia; lia).
  unfold binary_round_aux.
  rewrite shr_fexp_exact; try lia.
  2: { rewrite Zdigits2_pos, log2_shift by lia. rewrite Hlm.
       replace (52 + k + 1 + e) with (Z.log2 z + 1) by (unfold int_exp in *; lia).
       rewrite fexp_safe by lia. lia. }
  cbn [shr_m loc_of_shr_record round_nearest_even].
  rewrite <- (Z.mul_1_r (int_mant z)) at 1. change 1 with (2 ^ 0) at 1.
  rewrite shr_fexp_exact; try lia.
  2: { rewrite Z.pow_0_r, Z.mul_1_r, Zdigits2_pos, Hlm by lia.
       replace (52 + 1 + (e + k)) with (Z.log2 z + 1) by (unfold int_exp in *; lia).
       rewrite fexp_safe by lia. lia. }
  cbn [shr_m]. destruct (int_mant z) as [|p|p] eqn:Ep; try lia.
  rewrite E, Z.add_0_r. cbn [Z.to_pos].
  destruct (Z.leb_spec (int_exp z) (1024 - 53)); [done |]. unfold int_exp in *; lia.
Qed.

(** An integer in any exact scaling z * 2^k, k >= 0, rounds to its normal form. *)
Lemma binary_round_int s z k m :
  0 < z < 2 ^ 53 -> 0 <= k -> Z.pos m = z * 2 ^ k ->
  binary_round 53 1024 s m (- k) = S754_finite s (Z.to_pos (int_mant z)) (int_exp z).
Proof.
  intros Hz Hk Em. pose proof (log2_safe z Hz) as Hl.
  unfold binary_round. rewrite digits2_log2, Em, log2_shift by lia.
  replace (Z.log2 z + k + 1 + - k) with (Z.log2 z + 1) by lia.
  rewrite fexp_safe by lia.
  destruct (Z.leb_spec (int_exp z) (- k)) as [Hle | Hgt].
  - pose proof (shl_align_le m (- k) (int_exp z) Hle) as [E1 E2].
    destruct (shl_align m (- k) (int_exp z)) as [mz ez]. cbn in E1, E2. subst ez.
    rewrite E1, Em.
    replace (z * 2 ^ k * 2 ^ (- k - int_exp z)) with (int_mant z * 2 ^ 0).
    + apply binary_round_aux_int; lia.
    + unfold int_mant, int_exp in *. rewrite Z.pow_0_r, Z.mul_1_r, <- Z.mul_assoc, <- Z.pow_add_r by lia.
      do 2 f_equal. lia.
  - rewrite shl_align_gt by lia. rewrite Em.
    replace (z * 2 ^ k) with (int_mant z * 2 ^ (int_exp z + k)).
    + apply binary_round_aux_int; lia.
    + unfold int_mant, int_exp in *. rewrite <- Z.mul_assoc, <- Z.pow_add_r by lia.
      do 2 f_equal. lia.
Qed.

Lemma safe_abs z : safe z -> z <> 0 -> 0 < Z.abs z < 2 ^ 53.
Proof. unfold safe. lia. Qed.

Lemma normalize_int z k :
  safe z -> z <> 0 -> 0 <= k ->
  binary_normalize 53 1024 (z * 2 ^ k) (- k) false
  = S754_finite (z <? 0) (Z.to_pos (int_mant (Z.abs z))) (int_exp (Z.abs z)).
Proof.
  intros Hs Hz Hk. pose proof (safe_abs z Hs Hz) as Ha.
  assert (0 < 2 ^ k) as Hp by lia.
  unfold binary_normalize. destruct (z * 2 ^ k) as [|p|p] eqn:E.
  - exfalso. nia.
  - assert (0 < z) by nia. destruct (Z.ltb_spec z 0); [lia |].
    rewrite Z.abs_eq in * by lia. by apply binary_round_int.
  - assert (z < 0) by nia. destruct (Z.ltb_spec z 0); [| lia].
    rewrite Z.abs_neq in * by lia. apply binary_round_int; try done; lia.
Qed.

Lemma num_of_Z_form z :
  safe z -> z <> 0 ->
  num_of_Z z = S754_finite (z <? 0) (Z.to_pos (int_mant (Z.abs z))) (int_exp (Z.abs z)).
Proof.
  intros Hs Hz. unfold num_of_Z. rewrite <- (normalize_int z 0) by (done || lia).
  by rewrite Z.pow_0_r, Z.mul_1_r.
Qed.

Lemma normalize_num_of_Z z k :
  safe z -> 0 <= k -> binary_normalize 53 1024 (z * 2 ^ k) (- k) false = num_of_Z z.
Proof.
  intros Hs Hk. destruct (decide (z = 0)) as [-> | Hz]; [done |].
  by rewrite normalize_int, num_of_Z_form by done.
Qed.

Lemma int_mant_pos z : 0 < z < 2 ^ 53 -> 0 < int_mant z.
Proof. intros H. pose proof (log2_safe z H). unfold int_mant. lia. Qed.

Lemma int_mant_scale z e :
  0 < z < 2 ^ 53 -> e <= int_exp z -> int_mant z * 2 ^ (int_exp z - e) = z * 2 ^ (- e).
Proof.
  intros Hz He. pose proof (log2_safe z Hz). unfold int_mant, int_exp in *.
  rewrite <- Z.mul_assoc, <- Z.pow_add_r by lia. do 2 f_equal. lia.
Qed.

Lemma aligned_value z e :
  safe z -> z <> 0 -> e <= int_exp (Z.abs z) ->
  cond_Zopp (z <? 0) (Z.pos (fst (shl_align (Z.to_pos (int_mant (Z.abs z))) (int_exp (Z.abs z)) e)))
  = z * 2 ^ (- e).
Proof.
  intros Hs Hz He. pose proof (safe_abs z Hs Hz) as Ha. pose proof (int_mant_pos _ Ha).
  destruct (shl_align_le (Z.to_pos (int_mant (Z.abs z))) _ _ He) as [-> _].
  rewrite Z2Pos.id, int_mant_scale by done.
  unfold cond_Zopp. destruct (Z.ltb_spec z 0); lia.
Qed.

Lemma int_exp_le0 z : 0 < z < 2 ^ 53 -> int_exp z <= 0.
Proof. intros H. pose proof (log2_safe z H). unfold int_exp. lia. Qed.

Lemma num_add_int a b : safe a -> safe b -> safe (a + b) -> num_add (num_of_Z a) (num_of_Z b) = num_of_Z (a + b).
Proof.
  intros Ha Hb Hab.
  destruct (decide (a = 0)) as [-> | Ha0];
    [destruct (decide (b = 0)) as [-> | Hb0]; [done | by rewrite Z.add_0_l, (num_of_Z_form b) by done] |].
  destruct (decide (b = 0)) as [-> | Hb0]; [by rewrite Z.add_0_r, (num_of_Z_form a) by done |].
  rewrite (num_of_Z_form a), (num_of_Z_form b) by done.
  unfold num_add, SFadd.
  pose proof (int_exp_le0 _ (safe_abs _ Ha Ha0)).
  rewrite !aligned_value by (done || lia).
  rewrite <- Z.mul_add_distr_r, <- normalize_num_of_Z with (k := - Z.min (int_exp (Z.abs a)) (int_exp (Z.abs b)))
    by (done || lia).
  by rewrite Z.opp_involutive.
Qed.

Lemma num_sub_int a b : safe a -> safe b -> safe (a - b) -> num_sub (num_of_Z a) (num_of_Z b) = num_of_Z (a - b).
Proof.
  intros Ha Hb Hab.
  destruct (decide (b = 0)) as [-> | Hb0].
  { rewrite Z.sub_0_r. destruct (decide (a = 0)) as [-> | Ha0]; [done | by rewrite (num_of_Z_form a) by done]. }
  destruct (decide (a = 0)) as [-> | Ha0].
  { rewrite (num_of_Z_form b) by done. change (0 - b) with (- b).
    rewrite (num_of_Z_form (- b)) by (unfold safe in *; lia). cbn. rewrite Z.abs_opp.
    f_equal. destruct (Z.ltb_spec b 0), (Z.ltb_spec (- b) 0); cbn; lia. }
  rewrite (num_of_Z_form a), (num_of_Z_form b) by done.
  unfold num_sub, SFsub.
  pose proof (int_exp_le0 _ (safe_abs _ Ha Ha0)).
  rewrite !aligned_value by (done || lia).
  rewrite <- Z.mul_sub_distr_r, <- normalize_num_of_Z with (k := - Z.min (int_exp (Z.abs a)) (int_exp (Z.abs b)))
    by (done || lia).
  by rewrite Z.opp_involutive.
Qed.

Lemma compare_pos_int a b :
  0 < a < 2 ^ 53 -> 0 < b < 2 ^ 53 ->
  match int_exp a ?= int_exp b with
  | Lt => Lt | Gt => Gt
  | Eq => Pos.compare_cont Eq (Z.to_pos (int_mant a)) (Z.to_pos (int_mant b))
  end = (a ?= b).
Proof.
  intros Ha Hb. pose proof (log2_safe a Ha). pose proof (log2_safe b Hb).
  pose proof (int_mant_pos a Ha). pose proof (int_mant_pos b Hb).
  unfold int_exp. destruct (Z.compare_spec (Z.log2 a - 52) (Z.log2 b - 52)) as [E | E | E].
  - assert (Z.log2 a = Z.log2 b) as El by lia.
    change (Pos.compare_cont Eq ?x ?y) with (Pos.compare x y).
    rewrite Pos2Z.inj_compare, !Z2Pos.id by done.
    unfold int_mant. rewrite El.
    destruct (Z.compare_spec a b) as [-> | L | L]; [by apply Z.compare_refl | |].
    + apply Z.compare_lt_iff. apply Z.mul_lt_mono_pos_r; lia.
    + apply Z.compare_gt_iff. apply Z.mul_lt_mono_pos_r; lia.
  - symmetry. apply Z.compare_lt_iff. apply Z.log2_lt_cancel. lia.
  - symmetry. apply Z.compare_gt_iff. apply Z.log2_lt_cancel. lia.
Qed.

Lemma num_compare_int a b : safe a -> safe b -> SFcompare (num_of_Z a) (num_of_Z b) = Some (a ?= b).
Proof.
  intros Ha Hb.
  destruct (decide (a = 0)) as [-> | Ha0].
  { destruct (decide (b = 0)) as [-> | Hb0]; [done |].
    rewrite (num_of_Z_form b) by done. cbn. f_equal.
    destruct (Z.ltb_spec b 0), b; try done; lia. }
  destruct (decide (b = 0)) as [-> | Hb0].
  { rewrite (num_of_Z_form a) by done. cbn. f_equal.
    destruct (Z.ltb_spec a 0), a; try done; lia. }
  rewrite (num_of_Z_form a), (num_of_Z_form b) by done. cbn [SFcompare]. f_equal.
  pose proof (compare_pos_int _ _ (safe_abs _ Ha Ha0) (safe_abs _ Hb Hb0)) as E.
  destruct (Z.ltb_spec a 0), (Z.ltb_spec b 0).
  - rewrite (Z.abs_neq a), (Z.abs_neq b) in * by lia.
    transitivity (CompOpp (- a ?= - b)).
    + rewrite <- E. by destruct (int_exp (- a) ?= int_exp (- b)).
    + rewrite Z.compare_opp. symmetry. apply Z.compare_antisym.
  - symmetry. apply Z.compare_lt_iff. lia.
  - symmetry. apply Z.compare_gt_iff. lia.
  - rewrite !Z.abs_eq in * by lia. done.
Qed.

Lemma num_ltb_int a b : safe a -> safe b -> num_ltb (num_of_Z a) (num_of_Z b) = (a <? b).
Proof. intros. unfold num_ltb, SFltb, Z.ltb. by rewrite num_compare_int. Qed.

Lemma num_leb_int a b : safe a -> safe b -> num_leb (num_of_Z a) (num_of_Z b) = (a <=? b).
Proof. intros. unfold num_leb, SFleb, Z.leb. rewrite num_compare_int by done. by destruct (a ?= b). Qed.

Lemma num_eqb_int a b : safe a -> safe b -> num_eqb (num_of_Z a) (num_of_Z b) = (a =? b).
Proof.
  intros. unfold num_eqb, SFeqb. rewrite num_compare_int, Z.eqb_compare by done. done.
Qed.

Lemma num_integer_int z : safe z -> num_integer (num_of_Z z) = Some z.
Proof.
  intros Hs. destruct (decide (z = 0)) as [-> | Hz]; [done |].
  pose proof (safe_abs z Hs Hz) as Ha. pose proof (int_mant_pos _ Ha).
  pose proof (int_exp_le0 _ Ha) as He.
  pose proof (int_mant_scale (Z.abs z) (int_exp (Z.abs z)) Ha ltac:(lia)) as Hsc.
  rewrite Z.sub_diag, Z.pow_0_r, Z.mul_1_r in Hsc.
  rewrite num_of_Z_form by done. cbn [num_integer]. rewrite Z2Pos.id by done.
  assert (0 < 2 ^ (- int_exp (Z.abs z))) by lia.
  destruct (Z.leb_spec 0 (int_exp (Z.abs z))).
  - assert (int_exp (Z.abs z) = 0) as E0 by lia. rewrite E0 in *.
    rewrite Hsc. change (- 0) with 0. rewrite !Z.pow_0_r, !Z.mul_1_r.
    f_equal. destruct (Z.ltb_spec z 0); lia.
  - rewrite Hsc, Z.mod_mul, Z.div_mul by lia. cbn. f_equal.
    destruct (Z.ltb_spec z 0); lia.
Qed.

Lemma num_trunc_integer x z : num_integer x = Some z -> num_trunc x = Some z.
Proof.
  destruct x as [s | s | | s m e]; cbn [num_integer num_trunc]; intros H; try done.
  destruct (0 <=? e); [done |]. by destruct (_ =? 0).
Qed.

Lemma num_int32_int z : - 2 ^ 31 <= z < 2 ^ 31 -> num_int32 (num_of_Z z) = z.
Proof.
  intros Hz. unfold num_int32.
  rewrite (num_trunc_integer _ z) by (apply num_integer_int; unfold safe; lia).
  unfold wrap32. rewrite Z.mod_small by lia. lia.
Qed.

Lemma num_of_Z_inj a b : safe a -> safe b -> num_of_Z a = num_of_Z b -> a = b.
Proof.
  intros Ha Hb H. pose proof (num_integer_int a Ha) as E.
  rewrite H, num_integer_int in E by done. congruence.
Qed.

(** The bitwise [&] of two non-negative 32-bit integers. *)
Lemma num_and_int a b :
  0 <= a < 2 ^ 31 -> 0 <= b < 2 ^ 31 -> num_and (num_of_Z a) (num_of_Z b) = num_of_Z (Z.land a b).
Proof. intros Ha Hb. unfold num_and. by rewrite !num_int32_int by lia. Qed.

(** ** Printing and reading integers *)

Lemma digit_val_char d : 0 <= d < 10 -> digit_val (digit_char d) = Some d.
Proof.
  intros Hd. unfold digit_val, digit_char.
  rewrite N_ascii_embedding by lia. rewrite Z2N.id by lia.
  destruct (Z.leb_spec 48 (48 + d)), (Z.leb_spec (48 + d) 57); try lia. cbn. f_equal. lia.
Qed.

Lemma read_digits_go f n acc cnt s :
  0 <= n < 10 ^ Z.of_nat f ->
  exists k, 0 <= k /\ (f <> O -> 0 < k) /\
    read_digits 0 cnt (digits_go f n acc +:+ s)%string = read_digits n (cnt + k) (acc +:+ s)%string.
Proof.
  revert n acc. induction f as [|f IH]; intros n acc Hn.
  - exists 0. assert (n = 0) as -> by lia. cbn. by rewrite Z.add_0_r.
  - cbn [digits_go]. pose proof (Z.mod_pos_bound n 10 ltac:(lia)) as Hm.
    pose proof (Z.div_mod n 10 ltac:(lia)) as Hdm.
    destruct (Z.ltb_spec n 10).
    + exists 1. split_and!; [lia | lia |]. rewrite string_app_cons. cbn [read_digits].
      rewrite digit_val_char by done. do 2 f_equal. rewrite Z.mod_small by lia. lia.
    + assert (0 <= n / 10 < 10 ^ Z.of_nat f) as Hn'.
      { rewrite Nat2Z.inj_succ, Z.pow_succ_r in Hn by lia.
        split; [apply Z.div_pos; lia | apply Z.div_lt_upper_bound; lia]. }
      destruct (IH (n / 10) (String (digit_char (n mod 10)) acc) Hn') as (k & Hk & _ & E).
      exists (k + 1). split_and!; [lia | lia |].
      rewrite E, string_app_cons. cbn [read_digits]. rewrite digit_val_char by done.
      f_equal; lia.
Qed.

Lemma log2_fuel n : 0 <= n -> n < 10 ^ Z.of_nat (Z.to_nat (Z.log2 n) + 1).
Proof.
  intros Hn. pose proof (Z.log2_nonneg n).
  rewrite Nat2Z.inj_add, Z2Nat.id by lia. change (Z.of_nat 1) with 1.
  destruct (decide (n = 0)) as [-> | Hz]; [done |].
  pose proof (Z.log2_spec n ltac:(lia)) as [_ Hlt].
  eapply Z.lt_le_trans; [exact Hlt |]. apply Z.pow_le_mono_l. lia.
Qed.

(** Reading back the digits of [n] up to a non-digit gives [n]. *)
Lemma read_digits_nat_str n s :
  0 <= n -> match s with String c _ => digit_val c = None | EmptyString => True end ->
  exists k, 0 < k /\ read_digits 0 0 (nat_str n +:+ s)%string = (n, k, s).
Proof.
  intros Hn Hs. unfold nat_str.
  destruct (read_digits_go (Z.to_nat (Z.log2 n) + 1) n EmptyString 0 s) as (k & _ & Hk & E).
  { split; [done |]. by apply log2_fuel. }
  exists k. split; [apply Hk; lia |]. rewrite E, string_app_empty, Z.add_0_l.
  destruct s as [|c s]; [done |]. cbn [read_digits]. by rewrite Hs.
Qed.

Lemma nat_str_head n : 0 <= n -> exists c s, nat_str n = String c s /\ is_digit c = true.
Proof.
  intros Hn. unfold nat_str. rewrite Nat.add_1_r. cbn [digits_go].
  generalize (Z.to_nat (Z.log2 n)) as f.
  assert (forall f m acc c, 0 <= m -> is_digit c = true ->
            exists c' s, digits_go f m (String c acc) = String c' s /\ is_digit c' = true) as G.
  { induction f as [|f IH]; intros m acc c Hm Hc; [by exists c, acc |]. cbn [digits_go].
    assert (is_digit (digit_char (m mod 10)) = true) as Hd.
    { unfold is_digit. rewrite digit_val_char; [done |]. apply Z.mod_pos_bound. lia. }
    destruct (m <? 10); [eauto |]. apply IH; [apply Z.div_pos; lia | done]. }
  intros f. assert (is_digit (digit_char (n mod 10)) = true) as Hd.
  { unfold is_digit. rewrite digit_val_char; [done |]. apply Z.mod_pos_bound. lia. }
  destruct (n <? 10); [eauto |]. apply G; [apply Z.div_pos; lia | done].
Qed.

Lemma nat_str_nonempty n : 0 <= n -> nat_str n <> "".
Proof. intros Hn. by destruct (nat_str_head n Hn) as (c & s & -> & _). Qed.

(** A safe integer prints as its decimal digits. *)
Lemma num_str_int z : safe z -> num_str (num_of_Z z) = int_str z.
Proof.
  intros Hs. pose proof (num_integer_int z Hs) as Hi.
  destruct (decide (z = 0)) as [-> | Hz]; [done |].
  rewrite num_of_Z_form in * by done. unfold int_str.
  destruct (Z.ltb_spec z 0) as [Hneg | Hpos]; cbn [num_str]; unfold pos_str.
  - assert (num_integer (S754_finite false (Z.to_pos (int_mant (Z.abs z))) (int_exp (Z.abs z))) = Some (- z)) as ->.
    { cbn [num_integer] in *. destruct (0 <=? int_exp (Z.abs z)); [injection Hi as Hi; f_equal; lia |].
      destruct (_ =? 0); [injection Hi as Hi; f_equal; lia | done]. }
    destruct (Z.ltb_spec (- z) (2 ^ 53)); [done | unfold safe in *; lia].
  - rewrite Hi. destruct (Z.ltb_spec z (2 ^ 53)); [done | unfold safe in *; lia].
Qed.

#[export] Hint Rewrite num_integer_int num_ltb_int num_leb_int num_eqb_int num_str_int
  using (unfold safe in *; lia) : nkn.
