(* ===== verification/JsValue.v ===== *)
(** * JavaScript values and the operators the dashboard uses

    Values are the data the dashboard handles: what JSON carries, [undefined]
    and [FormData].  Objects keep their keys in insertion order.  Strings are
    represented by their UTF-8 bytes, on the server side (Go) as well.  Code
    that can throw returns [js A]: a value, or the thrown value. *)

From S2P Require Import Prelude JsNum.
From Stdlib Require Import Floats.SpecFloat.
Local Open Scope Z_scope.

Set Warnings "-register-all".

Inductive jsval : Type :=
| VUndef
| VNull
| VBool (b : bool)
| VNum (n : num)
| VStr (s : string)
| VArr (l : list jsval)
| VObj (l : list (string * jsval))
| VForm.

Abbreviation js := (result jsval).
Abbreviation Throw := (@Err jsval _) (only parsing).

(** The induction principle that goes through arrays and objects. *)
Section Ind.
Variable P : jsval -> Prop.
Hypothesis Hundef : P VUndef.
Hypothesis Hnull : P VNull.
Hypothesis Hbool : forall b, P (VBool b).
Hypothesis Hnum : forall n, P (VNum n).
Hypothesis Hstr : forall s, P (VStr s).
Hypothesis Harr : forall l, Forall P l -> P (VArr l).
Hypothesis Hobj : forall l, Forall (fun kv => P kv.2) l -> P (VObj l).
Hypothesis Hform : P VForm.

Fixpoint jsval_nested_ind (v : jsval) : P v :=
  match v with
  | VUndef => Hundef | VNull => Hnull | VBool b => Hbool b | VNum n => Hnum n
  | VStr s => Hstr s | VForm => Hform
  | VArr l => Harr l ((fix go l := match l return Forall P l with
                        | [] => Forall_nil_2 _
                        | x :: l' => Forall_cons_2 _ _ _ (jsval_nested_ind x) (go l') end) l)
  | VObj l => Hobj l ((fix go l := match l return Forall (fun kv => P kv.2) l with
                        | [] => Forall_nil_2 _
                        | kv :: l' => Forall_cons_2 _ _ _ (jsval_nested_ind kv.2) (go l') end) l)
  end.
End Ind.

#[export] Instance jsval_eq_dec : EqDecision jsval.
Proof.
  refine (fix F (x y : jsval) : {x = y} + {x <> y} := _).
  refine (match x, y with
  | VUndef, VUndef | VNull, VNull | VForm, VForm => left eq_refl
  | VBool a, VBool b => cast_if (decide (a = b))
  | VNum a, VNum b => cast_if (decide (a = b))
  | VStr a, VStr b => cast_if (decide (a = b))
  | VArr a, VArr b => cast_if ((fix go (l k : list jsval) : {l = k} + {l <> k} :=
      match l, k with
      | [], [] => left eq_refl
      | u :: l', w :: k' => cast_if_and (F u w) (go l' k')
      | _, _ => right _ end) a b)
  | VObj a, VObj b => cast_if ((fix go (l k : list (string * jsval)) : {l = k} + {l <> k} :=
      match l, k with
      | [], [] => left eq_refl
      | (i, u) :: l', (j, w) :: k' => cast_if_and3 (decide (i = j)) (F u w) (go l' k')
      | _, _ => right _ end) a b)
  | _, _ => right _
  end); abstract congruence.
Defined.

(** ** Errors *)

Definition js_error (name msg : string) : jsval :=
  VObj [("name", VStr name); ("message", VStr msg)].
Definition TypeError : jsval := js_error "TypeError" "Cannot read properties of undefined".
Definition Error (msg : string) : jsval := js_error "Error" msg.
Definition SyntaxError : jsval := js_error "SyntaxError" "Unexpected token in JSON".

(** ** Conversions *)

(** [!!v] *)
Definition truthy (v : jsval) : bool :=
  match v with
  | VUndef | VNull => false
  | VBool b => b
  | VNum n => negb (is_nan n) && negb (num_eqb n (num_of_Z 0))
  | VStr s => negb (String.eqb s "")
  | VArr _ | VObj _ | VForm => true
  end.

Fixpoint join (sep : string) (l : list string) : string :=
  match l with
  | [] => ""
  | [x] => x
  | x :: l' => (x +:+ sep +:+ join sep l')%string
  end.

Fixpoint to_string (v : jsval) : string :=
  match v with
  | VUndef => "undefined"
  | VNull => "null"
  | VBool true => "true"
  | VBool false => "false"
  | VNum n => num_str n
  | VStr s => s
  | VArr l => join "," (map (fun x => match x with VUndef | VNull => "" | _ => to_string x end) l)
  | VObj _ => "[object Object]"
  | VForm => "[object FormData]"
  end.

(** White space and line terminators, as UTF-8. *)
Definition bytes (l : list nat) : string :=
  fold_right (fun n s => String (ascii_of_nat n) s) "" l.
Definition white_space : list string :=
  map bytes [[32]; [9]; [10]; [11]; [12]; [13]; [194; 160]; [239; 187; 191]; [225; 154; 128];
             [226; 128; 128]; [226; 128; 129]; [226; 128; 130]; [226; 128; 131]; [226; 128; 132];
             [226; 128; 133]; [226; 128; 134]; [226; 128; 135]; [226; 128; 136]; [226; 128; 137];
             [226; 128; 138]; [226; 128; 168]; [226; 128; 169]; [226; 128; 175]; [226; 129; 159];
             [227; 128; 128]]%nat.

Fixpoint skip_ws_fuel (fuel : nat) (s : string) : string :=
  match fuel with
  | O => s
  | S f =>
      match find (fun w => String.prefix w s) white_space with
      | Some w => skip_ws_fuel f (str_drop (String.length w) s)
      | None => s
      end
  end.
Definition skip_ws (s : string) : string := skip_ws_fuel (String.length s) s.

Definition read_sign (s : string) : bool * string :=
  match s with
  | String "-" r => (true, r)
  | String "+" r => (false, r)
  | _ => (false, s)
  end.

(** An exponent part, or 0 and the input when there is none. *)
Definition read_exponent (s : string) : Z * string :=
  match s with
  | String c r =>
      if Ascii.eqb c "e" || Ascii.eqb c "E" then
        let '(neg, r1) := read_sign r in
        let '(e, cnt, r2) := read_digits 0 0 r1 in
        if cnt =? 0 then (0, s) else (if neg then - e else e, r2)
      else (0, s)
  | EmptyString => (0, s)
  end.

(** The longest unsigned decimal literal at the start of [s]: its mantissa and
    decimal exponent, and the rest. *)
Definition read_unsigned (s : string) : option (Z * Z * string) :=
  let '(i, ci, r1) := read_digits 0 0 s in
  let '(m, cf, r2) :=
    match r1 with
    | String "." r =>
        let '(m, cf, r') := read_digits i 0 r in
        if ci + cf =? 0 then (i, 0, r1) else (m, cf, r')
    | _ => (i, 0, r1)
    end in
  if ci + cf =? 0 then None
  else let '(e, r3) := read_exponent r2 in Some (m, e - cf, r3).

Definition infinity_str : string := "Infinity".

(** StrDecimalLiteral, longest prefix. *)
Definition read_decimal (s : string) : option (num * string) :=
  let '(neg, r) := read_sign s in
  if String.prefix infinity_str r then Some (S754_infinity neg, str_drop 8 r)
  else match read_unsigned r with
       | Some (m, e, rest) => Some (num_of_decimal neg m e, rest)
       | None => None
       end.

(** [parseFloat] of a string. *)
Definition parse_float (s : string) : num :=
  match read_decimal (skip_ws s) with Some (n, _) => n | None => num_nan end.

(** Digits in base 2, 8 or 16. *)
Definition radix_val (base : Z) (c : ascii) : option Z :=
  let n := Z.of_N (N_of_ascii c) in
  let d := if (48 <=? n) && (n <=? 57) then Some (n - 48)
           else if (97 <=? n) && (n <=? 102) then Some (n - 87)
           else if (65 <=? n) && (n <=? 70) then Some (n - 55) else None in
  match d with Some d => if d <? base then Some d else None | None => None end.
Fixpoint read_radix (base acc cnt : Z) (s : string) : Z * Z * string :=
  match s with
  | String c s' =>
      match radix_val base c with
      | Some d => read_radix base (acc * base + d) (cnt + 1) s'
      | None => (acc, cnt, s)
      end
  | EmptyString => (acc, cnt, s)
  end.
Definition radix_prefix (s : string) : option (Z * string) :=
  match s with
  | String "0" (String c r) =>
      if Ascii.eqb c "x" || Ascii.eqb c "X" then Some (16, r)
      else if Ascii.eqb c "o" || Ascii.eqb c "O" then Some (8, r)
      else if Ascii.eqb c "b" || Ascii.eqb c "B" then Some (2, r)
      else None
  | _ => None
  end.

(** [Number(s)] of a string. *)
Definition string_number (s : string) : num :=
  let t := skip_ws s in
  if String.eqb t "" then num_of_Z 0
  else match radix_prefix t with
       | Some (base, r) =>
           let '(n, cnt, rest) := read_radix base 0 0 r in
           if (cnt =? 0) || negb (String.eqb (skip_ws rest) "") then num_nan else num_of_Z n
       | None =>
           match read_decimal t with
           | Some (n, rest) => if String.eqb (skip_ws rest) "" then n else num_nan
           | None => num_nan
           end
       end.

(** [parseInt(s)] of a string, radix 10 or a [0x] prefix. *)
Definition parse_int (s : string) : num :=
  let '(neg, r) := read_sign (skip_ws s) in
  let '(n, cnt, _) :=
    match radix_prefix r with
    | Some (16, r') => read_radix 16 0 0 r'
    | _ => read_digits 0 0 r
    end in
  if cnt =? 0 then num_nan
  else if (n =? 0) && neg then S754_zero true else num_of_Z (if neg then - n else n).

(** [Number(v)] *)
Definition to_number (v : jsval) : num :=
  match v with
  | VUndef => num_nan
  | VNull => num_of_Z 0
  | VBool b => num_of_Z (if b then 1 else 0)
  | VNum n => n
  | VStr s => string_number s
  | VArr _ | VObj _ | VForm => string_number (to_string v)
  end.

Definition to_primitive (v : jsval) : jsval :=
  match v with VArr _ | VObj _ | VForm => VStr (to_string v) | _ => v end.

(** ** Operators *)

(** [a + b] *)
Definition js_add (a b : jsval) : jsval :=
  match to_primitive a, to_primitive b with
  | VStr x, y => VStr (x +:+ to_string y)%string
  | x, VStr y => VStr (to_string x +:+ y)%string
  | x, y => VNum (num_add (to_number x) (to_number y))
  end.

(** [a - b] *)
Definition js_sub (a b : jsval) : jsval := VNum (num_sub (to_number a) (to_number b)).

(** [a < b] *)
Definition js_lt (a b : jsval) : bool :=
  match to_primitive a, to_primitive b with
  | VStr x, VStr y => String.ltb x y
  | x, y => num_ltb (to_number x) (to_number y)
  end.

(** [(a & b) > 0] *)
Definition has_bit (a : jsval) (flag : Z) : bool :=
  num_gtb (num_and (to_number a) (num_of_Z flag)) (num_of_Z 0).

(** [a === b] where one side is a primitive. *)
Definition strict_eq (a b : jsval) : bool :=
  match a, b with
  | VUndef, VUndef | VNull, VNull => true
  | VBool x, VBool y => Bool.eqb x y
  | VNum x, VNum y => num_eqb x y
  | VStr x, VStr y => String.eqb x y
  | _, _ => false
  end.

(** [a || b] *)
Definition js_or (a b : jsval) : jsval := if truthy a then a else b.

(** [v.k] *)
Definition get_prop (v : jsval) (k : string) : js jsval :=
  match v with
  | VUndef | VNull => Err TypeError
  | VObj l => Ok (default VUndef (assoc k l))
  | _ => Ok VUndef
  end.

(** [v.k = x], in strict mode. *)
Definition set_prop (v : jsval) (k : string) (x : jsval) : js jsval :=
  match v with
  | VObj l => Ok (VObj (assoc_set k x l))
  | VArr _ | VForm => Ok v
  | _ => Err TypeError
  end.

(** ** Integers as values *)

Definition VInt (z : Z) : jsval := VNum (num_of_Z z).

Lemma js_add_str_int t z : safe z -> js_add (VStr t) (VInt z) = VStr (t +:+ int_str z)%string.
Proof. intros H. cbn. by rewrite num_str_int. Qed.

Lemma js_add_int a b : safe a -> safe b -> safe (a + b) -> js_add (VInt a) (VInt b) = VInt (a + b).
Proof. intros. unfold js_add, VInt. cbn. by rewrite num_add_int. Qed.

Lemma js_sub_int a b : safe a -> safe b -> safe (a - b) -> js_sub (VInt a) (VInt b) = VInt (a - b).
Proof. intros. unfold js_sub, VInt. cbn. by rewrite num_sub_int. Qed.

Lemma js_lt_int a b : safe a -> safe b -> js_lt (VInt a) (VInt b) = (a <? b).
Proof. intros. unfold js_lt, VInt. cbn. by apply num_ltb_int. Qed.

Lemma js_incr_int a :
  safe a -> safe (a + 1) -> VNum (num_add (to_number (VInt a)) (num_of_Z 1)) = VInt (a + 1).
Proof. intros. unfold VInt. cbn [to_number]. rewrite num_add_int; [done | done | unfold safe; lia | done]. Qed.

Lemma strict_eq_int a b : safe a -> safe b -> strict_eq (VInt a) (VInt b) = (a =? b).
Proof. intros. cbn. by apply num_eqb_int. Qed.

Lemma truthy_int a : safe a -> truthy (VInt a) = negb (a =? 0).
Proof.
  intros H. unfold VInt. cbn [truthy]. rewrite num_eqb_int by (done || unfold safe; lia).
  destruct (decide (a = 0)) as [-> | Hz]; [done |]. by rewrite num_of_Z_form.
Qed.

(** A flag test on a status word below 2^31. *)
Lemma has_bit_int s f :
  0 <= s < 2 ^ 31 -> 0 <= f < 2 ^ 31 -> has_bit (VInt s) f = negb (Z.land s f =? 0).
Proof.
  intros Hs Hf. unfold has_bit, VInt. cbn [to_number]. rewrite num_and_int by done.
  assert (0 <= Z.land s f <= f) as [Hl Hu].
  { rewrite <- (Z2N.id s), <- (Z2N.id f) at 1 2 by lia. rewrite <- N2Z.inj_land.
    split; [lia |]. rewrite <- (Z2N.id f) at 2 by lia. apply N2Z.inj_le, N.land_le_r. }
  unfold num_gtb. change SFltb with num_ltb. rewrite num_ltb_int by (unfold safe; lia).
  destruct (Z.ltb_spec 0 (Z.land s f)), (Z.eqb_spec (Z.land s f) 0); try lia; done.
Qed.

(** A flag is one bit. *)
Lemma flag_testbit s n : 0 <= n -> negb (Z.land s (Z.shiftl 1 n) =? 0) = Z.testbit s n.
Proof.
  intros Hn. assert (forall m, Z.testbit (Z.land s (Z.shiftl 1 n)) m = Z.testbit s n && (m =? n)) as Hb.
  { intros m. rewrite Z.land_spec. destruct (Z.ltb_spec m 0).
    - rewrite !(Z.testbit_neg_r _ m) by done. destruct (Z.eqb_spec m n); [lia |]. by rewrite !andb_false_r.
    - rewrite Z.shiftl_spec by done. destruct (Z.eqb_spec m n) as [-> | Hne].
      + by rewrite Z.sub_diag.
      + rewrite andb_false_r. destruct (Z.ltb_spec (m - n) 0); [by rewrite (Z.testbit_neg_r 1), andb_false_r |].
        change 1 with (2 ^ 0). rewrite Z.pow2_bits_false, andb_false_r; [done | lia]. }
  destruct (Z.testbit s n) eqn:E.
  - destruct (Z.eqb_spec (Z.land s (Z.shiftl 1 n)) 0) as [H0 |]; [| done].
    specialize (Hb n). rewrite H0, Z.bits_0, Z.eqb_refl in Hb. done.
  - replace (Z.land s (Z.shiftl 1 n)) with 0; [done |]. symmetry. by apply Z.bits_inj_0.
Qed.

(** ** [parseInt] reads back what [toString] writes *)

Lemma skip_ws_digit c s : is_digit c = true -> skip_ws (String c s) = String c s.
Proof.
  intros Hc. unfold skip_ws. cbn [String.length skip_ws_fuel].
  replace (find _ white_space) with (@None string); [done |]. symmetry.
  destruct c as [[] [] [] [] [] [] [] []]; try discriminate Hc; by destruct s.
Qed.

Lemma read_sign_digit c s : is_digit c = true -> read_sign (String c s) = (false, String c s).
Proof. intros Hc. destruct c as [[] [] [] [] [] [] [] []]; try discriminate Hc; done. Qed.

Lemma radix_digits s n k r :
  read_digits 0 0 s = (n, k, "") -> radix_prefix s <> Some (16, r).
Proof.
  intros E H. destruct s as [|c [|x s]]; [done | by destruct c as [[] [] [] [] [] [] [] []] |].
  destruct (Ascii.eqb_spec c "0") as [-> | Hc].
  - cbn in H. destruct (Ascii.eqb_spec x "x") as [-> | Hx]; [done |].
    destruct (Ascii.eqb_spec x "X") as [-> | HX]; [done |]. cbn in H. by repeat case_match.
  - destruct c as [[] [] [] [] [] [] [] []]; try done.
Qed.

Lemma parse_int_nat n : 0 <= n -> parse_int (nat_str n) = num_of_Z n.
Proof.
  intros Hn. destruct (read_digits_nat_str n "" Hn I) as (k & Hk & E). rewrite string_app_nil_r in E.
  destruct (nat_str_head n Hn) as (c & s & Es & Hc). unfold parse_int.
  rewrite Es in *. rewrite skip_ws_digit, read_sign_digit by done.
  pose proof (radix_digits _ _ _ (match radix_prefix (String c s) with Some (_, r) => r | None => "" end) E) as Hr.
  replace (match radix_prefix (String c s) with Some (16, r') => _ | _ => _ end) with (n, k, "").
  - destruct (Z.eqb_spec k 0); [lia |]. by rewrite andb_false_r.
  - rewrite <- E. destruct (radix_prefix (String c s)) as [[b r]|]; [| done].
    destruct b as [|p|p]; try done. do 5 (destruct p as [p|p|]; try done).
Qed.
