(* ===== verification/Json.v ===== *)
(** * JSON.stringify and JSON.parse

    The request interceptor of plugins/axios.js serialises every body with
    [JSON.stringify] before encrypting it, the response interceptor decides
    with [JSON.parse] whether a decryption key was the right one.  Both
    functions of the language are defined here, and reading back what was
    written is proved for the data the dashboard sends. *)

From S2P Require Import Prelude JsNum JsValue.
From Stdlib Require Import Floats.SpecFloat.
Local Open Scope Z_scope.

Definition quote : ascii := "034"%char.
Definition backslash : ascii := "092"%char.
Definition code (c : ascii) : Z := Z.of_N (N_of_ascii c).
Definition chr (z : Z) : ascii := ascii_of_N (Z.to_N z).

(** ** Writing *)

Definition hex_digit (d : Z) : ascii := if d <? 10 then chr (48 + d) else chr (87 + d).

(** The escape sequence of a character, when it needs one. *)
Definition escape (c : ascii) : string :=
  let n := code c in
  if n =? 34 then String backslash (String quote "")
  else if n =? 92 then String backslash (String backslash "")
  else if n =? 8 then String backslash "b"
  else if n =? 9 then String backslash "t"
  else if n =? 10 then String backslash "n"
  else if n =? 12 then String backslash "f"
  else if n =? 13 then String backslash "r"
  else if n <? 32 then
    String backslash ("u00" +:+ String (hex_digit (n / 16)) (String (hex_digit (n mod 16)) ""))%string
  else String c "".

Fixpoint escape_str (s : string) : string :=
  match s with
  | EmptyString => EmptyString
  | String c s' => (escape c +:+ escape_str s')%string
  end.

Definition quoted (s : string) : string := String quote (escape_str s +:+ String quote "")%string.

(** [JSON.stringify(v)]; [None] stands for the result [undefined]. *)
Fixpoint stringify (v : jsval) : option string :=
  match v with
  | VUndef => None
  | VNull => Some "null"
  | VBool true => Some "true"
  | VBool false => Some "false"
  | VNum n => Some (match n with S754_nan | S754_infinity _ => "null" | _ => num_str n end)
  | VStr s => Some (quoted s)
  | VArr l =>
      Some ("[" +:+ join "," (map (fun x => default "null" (stringify x)) l) +:+ "]")%string
  | VObj l =>
      Some ("{" +:+
            join "," ((fix members l := match l with
                       | [] => []
                       | (k, x) :: l' =>
                           match stringify x with
                           | Some t => (quoted k +:+ ":" +:+ t)%string :: members l'
                           | None => members l'
                           end
                       end) l) +:+ "}")%string
  | VForm => Some "{}"
  end.

(** ** Reading *)

Definition json_ws (c : ascii) : bool :=
  let n := code c in (n =? 32) || (n =? 9) || (n =? 10) || (n =? 13).
Fixpoint skip_json_ws (s : string) : string :=
  match s with
  | String c s' => if json_ws c then skip_json_ws s' else s
  | EmptyString => s
  end.

(** The UTF-8 encoding of a code point. *)
Definition utf8 (n : Z) : string :=
  if n <? 128 then String (chr n) ""
  else if n <? 2048 then String (chr (192 + n / 64)) (String (chr (128 + n mod 64)) "")
  else if n <? 65536 then
    String (chr (224 + n / 4096)) (String (chr (128 + n / 64 mod 64)) (String (chr (128 + n mod 64)) ""))
  else
    String (chr (240 + n / 262144)) (String (chr (128 + n / 4096 mod 64))
      (String (chr (128 + n / 64 mod 64)) (String (chr (128 + n mod 64)) ""))).

Definition hex4 (a b c d : ascii) : option Z :=
  match radix_val 16 a, radix_val 16 b, radix_val 16 c, radix_val 16 d with
  | Some a, Some b, Some c, Some d => Some (4096 * a + 256 * b + 16 * c + d)
  | _, _, _, _ => None
  end.

(** The character a one-letter escape stands for. *)
Definition simple_escape (c : ascii) : option ascii :=
  let n := code c in
  if n =? 34 then Some c else if n =? 92 then Some c else if n =? 47 then Some c
  else if n =? 98 then Some (chr 8) else if n =? 116 then Some (chr 9)
  else if n =? 110 then Some (chr 10) else if n =? 102 then Some (chr 12)
  else if n =? 114 then Some (chr 13) else None.

(** The rest of a string literal after its opening quote. *)
Fixpoint read_string (s : string) : option (string * string) :=
  match s with
  | EmptyString => None
  | String c r =>
      if code c =? 34 then Some (EmptyString, r)
      else if code c =? 92 then
        match r with
        | EmptyString => None
        | String e r1 =>
            match simple_escape e with
            | Some x => '(t, rest) ← read_string r1; Some (String x t, rest)
            | None =>
                if code e =? 117 then
                  match r1 with
                  | String h1 (String h2 (String h3 (String h4 r5))) =>
                      match hex4 h1 h2 h3 h4 with
                      | None => None
                      | Some u =>
                          let single := '(t, rest) ← read_string r5; Some ((utf8 u +:+ t)%string, rest) in
                          match r5 with
                          | String b (String v (String g1 (String g2 (String g3 (String g4 r11))))) =>
                              match hex4 g1 g2 g3 g4 with
                              | Some w =>
                                  if (code b =? 92) && (code v =? 117) && (55296 <=? u) && (u <? 56320)
                                     && (56320 <=? w) && (w <? 57344)
                                  then '(t, rest) ← read_string r11;
                                       Some ((utf8 (65536 + (u - 55296) * 1024 + (w - 56320)) +:+ t)%string, rest)
                                  else single
                              | None => single
                              end
                          | _ => single
                          end
                      end
                  | _ => None
                  end
                else None
            end
        end
      else if code c <? 32 then None
      else '(t, rest) ← read_string r; Some (String c t, rest)
  end.

(** A JSON number: no leading zeros, no bare point, no sign but [-]. *)
Definition read_frac (m : Z) (s : string) : option (Z * Z * string) :=
  match s with
  | String c r =>
      if code c =? 46 then
        let '(m', cf, r') := read_digits m 0 r in if cf =? 0 then None else Some (m', cf, r')
      else Some (m, 0, s)
  | EmptyString => Some (m, 0, s)
  end.
Definition read_exp (s : string) : option (Z * string) :=
  match s with
  | String c r =>
      if (code c =? 101) || (code c =? 69) then
        let '(neg, r1) := read_sign r in
        let '(e, cnt, r2) := read_digits 0 0 r1 in
        if cnt =? 0 then None else Some (if neg then - e else e, r2)
      else Some (0, s)
  | EmptyString => Some (0, s)
  end.
Definition read_json_number (s : string) : option (num * string) :=
  let '(neg, r) := match s with
                   | String c r => if code c =? 45 then (true, r) else (false, s)
                   | EmptyString => (false, s) end in
  let '(i, ci, r1) := match r with
                      | String c r' => if code c =? 48 then (0, 1, r') else read_digits 0 0 r
                      | EmptyString => (0, 0, r) end in
  if ci =? 0 then None
  else '(m, cf, r2) ← read_frac i r1;
       '(e, r3) ← read_exp r2;
       Some (num_of_decimal neg m (e - cf), r3).

(** The rest after the character of code [n], white space skipped. *)
Definition expect (n : Z) (s : string) : option string :=
  match skip_json_ws s with
  | String c r => if code c =? n then Some r else None
  | EmptyString => None
  end.

Definition literal (w : string) (v : jsval) (s : string) : option (jsval * string) :=
  if String.prefix w s then Some (v, str_drop (String.length w) s) else None.

Fixpoint read_value (fuel : nat) (s0 : string) : option (jsval * string) :=
  match fuel with
  | O => None
  | S f =>
      let s := skip_json_ws s0 in
      match s with
      | EmptyString => None
      | String c r =>
          if code c =? 34 then '(t, rest) ← read_string r; Some (VStr t, rest)
          else if code c =? 123 then
            match expect 125 r with
            | Some r' => Some (VObj [], r')
            | None => '(l, rest) ← read_members f r []; Some (VObj l, rest)
            end
          else if code c =? 91 then
            match expect 93 r with
            | Some r' => Some (VArr [], r')
            | None => '(l, rest) ← read_elements f r; Some (VArr l, rest)
            end
          else if code c =? 116 then literal "true" (VBool true) s
          else if code c =? 102 then literal "false" (VBool false) s
          else if code c =? 110 then literal "null" VNull s
          else '(n, rest) ← read_json_number s; Some (VNum n, rest)
      end
  end
with read_members (fuel : nat) (s0 : string) (acc : list (string * jsval))
    : option (list (string * jsval) * string) :=
  match fuel with
  | O => None
  | S f =>
      r ← expect 34 s0;
      '(k, r1) ← read_string r;
      r2 ← expect 58 r1;
      '(v, r3) ← read_value f r2;
      let acc' := assoc_set k v acc in
      match expect 44 r3 with
      | Some r4 => read_members f r4 acc'
      | None => r4 ← expect 125 r3; Some (acc', r4)
      end
  end
with read_elements (fuel : nat) (s0 : string) : option (list jsval * string) :=
  match fuel with
  | O => None
  | S f =>
      '(v, r) ← read_value f s0;
      match expect 44 r with
      | Some r1 => '(l, rest) ← read_elements f r1; Some (v :: l, rest)
      | None => r1 ← expect 93 r; Some ([v], r1)
      end
  end.

(** [JSON.parse(s)] *)
Definition parse (s : string) : js jsval :=
  match read_value (S (String.length s)) s with
  | Some (v, rest) => if String.eqb (skip_json_ws rest) "" then Ok v else Err SyntaxError
  | None => Err SyntaxError
  end.

(** * Reading back what was written *)

Lemma code_chr n : 0 <= n < 256 -> code (chr n) = n.
Proof. intros. unfold code, chr. rewrite N_ascii_embedding by lia. lia. Qed.

Lemma chr_code c : chr (code c) = c.
Proof. unfold code, chr. rewrite N2Z.id. apply ascii_N_embedding. Qed.

Lemma code_range c : 0 <= code c < 256.
Proof. unfold code. pose proof (N_ascii_bounded c). lia. Qed.

Lemma code_eq c n : code c = n -> c = chr n.
Proof. intros <-. by rewrite chr_code. Qed.

(** ** Strings *)

(** A [\u] escape below the surrogates is read on its own. *)
Lemma read_u_escape h1 h2 h3 h4 u r :
  hex4 h1 h2 h3 h4 = Some u -> u < 55296 ->
  read_string (String backslash (String "u" (String h1 (String h2 (String h3 (String h4 r))))))
  = '(t, rest) ← read_string r; Some ((utf8 u +:+ t)%string, rest).
Proof.
  intros Hh Hu. assert ((55296 <=? u) = false) as E by lia.
  cbn [read_string]. change (code backslash =? 34) with false.
  change (code backslash =? 92) with true. change (simple_escape "u") with (@None ascii).
  change (code "u" =? 117) with true. cbv iota. rewrite Hh. clear Hh.
  do 6 (destruct r as [|? r]; [done |]).
  destruct (hex4 _ _ _ _); [| done]. by rewrite E, !andb_false_r.
Qed.

Lemma read_escape c t :
  read_string (escape c +:+ t)%string = '(x, rest) ← read_string t; Some (String c x, rest).
Proof.
  unfold escape. pose proof (code_range c).
  repeat match goal with
  | |- context [code c =? ?k] =>
      destruct (Z.eqb_spec (code c) k) as [E |]; [apply code_eq in E; subst c; reflexivity |]
  end.
  destruct (Z.ltb_spec (code c) 32) as [Hlt | Hge].
  - assert (hex4 "0" "0" (hex_digit (code c / 16)) (hex_digit (code c mod 16)) = Some (code c)
            /\ utf8 (code c) = String c "") as [Eh Eu].
    { assert (Forall (fun n => hex4 "0" "0" (hex_digit (n / 16)) (hex_digit (n mod 16)) = Some n
                /\ utf8 n = String (chr n) "") (seqZ 0 32)) as F
        by (repeat constructor).
      rewrite Forall_forall in F. specialize (F (code c)). rewrite chr_code in *.
      apply F. apply list_elem_of_In, elem_of_seqZ. lia. }
    str_simpl. rewrite (read_u_escape _ _ _ _ _ _ Eh) by lia.
    rewrite Eu. destruct (read_string t) as [[x rest] |]; done.
  - rewrite string_app_cons, string_app_empty. cbn [read_string].
    destruct (Z.eqb_spec (code c) 34), (Z.eqb_spec (code c) 92), (Z.ltb_spec (code c) 32); try lia; done.
Qed.

Lemma read_string_escaped s rest :
  read_string (escape_str s +:+ String quote rest)%string = Some (s, rest).
Proof.
  induction s as [|c s IH]; [done |]. cbn [escape_str].
  by rewrite <- string_app_assoc, read_escape, IH.
Qed.

Lemma read_string_quoted s rest :
  (quoted s +:+ rest)%string = String quote (escape_str s +:+ String quote rest)%string.
Proof. unfold quoted. by rewrite string_app_cons, <- string_app_assoc. Qed.

(** ** Numbers *)

Definition num_delim (s : string) : Prop :=
  match s with
  | EmptyString => True
  | String c _ => digit_val c = None /\ code c <> 46 /\ code c <> 101 /\ code c <> 69
  end.

Lemma dec_len_bound f n : 0 <= dec_len f n <= Z.of_nat f.
Proof.
  revert n. induction f as [|f IH]; intros n; cbn [dec_len]; [lia |].
  destruct (n <? 10); [lia |]. specialize (IH (n / 10)). lia.
Qed.

Lemma num_of_decimal_int z : safe z -> num_of_decimal (z <? 0) (Z.abs z) 0 = num_of_Z z.
Proof.
  intros Hs. unfold num_of_decimal.
  destruct (Z.eqb_spec (Z.abs z) 0) as [E | E]; [by assert (z = 0) as -> by lia |].
  assert (0 <= dec_digits (Z.abs z) <= 54).
  { unfold dec_digits. pose proof (dec_len_bound (Z.to_nat (Z.log2 (Z.abs z)) + 1) (Z.abs z)).
    pose proof (log2_safe (Z.abs z) ltac:(unfold safe in *; lia)). lia. }
  destruct (Z.ltb_spec 400 (dec_digits (Z.abs z) + 0)); [lia |].
  destruct (Z.ltb_spec (dec_digits (Z.abs z) + 0) (-400)); [lia |].
  cbn [Z.leb Z.compare]. rewrite Z.pow_0_r, Z.mul_1_r. unfold num_of_Z.
  destruct (Z.ltb_spec z 0).
  - replace (-1 * Z.abs z) with z by lia. destruct z; done || lia.
  - replace (1 * Z.abs z) with z by lia. destruct z; done || lia.
Qed.

Lemma nat_str_zero : nat_str 0 = "0".
Proof. reflexivity. Qed.

(** The first digit of a positive integer is not zero. *)
Lemma digits_go_head f n acc :
  0 < n < 10 ^ Z.of_nat f -> exists d s, digits_go f n acc = String (digit_char d) s /\ 1 <= d <= 9.
Proof.
  revert n acc. induction f as [|f IH]; intros n acc Hn; [cbn in Hn; lia |].
  cbn [digits_go]. destruct (Z.ltb_spec n 10).
  - exists n. rewrite Z.mod_small by lia. eexists. split; [done | lia].
  - apply IH. rewrite Nat2Z.inj_succ, Z.pow_succ_r in Hn by lia.
    split; [apply Z.div_str_pos; lia | apply Z.div_lt_upper_bound; lia].
Qed.

Lemma code_digit d : 0 <= d < 10 -> code (digit_char d) = 48 + d.
Proof. intros. unfold code, digit_char. rewrite N_ascii_embedding by lia. lia. Qed.

Lemma read_tail m rest :
  num_delim rest -> read_frac m rest = Some (m, 0, rest) /\ read_exp rest = Some (0, rest).
Proof.
  destruct rest as [|c r]; [done |]. intros (_ & H1 & H2 & H3). cbn.
  destruct (Z.eqb_spec (code c) 46), (Z.eqb_spec (code c) 101), (Z.eqb_spec (code c) 69); done.
Qed.

Lemma read_nat_str n rest :
  0 <= n -> num_delim rest ->
  exists ci, 0 < ci /\
  match (nat_str n +:+ rest)%string with
  | String c r' => if code c =? 48 then (0, 1, r') else read_digits 0 0 (nat_str n +:+ rest)%string
  | EmptyString => (0, 0, (nat_str n +:+ rest)%string)
  end = (n, ci, rest).
Proof.
  intros Hn Hd. destruct (decide (n = 0)) as [-> | Hz]; [by exists 1 |].
  destruct (digits_go_head (Z.to_nat (Z.log2 n) + 1) n "") as (d & s & E & Hd').
  { split; [lia |]. apply log2_fuel. lia. }
  destruct (read_digits_nat_str n rest Hn) as (k & Hk & Er).
  { destruct rest; [done |]. by destruct Hd. }
  exists k. split; [done |]. fold (nat_str n) in E.
  rewrite Er. rewrite E, string_app_cons, code_digit by lia.
  destruct (Z.eqb_spec (48 + d) 48); [lia | done].
Qed.

Lemma read_int_str z rest :
  safe z -> num_delim rest ->
  read_json_number (int_str z +:+ rest)%string = Some (num_of_Z z, rest).
Proof.
  intros Hs Hd. rewrite <- num_of_decimal_int by done.
  destruct (read_nat_str (Z.abs z) rest ltac:(lia) Hd) as (ci & Hci & E).
  destruct (read_tail (Z.abs z) rest Hd) as [Ef Ee].
  unfold read_json_number, int_str. destruct (Z.ltb_spec z 0).
  - rewrite Z.abs_neq in * by lia. rewrite string_app_cons.
    replace (code "-" =? 45) with true by done.
    rewrite E. destruct (Z.eqb_spec ci 0); [lia |]. by rewrite Ef; cbn; rewrite Ee.
  - rewrite Z.abs_eq in * by lia.
    destruct (nat_str_head z ltac:(lia)) as (c & s & Ec & Hc).
    assert (code c <> 45).
    { intros ->%code_eq. by vm_compute in Hc. }
    rewrite Ec in *. rewrite string_app_cons in *.
    destruct (Z.eqb_spec (code c) 45); [done |].
    rewrite E. destruct (Z.eqb_spec ci 0); [lia |]. by rewrite Ef; cbn; rewrite Ee.
Qed.

(** ** Values *)

(** The data that survives: no [undefined], integer numbers below 2^53,
    objects with distinct keys. *)
Definition int_num (n : num) : bool :=
  match num_integer n with
  | Some z => (Z.abs z <? 2 ^ 53) && bool_decide (n = num_of_Z z)
  | None => false
  end.

Fixpoint jsonable (v : jsval) : bool :=
  match v with
  | VUndef | VForm => false
  | VNull | VBool _ | VStr _ => true
  | VNum n => int_num n
  | VArr l => forallb jsonable l
  | VObj l => bool_decide (NoDup (map fst l)) && forallb (fun kv => jsonable kv.2) l
  end.

Lemma int_num_inv n : int_num n = true -> exists z, safe z /\ n = num_of_Z z.
Proof.
  unfold int_num. destruct (num_integer n) as [z|]; [| done].
  intros [Hz Hn%bool_decide_eq_true]%andb_true_iff. exists z. unfold safe. split; [lia | done].
Qed.

Lemma int_num_of_Z z : safe z -> int_num (num_of_Z z) = true.
Proof.
  intros Hs. unfold int_num. rewrite num_integer_int by done.
  rewrite bool_decide_eq_true_2, andb_true_r by done. unfold safe in *. lia.
Qed.

Definition starts_ok (t : string) : Prop :=
  exists c r, t = String c r /\ json_ws c = false /\ code c <> 93 /\ code c <> 125.

Definition reads_back (v : jsval) : Prop :=
  exists t, stringify v = Some t /\ starts_ok t /\
  forall fuel rest, (String.length t <= fuel)%nat -> num_delim rest ->
    read_value fuel (t +:+ rest)%string = Some (v, rest).

Lemma skip_ws_ok c r : json_ws c = false -> skip_json_ws (String c r) = String c r.
Proof. intros H. cbn. by rewrite H. Qed.

Lemma expect_hit c r : json_ws c = false -> expect (code c) (String c r) = Some r.
Proof. intros H. unfold expect. rewrite skip_ws_ok by done. by rewrite Z.eqb_refl. Qed.

Lemma expect_miss n c r : json_ws c = false -> code c <> n -> expect n (String c r) = None.
Proof.
  intros H Hn. unfold expect. rewrite skip_ws_ok by done. by apply Z.eqb_neq in Hn as ->.
Qed.

Lemma expect_start n t r : starts_ok t -> (n = 93 \/ n = 125) -> expect n (t +:+ r)%string = None.
Proof.
  intros (c & s & -> & H & H1 & H2) Hn. rewrite string_app_cons.
  apply expect_miss; [done | lia].
Qed.

Lemma starts_quoted s : starts_ok (quoted s).
Proof. unfold quoted. by eexists _, _. Qed.

Lemma delim_comma r : num_delim (String "," r).  Proof. done. Qed.
Lemma delim_bracket r : num_delim (String "]" r). Proof. done. Qed.
Lemma delim_brace r : num_delim (String "}" r). Proof. done. Qed.
#[local] Hint Resolve delim_comma delim_bracket delim_brace starts_quoted : nkn.

(** [read_value] at a number, the first character being a digit or a sign. *)
Lemma starts_int z : exists c r, int_str z = String c r /\ (code c = 45 \/ 48 <= code c <= 57).
Proof.
  assert (forall n, 0 <= n -> exists c r, nat_str n = String c r /\ 48 <= code c <= 57) as G.
  { intros n Hn. destruct (nat_str_head n Hn) as (c & s & -> & Hc). exists c, s. split; [done |].
    unfold is_digit, digit_val in Hc. fold (code c) in Hc.
    destruct (Z.leb_spec 48 (code c)), (Z.leb_spec (code c) 57); try done; lia. }
  unfold int_str. destruct (Z.ltb_spec z 0).
  - exists "-"%char, (nat_str (- z)). split; [done | by left].
  - destruct (G z ltac:(lia)) as (c & r & -> & Hc). exists c, r. split; [done | by right].
Qed.

Lemma reads_back_num z : safe z -> reads_back (VNum (num_of_Z z)).
Proof.
  intros Hs. destruct (starts_int z) as (c & r & Ec & Hc).
  assert (json_ws c = false) as Hw.
  { unfold json_ws. cbv zeta. rewrite !orb_false_iff, !Z.eqb_neq. lia. }
  exists (int_str z). split_and!.
  - cbn [stringify]. f_equal. rewrite <- num_str_int by done.
    destruct (decide (z = 0)) as [-> | Hz]; [done |]. by rewrite num_of_Z_form.
  - exists c, r. split_and!; [done | done | lia | lia].
  - intros [|f] rest Hf Hd; [rewrite Ec in Hf; cbn in Hf; lia |].
    cbn [read_value]. rewrite Ec, string_app_cons, skip_ws_ok by done.
    repeat match goal with
    | |- context [code c =? ?k] => destruct (Z.eqb_spec (code c) k); [lia |]
    end.
    rewrite <- string_app_cons, <- Ec, read_int_str by done. done.
Qed.

Lemma reads_back_str s : reads_back (VStr s).
Proof.
  exists (quoted s). split_and!; [done | auto with nkn |].
  intros [|f] rest Hf Hd; [unfold quoted in Hf; cbn in Hf; lia |].
  cbn [read_value]. rewrite read_string_quoted, skip_ws_ok by done.
  change (code quote =? 34) with true. cbv iota. by rewrite read_string_escaped.
Qed.

Lemma join_cons (x y : string) l :
  join "," (x :: y :: l) = (x +:+ String "," (join "," (y :: l)))%string.
Proof. reflexivity. Qed.

Definition elem_text (x : jsval) : string := default "null" (stringify x).

Lemma read_elements_back x l :
  Forall reads_back (x :: l) -> forall fuel rest,
  (String.length (join "," (map elem_text (x :: l))) < fuel)%nat ->
  read_elements fuel (join "," (map elem_text (x :: l)) +:+ String "]" rest)%string
  = Some (x :: l, rest).
Proof.
  revert x. induction l as [|y l IH]; intros x HF [|f] rest Hf; try lia;
    apply Forall_cons_iff in HF as [(t & Et & Ht & Hr) HF]; cbn [map read_elements] in *;
    unfold elem_text at 1; unfold elem_text at 1 in Hf; rewrite Et in *; cbn [default from_option id] in *.
  - cbn [join] in *. rewrite Hr by (lia || auto with nkn). done.
  - rewrite join_cons in *. rewrite string_length_app in Hf. cbn [String.length] in Hf.
    rewrite <- string_app_assoc, string_app_cons.
    rewrite Hr by (lia || auto with nkn). cbn [mbind option_bind].
    change (expect 44 (String "," ?r)) with (Some r). cbv iota beta.
    rewrite IH; [done | done | lia].
Qed.

Fixpoint members_text (l : list (string * jsval)) : list string :=
  match l with
  | [] => []
  | (k, x) :: l' =>
      match stringify x with
      | Some t => (quoted k +:+ ":" +:+ t)%string :: members_text l'
      | None => members_text l'
      end
  end.

Lemma assoc_set_fresh {V} k (v : V) l :
  ~ In k (map fst l) -> assoc_set k v l = l ++ [(k, v)].
Proof.
  induction l as [|[k' v'] l IH]; cbn; [done |]. intros Hk.
  destruct (String.eqb_spec k k'); [subst; tauto |]. rewrite IH by tauto. done.
Qed.

Lemma member_text_app k t r :
  ((quoted k +:+ ":" +:+ t) +:+ r)%string
  = String quote (escape_str k +:+ String quote (String ":" (t +:+ r)))%string.
Proof.
  by rewrite <- string_app_assoc, read_string_quoted.
Qed.

Lemma read_members_back k x l :
  Forall (fun kv => reads_back kv.2) ((k, x) :: l) -> forall fuel rest acc,
  NoDup (map fst (acc ++ (k, x) :: l)) ->
  (String.length (join "," (members_text ((k, x) :: l))) < fuel)%nat ->
  read_members fuel (join "," (members_text ((k, x) :: l)) +:+ String "}" rest)%string acc
  = Some (acc ++ (k, x) :: l, rest).
Proof.
  revert k x. induction l as [|[j y] l IH]; intros k x HF [|f] rest acc Hnd Hf; try lia;
    apply Forall_cons_iff in HF as [(t & Et & Ht & Hr) HF]; cbn [snd] in *;
    assert (~ In k (map fst acc)) as Hk
      by (rewrite map_app in Hnd; apply list.NoDup_app in Hnd as (_ & Hn & _);
          intros Hin; apply list_elem_of_In in Hin; apply (Hn _ Hin); cbn; left);
    cbn [members_text read_members] in *; rewrite Et in *.
  - cbn [join] in *. rewrite member_text_app. change (expect 34 (String quote ?r)) with (Some r). cbn [mbind option_bind].
    rewrite read_string_escaped. cbn [mbind option_bind].
    change (expect 58 (String ":" ?r)) with (Some r). cbn [mbind option_bind].
    rewrite Hr; [| rewrite !string_length_app in Hf; cbn in Hf; lia | auto with nkn].
    cbn [mbind option_bind]. by rewrite assoc_set_fresh.
  - apply Forall_cons_iff in HF as HF'. destruct HF' as [(u & Eu & _) _]. cbn [snd] in Eu.
    rewrite Eu in *. rewrite join_cons in *.
    rewrite string_length_app in Hf. cbn [String.length] in Hf.
    rewrite <- string_app_assoc, (string_app_cons ","), member_text_app. change (expect 34 (String quote ?r)) with (Some r).
    cbn [mbind option_bind]. rewrite read_string_escaped. cbn [mbind option_bind].
    change (expect 58 (String ":" ?r)) with (Some r). cbn [mbind option_bind].
    rewrite Hr; [| rewrite !string_length_app in Hf; cbn in Hf; lia | auto with nkn].
    cbn [mbind option_bind]. change (expect 44 (String "," ?r)) with (Some r). cbv iota beta zeta.
    specialize (IH j y HF f rest (assoc_set k x acc)). rewrite Eu in IH.
    rewrite assoc_set_fresh in * by done. rewrite <- app_assoc in IH. apply IH; [done | lia].
Qed.

Lemma starts_app x r : starts_ok x -> starts_ok (x +:+ r)%string.
Proof. intros (c & s & -> & H). rewrite string_app_cons. by eexists _, _. Qed.

Lemma literal_app w v r : literal w v (w +:+ r)%string = Some (v, r).
Proof. unfold literal. by rewrite prefix_app, str_drop_app. Qed.

Lemma reads_back_null : reads_back VNull.
Proof.
  exists "null". split_and!; [done | by eexists _, _ |].
  intros [|f] rest Hf Hd; [cbn in Hf; lia |]. exact (literal_app "null" _ rest).
Qed.

Lemma reads_back_bool b : reads_back (VBool b).
Proof.
  exists (if b then "true" else "false"). split_and!; [by destruct b | by destruct b; eexists _, _ |].
  intros [|f] rest Hf Hd; destruct b; try (cbn in Hf; lia).
  - exact (literal_app "true" _ rest).
  - exact (literal_app "false" _ rest).
Qed.

Lemma reads_back_arr l : Forall reads_back l -> reads_back (VArr l).
Proof.
  intros HF. exists ("[" +:+ join "," (map elem_text l) +:+ "]")%string.
  split_and!; [done | by eexists _, _ |]. intros fuel rest Hf Hd.
  rewrite !string_length_app in Hf. cbn [String.length] in Hf. destruct fuel as [|f]; [lia |].
  cbn [read_value]. rewrite <- string_app_assoc. str_simpl. rewrite <- string_app_assoc. str_simpl.
  rewrite skip_ws_ok by done. change (code "[" =? ?k) with (91 =? k). cbn [Z.eqb Pos.eqb].
  destruct l as [|x l]; [done |].
  rewrite expect_start; [| | by left].
  - rewrite read_elements_back by (done || lia). done.
  - apply Forall_cons_iff in HF as [(t & Et & Ht & _) _].
    cbn [map]. unfold elem_text at 1. rewrite Et. cbn [default from_option id].
    destruct (map elem_text l); [done |]. rewrite join_cons. by apply starts_app.
Qed.

Lemma reads_back_obj l :
  NoDup (map fst l) -> Forall (fun kv => reads_back kv.2) l -> reads_back (VObj l).
Proof.
  intros Hnd HF. exists ("{" +:+ join "," (members_text l) +:+ "}")%string.
  split_and!; [done | by eexists _, _ |]. intros fuel rest Hf Hd.
  rewrite !string_length_app in Hf. cbn [String.length] in Hf. destruct fuel as [|f]; [lia |].
  cbn [read_value]. rewrite <- string_app_assoc. str_simpl. rewrite <- string_app_assoc. str_simpl.
  rewrite skip_ws_ok by done. change (code "{" =? ?k) with (123 =? k). cbn [Z.eqb Pos.eqb].
  destruct l as [|[k x] l]; [done |].
  rewrite expect_start; [| | by right].
  - rewrite read_members_back by (done || lia). done.
  - apply Forall_cons_iff in HF as [(t & Et & _) _]. cbn [snd] in Et. cbn [members_text]. rewrite Et.
    destruct (members_text l); [| rewrite join_cons; apply starts_app];
      apply starts_app, starts_quoted.
Qed.

#[local] Hint Resolve reads_back_null reads_back_bool reads_back_str reads_back_num
  reads_back_arr reads_back_obj : nkn.

Lemma jsonable_reads_back v : jsonable v = true -> reads_back v.
Proof.
  induction v as [| |b|n|s|l IH|l IH|] using jsval_nested_ind; cbn [jsonable]; intros H;
    auto with nkn; try done.
  - apply int_num_inv in H as (z & Hz & ->). auto with nkn.
  - rewrite forallb_forall in H. apply reads_back_arr.
    rewrite List.Forall_forall in *. auto.
  - apply andb_true_iff in H as [Hnd%bool_decide_eq_true H]. rewrite forallb_forall in H.
    apply reads_back_obj; [done |]. rewrite List.Forall_forall in *. auto.
Qed.

(** What [JSON.stringify] writes, [JSON.parse] reads back. *)
Lemma parse_stringify v :
  jsonable v = true -> exists t, stringify v = Some t /\ parse t = Ok v.
Proof.
  intros (t & Et & _ & Hr)%jsonable_reads_back. exists t. split; [done |].
  unfold parse. specialize (Hr (S (String.length t)) "" ltac:(lia) I).
  rewrite string_app_nil_r in Hr. by rewrite Hr.
Qed.

(** ** Well-formed UTF-8 *)

Definition is_cont (c : ascii) : bool := (128 <=? code c) && (code c <? 192).

Fixpoint utf8_valid (s : string) : bool :=
  match s with
  | EmptyString => true
  | String a s1 =>
      let n := code a in
      if n <? 128 then utf8_valid s1
      else match s1 with
      | EmptyString => false
      | String b s2 =>
          if (194 <=? n) && (n <? 224) then is_cont b && utf8_valid s2
          else match s2 with
          | EmptyString => false
          | String c s3 =>
              if (224 <=? n) && (n <? 240) then
                is_cont b && is_cont c
                && negb ((n =? 224) && (code b <? 160)) && negb ((n =? 237) && (160 <=? code b))
                && utf8_valid s3
              else match s3 with
              | EmptyString => false
              | String d s4 =>
                  (240 <=? n) && (n <? 245) && is_cont b && is_cont c && is_cont d
                  && negb ((n =? 240) && (code b <? 144)) && negb ((n =? 244) && (144 <=? code b))
                  && utf8_valid s4
              end
          end
      end
  end.

(** ASCII text is well-formed. *)
Lemma utf8_valid_ascii s :
  (forall c, In c (String.list_ascii_of_string s) -> code c < 128) -> utf8_valid s = true.
Proof.
  induction s as [|c s IH]; [done |]. cbn. intros H.
  destruct (Z.ltb_spec (code c) 128) as [_ | Hge].
  - apply IH. intros x Hx. apply H. by right.
  - specialize (H c (or_introl eq_refl)). lia.
Qed.
