(* ===== verification/GoJson.v ===== *)
(** * encoding/json of Go: decoding an object into a struct

    [json.Unmarshal] gives a field the number literal of the text, not its
    value as a float, so the members of an object are read with the text of
    their values.  A name matches a field without regard to case; a member that
    matches none is ignored; a value of the wrong type or out of range is an
    error; [null] leaves the field as it is. *)

From S2P Require Import Prelude JsNum JsValue Json.
From Stdlib Require Import Floats.SpecFloat.
Local Open Scope Z_scope.

(** ** The members of an object with their texts *)

Definition member : Type := string * (string * jsval).

(** The text a value was read from: what is left of [s] is [rest]. *)
Definition raw_text (s rest : string) : string :=
  let s' := skip_json_ws s in str_take (String.length s' - String.length rest) s'.

Fixpoint raw_members (fuel : nat) (s0 : string) : option (list member * string) :=
  match fuel with
  | O => None
  | S f =>
      r ← expect 34 s0;
      '(k, r1) ← read_string r;
      r2 ← expect 58 r1;
      '(v, r3) ← read_value f r2;
      match expect 44 r3 with
      | Some r4 => '(l, rest) ← raw_members f r4; Some ((k, (raw_text r2 r3, v)) :: l, rest)
      | None => r4 ← expect 125 r3; Some ([(k, (raw_text r2 r3, v))], r4)
      end
  end.

(** The members of the object a text holds. *)
Definition object_members (s : string) : option (list member) :=
  r ← expect 123 s;
  match expect 125 r with
  | Some _ => Some []
  | None => '(l, _) ← raw_members (String.length s) r; Some l
  end.

(** ** Names *)

(** The folding of a name: ASCII letters to upper case, and the two other
    characters that fold to one, the Kelvin sign and the long s. *)
Definition upper (a : ascii) : ascii := if (97 <=? code a) && (code a <=? 122) then chr (code a - 32) else a.
Fixpoint fold_name (s : string) : string :=
  match s with
  | EmptyString => EmptyString
  | String a r =>
      match r with
      | String b r1 =>
          match r1 with
          | String c r2 =>
              if (code a =? 226) && (code b =? 132) && (code c =? 170) then String "K" (fold_name r2)
              else if (code a =? 197) && (code b =? 191) then String "S" (fold_name r1)
              else String (upper a) (fold_name r)
          | EmptyString =>
              if (code a =? 197) && (code b =? 191) then String "S" EmptyString else String (upper a) (fold_name r)
          end
      | EmptyString => String (upper a) EmptyString
      end
  end.

Definition names (field key : string) : bool := String.eqb (fold_name key) (fold_name field).

(** ** Values *)

(** [strconv.ParseUint(s, 10, 64)] and [strconv.ParseInt(s, 10, 64)]. *)
Definition parse_digits (s : string) : option Z :=
  let '(m, n, rest) := read_digits 0 0 s in
  if (n =? 0) || negb (String.eqb rest "") then None else Some m.
Definition ParseUint (s : string) : option Z :=
  m ← parse_digits s; if m <? 2 ^ 64 then Some m else None.
Definition ParseInt (s : string) : option Z :=
  match s with
  | String c r =>
      if code c =? 45 then m ← parse_digits r; if m <=? 2 ^ 63 then Some (- m) else None
      else if code c =? 43 then m ← parse_digits r; if m <? 2 ^ 63 then Some m else None
      else m ← parse_digits s; if m <? 2 ^ 63 then Some m else None
  | EmptyString => None
  end.

(** A value into a field; [old] is what the field holds. *)
Definition to_int64 (old : Z) (raw : string) (v : jsval) : option Z :=
  match v with VNum _ => ParseInt raw | VNull => Some old | _ => None end.
Definition to_uint32 (old : Z) (raw : string) (v : jsval) : option Z :=
  match v with
  | VNum _ => m ← ParseUint raw; if m <? 2 ^ 32 then Some m else None
  | VNull => Some old
  | _ => None
  end.
Definition to_float64 (old : num) (v : jsval) : option num :=
  match v with VNum (S754_infinity _) => None | VNum n => Some n | VNull => Some old | _ => None end.
Definition to_str (old : string) (v : jsval) : option string :=
  match v with VStr s => Some s | VNull => Some old | _ => None end.

(** ** [json.Unmarshal] into a struct of type [D] *)

Section Struct.
Context {D : Type} (set : string -> string -> jsval -> D -> option D).

Fixpoint set_members (l : list member) (d : D) : option D :=
  match l with
  | [] => Some d
  | (k, (raw, v)) :: l' => d' ← set k raw v d; set_members l' d'
  end.

Definition unmarshal_struct (d0 : D) (s : string) : option D :=
  match parse s with
  | Ok (VObj _) => l ← object_members s; set_members l d0
  | Ok VNull => Some d0
  | _ => None
  end.
End Struct.

(** ** Reading what [JSON.stringify] wrote *)

Lemma raw_text_app t rest : starts_ok t -> raw_text (t +:+ rest) rest = t.
Proof.
  intros (c & r & -> & Hw & _). unfold raw_text. rewrite string_app_cons, skip_ws_ok by done.
  cbv zeta. rewrite <- string_app_cons, string_length_app.
  replace (String.length (String c r) + String.length rest - String.length rest)%nat
    with (String.length (String c r)) by lia.
  generalize (String c r). intros s. induction s as [|a s IH]; [by destruct rest |].
  rewrite string_app_cons. cbn [String.length str_take]. by rewrite IH.
Qed.

Definition written (kv : string * jsval) : member := (kv.1, (elem_text kv.2, kv.2)).

Lemma raw_members_back k x l :
  Forall (fun kv => reads_back kv.2) ((k, x) :: l) -> forall fuel rest,
  (String.length (join "," (members_text ((k, x) :: l))) < fuel)%nat ->
  raw_members fuel (join "," (members_text ((k, x) :: l)) +:+ String "}" rest)%string
  = Some (map written ((k, x) :: l), rest).
Proof.
  revert k x. induction l as [|[j y] l IH]; intros k x HF [|f] rest Hf; try lia;
    apply Forall_cons_iff in HF as [(t & Et & Ht & Hr) HF]; cbn [snd] in *;
    cbn [members_text raw_members] in *; rewrite Et in *;
    assert (elem_text x = t) as Ex by (unfold elem_text; by rewrite Et).
  - cbn [join] in *. rewrite member_text_app. change (expect 34 (String quote ?r)) with (Some r). cbn [mbind option_bind].
    rewrite read_string_escaped. cbn [mbind option_bind].
    change (expect 58 (String ":" ?r)) with (Some r). cbn [mbind option_bind].
    rewrite Hr; [| rewrite !string_length_app in Hf; cbn in Hf; lia | apply delim_brace].
    cbn [mbind option_bind]. cbn. by rewrite raw_text_app, <- Ex.
  - apply Forall_cons_iff in HF as HF'. destruct HF' as [(u & Eu & _) _]. cbn [snd] in Eu.
    rewrite Eu in *. rewrite join_cons in *. rewrite string_length_app in Hf. cbn [String.length] in Hf.
    rewrite <- string_app_assoc, (string_app_cons ","), member_text_app. change (expect 34 (String quote ?r)) with (Some r).
    cbn [mbind option_bind]. rewrite read_string_escaped. cbn [mbind option_bind].
    change (expect 58 (String ":" ?r)) with (Some r). cbn [mbind option_bind].
    rewrite Hr; [| rewrite !string_length_app in Hf; cbn in Hf; lia | apply delim_comma].
    cbn [mbind option_bind]. change (expect 44 (String "," ?r)) with (Some r). cbv iota beta zeta.
    specialize (IH j y HF f rest). rewrite Eu in IH. rewrite IH by lia. cbn.
    by rewrite raw_text_app, <- Ex.
Qed.

(** The members of an object the browser wrote are its own. *)
Lemma object_members_stringify l text :
  jsonable (VObj l) = true -> l <> [] -> stringify (VObj l) = Some text ->
  object_members text = Some (map written l).
Proof.
  intros Hj Hl Hs. cbn [jsonable] in Hj. apply andb_true_iff in Hj as [_ Hj].
  destruct l as [|[k x] l]; [done |].
  assert (Forall (fun kv => reads_back kv.2) ((k, x) :: l)) as HF.
  { rewrite forallb_forall in Hj. rewrite List.Forall_forall. intros kv Hin. by apply jsonable_reads_back, Hj. }
  assert (text = String "{" (join "," (members_text ((k, x) :: l)) +:+ String "}" ""))%string as ->.
  { injection Hs as <-. done. }
  unfold object_members. change (expect 123 (String "{" ?r)) with (Some r). cbn [mbind option_bind].
  rewrite expect_start; [| | by right].
  - rewrite raw_members_back; [done | done |]. cbn [String.length]. rewrite string_length_app. lia.
  - apply Forall_cons_iff in HF as [(t & Et & _) _]. cbn [snd] in Et. cbn [members_text]. rewrite Et.
    destruct (members_text l); [| rewrite join_cons; apply starts_app]; apply starts_app, starts_quoted.
Qed.

Lemma elem_text_int z : safe z -> elem_text (VInt z) = int_str z.
Proof.
  intros Hs. unfold elem_text, VInt. cbn [stringify default]. rewrite <- num_str_int by done.
  destruct (decide (z = 0)) as [-> | Hz]; [done |]. by rewrite num_of_Z_form.
Qed.

Lemma parse_digits_int z : 0 <= z -> parse_digits (int_str z) = Some z.
Proof.
  intros Hz. unfold parse_digits, int_str. destruct (Z.ltb_spec z 0); [lia |].
  destruct (read_digits_nat_str z "" Hz I) as (k & Hk & E). rewrite string_app_nil_r in E. rewrite E.
  destruct (Z.eqb_spec k 0); [lia | done].
Qed.

Lemma ParseInt_int z : 0 <= z < 2 ^ 63 -> ParseInt (int_str z) = Some z.
Proof.
  intros Hz. pose proof (parse_digits_int z ltac:(lia)) as Hp.
  assert (exists c r, int_str z = String c r /\ code c <> 45 /\ code c <> 43) as (c & r & E & H1 & H2).
  { unfold int_str. destruct (Z.ltb_spec z 0); [lia |].
    destruct (nat_str_head z ltac:(lia)) as (c & s & Ec & Hc). exists c, s. split; [done |].
    split; intros ->%code_eq; by vm_compute in Hc. }
  unfold ParseInt. rewrite E in *. destruct (Z.eqb_spec (code c) 45), (Z.eqb_spec (code c) 43); try done.
  rewrite Hp. cbn [mbind option_bind]. destruct (Z.ltb_spec z (2 ^ 63)); [done | lia].
Qed.

Lemma ParseUint_int z : 0 <= z < 2 ^ 64 -> ParseUint (int_str z) = Some z.
Proof.
  intros Hz. unfold ParseUint. rewrite parse_digits_int by lia. cbn [mbind option_bind].
  destruct (Z.ltb_spec z (2 ^ 64)); [done | lia].
Qed.

(** ** Integers the browser wrote *)

Lemma to_int64_int old z : 0 <= z < 2 ^ 53 -> to_int64 old (elem_text (VInt z)) (VInt z) = Some z.
Proof. intros Hz. rewrite elem_text_int by (unfold safe; lia). apply ParseInt_int. lia. Qed.

Lemma to_uint32_int old z :
  0 <= z < 2 ^ 53 -> to_uint32 old (elem_text (VInt z)) (VInt z) = if z <? 2 ^ 32 then Some z else None.
Proof.
  intros Hz. rewrite elem_text_int by (unfold safe; lia). unfold to_uint32, VInt.
  by rewrite ParseUint_int by lia.
Qed.

Lemma to_float64_int old z : safe z -> to_float64 old (VInt z) = Some (num_of_Z z).
Proof.
  intros Hz. unfold to_float64, VInt. destruct (decide (z = 0)) as [-> | Hn]; [done |]. by rewrite num_of_Z_form.
Qed.

(** ** The range of an [int64] *)

Lemma read_digits_nonneg s : forall m c, 0 <= m -> 0 <= (read_digits m c s).1.1.
Proof.
  induction s as [|a s IH]; intros m c Hm; cbn [read_digits]; [done |]. destruct (digit_val a) as [d|] eqn:E; [| done].
  apply IH. unfold digit_val in E. destruct (Z.leb_spec 48 (Z.of_N (N_of_ascii a))), (Z.leb_spec (Z.of_N (N_of_ascii a)) 57); try done.
  apply (inj Some) in E. lia.
Qed.

Lemma ParseInt_range s v : ParseInt s = Some v -> - 2 ^ 63 <= v < 2 ^ 63.
Proof.
  assert (forall r m, parse_digits r = Some m -> 0 <= m) as Hp.
  { intros r m. unfold parse_digits. pose proof (read_digits_nonneg r 0 0 ltac:(lia)).
    destruct (read_digits 0 0 r) as [[x n] rest]. destruct (_ || _); [done |]. intros [= <-]. done. }
  unfold ParseInt. destruct s as [|c r]; [done |]. destruct (code c =? 45); [| destruct (code c =? 43)];
    intros (m & Hm%Hp & H)%bind_Some.
  - destruct (Z.leb_spec m (2 ^ 63)); [| done]. apply (inj Some) in H. lia.
  - destruct (Z.ltb_spec m (2 ^ 63)); [| done]. apply (inj Some) in H. lia.
  - destruct (Z.ltb_spec m (2 ^ 63)); [| done]. apply (inj Some) in H. lia.
Qed.
