(* ===== verification/GoMarshal.v ===== *)
(** * encoding/json of Go: strings, and what [json.Marshal] writes

    A string that is decoded into a struct is made well-formed UTF-8.
    [json.Marshal] writes maps with their keys sorted, escapes the characters
    that HTML gives a meaning, and refuses what JSON has no text for;
    [json.MarshalIndent] breaks the lines.  The values of the language are
    represented by [jsval]: a struct or a map is an object, its members in the
    order they are written. *)

From S2P Require Import Prelude JsNum JsValue Json GoJson.
From Stdlib Require Import Floats.SpecFloat.
Local Open Scope Z_scope.

(** ** UTF-8 *)

(** The number of bytes of the first character, 0 if it is malformed. *)
Definition utf8_width (s : string) : nat :=
  match s with
  | EmptyString => 0%nat
  | String a s1 =>
      let n := code a in
      if n <? 128 then 1%nat
      else match s1 with
      | EmptyString => 0%nat
      | String b s2 =>
          if (194 <=? n) && (n <? 224) then if is_cont b then 2%nat else 0%nat
          else match s2 with
          | EmptyString => 0%nat
          | String c s3 =>
              if (224 <=? n) && (n <? 240) then
                if is_cont b && is_cont c
                   && negb ((n =? 224) && (code b <? 160)) && negb ((n =? 237) && (160 <=? code b))
                then 3%nat else 0%nat
              else match s3 with
              | EmptyString => 0%nat
              | String d _ =>
                  if (240 <=? n) && (n <? 245) && is_cont b && is_cont c && is_cont d
                     && negb ((n =? 240) && (code b <? 144)) && negb ((n =? 244) && (144 <=? code b))
                  then 4%nat else 0%nat
              end
          end
      end
  end.

(** A surrogate, which an escape of the text gave. *)
Definition is_surrogate (s : string) : bool :=
  match s with
  | String a (String b (String c _)) => (code a =? 237) && (160 <=? code b) && is_cont b && is_cont c
  | _ => false
  end.

Definition replacement : string := String (chr 239) (String (chr 191) (String (chr 189) "")).

(** Every malformed byte and every surrogate becomes U+FFFD; [skip] bytes are
    kept, [drop] bytes left out before the next character is looked at. *)
Fixpoint to_utf8 (drop skip : nat) (s : string) : string :=
  match s with
  | EmptyString => EmptyString
  | String c r =>
      match drop, skip with
      | S k, _ => to_utf8 k skip r
      | O, S k => String c (to_utf8 0 k r)
      | O, O =>
          if is_surrogate s then (replacement +:+ to_utf8 2 0 r)%string
          else match utf8_width s with
               | O => (replacement +:+ to_utf8 0 0 r)%string
               | S k => String c (to_utf8 0 k r)
               end
      end
  end.

(** A JSON string into a string field. *)
Definition to_text (old : string) (v : jsval) : option string := to_utf8 0 0 <$> to_str old v.

(** ** Writing *)

Definition u_escape (n : Z) : string :=
  String backslash (String "u" (String (hex_digit (n / 4096)) (String (hex_digit (n / 256 mod 16))
    (String (hex_digit (n / 16 mod 16)) (String (hex_digit (n mod 16)) ""))))).

Definition html_escape (c : ascii) : string :=
  let n := code c in
  if (n =? 38) || (n =? 60) || (n =? 62) then u_escape n else escape c.

(** U+2028 and U+2029. *)
Definition line_separator (s : string) : option Z :=
  match s with
  | String a (String b (String c _)) =>
      if (code a =? 226) && (code b =? 128) && ((code c =? 168) || (code c =? 169)) then Some (8064 + code c) else None
  | _ => None
  end.

Fixpoint go_escape (drop skip : nat) (s : string) : string :=
  match s with
  | EmptyString => EmptyString
  | String c r =>
      match drop, skip with
      | S k, _ => go_escape k skip r
      | O, S k => String c (go_escape 0 k r)
      | O, O =>
          if code c <? 128 then (html_escape c +:+ go_escape 0 0 r)%string
          else match line_separator s with
               | Some n => (u_escape n +:+ go_escape 2 0 r)%string
               | None =>
                   match utf8_width s with
                   | O => (u_escape 65533 +:+ go_escape 0 0 r)%string
                   | S k => String c (go_escape 0 k r)
                   end
               end
      end
  end.

Definition go_quoted (s : string) : string := String quote (go_escape 0 0 s +:+ String quote "")%string.

(** A new line at a depth, when the text is indented. *)
Fixpoint str_repeat (n : nat) (s : string) : string :=
  match n with O => EmptyString | S n' => (s +:+ str_repeat n' s)%string end.
Definition break (ind : option string) (depth : nat) : string :=
  match ind with Some i => String (chr 10) (str_repeat depth i) | None => EmptyString end.
Definition colon (ind : option string) : string := match ind with Some _ => ": " | None => ":" end.

(** The elements or members of a value between its brackets. *)
Definition bracket (ind : option string) (depth : nat) (l r : ascii) (ts : list string) : string :=
  match ts with
  | [] => String l (String r "")
  | _ => String l (break ind (S depth) +:+ join (String "," (break ind (S depth))) ts
                   +:+ break ind depth +:+ String r "")%string
  end.

Fixpoint marshal (ind : option string) (depth : nat) (v : jsval) : option string :=
  match v with
  | VUndef | VForm => None
  | VNull => Some "null"
  | VBool b => Some (if b then "true" else "false")
  | VNum n =>
      match n with
      | S754_nan | S754_infinity _ => None
      | S754_zero true => Some "-0"
      | _ => Some (num_str n)
      end
  | VStr s => Some (go_quoted s)
  | VArr l => bracket ind depth "[" "]" <$> mapM (fun x => marshal ind (S depth) x) l
  | VObj l =>
      bracket ind depth "{" "}" <$>
      mapM (fun kv => t ← marshal ind (S depth) kv.2; Some (go_quoted kv.1 +:+ colon ind +:+ t)%string) l
  end.

(** [json.Marshal(v)] and [json.MarshalIndent(v, "", i)]. *)
Definition Marshal (v : jsval) : option string := marshal None 0 v.
Definition MarshalIndent (v : jsval) (i : string) : option string := marshal (Some i) 0 v.

(** A map as it is written: its keys in the order of their bytes, at every
    depth. *)
Fixpoint insert_key (k : string) (v : jsval) (l : list (string * jsval)) : list (string * jsval) :=
  match l with
  | [] => [(k, v)]
  | (k', v') :: l' => if String.leb k k' then (k, v) :: l else (k', v') :: insert_key k v l'
  end.
Fixpoint as_map (v : jsval) : jsval :=
  match v with
  | VArr l => VArr (map as_map l)
  | VObj l => VObj (fold_right (fun kv acc => insert_key kv.1 (as_map kv.2) acc) [] l)
  | _ => v
  end.

(** ** Well-formed strings are kept *)

Lemma to_utf8_skip k s : to_utf8 0 k s = (str_take k s +:+ to_utf8 0 0 (str_drop k s))%string.
Proof.
  revert k. induction s as [|c s IH]; intros [|k]; try done.
  cbn [to_utf8 str_take str_drop]. by rewrite IH, string_app_cons.
Qed.

Lemma utf8_valid_step a r : utf8_valid (String a r) = true ->
  is_surrogate (String a r) = false
  /\ exists k, utf8_width (String a r) = S k /\ utf8_valid (str_drop k r) = true.
Proof.
  cbn [utf8_valid utf8_width is_surrogate]. cbv zeta. pose proof (code_range a).
  destruct (Z.ltb_spec (code a) 128) as [Ha | Ha].
  { intros Hr. split; [| by exists 0%nat].
    destruct r as [|b [|c r]]; try done. by destruct (Z.eqb_spec (code a) 237); [lia |]. }
  destruct r as [|b r]; [done |].
  destruct ((194 <=? code a) && (code a <? 224)) eqn:E2.
  { intros [Hb Hr]%andb_true_iff. rewrite Hb. split; [| by exists 1%nat].
    destruct r as [|c r]; [done |]. by destruct (Z.eqb_spec (code a) 237); [lia |]. }
  destruct r as [|c r]; [done |].
  destruct ((224 <=? code a) && (code a <? 240)) eqn:E3.
  { intros [Hx Hr]%andb_true_iff. rewrite Hx. split; [| by exists 2%nat].
    apply andb_true_iff in Hx as [[_ Hx]%andb_true_iff Hs].
    destruct (Z.eqb_spec (code a) 237); [| done]. by destruct (160 <=? code b). }
  destruct r as [|d r]; [done |]. intros [Hx Hr]%andb_true_iff. rewrite Hx. split; [| by exists 3%nat].
  by destruct (Z.eqb_spec (code a) 237); [lia |].
Qed.

Lemma to_utf8_valid s : utf8_valid s = true -> to_utf8 0 0 s = s.
Proof.
  induction s as [s IH] using (well_founded_induction (well_founded_ltof _ String.length)).
  destruct s as [|a r]; [done |]. intros Hv. destruct (utf8_valid_step a r Hv) as (Hs & k & Hk & Hr).
  cbn [to_utf8]. rewrite Hs, Hk, to_utf8_skip, IH, str_take_drop; [done | | done].
  unfold ltof. cbn [String.length]. pose proof (str_take_drop k r) as E.
  apply (f_equal String.length) in E. rewrite string_length_app in E. lia.
Qed.

(** ** Reading what [json.Marshal] wrote *)

Fixpoint ascii_text (s : string) : bool :=
  match s with EmptyString => true | String c r => (code c <? 128) && ascii_text r end.

(** The values whose text is read back: as for [JSON.stringify], and ASCII. *)
Fixpoint plain (v : jsval) : bool :=
  match v with
  | VStr s => ascii_text s
  | VArr l => forallb plain l
  | VObj l => forallb (fun kv => ascii_text kv.1 && plain kv.2) l
  | _ => true
  end.

Lemma read_html_escape c t : code c < 128 ->
  read_string (html_escape c +:+ t)%string = '(x, rest) ← read_string t; Some (String c x, rest).
Proof.
  intros Hc. unfold html_escape. destruct (_ || _) eqn:E; [| apply read_escape].
  assert (code c = 38 \/ code c = 60 \/ code c = 62) as H
    by (rewrite !orb_true_iff, !Z.eqb_eq in E; tauto).
  destruct H as [H | [H | H]]; apply code_eq in H; subst c; unfold u_escape; str_simpl;
    erewrite read_u_escape by (reflexivity || done); by destruct (read_string t) as [[? ?] |].
Qed.

Lemma read_go_escape s rest : ascii_text s = true ->
  read_string (go_escape 0 0 s +:+ String quote rest)%string = Some (s, rest).
Proof.
  induction s as [|c s IH]; [done |]. cbn [ascii_text go_escape]. intros [Hc Hs]%andb_true_iff. rewrite Hc.
  by rewrite <- string_app_assoc, read_html_escape, IH by (done || lia).
Qed.

Definition reads (t : string) (v : jsval) : Prop :=
  starts_ok t /\ forall fuel rest, (String.length t <= fuel)%nat -> num_delim rest ->
    read_value fuel (t +:+ rest)%string = Some (v, rest).

Lemma reads_parse t v : reads t v -> parse t = Ok v.
Proof.
  intros [_ Hr]. unfold parse. specialize (Hr (S (String.length t)) "" ltac:(lia) I).
  rewrite string_app_nil_r in Hr. by rewrite Hr.
Qed.

Lemma reads_stringify v t : reads_back v -> stringify v = Some t -> reads t v.
Proof. intros (u & Eu & H) Et. rewrite Eu in Et. apply (inj Some) in Et. by subst u. Qed.

Lemma reads_str s : ascii_text s = true -> reads (go_quoted s) (VStr s).
Proof.
  intros Hs. split; [unfold go_quoted; by eexists _, _ |].
  unfold go_quoted. intros [|f] rest Hf _; [cbn in Hf; lia |].
  rewrite string_app_cons, <- string_app_assoc. str_simpl. cbn [read_value]. rewrite skip_ws_ok by done.
  change (code quote =? 34) with true. cbv iota. by rewrite read_go_escape.
Qed.

(** White space between the tokens *)

Definition blank (s : string) : Prop := forall r, skip_json_ws (s +:+ r)%string = skip_json_ws r.
Definition indent_ok (ind : option string) : Prop := match ind with Some i => blank i | None => True end.

Lemma blank_break ind d : indent_ok ind -> blank (break ind d).
Proof.
  destruct ind as [i|]; [| done]. intros Hi r. cbn [break]. rewrite string_app_cons. cbn.
  induction d as [|d IH]; [done |]. cbn [str_repeat]. by rewrite <- string_app_assoc, Hi.
Qed.

Lemma expect_blank n w r : blank w -> expect n (w +:+ r)%string = expect n r.
Proof. intros Hw. unfold expect. by rewrite Hw. Qed.

Lemma reads_parse_blank t v w : reads t v -> blank w -> num_delim w -> parse (t +:+ w)%string = Ok v.
Proof.
  intros [_ Hr] Hw Hd. unfold parse. rewrite Hr by (rewrite ?string_length_app; lia || done).
  specialize (Hw ""). rewrite string_app_nil_r in Hw. by rewrite Hw.
Qed.

Lemma read_value_blank f w r : blank w -> read_value f (w +:+ r)%string = read_value f r.
Proof. intros Hw. destruct f as [|f]; [done |]. cbn [read_value]. by rewrite Hw. Qed.

Lemma delim_break ind d c r : num_delim (String c "") -> num_delim (break ind d +:+ String c r)%string.
Proof. by destruct ind. Qed.

Lemma join_sep (w x y : string) l :
  join (String "," w) (x :: y :: l) = (x +:+ String "," (w +:+ join (String "," w) (y :: l)))%string.
Proof. reflexivity. Qed.

Section Indented.
Context (ind : option string) (d e : nat) (Hind : indent_ok ind).
Let w := break ind d.
Let w' := break ind e.

Lemma read_elements_join t x ts l :
  Forall2 reads (t :: ts) (x :: l) -> forall fuel rest,
  (String.length (join (String "," w) (t :: ts)) < fuel)%nat ->
  read_elements fuel (w +:+ join (String "," w) (t :: ts) +:+ w' +:+ String "]" rest)%string = Some (x :: l, rest).
Proof.
  revert t x ts. induction l as [|y l IH]; intros t x ts HF [|f] rest Hf; try lia;
    apply list.Forall2_cons_1 in HF as [[_ Hr] HF]; cbn [read_elements];
    rewrite read_value_blank by (by apply blank_break).
  - apply Forall2_nil_inv_r in HF as ->. cbn [join] in *.
    rewrite Hr by (lia || by apply delim_break). cbn [mbind option_bind].
    rewrite !expect_blank by (by apply blank_break). done.
  - apply Forall2_cons_inv_r in HF as (u & us & Hu & HF & ->). rewrite join_sep in *.
    rewrite string_length_app in Hf. cbn [String.length] in Hf. rewrite string_length_app in Hf.
    rewrite <- string_app_assoc, string_app_cons, Hr by (lia || done).
    cbn [mbind option_bind]. change (expect 44 (String "," ?r)) with (Some r). cbv iota beta.
    rewrite <- string_app_assoc, (IH u y us); [done | by constructor | lia].
Qed.

Definition member_of (kt : string * string) : string := (go_quoted kt.1 +:+ colon ind +:+ kt.2)%string.

Lemma read_colon r : expect 58 (colon ind +:+ r)%string = Some (match ind with Some _ => " " +:+ r | None => r end)%string.
Proof. by destruct ind. Qed.

Lemma read_after_colon f r :
  read_value f (match ind with Some _ => " " +:+ r | None => r end)%string = read_value f r.
Proof. destruct ind; [| done]. by apply (read_value_blank f " "). Qed.

Lemma read_members_join k t x ts l :
  Forall2 (fun kt kv => kt.1 = kv.1 /\ ascii_text kv.1 = true /\ reads kt.2 kv.2) ((k, t) :: ts) ((k, x) :: l) ->
  forall fuel rest acc, NoDup (map fst (acc ++ (k, x) :: l)) ->
  (String.length (join (String "," w) (map member_of ((k, t) :: ts))) < fuel)%nat ->
  read_members fuel (w +:+ join (String "," w) (map member_of ((k, t) :: ts)) +:+ w' +:+ String "}" rest)%string acc
  = Some (acc ++ (k, x) :: l, rest).
Proof.
  revert k t x ts. induction l as [|[j y] l IH]; intros k t x ts HF [|f] rest acc Hnd Hf; try lia;
    apply list.Forall2_cons_1 in HF as [(_ & Hk & _ & Hr) HF]; cbn [fst snd] in *;
    assert (~ In k (map fst acc)) as Hfresh
      by (rewrite map_app in Hnd; apply list.NoDup_app in Hnd as (_ & Hn & _);
          intros Hin; apply list_elem_of_In in Hin; apply (Hn _ Hin); cbn; left);
    cbn [read_members]; rewrite expect_blank by (by apply blank_break);
    assert (forall r, (member_of (k, t) +:+ r)%string
              = String quote (go_escape 0 0 k +:+ String quote (colon ind +:+ t +:+ r)))%string as Em
      by (intros r; unfold member_of, go_quoted; cbn [fst snd]; rewrite <- !string_app_assoc, string_app_cons, <- !string_app_assoc; by str_simpl);
    assert (String.length t <= String.length (member_of (k, t)))%nat as Hl
      by (unfold member_of; cbn [snd]; rewrite !string_length_app; lia).
  - apply Forall2_nil_inv_r in HF as ->. cbn [map join] in *. rewrite Em.
    change (expect 34 (String quote ?r)) with (Some r). cbn [mbind option_bind].
    rewrite read_go_escape by done. cbn [mbind option_bind]. rewrite read_colon. cbn [mbind option_bind].
    rewrite read_after_colon, Hr by (lia || by apply delim_break). cbn [mbind option_bind].
    rewrite !expect_blank by (by apply blank_break). cbv zeta. rewrite assoc_set_fresh by done. done.
  - apply Forall2_cons_inv_r in HF as ([j' u] & us & Hu & HF & ->). assert (j' = j) as -> by apply Hu.
    cbn [map] in *. rewrite join_sep in *. rewrite string_length_app in Hf. cbn [String.length] in Hf.
    rewrite string_length_app in Hf. rewrite <- string_app_assoc, string_app_cons, Em.
    change (expect 34 (String quote ?r)) with (Some r). cbn [mbind option_bind].
    rewrite read_go_escape by done. cbn [mbind option_bind]. rewrite read_colon. cbn [mbind option_bind].
    rewrite read_after_colon, Hr by (lia || done). cbn [mbind option_bind].
    change (expect 44 (String "," ?r)) with (Some r). cbv iota beta zeta.
    rewrite assoc_set_fresh by done. rewrite <- string_app_assoc.
    rewrite (IH j u y us); [by rewrite <- app_assoc | by constructor | by rewrite <- app_assoc | cbn [map]; lia].
Qed.
End Indented.

Lemma bracket_cons ind d l r t ts : bracket ind d l r (t :: ts) =
  String l (break ind (S d) +:+ join (String "," (break ind (S d))) (t :: ts) +:+ break ind d +:+ String r "")%string.
Proof. reflexivity. Qed.

Lemma expect_join n ind d t ts r :
  indent_ok ind -> starts_ok t -> n = 93 \/ n = 125 ->
  expect n (break ind d +:+ join (String "," (break ind d)) (t :: ts) +:+ r)%string = None.
Proof.
  intros Hi Ht Hn. rewrite expect_blank by by apply blank_break.
  destruct ts as [|u ts]; [by apply expect_start |].
  rewrite join_sep, <- string_app_assoc. by apply expect_start.
Qed.

Lemma reads_array ind d ts l : indent_ok ind -> Forall2 reads ts l -> reads (bracket ind d "[" "]" ts) (VArr l).
Proof.
  intros Hi HF. split; [destruct ts; by eexists _, _ |]. intros fuel rest Hf Hd.
  destruct HF as [|t x ts l Hx HF].
  - destruct fuel; [cbn in Hf; lia | done].
  - rewrite bracket_cons in *. cbn [String.length] in Hf. rewrite !string_length_app in Hf. cbn [String.length] in Hf.
    destruct fuel as [|f]; [lia |]. rewrite string_app_cons, <- !string_app_assoc, (string_app_cons "]"), string_app_empty.
    cbn [read_value]. rewrite skip_ws_ok by done. change (code "[" =? ?k) with (91 =? k). cbn [Z.eqb Pos.eqb].
    rewrite expect_join by (done || apply Hx || by left).
    rewrite (read_elements_join ind (S d) d Hi t x ts l); [done | by constructor | lia].
Qed.

Lemma reads_object ind d ts l :
  indent_ok ind -> NoDup (map fst l) ->
  Forall2 (fun kt kv => kt.1 = kv.1 /\ ascii_text kv.1 = true /\ reads kt.2 kv.2) ts l ->
  reads (bracket ind d "{" "}" (map (member_of ind) ts)) (VObj l).
Proof.
  intros Hi Hnd HF. split; [destruct ts; by eexists _, _ |]. intros fuel rest Hf Hd.
  destruct HF as [|[k t] [k' x] ts l Hx HF].
  - destruct fuel; [cbn in Hf; lia | done].
  - assert (k = k') as <- by apply Hx. cbn [map] in *. rewrite bracket_cons in *. cbn [String.length] in Hf.
    rewrite !string_length_app in Hf. cbn [String.length] in Hf.
    destruct fuel as [|f]; [lia |]. rewrite string_app_cons, <- !string_app_assoc, (string_app_cons "}"), string_app_empty.
    cbn [read_value]. rewrite skip_ws_ok by done. change (code "{" =? ?n) with (123 =? n). cbn [Z.eqb Pos.eqb].
    rewrite expect_join; [| done | unfold member_of, go_quoted; cbn [fst]; by eexists _, _ | by right].
    change (member_of ind (k, t) :: map (member_of ind) ts) with (map (member_of ind) ((k, t) :: ts)) in *.
    rewrite (read_members_join ind (S d) d Hi k t x ts l); [done | by constructor | done | lia].
Qed.

Lemma marshal_reads ind v : indent_ok ind -> jsonable v = true -> plain v = true ->
  forall d, exists t, marshal ind d v = Some t /\ reads t v.
Proof.
  intros Hi. induction v as [| |b|n|s|l IH|l IH|] using jsval_nested_ind; cbn [jsonable plain]; intros Hj Hp d; try done.
  - exists "null". split; [done |]. by apply reads_stringify, eq_refl; apply reads_back_null.
  - exists (if b then "true" else "false"). split; [done |]. apply reads_stringify; [apply reads_back_bool | by destruct b].
  - apply int_num_inv in Hj as (z & Hz & ->). exists (num_str (num_of_Z z)). split.
    + cbn [marshal]. destruct (decide (z = 0)) as [-> | Hn]; [done |]. by rewrite num_of_Z_form.
    + apply reads_stringify; [by apply reads_back_num |]. cbn [stringify].
      destruct (decide (z = 0)) as [-> | Hn]; [done |]. by rewrite num_of_Z_form.
  - exists (go_quoted s). split; [done | by apply reads_str].
  - rewrite forallb_forall in Hj, Hp. cbn [marshal].
    assert (exists ts, mapM (fun x => marshal ind (S d) x) l = Some ts /\ Forall2 reads ts l) as (ts & -> & HF).
    { induction IH as [|x l Hx _ IHl]; [by exists [] |].
      destruct (Hx (Hj x (or_introl eq_refl)) (Hp x (or_introl eq_refl)) (S d)) as (t & Et & Ht).
      destruct IHl as (ts & Ets & HF); [intros y Hy; apply Hj; by right | intros y Hy; apply Hp; by right |].
      exists (t :: ts). cbn [mapM]. rewrite Et. cbn [mbind option_bind]. rewrite Ets. split; [done | by constructor]. }
    eexists. split; [done | by apply reads_array].
  - apply andb_true_iff in Hj as [Hnd%bool_decide_eq_true Hj]. rewrite forallb_forall in Hj, Hp. cbn [marshal].
    assert (exists ts, mapM (fun kv => t ← marshal ind (S d) kv.2; Some (go_quoted kv.1 +:+ colon ind +:+ t)%string) l
              = Some (map (member_of ind) ts)
            /\ Forall2 (fun kt kv => kt.1 = kv.1 /\ ascii_text kv.1 = true /\ reads kt.2 kv.2) ts l) as (ts & -> & HF).
    { clear Hnd. induction IH as [|[k x] l Hx _ IHl]; [by exists [] |]. cbn [snd] in Hx.
      destruct (andb_true_iff (ascii_text k) (plain x)) as [Hkx _].
      destruct (Hkx (Hp (k, x) (or_introl eq_refl))) as [Hk Hpx].
      destruct (Hx (Hj (k, x) (or_introl eq_refl)) Hpx (S d)) as (t & Et & Ht).
      destruct IHl as (ts & Ets & HF); [intros y Hy; apply Hj; by right | intros y Hy; apply Hp; by right |].
      exists ((k, t) :: ts). cbn [mapM snd fst]. rewrite Et. cbn [mbind option_bind]. rewrite Ets. split; [done | by constructor]. }
    eexists. split; [done | by apply reads_object].
Qed.

(** What the node writes, indented or not, is read back. *)
Lemma parse_Marshal v : jsonable v = true -> plain v = true -> exists t, Marshal v = Some t /\ parse t = Ok v.
Proof.
  intros Hj Hp. destruct (marshal_reads None v I Hj Hp 0) as (t & Et & Ht). exists t. split; [done | by apply reads_parse].
Qed.

Lemma parse_MarshalIndent v i : blank i -> jsonable v = true -> plain v = true ->
  exists t, MarshalIndent v i = Some t /\ parse t = Ok v.
Proof.
  intros Hi Hj Hp. destruct (marshal_reads (Some i) v Hi Hj Hp 0) as (t & Et & Ht). exists t. split; [done | by apply reads_parse].
Qed.

(** ** The text is ASCII *)

Lemma ascii_app a b : ascii_text (a +:+ b)%string = ascii_text a && ascii_text b.
Proof. induction a as [|c a IH]; [done |]. rewrite string_app_cons. cbn [ascii_text]. by rewrite IH, andb_assoc. Qed.

Lemma ascii_utf8 s : ascii_text s = true -> utf8_valid s = true.
Proof. induction s as [|c s IH]; [done |]. cbn. intros [Hc Hs]%andb_true_iff. rewrite Hc. auto. Qed.

Lemma ascii_escape s : ascii_text s = true -> ascii_text (go_escape 0 0 s) = true.
Proof.
  assert (forall c, code c < 128 -> ascii_text (html_escape c) = true) as Hh.
  { intros c Hc. pose proof (code_range c).
    assert (Forall (fun n => ascii_text (html_escape (chr n)) = true) (seqZ 0 128)) as F by (repeat constructor).
    rewrite list.Forall_forall in F. rewrite <- (chr_code c). apply F, elem_of_seqZ. lia. }
  induction s as [|c s IH]; [done |]. cbn [ascii_text go_escape]. intros [Hc Hs]%andb_true_iff.
  rewrite Hc, ascii_app, Hh, IH by (done || lia). done.
Qed.

Lemma ascii_quoted s : ascii_text s = true -> ascii_text (go_quoted s) = true.
Proof. intros Hs. unfold go_quoted. cbn [ascii_text]. rewrite ascii_app, ascii_escape by done. done. Qed.

Lemma ascii_join sep ts : ascii_text sep = true -> Forall (fun t => ascii_text t = true) ts -> ascii_text (join sep ts) = true.
Proof.
  intros Hs HF. induction HF as [|t ts Ht HF IH]; [done |]. destruct ts as [|u ts]; [done |].
  cbn [join]. rewrite !ascii_app, Ht, Hs. exact IH.
Qed.

Lemma ascii_nat_str n : 0 <= n -> ascii_text (nat_str n) = true.
Proof.
  assert (forall f n acc, 0 <= n -> ascii_text acc = true -> ascii_text (digits_go f n acc) = true) as G.
  { induction f as [|f IH]; intros m acc Hm Ha; [done |]. cbn [digits_go]. cbv zeta.
    assert (ascii_text (String (digit_char (m mod 10)) acc) = true) as Ha'.
    { pose proof (Z.mod_pos_bound m 10 ltac:(lia)). cbn [ascii_text]. rewrite code_digit, Ha by lia. lia. }
    destruct (m <? 10); [done |]. apply IH; [| done]. apply Z.div_pos; lia. }
  intros Hn. by apply G.
Qed.

Lemma ascii_int_str z : ascii_text (int_str z) = true.
Proof. unfold int_str. destruct (Z.ltb_spec z 0); [cbn [ascii_text] |]; apply ascii_nat_str; lia. Qed.

Lemma ascii_bracket ind d l r ts : (forall i, ind = Some i -> ascii_text i = true) ->
  code l < 128 -> code r < 128 -> Forall (fun t => ascii_text t = true) ts -> ascii_text (bracket ind d l r ts) = true.
Proof.
  intros Hi Hl Hr HF. apply Z.ltb_lt in Hl, Hr.
  assert (forall n, ascii_text (break ind n) = true) as Hb.
  { intros n. destruct ind as [i|]; [| done]. cbn [break ascii_text]. specialize (Hi i eq_refl).
    induction n as [|n IH]; [done |]. cbn [str_repeat]. by rewrite ascii_app, Hi. }
  destruct HF as [|t ts Ht HF]; [cbn; by rewrite Hl, Hr |]. rewrite bracket_cons. cbn [ascii_text]. rewrite Hl, !ascii_app, !Hb.
  cbn [ascii_text]. rewrite Hr, !andb_true_r. apply ascii_join; [cbn; apply Hb | by constructor].
Qed.

Lemma Forall2_in_r {A B} (P : A -> B -> Prop) l k y : Forall2 P l k -> In y k -> exists x, In x l /\ P x y.
Proof.
  induction 1 as [|x z l k Hp _ IH]; [done |]. intros [<- | Hy]; [exists x; by split; [left |] |].
  destruct (IH Hy) as (x' & Hx & Hp'). exists x'. by split; [right |].
Qed.

Lemma Marshal_ascii v : jsonable v = true -> plain v = true -> forall d t, marshal None d v = Some t -> ascii_text t = true.
Proof.
  induction v as [| |b|n|s|l IH|l IH|] using jsval_nested_ind; cbn [jsonable plain marshal]; intros Hj Hp d t Ht; try done.
  - by simplify_eq.
  - simplify_eq. by destruct b.
  - apply int_num_inv in Hj as (z & Hz & ->).
    assert (t = num_str (num_of_Z z)) as ->.
    { destruct (decide (z = 0)) as [-> | Hn]; [by injection Ht as <- |]. rewrite num_of_Z_form in * by done. by simplify_eq. }
    rewrite num_str_int by done. apply ascii_int_str.
  - simplify_eq. by apply ascii_quoted.
  - rewrite forallb_forall in Hj, Hp. apply fmap_Some in Ht as (ts & Hts & ->). apply mapM_Some in Hts.
    apply ascii_bracket; [done | done | done |]. rewrite List.Forall_forall in *.
    intros u Hu. destruct (Forall2_in_r _ _ _ _ Hts Hu) as (x & Hx & E). apply (IH x Hx) in E; auto.
  - apply andb_true_iff in Hj as [_ Hj]. rewrite forallb_forall in Hj, Hp. apply fmap_Some in Ht as (ts & Hts & ->).
    apply mapM_Some in Hts. apply ascii_bracket; [done | done | done |]. rewrite List.Forall_forall in *.
    intros u Hu. destruct (Forall2_in_r _ _ _ _ Hts Hu) as ([k x] & Hx & E).
    cbn [fst snd] in E. apply bind_Some in E as (y & Ey & [= <-]).
    pose proof (Hp (k, x) Hx) as [Hk Hpx]%andb_true_iff. apply (IH (k, x) Hx) in Ey; [| apply (Hj (k, x) Hx) | done].
    rewrite !ascii_app, ascii_quoted by done. by rewrite Ey.
Qed.

(** ** Text without the characters of HTML is that of [JSON.stringify] *)

Fixpoint html_free (s : string) : bool :=
  match s with
  | EmptyString => true
  | String c r => (code c <? 128) && negb ((code c =? 38) || (code c =? 60) || (code c =? 62)) && html_free r
  end.

Fixpoint tame (v : jsval) : bool :=
  match v with
  | VStr s => html_free s
  | VArr l => forallb tame l
  | VObj l => forallb (fun kv => html_free kv.1 && tame kv.2) l
  | _ => true
  end.

Lemma html_free_quoted s : html_free s = true -> go_quoted s = quoted s.
Proof.
  intros Hs. unfold go_quoted, quoted. do 2 f_equal. induction s as [|c s IH]; [done |].
  cbn [html_free] in Hs. apply andb_true_iff in Hs as [[Hc Hn%negb_true_iff]%andb_true_iff Hs].
  cbn [go_escape escape_str]. unfold html_escape. by rewrite Hc, Hn, IH.
Qed.

Lemma html_free_ascii s : html_free s = true -> ascii_text s = true.
Proof. induction s as [|c s IH]; [done |]. cbn. intros [[Hc _]%andb_true_iff Hs]%andb_true_iff. rewrite Hc. auto. Qed.

Lemma tame_plain v : tame v = true -> plain v = true.
Proof.
  induction v as [| |b|n|s|l IH|l IH|] using jsval_nested_ind; cbn [tame plain]; try done.
  - apply html_free_ascii.
  - rewrite !forallb_forall, List.Forall_forall in *. auto.
  - rewrite !forallb_forall, List.Forall_forall in *. intros H kv Hkv. specialize (H kv Hkv).
    apply andb_true_iff in H as [H1 H2]. rewrite html_free_ascii by done. by apply IH.
Qed.

Lemma bracket_compact d l r ts : bracket None d l r ts = String l (join "," ts +:+ String r "")%string.
Proof. by destruct ts. Qed.

Lemma marshal_stringify v : jsonable v = true -> tame v = true -> forall d, marshal None d v = stringify v.
Proof.
  induction v as [| |b|n|s|l IH|l IH|] using jsval_nested_ind; cbn [jsonable tame marshal stringify]; intros Hj Ht d; try done.
  - by destruct b.
  - apply int_num_inv in Hj as (z & Hz & ->). destruct (decide (z = 0)) as [-> | Hn]; [done |]. by rewrite num_of_Z_form.
  - by rewrite html_free_quoted.
  - rewrite forallb_forall in Hj, Ht.
    assert (mapM (fun x => marshal None (S d) x) l = Some (map elem_text l)) as ->.
    { induction IH as [|x l Hx _ IHl]; [done |]. cbn [mapM map]. unfold elem_text at 1.
      destruct (parse_stringify x (Hj x (or_introl eq_refl))) as (t & Et & _).
      rewrite Hx, Et, IHl; try (intros; (apply Hj || apply Ht); by right); try ((apply Hj || apply Ht); by left). done. }
    cbn [fmap option_fmap option_map]. by rewrite bracket_compact.
  - apply andb_true_iff in Hj as [_ Hj]. rewrite forallb_forall in Hj, Ht.
    assert (mapM (fun kv => t ← marshal None (S d) kv.2; Some (go_quoted kv.1 +:+ colon None +:+ t)%string) l
            = Some (members_text l)) as ->.
    { induction IH as [|[k x] l Hx _ IHl]; [done |]. cbn [mapM members_text snd fst] in *.
      destruct (parse_stringify x (Hj (k, x) (or_introl eq_refl))) as (t & Et & _).
      pose proof (Ht (k, x) (or_introl eq_refl)) as [Hk Htx]%andb_true_iff.
      rewrite Hx by (done || exact (Hj (k, x) (or_introl eq_refl))). rewrite Et. cbn [mbind option_bind].
      rewrite IHl by (intros; (apply Hj || apply Ht); by right). cbn [mbind option_bind].
      by rewrite html_free_quoted. }
    cbn [fmap option_fmap option_map]. by rewrite bracket_compact.
Qed.

(** ** Maps as they are written *)

Lemma insert_key_perm k v l : Permutation (insert_key k v l) ((k, v) :: l).
Proof.
  induction l as [|[k' v'] l IH]; [done |]. cbn [insert_key]. destruct (String.leb k k'); [done |].
  rewrite IH. apply Permutation_swap.
Qed.

Definition sort_members (l : list (string * jsval)) : list (string * jsval) :=
  fold_right (fun kv acc => insert_key kv.1 (as_map kv.2) acc) [] l.

Lemma sort_members_perm l : Permutation (sort_members l) (map (fun kv => (kv.1, as_map kv.2)) l).
Proof. induction l as [|[k v] l IH]; [done |]. cbn [sort_members fold_right map fst snd]. rewrite insert_key_perm. by constructor. Qed.

Lemma string_compare_refl s : String.compare s s = Eq.
Proof. induction s as [|a s IH]; [done |]. cbn. unfold Ascii.compare. by rewrite N.compare_refl. Qed.

Lemma assoc_insert_key k k' v l : assoc k (insert_key k' v l) = if String.eqb k k' then Some v else assoc k l.
Proof.
  induction l as [|[j x] l IH]; [done |]. cbn [insert_key]. destruct (String.leb k' j) eqn:E; [done |].
  cbn [assoc]. rewrite IH. destruct (String.eqb_spec k j) as [-> |]; [| done].
  destruct (String.eqb_spec j k') as [-> |]; [| done].
  unfold String.leb in E. by rewrite string_compare_refl in E.
Qed.

(** A map has the members it had. *)
Lemma assoc_sort k l : assoc k (sort_members l) = as_map <$> assoc k l.
Proof.
  induction l as [|[j x] l IH]; [done |]. cbn [sort_members fold_right fst snd]. rewrite assoc_insert_key. cbn [assoc].
  destruct (String.eqb k j); [done | exact IH].
Qed.

Lemma as_map_keeps v : jsonable v = true -> plain v = true -> jsonable (as_map v) = true /\ plain (as_map v) = true.
Proof.
  induction v as [| |b|n|s|l IH|l IH|] using jsval_nested_ind; intros Hj Hp; try done; cbn [as_map jsonable plain] in *.
  - rewrite !forallb_forall in *. rewrite List.Forall_forall in IH.
    split; intros x (y & <- & Hy)%in_map_iff; by apply (IH y Hy); [apply Hj | apply Hp].
  - apply andb_true_iff in Hj as [Hnd%bool_decide_eq_true Hj]. fold (sort_members l). rewrite List.Forall_forall in IH.
    assert (forall kv, In kv (sort_members l) -> exists x, In (kv.1, x) l /\ kv.2 = as_map x) as Hin.
    { intros kv Hkv. pose proof (Permutation_in _ (sort_members_perm l) Hkv) as ([k x] & <- & Hx)%in_map_iff. by exists x. }
    rewrite !forallb_forall in *. split.
    + apply andb_true_iff. split.
      * apply bool_decide_eq_true. rewrite sort_members_perm, map_map. exact Hnd.
      * apply forallb_forall. intros [k y] (x & Hx & E)%Hin. cbn in E |- *. subst y.
        destruct (andb_true_iff (ascii_text k) (plain x)) as [Hkx _]. destruct (Hkx (Hp _ Hx)) as [_ Hpx].
        by apply (IH (k, x) Hx); [apply (Hj (k, x)) |].
    + intros [k y] (x & Hx & E)%Hin. cbn in E |- *. subst y.
      destruct (andb_true_iff (ascii_text k) (plain x)) as [Hkx _]. destruct (Hkx (Hp _ Hx)) as [Hk Hpx].
      rewrite Hk. by apply (IH (k, x) Hx); [apply (Hj (k, x)) |].
Qed.

(** Setting a member keeps the keys distinct. *)
Lemma assoc_set_keys j k (v : jsval) l : In j (map fst (assoc_set k v l)) -> j = k \/ In j (map fst l).
Proof.
  induction l as [|[k' v'] l IH]; cbn; [intros [-> | []]; by left |].
  destruct (String.eqb_spec k k') as [-> |]; cbn; [tauto |].
  intros [-> | H]; [by right; left |]. destruct (IH H); [by left | by right; right].
Qed.

Lemma assoc_set_NoDup k (v : jsval) l : NoDup (map fst l) -> NoDup (map fst (assoc_set k v l)).
Proof.
  induction l as [|[k' v'] l IH]; cbn [assoc_set map fst].
  { intros _. constructor; [apply not_elem_of_nil | constructor]. }
  intros [Hk' Hnd]%list.NoDup_cons. destruct (String.eqb_spec k k') as [-> | Hne]; cbn [map fst]; [by constructor |].
  apply list.NoDup_cons. split; [| by apply IH].
  intros [-> | H]%list_elem_of_In%assoc_set_keys; [done |]. by apply Hk', list_elem_of_In.
Qed.

Lemma assoc_set_keeps k v l : jsonable v = true -> plain v = true -> ascii_text k = true ->
  jsonable (VObj l) = true -> plain (VObj l) = true ->
  jsonable (VObj (assoc_set k v l)) = true /\ plain (VObj (assoc_set k v l)) = true.
Proof.
  intros Hv Hpv Hk. cbn [jsonable plain]. intros [Hnd%bool_decide_eq_true Hj]%andb_true_iff Hp.
  rewrite (bool_decide_eq_true_2 _ (assoc_set_NoDup k v l Hnd)). clear Hnd. cbn [andb].
  induction l as [|[k' v'] l IH]; cbn in *; [by rewrite Hv, Hpv, Hk |].
  apply andb_true_iff in Hp as [H1 H2]. apply andb_true_iff in Hj as [H3 H4]. destruct (IH H4 H2) as [I1 I2].
  destruct (String.eqb_spec k k') as [<- |]; cbn; [by rewrite Hk, Hv, Hpv, H2, H4 | by rewrite H1, H3, I1, I2].
Qed.

(** ** The members of what was written *)

Lemma raw_text_after_colon (ind : option string) t rest : starts_ok t ->
  raw_text (match ind with Some _ => " " +:+ (t +:+ rest) | None => t +:+ rest end)%string rest = t.
Proof. intros Ht. destruct ind as [i|]; exact (raw_text_app t rest Ht). Qed.

(** A member that was read is one that was written. *)
Definition member_read (ind : option string) (m : member) (kv : string * jsval) : Prop :=
  m.1 = kv.1 /\ m.2.2 = kv.2 /\ marshal ind 1 kv.2 = Some m.2.1 /\ ascii_text kv.1 = true /\ reads m.2.1 kv.2.

Definition member_text (ind : option string) (m : member) : string := member_of ind (m.1, m.2.1).

Lemma member_text_app' ind m r : (member_text ind m +:+ r)%string
  = String quote (go_escape 0 0 m.1 +:+ String quote (colon ind +:+ m.2.1 +:+ r))%string.
Proof.
  unfold member_text, member_of, go_quoted. cbn [fst snd].
  rewrite <- !string_app_assoc, string_app_cons, <- !string_app_assoc. by str_simpl.
Qed.

Lemma raw_members_join ind : indent_ok ind -> forall ms l, Forall2 (member_read ind) ms l -> ms <> [] -> forall fuel rest,
  (String.length (join (String "," (break ind 1)) (map (member_text ind) ms)) < fuel)%nat ->
  raw_members fuel (break ind 1 +:+ join (String "," (break ind 1)) (map (member_text ind) ms) +:+ break ind 0 +:+ String "}" rest)%string
  = Some (ms, rest).
Proof.
  intros Hi ms l HF. induction HF as [|[k [t x]] [k' x'] ms l (Hk & Hx & Hm & Ha & Hs & Hr) HF IH]; [done |]. intros _ [|f] rest Hf; [lia |].
  cbn [fst snd] in *. subst k' x'.
  assert (String.length t <= String.length (member_text ind (k, (t, x))))%nat as Hl
    by (unfold member_text, member_of; cbn [fst snd]; rewrite !string_length_app; lia).
  cbn [raw_members map]. rewrite expect_blank by (by apply blank_break). destruct ms as [|m ms].
  - cbn [map join] in *. rewrite member_text_app'. cbn [fst snd]. change (expect 34 (String quote ?r)) with (Some r). cbn [mbind option_bind].
    rewrite read_go_escape by done. cbn [mbind option_bind]. rewrite (read_colon ind 1 0 Hi). cbn [mbind option_bind].
    rewrite (read_after_colon ind 1 0 Hi), Hr by (lia || by apply delim_break). cbn [mbind option_bind].
    rewrite !expect_blank by (by apply blank_break). rewrite raw_text_after_colon by done. done.
  - cbn [map] in *. rewrite join_sep in *. rewrite string_length_app in Hf. cbn [String.length] in Hf. rewrite string_length_app in Hf.
    rewrite <- string_app_assoc, string_app_cons, member_text_app'. cbn [fst snd].
    change (expect 34 (String quote ?r)) with (Some r). cbn [mbind option_bind].
    rewrite read_go_escape by done. cbn [mbind option_bind]. rewrite (read_colon ind 1 0 Hi). cbn [mbind option_bind].
    rewrite (read_after_colon ind 1 0 Hi), Hr by (lia || done). cbn [mbind option_bind].
    change (expect 44 (String "," ?r)) with (Some r). cbv iota beta.
    rewrite raw_text_after_colon by done. rewrite <- string_app_assoc, IH by (done || lia). done.
Qed.

(** The members of an object the node wrote are its own, with their texts. *)
Lemma object_members_marshal ind l text rest :
  indent_ok ind -> jsonable (VObj l) = true -> plain (VObj l) = true -> marshal ind 0 (VObj l) = Some text ->
  exists ms, object_members (text +:+ rest)%string = Some ms /\ Forall2 (member_read ind) ms l.
Proof.
  intros Hi Hj Hp Hm. cbn [jsonable plain] in Hj, Hp. apply andb_true_iff in Hj as [_ Hj]. rewrite forallb_forall in Hj, Hp.
  assert (exists ms, mapM (fun kv => t ← marshal ind 1 kv.2; Some (go_quoted kv.1 +:+ colon ind +:+ t)%string) l = Some (map (member_text ind) ms)
          /\ Forall2 (member_read ind) ms l) as (ms & E & HF).
  { clear Hm. induction l as [|[k x] l IH]; [by exists [] |].
    pose proof (Hp (k, x) (or_introl eq_refl)) as [Hk Hpx]%andb_true_iff.
    destruct (marshal_reads ind x Hi (Hj (k, x) (or_introl eq_refl)) Hpx 1) as (t & Et & Ht).
    destruct IH as (ms & Ems & HF); [intros y Hy; apply Hj; by right | intros y Hy; apply Hp; by right |].
    exists ((k, (t, x)) :: ms). cbn [mapM fst snd]. rewrite Et. cbn [mbind option_bind]. rewrite Ems. split; [done | by constructor]. }
  exists ms. split; [| done]. cbn [marshal] in Hm. rewrite E in Hm. apply (inj Some) in Hm. subst text.
  destruct ms as [|m ms]; [done |]. cbn [map]. rewrite bracket_cons, string_app_cons, <- !string_app_assoc, (string_app_cons "}"), string_app_empty.
  unfold object_members. change (expect 123 (String "{" ?r)) with (Some r). cbn [mbind option_bind].
  rewrite expect_join; [| done | unfold member_text, member_of, go_quoted; cbn [fst]; by eexists _, _ | by right].
  change (member_text ind m :: map (member_text ind) ms) with (map (member_text ind) (m :: ms)).
  rewrite (raw_members_join ind Hi (m :: ms) l HF); [done | done |]. cbn [String.length]. rewrite !string_length_app. lia.
Qed.
