(* ===== verification/Fixed64.v ===== *)
(** * Amounts of the node: common/Fixed64.go

    An amount is an [int64] counting units of 10^-8.  The balance the node
    reports is its decimal text; the text is read back by [StringToFixed64].
    Integers keep their width: negation of an [int64] wraps around. *)

From S2P Require Import Prelude JsNum JsValue Json GoJson GoMarshal.
Local Open Scope Z_scope.

Definition MaximumPrecision : nat := 8.
Definition StorageFactor : Z := 100000000.

(** Conversions of the language. *)
Definition int64 (z : Z) : Z := (z + 2 ^ 63) mod 2 ^ 64 - 2 ^ 63.
Definition uint64 (z : Z) : Z := z mod 2 ^ 64.

Definition zeros (n : nat) : string := str_repeat n "0".

(** [f.String()] *)
Definition Fixed64_String (f : Z) : string :=
  let '(sign, value) := if f <? 0 then ("-", uint64 (int64 (- f))) else ("", uint64 f) in
  let whole := (sign +:+ nat_str (value / StorageFactor))%string in
  let value := value mod StorageFactor in
  if 0 <? value then
    let s := nat_str value in
    (whole +:+ "." +:+ zeros (MaximumPrecision - String.length s) +:+ s)%string
  else whole.

(** [strings.Index(s, ".")] *)
Fixpoint index_dot (s : string) : option nat :=
  match s with
  | EmptyString => None
  | String c r => if code c =? 46 then Some 0%nat else S <$> index_dot r
  end.

Definition StringToFixed64 (s : string) : option Z :=
  match index_dot s with
  | None => ParseInt (s +:+ zeros MaximumPrecision)
  | Some di =>
      let precision := (String.length s - di - 1)%nat in
      if (MaximumPrecision <? precision)%nat then None
      else ParseInt (str_take di s +:+ str_drop (S di) s +:+ zeros (MaximumPrecision - precision))
  end.

(** ** Strings of digits *)

(** The value of a string of digits that follows [m]. *)
Fixpoint dval (m : Z) (s : string) : option Z :=
  match s with
  | EmptyString => Some m
  | String c r => d ← digit_val c; dval (m * 10 + d) r
  end.

Lemma dval_app m a b : dval m (a +:+ b) = v ← dval m a; dval v b.
Proof.
  revert m. induction a as [|c a IH]; intros m; [done |]. rewrite string_app_cons. cbn [dval].
  destruct (digit_val c); [| done]. cbn [mbind option_bind]. apply IH.
Qed.

Lemma dval_shift m s v : dval 0 s = Some v -> dval m s = Some (m * 10 ^ Z.of_nat (String.length s) + v).
Proof.
  assert (forall m k, dval (m + k) s = (fun v => m * 10 ^ Z.of_nat (String.length s) + v) <$> dval k s) as G.
  { clear m v. induction s as [|c s IH]; intros m k; [cbn; f_equal; lia |]. cbn [dval String.length].
    destruct (digit_val c) as [d|]; [| done]. cbn [mbind option_bind].
    replace ((m + k) * 10 + d) with (m * 10 + (k * 10 + d)) by lia. rewrite IH.
    rewrite Nat2Z.inj_succ, Z.pow_succ_r by lia. destruct (dval (k * 10 + d) s); [| done]. cbn. f_equal. ring. }
  intros H. replace m with (m + 0) at 1 by lia. by rewrite G, H.
Qed.

Lemma dval_digits_go f n acc : 0 <= n < 10 ^ Z.of_nat f -> dval 0 (digits_go f n acc) = dval n acc.
Proof.
  revert n acc. induction f as [|f IH]; intros n acc Hn; [by replace n with 0 by lia |].
  cbn [digits_go]. pose proof (Z.mod_pos_bound n 10 ltac:(lia)). pose proof (Z.div_mod n 10 ltac:(lia)).
  destruct (Z.ltb_spec n 10).
  - cbn [dval]. rewrite digit_val_char by lia. cbn [mbind option_bind]. rewrite Z.mod_small by lia. done.
  - rewrite Nat2Z.inj_succ, Z.pow_succ_r in Hn by lia.
    rewrite IH by (split; [apply Z.div_pos; lia | apply Z.div_lt_upper_bound; lia]).
    cbn [dval]. rewrite digit_val_char by lia. cbn [mbind option_bind]. f_equal. lia.
Qed.

Lemma dval_nat_str n : 0 <= n -> dval 0 (nat_str n) = Some n.
Proof. intros Hn. unfold nat_str. rewrite dval_digits_go; [done |]. split; [done | by apply log2_fuel]. Qed.

Lemma dval_zeros n m : dval m (zeros n) = Some (m * 10 ^ Z.of_nat n).
Proof.
  revert m. induction n as [|n IH]; intros m; [cbn; f_equal; lia |].
  change (dval m (zeros (S n))) with (dval (m * 10 + 0) (zeros n)).
  rewrite IH, Nat2Z.inj_succ, Z.pow_succ_r by lia. f_equal. ring.
Qed.

Lemma zeros_length n : String.length (zeros n) = n.
Proof. induction n as [|n IH]; [done |]. unfold zeros in *. cbn [str_repeat]. rewrite string_app_cons, string_app_empty. cbn [String.length]. lia. Qed.

Lemma nat_str_length n k : 0 <= n < 10 ^ Z.of_nat (S k) -> (String.length (nat_str n) <= S k)%nat.
Proof.
  assert (forall f n k acc, 0 <= n < 10 ^ Z.of_nat (S k) ->
            (String.length (digits_go f n acc) <= S k + String.length acc)%nat) as G.
  { clear n k. induction f as [|f IH]; intros n k acc Hn; cbn [digits_go]; [lia |].
    destruct (Z.ltb_spec n 10); [cbn [String.length]; lia |].
    destruct k as [|k]; [cbn in Hn; lia |].
    rewrite Nat2Z.inj_succ, Z.pow_succ_r in Hn by lia.
    specialize (IH (n / 10) k (String (digit_char (n mod 10)) acc)). cbn [String.length] in IH.
    eapply Nat.le_trans; [apply IH |]; [| lia].
    split; [apply Z.div_pos; lia | apply Z.div_lt_upper_bound; lia]. }
  intros Hn. unfold nat_str. pose proof (G (Z.to_nat (Z.log2 n) + 1)%nat n k "" Hn). cbn [String.length] in *. lia.
Qed.

Lemma read_digits_dval m c s v : dval m s = Some v ->
  read_digits m c s = (v, c + Z.of_nat (String.length s), "").
Proof.
  revert m c. induction s as [|a s IH]; intros m c; cbn [dval read_digits String.length].
  - intros [= ->]. do 2 f_equal. lia.
  - destruct (digit_val a) as [d|]; [| done]. cbn [mbind option_bind]. intros H. rewrite (IH _ _ H). do 2 f_equal. lia.
Qed.

Lemma parse_digits_dval s v : s <> "" -> dval 0 s = Some v -> parse_digits s = Some v.
Proof.
  intros Hs H. unfold parse_digits. rewrite (read_digits_dval _ _ _ _ H).
  destruct (Z.eqb_spec (0 + Z.of_nat (String.length s)) 0); [| done]. destruct s; [done | cbn in *; lia].
Qed.

Lemma dval_head s v c r : dval 0 s = Some v -> s = String c r -> 48 <= code c <= 57.
Proof.
  intros H ->. cbn [dval] in H. unfold digit_val in H. fold (code c) in H.
  destruct (Z.leb_spec 48 (code c)), (Z.leb_spec (code c) 57); try done.
Qed.

(** A signed string of digits as an [int64]. *)
Lemma ParseInt_digits f s : - 2 ^ 63 <= f < 2 ^ 63 -> s <> "" -> dval 0 s = Some (Z.abs f) ->
  ParseInt ((if f <? 0 then "-" else "") +:+ s) = Some f.
Proof.
  intros Hf Hs H. pose proof (parse_digits_dval s _ Hs H) as Hp.
  destruct (Z.ltb_spec f 0).
  - change ("-" +:+ s)%string with (String "-" s). cbn [ParseInt]. change (code "-" =? 45) with true. cbv iota.
    rewrite Hp. cbn [mbind option_bind]. destruct (Z.leb_spec (Z.abs f) (2 ^ 63)); [f_equal; lia | lia].
  - rewrite string_app_empty. destruct s as [|c r]; [done |]. pose proof (dval_head _ _ c r H eq_refl).
    unfold ParseInt. destruct (Z.eqb_spec (code c) 45); [lia |]. destruct (Z.eqb_spec (code c) 43); [lia |].
    rewrite Hp. cbn [mbind option_bind]. destruct (Z.ltb_spec (Z.abs f) (2 ^ 63)); [f_equal; lia | lia].
Qed.

Lemma index_dot_digits s t v m : dval m s = Some v -> index_dot (s +:+ t) = Nat.add (String.length s) <$> index_dot t.
Proof.
  revert m. induction s as [|c s IH]; intros m H; [by rewrite string_app_empty; destruct (index_dot t) |].
  rewrite string_app_cons. cbn [dval index_dot String.length] in *. unfold digit_val in H. fold (code c) in H.
  destruct (Z.leb_spec 48 (code c)), (Z.leb_spec (code c) 57); try done. cbn [andb mbind option_bind] in H.
  destruct (Z.eqb_spec (code c) 46); [lia |]. rewrite (IH _ H). by destruct (index_dot t).
Qed.

Lemma index_dot_sign (b : bool) s :
  index_dot ((if b then "-" else "") +:+ s) = Nat.add (String.length (if b then "-" else "")) <$> index_dot s.
Proof.
  destruct b; [rewrite string_app_cons |]; rewrite string_app_empty; cbn [index_dot String.length];
    [change (code "-" =? 46) with false |]; by destruct (index_dot s).
Qed.

Lemma str_take_app a b : str_take (String.length a) (a +:+ b) = a.
Proof. induction a as [|c a IH]; [by destruct b |]. rewrite string_app_cons. cbn. by rewrite IH. Qed.

(** The two forms of the text. *)
Lemma read_whole f q : - 2 ^ 63 <= f < 2 ^ 63 -> 0 <= q -> Z.abs f = q * StorageFactor ->
  StringToFixed64 ((if f <? 0 then "-" else "") +:+ nat_str q) = Some f.
Proof.
  intros Hf Hq E. unfold StringToFixed64. rewrite index_dot_sign.
  rewrite <- (string_app_nil_r (nat_str q)) at 1. rewrite (index_dot_digits _ _ _ 0 (dval_nat_str _ Hq)).
  cbn [index_dot fmap option_fmap option_map]. rewrite <- string_app_assoc. apply ParseInt_digits; [done | |].
  - intros H. apply (f_equal String.length) in H. rewrite string_length_app, zeros_length in H. unfold MaximumPrecision in H. cbn in H. lia.
  - rewrite dval_app, dval_nat_str by done. cbn [mbind option_bind]. by rewrite dval_zeros, E.
Qed.

Lemma read_fraction f q r pad : - 2 ^ 63 <= f < 2 ^ 63 -> 0 <= q -> Z.abs f = q * StorageFactor + r ->
  String.length pad = MaximumPrecision -> dval 0 pad = Some r ->
  StringToFixed64 (((if f <? 0 then "-" else "") +:+ nat_str q) +:+ "." +:+ pad) = Some f.
Proof.
  intros Hf Hq E Hp Hr. set (sign := if f <? 0 then "-" else ""). set (whole := (sign +:+ nat_str q)%string).
  assert (index_dot (whole +:+ "." +:+ pad) = Some (String.length whole)) as Hi.
  { unfold whole, sign. rewrite <- string_app_assoc, index_dot_sign, (index_dot_digits _ _ _ 0 (dval_nat_str _ Hq)).
    rewrite (string_app_cons "."), string_app_empty. cbn [index_dot]. change (code "." =? 46) with true.
    cbn [fmap option_fmap option_map]. f_equal. rewrite string_length_app. lia. }
  unfold StringToFixed64. rewrite Hi. rewrite !string_length_app, Hp. change (String.length ".") with 1%nat.
  replace (String.length whole + (1 + MaximumPrecision) - String.length whole - 1)%nat with MaximumPrecision by lia.
  change (MaximumPrecision <? MaximumPrecision)%nat with false. cbv iota zeta. rewrite str_take_app.
  replace (S (String.length whole)) with (String.length (whole +:+ ".")) by (rewrite string_length_app; cbn; lia).
  rewrite (string_app_assoc whole "."), str_drop_app, Nat.sub_diag. change (zeros 0) with "".
  rewrite string_app_nil_r. unfold whole. rewrite <- string_app_assoc. apply ParseInt_digits; [done | |].
  - intros H. apply (f_equal String.length) in H. rewrite string_length_app, Hp in H. unfold MaximumPrecision in H. cbn in H. lia.
  - rewrite dval_app, dval_nat_str by done. cbn [mbind option_bind]. rewrite (dval_shift _ pad r Hr), Hp, E. done.
Qed.

(** Every amount is read back from its text, the smallest one included, whose
    negation wraps around. *)
Lemma StringToFixed64_String f : - 2 ^ 63 <= f < 2 ^ 63 -> StringToFixed64 (Fixed64_String f) = Some f.
Proof.
  intros Hf. unfold Fixed64_String.
  assert ((if f <? 0 then ("-", uint64 (int64 (- f))) else ("", uint64 f)) = (if f <? 0 then "-" else "", Z.abs f)) as ->.
  { unfold uint64, int64. destruct (Z.ltb_spec f 0); f_equal; [| rewrite Z.mod_small; lia].
    destruct (decide (f = - 2 ^ 63)) as [-> | Hn]; [done |]. rewrite (Z.mod_small (- f + 2 ^ 63)) by lia.
    rewrite Z.mod_small; lia. }
  pose proof (Z.div_mod (Z.abs f) StorageFactor ltac:(done)) as Hdm.
  pose proof (Z.mod_pos_bound (Z.abs f) StorageFactor ltac:(done)) as Hr.
  assert (0 <= Z.abs f / StorageFactor) as Hq by (apply Z.div_pos; [lia | done]).
  cbv iota beta zeta. destruct (Z.ltb_spec 0 (Z.abs f mod StorageFactor)); [| apply read_whole; lia].
  assert (String.length (nat_str (Z.abs f mod StorageFactor)) <= 8)%nat as Hs by (apply (nat_str_length _ 7); exact Hr).
  apply (read_fraction f _ (Z.abs f mod StorageFactor)); [done | done | lia | |].
  - rewrite string_length_app, zeros_length. unfold MaximumPrecision. lia.
  - rewrite dval_app, dval_zeros. cbn [mbind option_bind]. by apply dval_nat_str, Hr.
Qed.

(** The text of an amount is ASCII. *)
Lemma digits_ascii s : forall m v, dval m s = Some v -> ascii_text s = true.
Proof.
  induction s as [|c s IH]; intros m v; [done |]. cbn [dval ascii_text]. unfold digit_val. fold (code c).
  destruct (_ && _) eqn:E; [| done]. cbn [mbind option_bind]. intros H%IH. rewrite H, andb_true_r.
  apply andb_true_iff in E as [_ E%Z.leb_le]. apply Z.ltb_lt. lia.
Qed.

Lemma Fixed64_String_ascii f : ascii_text (Fixed64_String f) = true.
Proof.
  assert (forall n, 0 <= n -> ascii_text (nat_str n) = true) as Hn by (intros n H; exact (digits_ascii _ _ _ (dval_nat_str n H))).
  assert (forall z, 0 <= uint64 z) as Hu by (intros z; unfold uint64; pose proof (Z.mod_pos_bound z (2 ^ 64)); lia).
  unfold Fixed64_String. destruct (if f <? 0 then _ else _) as [sign value] eqn:E.
  assert (0 <= value /\ ascii_text sign = true) as [Hv Hs] by (destruct (f <? 0); by simplify_eq).
  pose proof (Z.mod_pos_bound value StorageFactor ltac:(done)). assert (0 <= value / StorageFactor) by by apply Z.div_pos.
  destruct (0 <? value mod StorageFactor); rewrite ?ascii_app, ?Hs, ?Hn, ?(digits_ascii _ _ _ (dval_zeros _ 0)) by lia; done.
Qed.
