(* ===== verification/DecimalLib.v ===== *)
(** * decimal.js

    The part of the decimal.js API the dashboard calls, as an interface: the
    operations, what its documentation says they compute on finite decimal
    values (exact while the result has at most twenty significant digits, the
    default precision), and an instance of exact decimals. *)

From S2P Require Import Prelude JsNum JsValue Json.
Local Open Scope Z_scope.

(** ** Decimal text *)

(** The last [k] decimal digits of [n]. *)
Fixpoint frac_str (k : nat) (n : Z) : string :=
  match k with
  | O => ""
  | S k' => String (digit_char (n / 10 ^ Z.of_nat k' mod 10)) (frac_str k' n)
  end.

(** The fraction m / 10^k without trailing zeros. *)
Fixpoint strip (m : Z) (k : nat) : Z * nat :=
  match k with
  | O => (m, O)
  | S k' => if m mod 10 =? 0 then strip (m / 10) k' else (m, k)
  end.

Definition fixed_text (m : Z) (k : nat) : string :=
  match k with
  | O => nat_str m
  | S _ => (nat_str (m / 10 ^ Z.of_nat k) +:+ String "." (frac_str k m))%string
  end.

(** The non-negative value m / 10^k in normal notation, without exponent. *)
Definition fixed_str (m : Z) (k : nat) : string := let '(m', k') := strip m k in fixed_text m' k'.

(** ** Hexadecimal text *)

Fixpoint hex_go (fuel : nat) (n : Z) (acc : string) : string :=
  match fuel with
  | O => acc
  | S f =>
      let acc' := String (hex_digit (n mod 16)) acc in
      if n <? 16 then acc' else hex_go f (n / 16) acc'
  end.

(** The hexadecimal digits of a non-negative integer. *)
Definition hex_str (n : Z) : string := hex_go (Z.to_nat (Z.log2 n) + 1) n "".

(** ** The interface *)

(** A [Decimal.Value]: a JavaScript value or a Decimal. *)
Inductive dec_in (D : Type) : Type :=
| DVal (v : jsval)
| DDec (d : D).
Arguments DVal {D} v.
Arguments DDec {D} d.

Class DecimalJS : Type := {
  Decimal : Type;
  Decimal_new : dec_in Decimal -> js Decimal;
  Decimal_add : dec_in Decimal -> dec_in Decimal -> js Decimal;
  Decimal_sub : dec_in Decimal -> dec_in Decimal -> js Decimal;
  Decimal_mul : dec_in Decimal -> dec_in Decimal -> js Decimal;
  Decimal_div : dec_in Decimal -> dec_in Decimal -> js Decimal;
  d_floor : Decimal -> Decimal;
  d_eq : Decimal -> dec_in Decimal -> js bool;
  d_gt : Decimal -> dec_in Decimal -> js bool;
  d_gte : Decimal -> dec_in Decimal -> js bool;
  d_lt : Decimal -> dec_in Decimal -> js bool;
  d_lte : Decimal -> dec_in Decimal -> js bool;
  d_dp : Decimal -> num;
  d_toFixed : Decimal -> string;
  d_toHexadecimal : Decimal -> string;
  d_toNumber : Decimal -> num
}.

(** At most twenty significant digits, trailing zeros apart. *)
Definition precise (m : Z) : Prop :=
  exists m' j, m = m' * 10 ^ Z.of_nat j /\ - 10 ^ 20 < m' < 10 ^ 20.

Lemma precise_small m : - 10 ^ 20 < m < 10 ^ 20 -> precise m.
Proof. intros H. exists m, O. split; [by rewrite Z.mul_1_r | done]. Qed.

(** The value [x] converts to a Decimal of value m / 10^k. *)
Definition denotes_by {D : DecimalJS} (rep : Decimal -> Z -> nat -> Prop)
    (x : dec_in Decimal) (m : Z) (k : nat) : Prop :=
  exists d, Decimal_new x = Ok d /\ rep d m k.

(** [rep d m k]: the value of [d] is m / 10^k. *)
Class DecimalLaws (D : DecimalJS) : Type := {
  rep : Decimal -> Z -> nat -> Prop;
  new_copy : forall d m k, rep d m k -> denotes_by rep (DDec d) m k;
  new_int : forall z, safe z -> denotes_by rep (DVal (VInt z)) z 0;
  new_num : forall n m k, 0 <= m -> num_str n = fixed_str m k -> denotes_by rep (DVal (VNum n)) m k;
  new_fixed : forall m k, 0 <= m -> denotes_by rep (DVal (VStr (fixed_str m k))) m k;
  new_hex : forall s z c, read_radix 16 0 0 s = (z, c, "") -> 0 < c ->
    denotes_by rep (DVal (VStr (String "0" (String "x" s)))) z 0;
  add_law : forall x y m n k, denotes_by rep x m k -> denotes_by rep y n k -> precise (m + n) ->
    exists d, Decimal_add x y = Ok d /\ rep d (m + n) k;
  sub_law : forall x y m n k, denotes_by rep x m k -> denotes_by rep y n k -> precise (m - n) ->
    exists d, Decimal_sub x y = Ok d /\ rep d (m - n) k;
  mul_law : forall x y m n k j, denotes_by rep x m k -> denotes_by rep y n j -> precise (m * n) ->
    exists d, Decimal_mul x y = Ok d /\ rep d (m * n) (k + j);
  div_pow10_law : forall x y m k j,
    denotes_by rep x m k -> denotes_by rep y (10 ^ Z.of_nat j) 0 -> precise m ->
    exists d, Decimal_div x y = Ok d /\ rep d m (k + j);
  floor_law : forall d m k, rep d m k -> rep (d_floor d) (m / 10 ^ Z.of_nat k) 0;
  rep_scale : forall d m k j, rep d (m * 10 ^ Z.of_nat j) (k + j) <-> rep d m k;
  toFixed_law : forall d m k, 0 <= m -> rep d m k -> d_toFixed d = fixed_str m k;
  toHexadecimal_law : forall d z, 0 <= z -> precise z -> rep d z 0 ->
    d_toHexadecimal d = String "0" (String "x" (hex_str z));
  toNumber_law : forall d z, safe z -> rep d z 0 -> d_toNumber d = num_of_Z z;
  dp_law : forall d m k, rep d m k -> d_dp d = num_of_Z (Z.of_nat (strip m k).2);
  gt_law : forall d y m n k, rep d m k -> denotes_by rep y n k -> d_gt d y = Ok (n <? m);
  gte_law : forall d y m n k, rep d m k -> denotes_by rep y n k -> d_gte d y = Ok (n <=? m);
  lt_law : forall d y m n k, rep d m k -> denotes_by rep y n k -> d_lt d y = Ok (m <? n);
  lte_law : forall d y m n k, rep d m k -> denotes_by rep y n k -> d_lte d y = Ok (m <=? n);
  eq_law : forall d y m n k, rep d m k -> denotes_by rep y n k -> d_eq d y = Ok (m =? n)
}.
Abbreviation denotes := (denotes_by rep).

(** ** Hexadecimal text reads back *)

Lemma radix_val_hex d : 0 <= d < 16 -> radix_val 16 (hex_digit d) = Some d.
Proof.
  intros Hd. assert (Forall (fun d => radix_val 16 (hex_digit d) = Some d) (seqZ 0 16)) as F
    by (repeat constructor).
  rewrite list.Forall_forall in F. apply F. rewrite elem_of_seqZ. lia.
Qed.

Lemma read_hex_go f n acc cnt :
  0 <= n < 16 ^ Z.of_nat f ->
  exists k, 0 <= k /\ (f <> O -> 0 < k) /\
    read_radix 16 0 cnt (hex_go f n acc) = read_radix 16 n (cnt + k) acc.
Proof.
  revert n acc. induction f as [|f IH]; intros n acc Hn.
  - exists 0. assert (n = 0) as -> by lia. cbn. by rewrite Z.add_0_r.
  - cbn [hex_go]. pose proof (Z.mod_pos_bound n 16 ltac:(lia)) as Hm.
    pose proof (Z.div_mod n 16 ltac:(lia)) as Hdm. destruct (Z.ltb_spec n 16).
    + exists 1. split_and!; [lia | lia |]. cbn [read_radix]. rewrite radix_val_hex by done.
      f_equal. rewrite Z.mod_small by lia. lia.
    + assert (0 <= n / 16 < 16 ^ Z.of_nat f) as Hn'.
      { rewrite Nat2Z.inj_succ, Z.pow_succ_r in Hn by lia.
        split; [apply Z.div_pos; lia | apply Z.div_lt_upper_bound; lia]. }
      destruct (IH (n / 16) (String (hex_digit (n mod 16)) acc) Hn') as (k & Hk & _ & E).
      exists (k + 1). split_and!; [lia | lia |]. rewrite E. cbn [read_radix].
      rewrite radix_val_hex by done. f_equal; lia.
Qed.

Lemma read_hex_str n : 0 <= n -> exists k, 0 < k /\ read_radix 16 0 0 (hex_str n) = (n, k, "").
Proof.
  intros Hn. unfold hex_str. pose proof (Z.log2_nonneg n).
  destruct (read_hex_go (Z.to_nat (Z.log2 n) + 1) n "" 0) as (k & _ & Hk & E).
  { split; [done |]. eapply Z.lt_le_trans; [by apply log2_fuel |]. apply Z.pow_le_mono_l. lia. }
  exists k. split; [apply Hk; lia |]. by rewrite E.
Qed.

(** A leading zero does not change the value. *)
Lemma read_hex_pad n : 0 <= n ->
  exists k, 0 < k /\ read_radix 16 0 0 (String "0" (hex_str n)) = (n, k, "").
Proof.
  intros Hn. unfold hex_str. pose proof (Z.log2_nonneg n).
  destruct (read_hex_go (Z.to_nat (Z.log2 n) + 1) n "" 1) as (k & Hk & _ & E).
  { split; [done |]. eapply Z.lt_le_trans; [by apply log2_fuel |]. apply Z.pow_le_mono_l. lia. }
  exists (1 + k). split; [lia |].
  transitivity (read_radix 16 0 1 (hex_go (Z.to_nat (Z.log2 n) + 1) n "")); [reflexivity | by rewrite E].
Qed.

(** ** Decimal text reads back, and trailing zeros do not matter *)

Lemma read_frac_str k n acc cnt s :
  match s with String c _ => digit_val c = None | EmptyString => True end ->
  read_digits acc cnt (frac_str k n +:+ s)%string
  = (acc * 10 ^ Z.of_nat k + n mod 10 ^ Z.of_nat k, cnt + Z.of_nat k, s).
Proof.
  intros Hs. revert acc cnt. induction k as [|k IH]; intros acc cnt; cbn [frac_str].
  - rewrite string_app_empty, Z.mod_1_r. replace (acc * 10 ^ Z.of_nat 0 + 0) with acc by lia.
    rewrite Z.add_0_r. destruct s as [|c s]; [done |]. cbn. by rewrite Hs.
  - rewrite string_app_cons. cbn [read_digits].
    rewrite digit_val_char by (apply Z.mod_pos_bound; lia). rewrite IH.
    rewrite Nat2Z.inj_succ, Z.pow_succ_r by lia. set (p := 10 ^ Z.of_nat k).
    assert (0 < p) by (apply Z.pow_pos_nonneg; lia).
    rewrite (Z.mul_comm 10 p), Z.rem_mul_r by lia. do 2 f_equal; lia.
Qed.

Lemma strip_scale m k j : strip (m * 10 ^ Z.of_nat j) (k + j) = strip m k.
Proof.
  induction j as [|j IH]; [by rewrite Z.mul_1_r, Nat.add_0_r |].
  rewrite Nat.add_succ_r. cbn [strip]. rewrite Nat2Z.inj_succ, Z.pow_succ_r by lia.
  replace (m * (10 * 10 ^ Z.of_nat j)) with (m * 10 ^ Z.of_nat j * 10) by lia.
  rewrite Z_mod_mult, Z_div_mult by lia. exact IH.
Qed.

Lemma strip_value m k :
  let '(m', k') := strip m k in (k' <= k)%nat /\ m = m' * 10 ^ Z.of_nat (k - k').
Proof.
  revert m. induction k as [|k IH]; intros m; cbn [strip]; [split; cbn; lia |].
  destruct (Z.eqb_spec (m mod 10) 0) as [Hm | Hm]; [| rewrite Nat.sub_diag; split; [lia | by rewrite Z.mul_1_r]].
  specialize (IH (m / 10)). destruct (strip (m / 10) k) as [m' k']. destruct IH as [Hk E].
  split; [lia |]. rewrite Nat.sub_succ_l, Nat2Z.inj_succ, Z.pow_succ_r by lia.
  pose proof (Z.div_mod m 10 ltac:(lia)). lia.
Qed.

Lemma fixed_str_scale m k j : fixed_str (m * 10 ^ Z.of_nat j) (k + j) = fixed_str m k.
Proof. unfold fixed_str. by rewrite strip_scale. Qed.

(** ** An instance: exact decimals m / 10^k *)

Module ToyDecimal.
Definition dec : Type := (Z * nat)%type.

(** Decimal text and hexadecimal text with its prefix. *)
Definition parse_dec (s : string) : option dec :=
  match s with
  | String "0" (String "x" r) =>
      let '(z, c, rest) := read_radix 16 0 0 r in
      if (0 <? c) && String.eqb rest "" then Some (z, O) else None
  | _ =>
      let '(neg, r) := read_sign s in
      let '(i, c, r1) := read_digits 0 0 r in
      let '(m, k, r2) := match r1 with String "." r' => read_digits i 0 r' | _ => (i, 0, r1) end in
      if (0 <? c) && String.eqb r2 "" then Some (if neg then - m else m, Z.to_nat k) else None
  end.

Definition of_value (x : dec_in dec) : js dec :=
  match x with
  | DDec d => Ok d
  | DVal (VNum n) => match parse_dec (num_str n) with Some d => Ok d | None => Err (Error "DecimalError") end
  | DVal (VStr s) => match parse_dec s with Some d => Ok d | None => Err (Error "DecimalError") end
  | DVal _ => Err (Error "DecimalError")
  end.

(** Both operands on a common scale. *)
Definition op (f : dec -> dec -> dec) (x y : dec_in dec) : js dec :=
  a ← of_value x; b ← of_value y; Ok (f a b).
Definition on_scale (f : Z -> Z -> Z) (a b : dec) : dec :=
  (f (a.1 * 10 ^ Z.of_nat b.2) (b.1 * 10 ^ Z.of_nat a.2), (a.2 + b.2)%nat).
Definition compare_with (f : Z -> Z -> bool) (a : dec) (y : dec_in dec) : js bool :=
  b ← of_value y; Ok (f (a.1 * 10 ^ Z.of_nat b.2) (b.1 * 10 ^ Z.of_nat a.2)).
Definition divide (a b : dec) : dec :=
  let l := Z.to_nat (Z.log2 b.1) in
  (a.1 * 10 ^ Z.of_nat (b.2 + l) / b.1, (a.2 + l)%nat).
Definition whole (a : dec) : Z := a.1 / 10 ^ Z.of_nat a.2.

Definition dec_rep (d : dec) (m : Z) (k : nat) : Prop :=
  d.1 * 10 ^ Z.of_nat k = m * 10 ^ Z.of_nat d.2.

#[export] Instance decimal : DecimalJS := {
  Decimal := dec;
  Decimal_new := of_value;
  Decimal_add := op (on_scale Z.add);
  Decimal_sub := op (on_scale Z.sub);
  Decimal_mul := op (fun a b => (a.1 * b.1, (a.2 + b.2)%nat));
  Decimal_div := op divide;
  d_floor := fun a => (whole a, O);
  d_eq := compare_with Z.eqb;
  d_gt := compare_with Z.gtb;
  d_gte := compare_with Z.geb;
  d_lt := compare_with Z.ltb;
  d_lte := compare_with Z.leb;
  d_dp := fun a => num_of_Z (Z.of_nat (strip a.1 a.2).2);
  d_toFixed := fun a => fixed_str a.1 a.2;
  d_toHexadecimal := fun a => String "0" (String "x" (hex_str (whole a)));
  d_toNumber := fun a => num_of_Z (whole a)
}.

Lemma pow10_pos k : 0 < 10 ^ Z.of_nat k.
Proof. apply Z.pow_pos_nonneg; lia. Qed.

Lemma pow10_add j k : 10 ^ Z.of_nat (j + k) = 10 ^ Z.of_nat j * 10 ^ Z.of_nat k.
Proof. rewrite Nat2Z.inj_add, Z.pow_add_r; lia. Qed.

Lemma whole_rep d m k : dec_rep d m k -> whole d = m / 10 ^ Z.of_nat k.
Proof.
  unfold dec_rep, whole. intros H. pose proof (pow10_pos k). pose proof (pow10_pos d.2).
  rewrite <- (Z.div_mul_cancel_r d.1 _ (10 ^ Z.of_nat k)) by lia.
  rewrite H, (Z.mul_comm (10 ^ Z.of_nat d.2)). apply Z.div_mul_cancel_r; lia.
Qed.

(** Decimal text that is not hexadecimal text. *)
Lemma parse_dec_decimal (neg : bool) s i c m k r1 :
  0 < c -> read_digits 0 0 s = (i, c, r1) ->
  match s with String h _ => is_digit h = true | EmptyString => False end ->
  (r1 = "" /\ m = i /\ k = 0 \/ exists r', r1 = String "." r' /\ read_digits i 0 r' = (m, k, "")) ->
  parse_dec (if neg then String "-" s else s) = Some (if neg then - m else m, Z.to_nat k).
Proof.
  intros Hc E Hh Hr.
  assert (parse_dec (if neg then String "-" s else s) =
    let '(m', k', r2) := match r1 with String "." r' => read_digits i 0 r' | _ => (i, 0, r1) end in
    if (0 <? c) && String.eqb r2 "" then Some (if neg then - m' else m', Z.to_nat k') else None) as ->.
  { unfold parse_dec. destruct neg.
    - cbn [read_sign]. by rewrite E.
    - destruct s as [|h s]; [done |]. rewrite read_sign_digit by done. rewrite E.
      destruct s as [|x s]; [by destruct h as [[] [] [] [] [] [] [] []] |].
      destruct (Ascii.eqb_spec h "0") as [-> |]; [| by destruct h as [[] [] [] [] [] [] [] []]].
      destruct (Ascii.eqb_spec x "x") as [-> |]; [| by destruct x as [[] [] [] [] [] [] [] []]].
      cbn in E. injection E as <- <- <-. by destruct Hr as [[? _] | (r' & ? & _)]. }
  destruct (Z.ltb_spec 0 c); [| lia].
  destruct Hr as [(-> & -> & ->) | (r' & -> & ->)]; [done |]. done.
Qed.

Lemma parse_dec_int z : parse_dec (int_str z) = Some (z, O).
Proof.
  unfold int_str.
  assert (forall (neg : bool) n, 0 <= n ->
    parse_dec (if neg then String "-" (nat_str n) else nat_str n) = Some (if neg then - n else n, O)) as H.
  { intros neg n Hn. destruct (read_digits_nat_str n "" Hn I) as (c & Hc & E). rewrite string_app_nil_r in E.
    destruct (nat_str_head n Hn) as (h & t & Eh & Hh).
    apply (parse_dec_decimal neg _ n c n 0 ""); try done; [by rewrite Eh | by left]. }
  destruct (Z.ltb_spec z 0).
  - rewrite (H true) by lia. do 2 f_equal. lia.
  - by apply (H false).
Qed.

Lemma parse_dec_fixed m k : 0 <= m -> parse_dec (fixed_str m k) = Some (strip m k).
Proof.
  intros Hm. unfold fixed_str. pose proof (strip_value m k) as Hv.
  destruct (strip m k) as [m' k']. destruct Hv as [Hk Hv].
  assert (0 <= m') as Hm' by (pose proof (pow10_pos (k - k')); nia).
  destruct k' as [|k']; cbn [fixed_text].
  { pose proof (parse_dec_int m') as H. unfold int_str in H. by destruct (Z.ltb_spec m' 0); [lia |]. }
  set (q := m' / _). assert (0 <= q) as Hq by (apply Z.div_pos; [done | apply pow10_pos]).
  destruct (read_digits_nat_str q (String "." (frac_str (S k') m')) Hq eq_refl) as (c & Hc & E).
  destruct (nat_str_head q Hq) as (h & t & Eh & Hh).
  rewrite (parse_dec_decimal false _ q c m' (Z.of_nat (S k')) (String "." (frac_str (S k') m')));
    [by rewrite Nat2Z.id | done | done | by rewrite Eh, string_app_cons |].
  right. eexists. split; [done |].
  rewrite <- (string_app_nil_r (frac_str (S k') m')), read_frac_str by done.
  do 2 f_equal. pose proof (pow10_pos (S k')).
  pose proof (Z.div_mod m' (10 ^ Z.of_nat (S k')) ltac:(lia)). fold q in H0. lia.
Qed.

Lemma strip_rep m k : dec_rep (strip m k) m k.
Proof.
  unfold dec_rep. pose proof (strip_value m k) as H. destruct (strip m k) as [m' k'].
  destruct H as [Hk ->]. cbn. rewrite <- Z.mul_assoc, <- pow10_add. do 3 f_equal. lia.
Qed.

Lemma denotes_value x m k : denotes_by dec_rep x m k <-> exists d, of_value x = Ok d /\ dec_rep d m k.
Proof. done. Qed.

Lemma fixed_rep d m k : dec_rep d m k -> fixed_str d.1 d.2 = fixed_str m k.
Proof.
  unfold dec_rep. intros H. rewrite <- (fixed_str_scale d.1 d.2 k), H.
  rewrite Nat.add_comm. apply fixed_str_scale.
Qed.

Lemma divide_rep a b m k j :
  dec_rep a m k -> dec_rep b (10 ^ Z.of_nat j) 0 -> dec_rep (divide a b) m (k + j).
Proof.
  unfold dec_rep, divide. destruct a as [a ka], b as [b kb]. cbn. rewrite Z.mul_1_r. intros Ha ->.
  rewrite <- pow10_add. set (l := Z.to_nat (Z.log2 _)).
  assert (j + kb <= l)%nat as Hl.
  { unfold l. apply Nat2Z.inj_le. rewrite Z2Nat.id by apply Z.log2_nonneg.
    etransitivity; [| apply Z.log2_le_mono, (Z.pow_le_mono_l 2); lia].
    rewrite Z.log2_pow2; lia. }
  replace (kb + l)%nat with ((kb + l - (j + kb)) + (j + kb))%nat by lia.
  rewrite pow10_add, Z.mul_assoc, Z.div_mul by (pose proof (pow10_pos (j + kb)); lia).
  rewrite <- Z.mul_assoc, <- pow10_add, Z.mul_comm.
  transitivity (a * 10 ^ Z.of_nat k * 10 ^ Z.of_nat l).
  - rewrite <- Z.mul_assoc, <- pow10_add, Z.mul_comm. do 3 f_equal. lia.
  - rewrite Ha, <- Z.mul_assoc, <- pow10_add. done.
Qed.

(** Comparisons on a common scale decide the comparisons of the mantissas. *)
Lemma scaled_order a b m n k :
  dec_rep a m k -> dec_rep b n k ->
  let x := a.1 * 10 ^ Z.of_nat b.2 in let y := b.1 * 10 ^ Z.of_nat a.2 in
  (x < y <-> m < n) /\ (x = y <-> m = n).
Proof.
  unfold dec_rep. destruct a as [a ka], b as [b kb]; cbn. intros Ha Hb.
  pose proof (pow10_pos k). pose proof (pow10_pos ka). pose proof (pow10_pos kb).
  set (p := 10 ^ Z.of_nat k) in *. set (pa := 10 ^ Z.of_nat ka) in *. set (pb := 10 ^ Z.of_nat kb) in *.
  assert (a * pb * p = m * (pa * pb)) as E1 by nia. assert (b * pa * p = n * (pa * pb)) as E2 by nia.
  assert (0 < pa * pb) by nia. split; split; intros Hlt; nia.
Qed.

Lemma op_law f x y (P : dec -> Prop) :
  (exists a b, of_value x = Ok a /\ of_value y = Ok b /\ P (f a b)) ->
  exists d, op f x y = Ok d /\ P d.
Proof. intros (a & b & Ha & Hb & H). unfold op. rewrite Ha. bind_simpl. rewrite Hb. eauto. Qed.

Lemma on_scale_rep f a b m n k :
  (forall x y p, f (x * p) (y * p) = f x y * p) ->
  dec_rep a m k -> dec_rep b n k -> dec_rep (on_scale f a b) (f m n) k.
Proof.
  intros Hf. unfold dec_rep, on_scale. destruct a as [a ka], b as [b kb]; cbn. intros Ha Hb.
  rewrite pow10_add, <- Hf. set (p := 10 ^ Z.of_nat k) in *.
  replace (a * 10 ^ Z.of_nat kb * p) with (a * p * 10 ^ Z.of_nat kb) by lia.
  replace (b * 10 ^ Z.of_nat ka * p) with (b * p * 10 ^ Z.of_nat ka) by lia.
  rewrite Ha, Hb, <- Hf. f_equal; lia.
Qed.

Lemma whole_int d z : dec_rep d z 0 -> whole d = z.
Proof. intros H. rewrite (whole_rep _ _ _ H). apply Z.div_1_r. Qed.

Lemma compare_law f g d y m n k :
  (forall x x' m' n', (x < x' <-> m' < n') -> (x = x' <-> m' = n') -> f x x' = g m' n') ->
  dec_rep d m k -> denotes_by dec_rep y n k -> compare_with f d y = Ok (g m n).
Proof.
  intros Hf Hd (b & Hb & Hr). unfold compare_with. cbn in Hb. rewrite Hb. bind_simpl. f_equal.
  destruct (scaled_order d b m n k Hd Hr) as [H1 H2]. by apply Hf.
Qed.

#[export, refine] Instance decimal_laws : DecimalLaws decimal := { rep := dec_rep }.
Proof.
  - intros d m k H. by exists d.
  - intros z Hz. exists (z, O). cbn -[parse_dec]. by rewrite num_str_int, parse_dec_int.
  - intros n m k Hm E. exists (strip m k). split; [| apply strip_rep]. cbn -[parse_dec].
    by rewrite E, parse_dec_fixed.
  - intros m k Hm. exists (strip m k). split; [| apply strip_rep]. cbn -[parse_dec]. by rewrite parse_dec_fixed.
  - intros s z c E Hc. exists (z, O). cbn. rewrite E. by destruct (Z.ltb_spec 0 c); [| lia].
  - intros x y m n k (a & Ha & Hra) (b & Hb & Hrb) _. apply op_law. exists a, b. split_and!; [done.. |].
    apply on_scale_rep; [lia | done..].
  - intros x y m n k (a & Ha & Hra) (b & Hb & Hrb) _. apply op_law. exists a, b. split_and!; [done.. |].
    apply on_scale_rep; [lia | done..].
  - intros x y m n k j (a & Ha & Hra) (b & Hb & Hrb) _. apply op_law. exists a, b. split_and!; [done.. |].
    unfold dec_rep in *. cbn. rewrite !pow10_add.
    transitivity ((a.1 * 10 ^ Z.of_nat k) * (b.1 * 10 ^ Z.of_nat j)); [ring | rewrite Hra, Hrb; ring].
  - intros x y m k j (a & Ha & Hra) (b & Hb & Hrb) _. apply op_law. exists a, b. split_and!; [done.. |].
    by apply divide_rep.
  - intros d m k H. unfold dec_rep. cbn. by rewrite (whole_rep _ _ _ H).
  - intros d m k j. unfold dec_rep. rewrite pow10_add. pose proof (pow10_pos j). split; nia.
  - intros d m k _ H. by apply fixed_rep.
  - intros d z _ _ H. cbn. by rewrite (whole_int d z).
  - intros d z _ H. cbn. by rewrite (whole_int d z).
  - intros d m k H. cbn. unfold dec_rep in H. destruct d as [a ka]. cbn in *.
    by rewrite <- (strip_scale a ka k), H, Nat.add_comm, strip_scale.
  - intros d y m n k. apply (compare_law Z.gtb (fun m n => n <? m)). intros x x' m' n' H1 H2.
    rewrite Z.gtb_ltb. destruct (Z.ltb_spec x' x), (Z.ltb_spec n' m'); lia.
  - intros d y m n k. apply (compare_law Z.geb (fun m n => n <=? m)). intros x x' m' n' H1 H2.
    rewrite Z.geb_leb. destruct (Z.leb_spec x' x), (Z.leb_spec n' m'); lia.
  - intros d y m n k. apply compare_law. intros x x' m' n' H1 H2.
    destruct (Z.ltb_spec x x'), (Z.ltb_spec m' n'); lia.
  - intros d y m n k. apply compare_law. intros x x' m' n' H1 H2.
    destruct (Z.leb_spec x x'), (Z.leb_spec m' n'); lia.
  - intros d y m n k. apply compare_law. intros x x' m' n' H1 H2.
    destruct (Z.eqb_spec x x'), (Z.eqb_spec m' n'); lia.
Defined.
End ToyDecimal.
