(* ===== verification/MathHelpers.v ===== *)
(** * helpers/math.js and helpers/tools.js

    Decimal arithmetic, hexadecimal text and the conversion between fees in
    NKN and in its smallest unit. *)

From S2P Require Import Prelude JsNum JsValue Json DecimalLib.
Local Open Scope Z_scope.

Section MathHelpers.
Context {D : DecimalJS}.

(** ** helpers/math.js *)

Definition NKN_DP_LENGTH : Z := 8.

Definition newNum (arg : dec_in Decimal) : js Decimal := Decimal_new arg.

Definition NKN_ACC_MUL : js Decimal := newNum (DVal (VInt 100000000)).

Definition add (arg1 arg2 : dec_in Decimal) : js Decimal := Decimal_add arg1 arg2.
Definition sub (arg1 arg2 : dec_in Decimal) : js Decimal := Decimal_sub arg1 arg2.
Definition mul (arg1 arg2 : dec_in Decimal) : js Decimal := Decimal_mul arg1 arg2.

Definition mulAndFloor (arg1 arg2 : dec_in Decimal) : js Decimal :=
  d ← Decimal_mul arg1 arg2; Ok (d_floor d).

Definition div (arg1 arg2 : dec_in Decimal) : js Decimal := Decimal_div arg1 arg2.

Definition eq (arg1 arg2 : dec_in Decimal) : js bool := d ← Decimal_new arg1; d_eq d arg2.
Definition greaterThan (base target : dec_in Decimal) : js bool := d ← Decimal_new base; d_gt d target.
Definition greaterThanOrEqualTo (base target : dec_in Decimal) : js bool :=
  d ← Decimal_new base; d_gte d target.
Definition lessThan (base target : dec_in Decimal) : js bool := d ← Decimal_new base; d_lt d target.
Definition lessThanOrEqualTo (base target : dec_in Decimal) : js bool :=
  d ← Decimal_new base; d_lte d target.

Definition int2HexString (arg : dec_in Decimal) : js string :=
  d ← Decimal_new arg;
  let hexString := str_drop 2 (d_toHexadecimal (d_floor d)) in
  Ok (if Nat.eqb 1 (String.length hexString mod 2) then String "0" hexString else hexString).

(** [arg.slice] exists on strings and arrays; an array never equals ['0x']. *)
Definition hexString2Int (arg : jsval) : js Decimal :=
  match arg with
  | VStr s =>
      if String.eqb "0x" (str_take 2 s) then Decimal_new (DVal (VStr s))
      else Decimal_new (DVal (VStr (String "0" (String "x" s))))
  | VArr _ => Decimal_new (DVal (js_add (VStr "0x") arg))
  | _ => Err TypeError
  end.

(** ** helpers/tools.js *)

Definition formatFee (fee : jsval) : js jsval :=
  if truthy fee then
    n ← newNum (DVal fee);
    m ← NKN_ACC_MUL;
    d ← div (DDec n) (DDec m);
    Ok (VStr (d_toFixed d))
  else Ok (VInt 0).

Definition parseFee (fee : jsval) : js jsval :=
  if truthy fee then
    n ← newNum (DVal fee);
    m ← NKN_ACC_MUL;
    d ← mul (DDec n) (DDec m);
    Ok (VNum (d_toNumber d))
  else Ok (VInt 0).

(** ** What they compute *)

Context {DL : DecimalLaws D}.

Lemma NKN_ACC_MUL_spec : exists d, NKN_ACC_MUL = Ok d /\ denotes (DDec d) (10 ^ Z.of_nat 8) 0.
Proof.
  destruct (new_int 100000000) as (d & E & H); [unfold safe; lia |].
  exists d. split; [done |]. by apply new_copy.
Qed.

(** A non-zero integer fee prints as the decimal fraction fee / 10^8. *)
Lemma formatFee_int z :
  0 < z < 2 ^ 53 -> formatFee (VInt z) = Ok (VStr (fixed_str z 8)).
Proof.
  intros Hz. unfold formatFee. rewrite truthy_int by (unfold safe; lia).
  destruct (Z.eqb_spec z 0) as [| _]; [lia |]. cbn [negb].
  destruct (new_int z) as (n & En & Hn); [unfold safe; lia |]. unfold newNum. rewrite En. bind_simpl.
  destruct NKN_ACC_MUL_spec as (m & -> & Hm). bind_simpl.
  destruct (div_pow10_law (DDec n) (DDec m) z 0 8) as (d & Ed & Hd);
    [by apply new_copy | done | apply precise_small; lia |].
  unfold div. rewrite Ed. bind_simpl. by rewrite (toFixed_law d z 8) by (done || lia).
Qed.

Lemma fixed_str_nonempty m k : 0 <= m -> fixed_str m k <> "".
Proof.
  intros Hm. unfold fixed_str. pose proof (strip_value m k) as H. destruct (strip m k) as [m' k'].
  destruct H as [_ H]. assert (0 < 10 ^ Z.of_nat (k - k')) by (apply Z.pow_pos_nonneg; lia).
  destruct k' as [|k']; cbn [fixed_text]; [apply nat_str_nonempty; nia |].
  destruct (nat_str_head (m' / 10 ^ Z.of_nat (S k'))) as (c & s & -> & _); [| done].
  apply Z.div_pos; [nia | apply Z.pow_pos_nonneg; lia].
Qed.

(** The text of a non-negative multiple of 10^-8 parses to the integer it is
    a multiple of. *)
Lemma parseFee_text m :
  0 <= m < 2 ^ 53 -> parseFee (VStr (fixed_str m 8)) = Ok (VInt m).
Proof.
  intros Hm. unfold parseFee. cbn [truthy].
  pose proof (fixed_str_nonempty m 8 ltac:(lia)) as Hne. apply String.eqb_neq in Hne as ->. cbn [negb].
  destruct (new_fixed m 8) as (n & En & Hn); [lia |]. unfold newNum. rewrite En. bind_simpl.
  destruct NKN_ACC_MUL_spec as (a & -> & Ha). bind_simpl.
  assert (denotes (DDec n) m 8) as Hd by (by apply new_copy).
  destruct (mul_law (DDec n) (DDec a) m (10 ^ Z.of_nat 8) 8 0 Hd Ha) as (d & Ed & Hr).
  { exists m, 8%nat. split; [done | lia]. }
  unfold mul. rewrite Ed. bind_simpl. rewrite (toNumber_law d m); [done | unfold safe; lia |].
  rewrite <- (rep_scale d m 0 8). exact Hr.
Qed.

(** What a fee is shown as, and that it reads back. *)
Definition shown_fee (z : Z) : jsval := if z =? 0 then VInt 0 else VStr (fixed_str z 8).

Lemma formatFee_shown z : 0 <= z < 2 ^ 53 -> formatFee (VInt z) = Ok (shown_fee z).
Proof.
  intros Hz. unfold shown_fee. destruct (Z.eqb_spec z 0) as [-> | Hne]; [done |].
  apply formatFee_int. lia.
Qed.

Lemma parseFee_shown z : 0 <= z < 2 ^ 53 -> parseFee (shown_fee z) = Ok (VInt z).
Proof.
  intros Hz. unfold shown_fee. destruct (Z.eqb_spec z 0) as [-> | Hne]; [done |].
  by apply parseFee_text.
Qed.

(** A fee held as a number that prints as m / 10^k. *)
Lemma parseFee_num n m k j :
  truthy (VNum n) = true -> 0 <= m -> num_str n = fixed_str m k -> (k + j = 8)%nat ->
  m * 10 ^ Z.of_nat j < 2 ^ 53 -> parseFee (VNum n) = Ok (VInt (m * 10 ^ Z.of_nat j)).
Proof.
  intros Ht Hm Hs Hk Hb. unfold parseFee. rewrite Ht.
  destruct (new_num n m k Hm Hs) as (d & Ed & Hd). unfold newNum. rewrite Ed. bind_simpl.
  destruct NKN_ACC_MUL_spec as (a & -> & Ha). bind_simpl.
  assert (0 <= m * 10 ^ Z.of_nat j) by (apply Z.mul_nonneg_nonneg; [done | apply Z.pow_nonneg; lia]).
  assert (10 ^ Z.of_nat 8 = 10 ^ Z.of_nat j * 10 ^ Z.of_nat k) as E8.
  { rewrite <- Z.pow_add_r by lia. f_equal. lia. }
  destruct (mul_law (DDec d) (DDec a) m (10 ^ Z.of_nat 8) k 0 (new_copy d m k Hd) Ha) as (e & Ee & He).
  { exists m, 8%nat. split; [done |]. pose proof (Z.pow_pos_nonneg 10 (Z.of_nat j)). nia. }
  unfold mul. rewrite Ee. bind_simpl. rewrite (toNumber_law e (m * 10 ^ Z.of_nat j)); [done | unfold safe; lia |].
  rewrite <- (rep_scale e _ 0 k), <- Z.mul_assoc, <- E8. by rewrite Nat.add_0_r in He.
Qed.

(** The hexadecimal text of an integer, padded to whole bytes. *)
Lemma int2HexString_int z :
  0 <= z < 2 ^ 53 ->
  int2HexString (DVal (VInt z)) =
  Ok (if Nat.eqb 1 (String.length (hex_str z) mod 2) then String "0" (hex_str z) else hex_str z).
Proof.
  intros Hz. unfold int2HexString. destruct (new_int z) as (d & E & H); [unfold safe; lia |].
  rewrite E. bind_simpl. rewrite (toHexadecimal_law (d_floor d) z); [done | lia | apply precise_small; lia |].
  rewrite <- (Z.div_1_r z). exact (floor_law d z 0 H).
Qed.

Lemma hex_str_head n : 0 <= n -> exists c s, hex_str n = String c s /\ radix_val 16 c <> None.
Proof.
  intros Hn. destruct (read_hex_str n Hn) as (k & Hk & E). destruct (hex_str n) as [|c s].
  - cbn in E. injection E as _ <-. lia.
  - exists c, s. split; [done |]. intros Hc. cbn in E. rewrite Hc in E. done.
Qed.

(** The padded text is not taken for text that already has its prefix. *)
Lemma hexString2Int_padded z (pad : bool) :
  0 <= z < 2 ^ 53 ->
  exists d, hexString2Int (VStr (if pad then String "0" (hex_str z) else hex_str z)) = Ok d /\ rep d z 0.
Proof.
  intros Hz. set (s := if pad then _ else _).
  assert (exists k, 0 < k /\ read_radix 16 0 0 s = (z, k, "")) as (k & Hk & E).
  { unfold s. destruct pad; [apply read_hex_pad | apply read_hex_str]; lia. }
  destruct (new_hex s z k E Hk) as (d & Ed & Hd). exists d. split; [| done].
  unfold hexString2Int. destruct (String.eqb_spec "0x" (str_take 2 s)) as [Hp | _]; [| done].
  exfalso. destruct s as [|a [|b r]]; [done.. |]. cbn in Hp. injection Hp as <- <-. done.
Qed.

(** ** Theorems *)

(** A fee survives being shown and edited back: for every fee in the
    range of exact integers, [parseFee] of what [formatFee] gives is the fee. *)
Theorem fee_roundtrip z :
  0 <= z < 2 ^ 53 -> exists s, formatFee (VInt z) = Ok s /\ parseFee s = Ok (VInt z).
Proof.
  intros Hz. exists (shown_fee z). split; [by apply formatFee_shown | by apply parseFee_shown].
Qed.

(** The hexadecimal text of an integer is a whole number of bytes and
    reads back to the integer. *)
Theorem hex_roundtrip z :
  0 <= z < 2 ^ 53 ->
  exists s d, int2HexString (DVal (VInt z)) = Ok s /\ Nat.even (String.length s) = true
    /\ hexString2Int (VStr s) = Ok d /\ d_toNumber d = num_of_Z z.
Proof.
  intros Hz. pose proof (int2HexString_int z Hz) as Hs.
  set (pad := Nat.eqb 1 (String.length (hex_str z) mod 2)) in *.
  destruct (hexString2Int_padded z pad Hz) as (d & Hd & Hr).
  eexists _, d. split_and!; [exact Hs | | exact Hd | apply toNumber_law; [unfold safe; lia | done]].
  rewrite Nat.even_spec. unfold Nat.Even. unfold pad.
  pose proof (Nat.div_mod_eq (String.length (hex_str z)) 2) as Hdm.
  pose proof (Nat.mod_upper_bound (String.length (hex_str z)) 2 ltac:(lia)) as Hb.
  destruct (Nat.eqb_spec 1 (String.length (hex_str z) mod 2)); cbn [String.length];
    [exists (S (String.length (hex_str z) / 2)) | exists (String.length (hex_str z) / 2)%nat]; lia.
Qed.
End MathHelpers.

(** ** The theorems at concrete inputs *)

Module MathSamples.
Import ToyDecimal.

Lemma fee_roundtrip_witness :
  exists s, formatFee (VInt 150000000) = Ok s /\ parseFee s = Ok (VInt 150000000).
Proof. apply (fee_roundtrip 150000000). lia. Defined.

Lemma hex_roundtrip_witness :
  exists s d, int2HexString (DVal (VInt 4095)) = Ok s /\ Nat.even (String.length s) = true
    /\ hexString2Int (VStr s) = Ok d /\ d_toNumber d = num_of_Z 4095.
Proof. apply (hex_roundtrip 4095). lia. Defined.
End MathSamples.
