(* ===== verification/NumberInput.v ===== *)
(** * components/widget/NumberInput.vue

    The number field of the settings page: a text field with validation rules
    and a slider bounded by [min] and [max].  A method returns the new local
    state and the values it emits as [input] events. *)

From S2P Require Import Prelude JsNum JsValue Json DecimalLib MathHelpers.
From Stdlib Require Import Floats.SpecFloat.
Local Open Scope Z_scope.

(** ** Props and data *)

Record props : Type := mk_props {
  p_value : jsval;
  p_min : num;
  p_max : num;
  p_numberMin : num;
  p_numberMax : num;
  p_step : num
}.

(** [Number.MAX_SAFE_INTEGER] *)
Definition MAX_SAFE_INTEGER : num := num_of_Z (2 ^ 53 - 1).

(** The decimal literal m * 10^e. *)
Definition lit (m e : Z) : num := num_of_decimal false m e.

Definition default_props : props := {|
  p_value := VInt 0; p_min := num_of_Z 0; p_max := num_of_Z 1;
  p_numberMin := num_of_Z 0; p_numberMax := MAX_SAFE_INTEGER; p_step := lit 1 (-2)
|}.

Record input_state : Type := mk_input {
  i_val : jsval;
  i_numberError : bool;
  i_numberErrorMessage : string
}.

Definition data (p : props) : input_state :=
  {| i_val := p_value p; i_numberError := false; i_numberErrorMessage := "" |}.

Definition set_val (s : input_state) (v : jsval) : input_state :=
  {| i_val := v; i_numberError := i_numberError s; i_numberErrorMessage := i_numberErrorMessage s |}.

(** ** Computed *)

Definition color (p : props) (s : input_state) : string :=
  let ratio := num_div (to_number (i_val s)) (p_max p) in
  if num_ltb ratio (lit 1 (-1)) then "grey"
  else if num_ltb ratio (lit 4 (-1)) then "green"
  else if num_ltb ratio (lit 6 (-1)) then "indigo"
  else if num_ltb ratio (lit 8 (-1)) then "orange"
  else "red".

(** ** The validation rule: [true], or a message with its parameters *)

Inductive verdict : Type :=
| Valid
| Invalid (key : string) (params : list (string * jsval)).

Section Input.
Context {D : DecimalJS}.

Definition rule_number (p : props) (v : jsval) : js verdict :=
  if strict_eq v (VStr "") then Ok (Invalid "NUMBER_FIELD_ERROR" [])
  else
    let num := to_number v in
    if is_nan num then Ok (Invalid "NUMBER_FIELD_ERROR" [])
    else if num_ltb num (num_of_Z 0) then Ok (Invalid "POSITIVE_NUMBER_FIELD_ERROR" [])
    else if num_ltb num (p_numberMin p) then
      Ok (Invalid "NUMBER_MIN_ERROR" [("min", VNum (p_numberMin p))])
    else if num_gtb num (p_numberMax p) then
      Ok (Invalid "NUMBER_MAX_ERROR" [("max", VNum (p_numberMax p))])
    else
      d ← Decimal_new (DVal (VNum num));
      Ok (if num_gtb (d_dp d) (num_of_Z NKN_DP_LENGTH)
          then Invalid "NUMBER_DP_ERROR" [("dp", VInt NKN_DP_LENGTH)] else Valid).

(** ** Methods *)

Definition onInput (p : props) (s : input_state) (v : jsval) : input_state * list jsval :=
  let num := parse_float (to_string v) in
  (set_val s (if num_ltb num (p_min p) then VNum (p_min p)
              else if num_gtb num (p_max p) then VNum (p_max p)
              else VNum num), [v]).

(** The watcher of the [value] prop. *)
Definition watch_value (p : props) (s : input_state) (v : jsval) : input_state * list jsval :=
  onInput p s v.

Definition onValueChange (s : input_state) : input_state * list jsval := (s, [i_val s]).

Definition decrement (p : props) (s : input_state) : js (input_state * list jsval) :=
  if num_leb (to_number (i_val s)) (p_min p) then Ok (s, [])
  else d ← sub (DVal (i_val s)) (DVal (VNum (p_step p)));
       Ok (onValueChange (set_val s (VNum (d_toNumber d)))).

Definition increment (p : props) (s : input_state) : js (input_state * list jsval) :=
  if num_geb (to_number (i_val s)) (p_max p) then Ok (s, [])
  else d ← add (DVal (i_val s)) (DVal (VNum (p_step p)));
       Ok (onValueChange (set_val s (VNum (d_toNumber d)))).

End Input.

(** ** The order of numbers *)

Lemma SFcompare_antisym x y :
  SFcompare y x = match SFcompare x y with Some c => Some (CompOpp c) | None => None end.
Proof.
  destruct x as [| s1 | | s1 m1 e1], y as [| s2 | | s2 m2 e2];
    repeat match goal with b : bool |- _ => destruct b end; try done; cbn.
  all: rewrite (Z.compare_antisym e1 e2); destruct (e1 ?= e2)%Z; cbn; try done.
  all: rewrite (Pos.compare_cont_antisym m1 m2 Eq); by destruct (Pos.compare_cont Eq m1 m2).
Qed.

Lemma SFcompare_refl x : is_nan x = false -> SFcompare x x = Some Eq.
Proof.
  destruct x as [s|s| |s m e]; try done; destruct s; try done; cbn;
    rewrite Z.compare_refl, Pos.compare_cont_refl; done.
Qed.

Lemma num_leb_total x y : is_nan x = false -> is_nan y = false -> num_ltb x y = false -> num_leb y x = true.
Proof.
  intros Hx Hy. unfold num_ltb, num_leb, SFltb, SFleb. rewrite (SFcompare_antisym x y).
  destruct (SFcompare x y) as [[]|] eqn:E; cbn; try done.
  destruct x as [| s1 | | s1 m1 e1], y as [| s2 | | s2 m2 e2]; try done;
    repeat match goal with b : bool |- _ => destruct b end; try done; cbn in E; by destruct (e1 ?= e2)%Z.
Qed.

Lemma num_leb_refl x : is_nan x = false -> num_leb x x = true.
Proof. intros H. unfold num_leb, SFleb. by rewrite SFcompare_refl. Qed.

(** [parseFloat] of the text of an integer. *)
Lemma parse_float_int z : 0 <= z -> safe z -> parse_float (int_str z) = num_of_Z z.
Proof.
  intros Hz Hs. unfold int_str. destruct (Z.ltb_spec z 0); [lia |].
  destruct (read_digits_nat_str z "" Hz I) as (c & Hc & E). rewrite string_app_nil_r in E.
  destruct (nat_str_head z Hz) as (h & t & Eh & Hh). unfold parse_float, read_decimal.
  rewrite Eh in *. rewrite skip_ws_digit, read_sign_digit by done.
  assert (String.prefix infinity_str (String h t) = false) as ->.
  { destruct h as [[] [] [] [] [] [] [] []]; try discriminate Hh; done. }
  unfold read_unsigned. rewrite E. cbn -[num_of_decimal Z.add].
  destruct (Z.eqb_spec (c + 0) 0); [lia |].
  rewrite <- (num_of_decimal_int z) by done. destruct (Z.ltb_spec z 0); [lia |].
  by rewrite Z.abs_eq.
Qed.

(** ** Theorems *)

Section Theorems.
Context {D : DecimalJS} {DL : DecimalLaws D}.

(** Whatever text is typed, the field emits it as it is and the slider
    takes the number at its start, held between [min] and [max]; a text that
    starts with no number leaves NaN there. *)
Theorem onInput_bounded p s v :
  is_nan (p_min p) = false -> is_nan (p_max p) = false -> num_leb (p_min p) (p_max p) = true ->
  exists n, onInput p s v = (set_val s (VNum n), [v])
    /\ is_nan n = is_nan (parse_float (to_string v))
    /\ (is_nan n = false -> num_leb (p_min p) n = true /\ num_leb n (p_max p) = true).
Proof.
  intros Hmin Hmax Hle. unfold onInput. set (x := parse_float (to_string v)).
  destruct (num_ltb x (p_min p)) eqn:E1.
  - exists (p_min p). split_and!; [done | by destruct x | by rewrite num_leb_refl].
  - destruct (num_gtb x (p_max p)) eqn:E2.
    + exists (p_max p). split_and!; [done | | by rewrite num_leb_refl].
      rewrite Hmax. destruct x, (p_max p); done.
    + exists x. split_and!; [done.. |]. intros Hx. split; by apply num_leb_total.
Qed.

(** How many decimal places m / 10^k has. *)
Definition decimals (m : Z) (k : nat) : Z := Z.of_nat (strip m k).2.

(** The rule on a number that prints as the decimal m / 10^k. *)
Lemma rule_number_spec p v m k :
  strict_eq v (VStr "") = false -> is_nan (to_number v) = false ->
  0 <= m -> num_str (to_number v) = fixed_str m k -> decimals m k < 2 ^ 20 ->
  rule_number p v = Ok Valid
  <-> num_ltb (to_number v) (num_of_Z 0) = false /\ num_ltb (to_number v) (p_numberMin p) = false
      /\ num_gtb (to_number v) (p_numberMax p) = false /\ decimals m k <= 8.
Proof.
  intros Hv Hn Hm Hs Hk. unfold rule_number. rewrite Hv, Hn.
  destruct (new_num (to_number v) m k Hm Hs) as (d & Hd & Hr). rewrite Hd. bind_simpl.
  rewrite (dp_law d m k Hr). fold (decimals m k). assert (0 <= decimals m k) by (unfold decimals; lia).
  unfold num_gtb. change SFltb with num_ltb.
  rewrite (num_ltb_int NKN_DP_LENGTH) by (unfold safe, NKN_DP_LENGTH in *; lia). unfold NKN_DP_LENGTH.
  destruct (num_ltb (to_number v) (num_of_Z 0)), (num_ltb (to_number v) (p_numberMin p)),
    (num_ltb (p_numberMax p) (to_number v)), (Z.ltb_spec 8 (decimals m k)); split; intros; dest_all; done || lia.
Qed.

(** The rule accepts a number, typed or held, exactly when it is not
    negative, lies between [numberMin] and [numberMax] and has at most eight
    decimal places; [m / 10^k] is the decimal the number prints as. *)
Theorem rule_number_exact p v m k :
  strict_eq v (VStr "") = false -> is_nan (to_number v) = false ->
  0 <= m -> num_str (to_number v) = fixed_str m k -> decimals m k < 2 ^ 20 ->
  rule_number p v = Ok Valid
  <-> num_ltb (to_number v) (num_of_Z 0) = false /\ num_ltb (to_number v) (p_numberMin p) = false
      /\ num_gtb (to_number v) (p_numberMax p) = false /\ decimals m k <= 8.
Proof. intros Hv Hn Hm Hs Hk. by apply rule_number_spec. Qed.

(** The plus button of an integer slider adds one step below [max] and
    does nothing at [max]; the new value is emitted, and when it comes back
    through the [value] prop the slider shows it held at [max]. *)
Theorem increment_steps p s z lo hi st :
  i_val s = VInt z -> p_min p = num_of_Z lo -> p_max p = num_of_Z hi -> p_step p = num_of_Z st ->
  0 <= lo <= z -> z <= hi -> 0 < st -> hi + st < 2 ^ 53 ->
  if z <? hi then
    exists s', increment p s = Ok (s', [VInt (z + st)]) /\ i_val s' = VInt (z + st)
      /\ watch_value p s' (VInt (z + st)) = (set_val s (VInt (Z.min hi (z + st))), [VInt (z + st)])
  else increment p s = Ok (s, []).
Proof.
  intros Hv Hlo Hhi Hst Hz Hm Hp Hb. unfold increment, num_geb.
  change SFleb with num_leb. rewrite Hv, Hhi, Hst. cbn [to_number VInt].
  rewrite num_leb_int by (unfold safe; lia).
  destruct (Z.leb_spec hi z), (Z.ltb_spec z hi); try lia; [done |].
  destruct (add_law (DVal (VInt z)) (DVal (VInt st)) z st 0) as (d & Ed & Hd);
    [apply new_int; unfold safe; lia.. | apply precise_small; lia |].
  unfold VInt in *. unfold add. rewrite Ed. bind_simpl.
  rewrite (toNumber_law d (z + st)) by (done || unfold safe; lia).
  eexists. split_and!; [done.. |]. unfold watch_value, onInput, set_val. cbn [to_string i_val VInt].
  rewrite num_str_int, parse_float_int by (unfold safe; lia).
  unfold num_gtb. change SFltb with num_ltb. rewrite Hlo, Hhi, !num_ltb_int by (unfold safe; lia).
  destruct (Z.ltb_spec (z + st) lo), (Z.ltb_spec hi (z + st)); try lia;
    [rewrite Z.min_l by lia | rewrite Z.min_r by lia]; done.
Qed.
End Theorems.

(** ** The theorems at concrete inputs *)

Module InputSamples.
Import ToyDecimal.

(** The slider of the number of low fee transactions: 0 to 10 in steps of 4. *)
Definition slider : props := {|
  p_value := VInt 0; p_min := num_of_Z 0; p_max := num_of_Z 10;
  p_numberMin := num_of_Z 2; p_numberMax := MAX_SAFE_INTEGER; p_step := num_of_Z 4
|}.

Lemma onInput_bounded_witness :
  exists n, onInput slider (data slider) (VStr "12.5kb") = (set_val (data slider) (VNum n), [VStr "12.5kb"])
    /\ is_nan n = is_nan (parse_float (to_string (VStr "12.5kb")))
    /\ (is_nan n = false -> num_leb (p_min slider) n = true /\ num_leb n (p_max slider) = true).
Proof. apply (onInput_bounded slider (data slider) (VStr "12.5kb")); vm_compute; reflexivity. Defined.

Lemma rule_number_exact_witness : rule_number slider (VStr "7.25") = Ok Valid.
Proof.
  apply (rule_number_exact slider (VStr "7.25") 725 2); [vm_compute; reflexivity | vm_compute; reflexivity | lia
    | vm_compute; reflexivity | vm_compute; reflexivity |].
  split_and!; [vm_compute; reflexivity.. | vm_compute; discriminate].
Defined.

Lemma increment_steps_witness :
  exists s', increment slider (set_val (data slider) (VInt 8)) = Ok (s', [VInt 12]) /\ i_val s' = VInt 12
    /\ watch_value slider s' (VInt 12) = (set_val (set_val (data slider) (VInt 8)) (VInt 10), [VInt 12]).
Proof.
  apply (increment_steps slider (set_val (data slider) (VInt 8)) 8 0 10 4);
    (reflexivity || lia).
Defined.
End InputSamples.
