(* ===== verification/CryptoLib.v ===== *)
(** * The cryptographic libraries as interfaces

    The dashboard computes with CryptoJS in the browser and with Go's
    crypto packages in the node.  Neither is part of the repository: both are
    parameters.  [StdCrypto] names the standard functions on byte strings
    (SHA-2, HMAC, AES-256 in CFB mode), [CryptoJS] the API calls of the
    browser library, and their law classes say what the two are documented to
    compute.  Hexadecimal text is part of the Go standard library and of the
    wire format and is defined here.  The last section gives a small concrete
    instance of all four classes, which shows that the laws can hold
    together. *)

From S2P Require Import Prelude JsNum JsValue Json.
Local Open Scope Z_scope.

(** ** Hexadecimal text *)

Fixpoint hex_encode (b : string) : string :=
  match b with
  | EmptyString => EmptyString
  | String c b' => String (hex_digit (code c / 16)) (String (hex_digit (code c mod 16)) (hex_encode b'))
  end.

(** Go's [hex.DecodeString]: [None] is its error (odd length, bad digit). *)
Fixpoint hex_decode (s : string) : option string :=
  match s with
  | EmptyString => Some EmptyString
  | String h (String l s') =>
      match radix_val 16 h, radix_val 16 l with
      | Some a, Some b => t ← hex_decode s'; Some (String (chr (16 * a + b)) t)
      | _, _ => None
      end
  | String _ EmptyString => None
  end.

Lemma radix_hex_digit d : 0 <= d < 16 -> radix_val 16 (hex_digit d) = Some d.
Proof.
  intros H. assert (Forall (fun d => radix_val 16 (hex_digit d) = Some d) (seqZ 0 16)) as F
    by (repeat constructor).
  rewrite list.Forall_forall in F. apply F, elem_of_seqZ. lia.
Qed.

Lemma code_split c : 0 <= code c / 16 < 16 /\ 0 <= code c mod 16 < 16
  /\ 16 * (code c / 16) + code c mod 16 = code c.
Proof.
  pose proof (code_range c). pose proof (Z.div_mod (code c) 16 ltac:(lia)).
  pose proof (Z.mod_pos_bound (code c) 16 ltac:(lia)).
  split_and!; lia.
Qed.

Lemma hex_decode_encode b : hex_decode (hex_encode b) = Some b.
Proof.
  induction b as [|c b IH]; [done |]. cbn [hex_encode hex_decode].
  destruct (code_split c) as (H1 & H2 & H3).
  by rewrite !radix_hex_digit, IH, H3, chr_code by done.
Qed.

Lemma hex_encode_inj a b : hex_encode a = hex_encode b -> a = b.
Proof. intros H. pose proof (hex_decode_encode a) as E. rewrite H, hex_decode_encode in E. congruence. Qed.

Lemma hex_encode_length b : String.length (hex_encode b) = (2 * String.length b)%nat.
Proof. induction b as [|c b IH]; [done |]. cbn [hex_encode String.length]. lia. Qed.

Lemma hex_encode_take n b : str_take (2 * n) (hex_encode b) = hex_encode (str_take n b).
Proof.
  revert n. induction b as [|c b IH]; intros [|n]; try done.
  replace (2 * S n)%nat with (S (S (2 * n)))%nat by lia.
  cbn [hex_encode str_take]. by rewrite IH.
Qed.

(** ** The standard functions, on bytes *)

Class StdCrypto : Type := {
  std_sha224 : string -> string;
  std_sha256 : string -> string;
  hmac_sha256 : string -> string -> string;           (* key, data *)
  cfb_encrypt : string -> string -> string -> string; (* key, iv, data *)
  cfb_decrypt : string -> string -> string -> string
}.

(** Output sizes, that decryption undoes encryption under the same key and
    initialisation vector, and that CFB keeps the length. *)
Class StdCryptoLaws (C : StdCrypto) : Prop := {
  sha224_size : forall s, String.length (std_sha224 s) = 28%nat;
  sha256_size : forall s, String.length (std_sha256 s) = 32%nat;
  hmac_size : forall k s, String.length (hmac_sha256 k s) = 32%nat;
  cfb_inverse : forall k iv p,
    String.length k = 32%nat -> String.length iv = 16%nat ->
    cfb_decrypt k iv (cfb_encrypt k iv p) = p;
  cfb_size : forall k iv p,
    String.length k = 32%nat -> String.length iv = 16%nat ->
    String.length (cfb_encrypt k iv p) = String.length p
}.

(** ** CryptoJS *)

(** What a hash function accepts: a JavaScript value or a word array. *)
Inductive hash_in (W : Type) : Type :=
| HVal (v : jsval)
| HWords (w : W).
Arguments HVal {W} v.
Arguments HWords {W} w.

Class CryptoJS : Type := {
  WordArray : Type;
  HmacSHA256 : jsval -> jsval -> js WordArray;        (* message, key *)
  SHA224 : hash_in WordArray -> js WordArray;
  SHA256 : hash_in WordArray -> js WordArray;
  RIPEMD160 : hash_in WordArray -> js WordArray;
  Hex_parse : jsval -> js WordArray;
  Hex_stringify : WordArray -> string;                (* also [toString()] *)
  Base64_stringify : WordArray -> string;
  Utf8_parse : string -> WordArray;
  Utf8_stringify : WordArray -> js string;
  AES_encrypt : WordArray -> WordArray -> WordArray -> js WordArray; (* data, key, iv: CFB, NoPadding *)
  AES_decrypt : string -> WordArray -> WordArray -> js WordArray     (* base64 text, key, iv *)
}.

(** The API calls compute the standard functions; [wa_bytes] reads the bytes
    of a word array. *)
Class CryptoJSLaws (C : StdCrypto) (J : CryptoJS) : Type := {
  wa_bytes : WordArray -> string;
  HmacSHA256_law : forall m k, exists w,
    HmacSHA256 (VStr m) (VStr k) = Ok w /\ wa_bytes w = hmac_sha256 k m;
  SHA224_law : forall s, exists w, SHA224 (HVal (VStr s)) = Ok w /\ wa_bytes w = std_sha224 s;
  SHA256_law : forall s, exists w, SHA256 (HVal (VStr s)) = Ok w /\ wa_bytes w = std_sha256 s;
  SHA256_words_law : forall u, exists w, SHA256 (HWords u) = Ok w /\ wa_bytes w = std_sha256 (wa_bytes u);
  Hex_parse_law : forall s b, hex_decode s = Some b ->
    exists w, Hex_parse (VStr s) = Ok w /\ wa_bytes w = b;
  Hex_stringify_law : forall w, Hex_stringify w = hex_encode (wa_bytes w);
  Utf8_parse_law : forall s, wa_bytes (Utf8_parse s) = s;
  Utf8_stringify_law : forall w, utf8_valid (wa_bytes w) = true -> Utf8_stringify w = Ok (wa_bytes w);
  Utf8_stringify_malformed : forall w, utf8_valid (wa_bytes w) = false ->
    exists e, Utf8_stringify w = Err e;
  AES_encrypt_law : forall p k iv,
    String.length (wa_bytes k) = 32%nat -> String.length (wa_bytes iv) = 16%nat ->
    exists w, AES_encrypt p k iv = Ok w
      /\ wa_bytes w = cfb_encrypt (wa_bytes k) (wa_bytes iv) (wa_bytes p);
  AES_decrypt_law : forall c k iv,
    String.length (wa_bytes k) = 32%nat -> String.length (wa_bytes iv) = 16%nat ->
    exists w, AES_decrypt (Base64_stringify c) k iv = Ok w
      /\ wa_bytes w = cfb_decrypt (wa_bytes k) (wa_bytes iv) (wa_bytes c)
}.

(** ** A concrete instance *)

Module Toy.
(** A checksum of the input mixed with the output position. *)
Fixpoint checksum (acc : Z) (s : string) : Z :=
  match s with
  | EmptyString => acc
  | String c s' => checksum ((acc * 31 + code c + 7) mod 65521) s'
  end.
Fixpoint expand (n : nat) (x : Z) : string :=
  match n with
  | O => EmptyString
  | S n' => String (chr (x mod 256)) (expand n' ((x * 75 + 74) mod 65537))
  end.
Definition hash (n : nat) (s : string) : string := expand n (checksum 1 s).

Lemma expand_length n x : String.length (expand n x) = n.
Proof. revert x; induction n as [|n IH]; intros x; cbn; [done |]. by rewrite IH. Qed.

(** A stream cipher: each byte is shifted by a byte derived from the key. *)
Fixpoint shift (dir : Z) (x : Z) (p : string) : string :=
  match p with
  | EmptyString => EmptyString
  | String c p' => String (chr ((code c + dir * x) mod 256)) (shift dir ((x * 75 + 74) mod 65537) p')
  end.

Lemma shift_inverse x p : shift (-1) x (shift 1 x p) = p.
Proof.
  revert x; induction p as [|c p IH]; intros x; [done |]. cbn [shift]. rewrite IH. f_equal.
  pose proof (code_range c).
  rewrite code_chr by (apply Z.mod_pos_bound; lia).
  rewrite Zplus_mod_idemp_l. replace (code c + 1 * x + -1 * x) with (code c) by lia.
  rewrite Z.mod_small by done. apply chr_code.
Qed.

Lemma shift_length d x p : String.length (shift d x p) = String.length p.
Proof. revert x; induction p as [|c p IH]; intros x; cbn; [done |]. by rewrite IH. Qed.

#[export] Instance crypto : StdCrypto := {
  std_sha224 := hash 28;
  std_sha256 := hash 32;
  hmac_sha256 := fun k s => hash 32 (k +:+ "|" +:+ s)%string;
  cfb_encrypt := fun k iv => shift 1 (checksum 1 (k +:+ iv)%string);
  cfb_decrypt := fun k iv => shift (-1) (checksum 1 (k +:+ iv)%string)
}.

#[export] Instance crypto_laws : StdCryptoLaws crypto.
Proof. constructor; intros; [apply expand_length.. | apply shift_inverse | apply shift_length]. Qed.

Definition hash_bytes (n : nat) (i : hash_in string) : js string :=
  match i with
  | HVal (VStr s) => Ok (hash n s)
  | HVal _ => Err TypeError
  | HWords w => Ok (hash n w)
  end.

#[export] Instance cryptojs : CryptoJS := {
  WordArray := string;
  HmacSHA256 := fun m k => match m, k with
    | VStr m, VStr k => Ok (hmac_sha256 k m) | _, _ => Err TypeError end;
  SHA224 := hash_bytes 28;
  SHA256 := hash_bytes 32;
  RIPEMD160 := hash_bytes 20;
  Hex_parse := fun v => match v with
    | VStr s => Ok (default "" (hex_decode s)) | _ => Err TypeError end;
  Hex_stringify := hex_encode;
  Base64_stringify := hex_encode;
  Utf8_parse := fun s => s;
  Utf8_stringify := fun w => if utf8_valid w then Ok w else Err (Error "Malformed UTF-8 data");
  AES_encrypt := fun p k iv => Ok (cfb_encrypt k iv p);
  AES_decrypt := fun c k iv => Ok (cfb_decrypt k iv (default "" (hex_decode c)))
}.

#[export, refine] Instance cryptojs_laws : CryptoJSLaws crypto cryptojs := {
  wa_bytes := fun w => w
}.
Proof.
  all: intros; cbn; eauto; try by case_match.
  - eexists. split; [done |]. by simplify_option_eq.
  - rewrite H. eauto.
  - rewrite hex_decode_encode. eauto.
Defined.
End Toy.
