(* ===== verification/CryptoHelpers.v ===== *)
(** * helpers/crypto.js

    The hashing and encryption helpers of the dashboard, over the CryptoJS
    interface, and what they compute in terms of the standard functions. *)

From S2P Require Import Prelude JsNum JsValue Json CryptoLib.
Local Open Scope Z_scope.

Section Helpers.
Context {J : CryptoJS}.

Definition hmacSHA256 (message secret : jsval) : js string :=
  let secret := js_or secret message in
  w ← HmacSHA256 message secret;
  Ok (Hex_stringify w).

Definition cryptoHexStringParse (hexString : jsval) : js WordArray := Hex_parse hexString.

Definition sha224 (str : hash_in WordArray) : js string :=
  w ← SHA224 str; Ok (Hex_stringify w).

Definition sha224Hex (hexStr : jsval) : js string :=
  w ← cryptoHexStringParse hexStr; sha224 (HWords w).

Definition sha256 (str : hash_in WordArray) : js string :=
  w ← SHA256 str; Ok (Hex_stringify w).

Definition sha256Hex (hexStr : jsval) : js string :=
  w ← cryptoHexStringParse hexStr; sha256 (HWords w).

Definition doubleSha256 (str : hash_in WordArray) : js string :=
  w1 ← SHA256 str; w2 ← SHA256 (HWords w1); Ok (Hex_stringify w2).

Definition doubleSha256Hex (hexStr : jsval) : js string :=
  w ← cryptoHexStringParse hexStr;
  w1 ← SHA256 (HWords w);
  w2 ← SHA256 (HWords w1);
  Ok (Hex_stringify w2).

Definition tripleSha256 (str : hash_in WordArray) : js string :=
  w1 ← SHA256 str; w2 ← SHA256 (HWords w1); w3 ← SHA256 (HWords w2); Ok (Hex_stringify w3).

Definition tripleSha256Hex (hexStr : jsval) : js string :=
  w ← cryptoHexStringParse hexStr;
  w1 ← SHA256 (HWords w);
  w2 ← SHA256 (HWords w1);
  w3 ← SHA256 (HWords w2);
  Ok (Hex_stringify w3).

Definition ripemd160 (str : hash_in WordArray) : js string :=
  w ← RIPEMD160 str; Ok (Hex_stringify w).

Definition ripemd160Hex (hexStr : jsval) : js string :=
  i ← cryptoHexStringParse hexStr; w ← RIPEMD160 (HWords i); Ok (Hex_stringify w).

Definition aesDecrypt (ciphertext prikey : jsval) : js string :=
  key ← hmacSHA256 prikey prikey;
  iv ← Hex_parse (VStr (str_take 32 key));
  key ← Hex_parse (VStr key);
  encryptedHexStr ← Hex_parse ciphertext;
  let srcs := Base64_stringify encryptedHexStr in
  decrypt ← AES_decrypt srcs key iv;
  Utf8_stringify decrypt.

Definition aesEncrypt (plaintext : string) (prikey : jsval) : js string :=
  let srcs := Utf8_parse plaintext in
  key ← hmacSHA256 prikey prikey;
  iv ← Hex_parse (VStr (str_take 32 key));
  key ← Hex_parse (VStr key);
  encrypted ← AES_encrypt srcs key iv;
  Ok (Hex_stringify encrypted).

Definition seedHash (password : jsval) : js string :=
  t ← tripleSha256 (HVal password); sha256 (HVal (VStr t)).

Definition authHash (password : jsval) : js string :=
  t ← tripleSha256 (HVal password); sha224 (HVal (VStr t)).

Definition passwordHash (password secret : jsval) : js string :=
  t ← tripleSha256 (HVal password);
  passwordHash ← sha224 (HVal (VStr t));
  aesEncrypt passwordHash secret.

(** ** What the helpers compute *)

Context {C : StdCrypto} {CL : StdCryptoLaws C} {JL : CryptoJSLaws C J}.

(** The effective HMAC key: the message itself when the secret is empty. *)
Definition hmac_key (m k : string) : string := if String.eqb k "" then m else k.

Lemma hmacSHA256_spec m k :
  hmacSHA256 (VStr m) (VStr k) = Ok (hex_encode (hmac_sha256 (hmac_key m k) m)).
Proof.
  unfold hmacSHA256, js_or, hmac_key. cbn [truthy].
  destruct (String.eqb k ""); cbn [negb];
    [destruct (HmacSHA256_law m m) as (w & E & Hw) | destruct (HmacSHA256_law m k) as (w & E & Hw)];
    rewrite E; cbn; by rewrite Hex_stringify_law, Hw.
Qed.

Definition triple (s : string) : string := std_sha256 (std_sha256 (std_sha256 s)).

Lemma tripleSha256_spec s : tripleSha256 (HVal (VStr s)) = Ok (hex_encode (triple s)).
Proof.
  unfold tripleSha256, triple.
  destruct (SHA256_law s) as (w1 & -> & <-). cbn.
  destruct (SHA256_words_law w1) as (w2 & -> & <-). cbn.
  destruct (SHA256_words_law w2) as (w3 & -> & <-). cbn.
  by rewrite Hex_stringify_law.
Qed.

Lemma sha256_spec s : sha256 (HVal (VStr s)) = Ok (hex_encode (std_sha256 s)).
Proof. unfold sha256. destruct (SHA256_law s) as (w & -> & <-). cbn. by rewrite Hex_stringify_law. Qed.

Lemma sha224_spec s : sha224 (HVal (VStr s)) = Ok (hex_encode (std_sha224 s)).
Proof. unfold sha224. destruct (SHA224_law s) as (w & -> & <-). cbn. by rewrite Hex_stringify_law. Qed.

Lemma seedHash_spec s : seedHash (VStr s) = Ok (hex_encode (std_sha256 (hex_encode (triple s)))).
Proof. unfold seedHash. rewrite tripleSha256_spec. cbn. apply sha256_spec. Qed.

Lemma authHash_spec s : authHash (VStr s) = Ok (hex_encode (std_sha224 (hex_encode (triple s)))).
Proof. unfold authHash. rewrite tripleSha256_spec. cbn. apply sha224_spec. Qed.

(** The AES key and initialisation vector derived from a secret. *)
Definition aes_key (k : string) : string := hmac_sha256 k k.
Definition aes_iv (k : string) : string := str_take 16 (aes_key k).

Lemma hmac_key_same k : hmac_key k k = k.
Proof. unfold hmac_key. by destruct (String.eqb_spec k ""). Qed.

(** The two word arrays the helpers pass to AES, from the hexadecimal key. *)
Lemma derived_key k :
  exists wk wi, Hex_parse (VStr (hex_encode (aes_key k))) = Ok wk
  /\ Hex_parse (VStr (str_take 32 (hex_encode (aes_key k)))) = Ok wi
  /\ wa_bytes wk = aes_key k /\ wa_bytes wi = aes_iv k
  /\ String.length (wa_bytes wk) = 32%nat /\ String.length (wa_bytes wi) = 16%nat.
Proof.
  assert (String.length (aes_key k) = 32%nat) as Hl by apply hmac_size.
  destruct (Hex_parse_law _ _ (hex_decode_encode (aes_key k))) as (wk & Ek & Bk).
  destruct (Hex_parse_law _ _ (hex_decode_encode (aes_iv k))) as (wi & Ei & Bi).
  exists wk, wi. rewrite Bk, Bi. split_and!; try done.
  - change 32%nat with (2 * 16)%nat. by rewrite hex_encode_take.
  - unfold aes_iv. rewrite str_take_length; lia.
Qed.

Lemma aesEncrypt_spec p k :
  aesEncrypt p (VStr k) = Ok (hex_encode (cfb_encrypt (aes_key k) (aes_iv k) p)).
Proof.
  unfold aesEncrypt. rewrite hmacSHA256_spec, hmac_key_same. bind_simpl. fold (aes_key k).
  destruct (derived_key k) as (wk & wi & -> & -> & Bk & Bi & Lk & Li). bind_simpl.
  destruct (AES_encrypt_law (Utf8_parse p) wk wi Lk Li) as (w & -> & Hw).
  bind_simpl. by rewrite Hex_stringify_law, Hw, Bk, Bi, Utf8_parse_law.
Qed.

(** Decryption of a hexadecimal ciphertext gives the plain bytes when they are
    well-formed UTF-8, and throws otherwise. *)
Lemma aesDecrypt_spec c b k :
  hex_decode c = Some b ->
  let d := cfb_decrypt (aes_key k) (aes_iv k) b in
  if utf8_valid d then aesDecrypt (VStr c) (VStr k) = Ok d
  else exists e, aesDecrypt (VStr c) (VStr k) = Err e.
Proof.
  intros Hc d. unfold aesDecrypt. rewrite hmacSHA256_spec, hmac_key_same. bind_simpl. fold (aes_key k).
  destruct (derived_key k) as (wk & wi & -> & -> & Bk & Bi & Lk & Li). bind_simpl.
  destruct (Hex_parse_law _ _ Hc) as (wc & -> & Bc). bind_simpl.
  destruct (AES_decrypt_law wc wk wi Lk Li) as (w & -> & Hw). bind_simpl.
  rewrite Bk, Bi, Bc in Hw. fold d in Hw. rewrite <- Hw.
  destruct (utf8_valid (wa_bytes w)) eqn:E.
  - by apply Utf8_stringify_law.
  - by apply Utf8_stringify_malformed.
Qed.

Lemma aes_inverse p k : cfb_decrypt (aes_key k) (aes_iv k) (cfb_encrypt (aes_key k) (aes_iv k) p) = p.
Proof.
  destruct (derived_key k) as (wk & wi & _ & _ & <- & <- & Lk & Li). by apply cfb_inverse.
Qed.

Lemma passwordHash_spec pw s :
  passwordHash (VStr pw) (VStr s)
  = Ok (hex_encode (cfb_encrypt (aes_key s) (aes_iv s) (hex_encode (std_sha224 (hex_encode (triple pw)))))).
Proof.
  unfold passwordHash. rewrite tripleSha256_spec. cbn. rewrite sha224_spec. cbn.
  apply aesEncrypt_spec.
Qed.
End Helpers.
