(* ===== verification/Address.v ===== *)
(** * Programs and addresses of the node

    common/uint160.go, common/common.go and program/program.go: the program of
    a public key, its hash, and the address that is the text of the hash with a
    prefix and a checksum.  A [Uint160] is a string of twenty bytes.  RIPEMD-160
    and the base58 codec are libraries: what they are documented to compute is
    a class of laws; big integers are those of the language. *)

From S2P Require Import Prelude JsNum JsValue Json GoJson GoMarshal Fixed64 CryptoLib.
Local Open Scope Z_scope.

(** ** Big integers *)

(** [SetBytes]: big-endian, after [acc]. *)
Fixpoint be_acc (acc : Z) (s : string) : Z :=
  match s with EmptyString => acc | String c r => be_acc (256 * acc + code c) r end.
Definition be_int (s : string) : Z := be_acc 0 s.

(** [Bytes]: no leading zero byte. *)
Fixpoint be_go (fuel : nat) (n : Z) (acc : string) : string :=
  match fuel with
  | O => acc
  | S f => if n =? 0 then acc else be_go f (n / 256) (String (chr (n mod 256)) acc)
  end.
Definition be_bytes (n : Z) : string := be_go (Z.to_nat (Z.log2 n) + 1) n EmptyString.

(** [SetString(s, 10)] *)
Definition big_string (s : string) : option Z :=
  match s with
  | String c r =>
      if code c =? 45 then Z.opp <$> parse_digits r
      else if code c =? 43 then parse_digits r else parse_digits s
  | EmptyString => None
  end.

(** ** Base 58 with the alphabet of Bitcoin *)

Definition alphabet : string := "123456789ABCDEFGHJKLMNPQRSTUVWXYZabcdefghijkmnopqrstuvwxyz".
Definition b58_char (d : Z) : ascii := match String.get (Z.to_nat d) alphabet with Some c => c | None => chr 0 end.
Fixpoint b58_go (fuel : nat) (n : Z) (acc : string) : string :=
  match fuel with
  | O => acc
  | S f =>
      let acc' := String (b58_char (n mod 58)) acc in
      if n <? 58 then acc' else b58_go f (n / 58) acc'
  end.
Definition b58 (n : Z) : string := b58_go (Z.to_nat (Z.log2 n) + 1) n EmptyString.

Class AddressLib : Type := {
  ripemd160 : string -> string;
  base58_Encode : string -> option string;  (* of decimal digits *)
  base58_Decode : string -> option string
}.

(** The codec turns decimal digits into digits of base 58 and back. *)
Class AddressLaws (A : AddressLib) : Prop := {
  ripemd160_size : forall s, String.length (ripemd160 s) = 20%nat;
  base58_Encode_law : forall n, 0 < n -> base58_Encode (nat_str n) = Some (b58 n);
  base58_Decode_law : forall n, 0 < n -> base58_Decode (b58 n) = Some (nat_str n)
}.

(** ** common/uint160.go *)

Definition FOOLPROOFPREFIX : Z := 0x02b824 + 1.
Definition PREFIXLEN : nat := 3.
Definition UINT160SIZE : nat := 20.
Definition SHA256CHKSUM : nat := 4.
Definition HEXADDRLEN : nat := PREFIXLEN + UINT160SIZE + SHA256CHKSUM.

Definition Uint160ParseFromBytes (f : string) : option string :=
  if Nat.eqb (String.length f) UINT160SIZE then Some f else None.

Fixpoint CompareTo (x y : string) : Z :=
  match x, y with
  | String a x', String b y' => if code b <? code a then 1 else if code a <? code b then -1 else CompareTo x' y'
  | _, _ => 0
  end.

Section Address.
Context {C : StdCrypto} {A : AddressLib}.

Definition IsValidHexAddr (s : string) : bool :=
  if Nat.eqb (String.length s) HEXADDRLEN && (be_int (str_take PREFIXLEN s) =? FOOLPROOFPREFIX) then
    let sha := std_sha256 (str_take (PREFIXLEN + UINT160SIZE) s) in
    let chkSum := std_sha256 sha in
    String.eqb (str_drop (PREFIXLEN + UINT160SIZE) s) (str_take SHA256CHKSUM chkSum)
  else false.

(** The bytes of an address: prefix, hash and checksum. *)
Definition address_bytes (f : string) : string :=
  let data := (be_bytes FOOLPROOFPREFIX +:+ f)%string in
  let temps := std_sha256 (std_sha256 data) in
  (data +:+ str_take SHA256CHKSUM temps)%string.

Definition ToAddress (f : string) : option string :=
  let bi := nat_str (be_int (address_bytes f)) in base58_Encode bi.

Definition ToScriptHash (address : string) : option string :=
  decoded ← base58_Decode address;
  bint ← big_string decoded;
  let hex := be_bytes (Z.abs bint) in
  if IsValidHexAddr hex then Uint160ParseFromBytes (str_take UINT160SIZE (str_drop PREFIXLEN hex)) else None.

(** common/common.go *)
Definition ToCodeHash (code : string) : option string :=
  let temp := std_sha256 code in Uint160ParseFromBytes (ripemd160 temp).

(** ** program/program.go *)

Definition CHECKSIG : ascii := chr 172.

Record ProgramContext : Type := mk_ProgramContext {
  pc_Code : string;
  pc_Parameters : list Z;
  pc_ProgramHash : string;
  pc_OwnerPubkeyHash : string
}.

Definition CreateSignatureProgramCode (pubKey : string) : string :=
  String (chr (Z.of_nat (String.length pubKey) mod 256)) (pubKey +:+ String CHECKSIG "")%string.

Definition CreateSignatureProgramContext (ownerPubKey : string) : option ProgramContext :=
  let code := CreateSignatureProgramCode ownerPubKey in
  hash ← ToCodeHash ownerPubKey;
  programHash ← ToCodeHash code;
  Some {| pc_Code := code; pc_Parameters := [0]; pc_ProgramHash := programHash; pc_OwnerPubkeyHash := hash |}.

Definition CreateProgramHash (pubKey : string) : option string := ToCodeHash (CreateSignatureProgramCode pubKey).

Definition byte_at (i : nat) (s : string) : Z := match String.get i s with Some c => code c | None => 0 end.

Definition GetPublicKeyFromCode (code : string) : option string :=
  if negb (Nat.eqb (String.length code) 34) then None
  else if negb (byte_at 0 code =? 32) && negb (byte_at 33 code =? 172) then None
  else Some (str_take 32 (str_drop 1 code)).

Definition NewProgram_parameter (signature : string) : string :=
  String (chr (Z.of_nat (String.length signature) mod 256)) signature.

Definition GetSignatureFromParameter (parameter : string) : option string :=
  if negb (Nat.eqb (String.length parameter) 65) then None
  else if negb (byte_at 0 parameter =? 64) then None
  else Some (str_drop 1 parameter).
End Address.

(** ** Bytes of integers *)

Lemma be_acc_bound a s : 0 <= a -> a * 256 ^ Z.of_nat (String.length s) <= be_acc a s < (a + 1) * 256 ^ Z.of_nat (String.length s).
Proof.
  revert a. induction s as [|c s IH]; intros a Ha; [cbn; lia |]. cbn [be_acc String.length].
  pose proof (code_range c). specialize (IH (256 * a + code c) ltac:(lia)).
  rewrite Nat2Z.inj_succ, Z.pow_succ_r by lia. nia.
Qed.

Lemma be_go_acc s : forall f a acc, 0 <= a -> (0 < a \/ forall c r, s = String c r -> code c <> 0) ->
  (String.length s <= f)%nat -> be_go f (be_acc a s) acc = be_go (f - String.length s) a (s +:+ acc).
Proof.
  induction s as [|c s IH]; intros f a acc Ha Hnz Hf; [by rewrite Nat.sub_0_r |].
  cbn [be_acc String.length] in *. pose proof (code_range c).
  assert (0 < 256 * a + code c) as Hp by (destruct Hnz as [? | Hc]; [lia | pose proof (Hc c s eq_refl); lia]).
  rewrite IH by (lia || by left). replace (f - String.length s)%nat with (S (f - S (String.length s))) by lia.
  cbn [be_go]. destruct (Z.eqb_spec (256 * a + code c) 0); [lia |].
  rewrite (Z.mul_comm 256), Z.div_add_l, Z.div_small, Z.add_0_r by lia.
  rewrite Z.add_comm, Z.mod_add, Z.mod_small, chr_code by lia. by rewrite string_app_cons.
Qed.

(** Bytes without a leading zero are those of their number. *)
Lemma be_bytes_int c s : code c <> 0 -> be_bytes (be_int (String c s)) = String c s.
Proof.
  intros Hc. pose proof (code_range c). unfold be_bytes, be_int.
  pose proof (be_acc_bound (code c) s ltac:(lia)) as Hb.
  assert (be_acc 0 (String c s) = be_acc (code c) s) as E by (cbn [be_acc]; f_equal; lia).
  rewrite be_go_acc.
  - rewrite string_app_nil_r. by destruct (_ - _)%nat.
  - lia.
  - right. by intros ? ? [= <- <-].
  - rewrite E. cbn [String.length].
    assert (8 * Z.of_nat (String.length s) <= Z.log2 (be_acc (code c) s)); [| lia].
    apply Z.log2_le_pow2; [nia |]. rewrite Z.pow_mul_r by lia. change (2 ^ 8) with 256. nia.
Qed.

Lemma be_int_go f : forall n acc, 0 <= n < 256 ^ Z.of_nat f -> be_int (be_go f n acc) = be_acc n acc.
Proof.
  induction f as [|f IH]; intros n acc Hn; [by replace n with 0 by (cbn in Hn; lia) |]. cbn [be_go].
  destruct (Z.eqb_spec n 0) as [-> |]; [done |]. rewrite Nat2Z.inj_succ, Z.pow_succ_r in Hn by lia.
  rewrite IH by (split; [apply Z.div_pos; lia | apply Z.div_lt_upper_bound; lia]).
  cbn [be_acc]. pose proof (Z.mod_pos_bound n 256 ltac:(lia)). rewrite code_chr by done. f_equal.
  pose proof (Z.div_mod n 256 ltac:(lia)). lia.
Qed.

Lemma be_int_bytes n : 0 <= n -> be_int (be_bytes n) = n.
Proof.
  intros Hn. unfold be_bytes. rewrite be_int_go; [done |]. split; [done |].
  eapply Z.lt_le_trans; [by apply log2_fuel | apply Z.pow_le_mono_l; lia].
Qed.

Lemma big_string_nat n : 0 <= n -> big_string (nat_str n) = Some n.
Proof.
  intros Hn. pose proof (dval_nat_str n Hn) as Hd. pose proof (nat_str_nonempty n Hn) as Hne.
  pose proof (parse_digits_dval _ _ Hne Hd) as Hp. destruct (nat_str n) as [|c r] eqn:E; [done |].
  pose proof (dval_head _ _ c r Hd eq_refl). unfold big_string.
  destruct (Z.eqb_spec (code c) 45); [lia |]. by destruct (Z.eqb_spec (code c) 43); [lia |].
Qed.

(** ** Digits of base 58 *)

Lemma b58_go_split k : forall f n acc, 58 ^ Z.of_nat k <= n ->
  exists t, String.length t = k /\ b58_go (k + f) n acc = b58_go f (n / 58 ^ Z.of_nat k) (t +:+ acc).
Proof.
  induction k as [|k IH]; intros f n acc Hn; [exists ""; cbn; by rewrite Z.div_1_r |].
  rewrite Nat2Z.inj_succ, Z.pow_succ_r in * by lia.
  assert (0 < 58 ^ Z.of_nat k) as Hp by (apply Z.pow_pos_nonneg; lia).
  destruct (IH (S f) n acc ltac:(nia)) as (t & Ht & E).
  exists (String (b58_char (n / 58 ^ Z.of_nat k mod 58)) t). split; [cbn [String.length]; lia |].
  replace (S k + f)%nat with (k + S f)%nat by lia. rewrite E. cbn [b58_go].
  assert (58 <= n / 58 ^ Z.of_nat k) by (apply Z.div_le_lower_bound; nia).
  destruct (Z.ltb_spec (n / 58 ^ Z.of_nat k) 58); [lia |].
  rewrite Z.div_div, (Z.mul_comm _ 58) by lia. by rewrite string_app_cons.
Qed.

Lemma str_drop_app_r n a b : (n <= String.length a)%nat -> str_drop n (a +:+ b) = (str_drop n a +:+ b)%string.
Proof.
  revert a. induction n as [|n IH]; intros a Hn; [done |]. destruct a as [|c a]; [cbn in Hn; lia |].
  rewrite string_app_cons. cbn [str_drop String.length] in *. apply IH. lia.
Qed.

Lemma str_take_app_le n a b : (n <= String.length a)%nat -> str_take n (a +:+ b) = str_take n a.
Proof.
  revert a. induction n as [|n IH]; intros a Hn; [by destruct a, b |]. destruct a as [|c a]; [cbn in Hn; lia |].
  rewrite string_app_cons. cbn [str_take String.length] in *. f_equal. apply IH. lia.
Qed.

Lemma str_drop_length n s : String.length (str_drop n s) = (String.length s - n)%nat.
Proof. revert s. induction n as [|n IH]; intros [|c s]; cbn; try done; lia || apply IH. Qed.

Section Theorems.
Context {C : StdCrypto} {CL : StdCryptoLaws C} {A : AddressLib} {AL : AddressLaws A}.

Lemma ToCodeHash_total code : exists h, ToCodeHash code = Some h /\ String.length h = UINT160SIZE.
Proof.
  exists (ripemd160 (std_sha256 code)). unfold ToCodeHash, Uint160ParseFromBytes. by rewrite ripemd160_size.
Qed.

Lemma address_bytes_length f : String.length f = UINT160SIZE -> String.length (address_bytes f) = HEXADDRLEN.
Proof.
  intros Hf. unfold address_bytes. rewrite !string_length_app, Hf, str_take_length; [done |].
  rewrite sha256_size. unfold SHA256CHKSUM. lia.
Qed.

(** The number of an address lies between those of the bare prefix and the next. *)
Lemma address_number f : String.length f = UINT160SIZE ->
  FOOLPROOFPREFIX * 2 ^ 192 <= be_int (address_bytes f) < (FOOLPROOFPREFIX + 1) * 2 ^ 192.
Proof.
  intros Hf. set (rest := (f +:+ str_take SHA256CHKSUM (std_sha256 (std_sha256 (be_bytes FOOLPROOFPREFIX +:+ f))))%string).
  assert (address_bytes f = (be_bytes FOOLPROOFPREFIX +:+ rest)%string) as ->
    by (unfold address_bytes, rest; by rewrite <- string_app_assoc).
  assert (be_int (be_bytes FOOLPROOFPREFIX +:+ rest) = be_acc FOOLPROOFPREFIX rest) as -> by reflexivity.
  assert (String.length rest = 24%nat) as Hl.
  { unfold rest. rewrite string_length_app, Hf, str_take_length; [done |]. rewrite sha256_size. unfold SHA256CHKSUM. lia. }
  pose proof (be_acc_bound FOOLPROOFPREFIX rest ltac:(done)) as Hb. rewrite Hl in Hb.
  change (256 ^ Z.of_nat 24) with (2 ^ 192) in Hb. exact Hb.
Qed.

Lemma address_bytes_valid f : String.length f = UINT160SIZE -> IsValidHexAddr (address_bytes f) = true.
Proof.
  intros Hf. unfold IsValidHexAddr. rewrite address_bytes_length by done. rewrite Nat.eqb_refl. cbn [andb].
  assert (String.length (be_bytes FOOLPROOFPREFIX +:+ f) = (PREFIXLEN + UINT160SIZE)%nat) as Hl
    by (by rewrite string_length_app, Hf).
  unfold address_bytes. rewrite <- !string_app_assoc.
  change (str_take PREFIXLEN (be_bytes FOOLPROOFPREFIX +:+ ?r)) with (be_bytes FOOLPROOFPREFIX).
  rewrite be_int_bytes, Z.eqb_refl by done. rewrite !string_app_assoc, <- Hl, str_take_app, str_drop_app.
  by rewrite String.eqb_refl.
Qed.

Lemma ToAddress_total f : String.length f = UINT160SIZE -> ToAddress f = Some (b58 (be_int (address_bytes f))).
Proof.
  intros Hf. pose proof (address_number f Hf). unfold ToAddress. apply base58_Encode_law.
  assert (0 < FOOLPROOFPREFIX * 2 ^ 192) by done. lia.
Qed.

(** Every hash has an address, which is read back to it. *)
Lemma ToScriptHash_ToAddress f : String.length f = UINT160SIZE ->
  exists a, ToAddress f = Some a /\ ToScriptHash a = Some f.
Proof.
  intros Hf. eexists. split; [by apply ToAddress_total |]. pose proof (address_number f Hf).
  assert (0 < FOOLPROOFPREFIX * 2 ^ 192) by done.
  unfold ToScriptHash. rewrite base58_Decode_law by lia. cbn [mbind option_bind].
  rewrite big_string_nat by lia. cbn [mbind option_bind]. rewrite Z.abs_eq by lia.
  assert (be_bytes (be_int (address_bytes f)) = address_bytes f) as ->.
  { unfold address_bytes. rewrite <- string_app_assoc. by apply be_bytes_int. }
  rewrite address_bytes_valid by done. unfold address_bytes. rewrite <- string_app_assoc.
  change (str_drop PREFIXLEN (be_bytes FOOLPROOFPREFIX +:+ ?r)) with r. rewrite <- Hf, str_take_app.
  unfold Uint160ParseFromBytes. by rewrite Hf, Nat.eqb_refl.
Qed.

(** What is read is the hash whose address has the same number: prefix and
    checksum are those of the hash. *)
Lemma ToScriptHash_exact a f : ToScriptHash a = Some f ->
  String.length f = UINT160SIZE
  /\ exists n, (decoded ← base58_Decode a; big_string decoded) = Some n /\ Z.abs n = be_int (address_bytes f).
Proof.
  unfold ToScriptHash. intros (decoded & -> & (n & Hn & H)%bind_Some)%bind_Some. cbn [mbind option_bind].
  set (hex := be_bytes (Z.abs n)) in *. destruct (IsValidHexAddr hex) eqn:Hv; [| done].
  unfold Uint160ParseFromBytes in H. destruct (Nat.eqb_spec (String.length (str_take UINT160SIZE (str_drop PREFIXLEN hex))) UINT160SIZE); [| done].
  apply (inj Some) in H. subst f. split; [done |]. exists n. split; [done |].
  rewrite <- (be_int_bytes (Z.abs n)) by lia. fold hex. f_equal.
  unfold IsValidHexAddr in Hv. destruct (Nat.eqb_spec (String.length hex) HEXADDRLEN) as [Hl |]; [| done].
  destruct (Z.eqb_spec (be_int (str_take PREFIXLEN hex)) FOOLPROOFPREFIX) as [Hp |]; [| done]. cbn [andb] in Hv.
  apply String.eqb_eq in Hv.
  assert (be_bytes FOOLPROOFPREFIX = str_take PREFIXLEN hex) as Hpre.
  { rewrite <- Hp. destruct hex as [|c r]; [done |]. cbn [str_take PREFIXLEN]. apply be_bytes_int.
    intros Hc. destruct r as [|c1 [|c2 r]]; try done. cbn in Hp. rewrite Hc in Hp.
    pose proof (code_range c1). pose proof (code_range c2). unfold FOOLPROOFPREFIX in Hp. lia. }
  unfold address_bytes. rewrite Hpre.
  assert (str_take PREFIXLEN hex +:+ str_take UINT160SIZE (str_drop PREFIXLEN hex) = str_take (PREFIXLEN + UINT160SIZE) hex)%string as ->.
  { by destruct hex as [|? [|? [|? r]]]. }
  rewrite <- Hv. symmetry. apply str_take_drop.
Qed.

(** The text of an address holds no character that needs an escape. *)
Lemma b58_html_free n : 0 <= n -> html_free (b58 n) = true.
Proof.
  assert (forall f m acc, html_free acc = true -> html_free (b58_go f m acc) = true) as G.
  { induction f as [|f IH]; intros m acc Ha; [done |]. cbn [b58_go]. cbv zeta.
    assert (html_free (String (b58_char (m mod 58)) acc) = true) as Hc.
    { assert (Forall (fun d => html_free (String (b58_char d) "") = true) (seqZ 0 58)) as F by (repeat constructor).
      rewrite list.Forall_forall in F. pose proof (F (m mod 58)) as H. cbn [html_free] in *. rewrite Ha, andb_true_r.
      rewrite <- (andb_true_r (_ && _)). apply H, elem_of_seqZ. pose proof (Z.mod_pos_bound m 58 ltac:(lia)). lia. }
    destruct (m <? 58); [done | by apply IH]. }
  intros _. by apply G.
Qed.

Lemma ToAddress_html_free f a : String.length f = UINT160SIZE -> ToAddress f = Some a -> html_free a = true.
Proof.
  intros Hf. rewrite ToAddress_total by done. intros [= <-]. pose proof (address_number f Hf). apply b58_html_free.
  assert (0 < FOOLPROOFPREFIX * 2 ^ 192) by done. lia.
Qed.

(** The key is read back from its program, a signature from its parameter. *)
Lemma program_read_back pk sig : String.length pk = 32%nat -> String.length sig = 64%nat ->
  GetPublicKeyFromCode (CreateSignatureProgramCode pk) = Some pk
  /\ GetSignatureFromParameter (NewProgram_parameter sig) = Some sig.
Proof.
  intros Hp Hs. split.
  - unfold GetPublicKeyFromCode, CreateSignatureProgramCode. cbn [String.length str_drop].
    rewrite string_length_app, Hp. cbn [String.length Nat.add Nat.eqb negb].
    change (byte_at 0 (String (chr (Z.of_nat 32 mod 256)) ?r)) with 32. cbn [Z.eqb Pos.eqb negb andb].
    by rewrite <- Hp, str_take_app.
  - unfold GetSignatureFromParameter, NewProgram_parameter. cbn [String.length str_drop]. rewrite Hs.
    cbn [Nat.eqb negb]. by change (byte_at 0 (String (chr (Z.of_nat 64 mod 256)) ?r)) with 64.
Qed.

(** Every address starts with NKN and has thirty-six characters. *)
Lemma ToAddress_shape f a : String.length f = UINT160SIZE -> ToAddress f = Some a ->
  exists t, a = ("NKN" +:+ t)%string /\ String.length t = 33%nat.
Proof.
  intros Hf. rewrite ToAddress_total by done. intros [= <-]. pose proof (address_number f Hf) as Hn.
  set (n := be_int (address_bytes f)) in *.
  assert (Z.log2 n = 209) as Hl.
  { apply Z.log2_unique; [done |]. unfold FOOLPROOFPREFIX in Hn. lia. }
  assert (71709 * 58 ^ Z.of_nat 33 <= FOOLPROOFPREFIX * 2 ^ 192) as Hlo by (vm_compute; discriminate).
  assert ((FOOLPROOFPREFIX + 1) * 2 ^ 192 <= 71710 * 58 ^ Z.of_nat 33) as Hhi by (vm_compute; discriminate).
  assert (n / 58 ^ Z.of_nat 33 = 71709) as Hq.
  { symmetry. apply Z.div_unique with (r := n - 71709 * 58 ^ Z.of_nat 33); lia. }
  unfold b58. rewrite Hl. change (Z.to_nat 209 + 1)%nat with (33 + 177)%nat.
  destruct (b58_go_split 33 177 n "") as (t & Ht & E); [lia |].
  rewrite E, Hq, string_app_nil_r. exists t. split; [reflexivity | done].
Qed.
End Theorems.

(** The check of a program refuses it only when both marks are wrong: one whose
    length byte is not that of a key is accepted. *)
Lemma code_check_weak : exists code, String.length code = 34%nat /\ byte_at 0 code <> 32
  /\ is_Some (GetPublicKeyFromCode code).
Proof.
  exists (zeros 33 +:+ String CHECKSIG "")%string. split_and!; [done | vm_compute; discriminate | by eexists].
Qed.

(** ** A concrete codec *)

Module ToyAddress.
Fixpoint index_of (c : ascii) (s : string) : option Z :=
  match s with
  | EmptyString => None
  | String a r => if Ascii.eqb a c then Some 0 else Z.succ <$> index_of c r
  end.
Fixpoint b58_val (m : Z) (s : string) : option Z :=
  match s with
  | EmptyString => Some m
  | String c r => d ← index_of c alphabet; b58_val (m * 58 + d) r
  end.

Lemma index_of_char d : 0 <= d < 58 -> index_of (b58_char d) alphabet = Some d.
Proof.
  intros Hd. assert (Forall (fun d => index_of (b58_char d) alphabet = Some d) (seqZ 0 58)) as F by (repeat constructor).
  rewrite list.Forall_forall in F. apply F, elem_of_seqZ. lia.
Qed.

Lemma b58_val_go f : forall n acc, 0 <= n < 58 ^ Z.of_nat f -> b58_val 0 (b58_go f n acc) = b58_val n acc.
Proof.
  induction f as [|f IH]; intros n acc Hn; [by replace n with 0 by (cbn in Hn; lia) |]. cbn [b58_go].
  pose proof (Z.mod_pos_bound n 58 ltac:(lia)). pose proof (Z.div_mod n 58 ltac:(lia)).
  rewrite Nat2Z.inj_succ, Z.pow_succ_r in Hn by lia. destruct (Z.ltb_spec n 58).
  - cbn [b58_val]. rewrite index_of_char by lia. cbn [mbind option_bind]. by rewrite Z.mod_small by lia.
  - rewrite IH by (split; [apply Z.div_pos; lia | apply Z.div_lt_upper_bound; lia]).
    cbn [b58_val]. rewrite index_of_char by lia. cbn [mbind option_bind]. f_equal. lia.
Qed.

#[export] Instance address : AddressLib := {
  ripemd160 := Toy.hash 20;
  base58_Encode := fun s => b58 <$> parse_digits s;
  base58_Decode := fun s => nat_str <$> b58_val 0 s
}.

#[export] Instance address_laws : AddressLaws address.
Proof.
  constructor; intros.
  - apply Toy.expand_length.
  - cbn [base58_Encode address]. rewrite (parse_digits_dval _ n); [done | apply nat_str_nonempty; lia | apply dval_nat_str; lia].
  - cbn [base58_Decode address]. unfold b58. rewrite b58_val_go; [done |]. split; [lia |].
    eapply Z.lt_le_trans; [apply log2_fuel; lia | apply Z.pow_le_mono_l; lia].
Qed.
End ToyAddress.
