(* ===== verification/Runtime.v ===== *)
(** * Asynchronous programs

    The actions of the store and the methods of the components are [async]
    functions: they run without interruption up to an [await], and resume
    later in a world that other code may have changed.  A program is a tree of
    commands with [throw] and [try]/[catch]; [run] executes it up to its next
    awaited command and returns the continuation.  Anything proved about the
    continuation for every world holds under every interleaving. *)

From S2P Require Import Prelude JsNum JsValue.

Section Prog.
Context {C : Type -> Type}.

Inductive prog (A : Type) : Type :=
| Ret (a : A)
| Raise (e : jsval)
| Do (R : Type) (c : C R) (k : R -> prog A).

End Prog.
Arguments prog C A : clear implicits.
Arguments Ret {C A} a.
Arguments Raise {C A} e.
Arguments Do {C A R} c k.

#[export] Instance prog_ret {C} : MRet (prog C) := fun A a => Ret a.

Definition prog_bind_fix {C A B} (f : A -> prog C B) : prog C A -> prog C B :=
  fix go p :=
    match p with
    | Ret a => f a
    | Raise e => Raise e
    | Do c k => Do c (fun r => go (k r))
    end.
#[export] Instance prog_bind {C} : MBind (prog C) := @prog_bind_fix C.

(** [try { p } catch (e) { h(e) }] *)
Fixpoint catch {C A} (p : prog C A) (h : jsval -> prog C A) : prog C A :=
  match p with
  | Ret a => Ret a
  | Raise e => h e
  | Do c k => Do c (fun r => catch (k r) h)
  end.

(** A computation without commands that may throw. *)
Definition lift {C A} (r : js A) : prog C A :=
  match r with Ok a => Ret a | Err e => Raise e end.

(** One command. *)
Definition trigger {C R} (c : C R) : prog C R := Do c Ret.

(** A command whose answer may be a thrown error. *)
Definition trigger_js {C A} (c : C (js A)) : prog C A := Do c lift.

(** Run a program of one command set inside a larger one. *)
Fixpoint hoist {C D : Type -> Type} {A} (f : forall R, C R -> D R) (p : prog C A) : prog D A :=
  match p with
  | Ret a => Ret a
  | Raise e => Raise e
  | Do c k => Do (f _ c) (fun r => hoist f (k r))
  end.

Notation "'tryc' p 'with' e '=>' h" := (catch p (fun e => h))
  (at level 10, p at level 100, e name, h at level 200).

(** ** Running up to the next await *)

Inductive stage (C : Type -> Type) (A : Type) : Type :=
| Done (r : js A)
| Await (R : Type) (c : C R) (k : R -> prog C A).
Arguments Done {C A} r.
Arguments Await {C A R} c k.

(** A handler answers a command at once, or leaves it pending ([None]). *)
Definition handler (C : Type -> Type) (W : Type) : Type := forall R, C R -> W -> option (W * R).

Fixpoint run {C W A} (h : handler C W) (p : prog C A) (w : W) : W * stage C A :=
  match p with
  | Ret a => (w, Done (Ok a))
  | Raise e => (w, Done (Err e))
  | Do c k =>
      match h _ c w with
      | Some (w', r) => run h (k r) w'
      | None => (w, Await c k)
      end
  end.

(** ** Laws *)

Section Laws.
Context {C : Type -> Type} {W : Type} (h : handler C W).

Lemma run_bind {A B} (p : prog C A) (f : A -> prog C B) w :
  run h (p ≫= f) w =
  match run h p w with
  | (w', Done (Ok a)) => run h (f a) w'
  | (w', Done (Err e)) => (w', Done (Err e))
  | (w', Await c k) => (w', Await c (fun r => k r ≫= f))
  end.
Proof.
  revert w. induction p as [a | e | R c k IH]; intros w; try done.
  change (Do c k ≫= f) with (Do c (fun r => k r ≫= f)). cbn [run].
  destruct (h R c w) as [[w' r]|]; [apply IH | done].
Qed.

Lemma run_catch {A} (p : prog C A) (g : jsval -> prog C A) w :
  run h (catch p g) w =
  match run h p w with
  | (w', Done (Ok a)) => (w', Done (Ok a))
  | (w', Done (Err e)) => run h (g e) w'
  | (w', Await c k) => (w', Await c (fun r => catch (k r) g))
  end.
Proof.
  revert w. induction p as [a | e | R c k IH]; intros w; try done.
  cbn [catch run]. destruct (h R c w) as [[w' r]|]; [apply IH | done].
Qed.

Lemma run_lift {A} (r : js A) w : run h (lift r) w = (w, Done r).
Proof. by destruct r. Qed.

Lemma run_trigger {R} (c : C R) w w' r : h R c w = Some (w', r) -> run h (trigger c) w = (w', Done (Ok r)).
Proof. intros E. cbn. by rewrite E. Qed.

End Laws.
