(* ===== verification/Store.v ===== *)
(** * The Vuex store: store/common.js, node.js, wallet.js, index.js

    The state of the dashboard, its getters and mutations as functions, its
    actions as asynchronous programs.  The commands of an action are the calls
    it makes: reading the root state, [commit], the axios client, the session
    storage, the console and the browser download. *)

From S2P Require Import Prelude JsNum JsValue Json CryptoLib CryptoHelpers Runtime.
Local Open Scope Z_scope.

(** ** helpers/consts.js *)

Module ServiceStatusEnum.
Definition SERVICE_STATUS_DEFAULT : Z := 0.
Definition SERVICE_STATUS_NO_BENEFICIARY : Z := Z.shiftl 1 0.
Definition SERVICE_STATUS_NO_WALLET_FILE : Z := Z.shiftl 1 1.
Definition SERVICE_STATUS_NO_PASSWORD : Z := Z.shiftl 1 2.
Definition SERVICE_STATUS_CREATE_ID : Z := Z.shiftl 1 3.
Definition SERVICE_STATUS_RUNNING : Z := Z.shiftl 1 4.
End ServiceStatusEnum.
Export ServiceStatusEnum.

(** Side conditions on the flags of the service status. *)
Ltac flag_lia :=
  unfold safe, SERVICE_STATUS_NO_WALLET_FILE, SERVICE_STATUS_NO_PASSWORD, SERVICE_STATUS_CREATE_ID,
    SERVICE_STATUS_RUNNING; cbn; try done; lia.

(** ** State *)

Record common_state : Type := mk_common {
  token : jsval;
  unix : jsval;
  beneficiaryAddr : jsval;
  serviceStatus : jsval;
  allowEmptyBeneficiaryAddress : jsval;
  webGuiCreateWallet : jsval
}.

Record node_state : Type := mk_node {
  nodeStatus : jsval;
  neighbors : list jsval
}.

Record wallet_state : Type := mk_wallet {
  currentWalletStatus : jsval
}.

(** store/index.js: the root module is common.js, with two submodules. *)
Record root_state : Type := mk_root {
  common : common_state;
  node : node_state;
  wallet : wallet_state
}.

(** [now] is the value of [Date.now()] when the module is loaded. *)
Definition common_init (now : num) : common_state := {|
  token := VUndef;
  unix := VNum now;
  beneficiaryAddr := VStr "";
  serviceStatus := VInt SERVICE_STATUS_DEFAULT;
  allowEmptyBeneficiaryAddress := VBool false;
  webGuiCreateWallet := VBool false
|}.

Definition node_init : node_state := {|
  nodeStatus := VObj [("syncState", VStr "DEFAULT")];
  neighbors := []
|}.

Definition wallet_init : wallet_state := {| currentWalletStatus := VObj [] |}.

Definition store_init (now : num) : root_state :=
  {| common := common_init now; node := node_init; wallet := wallet_init |}.

(** ** Getters *)

Definition beneficiaryAddrRequired (state : common_state) : jsval :=
  if truthy (allowEmptyBeneficiaryAddress state) then VBool false else webGuiCreateWallet state.

(** lodash's [countBy], a library function: an object that maps each key the
    iteratee returns to the number of times it was returned. *)
Class Lodash : Type := {
  countBy : list jsval -> (jsval -> js bool) -> js jsval
}.

(** The key ["true"] counts the elements the iteratee accepts, and is absent
    when there are none. *)
Class LodashLaws (L : Lodash) : Prop := {
  countBy_true : forall l f g,
    (forall x, In x l -> f x = Ok (g x)) ->
    exists o, countBy l f = Ok o /\
      get_prop o "true" =
        Ok (match length (List.filter g l) with O => VUndef | n => VInt (Z.of_nat n) end)
}.

Section NodeGetters.
Context {L : Lodash}.

Definition inBoundCount (state : node_state) : js jsval :=
  match neighbors state with
  | [] => Ok VUndef
  | _ =>
      res ← countBy (neighbors state)
              (fun item => o ← get_prop item "isOutbound"; Ok (negb (truthy o)));
      t ← get_prop res "true";
      Ok (js_or t (VInt 0))
  end.
End NodeGetters.

(** ** Mutations *)

Definition syncServiceStatus (state : common_state) (data : jsval) : js common_state :=
  status ← get_prop data "status";
  allow ← get_prop data "allowEmptyBeneficiaryAddress";
  gui ← get_prop data "webGuiCreateWallet";
  addr ← get_prop data "beneficiaryAddr";
  Ok {| token := token state; unix := unix state; beneficiaryAddr := addr;
        serviceStatus := status; allowEmptyBeneficiaryAddress := allow;
        webGuiCreateWallet := gui |}.

Definition set_clock (state : common_state) (tok u : jsval) : common_state :=
  {| token := tok; unix := u; beneficiaryAddr := beneficiaryAddr state;
     serviceStatus := serviceStatus state;
     allowEmptyBeneficiaryAddress := allowEmptyBeneficiaryAddress state;
     webGuiCreateWallet := webGuiCreateWallet state |}.

Definition syncToken (state : common_state) (data : jsval) : js common_state :=
  tok ← get_prop data "token";
  u ← get_prop data "unix";
  Ok (set_clock state tok u).

Definition syncUnix (state : common_state) (u : jsval) : common_state :=
  set_clock state (token state) u.

Definition tick (state : common_state) : common_state :=
  set_clock state (token state) (VNum (num_add (to_number (unix state)) (num_of_Z 1))).

Definition setNodeStatus (state : node_state) (n : jsval) : node_state :=
  if truthy n then {| nodeStatus := n; neighbors := neighbors state |} else state.

(** The mutation (the action of the same name is below). *)
Definition setBeneficiaryAddr_mut (state : node_state) (addr : jsval) : js node_state :=
  s ← set_prop (nodeStatus state) "beneficiaryAddr" addr;
  Ok {| nodeStatus := s; neighbors := neighbors state |}.

Definition setNeighbors (state : node_state) (n : jsval) : node_state :=
  match n with
  | VArr l => {| nodeStatus := nodeStatus state; neighbors := l |}
  | _ => {| nodeStatus := nodeStatus state; neighbors := [] |}
  end.

Definition setCurrentWalletStatus (state : wallet_state) (w : jsval) : wallet_state :=
  if truthy w then {| currentWalletStatus := w |} else state.

(** *** The mutation table of store/index.js: root names and namespaced ones *)

Definition with_common (s : root_state) (c : common_state) : root_state :=
  {| common := c; node := node s; wallet := wallet s |}.
Definition with_node (s : root_state) (n : node_state) : root_state :=
  {| common := common s; node := n; wallet := wallet s |}.
Definition with_wallet (s : root_state) (w : wallet_state) : root_state :=
  {| common := common s; node := node s; wallet := w |}.

Inductive mutation : Type :=
| MSyncServiceStatus
| MSyncToken
| MSyncUnix
| MTick
| MNodeStatus
| MNodeBeneficiaryAddr
| MNodeNeighbors
| MWalletStatus.

(** The name a mutation is registered under. *)
Definition mutation_type (m : mutation) : string :=
  match m with
  | MSyncServiceStatus => "syncServiceStatus"
  | MSyncToken => "syncToken"
  | MSyncUnix => "syncUnix"
  | MTick => "tick"
  | MNodeStatus => "node/setNodeStatus"
  | MNodeBeneficiaryAddr => "node/setBeneficiaryAddr"
  | MNodeNeighbors => "node/setNeighbors"
  | MWalletStatus => "wallet/setCurrentWalletStatus"
  end.

Definition apply_mutation (m : mutation) (s : root_state) (payload : jsval) : js root_state :=
  match m with
  | MSyncServiceStatus => with_common s <$> syncServiceStatus (common s) payload
  | MSyncToken => with_common s <$> syncToken (common s) payload
  | MSyncUnix => Ok (with_common s (syncUnix (common s) payload))
  | MTick => Ok (with_common s (tick (common s)))
  | MNodeStatus => Ok (with_node s (setNodeStatus (node s) payload))
  | MNodeBeneficiaryAddr => with_node s <$> setBeneficiaryAddr_mut (node s) payload
  | MNodeNeighbors => Ok (with_node s (setNeighbors (node s) payload))
  | MWalletStatus => Ok (with_wallet s (setCurrentWalletStatus (wallet s) payload))
  end.

(** What a mutation writes to the console, read off the state it leaves. *)
Definition mutation_log (m : mutation) (s : root_state) : list jsval :=
  let u := to_string (unix (common s)) in
  match m with
  | MSyncToken =>
      [VStr ("sync service unix: " +:+ u +:+ ", token: " +:+ to_string (token (common s)))%string]
  | MSyncUnix => [VStr ("sync service unix: " +:+ u)%string]
  | _ => []
  end.

(** ** Commands of the actions *)

Record request : Type := mk_request {
  r_method : string;
  r_url : string;
  r_data : jsval
}.

Inductive cmd : Type -> Type :=
| RootState : cmd root_state
| Commit (m : mutation) (payload : jsval) : cmd (js unit)
| SetHeader (name : string) (value : jsval) : cmd unit
| SessionSet (key value : string) : cmd unit
| Http (r : request) : cmd (js jsval)
| Log (v : jsval) : cmd unit
| Download (name content : string) (type : jsval) : cmd unit.

Abbreviation action A := (prog cmd A).

Definition rootState : action root_state := trigger RootState.
Definition commit (m : mutation) (payload : jsval) : action unit := trigger_js (Commit m payload).
Definition setHeader (name : string) (v : jsval) : action unit := trigger (SetHeader name v).
Definition sessionSet (key v : string) : action unit := trigger (SessionSet key v).
Definition console_log (v : jsval) : action unit := trigger (Log v).

(** [await this.$axios.get(url)] and the like. *)
Definition http (method url : string) (data : jsval) : action jsval :=
  trigger_js (Http {| r_method := method; r_url := url; r_data := data |}).

(** [await p], a property read of what it returns. *)
Definition prop (v : jsval) (k : string) : action jsval := lift (get_prop v k).

(** [e.response.status] *)
Definition response_status (e : jsval) : action jsval :=
  r ← prop e "response"; prop r "status".

(** [e.code = s; throw e] *)
Definition throw_code (e s : jsval) : action jsval :=
  e' ← lift (set_prop e "code" s); Raise e'.

(** ** Actions *)

Section Actions.
Context {J : CryptoJS}.

(** [passwordHash(pw, hmacSHA256(authHash(pw), rootState.token + rootState.unix))] *)
Definition authorization (rs : root_state) (password : jsval) : js string :=
  a ← authHash password;
  h ← hmacSHA256 (VStr a) (js_add (token (common rs)) (unix (common rs)));
  passwordHash password (VStr h).

(** [this.$axios.setHeader("Authorization", ...)] *)
Definition setAuthorization (password : jsval) : action unit :=
  rs ← rootState;
  h ← lift (authorization rs password);
  setHeader "Authorization" (VStr h).

(** *** store/common.js *)

Definition getServiceStatus : action jsval :=
  tryc
    res ← http "GET" "/api/sync/status" VUndef;
    data ← prop res "data";
    commit MSyncServiceStatus data;;
    Ret VUndef
  with e =>
    s ← response_status e;
    if negb (strict_eq s (VInt 200)) then throw_code e s else Ret VUndef.

Definition getToken : action jsval :=
  tryc
    res ← http "GET" "/api/sync/token" VUndef;
    data ← prop res "data";
    commit MSyncToken data;;
    Ret VUndef
  with e =>
    s ← response_status e;
    if negb (strict_eq s (VInt 200)) then throw_code e s else Ret VUndef.

Definition getUnix : action jsval :=
  tryc
    res ← http "GET" "/api/sync/unix" VUndef;
    data ← prop res "data";
    u ← prop data "unix";
    commit MSyncUnix (VNum (parse_int (to_string u)));;
    Ret VUndef
  with e =>
    s ← response_status e;
    if strict_eq s (VInt 400) then throw_code e s else Ret VUndef.

Definition verification (payload : jsval) : action jsval :=
  tryc
    setAuthorization payload;;
    res ← http "HEAD" "/api/verification" VUndef;
    prop res "data"
  with e =>
    s ← response_status e;
    if strict_eq s (VInt 401) || strict_eq s (VInt 403) then throw_code e s else Ret VUndef.

(** *** store/node.js *)

Definition getNodeStatus : action jsval :=
  tryc
    res ← http "GET" "/api/node/status" VUndef;
    data ← prop res "data";
    commit MNodeStatus data;;
    Ret VUndef
  with e =>
    console_log e;;
    Ret VUndef.

Definition setBeneficiaryAddr (password addr : jsval) : action jsval :=
  tryc
    setAuthorization password;;
    res ← http "PUT" "/api/node/beneficiary" (VObj [("beneficiaryAddr", addr)]);
    prop res "data"
  with e =>
    s ← response_status e;
    if strict_eq s (VInt 400) then throw_code e s else Ret VUndef.

Definition setNodeConfig (password config : jsval) : action jsval :=
  tryc
    setAuthorization password;;
    res ← http "PUT" "/api/node/config" config;
    prop res "data"
  with e =>
    s ← response_status e;
    if strict_eq s (VInt 400) then throw_code e s else Ret VUndef.

Definition getNeighbors : action jsval :=
  tryc
    res ← http "GET" "/api/node/neighbors" VUndef;
    data ← prop res "data";
    commit MNodeNeighbors data;;
    prop res "data"
  with e => Raise e.

(** *** store/wallet.js *)

Definition getCurrentWalletStatus : action jsval :=
  tryc
    res ← http "GET" "/api/current-wallet/status" VUndef;
    data ← prop res "data";
    commit MWalletStatus data;;
    Ret VUndef
  with e =>
    console_log e;;
    Ret VUndef.

Definition getCurrentWalletDetails (payload : jsval) : action jsval :=
  tryc
    setAuthorization payload;;
    res ← http "GET" "/api/current-wallet/details" VUndef;
    prop res "data"
  with e =>
    s ← response_status e;
    if strict_eq s (VInt 401) || strict_eq s (VInt 403) then throw_code e s else Ret VUndef.

Definition createWallet (password addr : jsval) : action jsval :=
  tryc
    res ← http "POST" "/api/wallet/create" (VObj [("password", password); ("beneficiaryAddr", addr)]);
    seed ← lift (seedHash password);
    sessionSet "seed" seed;;
    commit MSyncServiceStatus (VObj [("status", VInt SERVICE_STATUS_RUNNING)]);;
    prop res "data"
  with e =>
    s ← response_status e;
    if strict_eq s (VInt 400) then throw_code e s else Ret VUndef.

Definition openWallet (payload : jsval) : action jsval :=
  tryc
    res ← http "POST" "/api/wallet/open" (VObj [("password", payload)]);
    seed ← lift (seedHash payload);
    sessionSet "seed" seed;;
    commit MSyncServiceStatus (VObj [("status", VInt SERVICE_STATUS_RUNNING)]);;
    prop res "data"
  with e =>
    s ← response_status e;
    if strict_eq s (VInt 401) || strict_eq s (VInt 403) then throw_code e s else Ret VUndef.

Definition downloadWallet (payload : jsval) : action jsval :=
  tryc
    setAuthorization payload;;
    res ← http "GET" "/api/wallet/download" VUndef;
    data ← prop res "data";
    headers ← prop res "headers";
    type ← prop headers "content-type";
    trigger (Download "wallet.json" (default "undefined" (stringify data)) type);;
    Ret VUndef
  with e => Raise e.

End Actions.

(** ** The world the actions run in *)

(** The store, the session storage, the default headers of the axios client,
    the console and the files handed to the browser. *)
Record world : Type := mk_world {
  w_state : root_state;
  w_session : gmap string string;
  w_headers : gmap string jsval;
  w_console : list jsval;
  w_files : list (string * string * jsval)
}.

Definition set_state (w : world) (s : root_state) : world :=
  {| w_state := s; w_session := w_session w; w_headers := w_headers w;
     w_console := w_console w; w_files := w_files w |}.
Definition set_session (w : world) (m : gmap string string) : world :=
  {| w_state := w_state w; w_session := m; w_headers := w_headers w;
     w_console := w_console w; w_files := w_files w |}.
Definition set_headers (w : world) (m : gmap string jsval) : world :=
  {| w_state := w_state w; w_session := w_session w; w_headers := m;
     w_console := w_console w; w_files := w_files w |}.
Definition add_logs (w : world) (l : list jsval) : world :=
  {| w_state := w_state w; w_session := w_session w; w_headers := w_headers w;
     w_console := w_console w ++ l; w_files := w_files w |}.
Definition add_file (w : world) (f : string * string * jsval) : world :=
  {| w_state := w_state w; w_session := w_session w; w_headers := w_headers w;
     w_console := w_console w; w_files := w_files w ++ [f] |}.

(** [commit] runs the mutation at once; an HTTP request is awaited. *)
Definition exec_commit (m : mutation) (payload : jsval) (w : world) : world * js unit :=
  match apply_mutation m (w_state w) payload with
  | Ok s => (add_logs (set_state w s) (mutation_log m s), Ok tt)
  | Err e => (w, Err e)
  end.

Definition exec : handler cmd world := fun R c =>
  match c in cmd R return world -> option (world * R) with
  | RootState => fun w => Some (w, w_state w)
  | Commit m payload => fun w => Some (exec_commit m payload w)
  | SetHeader n v => fun w => Some (set_headers w (<[n := v]> (w_headers w)), tt)
  | SessionSet k v => fun w => Some (set_session w (<[k := v]> (w_session w)), tt)
  | Http _ => fun _ => None
  | Log v => fun w => Some (add_logs w [v], tt)
  | Download n content t => fun w => Some (add_file w (n, content, t), tt)
  end.
