(* ===== verification/AxiosPlugin.v ===== *)
(** * plugins/axios.js

    The interceptors of the HTTP client.  Every request body is encrypted
    under a key derived from the session seed, the token and the clock; every
    encrypted response is decrypted by trying the keys of the forty seconds
    around the local clock. *)

From S2P Require Import Prelude JsNum JsValue Json CryptoLib CryptoHelpers Runtime Store.
Local Open Scope Z_scope.

(** The configuration of one request, as axios passes it to the interceptor. *)
Record axios_config : Type := mk_config {
  c_method : string;
  c_url : string;
  c_withCredentials : bool;
  c_headers : gmap string jsval;
  c_data : jsval
}.

(** The configuration axios builds: the request and the default headers. *)
Definition base_config (w : world) (r : request) : axios_config := {|
  c_method := r_method r; c_url := r_url r; c_withCredentials := false;
  c_headers := w_headers w; c_data := r_data r
|}.

(** [sessionStorage.getItem(k)] *)
Definition sessionGet (w : world) (k : string) : jsval :=
  match w_session w !! k with Some s => VStr s | None => VNull end.

Section Axios.
Context {J : CryptoJS}.

(** [hmacSHA256(seed, store.state.token + t)] *)
Definition secret_at (w : world) (t : jsval) : js string :=
  hmacSHA256 (sessionGet w "seed") (js_add (token (common (w_state w))) t).

Definition is_plain_data (v : jsval) : bool :=
  match v with VUndef | VForm => false | _ => true end.

(** [now] is [Date.now()], in milliseconds. *)
Definition onRequest (w : world) (now : num) (config : axios_config) : js axios_config :=
  let headers := <["Unix" := VNum (num_floor (num_div now (num_of_Z 1000)))]> (c_headers config) in
  let config' d := {| c_method := c_method config; c_url := c_url config;
                      c_withCredentials := true; c_headers := headers; c_data := d |} in
  if is_plain_data (c_data config) then
    secret ← secret_at w (unix (common (w_state w)));
    c ← aesEncrypt (default "undefined" (stringify (c_data config))) (VStr secret);
    Ok (config' (VObj [("data", VStr c)]))
  else Ok (config' (c_data config)).

(** One round of the loop: the key of second [i], then [aesDecrypt] and
    [JSON.parse] inside [try].  [None] is a round that goes on to the next. *)
Definition try_key (w : world) (cipher : jsval) (i : jsval) : js (option jsval) :=
  secret ← secret_at w i;
  Ok (result_to_option (data ← aesDecrypt cipher (VStr secret); parse data)).

(** [for (let i = from; i < upto; i++)]; [None] when the fuel runs out. *)
Fixpoint try_keys (fuel : nat) (w : world) (cipher i upto : jsval) : option (js jsval) :=
  match fuel with
  | O => None
  | S f =>
      if js_lt i upto then
        match try_key w cipher i with
        | Err e => Some (Err e)
        | Ok (Some data) => Some (Ok data)
        | Ok None => try_keys f w cipher (VNum (num_add (to_number i) (num_of_Z 1))) upto
        end
      else Some (Err (Error "data can not decrypt"))
  end.

Definition padding : Z := 20.

Definition onResponse (fuel : nat) (w : world) (resp : jsval) : option (js jsval) :=
  match (d ← get_prop resp "data"; get_prop d "data") with
  | Err e => Some (Err e)
  | Ok VUndef => Some (Ok resp)
  | Ok cipher =>
      let tick := unix (common (w_state w)) in
      match try_keys fuel w cipher (js_sub tick (VInt padding)) (js_add tick (VInt padding)) with
      | Some (Ok data) => Some (set_prop resp "data" data)
      | Some (Err e) => Some (Err e)
      | None => None
      end
  end.

(** The error interceptor computes a status code it does not use; the client
    then rejects with the same error. *)
Definition onError (error : jsval) : js jsval :=
  response ← get_prop error "response";
  status ← (if truthy response then get_prop response "status" else Ok response);
  let code := parse_int (to_string status) in
  Ok VUndef.

(** ** The loop as a search over the seconds of the window *)

Fixpoint first_key (w : world) (cipher : jsval) (l : list Z) : js jsval :=
  match l with
  | [] => Err (Error "data can not decrypt")
  | i :: l' =>
      match try_key w cipher (VInt i) with
      | Err e => Err e
      | Ok (Some data) => Ok data
      | Ok None => first_key w cipher l'
      end
  end.

Lemma try_keys_int w cipher n a fuel :
  safe a -> safe (a + Z.of_nat n) -> (n < fuel)%nat ->
  try_keys fuel w cipher (VInt a) (VInt (a + Z.of_nat n)) = Some (first_key w cipher (seqZ a (Z.of_nat n))).
Proof.
  revert a fuel. induction n as [|n IH]; intros a [|f] Ha Hb Hf; try lia; cbn [try_keys].
  - rewrite js_lt_int by done. destruct (Z.ltb_spec a (a + Z.of_nat 0)); [lia | done].
  - rewrite js_lt_int by done. destruct (Z.ltb_spec a (a + Z.of_nat (S n))); [| lia].
    rewrite seqZ_cons by lia. cbn [first_key].
    destruct (try_key w cipher (VInt a)) as [[data|]|e]; try done.
    rewrite js_incr_int by (unfold safe in *; lia).
    replace (a + Z.of_nat (S n)) with (Z.succ a + Z.of_nat n) by lia.
    replace (Z.pred (Z.of_nat (S n))) with (Z.of_nat n) by lia.
    change (a + 1) with (Z.succ a). apply IH; unfold safe in *; lia.
Qed.

(** The seconds the loop tries, in order. *)
Definition ticks (u : Z) : list Z := seqZ (u - padding) (2 * padding).

Lemma try_keys_window w cipher u fuel :
  safe (u - padding) -> safe (u + padding) -> (40 < fuel)%nat ->
  try_keys fuel w cipher (js_sub (VInt u) (VInt padding)) (js_add (VInt u) (VInt padding))
  = Some (first_key w cipher (ticks u)).
Proof.
  intros H1 H2 Hf. unfold padding in *.
  rewrite js_sub_int, js_add_int by (unfold safe in *; lia).
  replace (u + 20) with ((u - 20) + Z.of_nat 40) by lia.
  apply try_keys_int; unfold safe in *; lia.
Qed.

Lemma first_key_hit w cipher l1 s l2 data :
  (forall i, In i l1 -> try_key w cipher (VInt i) = Ok None) ->
  try_key w cipher (VInt s) = Ok (Some data) ->
  first_key w cipher (l1 ++ s :: l2) = Ok data.
Proof.
  intros H Hs. induction l1 as [|i l1 IH]; cbn [app first_key]; [by rewrite Hs |].
  rewrite H by (by left). apply IH. intros j Hj. apply H. by right.
Qed.

Lemma first_key_none w cipher l :
  (forall i, In i l -> try_key w cipher (VInt i) = Ok None) ->
  first_key w cipher l = Err (Error "data can not decrypt").
Proof.
  intros H. induction l as [|i l IH]; cbn [first_key]; [done |].
  rewrite H by (by left). apply IH. intros j Hj. apply H. by right.
Qed.

Lemma ticks_split u s :
  u - padding <= s < u + padding ->
  exists l1 l2, ticks u = l1 ++ s :: l2 /\ forall i, In i l1 <-> u - padding <= i < s.
Proof.
  intros Hs. unfold ticks, padding in *.
  exists (seqZ (u - 20) (s - (u - 20))), (seqZ (s + 1) (u + 20 - (s + 1))). split.
  - replace (2 * 20) with ((s - (u - 20)) + (u + 20 - s)) by lia.
    rewrite seqZ_app by lia. replace (u - 20 + (s - (u - 20))) with s by lia.
    rewrite (seqZ_cons s) by lia. do 3 f_equal; lia.
  - intros i. rewrite <- list_elem_of_In, elem_of_seqZ. lia.
Qed.

(** The specification of the response interceptor: an answer without a [data]
    field is passed on as it is, and the body of another one is replaced by
    what the first working key of the window decrypts. *)
Definition decrypted (w : world) (u : Z) (resp : jsval) : js jsval :=
  cipher ← (d ← get_prop resp "data"; get_prop d "data");
  match cipher with
  | VUndef => Ok resp
  | _ => data ← first_key w cipher (ticks u); set_prop resp "data" data
  end.

Lemma onResponse_search fuel w u resp :
  unix (common (w_state w)) = VInt u -> safe (u - padding) -> safe (u + padding) -> (40 < fuel)%nat ->
  onResponse fuel w resp = Some (decrypted w u resp).
Proof.
  intros Hu H1 H2 Hf. unfold onResponse, decrypted.
  destruct (_ ← _; _) as [cipher | e]; [| done]. bind_simpl.
  rewrite Hu, try_keys_window by done. by destruct cipher; try done; destruct (first_key _ _ _).
Qed.

End Axios.
