(* ===== verification/Server.v ===== *)
(** * The node's side of the dashboard protocol (Go)

    dashboard/helpers/crypto.go, dashboard/auth and crypto/helper.go: how the
    node derives keys, encrypts and decrypts bodies, and checks the
    Authorization header.  A handler that aborts returns the HTTP status it
    aborts with.  Go strings are byte strings, as are the strings of the
    browser model. *)

From S2P Require Import Prelude JsNum JsValue Json Fixed64 CryptoLib.
From Stdlib Require Import Floats.SpecFloat.
Local Open Scope Z_scope.

(** dashboard/config/config.go *)
Definition UnixRange : Z := 20.

(** Go's [json.Unmarshal] into [map[string]interface{}]: an object (or null)
    whose numbers fit a float64. *)
Fixpoint finite_numbers (v : jsval) : bool :=
  match v with
  | VNum (S754_infinity _) => false
  | VArr l => forallb finite_numbers l
  | VObj l => forallb (fun kv => finite_numbers kv.2) l
  | _ => true
  end.
Definition unmarshal_map (s : string) : option jsval :=
  match parse s with
  | Ok (VObj l) => if finite_numbers (VObj l) then Some (VObj l) else None
  | Ok VNull => Some VNull
  | _ => None
  end.

Section Server.
Context {C : StdCrypto}.

(** crypto/helper.go *)
Definition PasswordHash (password : string) : string :=
  let passwordhash := std_sha256 password in
  let passwordhash2 := std_sha256 passwordhash in
  let passwordhash3 := std_sha256 passwordhash2 in
  passwordhash3.

Definition HmacSha256 (data secret : string) : string := hmac_sha256 secret data.

Definition BuildPwd (pwd : string) : string := hmac_sha256 pwd pwd.

(** [aes.NewCipher]: key sizes 16, 24 and 32. *)
Definition valid_key (key : string) : bool :=
  let n := String.length key in Nat.eqb n 16 || Nat.eqb n 24 || Nat.eqb n 32.

Definition AesEncrypt (plaintext pwd : string) : option string :=
  let key := BuildPwd pwd in
  let iv := str_take 16 key in
  if valid_key key then Some (hex_encode (cfb_encrypt key iv plaintext)) else None.

Definition AesDecrypt (encrypted pwd : string) : option string :=
  let key := BuildPwd pwd in
  src ← hex_decode encrypted;
  let iv := str_take 16 key in
  if valid_key key then Some (cfb_decrypt key iv src) else None.

(** The seed of an opened wallet. *)
Definition wallet_seed (wallet : option string) (hasSeed : bool) : string :=
  match wallet with
  | Some passwordHash =>
      if hasSeed then hex_encode (std_sha256 (hex_encode passwordHash)) else ""
  | None => ""
  end.

Definition seed_hash (seed token : string) (i : Z) : string :=
  hex_encode (HmacSha256 seed (token +:+ int_str i)%string).

(** The loop of [DecryptData]: [n] seconds from [i] on. *)
Fixpoint decrypt_loop (n : nat) (seed token body : string) (i : Z) : option string :=
  match n with
  | O => None
  | S n' =>
      match (jsonData ← AesDecrypt body (seed_hash seed token i);
             data ← unmarshal_map jsonData; Some jsonData) with
      | Some jsonData => Some jsonData
      | None => decrypt_loop n' seed token body (i + 1)
      end
  end.

Definition DecryptData (wallet : option string) (hasSeed : bool) (tok : option string)
    (body : string) (tick : Z) : result Z string :=
  let seed := wallet_seed wallet hasSeed in
  match tok with
  | None => Err 403
  | Some token =>
      match decrypt_loop (Z.to_nat (2 * UnixRange)) seed token body (tick - UnixRange) with
      | Some jsonData => Ok jsonData
      | None => Err 400
      end
  end.

(** [EncryptData] of marshalled bytes. *)
Definition EncryptData (wallet : option string) (hasSeed : bool) (token : string)
    (buf : string) (tick : Z) : string :=
  let seed := wallet_seed wallet hasSeed in
  default "" (AesEncrypt buf (seed_hash seed token tick)).

(** dashboard/auth/auth.go *)
Fixpoint password_loop (n : nat) (passwordKey hash token : string) (i : Z) : bool :=
  match n with
  | O => false
  | S n' =>
      let seedHash := seed_hash (hex_encode hash) token i in
      match AesEncrypt (hex_encode hash) seedHash with
      | None => false
      | Some hexHash =>
          match hex_decode hexHash with
          | None => false
          | Some hexByte =>
              if String.eqb hexByte passwordKey then true
              else password_loop n' passwordKey hash token (i + 1)
          end
      end
  end.

Definition verifyPasswordKey (passwordKey passwordHash token : string) (tick : Z) : bool :=
  let pwdData := hex_encode passwordHash in
  let hash := std_sha224 pwdData in
  password_loop (Z.to_nat (2 * UnixRange)) passwordKey hash token (tick - UnixRange).

(** The request filter: [Ok tt] is [context.Next()]. *)
Definition WalletAuth (auth : string) (wallet tok : option string) (tick : Z) : result Z unit :=
  if String.eqb auth "" then Err 401
  else match wallet with
  | None => Err 500
  | Some passwordHash =>
      match hex_decode auth with
      | None => Err 403
      | Some passwordKey =>
          match tok with
          | None => Err 403
          | Some token =>
              if verifyPasswordKey passwordKey passwordHash token tick then Ok tt else Err 403
          end
      end
  end.

(** dashboard/auth/unixRange.go: the difference of two [int64] wraps around;
    as a [float64] it is below the range exactly when it is as an integer. *)
Definition verifyUnix (a b : Z) : bool := Z.abs (int64 (a - b)) <? UnixRange.

(** The time of the node being far from the ends of the [int64], no value of
    the header passes by wrapping around. *)
Lemma verifyUnix_exact a b : 0 <= a < 2 ^ 62 -> - 2 ^ 63 <= b < 2 ^ 63 ->
  verifyUnix a b = true <-> Z.abs (a - b) < UnixRange.
Proof.
  intros Ha Hb. unfold verifyUnix, int64, UnixRange. rewrite Z.ltb_lt.
  destruct (decide (a - b + 2 ^ 63 < 2 ^ 64)) as [Hlt | Hge].
  - rewrite Z.mod_small by lia. lia.
  - replace (a - b + 2 ^ 63) with ((a - b - 2 ^ 63) + 1 * 2 ^ 64) by lia. rewrite Z.mod_add, Z.mod_small by lia. lia.
Qed.

(** ** Loops as searches over the forty seconds of the window *)

Definition window (tick : Z) : list Z := seqZ (tick - UnixRange) (2 * UnixRange).

Lemma elem_of_window i tick : i ∈ window tick <-> tick - UnixRange <= i < tick + UnixRange.
Proof. unfold window. rewrite elem_of_seqZ. unfold UnixRange. lia. Qed.

Context {CL : StdCryptoLaws C}.

Lemma valid_key_BuildPwd pwd : valid_key (BuildPwd pwd) = true.
Proof. unfold valid_key, BuildPwd. by rewrite hmac_size. Qed.

Lemma AesEncrypt_eq p pwd :
  AesEncrypt p pwd = Some (hex_encode (cfb_encrypt (BuildPwd pwd) (str_take 16 (BuildPwd pwd)) p)).
Proof. unfold AesEncrypt. by rewrite valid_key_BuildPwd. Qed.

Lemma AesDecrypt_AesEncrypt p pwd c : AesEncrypt p pwd = Some c -> AesDecrypt c pwd = Some p.
Proof.
  rewrite AesEncrypt_eq. intros <-%(inj Some). unfold AesDecrypt. rewrite hex_decode_encode. cbv [mbind option_bind].
  rewrite valid_key_BuildPwd. f_equal.
  assert (String.length (BuildPwd pwd) = 32%nat) as Hl by apply hmac_size.
  apply cfb_inverse; [done |]. rewrite str_take_length; lia.
Qed.

(** What the node accepts as the password key of second [i]. *)
Definition password_key (passwordHash token : string) (i : Z) : string :=
  let h := hex_encode (std_sha224 (hex_encode passwordHash)) in
  let k := BuildPwd (seed_hash h token i) in
  cfb_encrypt k (str_take 16 k) h.

Lemma password_loop_spec n key ph token i :
  password_loop n key (std_sha224 (hex_encode ph)) token i = true
  <-> exists j, i <= j < i + Z.of_nat n /\ key = password_key ph token j.
Proof.
  revert i. induction n as [|n IH]; intros i; cbn [password_loop].
  - split; [done |]. intros (j & Hj & _). lia.
  - rewrite AesEncrypt_eq, hex_decode_encode. fold (password_key ph token i).
    destruct (String.eqb_spec (password_key ph token i) key) as [<- | Hne].
    + split; [| done]. intros _. exists i. split; [lia | done].
    + rewrite IH. split; intros (j & Hj & ->); exists j; split; try done; [lia |].
      destruct (decide (i = j)) as [-> |]; [done | lia].
Qed.

Lemma verifyPasswordKey_spec key ph token tick :
  verifyPasswordKey key ph token tick = true
  <-> exists j, tick - UnixRange <= j < tick + UnixRange /\ key = password_key ph token j.
Proof.
  unfold verifyPasswordKey. rewrite password_loop_spec.
  unfold UnixRange. split; intros (j & Hj & ->); exists j; split; try done; lia.
Qed.

Lemma password_key_size ph t i : String.length (password_key ph t i) = 56%nat.
Proof.
  unfold password_key. set (h := hex_encode _). set (k := BuildPwd _).
  assert (String.length k = 32%nat) as Hk by apply hmac_size.
  rewrite cfb_size by (done || (rewrite str_take_length; lia)).
  unfold h. by rewrite hex_encode_length, sha224_size.
Qed.

(** The filter passes the text of a password key of the window. *)
Lemma WalletAuth_passes auth wallet tok now :
  WalletAuth auth wallet tok now = Ok tt
  <-> exists ph t j, wallet = Some ph /\ tok = Some t
      /\ now - UnixRange <= j < now + UnixRange
      /\ hex_decode auth = Some (password_key ph t j).
Proof.
  unfold WalletAuth. split.
  - destruct (String.eqb auth ""); [done |]. destruct wallet as [ph|]; [| done].
    destruct (hex_decode auth) as [key|] eqn:Ek; [| done]. destruct tok as [t|]; [| done].
    destruct (verifyPasswordKey key ph t now) eqn:Ev; [| done]. intros _.
    apply verifyPasswordKey_spec in Ev as (j & Hj & ->). by exists ph, t, j.
  - intros (ph & t & j & -> & -> & Hj & Hd).
    destruct (String.eqb_spec auth "") as [-> |].
    { apply (inj Some) in Hd. pose proof (password_key_size ph t j) as Hl. by rewrite <- Hd in Hl. }
    rewrite Hd. replace (verifyPasswordKey _ _ _ _) with true; [done |]. symmetry.
    apply verifyPasswordKey_spec. by exists j.
Qed.

(** The first second of the window whose key decrypts the body to JSON. *)
Lemma decrypt_loop_first n seed token body i s data :
  i <= s < i + Z.of_nat n ->
  (forall j, i <= j < s ->
     (jsonData ← AesDecrypt body (seed_hash seed token j); unmarshal_map jsonData) = None) ->
  AesDecrypt body (seed_hash seed token s) = Some data -> is_Some (unmarshal_map data) ->
  decrypt_loop n seed token body i = Some data.
Proof.
  revert i. induction n as [|n IH]; intros i Hs Hj Hd [m Hm]; [lia |]. cbn [decrypt_loop].
  destruct (decide (i = s)) as [-> | Hne].
  - rewrite Hd. bind_simpl. by rewrite Hm.
  - assert ((jsonData ← AesDecrypt body (seed_hash seed token i);
             data0 ← unmarshal_map jsonData; Some jsonData) = None) as ->.
    { specialize (Hj i ltac:(lia)). revert Hj.
      destruct (AesDecrypt body (seed_hash seed token i)); [| done]. bind_simpl. by intros ->. }
    apply IH; [lia | | done | by exists m]. intros j Hij. apply Hj. lia.
Qed.

End Server.
