(* ===== verification/Vault.v ===== *)
(** * The wallet of the node: vault/account.go, data.go, store.go and wallet.go

    An account is derived from a seed; the wallet file holds the seed under a
    master key and the master key under a key derived from the password.  An
    operation returns its value or a fault: an error, of the code or of a
    library it calls, or a panic.  Random bytes are arguments.  The disk maps
    the paths of its files to what they hold, [None] for a file that exists and
    cannot be read. *)

From S2P Require Import Prelude JsNum JsValue Json GoJson GoMarshal Fixed64 CryptoLib Address Server.
Local Open Scope Z_scope.

Inductive fault : Type :=
| Fault (msg : string)
| Library
| Panic.

Abbreviation go := (result fault).

Definition lib {A} (o : option A) : go A := match o with Some a => Ok a | None => Err Library end.

(** ** Libraries *)

Class VaultLib : Type := {
  cbc_encrypt : string -> string -> string -> string;  (* key, iv, data *)
  cbc_decrypt : string -> string -> string -> string;
  NewKeyFromSeed : string -> string;                   (* ed25519 *)
  scrypt_Key : string -> string -> Z -> Z -> Z -> Z -> option string
}.

(** AES in CBC mode is undone by decryption under the same key and keeps the
    length; an ed25519 key of 64 bytes starts with its seed; scrypt accepts the
    parameters of the wallet and returns as many bytes as asked for. *)
Class VaultLaws (V : VaultLib) : Prop := {
  cbc_inverse : forall k iv p, String.length k = 32%nat -> String.length iv = 16%nat ->
    (String.length p mod 16 = 0)%nat -> cbc_decrypt k iv (cbc_encrypt k iv p) = p;
  cbc_size : forall k iv p, String.length k = 32%nat -> String.length iv = 16%nat ->
    (String.length p mod 16 = 0)%nat -> String.length (cbc_encrypt k iv p) = String.length p;
  key_size : forall s, String.length s = 32%nat -> String.length (NewKeyFromSeed s) = 64%nat;
  key_seed : forall s, String.length s = 32%nat -> str_take 32 (NewKeyFromSeed s) = s;
  scrypt_default : forall pw salt, exists k, scrypt_Key pw salt 32768 8 1 32 = Some k /\ String.length k = 32%nat
}.

(** ** Files *)

Record disk : Type := mk_disk {
  d_files : gmap string (option string);
  d_writable : string -> bool
}.

Definition FileExisted (d : disk) (path : string) : bool := bool_decide (is_Some (d_files d !! path)).

Definition ReadFile (d : disk) (path : string) : go string :=
  match d_files d !! path with Some (Some s) => Ok s | _ => Err Library end.

Definition WriteFile (d : disk) (path text : string) : go disk :=
  if d_writable d path then Ok {| d_files := <[path := Some text]> (d_files d); d_writable := d_writable d |}
  else Err Library.

(** ** Keys: crypto/crypto.go and crypto/ed25519/ed25519.go *)

Definition SeedSize : nat := 32.

Record Account : Type := mk_Account {
  a_PrivateKey : string;
  a_PublicKey : string;
  a_ProgramHash : string
}.

(** What a call takes from the random source. *)
Record random : Type := mk_random {
  r_seed : option string;
  r_masterKey : string;
  r_iv : string;
  r_salt : string
}.

(** ** Wallet data *)

Definition ScryptN : Z := 32768.
Definition ScryptR : Z := 8.
Definition ScryptP : Z := 1.
Definition WalletVersion : Z := 2.
Definition MinCompatibleWalletVersion : Z := 1.
Definition MaxCompatibleWalletVersion : Z := 2.

Record ScryptData : Type := mk_ScryptData { sc_Salt : string; sc_N : Z; sc_R : Z; sc_P : Z }.

Record WalletData : Type := mk_WalletData {
  wd_Version : Z;
  wd_IV : string;
  wd_MasterKey : string;
  wd_SeedEncrypted : string;
  wd_Address : string;
  wd_Scrypt : option ScryptData
}.

Record WalletStore : Type := mk_WalletStore {
  s_WalletData : WalletData;
  s_Path : string
}.

Record Wallet : Type := mk_Wallet {
  w_WalletStore : WalletStore;
  w_PasswordHash : string;
  w_account : option Account;
  w_contract : option ProgramContext
}.

(** The members of a struct as they are written and read. *)
Definition scrypt_json (s : ScryptData) : jsval :=
  VObj [("Salt", VStr (sc_Salt s)); ("N", VInt (sc_N s)); ("R", VInt (sc_R s)); ("P", VInt (sc_P s))].
Definition wallet_json (w : WalletData) : jsval := VObj [
  ("Version", VInt (wd_Version w)); ("IV", VStr (wd_IV w)); ("MasterKey", VStr (wd_MasterKey w));
  ("SeedEncrypted", VStr (wd_SeedEncrypted w)); ("Address", VStr (wd_Address w));
  ("Scrypt", match wd_Scrypt w with Some s => scrypt_json s | None => VNull end)
].

Definition set_scrypt (key raw : string) (v : jsval) (s : ScryptData) : option ScryptData :=
  if names "Salt" key then x ← to_text (sc_Salt s) v; Some (mk_ScryptData x (sc_N s) (sc_R s) (sc_P s))
  else if names "N" key then x ← to_int64 (sc_N s) raw v; Some (mk_ScryptData (sc_Salt s) x (sc_R s) (sc_P s))
  else if names "R" key then x ← to_int64 (sc_R s) raw v; Some (mk_ScryptData (sc_Salt s) (sc_N s) x (sc_P s))
  else if names "P" key then x ← to_int64 (sc_P s) raw v; Some (mk_ScryptData (sc_Salt s) (sc_N s) (sc_R s) x)
  else Some s.

(** A pointer to a struct: [null] is nil, an object is read into what the
    pointer holds or into a new struct. *)
Definition to_scrypt (old : option ScryptData) (raw : string) (v : jsval) : option (option ScryptData) :=
  match v with
  | VNull => Some None
  | VObj _ => Some <$> unmarshal_struct set_scrypt (default (mk_ScryptData "" 0 0 0) old) raw
  | _ => None
  end.

Definition set_wallet (key raw : string) (v : jsval) (w : WalletData) : option WalletData :=
  let 'mk_WalletData ver iv mk se ad sc := w in
  if names "Version" key then x ← to_int64 ver raw v; Some (mk_WalletData x iv mk se ad sc)
  else if names "IV" key then x ← to_text iv v; Some (mk_WalletData ver x mk se ad sc)
  else if names "MasterKey" key then x ← to_text mk v; Some (mk_WalletData ver iv x se ad sc)
  else if names "SeedEncrypted" key then x ← to_text se v; Some (mk_WalletData ver iv mk x ad sc)
  else if names "Address" key then x ← to_text ad v; Some (mk_WalletData ver iv mk se x sc)
  else if names "Scrypt" key then x ← to_scrypt sc raw v; Some (mk_WalletData ver iv mk se ad x)
  else Some w.

Definition unmarshal_wallet (text : string) : option WalletData :=
  unmarshal_struct set_wallet (mk_WalletData 0 "" "" "" "" None) text.

Section Vault.
Context {C : StdCrypto} {A : AddressLib} {V : VaultLib}.

(** crypto/helper.go: [NewCipher] refuses a key of another size, [NewCBC...]
    panics on an initialisation vector that is not a block, [CryptBlocks] on
    data that is not whole blocks. *)
Definition CbcEncrypt (plaintext key iv : string) : go string :=
  if negb (valid_key key) then Err (Fault "invalid decrypt key")
  else if negb (Nat.eqb (String.length iv) 16) || negb (Nat.eqb (String.length plaintext mod 16) 0) then Err Panic
  else Ok (cbc_encrypt key iv plaintext).

Definition CbcDecrypt (ciphertext key iv : string) : go string :=
  if negb (valid_key key) then Err (Fault "invalid decrypt key")
  else if (String.length ciphertext <? 16)%nat then Err (Fault "ciphertext too short")
  else if negb (Nat.eqb (String.length ciphertext mod 16) 0) then Err (Fault "ciphertext is not a multiple of the block size")
  else if negb (Nat.eqb (String.length iv) 16) then Err Panic
  else Ok (cbc_decrypt key iv ciphertext).

Definition GetSeedFromPrivateKey (priKey : string) : string := str_take SeedSize priKey.
Definition GetPrivateKeyFromSeed (seed : string) : string := NewKeyFromSeed seed.
Definition GetPublicKeyFromPrivateKey (privateKey : string) : string :=
  let seed := str_take SeedSize privateKey in str_drop SeedSize (NewKeyFromSeed seed).
Definition CheckSeed (seed : string) : go unit :=
  if Nat.eqb (String.length seed) SeedSize then Ok tt else Err (Fault "invalid seed size").

(** [GenerateKey]: the key of a random seed, if there is one. *)
Definition GenKeyPair (seed : option string) : go (string * string) :=
  match seed with
  | Some s => let privateKey := NewKeyFromSeed s in Ok (str_drop SeedSize privateKey, privateKey)
  | None => Err Library
  end.

(** ** vault/account.go *)

Definition NewAccount (rnd : random) : go Account :=
  '(publicKey, privateKey) ← GenKeyPair (r_seed rnd);
  programHash ← lib (CreateProgramHash publicKey);
  Ok {| a_PrivateKey := privateKey; a_PublicKey := publicKey; a_ProgramHash := programHash |}.

Definition NewAccountWithSeed (seed : string) : go Account :=
  _ ← CheckSeed seed;
  let privateKey := GetPrivateKeyFromSeed seed in
  let pubKey := GetPublicKeyFromPrivateKey privateKey in
  programHash ← lib (CreateProgramHash pubKey);
  Ok {| a_PrivateKey := privateKey; a_PublicKey := pubKey; a_ProgramHash := programHash |}.

(** ** vault/data.go *)

Definition PasswordToAesKeyHash (password : string) : string := std_sha256 (std_sha256 password).

Definition PasswordToAesKeyScrypt (password : string) (scryptData : option ScryptData) : go string :=
  match scryptData with
  | None => Err Panic
  | Some sd =>
      salt ← lib (hex_decode (sc_Salt sd));
      lib (scrypt_Key password salt (sc_N sd) (sc_R sd) (sc_P sd) 32)
  end.

(** The key of a password in a version of the wallet. *)
Definition password_aes_key (version : Z) (password : string) (sd : option ScryptData) : go string :=
  if version =? 1 then Ok (PasswordToAesKeyHash password)
  else if version =? 2 then PasswordToAesKeyScrypt password sd
  else Err (Fault "unsupported wallet version").

Definition or_random (x y : string) : string := if String.eqb x "" then y else x.
Definition or_default (x y : Z) : Z := if x =? 0 then y else x.

Definition NewWalletData (rnd : random) (account : Account) (password masterKey iv scryptSalt : string)
    (scryptN scryptR scryptP : Z) : go WalletData :=
  let masterKey := or_random masterKey (r_masterKey rnd) in
  let iv := or_random iv (r_iv rnd) in
  let scryptSalt := or_random scryptSalt (r_salt rnd) in
  let scryptData := {|
    sc_Salt := hex_encode scryptSalt; sc_N := or_default scryptN ScryptN;
    sc_R := or_default scryptR ScryptR; sc_P := or_default scryptP ScryptP |} in
  passwordKey ← password_aes_key WalletVersion password (Some scryptData);
  encryptedMasterKey ← CbcEncrypt masterKey passwordKey iv;
  let seed := GetSeedFromPrivateKey (a_PrivateKey account) in
  encryptedSeed ← CbcEncrypt seed masterKey iv;
  address ← lib (ToAddress (a_ProgramHash account));
  Ok {| wd_Version := WalletVersion; wd_IV := hex_encode iv; wd_MasterKey := hex_encode encryptedMasterKey;
        wd_SeedEncrypted := hex_encode encryptedSeed; wd_Address := address; wd_Scrypt := Some scryptData |}.

Definition DecryptMasterKey (w : WalletData) (password : string) : go string :=
  passwordKey ← password_aes_key (wd_Version w) password (wd_Scrypt w);
  iv ← lib (hex_decode (wd_IV w));
  encryptedMasterKey ← lib (hex_decode (wd_MasterKey w));
  CbcDecrypt encryptedMasterKey passwordKey iv.

Definition DecryptAccount (w : WalletData) (password : string) : go Account :=
  masterKey ← DecryptMasterKey w password;
  encryptedSeed ← lib (hex_decode (wd_SeedEncrypted w));
  iv ← lib (hex_decode (wd_IV w));
  seed ← CbcDecrypt encryptedSeed masterKey iv;
  NewAccountWithSeed seed.

(** The account, if it has the address of the wallet. *)
Definition account_of (w : WalletData) (password : string) : go Account :=
  account ← DecryptAccount w password;
  address ← lib (ToAddress (a_ProgramHash account));
  if String.eqb address (wd_Address w) then Ok account else Err (Fault "wrong password").

Definition VerifyPassword (w : WalletData) (password : string) : go unit := _ ← account_of w password; Ok tt.

(** ** vault/store.go *)

Definition NewWalletStore (d : disk) (path : string) (w : WalletData) : go WalletStore :=
  if FileExisted d path then Err (Fault "wallet store exists")
  else Ok {| s_WalletData := w; s_Path := path |}.

Definition LoadWalletStore (d : disk) (fullPath : string) : go WalletStore :=
  if negb (FileExisted d fullPath) then Err (Fault "wallet store doesn't exists")
  else
    fileData ← ReadFile d fullPath;
    walletData ← lib (unmarshal_wallet fileData);
    Ok {| s_WalletData := walletData; s_Path := fullPath |}.

(** [write] replaces the file by a temporary one, or leaves it. *)
Definition Save (d : disk) (s : WalletStore) : go disk :=
  newBlob ← lib (Marshal (wallet_json (s_WalletData s)));
  WriteFile d (s_Path s) newBlob.

(** ** vault/wallet.go *)

Definition RestoreWallet (rnd : random) (d : disk) (path password seed : string) : go (Wallet * disk) :=
  if FileExisted d path then Err (Fault "wallet store exists")
  else
    account ← NewAccountWithSeed seed;
    contract ← lib (CreateSignatureProgramContext (a_PublicKey account));
    walletData ← NewWalletData rnd account password "" "" "" 0 0 0;
    let ws := {| s_WalletData := walletData; s_Path := path |} in
    d' ← Save d ws;
    Ok ({| w_WalletStore := ws; w_PasswordHash := PasswordHash password;
           w_account := Some account; w_contract := Some contract |}, d').

Definition NewWallet (rnd : random) (d : disk) (path password : string) : go (Wallet * disk) :=
  account ← NewAccount rnd;
  walletData ← NewWalletData rnd account password "" "" "" 0 0 0;
  walletStore ← NewWalletStore d path walletData;
  contract ← lib (CreateSignatureProgramContext (a_PublicKey account));
  d' ← Save d walletStore;
  Ok ({| w_WalletStore := walletStore; w_PasswordHash := PasswordHash password;
         w_account := Some account; w_contract := Some contract |}, d').

Definition OpenWallet (d : disk) (path password : string) : go Wallet :=
  walletStore ← LoadWalletStore d path;
  let walletData := s_WalletData walletStore in
  if (wd_Version walletData <? MinCompatibleWalletVersion) || (MaxCompatibleWalletVersion <? wd_Version walletData)
  then Err (Fault "invalid wallet version")
  else
    account ← account_of walletData password;
    contract ← lib (CreateSignatureProgramContext (a_PublicKey account));
    Ok {| w_WalletStore := walletStore; w_PasswordHash := PasswordHash password;
          w_account := Some account; w_contract := Some contract |}.

Definition GetDefaultAccount (w : Wallet) : go Account :=
  match w_account w with Some a => Ok a | None => Err (Fault "account error") end.

Definition GetContract (w : Wallet) : go ProgramContext :=
  match w_contract w with Some c => Ok c | None => Err (Fault "contract error") end.

(** The wallet keeps the new data even if it cannot be saved; if the data cannot
    be made, what is left is a wallet without data, [None]. *)
Definition ChangePassword (rnd : random) (d : disk) (w : Wallet) (oldPassword newPassword : string)
    : option Wallet * disk * go unit :=
  let ws := w_WalletStore w in
  match account_of (s_WalletData ws) oldPassword with
  | Err e => (Some w, d, Err e)
  | Ok account =>
      match NewWalletData rnd account newPassword "" "" "" 0 0 0 with
      | Err e => (None, d, Err e)
      | Ok walletData =>
          let ws' := {| s_WalletData := walletData; s_Path := s_Path ws |} in
          let w' := {| w_WalletStore := ws'; w_PasswordHash := w_PasswordHash w;
                       w_account := w_account w; w_contract := w_contract w |} in
          match Save d ws' with
          | Ok d' => (Some w', d', Ok tt)
          | Err e => (Some w', d, Err e)
          end
      end
  end.
End Vault.

(** ** The wallet file is read back *)

Definition storable (w : WalletData) : Prop :=
  tame (wallet_json w) = true /\ 0 <= wd_Version w < 2 ^ 53
  /\ match wd_Scrypt w with
     | Some s => 0 <= sc_N s < 2 ^ 53 /\ 0 <= sc_R s < 2 ^ 53 /\ 0 <= sc_P s < 2 ^ 53
     | None => True
     end.

Lemma jsonable_int z : 0 <= z < 2 ^ 53 -> jsonable (VInt z) = true.
Proof. intros Hz. apply int_num_of_Z. unfold safe. lia. Qed.

Lemma storable_jsonable w : storable w -> jsonable (wallet_json w) = true.
Proof.
  intros (_ & Hv & Hs). unfold wallet_json. cbn [jsonable forallb snd]. rewrite (jsonable_int _ Hv).
  destruct (wd_Scrypt w) as [s|]; [| done]. destruct Hs as (HN & HR & HP).
  unfold scrypt_json. cbn [jsonable forallb snd]. by rewrite (jsonable_int _ HN), (jsonable_int _ HR), (jsonable_int _ HP).
Qed.

Lemma to_text_ascii old s : html_free s = true -> to_text old (VStr s) = Some s.
Proof. intros Hs. unfold to_text. cbn. by rewrite to_utf8_valid by by apply ascii_utf8, html_free_ascii. Qed.

Lemma unmarshal_scrypt s s0 text :
  html_free (sc_Salt s) = true -> 0 <= sc_N s < 2 ^ 53 -> 0 <= sc_R s < 2 ^ 53 -> 0 <= sc_P s < 2 ^ 53 ->
  stringify (scrypt_json s) = Some text -> unmarshal_struct set_scrypt s0 text = Some s.
Proof.
  intros Hs HN HR HP Ht.
  assert (jsonable (scrypt_json s) = true) as Hj.
  { unfold scrypt_json. cbn [jsonable forallb snd]. by rewrite (jsonable_int _ HN), (jsonable_int _ HR), (jsonable_int _ HP). }
  destruct (parse_stringify _ Hj) as (t & Et & Hp). rewrite Ht in Et. apply (inj Some) in Et. subst t.
  unfold unmarshal_struct. rewrite Hp. unfold scrypt_json in *.
  rewrite (object_members_stringify _ _ Hj) by done. cbn [mbind option_bind map written fst snd set_members].
  change (set_scrypt "Salt" ?r ?v ?s) with (x ← to_text (sc_Salt s) v; Some (mk_ScryptData x (sc_N s) (sc_R s) (sc_P s))).
  rewrite to_text_ascii by done. cbn [mbind option_bind].
  change (set_scrypt "N" ?r ?v ?s) with (x ← to_int64 (sc_N s) r v; Some (mk_ScryptData (sc_Salt s) x (sc_R s) (sc_P s))).
  rewrite to_int64_int by done. cbn [mbind option_bind].
  change (set_scrypt "R" ?r ?v ?s) with (x ← to_int64 (sc_R s) r v; Some (mk_ScryptData (sc_Salt s) (sc_N s) x (sc_P s))).
  rewrite to_int64_int by done. cbn [mbind option_bind].
  change (set_scrypt "P" ?r ?v ?s) with (x ← to_int64 (sc_P s) r v; Some (mk_ScryptData (sc_Salt s) (sc_N s) (sc_R s) x)).
  rewrite to_int64_int by done. by destruct s.
Qed.

Lemma unmarshal_wallet_stringify w text :
  storable w -> stringify (wallet_json w) = Some text -> unmarshal_wallet text = Some w.
Proof.
  intros Hw Ht. pose proof (storable_jsonable w Hw) as Hj. destruct Hw as (Htm & Hv & Hs).
  destruct (parse_stringify _ Hj) as (t & Et & Hp). rewrite Ht in Et. apply (inj Some) in Et. subst t.
  unfold unmarshal_wallet, unmarshal_struct. rewrite Hp. unfold wallet_json in *.
  rewrite (object_members_stringify _ _ Hj) by done. cbn [mbind option_bind map written fst snd set_members].
  destruct w as [ver iv mk se ad sc]. cbn [wd_Version wd_IV wd_MasterKey wd_SeedEncrypted wd_Address wd_Scrypt] in *.
  cbn [tame forallb snd fst] in Htm. rewrite !andb_true_iff in Htm. destruct Htm as (_ & (_ & H1) & (_ & H2) & (_ & H3) & (_ & H4) & (_ & H5) & _).
  change (set_wallet "Version" ?r ?v (mk_WalletData ?a ?b ?c ?d ?e ?f)) with (x ← to_int64 a r v; Some (mk_WalletData x b c d e f)).
  rewrite to_int64_int by done. cbn [mbind option_bind].
  change (set_wallet "IV" ?r ?v (mk_WalletData ?a ?b ?c ?d ?e ?f)) with (x ← to_text b v; Some (mk_WalletData a x c d e f)).
  rewrite to_text_ascii by done. cbn [mbind option_bind].
  change (set_wallet "MasterKey" ?r ?v (mk_WalletData ?a ?b ?c ?d ?e ?f)) with (x ← to_text c v; Some (mk_WalletData a b x d e f)).
  rewrite to_text_ascii by done. cbn [mbind option_bind].
  change (set_wallet "SeedEncrypted" ?r ?v (mk_WalletData ?a ?b ?c ?d ?e ?f)) with (x ← to_text d v; Some (mk_WalletData a b c x e f)).
  rewrite to_text_ascii by done. cbn [mbind option_bind].
  change (set_wallet "Address" ?r ?v (mk_WalletData ?a ?b ?c ?d ?e ?f)) with (x ← to_text e v; Some (mk_WalletData a b c d x f)).
  rewrite to_text_ascii by done. cbn [mbind option_bind].
  change (set_wallet "Scrypt" ?r ?v (mk_WalletData ?a ?b ?c ?d ?e ?f)) with (x ← to_scrypt f r v; Some (mk_WalletData a b c d e x)).
  destruct sc as [s|]; [| done]. destruct Hs as (HN & HR & HP). unfold to_scrypt.
  change (match scrypt_json s with VNull => ?x | VObj _ => ?y | _ => ?z end) with y.
  rewrite (unmarshal_scrypt s); try done.
  cbn [scrypt_json tame forallb snd fst] in H5. rewrite !andb_true_iff in H5. apply H5.
Qed.

Lemma Marshal_wallet w : storable w -> exists t, Marshal (wallet_json w) = Some t /\ unmarshal_wallet t = Some w.
Proof.
  intros Hw. pose proof (storable_jsonable w Hw) as Hj. destruct (parse_stringify _ Hj) as (t & Et & _). exists t.
  split; [| by apply unmarshal_wallet_stringify]. unfold Marshal. rewrite marshal_stringify; [done | done | apply Hw].
Qed.

(** ** Accounts and wallets *)

Lemma html_free_hex b : html_free (hex_encode b) = true.
Proof.
  induction b as [|c b IH]; [done |]. cbn [hex_encode].
  assert (forall d, 0 <= d < 16 -> html_free (String (hex_digit d) "") = true) as Hd.
  { intros d Hd. assert (Forall (fun d => html_free (String (hex_digit d) "") = true) (seqZ 0 16)) as F by (repeat constructor).
    rewrite list.Forall_forall in F. apply F, elem_of_seqZ. lia. }
  destruct (code_split c) as (H1 & H2 & _). pose proof (Hd _ H1) as D1. pose proof (Hd _ H2) as D2.
  cbn [html_free] in *. rewrite andb_true_r in D1, D2. by rewrite D1, D2, IH.
Qed.

Definition good_random (rnd : random) : Prop :=
  String.length (r_masterKey rnd) = 32%nat /\ String.length (r_iv rnd) = 16%nat /\ String.length (r_salt rnd) = 8%nat.

Section Theorems.
Context {C : StdCrypto} {CL : StdCryptoLaws C} {A : AddressLib} {AL : AddressLaws A} {V : VaultLib} {VL : VaultLaws V}.

Lemma NewAccountWithSeed_total seed : String.length seed = 32%nat ->
  exists a, NewAccountWithSeed seed = Ok a /\ GetSeedFromPrivateKey (a_PrivateKey a) = seed
    /\ String.length (a_ProgramHash a) = UINT160SIZE.
Proof.
  intros Hs. unfold NewAccountWithSeed, CheckSeed, CreateProgramHash, SeedSize. rewrite Hs. cbn [Nat.eqb].
  destruct (ToCodeHash_total (CreateSignatureProgramCode (GetPublicKeyFromPrivateKey (GetPrivateKeyFromSeed seed)))) as (h & Eh & Hh).
  bind_simpl. rewrite Eh. cbn [lib]. bind_simpl. eexists. split_and!; [done | by apply key_seed | done].
Qed.

Lemma NewAccount_seed rnd seed : r_seed rnd = Some seed -> String.length seed = 32%nat ->
  NewAccount rnd = NewAccountWithSeed seed.
Proof.
  intros Hr Hs. unfold NewAccount, NewAccountWithSeed, GenKeyPair, CheckSeed, GetPublicKeyFromPrivateKey, GetPrivateKeyFromSeed, SeedSize.
  rewrite Hr, Hs. cbn [Nat.eqb]. bind_simpl. by rewrite key_seed.
Qed.

Lemma CreateContext_total pk : exists c, CreateSignatureProgramContext pk = Some c.
Proof.
  unfold CreateSignatureProgramContext. destruct (ToCodeHash_total pk) as (h & -> & _).
  destruct (ToCodeHash_total (CreateSignatureProgramCode pk)) as (h' & E & _). cbn [mbind option_bind]. rewrite E. by eexists.
Qed.

Lemma CbcDecrypt_Encrypt p k iv c : String.length k = 32%nat -> (16 <= String.length p)%nat ->
  CbcEncrypt p k iv = Ok c -> CbcDecrypt c k iv = Ok p.
Proof.
  intros Hk Hp. unfold CbcEncrypt, CbcDecrypt, valid_key. rewrite Hk. cbn [Nat.eqb orb negb].
  destruct (Nat.eqb_spec (String.length iv) 16) as [Hi|]; [| done].
  destruct (Nat.eqb_spec (String.length p mod 16) 0) as [Hm|]; [| done]. cbn [negb orb].
  intros E. apply (inj Ok) in E. subst c. rewrite cbc_size by done.
  destruct (Nat.ltb_spec (String.length p) 16); [lia |]. rewrite Hm. cbn [Nat.eqb negb]. by rewrite cbc_inverse.
Qed.

(** What [NewWalletData] makes of an account holds it under the password. *)
Lemma NewWalletData_total rnd seed a pw : good_random rnd -> String.length seed = 32%nat ->
  NewAccountWithSeed seed = Ok a ->
  exists w, NewWalletData rnd a pw "" "" "" 0 0 0 = Ok w /\ account_of w pw = Ok a /\ storable w /\ wd_Version w = WalletVersion.
Proof.
  intros (Hmk & Hiv & Hsalt) Hseed Ha. destruct (NewAccountWithSeed_total seed Hseed) as (a' & Ha' & Hsd & Hph).
  rewrite Ha in Ha'. apply (inj Ok) in Ha'. subst a'.
  destruct (ToScriptHash_ToAddress (a_ProgramHash a) Hph) as (ad & Had & _).
  set (sd := {| sc_Salt := hex_encode (r_salt rnd); sc_N := ScryptN; sc_R := ScryptR; sc_P := ScryptP |}).
  destruct (scrypt_default pw (r_salt rnd)) as (k & Hk & Hks).
  assert (password_aes_key WalletVersion pw (Some sd) = Ok k) as Hkey.
  { unfold password_aes_key, PasswordToAesKeyScrypt, sd. cbn [WalletVersion Z.eqb Pos.eqb sc_Salt sc_N sc_R sc_P].
    rewrite hex_decode_encode. cbn [lib]. bind_simpl. unfold ScryptN, ScryptR, ScryptP. by rewrite Hk. }
  assert (exists c1, CbcEncrypt (r_masterKey rnd) k (r_iv rnd) = Ok c1) as (c1 & E1).
  { unfold CbcEncrypt, valid_key. rewrite Hks, Hiv, Hmk. by eexists. }
  assert (exists c2, CbcEncrypt seed (r_masterKey rnd) (r_iv rnd) = Ok c2) as (c2 & E2).
  { unfold CbcEncrypt, valid_key. rewrite Hseed, Hiv, Hmk. by eexists. }
  eexists. split_and!.
  - unfold NewWalletData. cbn [or_random String.eqb or_default Z.eqb]. fold sd. rewrite Hkey. bind_simpl.
    rewrite E1. bind_simpl. rewrite Hsd, E2. bind_simpl. rewrite Had. done.
  - unfold account_of, DecryptAccount, DecryptMasterKey.
    cbn [wd_Version wd_IV wd_MasterKey wd_SeedEncrypted wd_Address wd_Scrypt]. rewrite Hkey. bind_simpl.
    rewrite !hex_decode_encode. cbn [lib]. bind_simpl. rewrite (CbcDecrypt_Encrypt (r_masterKey rnd) _ _ _ Hks ltac:(lia) E1). bind_simpl.
    rewrite (CbcDecrypt_Encrypt seed _ _ _ Hmk ltac:(lia) E2). bind_simpl. rewrite Ha. bind_simpl. rewrite Had. cbn [lib]. bind_simpl.
    by rewrite String.eqb_refl.
  - split; [| split; done]. unfold wallet_json. cbn [tame forallb fst snd wd_IV wd_MasterKey wd_SeedEncrypted wd_Address wd_Scrypt].
    rewrite !html_free_hex, (ToAddress_html_free _ _ Hph Had). cbn [scrypt_json sd tame forallb fst snd sc_Salt]. by rewrite html_free_hex.
  - done.
Qed.

Lemma Save_Load d ws : storable (s_WalletData ws) -> d_writable d (s_Path ws) = true ->
  exists d', Save d ws = Ok d' /\ LoadWalletStore d' (s_Path ws) = Ok ws /\ d_writable d' = d_writable d
    /\ forall p, p <> s_Path ws -> d_files d' !! p = d_files d !! p.
Proof.
  intros Hs Hw. destruct (Marshal_wallet _ Hs) as (t & Et & Hu). unfold Save, WriteFile. rewrite Et, Hw. cbn [lib]. bind_simpl.
  eexists. split_and!; [done | | done |].
  - unfold LoadWalletStore, FileExisted, ReadFile. cbn [d_files]. rewrite lookup_insert_eq, bool_decide_eq_true_2 by done.
    cbn [negb]. bind_simpl. rewrite Hu. cbn [lib]. bind_simpl. by destruct ws.
  - intros p Hp. cbn [d_files]. by rewrite lookup_insert_ne.
Qed.

(** Opening a wallet reads its file and nothing else. *)
Lemma OpenWallet_ext d d' path pw : d_files d !! path = d_files d' !! path -> OpenWallet d path pw = OpenWallet d' path pw.
Proof. intros H. unfold OpenWallet, LoadWalletStore, FileExisted, ReadFile. by rewrite H. Qed.

Lemma OpenWallet_account d path pw w : OpenWallet d path pw = Ok w ->
  FileExisted d path = true /\ w_PasswordHash w = PasswordHash pw /\ exists a, GetDefaultAccount w = Ok a.
Proof.
  unfold OpenWallet. intros (ws & Hl & H)%bind_Ok. unfold LoadWalletStore in Hl.
  destruct (FileExisted d path); [| done]. split; [done |].
  destruct (_ || _); [done |]. apply bind_Ok in H as (a & _ & (c & _ & H)%bind_Ok). apply (inj Ok) in H. subst w. by split; [| exists a].
Qed.

(** The wallet of a seed under a password. *)
Definition wallet_for (path pw seed : string) (w : Wallet) : Prop :=
  exists a, NewAccountWithSeed seed = Ok a /\ w_account w = Some a /\ w_PasswordHash w = PasswordHash pw
    /\ s_Path (w_WalletStore w) = path /\ account_of (s_WalletData (w_WalletStore w)) pw = Ok a.

(** A restored wallet is on the disk, and the file opens with its password to
    the same wallet. *)
Lemma RestoreWallet_opens rnd d path pw seed : good_random rnd -> String.length seed = 32%nat ->
  FileExisted d path = false -> d_writable d path = true ->
  exists w d', RestoreWallet rnd d path pw seed = Ok (w, d') /\ wallet_for path pw seed w
    /\ OpenWallet d' path pw = Ok w /\ FileExisted d' path = true.
Proof.
  intros Hr Hseed Hex Hwr. destruct (NewAccountWithSeed_total seed Hseed) as (a & Ha & _ & _).
  destruct (NewWalletData_total rnd seed a pw Hr Hseed Ha) as (wd & Hwd & Hacc & Hst & Hver).
  destruct (CreateContext_total (a_PublicKey a)) as (c & Hc).
  destruct (Save_Load d {| s_WalletData := wd; s_Path := path |} Hst Hwr) as (d' & Hsave & Hload & _ & _).
  eexists _, d'. split_and!.
  - unfold RestoreWallet. rewrite Hex, Ha. bind_simpl. rewrite Hc. cbn [lib]. bind_simpl. rewrite Hwd. bind_simpl. by rewrite Hsave.
  - by exists a.
  - unfold OpenWallet. cbn [s_Path] in Hload. rewrite Hload. bind_simpl. cbn [s_WalletData]. rewrite Hver. cbn.
    rewrite Hacc. bind_simpl. by rewrite Hc.
  - cbn [s_Path] in Hload. unfold LoadWalletStore in Hload. by destruct (FileExisted d' path).
Qed.

Lemma NewWallet_Restore rnd d path pw seed : r_seed rnd = Some seed -> String.length seed = 32%nat -> good_random rnd ->
  FileExisted d path = false -> NewWallet rnd d path pw = RestoreWallet rnd d path pw seed.
Proof.
  intros Hrs Hseed Hr Hex. destruct (NewAccountWithSeed_total seed Hseed) as (a & Ha & _ & _).
  destruct (NewWalletData_total rnd seed a pw Hr Hseed Ha) as (wd & Hwd & _).
  destruct (CreateContext_total (a_PublicKey a)) as (c & Hc).
  unfold NewWallet, RestoreWallet, NewWalletStore. rewrite (NewAccount_seed rnd seed Hrs Hseed), Hex, Ha. bind_simpl.
  rewrite Hwd. bind_simpl. by rewrite Hc.
Qed.

(** C25: Creating a wallet, or restoring one from a seed, writes a file that opens
    with the password to the very wallet that was returned, with the account of
    the seed; an existing file is never overwritten. *)
Theorem wallet_file_opens rnd d path pw seed :
  good_random rnd -> r_seed rnd = Some seed -> String.length seed = 32%nat -> d_writable d path = true ->
  NewWallet rnd d path pw = RestoreWallet rnd d path pw seed
  /\ if FileExisted d path then RestoreWallet rnd d path pw seed = Err (Fault "wallet store exists")
     else exists w d', RestoreWallet rnd d path pw seed = Ok (w, d') /\ wallet_for path pw seed w
            /\ OpenWallet d' path pw = Ok w.
Proof.
  intros Hr Hrs Hseed Hwr. split.
  - destruct (FileExisted d path) eqn:Hex; [| by apply NewWallet_Restore].
    destruct (NewAccountWithSeed_total seed Hseed) as (a & Ha & _). destruct (NewWalletData_total rnd seed a pw Hr Hseed Ha) as (wd & Hwd & _).
    unfold NewWallet, RestoreWallet, NewWalletStore. rewrite (NewAccount_seed rnd seed Hrs Hseed), Hex, Ha. bind_simpl. by rewrite Hwd.
  - destruct (FileExisted d path) eqn:Hex; [unfold RestoreWallet; by rewrite Hex |].
    destruct (RestoreWallet_opens rnd d path pw seed) as (w & d' & H1 & H2 & H3 & _); try done. by exists w, d'.
Qed.

(** A wallet that opens has the account of a seed of 32 bytes, and its address
    is the one the file names. *)
Theorem wallet_opened d path pw w :
  OpenWallet d path pw = Ok w ->
  exists a, w_account w = Some a /\ w_PasswordHash w = PasswordHash pw
    /\ NewAccountWithSeed (GetSeedFromPrivateKey (a_PrivateKey a)) = Ok a
    /\ ToAddress (a_ProgramHash a) = Some (wd_Address (s_WalletData (w_WalletStore w)))
    /\ VerifyPassword (s_WalletData (w_WalletStore w)) pw = Ok tt.
Proof.
  unfold OpenWallet. intros (ws & _ & H)%bind_Ok. destruct (_ || _); [done |].
  apply bind_Ok in H as (a & Ha & (c & _ & H)%bind_Ok). apply (inj Ok) in H. subst w.
  exists a. cbn [w_account w_PasswordHash w_WalletStore].
  assert (VerifyPassword (s_WalletData ws) pw = Ok tt) as Hv by (unfold VerifyPassword; by rewrite Ha).
  unfold account_of in Ha. apply bind_Ok in Ha as (a' & Hd & (ad & Had & H)%bind_Ok).
  destruct (String.eqb_spec ad (wd_Address (s_WalletData ws))) as [<- |]; [| done]. apply (inj Ok) in H. subst a'.
  split_and!; [done | done | | by destruct (ToAddress (a_ProgramHash a)); [apply (inj Ok) in Had; subst |] | done].
  unfold DecryptAccount in Hd. apply bind_Ok in Hd as (mk & _ & (es & _ & (iv & _ & (seed & _ & Hn)%bind_Ok)%bind_Ok)%bind_Ok).
  assert (String.length seed = 32%nat) as Hl.
  { unfold NewAccountWithSeed, CheckSeed in Hn. by destruct (Nat.eqb_spec (String.length seed) SeedSize). }
  destruct (NewAccountWithSeed_total seed Hl) as (a' & Ha' & Hs & _). rewrite Hn in Ha'. apply (inj Ok) in Ha'. subst a'. by rewrite Hs.
Qed.

(** C26: Changing the password keeps the account and writes a file that opens with
    the new one; the hash the wallet authenticates with stays that of the old
    one.  If the file cannot be written, the wallet already has the new password
    and the disk is unchanged. *)
Theorem password_changed rnd d path old new seed w :
  good_random rnd -> String.length seed = 32%nat -> wallet_for path old seed w ->
  exists w' d', ChangePassword rnd d w old new = (Some w', d', if d_writable d path then Ok tt else Err Library)
    /\ w_account w' = w_account w /\ w_PasswordHash w' = PasswordHash old
    /\ VerifyPassword (s_WalletData (w_WalletStore w')) new = Ok tt
    /\ if d_writable d path then exists w'', OpenWallet d' path new = Ok w'' /\ w_account w'' = w_account w
                               /\ w_PasswordHash w'' = PasswordHash new
       else d' = d.
Proof.
  intros Hr Hseed (a & Ha & Hwa & Hph & Hpath & Hacc). destruct (NewWalletData_total rnd seed a new Hr Hseed Ha) as (wd & Hwd & Hacc' & Hst & Hver).
  unfold ChangePassword, VerifyPassword. rewrite Hacc, Hwd, Hpath.
  destruct (d_writable d path) eqn:Hw.
  - destruct (Save_Load d {| s_WalletData := wd; s_Path := path |} Hst Hw) as (d' & Hsave & Hload & _). cbn [s_Path] in Hload.
    rewrite Hsave. eexists _, d'. split; [done |]. cbn [w_account w_PasswordHash w_WalletStore s_WalletData].
    rewrite Hacc'. split_and!; [done | done | done |]. destruct (CreateContext_total (a_PublicKey a)) as (c & Hc).
    eexists. unfold OpenWallet. rewrite Hload. bind_simpl. cbn [s_WalletData]. rewrite Hver. cbn. rewrite Hacc'. bind_simpl. by rewrite Hc.
  - destruct (Marshal_wallet _ Hst) as (t & Et & _). unfold Save, WriteFile. cbn [s_WalletData s_Path]. rewrite Et, Hw. cbn [lib]. bind_simpl.
    eexists _, d. split; [done |]. cbn [w_account w_PasswordHash w_WalletStore s_WalletData]. by rewrite Hacc'.
Qed.

(** A file of version 2 without the parameters of scrypt makes the node panic;
    so does one whose initialisation vector is not a block. *)
Lemma OpenWallet_panics d path pw w :
  LoadWalletStore d path = Ok w -> wd_Version (s_WalletData w) = 2 -> wd_Scrypt (s_WalletData w) = None ->
  OpenWallet d path pw = Err Panic.
Proof.
  intros Hl Hv Hs. unfold OpenWallet. rewrite Hl. bind_simpl. rewrite Hv. cbn.
  unfold account_of, DecryptAccount, DecryptMasterKey. by rewrite Hv, Hs.
Qed.

Lemma OpenWallet_panics_iv d path pw w iv c :
  LoadWalletStore d path = Ok w -> wd_Version (s_WalletData w) = 1 ->
  hex_decode (wd_IV (s_WalletData w)) = Some iv -> String.length iv <> 16%nat ->
  hex_decode (wd_MasterKey (s_WalletData w)) = Some c -> String.length c = 32%nat ->
  OpenWallet d path pw = Err Panic.
Proof.
  intros Hl Hv Hi Hn Hc Hlen. unfold OpenWallet. rewrite Hl. bind_simpl. rewrite Hv. cbn.
  unfold account_of, DecryptAccount, DecryptMasterKey, password_aes_key, CbcDecrypt, valid_key, PasswordToAesKeyHash.
  rewrite Hv. cbn [Z.eqb Pos.eqb]. bind_simpl. rewrite Hi, Hc. cbn [lib]. bind_simpl. rewrite sha256_size, Hlen. cbn.
  by destruct (Nat.eqb_spec (String.length iv) 16).
Qed.
End Theorems.

(** ** Concrete libraries *)

Module ToyVault.
#[export] Instance vault : VaultLib := {
  cbc_encrypt := fun k iv => Toy.shift 1 (Toy.checksum 1 (k +:+ iv)%string);
  cbc_decrypt := fun k iv => Toy.shift (-1) (Toy.checksum 1 (k +:+ iv)%string);
  NewKeyFromSeed := fun s => (s +:+ Toy.hash 32 s)%string;
  scrypt_Key := fun pw salt n r p len => Some (Toy.hash (Z.to_nat len) (pw +:+ "|" +:+ salt)%string)
}.

#[export] Instance vault_laws : VaultLaws vault.
Proof.
  constructor; intros; cbn [cbc_encrypt cbc_decrypt NewKeyFromSeed scrypt_Key vault].
  - apply Toy.shift_inverse.
  - apply Toy.shift_length.
  - rewrite string_length_app, H. unfold Toy.hash. by rewrite Toy.expand_length.
  - rewrite <- H. apply str_take_app.
  - eexists. split; [done | apply Toy.expand_length].
Qed.

Definition sample_random : random := {|
  r_seed := Some (Toy.hash 32 "seed"); r_masterKey := Toy.hash 32 "master"; r_iv := Toy.hash 16 "iv"; r_salt := Toy.hash 8 "salt"
|}.
Definition empty_disk : disk := {| d_files := ∅; d_writable := fun _ => true |}.
End ToyVault.

Module VaultSamples.
Import Toy ToyAddress ToyVault.

Lemma wallet_file_opens_witness :
  exists w d', NewWallet sample_random empty_disk "wallet.json" "hunter2" = Ok (w, d')
    /\ OpenWallet d' "wallet.json" "hunter2" = Ok w.
Proof.
  destruct (wallet_file_opens sample_random empty_disk "wallet.json" "hunter2" (Toy.hash 32 "seed")) as [E H];
    try reflexivity; [repeat split |].
  destruct H as (w & d' & H1 & _ & H2). exists w, d'. split; [rewrite E; exact H1 | exact H2].
Defined.

Definition no_wallet : Wallet := mk_Wallet (mk_WalletStore (mk_WalletData 0 "" "" "" "" None) "") "" None None.
Definition sample_wallet : Wallet := Eval vm_compute in
  match NewWallet sample_random empty_disk "wallet.json" "hunter2" with Ok (w, _) => w | Err _ => no_wallet end.
Definition sample_disk : disk := Eval vm_compute in
  match NewWallet sample_random empty_disk "wallet.json" "hunter2" with Ok (_, d) => d | Err _ => empty_disk end.

Lemma wallet_opened_witness :
  exists a, w_account sample_wallet = Some a
    /\ ToAddress (a_ProgramHash a) = Some (wd_Address (s_WalletData (w_WalletStore sample_wallet))).
Proof.
  destruct (wallet_opened sample_disk "wallet.json" "hunter2" sample_wallet) as (a & H1 & _ & _ & H2 & _);
    [vm_compute; reflexivity |]. exists a. split; [exact H1 | exact H2].
Defined.

Lemma sample_writable : d_writable sample_disk "wallet.json" = true.
Proof. vm_compute. reflexivity. Qed.

Lemma password_changed_witness :
  exists w' d', ChangePassword sample_random sample_disk sample_wallet "hunter2" "correct horse" = (Some w', d', Ok tt)
    /\ exists w'', OpenWallet d' "wallet.json" "correct horse" = Ok w''.
Proof.
  pose proof (password_changed sample_random sample_disk "wallet.json" "hunter2" "correct horse" (Toy.hash 32 "seed") sample_wallet) as H.
  rewrite sample_writable in H. destruct H as (w' & d' & H & _ & _ & _ & w'' & H2 & _).
  - repeat split.
  - reflexivity.
  - eexists. split; [vm_compute; reflexivity |]. repeat split; vm_compute; reflexivity.
  - exists w', d'. split; [exact H | exists w''; exact H2].
Defined.
End VaultSamples.
