(* ===== verification/Serialization.v ===== *)
(** * Streams: common/serialization, and what is written with it

    The readers and writers of common/serialization/serialize.go, the streams of
    Fixed64, Uint160 and ProgramContext, and the JSON and number forms of a
    Uint160.  A writer appends to a byte string, as bytes.Buffer does, and does
    not fail; a reader takes from one, at most as many bytes as are asked for.
    What an empty read says at the end differs between the readers of the
    standard library ([eof_empty]: bytes.Reader reports the end, bytes.Buffer
    does not), and how large a slice can be made is up to the machine
    ([max_alloc]).  [streams_read_back]: what is written is read back, and the
    rest of the stream is left.  The other way round the code is lenient: a
    stream that ends early is filled up with zeros ([short_bytes]). *)

From S2P Require Import Prelude JsNum JsValue Json GoJson GoMarshal Fixed64 CryptoLib Address Vault.
Local Open Scope Z_scope.

(** ** Bytes *)

Definition zero_bytes (n : nat) : string := str_repeat n (String (chr 0) "").

(** [binary.LittleEndian] *)
Fixpoint le_put (n : nat) (z : Z) : string :=
  match n with O => "" | S n => String (chr (z mod 256)) (le_put n (z / 256)) end.
Fixpoint le_get (s : string) : Z :=
  match s with "" => 0 | String c r => code c + 256 * le_get r end.

(** Code that reads: a result and the rest of the stream. *)
Definition reader (A : Type) : Type := string -> go A * string.
Definition rbind {A B} (x : reader A) (k : A -> reader B) : reader B := fun r =>
  match x r with (Ok a, r) => k a r | (Err e, r) => (Err e, r) end.
Definition rret {A} (a : A) : reader A := fun r => (Ok a, r).
Definition rfail {A} (e : fault) : reader A := fun r => (Err e, r).
Notation "x <-- e ;; k" := (rbind e (fun x => k)) (at level 100, e at next level, k at level 200, right associativity).

Section Streams.
Context (eof_empty : bool) (max_alloc : Z).

(** [reader.Read(p)] on a zeroed slice of [n] bytes: how many were read, and the
    slice; [Err] is [io.EOF]. *)
Definition Read (n : nat) : reader (nat * string) := fun r =>
  match r with
  | "" => if Nat.eqb n 0 && negb eof_empty then (Ok (0%nat, ""), r) else (Err Library, r)
  | _ => let k := Nat.min n (String.length r) in (Ok (k, str_take n r +:+ zero_bytes (n - k))%string, str_drop n r)
  end.

(** ** common/serialization/serialize.go *)

Definition WriteVarUint (value : Z) : string :=
  if value <? 0xFD then String (chr value) ""
  else if value <=? 0xFFFF then String (chr 0xFD) (le_put 2 value)
  else if value <=? 0xFFFFFFFF then String (chr 0xFE) (le_put 4 value)
  else String (chr 0xFF) (le_put 8 value).

Definition read_le (n : nat) : reader Z := p <-- Read n;; rret (le_get p.2).

Definition ReadVarUint (maxint : Z) : reader Z :=
  let maxint := if maxint =? 0 then 2 ^ 64 - 1 else maxint in
  fb <-- read_le 1;;
  res <-- (if fb =? 0xfd then read_le 2 else if fb =? 0xfe then read_le 4 else if fb =? 0xff then read_le 8 else rret fb);;
  if maxint <? res then rfail (Fault "value out of range") else rret res.

Definition GetVarUintSize (value : Z) : nat :=
  if value <? 0xfd then 1 else if value <=? 0xffff then 3 else if value <=? 0xFFFFFFFF then 5 else 9.

(** [make] panics when it cannot; bytes are returned as soon as there is one. *)
Definition byteXReader (x : Z) : reader string := fun r =>
  if max_alloc <? x then (Err Panic, r) else (p <-- Read (Z.to_nat x);; rret p.2) r.

Definition WriteVarBytes (value : string) : string := (WriteVarUint (Z.of_nat (String.length value)) +:+ value)%string.
Definition WriteVarString : string -> string := WriteVarBytes.
Definition ReadVarBytes : reader string := val <-- ReadVarUint 0;; byteXReader val.
Definition ReadVarString : reader string := ReadVarBytes.
Definition ReadBytes (length : Z) : reader string := byteXReader length.

(** [ReadUint8], [ReadUint16], [ReadUint32] and [ReadUint64]. *)
Definition ReadUint (n : nat) : reader Z := fun r =>
  match Read n r with
  | (Ok (S _, p), r) => (Ok (le_get p), r)
  | (_, r) => (Err (Fault "got EOF, can not get the next byte"), r)
  end.
Definition WriteUint (n : nat) (val : Z) : string := le_put n val.

Definition WriteBool (b : bool) : string := String (chr (if b then 1 else 0)) "".
(** [binary.Read] reads all bytes or fails. *)
Definition ReadBool : reader bool := fun r =>
  match r with "" => (Err Library, r) | String c r => (Ok (negb (code c =? 0)), r) end.

Definition WriteByte (val : Z) : string := String (chr val) "".
Definition ReadByte : reader Z := fun r => match r with "" => (Err Library, r) | String c r => (Ok (code c), r) end.

(** A list of what its elements write; reading one is not implemented. *)
Definition WriteDataList (l : list string) : string := (WriteVarUint (Z.of_nat (length l)) +:+ foldr (fun x y => x +:+ y)%string "" l)%string.
Definition ReadDataList : reader (list string) := rret [].

(** ** Amounts, hashes and programs *)

Definition Fixed64_Serialize (f : Z) : string := le_put 8 (uint64 f).
(** What the receiver holds afterwards; no byte without an error is no change. *)
Definition Fixed64_Deserialize (f : Z) : reader Z :=
  p <-- Read 8;; rret (match p.1 with O => f | _ => int64 (le_get p.2) end).

Definition Uint160_Serialize (u : string) : string := u.
Definition Uint160_Deserialize (u : string) : reader string :=
  p <-- Read UINT160SIZE;; rret (match p.1 with O => u | _ => p.2 end).

Fixpoint ProgramContextParameterTypeToByte (c : list Z) : string :=
  match c with [] => "" | x :: c => String (chr x) (ProgramContextParameterTypeToByte c) end.
Fixpoint ByteToProgramContextParameterType (b : string) : list Z :=
  match b with "" => [] | String x b => code x :: ByteToProgramContextParameterType b end.

Definition ProgramContext_Serialize (c : ProgramContext) : string :=
  (WriteVarBytes (pc_Code c) +:+ (WriteVarBytes (ProgramContextParameterTypeToByte (pc_Parameters c)) +:+ Uint160_Serialize (pc_ProgramHash c)))%string.
Definition ProgramContext_Deserialize (c : ProgramContext) : reader ProgramContext :=
  code <-- ReadVarBytes;;
  p <-- ReadVarBytes;;
  hash <-- Uint160_Deserialize (pc_ProgramHash c);;
  rret {| pc_Code := code; pc_Parameters := ByteToProgramContextParameterType p; pc_ProgramHash := hash; pc_OwnerPubkeyHash := pc_OwnerPubkeyHash c |}.
End Streams.

(** [SetBytes]: the last twenty bytes, after zeros where there are fewer. *)
Definition SetBytes (b : string) : string :=
  let b := if Nat.ltb UINT160SIZE (String.length b) then str_drop (String.length b - UINT160SIZE) b else b in
  (zero_bytes (UINT160SIZE - String.length b) +:+ b)%string.
Definition BytesToUint160 (b : string) : string := SetBytes b.
Definition BigToUint160 (b : Z) : string := BytesToUint160 (be_bytes (Z.abs b)).
Definition Big (u : string) : Z := be_int u.

Section Json.
Context {C : StdCrypto} {A : AddressLib}.

Definition quote : ascii := chr 34.

Definition Uint160_MarshalJSON (f : string) : option string :=
  str ← ToAddress f; Some (String quote (str +:+ String quote "")%string).
Definition Uint160_UnmarshalJSON (s : string) : option string :=
  if Nat.ltb (String.length s) 2 then None
  else temp ← ToScriptHash (str_take (String.length s - 2) (str_drop 1 s)); Some (SetBytes temp).
End Json.

(** ** Lemmas *)

Lemma le_put_length n : forall z, String.length (le_put n z) = n.
Proof. induction n as [| n IH]; intros z; [done |]. cbn [le_put String.length]. by rewrite IH. Qed.

Lemma le_get_put n : forall z, 0 <= z < 256 ^ Z.of_nat n -> le_get (le_put n z) = z.
Proof.
  induction n as [| n IH]; intros z Hz; [cbn in *; lia |]. cbn [le_put le_get]. rewrite Nat2Z.inj_succ, Z.pow_succ_r in Hz by lia.
  pose proof (Z.mod_pos_bound z 256 ltac:(lia)). pose proof (Z.div_mod z 256 ltac:(lia)).
  rewrite code_chr by done. rewrite IH by (split; [apply Z.div_pos; lia | apply Z.div_lt_upper_bound; lia]). lia.
Qed.

Section Reading.
Context (eof_empty : bool) (max_alloc : Z).

Lemma Read_exact n s rest : String.length s = n -> s <> "" -> Read eof_empty n (s +:+ rest) = (Ok (n, s), rest).
Proof.
  intros <- Hs. unfold Read. destruct s as [| c s]; [done |]. rewrite string_app_cons.
  rewrite <- string_app_cons. rewrite str_take_app, str_drop_app, string_length_app.
  rewrite Nat.min_l, Nat.sub_diag by lia. cbn [zero_bytes str_repeat]. by rewrite string_app_nil_r.
Qed.

Lemma Read_none rest : rest <> "" \/ eof_empty = false -> Read eof_empty 0 rest = (Ok (0%nat, ""), rest).
Proof. intros H. destruct rest as [| c r]; [| done]. by destruct H as [| ->]. Qed.

Lemma read_le_put n z rest : (0 < n)%nat -> 0 <= z < 256 ^ Z.of_nat n -> read_le eof_empty n (le_put n z +:+ rest) = (Ok z, rest).
Proof.
  intros Hn Hz. unfold read_le, rbind, rret. rewrite Read_exact.
  - cbn [snd]. by rewrite le_get_put.
  - apply le_put_length.
  - by destruct n; [lia |].
Qed.

Lemma read_byte z rest : 0 <= z < 256 -> read_le eof_empty 1 (String (chr z) rest) = (Ok z, rest).
Proof.
  intros Hz. rewrite <- (read_le_put 1 z rest) by (cbn; lia). cbn [le_put]. rewrite string_app_cons, string_app_empty.
  by rewrite Z.mod_small.
Qed.

Lemma WriteVarUint_size v : String.length (WriteVarUint v) = GetVarUintSize v.
Proof. unfold WriteVarUint, GetVarUintSize. repeat destruct (_ <? _) || destruct (_ <=? _); cbn [String.length]; by rewrite ?le_put_length. Qed.

(** A number is read back, or refused when it exceeds the limit. *)
Lemma ReadVarUint_written maxint v rest : 0 <= v < 2 ^ 64 ->
  ReadVarUint eof_empty maxint (WriteVarUint v +:+ rest)
  = (if (if maxint =? 0 then 2 ^ 64 - 1 else maxint) <? v then Err (Fault "value out of range") else Ok v, rest).
Proof.
  intros Hv. unfold ReadVarUint, WriteVarUint. set (mx := if maxint =? 0 then _ else _).
  assert (forall r, (if mx <? v then rfail (Fault "value out of range") else rret v) r
                    = (if mx <? v then Err (Fault "value out of range") else Ok v, r)) as Hend by (intros r; by destruct (mx <? v)).
  destruct (Z.ltb_spec v 0xFD); [| destruct (Z.leb_spec v 0xFFFF); [| destruct (Z.leb_spec v 0xFFFFFFFF)]];
    rewrite string_app_cons; unfold rbind at 1; rewrite read_byte by lia.
  - rewrite string_app_empty. rewrite (proj2 (Z.eqb_neq v 0xfd)), (proj2 (Z.eqb_neq v 0xfe)), (proj2 (Z.eqb_neq v 0xff)) by lia.
    unfold rbind, rret at 1. apply Hend.
  - cbn [Z.eqb Pos.eqb]. unfold rbind. rewrite read_le_put by (cbn; lia). apply Hend.
  - cbn [Z.eqb Pos.eqb]. unfold rbind. rewrite read_le_put by (cbn; lia). apply Hend.
  - cbn [Z.eqb Pos.eqb]. unfold rbind. rewrite read_le_put by (cbn; lia). apply Hend.
Qed.

(** The bytes a reader can be asked for. *)
Definition readable (v rest : string) : Prop :=
  Z.of_nat (String.length v) < 2 ^ 64 /\ Z.of_nat (String.length v) <= max_alloc /\ (v <> "" \/ rest <> "" \/ eof_empty = false).

Lemma ReadVarBytes_written v rest : readable v rest -> ReadVarBytes eof_empty max_alloc (WriteVarBytes v +:+ rest) = (Ok v, rest).
Proof.
  intros (Hl & Ha & Hr). unfold ReadVarBytes, WriteVarBytes, rbind at 1. rewrite <- string_app_assoc, ReadVarUint_written by lia.
  cbn [Z.eqb]. rewrite (proj2 (Z.ltb_ge _ _)) by lia. unfold byteXReader. rewrite (proj2 (Z.ltb_ge _ _)) by lia.
  rewrite Nat2Z.id. unfold rbind, rret. destruct v as [| c v].
  - rewrite string_app_empty, Read_none by (destruct Hr as [| Hr]; done). done.
  - by rewrite Read_exact.
Qed.
End Reading.

(** ** Amounts, hashes and programs *)

Lemma int64_uint64 f : - 2 ^ 63 <= f < 2 ^ 63 -> int64 (uint64 f) = f.
Proof.
  intros Hf. unfold int64, uint64. rewrite Zplus_mod_idemp_l, Z.mod_small by lia. lia.
Qed.

Lemma parameters_read_back l : Forall (fun x => 0 <= x < 256) l -> ByteToProgramContextParameterType (ProgramContextParameterTypeToByte l) = l.
Proof. induction 1 as [| x l Hx _ IH]; [done |]. cbn. by rewrite code_chr, IH. Qed.

Lemma parameters_length l : String.length (ProgramContextParameterTypeToByte l) = length l.
Proof. induction l as [| x l IH]; [done |]. cbn. by rewrite IH. Qed.

Lemma zero_bytes_S n : zero_bytes (S n) = String (chr 0) (zero_bytes n).
Proof. unfold zero_bytes. cbn [str_repeat]. by rewrite string_app_cons, string_app_empty. Qed.

(** The number of a byte string forgets its leading zeros only. *)
Lemma be_bytes_zeros s :
  (String.length (be_bytes (be_int s)) <= String.length s)%nat
  /\ (zero_bytes (String.length s - String.length (be_bytes (be_int s))) +:+ be_bytes (be_int s))%string = s.
Proof.
  induction s as [| c s [Hl IH]]; [by split |]. destruct (decide (code c = 0)) as [Hc | Hc].
  - assert (be_int (String c s) = be_int s) as -> by (unfold be_int; cbn [be_acc]; by rewrite Hc).
    cbn [String.length]. split; [lia |]. rewrite Nat.sub_succ_l, zero_bytes_S, string_app_cons, IH by done. by rewrite (code_eq c 0 Hc).
  - rewrite be_bytes_int by done. split; [done |]. by rewrite Nat.sub_diag.
Qed.

Lemma SetBytes_short b : (String.length b <= UINT160SIZE)%nat -> SetBytes b = (zero_bytes (UINT160SIZE - String.length b) +:+ b)%string.
Proof. intros H. unfold SetBytes. by rewrite (proj2 (Nat.ltb_ge _ _) H). Qed.

Section ReadBack.
Context (eof_empty : bool) (max_alloc : Z).

Lemma Fixed64_read_back f0 f rest : - 2 ^ 63 <= f < 2 ^ 63 -> Fixed64_Deserialize eof_empty f0 (Fixed64_Serialize f +:+ rest) = (Ok f, rest).
Proof.
  intros Hf. unfold Fixed64_Deserialize, Fixed64_Serialize, rbind, rret. rewrite Read_exact by (apply le_put_length || done).
  cbn [fst snd]. rewrite le_get_put by (apply Z.mod_pos_bound; lia). by rewrite int64_uint64.
Qed.

Lemma Uint160_read_back u0 u rest : String.length u = UINT160SIZE -> Uint160_Deserialize eof_empty u0 (Uint160_Serialize u +:+ rest) = (Ok u, rest).
Proof. intros Hu. unfold Uint160_Deserialize, Uint160_Serialize, rbind, rret. rewrite Read_exact by (done || by intros ->). done. Qed.

(** A context whose lists fit into memory, with a hash of twenty bytes. *)
Definition context_ok (c : ProgramContext) : Prop :=
  Z.of_nat (String.length (pc_Code c)) < 2 ^ 64 /\ Z.of_nat (String.length (pc_Code c)) <= max_alloc
  /\ Z.of_nat (length (pc_Parameters c)) < 2 ^ 64 /\ Z.of_nat (length (pc_Parameters c)) <= max_alloc
  /\ Forall (fun x => 0 <= x < 256) (pc_Parameters c) /\ String.length (pc_ProgramHash c) = UINT160SIZE.

Lemma written_nonempty a b : a <> "" -> (a +:+ b)%string <> "".
Proof. destruct a as [| x a]; [done |]. by rewrite string_app_cons. Qed.

Lemma context_read_back c0 c rest : context_ok c ->
  ProgramContext_Deserialize eof_empty max_alloc c0 (ProgramContext_Serialize c +:+ rest)
  = (Ok {| pc_Code := pc_Code c; pc_Parameters := pc_Parameters c; pc_ProgramHash := pc_ProgramHash c; pc_OwnerPubkeyHash := pc_OwnerPubkeyHash c0 |}, rest).
Proof.
  intros (Hc & Hc' & Hp & Hp' & Hb & Hh). assert (pc_ProgramHash c <> "") as Hne by by intros E; rewrite E in Hh.
  unfold ProgramContext_Deserialize, ProgramContext_Serialize. rewrite <- !string_app_assoc.
  unfold rbind. rewrite (ReadVarBytes_written eof_empty max_alloc (pc_Code c)).
  2: { split_and!; [done | done |]. right. left. unfold WriteVarBytes. rewrite <- string_app_assoc. apply written_nonempty.
       intros E. pose proof (WriteVarUint_size (Z.of_nat (String.length (ProgramContextParameterTypeToByte (pc_Parameters c))))) as Hs.
       rewrite E in Hs. unfold GetVarUintSize in Hs. by repeat destruct (_ <? _) || destruct (_ <=? _). }
  rewrite ReadVarBytes_written by (split_and!; rewrite ?parameters_length; try done; right; left; by apply written_nonempty).
  rewrite Uint160_read_back by done. by rewrite parameters_read_back.
Qed.

(** C37: What the node writes to a stream it reads back, leaving the rest: numbers in
    the size they need, byte strings with their length, amounts, and programs
    but for the hash of the owner; a number above the limit of the reader is
    refused.  The JSON and the number of a hash give the hash. *)
Theorem streams_read_back {C : StdCrypto} {A : AddressLib} {L : StdCryptoLaws C} {LA : AddressLaws A} c c0 f f0 v maxint s rest :
  0 <= v < 2 ^ 64 -> - 2 ^ 63 <= f < 2 ^ 63 -> readable eof_empty max_alloc s rest -> context_ok c ->
  ReadVarUint eof_empty maxint (WriteVarUint v +:+ rest)
    = (if (if maxint =? 0 then 2 ^ 64 - 1 else maxint) <? v then Err (Fault "value out of range") else Ok v, rest)
  /\ String.length (WriteVarUint v) = GetVarUintSize v
  /\ ReadVarBytes eof_empty max_alloc (WriteVarBytes s +:+ rest) = (Ok s, rest)
  /\ Fixed64_Deserialize eof_empty f0 (Fixed64_Serialize f +:+ rest) = (Ok f, rest)
  /\ ProgramContext_Deserialize eof_empty max_alloc c0 (ProgramContext_Serialize c +:+ rest)
     = (Ok {| pc_Code := pc_Code c; pc_Parameters := pc_Parameters c; pc_ProgramHash := pc_ProgramHash c; pc_OwnerPubkeyHash := pc_OwnerPubkeyHash c0 |}, rest)
  /\ (Uint160_MarshalJSON (pc_ProgramHash c) ≫= Uint160_UnmarshalJSON) = Some (pc_ProgramHash c)
  /\ BigToUint160 (Big (pc_ProgramHash c)) = pc_ProgramHash c.
Proof.
  intros Hv Hf Hs Hc. pose proof Hc as (_ & _ & _ & _ & _ & Hh).
  split_and!; [by apply ReadVarUint_written | apply WriteVarUint_size | by apply ReadVarBytes_written | by apply Fixed64_read_back | by apply context_read_back | |].
  - destruct (ToScriptHash_ToAddress (pc_ProgramHash c) Hh) as (a & Ha & Hback). unfold Uint160_MarshalJSON, Uint160_UnmarshalJSON. rewrite Ha.
    cbn [mbind option_bind]. cbn [String.length]. rewrite string_length_app. cbn [String.length].
    rewrite (proj2 (Nat.ltb_ge _ _)) by lia. replace (S (String.length a + 1) - 2)%nat with (String.length a) by lia.
    cbn [str_drop]. rewrite str_take_app, Hback. cbn [mbind option_bind]. rewrite SetBytes_short, Hh by lia. by rewrite Nat.sub_diag.
  - destruct (be_bytes_zeros (pc_ProgramHash c)) as [Hl Hz]. unfold BigToUint160, BytesToUint160, Big.
    pose proof (be_acc_bound 0 (pc_ProgramHash c) ltac:(lia)) as Hb. fold (be_int (pc_ProgramHash c)) in Hb. rewrite Z.abs_eq by lia.
    rewrite SetBytes_short by lia. by rewrite <- Hh.
Qed.

(** A stream that ends early: what is missing is read as zeros, without an error,
    as soon as there is one byte. *)
Lemma short_bytes s n : s <> "" -> (String.length s <= n)%nat -> Z.of_nat n <= max_alloc ->
  ReadBytes eof_empty max_alloc (Z.of_nat n) s = (Ok (s +:+ zero_bytes (n - String.length s))%string, "").
Proof.
  intros Hs Hn Ha. unfold ReadBytes, byteXReader. rewrite (proj2 (Z.ltb_ge _ _)) by lia. rewrite Nat2Z.id. unfold rbind, Read, rret.
  destruct s as [| c s]; [done |]. rewrite Nat.min_r by lia. cbn [snd]. set (t := String c s) in *.
  assert (forall k u, (String.length u <= k)%nat -> str_take k u = u /\ str_drop k u = "") as Hall.
  { induction k as [| k IH]; intros [| x u] Hu; cbn in *; try done; [lia |]. destruct (IH u) as [-> ->]; [lia | done]. }
  by destruct (Hall n t Hn) as [-> ->].
Qed.
End ReadBack.

Module StreamSamples.
Import Toy ToyAddress.

Definition sample_context : ProgramContext := mk_ProgramContext "code" [0] "01234567890123456789" "owner".

Lemma streams_read_back_witness :
  ReadVarUint true 0 (WriteVarUint 70000 +:+ "rest") = (Ok 70000, "rest")
  /\ ReadVarBytes true 1024 (WriteVarBytes "" +:+ "rest") = (Ok "", "rest")
  /\ Fixed64_Deserialize true 0 (Fixed64_Serialize (- 150000000) +:+ "rest") = (Ok (- 150000000), "rest").
Proof.
  destruct (streams_read_back true 1024 sample_context sample_context (- 150000000) 0 70000 0 "" "rest") as (H1 & _ & H3 & H4 & _).
  - lia.
  - lia.
  - split_and!; [done | done | by right; left].
  - split_and!; try done. repeat constructor; lia.
  - split_and!; [exact H1 | exact H3 | exact H4].
Defined.
End StreamSamples.
