(* ===== verification/Config.v ===== *)
(** * The configuration of the node: config/config.go

    The struct [Configuration] is the map of its fields; the list
    [Configuration_fields] gives their names, the names of their members in the
    file, and their types.  [Init] decodes the file over the defaults, lets the
    flags of the command line override it, fills in what depends on the
    machine, and checks the result.  The dashboard reads the file as a map,
    assigns members of it, and writes it back. *)

From S2P Require Import Prelude JsNum JsValue Json GoJson GoMarshal Fixed64 CryptoLib Address Server Vault.
From Stdlib Require Import Floats.SpecFloat.
Local Open Scope Z_scope.

(** ** Structs *)

(** [int], [int64] and [time.Duration] have 64 bits. *)
Inductive kind : Type := KInt64 | KUint16 | KUint32 | KFloat | KBool | KStr | KStrs.

(** A slice of strings has a length and an array behind it, which may hold more
    elements. *)
Inductive gval : Type :=
| GNum (z : Z)
| GFloat (n : num)
| GBool (b : bool)
| GStr (s : string)
| GStrs (len : nat) (backing : list string).

Definition strs (l : list string) : gval := GStrs (length l) l.

Record sfield : Type := mk_sfield {
  f_name : string;
  f_json : option string;
  f_kind : kind
}.

Abbreviation struct := (gmap string gval).

Definition zero_of (k : kind) : gval :=
  match k with
  | KInt64 | KUint16 | KUint32 => GNum 0
  | KFloat => GFloat (num_of_Z 0)
  | KBool => GBool false
  | KStr => GStr ""
  | KStrs => GStrs 0 []
  end.

(** *** Access *)

Definition num_field (c : struct) (n : string) : Z := match c !! n with Some (GNum z) => z | _ => 0 end.
Definition float_field (c : struct) (n : string) : num := match c !! n with Some (GFloat x) => x | _ => num_of_Z 0 end.
Definition bool_field (c : struct) (n : string) : bool := match c !! n with Some (GBool b) => b | _ => false end.
Definition str_field (c : struct) (n : string) : string := match c !! n with Some (GStr s) => s | _ => "" end.
Definition strs_field (c : struct) (n : string) : list string :=
  match c !! n with Some (GStrs k l) => take k l | _ => [] end.

(** *** Decoding *)

Definition to_uint16 (old : Z) (raw : string) (v : jsval) : option Z :=
  match v with
  | VNum _ => m ← ParseUint raw; if m <? 2 ^ 16 then Some m else None
  | VNull => Some old
  | _ => None
  end.
Definition to_bool (old : bool) (v : jsval) : option bool :=
  match v with VBool b => Some b | VNull => Some old | _ => None end.

(** An element that is [null] keeps what the array behind the slice holds at
    its place; an empty array gets a slice of its own, and [null] gives nil. *)
Fixpoint to_elements (old : list string) (l : list jsval) : option (list string) :=
  match l with
  | [] => Some []
  | v :: l' =>
      x ← to_text (default "" (head old)) v;
      r ← to_elements (tail old) l'; Some (x :: r)
  end.
Definition to_strs (old : list string) (v : jsval) : option gval :=
  match v with
  | VArr [] => Some (GStrs 0 [])
  | VArr l => x ← to_elements old l; Some (GStrs (length l) (x ++ drop (length l) old))
  | VNull => Some (GStrs 0 [])
  | _ => None
  end.

Definition decode (k : kind) (old : gval) (raw : string) (v : jsval) : option gval :=
  match k, old with
  | KInt64, GNum z => GNum <$> to_int64 z raw v
  | KUint16, GNum z => GNum <$> to_uint16 z raw v
  | KUint32, GNum z => GNum <$> to_uint32 z raw v
  | KFloat, GFloat n => GFloat <$> to_float64 n v
  | KBool, GBool b => GBool <$> to_bool b v
  | KStr, GStr s => GStr <$> to_text s v
  | KStrs, GStrs _ l => to_strs l v
  | _, _ => None
  end.

(** ** [Configuration] and [Parameters] *)

Definition Configuration_fields : list sfield := [
  mk_sfield "Version" (Some "Version") KInt64;
  mk_sfield "SeedList" (Some "SeedList") KStrs;
  mk_sfield "StunList" (Some "StunList") KStrs;
  mk_sfield "HttpWssDomain" (Some "HttpWssDomain") KStr;
  mk_sfield "HttpWssCert" (Some "HttpWssCert") KStr;
  mk_sfield "HttpWssKey" (Some "HttpWssKey") KStr;
  mk_sfield "HttpWsPort" (Some "HttpWsPort") KUint16;
  mk_sfield "HttpWssPort" (Some "HttpWssPort") KUint16;
  mk_sfield "HttpJsonPort" (Some "HttpJsonPort") KUint16;
  mk_sfield "HttpsJsonDomain" (Some "HttpsJsonDomain") KStr;
  mk_sfield "HttpsJsonCert" (Some "HttpsJsonCert") KStr;
  mk_sfield "HttpsJsonKey" (Some "HttpsJsonKey") KStr;
  mk_sfield "HttpsJsonPort" (Some "HttpsJsonPort") KUint16;
  mk_sfield "DefaultTlsCert" (Some "DefaultTlsCert") KStr;
  mk_sfield "DefaultTlsKey" (Some "DefaultTlsKey") KStr;
  mk_sfield "DefaultTlsDomainTmpl" (Some "DefaultTlsDomainTmpl") KStrs;
  mk_sfield "ACMEUserFile" (Some "ACMEUserFile") KStr;
  mk_sfield "ACMEResourceFile" (Some "ACMEResourceFile") KStr;
  mk_sfield "CertRenewBefore" (Some "CertRenewBefore") KUint16;
  mk_sfield "CertCheckInterval" (Some "CertCheckInterval") KInt64;
  mk_sfield "CertDirectory" (Some "CertDirectory") KStr;
  mk_sfield "CertDomainName" (Some "CertDomainName") KStr;
  mk_sfield "NodePort" None KUint16;
  mk_sfield "LogLevel" (Some "LogLevel") KInt64;
  mk_sfield "MaxLogFileSize" (Some "MaxLogSize") KUint32;
  mk_sfield "MaxLogFileTotalSize" (Some "MaxLogFileTotalSize") KUint32;
  mk_sfield "GenesisBlockProposer" (Some "GenesisBlockProposer") KStr;
  mk_sfield "NumLowFeeTxnPerBlock" (Some "NumLowFeeTxnPerBlock") KUint32;
  mk_sfield "LowFeeTxnSizePerBlock" (Some "LowFeeTxnSizePerBlock") KUint32;
  mk_sfield "LowTxnFee" (Some "LowTxnFee") KInt64;
  mk_sfield "LowTxnFeePerSize" (Some "LowTxnFeePerSize") KFloat;
  mk_sfield "RegisterIDRegFee" (Some "RegisterIDRegFee") KInt64;
  mk_sfield "RegisterIDTxnFee" (Some "RegisterIDTxnFee") KInt64;
  mk_sfield "RegisterIDReplaceTxPool" (Some "RegisterIDReplaceTxPool") KBool;
  mk_sfield "Hostname" (Some "Hostname") KStr;
  mk_sfield "Transport" (Some "Transport") KStr;
  mk_sfield "NAT" (Some "NAT") KBool;
  mk_sfield "Mining" (Some "Mining") KBool;
  mk_sfield "MiningDebug" (Some "MiningDebug") KBool;
  mk_sfield "BeneficiaryAddr" (Some "BeneficiaryAddr") KStr;
  mk_sfield "SyncStateMaxThread" (Some "SyncStateMaxThread") KUint32;
  mk_sfield "SyncHeaderMaxSize" (Some "SyncHeaderMaxSize") KUint32;
  mk_sfield "SyncHeaderMaxMemorySize" (Some "SyncHeaderMaxMemorySize") KUint32;
  mk_sfield "SyncBatchWindowSize" (Some "SyncBatchWindowSize") KUint32;
  mk_sfield "SyncBlockHeadersBatchSize" (Some "SyncBlockHeadersBatchSize") KUint32;
  mk_sfield "SyncBlocksBatchSize" (Some "SyncBlocksBatchSize") KUint32;
  mk_sfield "SyncBlocksMaxMemorySize" (Some "SyncBlocksMaxMemorySize") KUint32;
  mk_sfield "NumTxnPerBlock" (Some "NumTxnPerBlock") KUint32;
  mk_sfield "TxPoolPerAccountTxCap" (Some "TxPoolPerAccountTxCap") KUint32;
  mk_sfield "TxPoolTotalTxCap" (Some "TxPoolTotalTxCap") KUint32;
  mk_sfield "TxPoolMaxMemorySize" (Some "TxPoolMaxMemorySize") KUint32;
  mk_sfield "RPCReadTimeout" (Some "RPCReadTimeout") KInt64;
  mk_sfield "RPCWriteTimeout" (Some "RPCWriteTimeout") KInt64;
  mk_sfield "RPCIdleTimeout" (Some "RPCIdleTimeout") KInt64;
  mk_sfield "RPCKeepAlivesEnabled" (Some "RPCKeepAlivesEnabled") KBool;
  mk_sfield "NATPortMappingTimeout" (Some "NATPortMappingTimeout") KInt64;
  mk_sfield "LogPath" (Some "LogPath") KStr;
  mk_sfield "ChainDBPath" (Some "ChainDBPath") KStr;
  mk_sfield "WalletFile" (Some "WalletFile") KStr;
  mk_sfield "MaxGetIDSeeds" (Some "MaxGetIDSeeds") KUint32;
  mk_sfield "DBFilesCacheCapacity" (Some "DBFilesCacheCapacity") KUint32;
  mk_sfield "AllowEmptyBeneficiaryAddress" (Some "AllowEmptyBeneficiaryAddress") KBool;
  mk_sfield "WebGuiListenAddress" (Some "WebGuiListenAddress") KStr;
  mk_sfield "WebGuiPort" (Some "WebGuiPort") KUint16;
  mk_sfield "WebGuiCreateWallet" (Some "WebGuiCreateWallet") KBool;
  mk_sfield "PasswordFile" (Some "PasswordFile") KStr;
  mk_sfield "StatePruningMode" (Some "StatePruningMode") KStr;
  mk_sfield "RecentStateCount" (Some "RecentStateCount") KUint32;
  mk_sfield "RecentBlockCount" (Some "RecentBlockCount") KUint32;
  mk_sfield "MinPruningCompactHeights" (Some "MinPruningCompactHeights") KUint32;
  mk_sfield "NodeIPRateLimit" (Some "NodeIPRateLimit") KFloat;
  mk_sfield "NodeIPRateBurst" (Some "NodeIPRateBurst") KUint32;
  mk_sfield "WsIPRateLimit" (Some "WsIPRateLimit") KFloat;
  mk_sfield "WsIPRateBurst" (Some "WsIPRateBurst") KUint32;
  mk_sfield "RPCIPRateLimit" (Some "RPCIPRateLimit") KFloat;
  mk_sfield "RPCIPRateBurst" (Some "RPCIPRateBurst") KUint32;
  mk_sfield "RPCRateLimit" (Some "RPCRateLimit") KFloat;
  mk_sfield "RPCRateBurst" (Some "RPCRateBurst") KUint32;
  mk_sfield "SyncBlockHeaderRateLimit" (Some "SyncBlockHeaderRateLimit") KFloat;
  mk_sfield "SyncBlockHeaderRateBurst" (Some "SyncBlockHeaderRateBurst") KUint32;
  mk_sfield "SyncBlockRateLimit" (Some "SyncBlockRateLimit") KFloat;
  mk_sfield "SyncBlockRateBurst" (Some "SyncBlockRateBurst") KUint32;
  mk_sfield "BlockHeaderCacheSize" (Some "BlockHeaderCacheSize") KUint32;
  mk_sfield "SigChainCacheSize" (Some "SigChainCacheSize") KUint32;
  mk_sfield "SyncMode" (Some "SyncMode") KStr;
  mk_sfield "MaxRollbackBlocks" (Some "MaxRollbackBlocks") KUint32;
  mk_sfield "ClientMsgCacheSize" (Some "ClientMsgCacheSize") KUint32
].

(** The field a member of the file is decoded into. *)
Definition find_field (key : string) : option sfield :=
  List.find (fun f => match f_json f with Some n => names n key | None => false end) Configuration_fields.

Definition set_field (key raw : string) (v : jsval) (c : struct) : option struct :=
  match find_field key with
  | None => Some c
  | Some f => x ← decode (f_kind f) (default (zero_of (f_kind f)) (c !! f_name f)) raw v; Some (<[f_name f := x]> c)
  end.

Definition zero_struct : struct := list_to_map (map (fun f => (f_name f, zero_of (f_kind f))) Configuration_fields).

Definition Parameters_given : list (string * gval) := [
  ("Version", GNum 1);
  ("Transport", GStr "tcp");
  ("NodePort", GNum 30001);
  ("HttpWsPort", GNum 30002);
  ("HttpWssPort", GNum 30004);
  ("HttpJsonPort", GNum 30003);
  ("HttpsJsonPort", GNum 30005);
  ("NAT", GBool true);
  ("Mining", GBool true);
  ("MiningDebug", GBool true);
  ("LogLevel", GNum 1);
  ("MaxLogFileSize", GNum 20);
  ("MaxLogFileTotalSize", GNum 100);
  ("SyncStateMaxThread", GNum 0);
  ("SyncHeaderMaxSize", GNum 0);
  ("SyncHeaderMaxMemorySize", GNum 0);
  ("SyncBatchWindowSize", GNum 0);
  ("SyncBlockHeadersBatchSize", GNum 128);
  ("SyncBlocksBatchSize", GNum 4);
  ("SyncBlocksMaxMemorySize", GNum 0);
  ("RPCReadTimeout", GNum 5);
  ("RPCWriteTimeout", GNum 10);
  ("RPCIdleTimeout", GNum 0);
  ("RPCKeepAlivesEnabled", GBool false);
  ("NATPortMappingTimeout", GNum (365 * 86400));
  ("NumTxnPerBlock", GNum 256);
  ("TxPoolPerAccountTxCap", GNum 32);
  ("TxPoolTotalTxCap", GNum 0);
  ("TxPoolMaxMemorySize", GNum 0);
  ("RegisterIDRegFee", GNum 0);
  ("RegisterIDTxnFee", GNum 0);
  ("RegisterIDReplaceTxPool", GBool false);
  ("LogPath", GStr "Log");
  ("ChainDBPath", GStr "ChainDB");
  ("WalletFile", GStr "wallet.json");
  ("DefaultTlsDomainTmpl", strs ["{{.DashedIP}}.ipv4.staticdns1.io"; "{{.DashedIP}}.ipv4.staticdns2.io"; "{{.DashedIP}}.ipv4.staticdns3.io"]);
  ("CertDirectory", GStr "certs");
  ("CertRenewBefore", GNum 720);
  ("CertCheckInterval", GNum 86400);
  ("MaxGetIDSeeds", GNum 3);
  ("DBFilesCacheCapacity", GNum 100);
  ("NumLowFeeTxnPerBlock", GNum 0);
  ("LowFeeTxnSizePerBlock", GNum 8192);
  ("LowTxnFee", GNum 10000000);
  ("LowTxnFeePerSize", GFloat (num_of_Z 50000));
  ("AllowEmptyBeneficiaryAddress", GBool false);
  ("WebGuiListenAddress", GStr "127.0.0.1");
  ("WebGuiPort", GNum 30000);
  ("WebGuiCreateWallet", GBool false);
  ("PasswordFile", GStr "");
  ("StatePruningMode", GStr "lowmem");
  ("RecentStateCount", GNum 16384);
  ("RecentBlockCount", GNum 32768);
  ("MinPruningCompactHeights", GNum 32768);
  ("NodeIPRateLimit", GFloat (num_of_Z 1));
  ("NodeIPRateBurst", GNum 10);
  ("WsIPRateLimit", GFloat (num_of_Z 10));
  ("WsIPRateBurst", GNum 100);
  ("RPCIPRateLimit", GFloat (num_of_Z 10));
  ("RPCIPRateBurst", GNum 100);
  ("RPCRateLimit", GFloat (num_of_Z 1024));
  ("RPCRateBurst", GNum 4096);
  ("SyncBlockHeaderRateLimit", GFloat (num_of_Z 8192));
  ("SyncBlockHeaderRateBurst", GNum 32768);
  ("SyncBlockRateLimit", GFloat (num_of_Z 256));
  ("SyncBlockRateBurst", GNum 1024);
  ("SyncMode", GStr "light");
  ("MaxRollbackBlocks", GNum 180);
  ("ClientMsgCacheSize", GNum 0);
  ("GenesisBlockProposer", GStr "a0309f8280ca86687a30ca86556113a253762e40eb884fc6063cad2b1ebd7de5");
  ("SeedList", strs ["http://mainnet-seed-0001.nkn.org:30003";
    "http://mainnet-seed-0002.nkn.org:30003";
    "http://mainnet-seed-0003.nkn.org:30003";
    "http://mainnet-seed-0004.nkn.org:30003";
    "http://mainnet-seed-0005.nkn.org:30003";
    "http://mainnet-seed-0006.nkn.org:30003";
    "http://mainnet-seed-0007.nkn.org:30003";
    "http://mainnet-seed-0008.nkn.org:30003"]);
  ("StunList", strs ["stun:stun.l.google.com:19302";
    "stun:stun.cloudflare.com:3478";
    "stun:stunserver.stunprotocol.org:3478"])
].
Definition Parameters : struct := list_to_map Parameters_given ∪ zero_struct.

(** ** The file *)

Definition defaultConfigFile : string := "config.json".

Definition GetConfigFile (ConfigFile : string) : string :=
  if String.eqb ConfigFile "" then defaultConfigFile else ConfigFile.

Definition bom : string := String (chr 239) (String (chr 187) (String (chr 191) "")).
Definition TrimPrefix (s p : string) : string := if String.prefix p s then str_drop (String.length p) s else s.

Definition OpenConfigFile (d : disk) (ConfigFile : string) : go string :=
  file ← ReadFile d (GetConfigFile ConfigFile); Ok (TrimPrefix file bom).

(** A JSON value into an [interface]; a number beyond the range of a float is
    an error. *)
Definition finite (n : num) : bool := match n with S754_nan | S754_infinity _ => false | _ => true end.
Definition of_members (l : list (string * jsval)) : list (string * jsval) :=
  fold_left (fun acc kv => assoc_set kv.1 kv.2 acc) l [].
Fixpoint to_interface (v : jsval) : option jsval :=
  match v with
  | VUndef | VForm => None
  | VNull | VBool _ => Some v
  | VNum n => if finite n then Some v else None
  | VStr s => Some (VStr (to_utf8 0 0 s))
  | VArr l => VArr <$> mapM to_interface l
  | VObj l => kvs ← mapM (fun kv => x ← to_interface kv.2; Some (to_utf8 0 0 kv.1, x)) l; Some (VObj (of_members kvs))
  end.

(** [json.Unmarshal] into a map, [None] for the nil map a [null] leaves. *)
Definition unmarshal_map (text : string) : go (option (list (string * jsval))) :=
  match parse text with
  | Ok VNull => Ok None
  | Ok (VObj l) => match to_interface (VObj l) with Some (VObj m) => Ok (Some m) | _ => Err Library end
  | _ => Err Library
  end.

Definition read_map (d : disk) (ConfigFile : string) : go (option (list (string * jsval))) :=
  file ← OpenConfigFile d ConfigFile; unmarshal_map file.

Definition WriteConfigFile (d : disk) (ConfigFile : string) (configuration : list (string * jsval)) : go disk :=
  bytes ← lib (MarshalIndent (as_map (VObj configuration)) "    "); WriteFile d (GetConfigFile ConfigFile) bytes.

(** ** The command line *)

(** strings.Split(s, ",") *)
Fixpoint split_comma (s : string) : list string :=
  match s with
  | EmptyString => [EmptyString]
  | String c r =>
      if code c =? 44 then EmptyString :: split_comma r
      else match split_comma r with x :: l => String c x :: l | [] => [String c ""] end
  end.

Record flags : Type := mk_flags {
  fl_ConfigFile : string;
  fl_LogPath : string;
  fl_ChainDBPath : string;
  fl_WalletFile : string;
  fl_BeneficiaryAddr : string;
  fl_SeedList : string;
  fl_StunList : string;
  fl_GenesisBlockProposer : string;
  fl_AllowEmptyBeneficiaryAddress : bool;
  fl_WebGuiListenAddress : string;
  fl_WebGuiCreateWallet : bool;
  fl_PasswordFile : string;
  fl_StatePruningMode : string;
  fl_SyncMode : string
}.

Definition set_str (n s : string) (c : struct) : struct := if String.eqb s "" then c else <[n := GStr s]> c.
Definition set_list (n s : string) (c : struct) : struct := if String.eqb s "" then c else <[n := strs (split_comma s)]> c.
Definition set_bool (n : string) (b : bool) (c : struct) : struct := if b then <[n := GBool b]> c else c.

(** ** Ports *)

(** What the network says to the [i]-th attempt on a port. *)
Record network : Type := mk_network {
  tcp_listens : nat -> Z -> bool;
  udp_resolves : nat -> Z -> bool;
  udp_listens : nat -> Z -> bool
}.

Definition uint16 (z : Z) : Z := z mod 2 ^ 16.
Definition uint32 (z : Z) : Z := z mod 2 ^ 32.

(** The loop of [findMinMaxPort] over an array with the element [p]. *)
Definition findMinMaxPort (p : Z) (array : list Z) : Z * Z :=
  fold_left (fun '(mn, mx) value => (if value <? mn then value else mn, if mx <? value then value else mx)) (p :: array) (p, p).

(** The increment the loop ends with; [None] inside when it gives up, [None]
    when it has not ended after [fuel] attempts. *)
Fixpoint find_delta (nw : network) (port step : Z) (fuel i : nat) (delta : Z) : option (option Z) :=
  match fuel with
  | O => None
  | S fuel =>
      let p := uint16 (port + delta) in
      if negb (tcp_listens nw i p) then find_delta nw port step fuel (S i) (uint16 (delta + step))
      else if negb (udp_resolves nw i p) then Some None
      else if negb (udp_listens nw i p) then find_delta nw port step fuel (S i) (uint16 (delta + step))
      else Some (Some delta)
  end.

Definition port_fields : list string := ["NodePort"; "HttpWsPort"; "HttpWssPort"; "HttpJsonPort"; "HttpsJsonPort"].
Definition add_port (delta : Z) (c : struct) (n : string) : struct := <[n := GNum (uint16 (num_field c n + delta))]> c.

Definition incrementPort (nw : network) (fuel : nat) (c : struct) : option struct :=
  let '(minPort, maxPort) := findMinMaxPort (num_field c "NodePort")
    [num_field c "HttpWsPort"; num_field c "HttpJsonPort"; num_field c "HttpWssPort"; num_field c "HttpsJsonPort"] in
  let step := uint16 (maxPort - minPort + 1) in
  delta ← find_delta nw (num_field c "NodePort") step fuel 0 0;
  Some (match delta with None => c | Some delta => fold_left (add_port delta) port_fields c end).

(** ** What depends on the machine *)

Definition PublicKeySize : nat := 32.
Definition MaxNumTxnPerBlock : Z := 4096.
Definition MaxBlockSize : Z := 1 * 1024 * 1024.
Definition GenerateIDBlockDelay : Z := 8.
Definition estimatedHeaderSize : Z := 418.
Definition defaultSyncStateMaxThread : Z := 10.
Definition defaultSyncStateThreadMemory : Z := 30 * 1024 * 1024.
Definition defaultSyncHeaderMaxMemoryPercent : num := num_of_Z 2.
Definition defaultSyncHeaderMaxSize : Z := 32768.
Definition defaultSyncMaxMemoryPercent : num := num_of_Z 25.
Definition defaultSyncBatchWindowSize : Z := 64.
Definition defaultTxPoolMaxMemoryPercent : num := num_div (num_of_Z 4) (num_of_Z 10).
Definition defaultTxPoolMaxMemorySize : Z := 32.
Definition defaultClientMsgCachePercent : num := num_of_Z 1.
Definition defaultClientMsgCacheSize : Z := 32.
Definition SigChainRecentMinerBlocks : Z := 4096.
Definition SigChainSkipMinerBlocks : Z := 4096.

(** The memory of the machine, a uint64, and the conversion of a float that
    does not fit an unsigned type, which the language leaves open. *)
Record machine : Type := mk_machine {
  TotalMemory : Z;
  unfit : Z -> num -> Z
}.

Section Machine.
Context (m : machine).

Definition to_unsigned (w : Z) (n : num) : Z :=
  match num_trunc n with
  | Some z => if (0 <=? z) && (z <? 2 ^ w) then z else unfit m w n
  | None => unfit m w n
  end.
Definition memory : num := num_of_Z (TotalMemory m).
Definition percent (x p : num) : num := num_div (num_mul x p) (num_of_Z 100).

(** [if Parameters.n == 0 { Parameters.n = v; if it is 0 again, d }] *)
Definition fill (n : string) (v d : Z) (c : struct) : struct :=
  if num_field c n =? 0 then <[n := GNum (if v =? 0 then d else v)]> c else c.

(** The memory given for a purpose in MB, or a share of the memory. *)
Definition budget (c : struct) (n : string) (p : num) : Z :=
  let given := num_field c n * 1024 * 1024 in
  if given =? 0 then to_unsigned 64 (percent memory p) else given.

Definition fill_SyncStateMaxThread (c : struct) : struct :=
  fill "SyncStateMaxThread" (to_unsigned 32 (num_of_Z (TotalMemory m / defaultSyncStateThreadMemory))) defaultSyncStateMaxThread c.
Definition fill_SyncHeaderMaxSize (c : struct) : struct :=
  fill "SyncHeaderMaxSize" (uint32 (budget c "SyncHeaderMaxMemorySize" defaultSyncHeaderMaxMemoryPercent / estimatedHeaderSize))
    defaultSyncHeaderMaxSize c.
(** The division by a batch size of 0 panics. *)
Definition fill_SyncBatchWindowSize (c : struct) : go struct :=
  if negb (num_field c "SyncBatchWindowSize" =? 0) then Ok c
  else if num_field c "SyncBlocksBatchSize" =? 0 then Err Panic
  else Ok (fill "SyncBatchWindowSize"
    (uint32 (budget c "SyncBlocksMaxMemorySize" defaultSyncMaxMemoryPercent / MaxBlockSize) / num_field c "SyncBlocksBatchSize")
    defaultSyncBatchWindowSize c).
Definition fill_TxPoolMaxMemorySize (c : struct) : struct :=
  fill "TxPoolMaxMemorySize"
    (to_unsigned 32 (percent (num_div (num_div memory (num_of_Z 1024)) (num_of_Z 1024)) defaultTxPoolMaxMemoryPercent))
    defaultTxPoolMaxMemorySize c.

Definition at_least (n : string) (v : Z) (c : struct) : struct :=
  if num_field c n <? v then <[n := GNum v]> c else c.

(** From MB to bytes, in 32 bits. *)
Definition fill_ClientMsgCacheSize (c : struct) : struct :=
  let given := num_field c "ClientMsgCacheSize" in
  if given <=? 0 then fill "ClientMsgCacheSize" (to_unsigned 32 (percent memory defaultClientMsgCachePercent)) (defaultClientMsgCacheSize * 1024 * 1024) c
  else <["ClientMsgCacheSize" := GNum (uint32 (given * 1024 * 1024))]> c.
End Machine.

(** ** [verify] *)

Section Init.
Context {C : StdCrypto} {A : AddressLib}.

Definition refuse (b : bool) (msg : string) : go unit := if b then Err (Fault msg) else Ok tt.

Definition verify (c : struct) : go unit :=
  _ ← refuse (bool_decide (strs_field c "SeedList" = [])) "seed list in config file should not be blank";
  _ ← refuse (bool_decide (strs_field c "StunList" = [])) "stun list in config file should not be blank";
  _ ← refuse (MaxNumTxnPerBlock <? num_field c "NumTxnPerBlock") "NumTxnPerBlock cannot be greater than the maximum";
  _ ← refuse (String.eqb (str_field c "GenesisBlockProposer") "") "no GenesisBlockProposer";
  pk ← match hex_decode (str_field c "GenesisBlockProposer") with
       | Some pk => Ok pk
       | None => Err (Fault "parse GenesisBlockProposer error")
       end;
  _ ← refuse (negb (String.length pk =? PublicKeySize)%nat) "invalid GenesisBlockProposer length";
  _ ← refuse (negb (String.eqb (str_field c "BeneficiaryAddr") "")
              && negb (bool_decide (is_Some (ToScriptHash (str_field c "BeneficiaryAddr"))))) "parse BeneficiaryAddr error";
  _ ← refuse (num_field c "MaxLogFileSize" <=? 0) "MaxLogFileSize should be >= 1 (MB)";
  _ ← refuse (num_field c "MaxLogFileTotalSize" <=? 0) "MaxLogFileTotalSize should be >= 1 (MB)";
  _ ← refuse (negb (bool_decide (str_field c "StatePruningMode" ∈ ["lowmem"; "none"]))) "unknown state pruning mode";
  _ ← refuse (negb (bool_decide (str_field c "SyncMode" ∈ ["light"; "fast"; "full"]))) "unknown sync mode";
  _ ← refuse (num_field c "RecentBlockCount" <=? GenerateIDBlockDelay) "RecentBlockCount should be greater";
  _ ← refuse (num_field c "RecentBlockCount" <=? num_field c "SigChainCacheSize") "RecentBlockCount should be greater";
  refuse (num_field c "RecentBlockCount" <=? num_field c "MaxRollbackBlocks") "RecentBlockCount should be greater".

Definition IsFastSync (c : struct) : bool :=
  String.eqb (str_field c "SyncMode") "fast" || String.eqb (str_field c "SyncMode") "light".
Definition IsLightSync (c : struct) : bool := String.eqb (str_field c "SyncMode") "light".

(** ** [Init] *)

(** The file over the defaults; without a file that can be read, the defaults. *)
Definition load (d : disk) (ConfigFile : string) : go struct :=
  match OpenConfigFile d ConfigFile with
  | Ok file => lib (unmarshal_struct set_field Parameters file)
  | Err _ => Ok Parameters
  end.

Definition flags_before_ports (fl : flags) (c : struct) : struct :=
  let c := set_str "LogPath" (fl_LogPath fl) c in
  let c := set_str "ChainDBPath" (fl_ChainDBPath fl) c in
  let c := set_str "WalletFile" (fl_WalletFile fl) c in
  let c := set_str "BeneficiaryAddr" (fl_BeneficiaryAddr fl) c in
  let c := set_list "SeedList" (fl_SeedList fl) c in
  let c := set_list "StunList" (fl_StunList fl) c in
  set_str "GenesisBlockProposer" (fl_GenesisBlockProposer fl) c.

Definition flags_after_ports (fl : flags) (c : struct) : struct :=
  let c := set_bool "AllowEmptyBeneficiaryAddress" (fl_AllowEmptyBeneficiaryAddress fl) c in
  let c := set_str "WebGuiListenAddress" (fl_WebGuiListenAddress fl) c in
  let c := set_bool "WebGuiCreateWallet" (fl_WebGuiCreateWallet fl) c in
  let c := set_str "PasswordFile" (fl_PasswordFile fl) c in
  let c := set_str "StatePruningMode" (fl_StatePruningMode fl) c in
  set_str "SyncMode" (fl_SyncMode fl) c.

Definition fill_all (m : machine) (c : struct) : go struct :=
  let c := fill_SyncStateMaxThread m c in
  let c := fill_SyncHeaderMaxSize m c in
  c ← fill_SyncBatchWindowSize m c;
  let c := fill_TxPoolMaxMemorySize m c in
  let c := at_least "BlockHeaderCacheSize" (SigChainRecentMinerBlocks + 64) c in
  let c := at_least "BlockHeaderCacheSize" (SigChainSkipMinerBlocks + 64) c in
  let c := at_least "SigChainCacheSize" (SigChainSkipMinerBlocks + 64) c in
  Ok (fill_ClientMsgCacheSize m c).

(** [None] when the search for free ports has not ended. *)
Definition Init (m : machine) (nw : network) (fuel : nat) (fl : flags) (d : disk) : option (go struct) :=
  match load d (fl_ConfigFile fl) with
  | Err e => Some (Err e)
  | Ok c =>
      let c := flags_before_ports fl c in
      c ← (if String.eqb (str_field c "Hostname") "127.0.0.1" then incrementPort nw fuel c else Some c);
      let c := flags_after_ports fl c in
      Some (c ← fill_all m c; _ ← verify c; Ok c)
  end.
End Init.
