(* ===== verification/ConfigSpec.v ===== *)
(** * The configuration file, written and read

    What the dashboard writes is read back, by the dashboard as the map it was
    and by [Init] as the fields it holds; what [Init] makes of a file whose
    members are spelled as the fields of the struct; and what happens to a
    setting of the dashboard when the node is started again. *)

From S2P Require Import Prelude JsNum JsValue Json GoJson GoMarshal Fixed64 CryptoLib Address Server Vault Config.
From Stdlib Require Import Floats.SpecFloat.
Local Open Scope Z_scope.

(** ** What can be written *)

(** The values an [interface] holds after decoding. *)
Fixpoint interface (v : jsval) : bool :=
  match v with
  | VUndef | VForm => false
  | VNull | VBool _ | VStr _ => true
  | VNum n => finite n
  | VArr l => forallb interface l
  | VObj l => forallb (fun kv => interface kv.2) l
  end.

Lemma mapM_total {A B} (f : A -> option B) l : (forall x, In x l -> is_Some (f x)) -> is_Some (mapM f l).
Proof.
  induction l as [|x l IH]; intros H; [by eexists |]. destruct (H x (or_introl eq_refl)) as [y Hy].
  destruct IH as [l' Hl]; [intros z Hz; apply H; by right |]. exists (y :: l'). cbn. by rewrite Hy, Hl.
Qed.

Lemma marshal_interface v : interface v = true -> forall ind d, is_Some (marshal ind d v).
Proof.
  induction v as [| |b|n|s|l IH|l IH|] using jsval_nested_ind; cbn [interface marshal]; intros Hv ind d; try done; try by eexists.
  - destruct n as [[] | | | s m e]; try done; by eexists.
  - rewrite forallb_forall in Hv. rewrite List.Forall_forall in IH. apply fmap_is_Some, mapM_total. intros x Hx. by apply IH, Hv.
  - rewrite forallb_forall in Hv. rewrite List.Forall_forall in IH. apply fmap_is_Some, mapM_total. intros kv Hkv.
    destruct (IH kv Hkv (Hv kv Hkv) ind (S d)) as [t ->]. by eexists.
Qed.

Lemma interface_set k v l : interface v = true -> interface (VObj l) = true -> interface (VObj (assoc_set k v l)) = true.
Proof.
  intros Hv. cbn [interface]. induction l as [|[k' v'] l IH]; cbn [assoc_set forallb snd]; [by rewrite Hv |].
  intros [Hv' Hl]%andb_true_iff. destruct (String.eqb k k'); cbn [forallb snd]; [by rewrite Hv, Hl | by rewrite Hv', IH].
Qed.

Lemma interface_of_members l : forallb (fun kv => interface kv.2) l = true -> interface (VObj (of_members l)) = true.
Proof.
  unfold of_members. assert (interface (VObj []) = true) as H0 by done. revert H0. generalize (@nil (string * jsval)).
  induction l as [|[k v] l IH]; intros acc Hacc; [done |]. cbn [forallb snd fold_left fst]. intros [Hv Hl]%andb_true_iff.
  apply IH; [by apply interface_set | done].
Qed.

Lemma to_interface_ok v : forall v', to_interface v = Some v' -> interface v' = true.
Proof.
  induction v as [| |b|n|s|l IH|l IH|] using jsval_nested_ind; cbn [to_interface]; intros v' H; try done; try by simplify_eq.
  - destruct (finite n) eqn:E; by simplify_eq.
  - apply fmap_Some in H as (l' & Hl%mapM_Some & ->). cbn [interface]. rewrite List.Forall_forall in IH. apply forallb_forall.
    intros y Hy. destruct (Forall2_in_r _ _ _ _ Hl Hy) as (x & Hx & E). by apply (IH x Hx).
  - apply bind_Some in H as (kvs & Hl%mapM_Some & [= <-]). rewrite List.Forall_forall in IH. apply interface_of_members, forallb_forall.
    intros y Hy. destruct (Forall2_in_r _ _ _ _ Hl Hy) as (kv & Hkv & (x & Hx & [= <-])%bind_Some). by apply (IH kv Hkv).
Qed.

Lemma interface_as_map v : interface v = true -> interface (as_map v) = true.
Proof.
  induction v as [| |b|n|s|l IH|l IH|] using jsval_nested_ind; intros Hv; try done; rewrite List.Forall_forall in IH;
    cbn [interface] in Hv; rewrite forallb_forall in Hv.
  - cbn [as_map interface]. apply forallb_forall. intros y (x & <- & Hx)%in_map_iff. by apply IH, Hv.
  - change (as_map (VObj l)) with (VObj (sort_members l)). cbn [interface]. apply forallb_forall. intros y Hy.
    pose proof (Permutation_in _ (sort_members_perm l) Hy) as (kv & <- & Hkv)%in_map_iff. cbn [snd]. by apply IH, Hv.
Qed.

(** ** The file *)

Lemma read_map_interface d cf l : read_map d cf = Ok (Some l) -> interface (VObj l) = true.
Proof.
  unfold read_map, unmarshal_map. destruct (OpenConfigFile d cf) as [file | e]; bind_simpl; [| done].
  destruct (parse file) as [[| |b|n|s|a|o|] | e]; try done.
  destruct (to_interface (VObj o)) as [[| |b|n|s|a|m|] |] eqn:E; try done. intros H. apply (inj Ok), (inj Some) in H. subst m. by apply to_interface_ok in E.
Qed.

Definition written_disk (d : disk) (cf text : string) : disk :=
  {| d_files := <[GetConfigFile cf := Some text]> (d_files d); d_writable := d_writable d |}.

(** A map that was read is written, with any member assigned, where the file can
    be. *)
Lemma WriteConfigFile_total d cf l : interface (VObj l) = true ->
  exists text, MarshalIndent (as_map (VObj l)) "    " = Some text
    /\ WriteConfigFile d cf l = if d_writable d (GetConfigFile cf) then Ok (written_disk d cf text) else Err Library.
Proof.
  intros Hl. destruct (marshal_interface _ (interface_as_map _ Hl) (Some "    ") 0) as [text Ht]. exists text.
  split; [done |]. unfold WriteConfigFile, MarshalIndent. rewrite Ht. cbn. unfold WriteFile. by destruct (d_writable d _).
Qed.

Lemma of_members_id l : NoDup (map fst l) -> of_members l = l.
Proof.
  unfold of_members. assert (forall acc, NoDup (map fst (acc ++ l)) -> fold_left (fun acc kv => assoc_set kv.1 kv.2 acc) l acc = acc ++ l) as G; [| apply (G [])].
  induction l as [|[k v] l IH]; intros acc Hnd; [by rewrite app_nil_r |]. cbn [fold_left fst snd].
  rewrite assoc_set_fresh.
  - rewrite IH; by rewrite <- app_assoc.
  - rewrite map_app in Hnd. apply list.NoDup_app in Hnd as (_ & Hn & _). intros Hin. apply list_elem_of_In in Hin.
    apply (Hn _ Hin). cbn. left.
Qed.

Lemma mapM_id {A} (f : A -> option A) l : (forall x, In x l -> f x = Some x) -> mapM f l = Some l.
Proof.
  induction l as [|x l IH]; intros H; [done |]. cbn. rewrite H by by left. cbn. rewrite IH; [done |]. intros y Hy. apply H. by right.
Qed.

Lemma to_interface_id v : jsonable v = true -> plain v = true -> to_interface v = Some v.
Proof.
  induction v as [| |b|n|s|l IH|l IH|] using jsval_nested_ind; cbn [jsonable plain to_interface]; intros Hj Hp; try done.
  - apply int_num_inv in Hj as (z & Hz & ->). destruct (decide (z = 0)) as [-> | Hn]; [done |]. by rewrite num_of_Z_form.
  - by rewrite to_utf8_valid by by apply ascii_utf8.
  - rewrite forallb_forall in Hj, Hp. rewrite List.Forall_forall in IH. by rewrite mapM_id by auto.
  - apply andb_true_iff in Hj as [Hnd%bool_decide_eq_true Hj]. rewrite forallb_forall in Hj, Hp. rewrite List.Forall_forall in IH.
    rewrite mapM_id; [cbn; by rewrite of_members_id |]. intros [k x] Hx. pose proof (Hp _ Hx) as [Hk Hpx]%andb_true_iff.
    pose proof (IH (k, x) Hx (Hj _ Hx) Hpx) as E. cbn [fst snd] in *. rewrite E. cbn. by rewrite to_utf8_valid by by apply ascii_utf8.
Qed.

(** The text the node writes has no byte order mark. *)
Lemma TrimPrefix_object ind l text rest : marshal ind 0 (VObj l) = Some text -> TrimPrefix (text +:+ rest) bom = (text +:+ rest)%string.
Proof.
  cbn [marshal]. intros (ts & _ & ->)%fmap_Some. unfold TrimPrefix, bracket. by destruct ts.
Qed.

(** ** What [Init] makes of a file *)

(** Every member that names a field is spelled as the field. *)
Definition canonical (l : list (string * jsval)) : Prop :=
  forall k v f, In (k, v) l -> find_field k = Some f -> f_json f = Some k.

(** The value of a field after the file: that of its member, or what it had. *)
Definition field_value (l : list (string * jsval)) (f : sfield) (old : gval) : option gval :=
  match f_json f with
  | None => Some old
  | Some j => match assoc j l with None => Some old | Some v => decode (f_kind f) old (elem_text v) v end
  end.

(** The text of a value matters for numbers only. *)
Lemma decode_text k old raw raw' v : (forall n, v = VNum n -> raw = raw') -> decode k old raw v = decode k old raw' v.
Proof.
  intros H. destruct v as [| |b|n|s|l|l|]; try (destruct k, old; reflexivity). by rewrite (H n eq_refl).
Qed.

Lemma marshal_num ind d n t : jsonable (VNum n) = true -> marshal ind d (VNum n) = Some t -> t = elem_text (VNum n).
Proof.
  cbn [jsonable marshal]. intros (z & Hz & ->)%int_num_inv. unfold elem_text. cbn [stringify].
  destruct (decide (z = 0)) as [-> | Hn]; [intros H; by injection H as <- |].
  rewrite num_of_Z_form by done. intros H. by injection H as <-.
Qed.

Lemma set_members_text set_f (ind : option string) ms l (c : struct) :
  (forall k raw raw' v c', (forall n, v = VNum n -> raw = raw') -> set_f k raw v c' = set_f k raw' v c') ->
  Forall (fun kv => jsonable kv.2 = true) l -> Forall2 (member_read ind) ms l ->
  set_members set_f ms c = set_members set_f (map written l) c.
Proof.
  intros Hset Hj HF. revert c. induction HF as [|[k [t x]] [k' x'] ms l (Hk & Hx & Hm & _) HF IH]; intros c; [done |].
  cbn [fst snd] in *. subst k' x'. apply list.Forall_cons in Hj as [Hjx Hj]. cbn [set_members map written fst snd] in *.
  rewrite (Hset k t (elem_text x) x).
  - destruct (set_f k (elem_text x) x c); [by apply IH | done].
  - intros n ->. by apply (marshal_num ind 1).
Qed.

Lemma set_field_text k raw raw' v c : (forall n, v = VNum n -> raw = raw') -> set_field k raw v c = set_field k raw' v c.
Proof. intros H. unfold set_field. destruct (find_field k) as [f|]; [| done]. by rewrite (decode_text _ _ raw raw'). Qed.

(** A file in the form of the node, perhaps with white space at its end, as
    [Init] decodes it. *)
Lemma unmarshal_written ind l text rest c :
  indent_ok ind -> jsonable (VObj l) = true -> plain (VObj l) = true -> marshal ind 0 (VObj l) = Some text ->
  blank rest -> num_delim rest ->
  parse (text +:+ rest)%string = Ok (VObj l)
  /\ unmarshal_struct set_field c (text +:+ rest)%string = set_members set_field (map written l) c.
Proof.
  intros Hi Hj Hp Ht Hb Hd. destruct (marshal_reads ind _ Hi Hj Hp 0) as (text' & Ht' & Hr). rewrite Ht in Ht'. apply (inj Some) in Ht'. subst text'.
  apply (reads_parse_blank _ _ rest) in Hr; [| done | done]. split; [done |].
  destruct (object_members_marshal ind l text rest Hi Hj Hp Ht) as (ms & Hms & HF). unfold unmarshal_struct. rewrite Hr, Hms. bind_simpl.
  apply (set_members_text set_field ind); [exact set_field_text | | done]. cbn [jsonable] in Hj. apply andb_true_iff in Hj as [_ Hj].
  rewrite forallb_forall in Hj. by apply List.Forall_forall.
Qed.

(** *** The fields *)

#[export] Instance kind_eq_dec : EqDecision kind.
Proof. solve_decision. Defined.
#[export] Instance sfield_eq_dec : EqDecision sfield.
Proof. solve_decision. Defined.

(** A field is found by the name of its member, and has a name of its own. *)
Lemma find_field_self : Forall (fun f => forall j, f_json f = Some j -> find_field j = Some f) Configuration_fields.
Proof.
  assert (forallb (fun f => match f_json f with Some j => bool_decide (find_field j = Some f) | None => true end) Configuration_fields = true) as H
    by (vm_compute; reflexivity).
  rewrite forallb_forall in H. apply List.Forall_forall. intros f Hf j Hj. specialize (H f Hf). rewrite Hj in H. by apply bool_decide_eq_true in H.
Qed.

Lemma field_names_distinct : NoDup (map f_name Configuration_fields).
Proof. apply (bool_decide_eq_true (NoDup (map f_name Configuration_fields))). vm_compute. reflexivity. Qed.

Lemma field_name_inj f g : In f Configuration_fields -> In g Configuration_fields -> f_name f = f_name g -> f = g.
Proof.
  pose proof field_names_distinct as Hnd. intros Hf Hg E. apply list_elem_of_In in Hf, Hg.
  apply list_elem_of_lookup in Hf as [i Hi], Hg as [j Hj].
  assert (i = j) as ->; [| congruence].
  apply (list.NoDup_lookup _ i j (f_name f) Hnd); rewrite list_lookup_fmap; [by rewrite Hi | rewrite Hj; cbn; by rewrite E].
Qed.

Lemma find_field_In k f : find_field k = Some f -> In f Configuration_fields.
Proof. intros [H _]%List.find_some. done. Qed.

Lemma find_field_json k f : find_field k = Some f -> forall g, In g Configuration_fields -> f_json g = Some k -> g = f.
Proof.
  intros Hf g Hg Hj. pose proof find_field_self as H. rewrite List.Forall_forall in H. specialize (H g Hg k Hj). congruence.
Qed.

(** What a struct holds for a field. *)
Definition get (c : struct) (f : sfield) : gval := default (zero_of (f_kind f)) (c !! f_name f).

Lemma set_field_eq k raw v c : set_field k raw v c
  = match find_field k with Some f => x ← decode (f_kind f) (get c f) raw v; Some (<[f_name f := x]> c) | None => Some c end.
Proof. reflexivity. Qed.

Lemma get_insert_ne c f g x : In f Configuration_fields -> In g Configuration_fields -> f <> g -> get (<[f_name g := x]> c) f = get c f.
Proof.
  intros Hf Hg Hne. unfold get. rewrite lookup_insert_ne; [done |]. intros E. by apply Hne, field_name_inj.
Qed.

Lemma field_value_cons k v l f old : f_json f <> Some k -> field_value ((k, v) :: l) f old = field_value l f old.
Proof.
  intros Hj. unfold field_value. destruct (f_json f) as [j|]; [| done]. cbn [assoc].
  destruct (String.eqb_spec j k) as [-> |]; done.
Qed.

Lemma assoc_not_in {V} k (l : list (string * V)) : ~ In k (map fst l) -> assoc k l = None.
Proof.
  induction l as [|[j v] l IH]; cbn; [done |]. intros H. destruct (String.eqb_spec k j) as [-> |]; [tauto |]. apply IH. tauto.
Qed.

(** A file with well-spelled members gives every field its value, and fails
    exactly when some member does not fit its field. *)
Lemma set_members_fields l c : canonical l -> NoDup (map fst l) ->
  match set_members set_field (map written l) c with
  | Some c' => (forall f, In f Configuration_fields -> field_value l f (get c f) = Some (get c' f))
      /\ (forall n, ~ In n (map f_name Configuration_fields) -> c' !! n = c !! n)
      /\ (forall n, is_Some (c !! n) -> is_Some (c' !! n))
  | None => exists f, In f Configuration_fields /\ field_value l f (get c f) = None
  end.
Proof.
  revert c. induction l as [|[k v] l IH]; intros c Hc Hnd.
  { cbn. split_and!; try done. intros f _. unfold field_value. by destruct (f_json f). }
  apply list.NoDup_cons in Hnd as [Hk Hnd]. rewrite list_elem_of_In in Hk. cbn [fst] in Hk.
  assert (canonical l) as Hc' by (intros k' v' f Hin; apply (Hc k' v' f); by right).
  cbn [map set_members written fst snd]. rewrite set_field_eq. destruct (find_field k) as [g|] eqn:Eg.
  - pose proof (find_field_In _ _ Eg) as Hg. pose proof (Hc k v g (or_introl eq_refl) Eg) as Hj.
    assert (forall old, field_value ((k, v) :: l) g old = decode (f_kind g) old (elem_text v) v) as Hv
      by (intros old; unfold field_value; rewrite Hj; cbn [assoc]; by rewrite String.eqb_refl).
    destruct (decode (f_kind g) (get c g) (elem_text v) v) as [x|] eqn:Ed; bind_simpl; [| exists g; by rewrite Hv].
    specialize (IH (<[f_name g := x]> c) Hc' Hnd). destruct (set_members _ _ _) as [c'|].
    + destruct IH as (IH & Hout & Hin). split_and!.
      * intros f Hf. destruct (decide (f = g)) as [-> | Hne].
        -- rewrite Hv, Ed. specialize (IH g Hg). unfold field_value in IH. rewrite Hj, assoc_not_in in IH by done.
           rewrite <- IH. unfold get. by rewrite lookup_insert_eq.
        -- rewrite field_value_cons by (intros E; by apply Hne, (find_field_json k)). rewrite <- (get_insert_ne c f g x) by done. by apply IH.
      * intros n Hn. rewrite Hout, lookup_insert_ne; [done | | done]. intros E. apply Hn. rewrite <- E. by apply in_map.
      * intros n Hn. apply Hin. destruct (decide (n = f_name g)) as [-> |]; [rewrite lookup_insert_eq; by eexists | by rewrite lookup_insert_ne].
    + destruct IH as (f & Hf & IH). exists f. split; [done |]. destruct (decide (f = g)) as [-> | Hne].
      * unfold field_value in IH. rewrite Hj, assoc_not_in in IH by done. done.
      * rewrite field_value_cons by (intros E; by apply Hne, (find_field_json k)). by rewrite <- (get_insert_ne c f g x).
  - bind_simpl. assert (forall f old, In f Configuration_fields -> field_value ((k, v) :: l) f old = field_value l f old) as Hv.
    { intros f old Hf. apply field_value_cons. intros E. pose proof find_field_self as H. rewrite List.Forall_forall in H.
      specialize (H f Hf k E). congruence. }
    specialize (IH c Hc' Hnd). destruct (set_members _ _ _) as [c'|].
    + destruct IH as (IH & Hout & Hin). split_and!; try done. intros f Hf. rewrite Hv by done. by apply IH.
    + destruct IH as (f & Hf & IH). exists f. by rewrite Hv.
Qed.

(** *** Files with the same fields *)

Definition complete (c : struct) : Prop := forall f, In f Configuration_fields -> is_Some (c !! f_name f).

Lemma Parameters_complete : complete Parameters.
Proof.
  intros f Hf. unfold Parameters. apply lookup_union_is_Some. right. unfold zero_struct.
  assert (NoDup (map f_name Configuration_fields)) as Hnd by exact field_names_distinct.
  exists (zero_of (f_kind f)). apply elem_of_list_to_map.
  - by rewrite <- list_fmap_compose.
  - apply list_elem_of_In, in_map_iff. by exists f.
Qed.

Lemma set_members_is l c c2 : canonical l -> NoDup (map fst l) -> complete c -> complete c2 ->
  (forall f, In f Configuration_fields -> field_value l f (get c f) = Some (get c2 f)) ->
  (forall n, ~ In n (map f_name Configuration_fields) -> c2 !! n = c !! n) ->
  set_members set_field (map written l) c = Some c2.
Proof.
  intros Hc Hnd Hcm Hcm2 Hf Hout. pose proof (set_members_fields l c Hc Hnd) as H.
  destruct (set_members set_field (map written l) c) as [c'|].
  - destruct H as (Hf' & Hout' & Hin). f_equal. apply map_eq. intros n.
    destruct (in_dec String.string_dec n (map f_name Configuration_fields)) as [(f & <- & Hin')%in_map_iff | Hn];
      [| by rewrite Hout', Hout].
    destruct (Hcm2 f Hin') as [y Hy], (Hin _ (Hcm f Hin')) as [z Hz].
    pose proof (Hf f Hin') as E1. rewrite (Hf' f Hin') in E1. apply (inj Some) in E1. unfold get in E1. rewrite Hy, Hz in E1. cbn in E1. congruence.
  - destruct H as (f & Hin & H). rewrite Hf in H by done. done.
Qed.

Lemma set_members_keeps l c c' : canonical l -> NoDup (map fst l) -> complete c ->
  set_members set_field (map written l) c = Some c' ->
  complete c' /\ (forall f, In f Configuration_fields -> field_value l f (get c f) = Some (get c' f))
  /\ (forall n, ~ In n (map f_name Configuration_fields) -> c' !! n = c !! n).
Proof.
  intros Hc Hnd Hcm E. pose proof (set_members_fields l c Hc Hnd) as H. rewrite E in H. destruct H as (Hf & Hout & Hin).
  split_and!; try done. intros f Hin'. by apply Hin, Hcm.
Qed.

(** Assigning a member changes its field. *)
Lemma set_members_assign l c c1 g j v x : canonical l -> NoDup (map fst l) -> complete c ->
  In g Configuration_fields -> f_json g = Some j -> decode (f_kind g) (get c g) (elem_text v) v = Some x ->
  set_members set_field (map written l) c = Some c1 ->
  canonical (assoc_set j v l) /\ set_members set_field (map written (assoc_set j v l)) c = Some (<[f_name g := x]> c1).
Proof.
  intros Hc Hnd Hcm Hg Hj Hd E. destruct (set_members_keeps l c c1 Hc Hnd Hcm E) as (Hcm1 & Hf & Hout).
  pose proof find_field_self as Hself. rewrite List.Forall_forall in Hself.
  assert (canonical (assoc_set j v l)) as Hc'.
  { intros k w f Hin Hk. apply (in_map fst) in Hin. cbn in Hin. destruct (assoc_set_keys _ _ _ _ Hin) as [-> | Hin'].
    - rewrite (Hself g Hg j Hj) in Hk. apply (inj Some) in Hk. by subst f.
    - apply in_map_iff in Hin' as ([k' w'] & E' & Hin'). cbn in E'. subst k'. by apply (Hc k w'). }
  split; [done |]. apply set_members_is; [done | by apply assoc_set_NoDup | done | | |].
  - intros f Hin. destruct (decide (f_name f = f_name g)) as [-> | Hne]; [rewrite lookup_insert_eq; by eexists |].
    rewrite lookup_insert_ne by done. by apply Hcm1.
  - intros f Hin. destruct (decide (f = g)) as [-> | Hne].
    + unfold field_value. rewrite Hj, assoc_set_eq, Hd. unfold get. by rewrite lookup_insert_eq.
    + rewrite get_insert_ne by done. rewrite <- Hf by done. unfold field_value. destruct (f_json f) as [i|] eqn:Ei; [| done].
      rewrite assoc_set_ne; [done |]. intros <-. pose proof (Hself f Hin j Ei). pose proof (Hself g Hg j Hj). congruence.
  - intros n Hn. rewrite lookup_insert_ne; [by apply Hout |]. intros <-. apply Hn. by apply in_map.
Qed.

(** The order of the members does not matter, nor that inside the values. *)
Lemma to_text_as_map old v : to_text old (as_map v) = to_text old v.
Proof. by destruct v. Qed.

Lemma to_elements_as_map l : forall old, to_elements old (map as_map l) = to_elements old l.
Proof. induction l as [|v l IH]; intros old; [done |]. cbn [map to_elements]. by rewrite to_text_as_map, IH. Qed.

Lemma decode_as_map k old v : decode k old (elem_text (as_map v)) (as_map v) = decode k old (elem_text v) v.
Proof.
  destruct v as [| |b|n|s|l|l|]; try reflexivity. destruct k, old; try reflexivity. cbn [decode as_map to_strs].
  destruct l as [|v l]; [done |]. change (map as_map (v :: l)) with (as_map v :: map as_map l). cbn [to_strs].
  change (as_map v :: map as_map l) with (map as_map (v :: l)). by rewrite to_elements_as_map, length_map.
Qed.

Lemma set_members_sort l c c1 : canonical l -> NoDup (map fst l) -> complete c ->
  set_members set_field (map written l) c = Some c1 ->
  canonical (sort_members l) /\ set_members set_field (map written (sort_members l)) c = Some c1.
Proof.
  intros Hc Hnd Hcm E. destruct (set_members_keeps l c c1 Hc Hnd Hcm E) as (Hcm1 & Hf & Hout).
  assert (canonical (sort_members l)) as Hc'.
  { intros k w f Hin Hk. pose proof (Permutation_in _ (sort_members_perm l) Hin) as ([k' w'] & [= <- <-] & Hin')%in_map_iff. by apply (Hc k' w'). }
  split; [done |]. apply set_members_is; try done.
  - by rewrite sort_members_perm, map_map.
  - intros f Hin. rewrite <- Hf by done. unfold field_value. destruct (f_json f) as [j|]; [| done]. rewrite assoc_sort.
    destruct (assoc j l); cbn; [apply decode_as_map | done].
Qed.

(** ** Saving and starting again *)

(** The file holds the members [l], in any layout [json.MarshalIndent] gives. *)
Definition file_holds (d : disk) (cf : string) (l : list (string * jsval)) : Prop :=
  exists ind text rest, indent_ok ind /\ marshal ind 0 (VObj l) = Some text /\ blank rest /\ num_delim rest
    /\ d_files d !! GetConfigFile cf = Some (Some (text +:+ rest)%string).

(** Members with integers and ASCII text, spelled as the fields. *)
Definition well_formed (l : list (string * jsval)) : Prop :=
  jsonable (VObj l) = true /\ plain (VObj l) = true /\ canonical l.

Lemma well_formed_NoDup l : well_formed l -> NoDup (map fst l).
Proof. intros (Hj & _). cbn [jsonable] in Hj. apply andb_true_iff in Hj as [Hnd _]. by apply bool_decide_eq_true in Hnd. Qed.

Section Files.
Context (d : disk) (cf : string) (l : list (string * jsval)).
Context (Hfile : file_holds d cf l) (Hl : well_formed l).

Lemma open_file : exists text, OpenConfigFile d cf = Ok text /\ parse text = Ok (VObj l)
  /\ forall c, unmarshal_struct set_field c text = set_members set_field (map written l) c.
Proof.
  destruct Hfile as (ind & text & rest & Hi & Ht & Hb & Hd & Hf), Hl as (Hj & Hp & _). exists (text +:+ rest)%string.
  pose proof (unmarshal_written ind l text rest) as H. unfold OpenConfigFile, ReadFile. rewrite Hf. bind_simpl.
  rewrite (TrimPrefix_object ind l) by done. split_and!; [done | by apply (H Parameters) | intros c; by apply (H c)].
Qed.

(** The dashboard reads the members, [Init] their fields. *)
Lemma file_read : read_map d cf = Ok (Some l).
Proof.
  destruct open_file as (text & Ho & Hp & _). unfold read_map, unmarshal_map. rewrite Ho. bind_simpl. rewrite Hp.
  by rewrite to_interface_id by apply Hl.
Qed.

Lemma file_load : load d cf = lib (set_members set_field (map written l) Parameters).
Proof. destruct open_file as (text & Ho & _ & Hu). unfold load. by rewrite Ho, Hu. Qed.
End Files.

(** A member of the struct, with a value that fits. *)
Definition fits_field (j : string) (v : jsval) (n : string) (x : gval) : Prop :=
  jsonable v = true /\ plain v = true /\ ascii_text j = true
  /\ exists g, In g Configuration_fields /\ f_json g = Some j /\ f_name g = n
      /\ decode (f_kind g) (get Parameters g) (elem_text v) v = Some x.

Lemma assign_field l c j v n x : well_formed l -> fits_field j v n x ->
  set_members set_field (map written l) Parameters = Some c ->
  well_formed (assoc_set j v l) /\ set_members set_field (map written (assoc_set j v l)) Parameters = Some (<[n := x]> c).
Proof.
  intros Hl (Hjv & Hpv & Ha & g & Hg & Hj & <- & Hd) E. pose proof (well_formed_NoDup _ Hl) as Hnd. destruct Hl as (Hjl & Hpl & Hc).
  destruct (set_members_assign l Parameters c g j v x Hc Hnd Parameters_complete Hg Hj Hd E) as [Hc' E'].
  destruct (assoc_set_keeps j v l Hjv Hpv Ha Hjl Hpl) as [Hj' Hp']. split; [by split_and! | done].
Qed.

(** What was saved is what the next start reads. *)
Lemma saved_load d d' cf l c : well_formed l -> set_members set_field (map written l) Parameters = Some c ->
  WriteConfigFile d cf l = Ok d' ->
  file_holds d' cf (sort_members l) /\ well_formed (sort_members l) /\ load d' cf = Ok c
  /\ d_writable d' = d_writable d /\ forall path, path <> GetConfigFile cf -> d_files d' !! path = d_files d !! path.
Proof.
  intros Hl E Hw. pose proof (well_formed_NoDup _ Hl) as Hnd. destruct Hl as (Hj & Hp & Hc).
  destruct (set_members_sort l Parameters c Hc Hnd Parameters_complete E) as [Hc' E']. destruct (as_map_keeps _ Hj Hp) as [Hj' Hp'].
  change (as_map (VObj l)) with (VObj (sort_members l)) in *.
  assert (well_formed (sort_members l)) as Hl' by by split_and!.
  unfold WriteConfigFile in Hw. change (as_map (VObj l)) with (VObj (sort_members l)) in Hw.
  destruct (MarshalIndent (VObj (sort_members l)) "    ") as [text|] eqn:Et; [| done]. cbn [lib] in Hw. bind_simpl.
  cbn [mbind result_bind] in Hw. unfold WriteFile in Hw. destruct (d_writable d (GetConfigFile cf)); [| done]. apply (inj Ok) in Hw. subst d'.
  assert (file_holds {| d_files := <[GetConfigFile cf := Some text]> (d_files d); d_writable := d_writable d |} cf (sort_members l)) as Hf.
  { exists (Some "    "), text, "". split_and!; try done. cbn [d_files]. by rewrite lookup_insert_eq, string_app_nil_r. }
  split_and!; try done; [by rewrite (file_load _ _ _ Hf Hl'), E' |]. intros path Hne. cbn [d_files]. by rewrite lookup_insert_ne.
Qed.

(** ** What [Init] does after the file *)

(** The fields it reads or writes, apart from the beneficiary. *)
Definition used_fields : list string := [
  "LogPath"; "ChainDBPath"; "WalletFile"; "SeedList"; "StunList"; "GenesisBlockProposer"; "Hostname";
  "NodePort"; "HttpWsPort"; "HttpWssPort"; "HttpJsonPort"; "HttpsJsonPort";
  "AllowEmptyBeneficiaryAddress"; "WebGuiListenAddress"; "WebGuiCreateWallet"; "PasswordFile"; "StatePruningMode"; "SyncMode";
  "SyncStateMaxThread"; "SyncHeaderMaxSize"; "SyncHeaderMaxMemorySize"; "SyncBatchWindowSize"; "SyncBlocksMaxMemorySize";
  "SyncBlocksBatchSize"; "TxPoolMaxMemorySize"; "BlockHeaderCacheSize"; "SigChainCacheSize"; "ClientMsgCacheSize";
  "NumTxnPerBlock"; "MaxLogFileSize"; "MaxLogFileTotalSize"; "RecentBlockCount"; "MaxRollbackBlocks"].

Section Unused.
Context {C : StdCrypto} {A : AddressLib}.
Context (n : string) (x : gval) (Hn : ~ In n used_fields).

Lemma used_ne k : In k used_fields -> n <> k.
Proof. by intros Hk ->. Qed.
Ltac used := apply used_ne; cbn; tauto.

Lemma str_field_ne k c : n <> k -> str_field (<[n := x]> c) k = str_field c k.
Proof. intros H. unfold str_field. by rewrite lookup_insert_ne. Qed.
Lemma num_field_ne k c : n <> k -> num_field (<[n := x]> c) k = num_field c k.
Proof. intros H. unfold num_field. by rewrite lookup_insert_ne. Qed.
Lemma strs_field_ne k c : n <> k -> strs_field (<[n := x]> c) k = strs_field c k.
Proof. intros H. unfold strs_field. by rewrite lookup_insert_ne. Qed.

Lemma set_str_ne k s c : n <> k -> set_str k s (<[n := x]> c) = <[n := x]> (set_str k s c).
Proof. intros H. unfold set_str. destruct (String.eqb s ""); [done | by rewrite insert_insert_ne]. Qed.
Lemma set_list_ne k s c : n <> k -> set_list k s (<[n := x]> c) = <[n := x]> (set_list k s c).
Proof. intros H. unfold set_list. destruct (String.eqb s ""); [done | by rewrite insert_insert_ne]. Qed.
Lemma set_bool_ne k b c : n <> k -> set_bool k b (<[n := x]> c) = <[n := x]> (set_bool k b c).
Proof. intros H. unfold set_bool. destruct b; [by rewrite insert_insert_ne | done]. Qed.
Lemma at_least_ne k v c : n <> k -> at_least k v (<[n := x]> c) = <[n := x]> (at_least k v c).
Proof. intros H. unfold at_least. rewrite num_field_ne by done. destruct (_ <? _); [by rewrite insert_insert_ne | done]. Qed.
Lemma fill_ne k v w c : n <> k -> fill k v w (<[n := x]> c) = <[n := x]> (fill k v w c).
Proof. intros H. unfold fill. rewrite num_field_ne by done. destruct (_ =? 0); [by rewrite insert_insert_ne | done]. Qed.
Lemma budget_ne m c k p : n <> k -> budget m (<[n := x]> c) k p = budget m c k p.
Proof. intros H. unfold budget. by rewrite num_field_ne. Qed.

Lemma flags_before_ne fl c : n <> "BeneficiaryAddr" \/ fl_BeneficiaryAddr fl = "" ->
  flags_before_ports fl (<[n := x]> c) = <[n := x]> (flags_before_ports fl c).
Proof.
  intros Hb. unfold flags_before_ports. rewrite !set_str_ne by used.
  assert (forall c', set_str "BeneficiaryAddr" (fl_BeneficiaryAddr fl) (<[n := x]> c') = <[n := x]> (set_str "BeneficiaryAddr" (fl_BeneficiaryAddr fl) c')) as ->
    by (intros c'; destruct Hb as [Hb | ->]; [by apply set_str_ne | done]).
  rewrite !set_list_ne, set_str_ne by used. done.
Qed.

Lemma flags_after_ne fl c : flags_after_ports fl (<[n := x]> c) = <[n := x]> (flags_after_ports fl c).
Proof. unfold flags_after_ports. cbv zeta. rewrite set_bool_ne, set_str_ne, set_bool_ne, !set_str_ne by used. done. Qed.

Lemma add_port_ne delta c k : n <> k -> add_port delta (<[n := x]> c) k = <[n := x]> (add_port delta c k).
Proof. intros H. unfold add_port. rewrite num_field_ne by done. by rewrite insert_insert_ne. Qed.

Lemma incrementPort_ne nw fuel c : incrementPort nw fuel (<[n := x]> c) = insert n x <$> incrementPort nw fuel c.
Proof.
  unfold incrementPort. rewrite !num_field_ne by used. destruct (findMinMaxPort _ _) as [mn mx].
  destruct (find_delta _ _ _ _ _ _) as [[delta|] |]; cbn [mbind option_bind fmap option_fmap option_map]; try done. f_equal.
  cbn [fold_left port_fields]. by rewrite !add_port_ne by used.
Qed.

Lemma fill_batch_ne m c : fill_SyncBatchWindowSize m (<[n := x]> c) = insert n x <$> fill_SyncBatchWindowSize m c.
Proof.
  unfold fill_SyncBatchWindowSize. rewrite !num_field_ne, budget_ne, fill_ne by used.
  destruct (negb _); [done |]. by destruct (_ =? 0).
Qed.

Lemma fill_all_ne m c : fill_all m (<[n := x]> c) = insert n x <$> fill_all m c.
Proof.
  unfold fill_all. cbv zeta.
  assert (fill_SyncHeaderMaxSize m (fill_SyncStateMaxThread m (<[n := x]> c)) = <[n := x]> (fill_SyncHeaderMaxSize m (fill_SyncStateMaxThread m c))) as ->.
  { unfold fill_SyncHeaderMaxSize, fill_SyncStateMaxThread. rewrite fill_ne, budget_ne, fill_ne by used. done. }
  rewrite fill_batch_ne. destruct (fill_SyncBatchWindowSize m _) as [c1 | e]; [| done].
  change (insert n x <$> Ok c1) with (@Ok fault _ (<[n := x]> c1)). bind_simpl. change (insert n x <$> Ok ?y) with (@Ok fault _ (<[n := x]> y)). f_equal.
  unfold fill_TxPoolMaxMemorySize, fill_ClientMsgCacheSize. rewrite fill_ne, !at_least_ne, num_field_ne by used. cbv zeta.
  destruct (_ <=? 0); [by rewrite fill_ne by used | by rewrite insert_insert_ne by (apply not_eq_sym; used)].
Qed.

Lemma verify_ne c : n <> "BeneficiaryAddr" -> verify (<[n := x]> c) = verify c.
Proof. intros Hb. unfold verify. rewrite !str_field_ne, !strs_field_ne, !num_field_ne by (done || used). done. Qed.
End Unused.

Section Started.
Context {C : StdCrypto} {A : AddressLib}.
Context (m : machine) (nw : network) (fuel : nat) (fl : flags).

(** [Init] after the file was read. *)
Definition started (c : struct) : option (go struct) :=
  let c := flags_before_ports fl c in
  c ← (if String.eqb (str_field c "Hostname") "127.0.0.1" then incrementPort nw fuel c else Some c);
  let c := flags_after_ports fl c in
  Some (c ← fill_all m c; _ ← verify c; Ok c).

Lemma Init_started d c : load d (fl_ConfigFile fl) = Ok c -> Init m nw fuel fl d = started c.
Proof. intros H. unfold Init. by rewrite H. Qed.

Lemma Init_Ok d c1 : Init m nw fuel fl d = Some (Ok c1) -> exists c, load d (fl_ConfigFile fl) = Ok c /\ started c = Some (Ok c1).
Proof. unfold Init. destruct (load d _) as [c | e] eqn:E; [| done]. intros H. by exists c. Qed.

(** The struct before it is verified. *)
Lemma started_Ok c c1 : started c = Some (Ok c1) ->
  exists c0, (if String.eqb (str_field (flags_before_ports fl c) "Hostname") "127.0.0.1" then incrementPort nw fuel (flags_before_ports fl c)
              else Some (flags_before_ports fl c)) = Some c0
    /\ fill_all m (flags_after_ports fl c0) = Ok c1 /\ verify c1 = Ok tt.
Proof.
  unfold started. cbv zeta. intros (c0 & E0 & H)%bind_Some. exists c0. split; [done |]. apply (inj Some) in H.
  destruct (fill_all m (flags_after_ports fl c0)) as [c2 | e]; [| done]. cbn [mbind result_bind] in H.
  destruct (verify c2) as [[] | e] eqn:Ev; [| done]. cbn [mbind result_bind] in H. apply (inj Ok) in H. by subst c2.
Qed.

(** Another beneficiary the node can parse is as good. *)
Lemma verify_beneficiary c addr : addr = "" \/ is_Some (ToScriptHash addr) ->
  verify c = Ok tt -> verify (<["BeneficiaryAddr" := GStr addr]> c) = Ok tt.
Proof.
  intros Ha. unfold verify. rewrite !strs_field_ne, !num_field_ne by done.
  assert (forall k, k <> "BeneficiaryAddr" -> str_field (<["BeneficiaryAddr" := GStr addr]> c) k = str_field c k) as Hk by (intros k Hk; by apply str_field_ne, not_eq_sym).
  rewrite (Hk "GenesisBlockProposer"), (Hk "StatePruningMode"), (Hk "SyncMode") by done. replace (str_field (<["BeneficiaryAddr" := GStr addr]> c) "BeneficiaryAddr") with addr by (unfold str_field; by rewrite lookup_insert_eq).
  assert (negb (String.eqb addr "") && negb (bool_decide (is_Some (ToScriptHash addr))) = false) as ->.
  { destruct Ha as [-> | Ha]; [done |]. rewrite (bool_decide_eq_true_2 _ Ha). by rewrite andb_false_r. }
  do 4 (match goal with |- mbind _ ?r = _ -> _ => destruct r as [[] | e]; bind_simpl; [| discriminate] end).
  destruct (hex_decode _) as [pk|]; bind_simpl; [| discriminate].
  do 2 (match goal with |- mbind _ ?r = _ -> _ => destruct r as [[] | e]; bind_simpl; [| discriminate] end).
  change (refuse false ?msg) with (@Ok fault unit tt). by bind_simpl.
Qed.

(** A field that [Init] does not use keeps its value, if [verify] accepts it. *)
Lemma started_insert n x c c1 : ~ In n used_fields -> n <> "BeneficiaryAddr" \/ fl_BeneficiaryAddr fl = "" ->
  started c = Some (Ok c1) -> verify (<[n := x]> c1) = Ok tt -> started (<[n := x]> c) = Some (Ok (<[n := x]> c1)).
Proof.
  intros Hn Hb H Hv. destruct (started_Ok c c1 H) as (c0 & E0 & Ef & _). unfold started. cbv zeta.
  rewrite (flags_before_ne n x Hn) by done. rewrite (str_field_ne n x "Hostname") by (apply (used_ne n Hn); cbn; tauto).
  assert ((if String.eqb (str_field (flags_before_ports fl c) "Hostname") "127.0.0.1" then incrementPort nw fuel (<[n := x]> (flags_before_ports fl c))
           else Some (<[n := x]> (flags_before_ports fl c))) = Some (<[n := x]> c0)) as ->.
  { destruct (String.eqb _ _); [by rewrite (incrementPort_ne n x Hn), E0 | congruence]. }
  bind_simpl. rewrite (flags_after_ne n x Hn), (fill_all_ne n x Hn), Ef.
  change (insert n x <$> Ok c1) with (@Ok fault _ (<[n := x]> c1)). bind_simpl. by rewrite Hv.
Qed.

Lemma started_ne n x c c1 : ~ In n used_fields -> n <> "BeneficiaryAddr" ->
  started c = Some (Ok c1) -> started (<[n := x]> c) = Some (Ok (<[n := x]> c1)).
Proof.
  intros Hn Hb H. destruct (started_Ok c c1 H) as (_ & _ & _ & Hv). apply started_insert; [done | by left | done |]. by rewrite (verify_ne n x Hn).
Qed.

Lemma started_beneficiary addr c c1 : fl_BeneficiaryAddr fl = "" -> addr = "" \/ is_Some (ToScriptHash addr) ->
  started c = Some (Ok c1) -> started (<["BeneficiaryAddr" := GStr addr]> c) = Some (Ok (<["BeneficiaryAddr" := GStr addr]> c1)).
Proof.
  intros Hfl Ha H. destruct (started_Ok c c1 H) as (_ & _ & _ & Hv). apply started_insert; [cbn; intuition done | by right | done |].
  by apply verify_beneficiary.
Qed.
End Started.

(** ** The fields [Init] computes *)

Definition filled_fields : list string := port_fields ++ [
  "SyncStateMaxThread"; "SyncHeaderMaxSize"; "SyncBatchWindowSize"; "TxPoolMaxMemorySize";
  "BlockHeaderCacheSize"; "SigChainCacheSize"; "ClientMsgCacheSize"].

(** The file and the command line. *)
Definition with_flags (fl : flags) (c : struct) : struct := flags_after_ports fl (flags_before_ports fl c).

Section Kept.
Context {C : StdCrypto} {A : AddressLib}.
Context (k : string) (Hk : ~ In k filled_fields).

Lemma filled_ne n : In n filled_fields -> n <> k.
Proof. by intros Hn ->. Qed.
Ltac filled := apply filled_ne; cbn; tauto.

Lemma fill_other n v d c : n <> k -> fill n v d c !! k = c !! k.
Proof. intros H. unfold fill. destruct (_ =? 0); [by rewrite lookup_insert_ne | done]. Qed.
Lemma at_least_other n v c : n <> k -> at_least n v c !! k = c !! k.
Proof. intros H. unfold at_least. destruct (_ <? _); [by rewrite lookup_insert_ne | done]. Qed.
Lemma set_str_other n s c c' : c !! k = c' !! k -> set_str n s c !! k = set_str n s c' !! k.
Proof. intros H. unfold set_str. destruct (String.eqb s ""); [done |]. destruct (decide (n = k)) as [-> |]; [by rewrite !lookup_insert_eq | by rewrite !lookup_insert_ne]. Qed.
Lemma set_bool_other n b c c' : c !! k = c' !! k -> set_bool n b c !! k = set_bool n b c' !! k.
Proof. intros H. unfold set_bool. destruct b; [| done]. destruct (decide (n = k)) as [-> |]; [by rewrite !lookup_insert_eq | by rewrite !lookup_insert_ne]. Qed.

Lemma incrementPort_other nw fuel c c' : incrementPort nw fuel c = Some c' -> c' !! k = c !! k.
Proof.
  unfold incrementPort. destruct (findMinMaxPort _ _) as [mn mx]. intros (delta & _ & [= <-])%bind_Some. destruct delta as [delta|]; [| done].
  cbn [fold_left port_fields]. unfold add_port. by rewrite !lookup_insert_ne by filled.
Qed.

Lemma fill_all_other m c c' : fill_all m c = Ok c' -> c' !! k = c !! k.
Proof.
  unfold fill_all, fill_SyncBatchWindowSize. cbv zeta. set (c1 := fill_SyncHeaderMaxSize m (fill_SyncStateMaxThread m c)).
  assert (c1 !! k = c !! k) as E1 by (unfold c1, fill_SyncHeaderMaxSize, fill_SyncStateMaxThread; by rewrite !fill_other by filled).
  assert (forall c2, c2 !! k = c !! k -> fill_ClientMsgCacheSize m (at_least "SigChainCacheSize" (SigChainSkipMinerBlocks + 64)
    (at_least "BlockHeaderCacheSize" (SigChainSkipMinerBlocks + 64) (at_least "BlockHeaderCacheSize" (SigChainRecentMinerBlocks + 64) (fill_TxPoolMaxMemorySize m c2)))) !! k = c !! k) as Hc.
  { intros c2 E2. unfold fill_ClientMsgCacheSize, fill_TxPoolMaxMemorySize. cbv zeta.
    destruct (_ <=? 0); [rewrite fill_other by filled | rewrite lookup_insert_ne by filled]; by rewrite !at_least_other, fill_other by filled. }
  destruct (negb _); bind_simpl; [intros H; apply (inj Ok) in H; subst c'; by apply Hc |].
  destruct (_ =? 0); bind_simpl; [done |]. intros H. apply (inj Ok) in H. subst c'. apply Hc. by rewrite fill_other by filled.
Qed.

(** Every other field comes from the file and the command line. *)
Lemma started_field m nw fuel fl c c1 : started m nw fuel fl c = Some (Ok c1) -> c1 !! k = with_flags fl c !! k.
Proof.
  intros (c0 & E0 & Ef & _)%started_Ok. rewrite (fill_all_other m _ _ Ef). unfold with_flags, flags_after_ports. cbv zeta.
  assert (c0 !! k = flags_before_ports fl c !! k) as E.
  { destruct (String.eqb _ _); [by apply (incrementPort_other nw fuel) | congruence]. }
  apply set_str_other, set_str_other, set_str_other, set_bool_other, set_str_other, set_bool_other. exact E.
Qed.
End Kept.
