(* ===== verification/NodeState.v ===== *)
(** * The state of the node behind the dashboard (Go)

    config/config.go, dashboard/config/config.go, util/password/password.go and
    [GetWallet] of vault/wallet.go: the parameters, the flags of the service,
    the password and the wallet, and how the node opens its wallet.  Also
    node/node.go, node/remotenode.go and lnode/localnode.go, as far as they
    write what a node says about itself.  The files are on the disk of Vault.v,
    the configuration file as the text Config.v reads and writes. *)

From S2P Require Import Prelude JsNum JsValue Json GoJson GoMarshal Fixed64 CryptoLib Address Server Vault Config.
Local Open Scope Z_scope.

(** ** What a node says about itself *)

(** The objects are those protojson writes of the two messages; [None] stands
    for its error. *)
Record node_info : Type := mk_node_info {
  ni_Node : option (list (string * jsval));
  ni_Id : string;
  ni_NodeData : option (list (string * jsval));
  ni_PublicKey : string;
  ni_syncState : string
}.

Definition assoc_del {B} (k : string) (l : list (string * B)) : list (string * B) :=
  List.filter (fun kv => negb (String.eqb k kv.1)) l.

(** Decoding into a map that holds members already. *)
Definition merge (l out : list (string * jsval)) : list (string * jsval) :=
  fold_left (fun acc kv => assoc_set kv.1 kv.2 acc) l out.

(** node/node.go *)
Definition Node_MarshalJSON (n : node_info) : option (list (string * jsval)) :=
  s ← ni_Node n;
  let out := assoc_del "data" s in
  let out := assoc_set "id" (VStr (hex_encode (ni_Id n))) out in
  s ← ni_NodeData n;
  let out := merge s out in
  let out := assoc_set "publicKey" (VStr (hex_encode (ni_PublicKey n))) out in
  let out := assoc_set "syncState" (VStr (ni_syncState n)) out in
  Some out.

Record remote_node : Type := mk_remote_node {
  rn_Node : node_info;
  rn_height : Z;
  rn_isOutbound : bool;
  rn_roundTripTime : Z;
  rn_connTime : Z
}.

(** node/remotenode.go *)
Definition RemoteNode_MarshalJSON (r : remote_node) : option jsval :=
  out ← Node_MarshalJSON (rn_Node r);
  let out := assoc_set "height" (VInt (rn_height r)) out in
  let out := assoc_set "isOutbound" (VBool (rn_isOutbound r)) out in
  let out := assoc_set "roundTripTime" (VInt (rn_roundTripTime r)) out in
  let out := assoc_set "connTime" (VInt (rn_connTime r)) out in
  Some (VObj out).

(** [ln_debug] is the number of proposals and the time, given when the
    parameter MiningDebug is set. *)
Record local_node : Type := mk_local_node {
  ln_Node : node_info;
  ln_height : Z;
  ln_uptime : Z;
  ln_version : string;
  ln_relayMessageCount : Z;
  ln_debug : option (Z * Z);
  ln_neighbors : list remote_node
}.

(** lnode/localnode.go *)
Definition LocalNode_MarshalJSON (n : local_node) : option (list (string * jsval)) :=
  out ← Node_MarshalJSON (ln_Node n);
  let out := assoc_set "height" (VInt (ln_height n)) out in
  let out := assoc_set "uptime" (VInt (ln_uptime n)) out in
  let out := assoc_set "version" (VStr (ln_version n)) out in
  let out := assoc_set "relayMessageCount" (VInt (ln_relayMessageCount n)) out in
  match ln_debug n with
  | Some (proposals, now) => Some (assoc_set "currTimeStamp" (VInt now) (assoc_set "proposalSubmitted" (VInt proposals) out))
  | None => Some out
  end.

(** lnode/info.go, as [json.Marshal] writes the list. *)
Definition GetNeighborInfo (n : local_node) : option jsval := VArr <$> mapM RemoteNode_MarshalJSON (ln_neighbors n).

(** ** Parameters, flags and state *)

(** The parameters the dashboard reads and writes. *)
Record Configuration : Type := mk_Configuration {
  p_BeneficiaryAddr : string;
  p_RegisterIDTxnFee : Z;
  p_NumLowFeeTxnPerBlock : Z;
  p_LowFeeTxnSizePerBlock : Z;
  p_LowTxnFee : Z;
  p_LowTxnFeePerSize : num;
  p_WebGuiCreateWallet : bool;
  p_AllowEmptyBeneficiaryAddress : bool;
  p_WalletFile : string;
  p_PasswordFile : string
}.

Definition parameters_of (c : struct) : Configuration := {|
  p_BeneficiaryAddr := str_field c "BeneficiaryAddr";
  p_RegisterIDTxnFee := num_field c "RegisterIDTxnFee";
  p_NumLowFeeTxnPerBlock := num_field c "NumLowFeeTxnPerBlock";
  p_LowFeeTxnSizePerBlock := num_field c "LowFeeTxnSizePerBlock";
  p_LowTxnFee := num_field c "LowTxnFee";
  p_LowTxnFeePerSize := float_field c "LowTxnFeePerSize";
  p_WebGuiCreateWallet := bool_field c "WebGuiCreateWallet";
  p_AllowEmptyBeneficiaryAddress := bool_field c "AllowEmptyBeneficiaryAddress";
  p_WalletFile := str_field c "WalletFile";
  p_PasswordFile := str_field c "PasswordFile"
|}.

(** dashboard/config/config.go *)
Module Flags.
Definition SERVICE_STATUS_DEFAULT : Z := 0.
Definition SERVICE_STATUS_NO_BENEFICIARY : Z := Z.shiftl 1 0.
Definition SERVICE_STATUS_NO_WALLET_FILE : Z := Z.shiftl 1 1.
Definition SERVICE_STATUS_NO_PASSWORD : Z := Z.shiftl 1 2.
Definition SERVICE_STATUS_CREATE_ID : Z := Z.shiftl 1 3.
Definition SERVICE_STATUS_RUNNING : Z := Z.shiftl 1 4.
End Flags.

(** [n_wallet] and [n_localNode] are the pointers of dashboard/service.go, nil
    before they are initialised; [n_ConfigFile] is the flag that names the
    configuration file; [n_terminal] what a user types when asked for the
    password; [n_ledger] the balances, once the ledger exists. *)
Record server : Type := mk_server {
  n_Status : Z;
  n_localNode : option local_node;
  n_wallet : option Wallet;
  n_id : option string;
  n_Parameters : Configuration;
  n_ConfigFile : string;
  n_disk : disk;
  n_Passwd : string;
  n_env : string;
  n_terminal : option string;
  n_ledger : option (string -> Z)
}.

Section Setters.
Context (s : server).
Definition set_Status (x : Z) : server := mk_server x (n_localNode s) (n_wallet s) (n_id s) (n_Parameters s) (n_ConfigFile s) (n_disk s) (n_Passwd s) (n_env s) (n_terminal s) (n_ledger s).
Definition set_config (p : Configuration) (d : disk) : server := mk_server (n_Status s) (n_localNode s) (n_wallet s) (n_id s) p (n_ConfigFile s) d (n_Passwd s) (n_env s) (n_terminal s) (n_ledger s).
Definition set_disk (d : disk) : server := mk_server (n_Status s) (n_localNode s) (n_wallet s) (n_id s) (n_Parameters s) (n_ConfigFile s) d (n_Passwd s) (n_env s) (n_terminal s) (n_ledger s).
Definition set_Passwd (p : string) : server := mk_server (n_Status s) (n_localNode s) (n_wallet s) (n_id s) (n_Parameters s) (n_ConfigFile s) (n_disk s) p (n_env s) (n_terminal s) (n_ledger s).
(** [dashboard.Init]: what is nil is left as it is. *)
Definition Init (ln : option local_node) (w : option Wallet) (d : string) : server :=
  mk_server (n_Status s) (match ln with Some _ => ln | None => n_localNode s end)
    (match w with Some _ => w | None => n_wallet s end) (if String.eqb d "" then n_id s else Some d)
    (n_Parameters s) (n_ConfigFile s) (n_disk s) (n_Passwd s) (n_env s) (n_terminal s) (n_ledger s).
End Setters.

(** The password hash of the wallet the routes check against. *)
Definition wallet_hash (s : server) : option string := w_PasswordHash <$> n_wallet s.

(** A flag of the service is set; [Status | b] and [Status &^ b]. *)
Definition has (b x : Z) : bool := negb (Z.land x b =? 0).
Definition raise_flag (b : Z) (s : server) : server := set_Status s (Z.lor (n_Status s) b).
Definition clear_flag (b : Z) (s : server) : server := set_Status s (Z.ldiff (n_Status s) b).

(** ** util/password/password.go *)

Definition is_crlf (c : ascii) : bool := (code c =? 13) || (code c =? 10).
Fixpoint trim_left (s : string) : string :=
  match s with String c r => if is_crlf c then trim_left r else s | EmptyString => s end.
Fixpoint trim_right (s : string) : string :=
  match s with
  | String c r => match trim_right r with EmptyString => if is_crlf c then "" else String c "" | r' => String c r' end
  | EmptyString => EmptyString
  end.
(** [strings.Trim(s, "\r\n")] *)
Definition Trim (s : string) : string := trim_right (trim_left s).

Definition ReadPasswordFile (s : server) : go string :=
  file ← ReadFile (n_disk s) (p_PasswordFile (n_Parameters s)); Ok (TrimPrefix file bom).

(** The assignments to [Passwd] are part of the state; the terminal is asked
    only where the wallet is not managed by the dashboard. *)
Definition GetAccountPassword (s : server) : server * go string :=
  let p := n_Parameters s in
  let s1 := if String.eqb (n_Passwd s) "" && negb (String.eqb (p_PasswordFile p) "")
            then set_Passwd s (Trim (default "" (result_to_option (ReadPasswordFile s)))) else s in
  if String.eqb (n_Passwd s) "" && negb (String.eqb (p_PasswordFile p) "") && negb (String.eqb (n_Passwd s1) "")
  then (s1, Ok (n_Passwd s1))
  else
    let s2 := if String.eqb (n_Passwd s1) "" then set_Passwd s1 (n_env s1) else s1 in
    if negb (p_WebGuiCreateWallet p) && String.eqb (n_Passwd s2) "" then (s2, lib (n_terminal s2))
    else if String.eqb (n_Passwd s2) "" then (s2, Err (Fault "wait for set password"))
    else (s2, Ok (n_Passwd s2)).

Definition SavePassword (pwd : string) (s : server) : server * go unit :=
  let p := n_Parameters s in
  if negb (String.eqb pwd "") && negb (String.eqb (p_PasswordFile p) "") && p_WebGuiCreateWallet p then
    if FileExisted (n_disk s) (p_PasswordFile p) then (s, Err (Fault "wallet password file exists"))
    else match WriteFile (n_disk s) (p_PasswordFile p) pwd with
         | Ok d => (set_disk s d, Ok tt)
         | Err e => (s, Err e)
         end
  else (s, Ok tt).

(** ** [GetWallet] of vault/wallet.go *)

Section GetWallet.
Context {C : StdCrypto} {A : AddressLib} {V : VaultLib}.
Import Flags.

Definition GetWallet (getPassword : server -> server * go string) (s : server) : server * go Wallet :=
  let p := n_Parameters s in
  if negb (FileExisted (n_disk s) (p_WalletFile p))
  then (raise_flag SERVICE_STATUS_NO_WALLET_FILE s, Err (Fault "wallet file does not exist"))
  else
    let s := clear_flag SERVICE_STATUS_NO_WALLET_FILE s in
    match getPassword s with
    | (s, Err e) => (raise_flag SERVICE_STATUS_NO_PASSWORD s, Err e)
    | (s, Ok passwd) =>
        let s := clear_flag SERVICE_STATUS_NO_PASSWORD s in
        let p := n_Parameters s in
        if has SERVICE_STATUS_NO_WALLET_FILE (n_Status s) && negb (p_AllowEmptyBeneficiaryAddress p)
           && String.eqb (p_BeneficiaryAddr p) ""
        then (raise_flag SERVICE_STATUS_NO_BENEFICIARY s, Err (Fault "wait for set beneficiary address"))
        else
          let s := clear_flag SERVICE_STATUS_NO_BENEFICIARY s in
          match OpenWallet (n_disk s) (p_WalletFile p) passwd with
          | Err Panic => (s, Err Panic)
          | Err e => (raise_flag SERVICE_STATUS_NO_PASSWORD s, Err e)
          | Ok w => (raise_flag SERVICE_STATUS_RUNNING (clear_flag SERVICE_STATUS_NO_PASSWORD s), Ok w)
          end
    end.

(** A round of the loop in which [nknMain] (cmd/nknd/commands/root.go) waits
    for the wallet; a panic ends the process. *)
Definition wallet_round (s : server) : server * go (option Wallet) :=
  match GetWallet GetAccountPassword s with
  | (s, Err Panic) => (s, Err Panic)
  | (s, Err _) => (s, Ok None)
  | (s, Ok wallet) => (s, Ok (match GetDefaultAccount wallet with Ok _ => Some wallet | Err _ => None end))
  end.
End GetWallet.

(** ** Flags *)

Definition flag_at (i : Z) (s : server) : bool := Z.testbit (n_Status s) i.

Lemma has_bit_at i x : 0 <= i -> has (Z.shiftl 1 i) x = Z.testbit x i.
Proof.
  intros Hi. unfold has. rewrite Z.shiftl_1_l. destruct (Z.testbit x i) eqn:E.
  - apply negb_true_iff, Z.eqb_neq. intros H. apply (f_equal (fun y => Z.testbit y i)) in H.
    rewrite Z.land_spec, Z.pow2_bits_true, E, Z.bits_0 in H by done. done.
  - apply negb_false_iff, Z.eqb_eq, Z.bits_inj'. intros j Hj. rewrite Z.land_spec, Z.bits_0, Z.pow2_bits_eqb by done.
    destruct (Z.eqb_spec i j) as [<- |]; [by rewrite E | apply andb_false_r].
Qed.

Lemma flag_raise i j s : 0 <= i -> 0 <= j -> flag_at i (raise_flag (Z.shiftl 1 j) s) = (j =? i) || flag_at i s.
Proof.
  intros Hi Hj. unfold flag_at, raise_flag. cbn [n_Status set_Status].
  by rewrite Z.lor_spec, Z.shiftl_1_l, Z.pow2_bits_eqb, orb_comm by done.
Qed.

Lemma flag_clear i j s : 0 <= i -> 0 <= j -> flag_at i (clear_flag (Z.shiftl 1 j) s) = negb (j =? i) && flag_at i s.
Proof.
  intros Hi Hj. unfold flag_at, clear_flag. cbn [n_Status set_Status].
  by rewrite Z.ldiff_spec, Z.shiftl_1_l, Z.pow2_bits_eqb, andb_comm by done.
Qed.

(** Reading the password does not look at the flags. *)
Lemma GetAccountPassword_Status s x :
  GetAccountPassword (set_Status s x) = (set_Status (GetAccountPassword s).1 x, (GetAccountPassword s).2).
Proof.
  unfold GetAccountPassword, ReadPasswordFile, set_Passwd, set_Status. cbn.
  repeat (case_match; cbn in *; try done).
Qed.

Section Polling.
Context {C : StdCrypto} {A : AddressLib} {V : VaultLib}.
Import Flags.

(** The password the node would open its wallet with. *)
Definition account_password (s : server) : go string := (GetAccountPassword s).2.

Lemma GetAccountPassword_disk s : n_disk (GetAccountPassword s).1 = n_disk s /\ n_Parameters (GetAccountPassword s).1 = n_Parameters s.
Proof.
  unfold GetAccountPassword, set_Passwd. cbn. repeat (case_match; cbn in *; try done).
Qed.

(** The state after the password was read and the flags were cleared. *)
Definition cleared (s : server) : server :=
  clear_flag SERVICE_STATUS_NO_BENEFICIARY (clear_flag SERVICE_STATUS_NO_PASSWORD
    (set_Status (GetAccountPassword s).1 (Z.ldiff (n_Status s) SERVICE_STATUS_NO_WALLET_FILE))).

Lemma flag_cleared i s : 0 <= i -> flag_at i (cleared s) = negb (0 =? i) && negb (2 =? i) && negb (1 =? i) && flag_at i s.
Proof.
  intros Hi. unfold cleared, SERVICE_STATUS_NO_BENEFICIARY, SERVICE_STATUS_NO_PASSWORD. rewrite !flag_clear by lia.
  change (flag_at i (set_Status _ (Z.ldiff (n_Status s) ?b))) with (flag_at i (clear_flag b s)).
  unfold SERVICE_STATUS_NO_WALLET_FILE. rewrite flag_clear by lia. by rewrite !andb_assoc.
Qed.

(** The branch that waits for a beneficiary is never taken: it asks for a flag
    that has just been cleared. *)
Lemma GetWallet_eq s : GetWallet GetAccountPassword s =
  if negb (FileExisted (n_disk s) (p_WalletFile (n_Parameters s)))
  then (raise_flag SERVICE_STATUS_NO_WALLET_FILE s, Err (Fault "wallet file does not exist"))
  else match account_password s with
       | Err e => (raise_flag SERVICE_STATUS_NO_PASSWORD
                     (set_Status (GetAccountPassword s).1 (Z.ldiff (n_Status s) SERVICE_STATUS_NO_WALLET_FILE)), Err e)
       | Ok pw =>
           match OpenWallet (n_disk s) (p_WalletFile (n_Parameters s)) pw with
           | Err Panic => (cleared s, Err Panic)
           | Err e => (raise_flag SERVICE_STATUS_NO_PASSWORD (cleared s), Err e)
           | Ok w => (raise_flag SERVICE_STATUS_RUNNING (clear_flag SERVICE_STATUS_NO_PASSWORD (cleared s)), Ok w)
           end
       end.
Proof.
  unfold GetWallet, account_password. destruct (FileExisted _ _); [cbn [negb] | done].
  unfold clear_flag at 1. rewrite GetAccountPassword_Status. unfold cleared.
  destruct (GetAccountPassword_disk s) as [Hd Hp]. destruct (GetAccountPassword s) as [sp [pw | e]]; cbn [fst snd] in *; [| done].
  set (s2 := clear_flag SERVICE_STATUS_NO_PASSWORD _).
  assert (has SERVICE_STATUS_NO_WALLET_FILE (n_Status s2) = false) as ->.
  { unfold SERVICE_STATUS_NO_WALLET_FILE. rewrite has_bit_at by lia. change (flag_at 1 s2 = false). unfold s2, SERVICE_STATUS_NO_PASSWORD.
    rewrite flag_clear by lia. change (flag_at 1 (set_Status _ (Z.ldiff (n_Status s) ?b))) with (flag_at 1 (clear_flag b s)).
    unfold SERVICE_STATUS_NO_WALLET_FILE. by rewrite flag_clear by lia. }
  cbn [andb]. change (n_disk (clear_flag _ s2)) with (n_disk sp). change (n_Parameters s2) with (n_Parameters sp). by rewrite Hd, Hp.
Qed.

(** C27: What a round of opening the wallet does on each of its paths: the flag of
    the missing file says whether there is one; with a file, the flag of the
    missing password is set exactly on an error, and the service is running
    exactly after a wallet was opened with the password of the node.  No path
    sets the flag of the missing beneficiary. *)
Theorem wallet_polled s :
  let '(s', r) := GetWallet GetAccountPassword s in
  let exists_file := FileExisted (n_disk s) (p_WalletFile (n_Parameters s)) in
  flag_at 1 s' = negb exists_file
  /\ (flag_at 0 s' = true -> flag_at 0 s = true)
  /\ n_disk s' = n_disk s /\ n_Parameters s' = n_Parameters s
  /\ match r with
     | Ok w => flag_at 0 s' = false /\ flag_at 2 s' = false /\ flag_at 4 s' = true
         /\ exists pw, account_password s = Ok pw /\ OpenWallet (n_disk s) (p_WalletFile (n_Parameters s)) pw = Ok w
     | Err Panic => exists_file = true /\ flag_at 4 s' = flag_at 4 s
     | Err _ => flag_at 2 s' = exists_file || flag_at 2 s /\ flag_at 4 s' = flag_at 4 s
     end.
Proof.
  rewrite GetWallet_eq. unfold SERVICE_STATUS_NO_WALLET_FILE, SERVICE_STATUS_NO_PASSWORD, SERVICE_STATUS_RUNNING.
  destruct (GetAccountPassword_disk s) as [Hd Hp].
  destruct (FileExisted (n_disk s) (p_WalletFile (n_Parameters s))); cbn [negb orb].
  2: { rewrite !flag_raise by lia. cbn. by destruct (flag_at 0 s). }
  destruct (account_password s) as [pw | e] eqn:Ea.
  2: { rewrite !flag_raise by lia. change (flag_at ?i (set_Status _ (Z.ldiff (n_Status s) ?b))) with (flag_at i (clear_flag b s)).
       rewrite !flag_clear by lia. cbn. by destruct e. }
  destruct (OpenWallet (n_disk s) (p_WalletFile (n_Parameters s)) pw) as [w | [m | |]] eqn:Eo;
    rewrite ?flag_raise, ?flag_clear, ?flag_cleared by lia; cbn; rewrite ?Hd, ?Hp; split_and!; try done. by exists pw.
Qed.

(** ** The password of the dashboard *)

(** A password that was given is the one the wallet is opened with. *)
Lemma GetAccountPassword_given s : n_Passwd s <> "" -> GetAccountPassword s = (s, Ok (n_Passwd s)).
Proof.
  intros Hne. apply String.eqb_neq in Hne. unfold GetAccountPassword. rewrite Hne. cbn [andb negb]. rewrite !Hne, andb_false_r. done.
Qed.

(** Saving the password leaves the files there are. *)
Lemma SavePassword_keeps pw s path : FileExisted (n_disk s) path = true ->
  exists d, (SavePassword pw s).1 = set_disk s d /\ d_files d !! path = d_files (n_disk s) !! path.
Proof.
  intros Hex. assert (s = set_disk s (n_disk s)) as Hid by by destruct s.
  unfold SavePassword. destruct (_ && _); [| by exists (n_disk s)].
  destruct (FileExisted (n_disk s) (p_PasswordFile (n_Parameters s))) eqn:Ep; [by exists (n_disk s) |].
  unfold WriteFile. destruct (d_writable _ _); [| by exists (n_disk s)]. eexists. split; [done |]. cbn [d_files].
  apply lookup_insert_ne. intros E. subst path. congruence.
Qed.

(** With the right password the next round opens the wallet. *)
Lemma wallet_round_opens s w : n_Passwd s <> "" ->
  OpenWallet (n_disk s) (p_WalletFile (n_Parameters s)) (n_Passwd s) = Ok w ->
  exists s', wallet_round s = (s', Ok (Some w)) /\ GetWallet GetAccountPassword s = (s', Ok w)
    /\ n_Passwd s' = n_Passwd s /\ n_disk s' = n_disk s /\ n_Parameters s' = n_Parameters s /\ n_wallet s' = n_wallet s
    /\ flag_at 0 s' = false /\ flag_at 1 s' = false /\ flag_at 2 s' = false /\ flag_at 4 s' = true.
Proof.
  intros Hp Ho. destruct (OpenWallet_account _ _ _ _ Ho) as (Hex & _ & a & Ha).
  unfold wallet_round. rewrite GetWallet_eq, Hex. cbn [negb]. unfold account_password. rewrite GetAccountPassword_given by done.
  cbn [snd]. rewrite Ho, Ha. eexists. split_and!; try done; try (unfold cleared; by rewrite GetAccountPassword_given);
    unfold SERVICE_STATUS_RUNNING, SERVICE_STATUS_NO_PASSWORD; rewrite flag_raise, flag_clear, flag_cleared by lia; done.
Qed.
End Polling.
