(* ===== verification/Routes.v ===== *)
(** * The routes of the node's dashboard (Go)

    dashboard/service.go, dashboard/routes and dashboard/auth/unixRange.go: the
    token and the sessions that carry it, the clock check, every route of the
    API and how a request reaches it.  A handler returns the state and what it
    answers: a body with status 200, or the status it aborts with; once gin has
    written a status a later abort does not change it, and a panic is answered
    with 500.  Bodies of requests are JSON, as the browser sends them.  The files
    of the web application under /web are served by gin, which also redirects a
    path with a slash too many; neither is modelled. *)

From S2P Require Import Prelude JsNum JsValue Json GoJson GoMarshal Fixed64 CryptoLib Address Server Vault Config NodeState.
Local Open Scope Z_scope.

(** ** The token and the sessions *)

Definition TokenExpSec : Z := 60.

(** The age in seconds up to which a browser sends a session cookie. *)
Definition MaxAge : Z := 60.

Record tokens : Type := mk_tokens {
  Token : string;
  TokenExp : Z
}.

Definition tokens_init : tokens := {| Token := ""; TokenExp := 0 |}.

(** A session: its token, and when the cookie was saved. *)
Abbreviation session := (string * Z)%type.

(** The middleware, for a request at second [now]; [uuid] is the new token, if
    one is made. *)
Definition token_middleware (uuid : string) (now : Z) (g : tokens) (s : option session) : tokens * session :=
  let rotate := (TokenExp g =? 0) || (TokenExp g + TokenExpSec <? now) in
  let g' := if rotate then {| Token := uuid; TokenExp := now + TokenExpSec |} else g in
  let s' := if rotate then Some (uuid, now) else s in
  (g', match s' with Some x => x | None => (Token g', now) end).

(** The server and the cookies of its clients. *)
Record visits : Type := mk_visits {
  v_tokens : tokens;
  v_jar : gmap nat session
}.

Definition visits_init : visits := {| v_tokens := tokens_init; v_jar := ∅ |}.

(** The cookie a browser still sends: it drops one that is too old. *)
Definition sent (now : Z) (s : option session) : option session :=
  match s with Some (t, saved) => if now - saved <=? MaxAge then Some (t, saved) else None | None => None end.

(** A request of client [c] at second [now]. *)
Definition visit (v : visits) (e : nat * Z * string) : visits :=
  let '(c, now, uuid) := e in
  let '(g, s) := token_middleware uuid now (v_tokens v) (sent now (v_jar v !! c)) in
  {| v_tokens := g; v_jar := <[c := s]> (v_jar v) |}.

(** The token of the session of a client. *)
Definition session_token (c : nat) (v : visits) : option string := fst <$> v_jar v !! c.

(** ** The clock check: dashboard/auth/unixRange.go *)

(** A header that is no number is answered 500; the function goes on, but the
    chain has been aborted and the status written. *)
Definition UnixRangeAuth (unix : string) (now : Z) : result Z unit :=
  if String.eqb unix "" then Err 400
  else match ParseInt unix with
       | None => Err 500
       | Some tick => if verifyUnix now tick then Ok tt else Err 400
       end.

(** ** dashboard/routes/common/sync.go *)

Definition sync_unix (now : Z) : jsval := VObj [("unix", VInt now)].

Definition sync_token (g : tokens) (now : Z) : jsval := VObj [("token", VStr (Token g)); ("unix", VInt now)].

Definition sync_status (s : server) : jsval := VObj [
  ("isNodeInit", VBool (match n_localNode s with Some _ => true | None => false end));
  ("isWalletInit", VBool (match n_wallet s with Some _ => true | None => false end));
  ("status", VInt (n_Status s));
  ("beneficiaryAddr", VStr (p_BeneficiaryAddr (n_Parameters s)));
  ("webGuiCreateWallet", VBool (p_WebGuiCreateWallet (n_Parameters s)));
  ("allowEmptyBeneficiaryAddress", VBool (p_AllowEmptyBeneficiaryAddress (n_Parameters s)))
].

(** ** Answers *)

(** What a handler answers: a body with status 200, or the status it aborts
    with. *)
Abbreviation reply := (result Z string).

(** [context.JSON(http.StatusOK, "")] *)
Definition empty_json : string := go_quoted "".

(** [context.JSON(http.StatusOK, v)] *)
Definition json_reply (v : jsval) : string := default "" (Marshal (as_map v)).

(** ** dashboard/routes/node/config.go *)

Module NodeConfig.
Record SetConfigData : Type := mk {
  RegisterIDTxnFee : Z;
  NumLowFeeTxnPerBlock : Z;
  LowFeeTxnSizePerBlock : Z;
  LowTxnFee : Z;
  LowTxnFeePerSize : num
}.

Definition zero : SetConfigData := mk 0 0 0 0 (num_of_Z 0).

Definition set (key raw : string) (v : jsval) (d : SetConfigData) : option SetConfigData :=
  if names "RegisterIDTxnFee" key then
    x ← to_int64 (RegisterIDTxnFee d) raw v;
    Some (mk x (NumLowFeeTxnPerBlock d) (LowFeeTxnSizePerBlock d) (LowTxnFee d) (LowTxnFeePerSize d))
  else if names "NumLowFeeTxnPerBlock" key then
    x ← to_uint32 (NumLowFeeTxnPerBlock d) raw v;
    Some (mk (RegisterIDTxnFee d) x (LowFeeTxnSizePerBlock d) (LowTxnFee d) (LowTxnFeePerSize d))
  else if names "LowFeeTxnSizePerBlock" key then
    x ← to_uint32 (LowFeeTxnSizePerBlock d) raw v;
    Some (mk (RegisterIDTxnFee d) (NumLowFeeTxnPerBlock d) x (LowTxnFee d) (LowTxnFeePerSize d))
  else if names "LowTxnFee" key then
    x ← to_int64 (LowTxnFee d) raw v;
    Some (mk (RegisterIDTxnFee d) (NumLowFeeTxnPerBlock d) (LowFeeTxnSizePerBlock d) x (LowTxnFeePerSize d))
  else if names "LowTxnFeePerSize" key then
    x ← to_float64 (LowTxnFeePerSize d) v;
    Some (mk (RegisterIDTxnFee d) (NumLowFeeTxnPerBlock d) (LowFeeTxnSizePerBlock d) (LowTxnFee d) x)
  else Some d.

Definition unmarshal (text : string) : option SetConfigData := unmarshal_struct set zero text.

Definition file_with (d : SetConfigData) (l : list (string * jsval)) : list (string * jsval) :=
  assoc_set "LowTxnFeePerSize" (VNum (LowTxnFeePerSize d))
  (assoc_set "LowTxnFee" (VInt (LowTxnFee d))
  (assoc_set "LowFeeTxnSizePerBlock" (VInt (LowFeeTxnSizePerBlock d))
  (assoc_set "NumLowFeeTxnPerBlock" (VInt (NumLowFeeTxnPerBlock d))
  (assoc_set "RegisterIDTxnFee" (VInt (RegisterIDTxnFee d)) l)))).

Definition with_settings (d : SetConfigData) (p : Configuration) : Configuration := {|
  p_BeneficiaryAddr := p_BeneficiaryAddr p; p_RegisterIDTxnFee := RegisterIDTxnFee d;
  p_NumLowFeeTxnPerBlock := NumLowFeeTxnPerBlock d; p_LowFeeTxnSizePerBlock := LowFeeTxnSizePerBlock d;
  p_LowTxnFee := LowTxnFee d; p_LowTxnFeePerSize := LowTxnFeePerSize d;
  p_WebGuiCreateWallet := p_WebGuiCreateWallet p;
  p_AllowEmptyBeneficiaryAddress := p_AllowEmptyBeneficiaryAddress p;
  p_WalletFile := p_WalletFile p; p_PasswordFile := p_PasswordFile p
|}.

(** The handler after the body was decrypted.  Assigning to the nil map of a
    file that holds [null] panics, which gin answers with 500. *)
Definition store (text : string) (s : server) : server * reply :=
  match unmarshal text with
  | None => (s, Err 400)
  | Some d =>
      match read_map (n_disk s) (n_ConfigFile s) with
      | Ok (Some configuration) =>
          match WriteConfigFile (n_disk s) (n_ConfigFile s) (file_with d configuration) with
          | Ok disk => (set_config s (with_settings d (n_Parameters s)) disk, Ok empty_json)
          | Err _ => (s, Err 500)
          end
      | _ => (s, Err 500)
      end
  end.
End NodeConfig.

(** ** Bodies *)

(** [ShouldBind] of a JSON body: the first value of the text, a member named
    data. *)
Definition set_body (key raw : string) (v : jsval) (d : string) : option string :=
  if names "Data" key then to_text d v else Some d.
Definition bind_body (text : string) : option string :=
  match read_value (S (String.length text)) text with
  | Some (VObj _, _) => l ← object_members text; set_members set_body l ""
  | Some (VNull, _) => Some ""
  | _ => None
  end.

(** The structs of the other routes. *)
Definition set_beneficiary_data (key raw : string) (v : jsval) (d : string) : option string :=
  if names "BeneficiaryAddr" key then to_text d v else Some d.
Definition set_open_data (key raw : string) (v : jsval) (d : string) : option string :=
  if names "Password" key then to_text d v else Some d.
Definition set_create_data (key raw : string) (v : jsval) (d : string * string) : option (string * string) :=
  if names "Password" key then x ← to_text d.1 v; Some (x, d.2)
  else if names "BeneficiaryAddr" key then x ← to_text d.2 v; Some (d.1, x)
  else Some d.

Section Routes.
Context {C : StdCrypto} {A : AddressLib} {V : VaultLib}.

(** [DecryptData] of a request. *)
Definition decrypt_body (s : server) (hasSeed : bool) (tok text : string) (now : Z) : reply :=
  match bind_body text with
  | None => Err 400
  | Some data => DecryptData (wallet_hash s) hasSeed (Some tok) data now
  end.

(** [EncryptData] of a value, and the object that carries it. *)
Definition encrypt_json (s : server) (tok : string) (v : jsval) (now : Z) : string :=
  match Marshal (as_map v) with
  | Some buf => EncryptData (wallet_hash s) true tok buf now
  | None => ""
  end.
Definition data_reply (data : string) : string := json_reply (VObj [("data", VStr data)]).

(** ** config/config.go *)

Definition with_beneficiary (addr : string) (p : Configuration) : Configuration := {|
  p_BeneficiaryAddr := addr; p_RegisterIDTxnFee := p_RegisterIDTxnFee p;
  p_NumLowFeeTxnPerBlock := p_NumLowFeeTxnPerBlock p; p_LowFeeTxnSizePerBlock := p_LowFeeTxnSizePerBlock p;
  p_LowTxnFee := p_LowTxnFee p; p_LowTxnFeePerSize := p_LowTxnFeePerSize p;
  p_WebGuiCreateWallet := p_WebGuiCreateWallet p;
  p_AllowEmptyBeneficiaryAddress := p_AllowEmptyBeneficiaryAddress p;
  p_WalletFile := p_WalletFile p; p_PasswordFile := p_PasswordFile p
|}.

Definition SetBeneficiaryAddr (addr : string) (allowEmpty : bool) (s : server) : server * go unit :=
  if negb allowEmpty && String.eqb addr "" then (s, Err (Fault "beneficiary address is empty"))
  else if negb (String.eqb addr "") && negb (bool_decide (is_Some (ToScriptHash addr)))
  then (s, Err (Fault "parse BeneficiaryAddr error"))
  else match read_map (n_disk s) (n_ConfigFile s) with
       | Ok (Some configuration) =>
           match WriteConfigFile (n_disk s) (n_ConfigFile s) (assoc_set "BeneficiaryAddr" (VStr addr) configuration) with
           | Ok disk => (set_config s (with_beneficiary addr (n_Parameters s)) disk, Ok tt)
           | Err e => (s, Err e)
           end
       | Ok None => (s, Err Panic)
       | Err e => (s, Err e)
       end.

(** The status of an aborted handler. *)
Definition fault_code (e : fault) (code : Z) : Z := match e with Panic => 500 | _ => code end.

(** ** dashboard/routes/node *)

(** PUT /api/node/config *)
Definition put_node_config (auth text tok : string) (now : Z) (s : server) : server * reply :=
  match WalletAuth auth (wallet_hash s) (Some tok) now with
  | Err c => (s, Err c)
  | Ok _ =>
      match decrypt_body s true tok text now with
      | Err c => (s, Err c)
      | Ok bodyData => NodeConfig.store bodyData s
      end
  end.

(** PUT /api/node/beneficiary *)
Definition put_node_beneficiary (auth text tok : string) (now : Z) (s : server) : server * reply :=
  match WalletAuth auth (wallet_hash s) (Some tok) now with
  | Err c => (s, Err c)
  | Ok _ =>
      match decrypt_body s true tok text now with
      | Err c => (s, Err c)
      | Ok bodyData =>
          match unmarshal_struct set_beneficiary_data "" bodyData with
          | None => (s, Err 400)
          | Some addr =>
              match SetBeneficiaryAddr addr (p_AllowEmptyBeneficiaryAddress (n_Parameters s)) s with
              | (s, Err e) => (s, Err (fault_code e 400))
              | (s, Ok _) =>
                  let respData := encrypt_json s tok (VObj [
                    ("beneficiaryAddr", VStr addr);
                    ("currentBeneficiaryAddr", VStr (p_BeneficiaryAddr (n_Parameters s)))]) now in
                  (s, Ok (data_reply respData))
              end
          end
      end
  end.

(** GET /api/node/neighbors *)
Definition get_node_neighbors (tok : string) (now : Z) (s : server) : reply :=
  match n_localNode s with
  | Some localNode =>
      let data := match GetNeighborInfo localNode with Some list => encrypt_json s tok list now | None => "" end in
      Ok (data_reply data)
  | None => Ok ""
  end.

(** GET /api/node/status: [MustGet] panics without an id. *)
Definition node_fields (s : server) : result Z (list (string * jsval)) :=
  match n_localNode s with
  | Some localNode =>
      match LocalNode_MarshalJSON localNode with
      | None => Err 500
      | Some out =>
          match n_id s with
          | Some id => Ok (assoc_set "id" (VStr (hex_encode id)) out)
          | None => Err 500
          end
      end
  | None => Ok []
  end.

Definition status_fields (s : server) (out : list (string * jsval)) : list (string * jsval) :=
  let p := n_Parameters s in
  let out := assoc_set "beneficiaryAddr" (VStr (p_BeneficiaryAddr p)) out in
  let out := assoc_set "registerIDTxnFee" (VInt (p_RegisterIDTxnFee p)) out in
  let out := assoc_set "numLowFeeTxnPerBlock" (VInt (p_NumLowFeeTxnPerBlock p)) out in
  let out := assoc_set "lowFeeTxnSizePerBlock" (VInt (p_LowFeeTxnSizePerBlock p)) out in
  let out := assoc_set "lowTxnFee" (VInt (p_LowTxnFee p)) out in
  assoc_set "lowTxnFeePerSize" (VNum (p_LowTxnFeePerSize p)) out.

Definition get_node_status (tok : string) (now : Z) (s : server) : reply :=
  match node_fields s with
  | Err c => Err c
  | Ok out => Ok (data_reply (encrypt_json s tok (VObj (status_fields s out)) now))
  end.

(** ** dashboard/routes/wallet *)

(** GET /api/current-wallet/status *)
Definition get_wallet_status (tok : string) (now : Z) (s : server) : reply :=
  match n_wallet s with
  | Some wallet =>
      match (account ← GetDefaultAccount wallet; address ← lib (ToAddress (a_ProgramHash account)); Ok (account, address)) with
      | Err _ => Err 500
      | Ok (account, address) =>
          match n_ledger s with
          | None => Err 500
          | Some GetBalance =>
              let balance := GetBalance (a_ProgramHash account) in
              Ok (data_reply (encrypt_json s tok (VObj [
                ("balance", VStr (Fixed64_String balance)); ("address", VStr address);
                ("publicKey", VStr (hex_encode (a_PublicKey account)))]) now))
          end
      end
  | None => Err 500
  end.

(** GET /api/current-wallet/details *)
Definition get_wallet_details (auth tok : string) (now : Z) (s : server) : reply :=
  match WalletAuth auth (wallet_hash s) (Some tok) now with
  | Err c => Err c
  | Ok _ =>
      match n_wallet s with
      | Some wallet =>
          match GetDefaultAccount wallet with
          | Err _ => Err 500
          | Ok account =>
              Ok (data_reply (encrypt_json s tok (VObj [
                ("secretSeed", VStr (hex_encode (GetSeedFromPrivateKey (a_PrivateKey account))))]) now))
          end
      | None => Err 500
      end
  end.

(** GET /api/wallet/download *)
Definition get_wallet_download (auth tok : string) (now : Z) (s : server) : reply :=
  match WalletAuth auth (wallet_hash s) (Some tok) now with
  | Err c => Err c
  | Ok _ =>
      match n_wallet s with
      | Some wallet =>
          match MarshalIndent (wallet_json (s_WalletData (w_WalletStore wallet))) "    " with
          | Some bytes => Ok bytes
          | None => Err 500
          end
      | None => Err 500
      end
  end.

(** POST /api/wallet/create: the password file is best effort. *)
Definition post_wallet_create (rnd : random) (text tok : string) (now : Z) (s : server) : server * reply :=
  match decrypt_body s false tok text now with
  | Err c => (s, Err c)
  | Ok bodyData =>
      match unmarshal_struct set_create_data ("", "") bodyData with
      | None => (s, Err 400)
      | Some (pw, addr) =>
          match n_wallet s with
          | Some _ => (s, Err 500)
          | None =>
              let p := n_Parameters s in
              match (if p_WebGuiCreateWallet p then SetBeneficiaryAddr addr (p_AllowEmptyBeneficiaryAddress p) s else (s, Ok tt)) with
              | (s, Err e) => (s, Err (fault_code e 400))
              | (s, Ok _) =>
                  match NewWallet rnd (n_disk s) (p_WalletFile (n_Parameters s)) pw with
                  | Err _ => (s, Err 500)
                  | Ok (_, d) =>
                      let s := set_Passwd (set_disk s d) pw in
                      let s := (SavePassword (n_Passwd s) s).1 in
                      (raise_flag Flags.SERVICE_STATUS_RUNNING s, Ok empty_json)
                  end
              end
          end
      end
  end.

(** POST /api/wallet/open *)
Definition post_wallet_open (text tok : string) (now : Z) (s : server) : server * reply :=
  match decrypt_body s false tok text now with
  | Err c => (s, Err c)
  | Ok bodyData =>
      match unmarshal_struct set_open_data "" bodyData with
      | None => (s, Err 400)
      | Some pw =>
          match n_wallet s with
          | Some wallet =>
              match VerifyPassword (s_WalletData (w_WalletStore wallet)) pw with
              | Err e => (s, Err (fault_code e 403))
              | Ok _ => (s, Ok empty_json)
              end
          | None =>
              match GetWallet GetAccountPassword (set_Passwd s pw) with
              | (s, Err e) => (s, Err (fault_code e 403))
              | (s, Ok _) => ((SavePassword (n_Passwd s) s).1, Ok empty_json)
              end
          end
      end
  end.
End Routes.

(** ** dashboard/routes/routes.go and dashboard/service.go *)

Module Api.
Inductive route : Type :=
| Verification | SyncUnix | SyncToken | SyncStatus
| NodeStatus | NodeBeneficiary | NodeNeighbors | NodeConfig
| WalletStatus | WalletDetails | WalletCreate | WalletOpen | WalletDownload.

#[export] Instance route_eq_dec : EqDecision route.
Proof. solve_decision. Defined.

(** In the order of registration. *)
Definition routes : list (string * string * route) := [
  ("HEAD", "/api/verification", Verification);
  ("GET", "/api/sync/unix", SyncUnix);
  ("GET", "/api/sync/token", SyncToken);
  ("GET", "/api/sync/status", SyncStatus);
  ("GET", "/api/node/status", NodeStatus);
  ("PUT", "/api/node/beneficiary", NodeBeneficiary);
  ("GET", "/api/node/neighbors", NodeNeighbors);
  ("PUT", "/api/node/config", NodeConfig);
  ("GET", "/api/current-wallet/status", WalletStatus);
  ("GET", "/api/current-wallet/details", WalletDetails);
  ("POST", "/api/wallet/create", WalletCreate);
  ("POST", "/api/wallet/open", WalletOpen);
  ("GET", "/api/wallet/download", WalletDownload)
].

Definition find (method path : string) : option route :=
  snd <$> List.find (fun r => String.eqb r.1.1 method && String.eqb r.1.2 path) routes.
End Api.

(** A request: its method and path, the headers Unix and Authorization, and
    the text of its body. *)
Record incoming : Type := mk_incoming {
  i_method : string;
  i_path : string;
  i_unix : string;
  i_auth : string;
  i_text : string
}.

Record node : Type := mk_node {
  nd_server : server;
  nd_tokens : tokens
}.

Section Serve.
Context {C : StdCrypto} {A : AddressLib} {V : VaultLib}.

(** The handlers of the routes registered after the clock check. *)
Definition handle (r : Api.route) (rnd : random) (i : incoming) (tok : string) (now : Z) (s : server) : server * reply :=
  match r with
  | Api.NodeStatus => (s, get_node_status tok now s)
  | Api.NodeBeneficiary => put_node_beneficiary (i_auth i) (i_text i) tok now s
  | Api.NodeNeighbors => (s, get_node_neighbors tok now s)
  | Api.NodeConfig => put_node_config (i_auth i) (i_text i) tok now s
  | Api.WalletStatus => (s, get_wallet_status tok now s)
  | Api.WalletDetails => (s, get_wallet_details (i_auth i) tok now s)
  | Api.WalletCreate => post_wallet_create rnd (i_text i) tok now s
  | Api.WalletOpen => post_wallet_open (i_text i) tok now s
  | Api.WalletDownload => (s, get_wallet_download (i_auth i) tok now s)
  | _ => (s, Err 404)
  end.

(** A request outside /web at second [now]: HEAD /api/verification was
    registered before the token middleware and sees only the cookie; the sync
    routes were registered before the clock check; OPTIONS is answered before
    the chain of the unknown path goes on. *)
Definition serve (rnd : random) (uuid : string) (now : Z) (cookie : option session) (i : incoming) (n : node)
    : node * option session * reply :=
  let s := nd_server n in
  match Api.find (i_method i) (i_path i) with
  | Some Api.Verification =>
      (n, cookie, match WalletAuth (i_auth i) (wallet_hash s) (fst <$> cookie) now with Ok _ => Ok "" | Err c => Err c end)
  | found =>
      let '(g, sess) := token_middleware uuid now (nd_tokens n) cookie in
      let answer (s' : server) (r : reply) := ({| nd_server := s'; nd_tokens := g |}, Some sess, r) in
      match found with
      | Some Api.SyncUnix => answer s (Ok (json_reply (sync_unix now)))
      | Some Api.SyncToken => answer s (Ok (json_reply (sync_token g now)))
      | Some Api.SyncStatus => answer s (Ok (json_reply (sync_status s)))
      | Some r =>
          match UnixRangeAuth (i_unix i) now with
          | Err c => answer s (Err c)
          | Ok _ => let '(s', rep) := handle r rnd i sess.1 now s in answer s' rep
          end
      | None =>
          if String.eqb (i_method i) "GET" && String.eqb (i_path i) "/" then answer s (Err 301)
          else if String.eqb (i_method i) "OPTIONS" then
            answer s (Ok (go_quoted "Options" +:+
              match UnixRangeAuth (i_unix i) now with Ok _ => go_quoted "not found" | Err _ => "" end))
          else match UnixRangeAuth (i_unix i) now with
               | Err c => answer s (Err c)
               | Ok _ => answer s (Err 404)
               end
      end
  end.

(** ** Who may do what *)

(** The handlers leave the state of a node with an open wallet alone, unless
    the request carries a password key. *)
Lemma handle_guarded r rnd i tok now s ph :
  wallet_hash s = Some ph ->
  (handle r rnd i tok now s).1 = s \/ WalletAuth (i_auth i) (Some ph) (Some tok) now = Ok tt.
Proof.
  intros Hw. assert (exists w, n_wallet s = Some w) as [w Hn].
  { unfold wallet_hash in Hw. destruct (n_wallet s); [by eexists | done]. }
  destruct r; try (by left); cbn [handle].
  - unfold put_node_beneficiary. rewrite Hw. destruct (WalletAuth _ _ _ _) as [[] | c]; [by right | by left].
  - unfold put_node_config. rewrite Hw. destruct (WalletAuth _ _ _ _) as [[] | c]; [by right | by left].
  - left. unfold post_wallet_create. rewrite Hn. destruct (decrypt_body _ _ _ _ _); [| done].
    by destruct (unmarshal_struct _ _ _) as [[? ?]|].
  - left. unfold post_wallet_open. rewrite Hn. destruct (decrypt_body _ _ _ _ _); [| done].
    destruct (unmarshal_struct _ _ _); [| done]. by destruct (VerifyPassword _ _).
Qed.

(** The clock check, with integers of their width. *)
Lemma UnixRangeAuth_exact unix now : 0 <= now < 2 ^ 62 ->
  UnixRangeAuth unix now = Ok tt <-> exists v, ParseInt unix = Some v /\ Z.abs (now - v) < UnixRange.
Proof.
  intros Hn. unfold UnixRangeAuth. destruct (String.eqb_spec unix "") as [-> |].
  { split; [done |]. by intros (v & Hv & _). }
  destruct (ParseInt unix) as [v|] eqn:E; [| split; [done | by intros (v & Hv & _)]].
  pose proof (verifyUnix_exact now v Hn (ParseInt_range _ _ E)) as Hv.
  destruct (verifyUnix now v) eqn:Ev.
  - split; [| done]. intros _. exists v. split; [done | by apply Hv].
  - split; [done |]. intros (v' & Hv' & Hlt). apply (inj Some) in Hv'. subst v'. apply Hv in Hlt. congruence.
Qed.

(** The routes that answer only to the password. *)
Definition protected (r : Api.route) : bool :=
  match r with
  | Api.Verification | Api.NodeBeneficiary | Api.NodeConfig | Api.WalletDetails | Api.WalletDownload => true
  | _ => false
  end.

(** The routes that a request reaches with any clock. *)
Definition unclocked (r : Api.route) : bool :=
  match r with Api.Verification | Api.SyncUnix | Api.SyncToken | Api.SyncStatus => true | _ => false end.

Lemma handle_protected r rnd i tok now s b : protected r = true -> (handle r rnd i tok now s).2 = Ok b ->
  WalletAuth (i_auth i) (wallet_hash s) (Some tok) now = Ok tt.
Proof.
  destruct r; try done; cbn [handle snd]; intros _;
    unfold put_node_beneficiary, put_node_config, get_wallet_details, get_wallet_download;
    by destruct (WalletAuth _ _ _ _) as [[] | c].
Qed.

(** The three ways through [serve]. *)
Lemma serve_clocked rnd uuid now cookie i n r :
  Api.find (i_method i) (i_path i) = Some r -> unclocked r = false ->
  serve rnd uuid now cookie i n =
  let '(g, sess) := token_middleware uuid now (nd_tokens n) cookie in
  match UnixRangeAuth (i_unix i) now with
  | Err c => ({| nd_server := nd_server n; nd_tokens := g |}, Some sess, Err c)
  | Ok _ => let '(s', rep) := handle r rnd i sess.1 now (nd_server n) in ({| nd_server := s'; nd_tokens := g |}, Some sess, rep)
  end.
Proof. intros Ef Eu. unfold serve. rewrite Ef. destruct (token_middleware _ _ _ _). by destruct r. Qed.

Lemma serve_unclocked rnd uuid now cookie i n n' sess rep r :
  Api.find (i_method i) (i_path i) = Some r -> unclocked r = true ->
  serve rnd uuid now cookie i n = (n', sess, rep) -> nd_server n' = nd_server n.
Proof.
  intros Ef Eu. unfold serve. rewrite Ef. destruct (token_middleware _ _ _ _). destruct r; try done; intros ?; by simplify_eq.
Qed.

Lemma serve_unknown rnd uuid now cookie i n n' sess rep :
  Api.find (i_method i) (i_path i) = None ->
  serve rnd uuid now cookie i n = (n', sess, rep) -> nd_server n' = nd_server n.
Proof.
  intros Ef. unfold serve. rewrite Ef. destruct (token_middleware _ _ _ _).
  destruct (_ && _); [intros; by simplify_eq |]. destruct (String.eqb _ _); [intros; by simplify_eq |].
  destruct (UnixRangeAuth _ _); intros; by simplify_eq.
Qed.

Context {CL : StdCryptoLaws C}.

(** C18: Once the wallet is open, a request changes the state of the node, or gets an
    answer from one of the protected routes, only if its Authorization header
    is the password key of the session for a second of the window. *)
Theorem password_required rnd uuid now cookie i n n' sess rep ph :
  wallet_hash (nd_server n) = Some ph -> serve rnd uuid now cookie i n = (n', sess, rep) ->
  let key_shown := exists t j, fst <$> sess = Some t /\ now - UnixRange <= j < now + UnixRange
                     /\ hex_decode (i_auth i) = Some (password_key ph t j) in
  (nd_server n' = nd_server n \/ key_shown)
  /\ (forall r b, Api.find (i_method i) (i_path i) = Some r -> protected r = true -> rep = Ok b -> key_shown).
Proof.
  intros Hw Hserve key_shown.
  assert (forall tok, WalletAuth (i_auth i) (Some ph) (Some tok) now = Ok tt -> fst <$> sess = Some tok -> key_shown) as Hkey.
  { intros tok (ph' & t & j & [= <-] & [= <-] & Hj & Hd)%WalletAuth_passes Hs. by exists tok, j. }
  destruct (Api.find (i_method i) (i_path i)) as [r|] eqn:Ef; [| split; [left; by apply (serve_unknown _ _ _ _ _ _ _ _ _ Ef Hserve) | done]].
  destruct (unclocked r) eqn:Eu.
  - split; [left; by apply (serve_unclocked _ _ _ _ _ _ _ _ _ r Ef Eu Hserve) |]. intros r' b [= <-] Hp ->.
    destruct r; try done. unfold serve in Hserve. rewrite Ef in Hserve. apply pair_equal_spec in Hserve as [[_ Hs]%pair_equal_spec Ha]. subst sess.
    rewrite Hw in Ha. destruct (WalletAuth _ _ _ _) as [[] | c] eqn:Ea; [| done].
    destruct cookie as [[t saved]|]; [by apply (Hkey t) |]. unfold WalletAuth in Ea. cbn in Ea.
    by destruct (String.eqb _ _), (hex_decode _).
  - rewrite (serve_clocked _ _ _ _ _ _ r Ef Eu) in Hserve. destruct (token_middleware _ _ _ _) as [g s0].
    destruct (UnixRangeAuth _ _); [| simplify_eq; split; [by left | done]].
    pose proof (handle_guarded r rnd i s0.1 now (nd_server n) ph Hw) as Hg.
    pose proof (handle_protected r rnd i s0.1 now (nd_server n)) as Hp. rewrite Hw in Hp.
    destruct (handle r rnd i s0.1 now (nd_server n)) as [s' rep']. simplify_eq. cbn [fst snd nd_server] in *. split.
    + destruct Hg as [-> | Ha]; [by left | right; by apply (Hkey s0.1)].
    + intros r' b [= <-] Hpr ->. apply (Hkey s0.1); [by apply (Hp b) | done].
Qed.

(** C19: Every route but the verification and the sync routes needs a Unix header
    within twenty seconds of the clock of the node: without one the request is
    refused and the node keeps its state. *)
Theorem clock_required rnd uuid now cookie i n n' sess rep r :
  0 <= now < 2 ^ 62 -> Api.find (i_method i) (i_path i) = Some r -> unclocked r = false ->
  serve rnd uuid now cookie i n = (n', sess, rep) ->
  (exists v, ParseInt (i_unix i) = Some v /\ Z.abs (now - v) < UnixRange)
  \/ ((rep = Err 400 \/ rep = Err 500) /\ nd_server n' = nd_server n).
Proof.
  intros Hn Ef Eu Hserve. rewrite (serve_clocked _ _ _ _ _ _ r Ef Eu) in Hserve.
  destruct (token_middleware _ _ _ _) as [g s0]. destruct (UnixRangeAuth (i_unix i) now) as [[] | c] eqn:E.
  - left. by apply UnixRangeAuth_exact.
  - right. simplify_eq. split; [| done]. unfold UnixRangeAuth in E.
    destruct (String.eqb _ _); [simplify_eq; by left |]. destruct (ParseInt _); [| simplify_eq; by right].
    destruct (verifyUnix _ _); simplify_eq. by left.
Qed.
End Serve.

(** ** Theorems on the token *)

(** The cookie of the only client carries the token of the server. *)
Definition one_client (c : nat) (v : visits) : Prop :=
  forall t saved, v_jar v !! c = Some (t, saved) -> t = Token (v_tokens v).

Lemma one_client_visit c v now uuid :
  one_client c v ->
  one_client c (visit v (c, now, uuid)) /\ is_Some (v_jar (visit v (c, now, uuid)) !! c).
Proof.
  intros H. unfold one_client, visit, token_middleware, sent.
  destruct (v_jar v !! c) as [[t saved]|] eqn:E; [specialize (H t saved E); destruct (now - saved <=? MaxAge) |];
    destruct (_ || _); cbn; rewrite !lookup_insert_eq; (split; [intros; by simplify_eq | by eexists]).
Qed.

Lemma one_client_run c es : Forall (fun e => e.1.1 = c) es -> one_client c (fold_left visit es visits_init).
Proof.
  assert (one_client c visits_init) as H0.
  { intros t saved. cbn [visits_init v_jar]. by rewrite lookup_empty. }
  intros HF. revert H0. generalize visits_init. induction HF as [|[[c' now] uuid] es He _ IH]; intros v Hv; [done |].
  cbn in *. subst c'. apply IH. by apply one_client_visit.
Qed.

(** C30: with a single browser, after each of its requests the session holds
    exactly the token that the sync route reports, whatever the times and
    however often the token was renewed or the cookie expired; with several,
    a session falls behind only while its cookie is at most a minute old. *)
Theorem session_token_current c es e :
  e.1.1 = c ->
  (Forall (fun e => e.1.1 = c) es ->
     let v := visit (fold_left visit es visits_init) e in
     exists t, session_token c v = Some t /\ get_prop (sync_token (v_tokens v) e.1.2) "token" = Ok (VStr t))
  /\ (forall v, session_token c (visit v e) = Some (Token (v_tokens (visit v e)))
       \/ exists t saved, v_jar v !! c = Some (t, saved) /\ session_token c (visit v e) = Some t /\ e.1.2 - saved <= MaxAge).
Proof.
  destruct e as [[c' now] uuid]. cbn [fst snd]. intros ->. split.
  - intros HF. set (v := visit _ _). destruct (one_client_visit c _ now uuid (one_client_run c es HF)) as [H1 [[t saved] H2]]. fold v in H1, H2.
    exists t. unfold session_token. rewrite H2. split; [done |]. cbn. by rewrite (H1 t saved H2).
  - intros v. unfold session_token, visit, token_middleware, sent.
    destruct (v_jar v !! c) as [[t saved]|] eqn:E; [destruct (Z.leb_spec (now - saved) MaxAge) |];
      destruct (_ || _); cbn; rewrite lookup_insert_eq; cbn; try (by left). right. by exists t, saved.
Qed.

(** ** Two browsers *)

(** The second browser renews the token, and for up to a minute the session of
    the first keeps the old one while the sync route reports the new one. *)
Definition renewed : visits :=
  fold_left visit [(0%nat, 1000, "a"); (0%nat, 1100, "-"); (1%nat, 1121, "b"); (0%nat, 1122, "-")] visits_init.

Lemma second_browser_renews :
  session_token 0 renewed = Some "a" /\ get_prop (sync_token (v_tokens renewed) 1122) "token" = Ok (VStr "b").
Proof. split; vm_compute; reflexivity. Qed.

(** ** The theorems at concrete inputs *)

Module TokenSamples.
Lemma session_token_current_witness :
  exists t, session_token 0 (visit (fold_left visit [(0%nat, 1000, "a")] visits_init) (0%nat, 1200, "b")) = Some t
    /\ t = "b".
Proof.
  destruct (session_token_current 0 [(0%nat, 1000, "a")] (0%nat, 1200, "b") eq_refl) as [H _].
  destruct (H ltac:(repeat constructor)) as (t & Ht & Hg). exists t. split; [exact Ht |].
  vm_compute in Hg. injection Hg as <-. reflexivity.
Defined.
End TokenSamples.

Module RouteSamples.
Import Toy ToyAddress ToyVault VaultSamples.

Definition sample_now : Z := 1600000003.
Definition sample_tokens : tokens := {| Token := "tok"; TokenExp := sample_now |}.
Definition sample_cookie : option session := Some ("tok", sample_now - 10).

(** The disk of the wallet, with a configuration file. *)
Definition sample_members : list (string * jsval) := [("BeneficiaryAddr", VStr "NKN")].
Definition sample_files (d : disk) : disk := {|
  d_files := <["config.json" := Some (default "" (MarshalIndent (VObj sample_members) "    "))]> (d_files d); d_writable := d_writable d |}.

Definition sample_server : server := {|
  n_Status := 16; n_localNode := None; n_wallet := Some sample_wallet; n_id := None;
  n_Parameters := mk_Configuration "NKN" 0 0 8192 10000000 (num_of_Z 50000) true false "wallet.json" "wallet.pswd";
  n_ConfigFile := ""; n_disk := sample_files sample_disk;
  n_Passwd := "hunter2"; n_env := ""; n_terminal := None; n_ledger := None
|}.
Definition sample_node : node := {| nd_server := sample_server; nd_tokens := sample_tokens |}.

Definition sample_download (unix : string) : incoming := {|
  i_method := "GET"; i_path := "/api/wallet/download"; i_unix := unix;
  i_auth := hex_encode (password_key (PasswordHash "hunter2") "tok" (sample_now - 1)); i_text := ""
|}.
Definition sample_answer (unix : string) : node * option session * reply :=
  serve sample_random "-" sample_now sample_cookie (sample_download unix) sample_node.

Lemma sample_answer_ok : is_Ok (sample_answer "1600000000").2 = true.
Proof. vm_compute. reflexivity. Qed.

Lemma sample_hash : wallet_hash sample_server = Some (PasswordHash "hunter2").
Proof. vm_compute. reflexivity. Qed.

Lemma password_required_witness :
  exists t j, fst <$> (sample_answer "1600000000").1.2 = Some t /\ sample_now - UnixRange <= j < sample_now + UnixRange
    /\ hex_decode (i_auth (sample_download "1600000000")) = Some (password_key (PasswordHash "hunter2") t j).
Proof.
  pose proof sample_answer_ok as Hok. destruct (sample_answer "1600000000") as [[n' sess] rep] eqn:E.
  destruct (password_required sample_random "-" sample_now sample_cookie (sample_download "1600000000") sample_node n' sess rep
              (PasswordHash "hunter2") sample_hash E) as [_ H].
  destruct rep as [b | c]; [exact (H Api.WalletDownload b eq_refl eq_refl eq_refl) | discriminate].
Defined.

Lemma clock_required_witness : nd_server (sample_answer "1600000023").1.1 = sample_server.
Proof.
  destruct (sample_answer "1600000023") as [[n' sess] rep] eqn:E.
  destruct (clock_required sample_random "-" sample_now sample_cookie (sample_download "1600000023") sample_node n' sess rep
              Api.WalletDownload ltac:(unfold sample_now; lia) eq_refl eq_refl E) as [(v & Hv & Hlt) | [_ H]]; [| exact H].
  vm_compute in Hv. injection Hv as <-. unfold UnixRange, sample_now in Hlt. lia.
Defined.
End RouteSamples.
