(* ===== verification/NodeRuns.v ===== *)
(** * Runs of the node: requests, the startup loop, and being started again

    The steps of a process: a request is served, the startup loop looks for
    the wallet, the dashboard is given what the node has, and the node is
    stopped and started again on the same disk.  What the process does to its
    state is a sequence of changes; every change keeps the parameters and the
    configuration file in agreement and leaves the wallet file alone, and
    refines a change of an abstract node, which has settings and a wallet. *)

From S2P Require Import Prelude JsNum JsValue Json GoJson GoMarshal Fixed64 CryptoLib Address Server Vault Config ConfigSpec NodeState Routes.
From stdpp Require Import relations.
Local Open Scope Z_scope.

(** ** Saving *)

(** The server after its parameters and its file were written. *)
Definition saved (s : server) (p : Configuration) (text : string) : server :=
  set_config s p (written_disk (n_disk s) (n_ConfigFile s) text).

Definition file_text (l : list (string * jsval)) : string := default "" (MarshalIndent (as_map (VObj l)) "    ").

Lemma WriteConfigFile_eq d cf l : interface (VObj l) = true ->
  WriteConfigFile d cf l = if d_writable d (GetConfigFile cf) then Ok (written_disk d cf (file_text l)) else Err Library.
Proof. intros Hl. destruct (WriteConfigFile_total d cf l Hl) as (text & Ht & ->). unfold file_text. by rewrite Ht. Qed.

(** Settings whose numbers are integers a float holds exactly. *)
Definition modest (d : NodeConfig.SetConfigData) : Prop :=
  safe (NodeConfig.RegisterIDTxnFee d) /\ safe (NodeConfig.LowTxnFee d)
  /\ 0 <= NodeConfig.NumLowFeeTxnPerBlock d < 2 ^ 32 /\ 0 <= NodeConfig.LowFeeTxnSizePerBlock d < 2 ^ 32
  /\ int_num (NodeConfig.LowTxnFeePerSize d) = true.

Lemma interface_int z : safe z -> interface (VInt z) = true.
Proof.
  intros Hz. unfold VInt. cbn [interface]. destruct (decide (z = 0)) as [-> | Hn]; [done |]. by rewrite num_of_Z_form.
Qed.

Lemma file_with_interface d l : modest d -> interface (VObj l) = true -> interface (VObj (NodeConfig.file_with d l)) = true.
Proof.
  intros (H1 & H2 & H3 & H4 & H5) Hl. unfold NodeConfig.file_with. apply int_num_inv in H5 as (q & Hq & E). rewrite E.
  repeat (apply interface_set; [apply interface_int; (done || unfold safe; lia) |]). done.
Qed.

Lemma store_eq text d l s : NodeConfig.unmarshal text = Some d -> modest d ->
  read_map (n_disk s) (n_ConfigFile s) = Ok (Some l) ->
  NodeConfig.store text s
  = if d_writable (n_disk s) (GetConfigFile (n_ConfigFile s))
    then (saved s (NodeConfig.with_settings d (n_Parameters s)) (file_text (NodeConfig.file_with d l)), Ok empty_json) else (s, Err 500).
Proof.
  intros Hu Hd Hr. unfold NodeConfig.store. rewrite Hu, Hr, WriteConfigFile_eq by (apply file_with_interface, (read_map_interface _ _ _ Hr); done).
  by destruct (d_writable _ _).
Qed.

(** ** What was saved, when the node starts again *)

Lemma to_int64_safe old z : safe z -> to_int64 old (elem_text (VInt z)) (VInt z) = Some z.
Proof.
  intros Hz. destruct (Z.ltb_spec z 0) as [Hn | Hn]; [| apply to_int64_int; unfold safe in Hz; lia].
  rewrite elem_text_int by done. unfold to_int64, VInt, int_str, ParseInt. destruct (Z.ltb_spec z 0); [| lia].
  change (code "-" =? 45) with true. pose proof (parse_digits_int (- z) ltac:(lia)) as Hp. unfold int_str in Hp.
  destruct (Z.ltb_spec (- z) 0); [lia |]. rewrite Hp. bind_simpl. unfold safe in Hz. destruct (Z.leb_spec (- z) (2 ^ 63)); [f_equal; lia | lia].
Qed.

Lemma fits_decoded j k v x : jsonable v = true -> plain v = true -> ascii_text j = true ->
  find_field j = Some (mk_sfield j (Some j) k) ->
  decode k (get Parameters (mk_sfield j (Some j) k)) (elem_text v) v = Some x -> fits_field j v j x.
Proof.
  intros Hj Hp Ha Hf Hd. split_and!; try done. exists (mk_sfield j (Some j) k). split_and!; try done. by apply find_field_In in Hf.
Qed.

Lemma jsonable_safe z : safe z -> jsonable (VInt z) = true.
Proof. intros Hz. by apply int_num_of_Z. Qed.

(** The fields of the settings in the struct. *)
Definition settings_in (d : NodeConfig.SetConfigData) (c : struct) : struct :=
  <["LowTxnFeePerSize" := GFloat (NodeConfig.LowTxnFeePerSize d)]>
  (<["LowTxnFee" := GNum (NodeConfig.LowTxnFee d)]>
  (<["LowFeeTxnSizePerBlock" := GNum (NodeConfig.LowFeeTxnSizePerBlock d)]>
  (<["NumLowFeeTxnPerBlock" := GNum (NodeConfig.NumLowFeeTxnPerBlock d)]>
  (<["RegisterIDTxnFee" := GNum (NodeConfig.RegisterIDTxnFee d)]> c)))).

Lemma uint32_fits old z : 0 <= z < 2 ^ 32 -> to_uint32 old (elem_text (VInt z)) (VInt z) = Some z.
Proof. intros Hz. rewrite to_uint32_int by lia. by destruct (Z.ltb_spec z (2 ^ 32)); [| lia]. Qed.

Lemma assign_int64 l c j z old : safe z -> ascii_text j = true ->
  find_field j = Some (mk_sfield j (Some j) KInt64) -> get Parameters (mk_sfield j (Some j) KInt64) = GNum old ->
  well_formed l -> set_members set_field (map written l) Parameters = Some c ->
  well_formed (assoc_set j (VInt z) l) /\ set_members set_field (map written (assoc_set j (VInt z) l)) Parameters = Some (<[j := GNum z]> c).
Proof.
  intros Hz Ha Hf Hg Hl Hc. apply assign_field; [done | | done]. apply (fits_decoded j KInt64); [by apply jsonable_safe | reflexivity | exact Ha | exact Hf |].
  rewrite Hg. cbn [decode]. by rewrite to_int64_safe.
Qed.

Lemma assign_uint32 l c j z old : 0 <= z < 2 ^ 32 -> ascii_text j = true ->
  find_field j = Some (mk_sfield j (Some j) KUint32) -> get Parameters (mk_sfield j (Some j) KUint32) = GNum old ->
  well_formed l -> set_members set_field (map written l) Parameters = Some c ->
  well_formed (assoc_set j (VInt z) l) /\ set_members set_field (map written (assoc_set j (VInt z) l)) Parameters = Some (<[j := GNum z]> c).
Proof.
  intros Hz Ha Hf Hg Hl Hc. apply assign_field; [done | | done]. apply (fits_decoded j KUint32); [apply jsonable_safe; unfold safe; lia | reflexivity | exact Ha | exact Hf |].
  rewrite Hg. cbn [decode]. by rewrite uint32_fits.
Qed.

Lemma assign_settings l c d : well_formed l -> modest d -> set_members set_field (map written l) Parameters = Some c ->
  well_formed (NodeConfig.file_with d l)
  /\ set_members set_field (map written (NodeConfig.file_with d l)) Parameters = Some (settings_in d c).
Proof.
  intros Hl (H1 & H2 & H3 & H4 & (q & Hq & E)%int_num_inv) Hc.
  destruct (assign_int64 l c "RegisterIDTxnFee" _ 0 H1 eq_refl ltac:(by vm_compute) ltac:(by vm_compute) Hl Hc) as [Hl1 Hc1].
  destruct (assign_uint32 _ _ "NumLowFeeTxnPerBlock" _ 0 H3 eq_refl ltac:(by vm_compute) ltac:(by vm_compute) Hl1 Hc1) as [Hl2 Hc2].
  destruct (assign_uint32 _ _ "LowFeeTxnSizePerBlock" _ 8192 H4 eq_refl ltac:(by vm_compute) ltac:(by vm_compute) Hl2 Hc2) as [Hl3 Hc3].
  destruct (assign_int64 _ _ "LowTxnFee" _ 10000000 H2 eq_refl ltac:(by vm_compute) ltac:(by vm_compute) Hl3 Hc3) as [Hl4 Hc4].
  apply (assign_field _ _ "LowTxnFeePerSize"); [done | | done].
  apply (fits_decoded _ KFloat); [rewrite E; by apply jsonable_safe | done | done | by vm_compute |].
  replace (get Parameters _) with (GFloat (num_of_Z 50000)) by (vm_compute; reflexivity). cbn [decode]. rewrite E.
  change (VNum (num_of_Z q)) with (VInt q). by rewrite to_float64_int.
Qed.

Definition beneficiary_field : sfield := mk_sfield "BeneficiaryAddr" (Some "BeneficiaryAddr") KStr.
Lemma default_beneficiary : get Parameters beneficiary_field = GStr "".
Proof. vm_compute. reflexivity. Qed.

Lemma assign_beneficiary l c addr : well_formed l -> ascii_text addr = true -> set_members set_field (map written l) Parameters = Some c ->
  well_formed (assoc_set "BeneficiaryAddr" (VStr addr) l)
  /\ set_members set_field (map written (assoc_set "BeneficiaryAddr" (VStr addr) l)) Parameters = Some (<["BeneficiaryAddr" := GStr addr]> c).
Proof.
  intros Hl Ha Hc. apply assign_field; [done | | done]. apply (fits_decoded _ KStr); [done | done | done | by vm_compute |].
  fold beneficiary_field. rewrite default_beneficiary. cbn [decode]. unfold to_text. cbn [to_str fmap option_fmap option_map].
  by rewrite to_utf8_valid by by apply ascii_utf8.
Qed.

Section Runs.
Context {C : StdCrypto} {A : AddressLib} {V : VaultLib}.

(** The addresses the node takes. *)
Definition acceptable_to (addr : string) (p : Configuration) : bool :=
  if String.eqb addr "" then p_AllowEmptyBeneficiaryAddress p else bool_decide (is_Some (ToScriptHash addr)).
Definition acceptable (addr : string) (s : server) : bool := acceptable_to addr (n_Parameters s).

Definition beneficiary_set (addr : string) (l : list (string * jsval)) (s : server) : server :=
  saved s (with_beneficiary addr (n_Parameters s)) (file_text (assoc_set "BeneficiaryAddr" (VStr addr) l)).

(** What [SetBeneficiaryAddr] does: it changes nothing, or it saves an address
    the node takes. *)
Lemma SetBeneficiaryAddr_cases addr s s' r :
  SetBeneficiaryAddr addr (p_AllowEmptyBeneficiaryAddress (n_Parameters s)) s = (s', r) ->
  (s' = s /\ exists e, r = Err e)
  \/ exists l, acceptable addr s = true /\ read_map (n_disk s) (n_ConfigFile s) = Ok (Some l)
       /\ d_writable (n_disk s) (GetConfigFile (n_ConfigFile s)) = true /\ s' = beneficiary_set addr l s /\ r = Ok tt.
Proof.
  unfold SetBeneficiaryAddr. destruct (negb _ && String.eqb addr "") eqn:E1; [intros [= <- <-]; left; split; [done | by eexists] |].
  destruct (negb (String.eqb addr "") && _) eqn:E2; [intros [= <- <-]; left; split; [done | by eexists] |].
  destruct (read_map _ _) as [[l|] | e] eqn:Er; try (intros [= <- <-]; left; split; [done | by eexists]).
  rewrite WriteConfigFile_eq by (apply interface_set, (read_map_interface _ _ _ Er); done).
  destruct (d_writable _ _); [| intros [= <- <-]; left; split; [done | by eexists]].
  intros [= <- <-]. right. exists l. split_and!; try done. unfold acceptable, acceptable_to.
  destruct (String.eqb addr "").
  - by destruct (p_AllowEmptyBeneficiaryAddress (n_Parameters s)).
  - by destruct (bool_decide (is_Some (ToScriptHash addr))).
Qed.

Lemma SetBeneficiaryAddr_eq addr l s : read_map (n_disk s) (n_ConfigFile s) = Ok (Some l) ->
  d_writable (n_disk s) (GetConfigFile (n_ConfigFile s)) = true ->
  (acceptable addr s = true -> SetBeneficiaryAddr addr (p_AllowEmptyBeneficiaryAddress (n_Parameters s)) s = (beneficiary_set addr l s, Ok tt))
  /\ (acceptable addr s = false -> exists m, SetBeneficiaryAddr addr (p_AllowEmptyBeneficiaryAddress (n_Parameters s)) s = (s, Err (Fault m))).
Proof.
  intros Hf Hw. unfold acceptable, acceptable_to, SetBeneficiaryAddr.
  rewrite Hf, WriteConfigFile_eq, Hw by (apply interface_set, (read_map_interface _ _ _ Hf); done).
  destruct (String.eqb addr ""), (p_AllowEmptyBeneficiaryAddress (n_Parameters s)), (bool_decide (is_Some (ToScriptHash addr)));
    cbn [andb negb]; split; intros ?; try done; by eexists.
Qed.

(** ** The parameters and the file *)

Lemma with_flags_ne n x fl c : ~ In n used_fields -> n <> "BeneficiaryAddr" \/ fl_BeneficiaryAddr fl = "" ->
  with_flags fl (<[n := x]> c) = <[n := x]> (with_flags fl c).
Proof. intros Hn Hb. unfold with_flags. by rewrite (flags_before_ne n x Hn), (flags_after_ne n x Hn). Qed.

Lemma not_listed (n : string) l : existsb (String.eqb n) l = false -> ~ In n l.
Proof.
  intros H Hin. assert (existsb (String.eqb n) l = true) by (apply existsb_exists; exists n; by rewrite String.eqb_refl). congruence.
Qed.

(** The values of the fields of the dashboard. *)
Ltac field_values := unfold parameters_of, str_field, num_field, float_field, bool_field; cbn [p_BeneficiaryAddr p_RegisterIDTxnFee
  p_NumLowFeeTxnPerBlock p_LowFeeTxnSizePerBlock p_LowTxnFee p_LowTxnFeePerSize p_WebGuiCreateWallet p_AllowEmptyBeneficiaryAddress p_WalletFile p_PasswordFile];
  repeat (rewrite lookup_insert_eq || rewrite lookup_insert_ne by done).
Ltac unused := apply not_listed; vm_compute; reflexivity.

Lemma parameters_settings fl d c :
  parameters_of (with_flags fl (settings_in d c)) = NodeConfig.with_settings d (parameters_of (with_flags fl c)).
Proof.
  unfold settings_in. rewrite !with_flags_ne by (unused || by left). unfold NodeConfig.with_settings. field_values. reflexivity.
Qed.

Lemma parameters_beneficiary fl addr c : fl_BeneficiaryAddr fl = "" ->
  parameters_of (with_flags fl (<["BeneficiaryAddr" := GStr addr]> c)) = with_beneficiary addr (parameters_of (with_flags fl c)).
Proof.
  intros Hfl. rewrite with_flags_ne by (unused || by right). unfold with_beneficiary. field_values. reflexivity.
Qed.

(** What [Init] gives the dashboard. *)
Lemma parameters_started m nw fuel fl c c1 : started m nw fuel fl c = Some (Ok c1) -> parameters_of c1 = parameters_of (with_flags fl c).
Proof.
  intros H. unfold parameters_of, str_field, num_field, float_field, bool_field.
  rewrite !(fun k Hk => started_field k Hk m nw fuel fl c c1 H) by unused. reflexivity.
Qed.

(** The parameters are those of the file and the command line; the file is not
    that of the wallet or of the password. *)
Definition persistent (fl : flags) (s : server) : Prop :=
  exists l c, file_holds (n_disk s) (n_ConfigFile s) l /\ well_formed l /\ load (n_disk s) (n_ConfigFile s) = Ok c
    /\ n_ConfigFile s = fl_ConfigFile fl /\ parameters_of (with_flags fl c) = n_Parameters s
    /\ p_WalletFile (n_Parameters s) <> GetConfigFile (n_ConfigFile s)
    /\ p_PasswordFile (n_Parameters s) <> GetConfigFile (n_ConfigFile s).

Definition startable (m : machine) (nw : network) (fuel : nat) (fl : flags) (s : server) : Prop :=
  exists c, Config.Init m nw fuel fl (n_disk s) = Some (Ok c).

(** ** Changes *)

(** The random source gives as many bytes as it is asked for. *)
Definition well_random (rnd : random) : Prop := good_random rnd /\ forall seed, r_seed rnd = Some seed -> String.length seed = 32%nat.

(** The handlers and the startup loop change the node in these ways: flags and
    password in memory, settings and beneficiary together with the file, a new
    wallet file, a new password file. *)
Inductive change : server -> server -> Prop :=
| ch_memory s x pw : change s (set_Passwd (set_Status s x) pw)
| ch_settings d l s : n_wallet s <> None -> modest d -> read_map (n_disk s) (n_ConfigFile s) = Ok (Some l) ->
    d_writable (n_disk s) (GetConfigFile (n_ConfigFile s)) = true ->
    change s (saved s (NodeConfig.with_settings d (n_Parameters s)) (file_text (NodeConfig.file_with d l)))
| ch_beneficiary addr l s : acceptable addr s = true -> ascii_text addr = true -> read_map (n_disk s) (n_ConfigFile s) = Ok (Some l) ->
    d_writable (n_disk s) (GetConfigFile (n_ConfigFile s)) = true -> change s (beneficiary_set addr l s)
| ch_wallet rnd pw w d s : n_wallet s = None -> well_random rnd -> NewWallet rnd (n_disk s) (p_WalletFile (n_Parameters s)) pw = Ok (w, d) -> change s (set_disk s d)
| ch_password pw d s : FileExisted (n_disk s) (p_PasswordFile (n_Parameters s)) = false ->
    WriteFile (n_disk s) (p_PasswordFile (n_Parameters s)) pw = Ok d -> change s (set_disk s d).

(** Parameters with numbers a float holds and an address in ASCII. *)
Definition modest_parameters (p : Configuration) : Prop :=
  modest (NodeConfig.mk (p_RegisterIDTxnFee p) (p_NumLowFeeTxnPerBlock p) (p_LowFeeTxnSizePerBlock p) (p_LowTxnFee p) (p_LowTxnFeePerSize p))
  /\ ascii_text (p_BeneficiaryAddr p) = true.

Lemma SavePassword_changes pw s : rtc change s (SavePassword pw s).1.
Proof.
  unfold SavePassword. destruct (_ && _ && _); [| apply rtc_refl].
  destruct (FileExisted _ _) eqn:Ef; [apply rtc_refl |]. destruct (WriteFile _ _ pw) as [d | e] eqn:Ew; [| apply rtc_refl].
  apply rtc_once. by apply (ch_password pw).
Qed.

Lemma memory_refl s : set_Passwd (set_Status s (n_Status s)) (n_Passwd s) = s.
Proof. by destruct s. Qed.

Lemma GetAccountPassword_memory s : exists pw, (GetAccountPassword s).1 = set_Passwd s pw.
Proof.
  unfold GetAccountPassword. assert (s = set_Passwd s (n_Passwd s)) as Hs by by destruct s.
  destruct (String.eqb (n_Passwd s) "" && negb _) eqn:E; cbn [andb]; repeat case_match; cbn [fst]; eauto.
Qed.

Lemma GetWallet_memory s : exists x pw, (GetWallet GetAccountPassword s).1 = set_Passwd (set_Status s x) pw.
Proof.
  rewrite GetWallet_eq. destruct (GetAccountPassword_memory s) as [pw Hpw].
  destruct (negb _); [exists (n_Status (raise_flag Flags.SERVICE_STATUS_NO_WALLET_FILE s)), (n_Passwd s); by destruct s |].
  destruct (account_password s) as [pw' | e]; [| cbn [fst]; rewrite Hpw; by eexists _, pw].
  unfold NodeState.cleared. rewrite Hpw. destruct (OpenWallet _ _ _) as [w | [m | |]]; cbn [fst]; by eexists _, pw.
Qed.

Lemma GetWallet_changes s : rtc change s (GetWallet GetAccountPassword s).1.
Proof. destruct (GetWallet_memory s) as (x & pw & ->). apply rtc_once, ch_memory. Qed.

Lemma store_changes text s : n_wallet s <> None -> modest_parameters (n_Parameters (NodeConfig.store text s).1) -> rtc change s (NodeConfig.store text s).1.
Proof.
  intros Hw. unfold NodeConfig.store. destruct (NodeConfig.unmarshal text) as [d|]; [| intros; apply rtc_refl].
  destruct (read_map _ _) as [[l|] | e] eqn:Er; try (intros; apply rtc_refl).
  destruct (WriteConfigFile _ _ _) as [dk | e] eqn:Ew; [| intros; apply rtc_refl]. cbn [fst]. intros [Hm _].
  change (modest (NodeConfig.mk _ _ _ _ _)) with (modest (NodeConfig.mk (NodeConfig.RegisterIDTxnFee d) (NodeConfig.NumLowFeeTxnPerBlock d)
    (NodeConfig.LowFeeTxnSizePerBlock d) (NodeConfig.LowTxnFee d) (NodeConfig.LowTxnFeePerSize d))) in Hm.
  assert (modest d) as Hd by by destruct d.
  rewrite WriteConfigFile_eq in Ew by (apply file_with_interface, (read_map_interface _ _ _ Er); done).
  destruct (d_writable _ _) eqn:Ewr; [| done]. apply (inj Ok) in Ew. subst dk. apply rtc_once. by apply ch_settings.
Qed.

Lemma beneficiary_changes addr s s' r : SetBeneficiaryAddr addr (p_AllowEmptyBeneficiaryAddress (n_Parameters s)) s = (s', r) ->
  modest_parameters (n_Parameters s') -> rtc change s s'.
Proof.
  intros [[-> _] | (l & Ha & Hr & Hw & -> & _)]%SetBeneficiaryAddr_cases; [intros; apply rtc_refl |]. intros [_ Hm]. apply rtc_once. by apply ch_beneficiary.
Qed.

Lemma create_changes rnd text tok now s : well_random rnd -> modest_parameters (n_Parameters (post_wallet_create rnd text tok now s).1) ->
  rtc change s (post_wallet_create rnd text tok now s).1.
Proof.
  intros Hrnd. unfold post_wallet_create. destruct (decrypt_body _ _ _ _ _) as [body | c]; [| intros; apply rtc_refl].
  destruct (unmarshal_struct _ _ _) as [[pw addr] |]; [| intros; apply rtc_refl].
  destruct (n_wallet s) as [w|] eqn:Ew; [intros; apply rtc_refl |].
  destruct (if p_WebGuiCreateWallet (n_Parameters s) then _ else _) as [s1 r1] eqn:E1.
  assert (n_wallet s1 = None /\ (modest_parameters (n_Parameters s1) -> rtc change s s1)) as [Hw1 H1].
  { destruct (p_WebGuiCreateWallet (n_Parameters s)); [| injection E1 as <- <-; split; [done | intros; apply rtc_refl]].
    split; [| by apply (beneficiary_changes addr s s1 r1)].
    by destruct (SetBeneficiaryAddr_cases _ _ _ _ E1) as [[-> _] | (l & _ & _ & _ & -> & _)]. }
  destruct r1 as [[] | e]; [| exact H1]. destruct (NewWallet _ _ _ _) as [[w d] | e] eqn:En; [| exact H1]. cbn [fst].
  set (s2 := set_Passwd (set_disk s1 d) pw). change (n_Passwd s2) with pw.
  assert (n_Parameters (SavePassword pw s2).1 = n_Parameters s1) as Hp.
  { unfold SavePassword. destruct (_ && _ && _); [| done]. destruct (FileExisted _ _); [done |]. by destruct (WriteFile _ _ _). }
  change (n_Parameters (raise_flag ?f ?x)) with (n_Parameters x). rewrite Hp. intros Hm.
  transitivity s1; [by apply H1 |]. apply (rtc_l _ _ (set_disk s1 d)); [by apply (ch_wallet rnd pw w) |].
  apply (rtc_l _ _ s2).
  { pose proof (ch_memory (set_disk s1 d) (n_Status s1) pw) as H. by replace (set_Status (set_disk s1 d) (n_Status s1)) with (set_disk s1 d) in H by by destruct s1. }
  transitivity (SavePassword pw s2).1; [apply SavePassword_changes |]. apply rtc_once.
  set (s3 := (SavePassword pw s2).1). pose proof (ch_memory s3 (n_Status (raise_flag Flags.SERVICE_STATUS_RUNNING s3)) (n_Passwd s3)) as H.
  by replace (raise_flag Flags.SERVICE_STATUS_RUNNING s3) with (set_Passwd (set_Status s3 (n_Status (raise_flag Flags.SERVICE_STATUS_RUNNING s3))) (n_Passwd s3)) by by destruct s3.
Qed.

Lemma open_changes text tok now s : rtc change s (post_wallet_open text tok now s).1.
Proof.
  unfold post_wallet_open. destruct (decrypt_body _ _ _ _ _) as [body | c]; [| apply rtc_refl].
  destruct (unmarshal_struct _ _ _) as [pw |]; [| apply rtc_refl].
  destruct (n_wallet s) as [w|]; [destruct (VerifyPassword _ _); apply rtc_refl |].
  assert (rtc change s (set_Passwd s pw)) as H0.
  { apply rtc_once. pose proof (ch_memory s (n_Status s) pw) as H. by replace (set_Status s (n_Status s)) with s in H by by destruct s. }
  pose proof (GetWallet_changes (set_Passwd s pw)) as H1. destruct (GetWallet _ _) as [s1 [w | e]]; cbn [fst] in *.
  - etrans; [exact H0 |]. etrans; [exact H1 | apply SavePassword_changes].
  - by etrans; [exact H0 |].
Qed.

(** What a request does is a sequence of changes. *)
Lemma handle_changes r rnd i tok now s : well_random rnd -> modest_parameters (n_Parameters (handle r rnd i tok now s).1) -> rtc change s (handle r rnd i tok now s).1.
Proof.
  intros Hrnd. destruct r; try (intros; apply rtc_refl); cbn [handle].
  - unfold put_node_beneficiary. destruct (WalletAuth _ _ _ _); [| intros; apply rtc_refl].
    destruct (decrypt_body _ _ _ _ _) as [body | c]; [| intros; apply rtc_refl].
    destruct (unmarshal_struct _ _ _) as [addr |]; [| intros; apply rtc_refl].
    destruct (SetBeneficiaryAddr _ _ _) as [s' [[] | e]] eqn:E; cbn [fst]; by apply (beneficiary_changes addr s s' _ E).
  - unfold put_node_config. destruct (WalletAuth _ _ _ _) as [u | c] eqn:Ea; [| intros; apply rtc_refl].
    destruct (decrypt_body _ _ _ _ _) as [body | c]; [| intros; apply rtc_refl]. apply store_changes.
    intros Hn. unfold WalletAuth, wallet_hash in Ea. rewrite Hn in Ea. cbn in Ea. by destruct (String.eqb _ _).
  - by apply create_changes.
  - intros _. apply open_changes.
Qed.

Lemma serve_changes rnd uuid now cookie i n : well_random rnd -> modest_parameters (n_Parameters (nd_server (serve rnd uuid now cookie i n).1.1)) ->
  rtc change (nd_server n) (nd_server (serve rnd uuid now cookie i n).1.1).
Proof.
  intros Hrnd. unfold serve. destruct (Api.find _ _) as [r|].
  - destruct r; try (intros; apply rtc_refl); destruct (token_middleware _ _ _ _) as [g sess]; try (intros; apply rtc_refl);
      (destruct (UnixRangeAuth _ _); [| intros; apply rtc_refl]);
      match goal with |- context [handle ?r rnd i ?tok now ?s] => pose proof (handle_changes r rnd i tok now s Hrnd) as H; destruct (handle r rnd i tok now s) as [s' rep] end;
      exact H.
  - destruct (token_middleware _ _ _ _) as [g sess]. intros _. repeat case_match; apply rtc_refl.
Qed.

(** ** What changes keep *)

Lemma NewWallet_file rnd d path pw w d' : NewWallet rnd d path pw = Ok (w, d') ->
  FileExisted d path = false /\ d_writable d path = true
  /\ exists text, d' = {| d_files := <[path := Some text]> (d_files d); d_writable := d_writable d |}.
Proof.
  unfold NewWallet. intros (a & _ & (wd & _ & (ws & Hs & (c & _ & (d1 & Hsave & H)%bind_Ok)%bind_Ok)%bind_Ok)%bind_Ok)%bind_Ok.
  apply (inj Ok) in H. injection H as _ <-. unfold NewWalletStore in Hs. destruct (FileExisted d path); [done |]. apply (inj Ok) in Hs. subst ws.
  unfold Save in Hsave. apply bind_Ok in Hsave as (text & _ & Hw). cbn [s_Path] in Hw. unfold WriteFile in Hw.
  destruct (d_writable d path); [| done]. apply (inj Ok) in Hw. subst d1. split_and!; try done. by exists text.
Qed.

Lemma change_frame s s' : change s s' ->
  n_ConfigFile s' = n_ConfigFile s /\ n_wallet s' = n_wallet s
  /\ p_WalletFile (n_Parameters s') = p_WalletFile (n_Parameters s)
  /\ p_PasswordFile (n_Parameters s') = p_PasswordFile (n_Parameters s).
Proof. by intros []. Qed.

(** An existing wallet file is not written. *)
Lemma change_wallet_file s s' path : change s s' -> path <> GetConfigFile (n_ConfigFile s) ->
  FileExisted (n_disk s) path = true -> d_files (n_disk s') !! path = d_files (n_disk s) !! path.
Proof.
  intros [s0 x pw | d l s0 | addr l s0 | rnd pw w d s0 Hw Hr Hn | pw d s0 Hf Hw] Hc Hex; try done.
  - cbn. by rewrite lookup_insert_ne.
  - cbn. by rewrite lookup_insert_ne.
  - apply NewWallet_file in Hn as (Hno & _ & text & ->). cbn. rewrite lookup_insert_ne; [done | congruence].
  - unfold WriteFile in Hw. destruct (d_writable _ _); [| done]. apply (inj Ok) in Hw. subst d. cbn. rewrite lookup_insert_ne; [done | congruence].
Qed.

Lemma load_ext d d' cf : d_files d' !! GetConfigFile cf = d_files d !! GetConfigFile cf -> load d' cf = load d cf.
Proof. intros H. unfold load, OpenConfigFile, ReadFile. by rewrite H. Qed.

Lemma Init_ext m nw fuel fl d d' c : load d (fl_ConfigFile fl) = Ok c -> load d' (fl_ConfigFile fl) = Ok c ->
  Config.Init m nw fuel fl d' = Config.Init m nw fuel fl d.
Proof. intros H H'. by rewrite (Init_started _ _ _ _ _ _ H), (Init_started _ _ _ _ _ _ H'). Qed.

(** Another file is written. *)
Lemma persistent_other fl s d : persistent fl s -> d_files d !! GetConfigFile (n_ConfigFile s) = d_files (n_disk s) !! GetConfigFile (n_ConfigFile s) ->
  persistent fl (set_disk s d) /\ forall m nw fuel, startable m nw fuel fl s -> startable m nw fuel fl (set_disk s d).
Proof.
  intros (l & c & Hf & Hl & Hc & Hcf & H) Hd. assert (load d (n_ConfigFile s) = Ok c) as Hc' by (by rewrite (load_ext (n_disk s))).
  split.
  - exists l, c. split_and!; try done; try apply H. destruct Hf as (ind & text & rest & H1 & H2 & H3 & H4 & H5). exists ind, text, rest.
    split_and!; try done. cbn. by rewrite Hd.
  - intros m nw fuel [c1 Hc1]. exists c1. rewrite Hcf in *. change (n_disk (set_disk s d)) with d. by rewrite (Init_ext m nw fuel fl (n_disk s) d c).
Qed.

(** The file is written with other values of the parameters. *)
Lemma persistent_saved fl s l l' c c' p' : file_holds (n_disk s) (n_ConfigFile s) l -> well_formed l -> well_formed l' ->
  set_members set_field (map written l') Parameters = Some c' -> n_ConfigFile s = fl_ConfigFile fl ->
  load (n_disk s) (n_ConfigFile s) = Ok c -> d_writable (n_disk s) (GetConfigFile (n_ConfigFile s)) = true ->
  parameters_of (with_flags fl c') = p' -> p_WalletFile p' <> GetConfigFile (n_ConfigFile s) -> p_PasswordFile p' <> GetConfigFile (n_ConfigFile s) ->
  (forall m nw fuel c1, started m nw fuel fl c = Some (Ok c1) -> exists c1', started m nw fuel fl c' = Some (Ok c1')) ->
  persistent fl (saved s p' (file_text l')) /\ forall m nw fuel, startable m nw fuel fl s -> startable m nw fuel fl (saved s p' (file_text l')).
Proof.
  intros Hf Hl Hl' E Hcf Hc Hw Hp Hpw Hpp Hst.
  assert (interface (VObj l') = true) as Hi by (apply (to_interface_ok (VObj l')), to_interface_id; apply Hl').
  pose proof (WriteConfigFile_eq (n_disk s) (n_ConfigFile s) l' Hi) as Hwr. rewrite Hw in Hwr.
  destruct (saved_load _ _ _ _ _ Hl' E Hwr) as (Hf' & Hlw & Hc' & _). split.
  - exists (sort_members l'), c'. by split_and!.
  - intros m nw fuel [c1 Hc1]. rewrite Hcf in *. rewrite (Init_started _ _ _ _ _ _ Hc) in Hc1. destruct (Hst m nw fuel c1 Hc1) as [c1' Hc1'].
    exists c1'. change (n_disk (saved s p' (file_text l'))) with (written_disk (n_disk s) (n_ConfigFile s) (file_text l')). rewrite Hcf.
    by rewrite (Init_started _ _ _ _ _ c').
Qed.

Lemma load_members d cf l c : file_holds d cf l -> well_formed l -> load d cf = Ok c -> set_members set_field (map written l) Parameters = Some c.
Proof.
  intros Hf Hl Hc. rewrite (file_load d cf l Hf Hl) in Hc. destruct (set_members _ _ _); [| done]. apply (inj Ok) in Hc. by subst.
Qed.

(** Every change keeps the file and the parameters together, and the node can
    be started on the file. *)
Lemma change_persistent fl s s' : fl_BeneficiaryAddr fl = "" -> change s s' -> persistent fl s ->
  persistent fl s' /\ forall m nw fuel, startable m nw fuel fl s -> startable m nw fuel fl s'.
Proof.
  intros Hfl Hch Hp. destruct Hch as [s x pw | d l s Hw Hd Hr Hwr | addr l s Ha Hasc Hr Hwr | rnd pw w d s Hw Hrn Hn | pw d s Hfe Hw]; [done | | | |].
  - destruct Hp as (l0 & c & Hf & Hl & Hc & Hcf & Hpar & Hwf & Hpf). rewrite (file_read _ _ _ Hf Hl) in Hr. apply (inj Ok), (inj Some) in Hr. subst l0.
    pose proof (load_members _ _ _ _ Hf Hl Hc) as E. destruct (assign_settings l c d Hl Hd E) as [Hl' E'].
    apply (persistent_saved fl s l _ c (settings_in d c)); try done; [by rewrite parameters_settings, Hpar |].
    intros m nw fuel c1 Hs. exists (settings_in d c1). unfold settings_in. repeat (apply started_ne; [unused | done |]). exact Hs.
  - destruct Hp as (l0 & c & Hf & Hl & Hc & Hcf & Hpar & Hwf & Hpf). rewrite (file_read _ _ _ Hf Hl) in Hr. apply (inj Ok), (inj Some) in Hr. subst l0.
    pose proof (load_members _ _ _ _ Hf Hl Hc) as E. destruct (assign_beneficiary l c addr Hl Hasc E) as [Hl' E'].
    apply (persistent_saved fl s l _ c (<["BeneficiaryAddr" := GStr addr]> c)); try done; [by rewrite parameters_beneficiary, Hpar |].
    intros m nw fuel c1 Hs. eexists. apply started_beneficiary; [done | | exact Hs]. unfold acceptable, acceptable_to in Ha.
    destruct (String.eqb_spec addr ""); [by left | right; by apply bool_decide_eq_true in Ha].
  - apply persistent_other; [done |]. destruct Hp as (l & c & _ & _ & _ & _ & _ & Hwf & _).
    apply NewWallet_file in Hn as (_ & _ & text & ->). cbn. by rewrite lookup_insert_ne.
  - apply persistent_other; [done |]. destruct Hp as (l & c & _ & _ & _ & _ & _ & _ & Hpf).
    unfold WriteFile in Hw. destruct (d_writable _ _); [| done]. apply (inj Ok) in Hw. subst d. cbn. by rewrite lookup_insert_ne.
Qed.
End Runs.

(** ** Processes: cmd/nknd/commands/root.go *)

(** What the node is launched with: the flags of the command line, the password
    flag, the environment variable, and what is typed at the terminal. *)
Record launch : Type := mk_launch {
  la_flags : flags;
  la_Passwd : string;
  la_env : string;
  la_terminal : option string
}.

(** Where [nknMain] is: waiting for the wallet, before [dashboard.Init] with the
    wallet it has, or after it. *)
Inductive main_state : Type :=
| Waiting
| Having (w : Wallet)
| Running.

Record process : Type := mk_process {
  pr_node : node;
  pr_main : main_state
}.
Definition pr_server (p : process) : server := nd_server (pr_node p).
Definition with_server (p : process) (s : server) (k : main_state) : process :=
  {| pr_node := {| nd_server := s; nd_tokens := nd_tokens (pr_node p) |}; pr_main := k |}.

Definition set_ledger (s : server) (g : option (string -> Z)) : server :=
  mk_server (n_Status s) (n_localNode s) (n_wallet s) (n_id s) (n_Parameters s) (n_ConfigFile s) (n_disk s) (n_Passwd s) (n_env s) (n_terminal s) g.

(** The process after [config.Init]. *)
Definition boot (la : launch) (c : struct) (d : disk) : process := {|
  pr_node := {|
    nd_server := {| n_Status := 0; n_localNode := None; n_wallet := None; n_id := None; n_Parameters := parameters_of c;
      n_ConfigFile := fl_ConfigFile (la_flags la); n_disk := d; n_Passwd := la_Passwd la; n_env := la_env la;
      n_terminal := la_terminal la; n_ledger := None |};
    nd_tokens := tokens_init |};
  pr_main := Waiting
|}.

Section Processes.
Context {C : StdCrypto} {A : AddressLib} {V : VaultLib} (la : launch).

(** A request is served; a round of the wait, which goes on after an error only
    where the dashboard creates the wallet; the two calls of [dashboard.Init],
    the second after the ledger was opened; and a stop at any time, followed by
    a start on the same disk. *)
Inductive step : process -> process -> Prop :=
| step_serve p rnd uuid now cookie i n sess rep :
    serve rnd uuid now cookie i (pr_node p) = (n, sess, rep) ->
    well_random rnd -> modest_parameters (n_Parameters (nd_server n)) -> step p {| pr_node := n; pr_main := pr_main p |}
| step_wait p s r :
    pr_main p = Waiting -> wallet_round (pr_server p) = (s, Ok r) -> r <> None \/ p_WebGuiCreateWallet (n_Parameters s) = true ->
    step p (with_server p s (match r with Some w => Having w | None => Waiting end))
| step_wallet p w : pr_main p = Having w -> step p (with_server p (NodeState.Init (pr_server p) None (Some w) "") Running)
| step_local p ln d g : pr_main p = Running -> step p (with_server p (set_ledger (NodeState.Init (pr_server p) (Some ln) None d) (Some g)) Running)
| step_restart p m nw fuel c :
    Config.Init m nw fuel (la_flags la) (n_disk (pr_server p)) = Some (Ok c) -> step p (boot la c (n_disk (pr_server p))).

(** ** The abstract node *)

Inductive wallet_state : Type :=
| NoFile
| Closed (content : option string)
| Open (content : option string) (w : Wallet).

Record spec : Type := mk_spec {
  sp_Parameters : Configuration;
  sp_wallet : wallet_state
}.

(** A file opens with a password to a wallet. *)
Definition opens (path : string) (content : option string) (pw : string) (w : Wallet) : Prop :=
  OpenWallet {| d_files := {[path := content]}; d_writable := fun _ => false |} path pw = Ok w.

(** Settings are saved only while the wallet is open; the beneficiary is one the
    node takes; a wallet is created where there is none, and its file opens with
    a password; a wallet that is opened is that of the file; a restart closes it. *)
Inductive spec_step : spec -> spec -> Prop :=
| sp_save p d content w : spec_step (mk_spec p (Open content w)) (mk_spec (NodeConfig.with_settings d p) (Open content w))
| sp_beneficiary p addr x : acceptable_to addr p = true -> spec_step (mk_spec p x) (mk_spec (with_beneficiary addr p) x)
| sp_create p text pw w : opens (p_WalletFile p) (Some text) pw w -> spec_step (mk_spec p NoFile) (mk_spec p (Closed (Some text)))
| sp_open p content pw w : opens (p_WalletFile p) content pw w -> spec_step (mk_spec p (Closed content)) (mk_spec p (Open content w))
| sp_restart p content w : spec_step (mk_spec p (Open content w)) (mk_spec p (Closed content)).

Definition abs (s : server) : spec := {|
  sp_Parameters := n_Parameters s;
  sp_wallet := match d_files (n_disk s) !! p_WalletFile (n_Parameters s), n_wallet s with
               | None, _ => NoFile
               | Some content, None => Closed content
               | Some content, Some w => Open content w
               end
|}.

(** *** The invariant *)

(** A wallet the process has is that of the file. *)
Definition held (s : server) (w : Wallet) : Prop :=
  exists content pw, d_files (n_disk s) !! p_WalletFile (n_Parameters s) = Some content /\ opens (p_WalletFile (n_Parameters s)) content pw w.

Definition sound (s : server) : Prop :=
  persistent (la_flags la) s /\ p_PasswordFile (n_Parameters s) <> p_WalletFile (n_Parameters s)
  /\ forall w, n_wallet s = Some w -> held s w.

Definition consistent (p : process) : Prop :=
  sound (pr_server p)
  /\ match pr_main p with
     | Waiting => n_wallet (pr_server p) = None
     | Having w => n_wallet (pr_server p) = None /\ held (pr_server p) w
     | Running => True
     end.

Lemma opens_disk d path content pw w : d_files d !! path = Some content -> OpenWallet d path pw = Ok w <-> opens path content pw w.
Proof.
  intros Hd. unfold opens. rewrite (OpenWallet_ext d {| d_files := {[path := content]}; d_writable := fun _ => false |}); [done |].
  cbn. by rewrite lookup_singleton_eq.
Qed.

Lemma held_open s pw w : OpenWallet (n_disk s) (p_WalletFile (n_Parameters s)) pw = Ok w -> held s w.
Proof.
  intros Ho. destruct (OpenWallet_account _ _ _ _ Ho) as (Hex & _). unfold FileExisted in Hex. apply bool_decide_eq_true in Hex as [content Hc].
  exists content, pw. split; [done |]. by apply (opens_disk (n_disk s)).
Qed.

Lemma held_exists s w : held s w -> FileExisted (n_disk s) (p_WalletFile (n_Parameters s)) = true.
Proof. intros (content & pw & H & _). unfold FileExisted. rewrite H. by apply bool_decide_eq_true_2. Qed.

Lemma held_change s s' w : persistent (la_flags la) s -> change s s' -> held s w -> held s' w.
Proof.
  intros (l & c & _ & _ & _ & _ & _ & Hwf & _) Hch Hh. destruct (change_frame _ _ Hch) as (_ & _ & Hw & _).
  pose proof (change_wallet_file _ _ _ Hch Hwf (held_exists _ _ Hh)) as Hd. destruct Hh as (content & pw & Hc & Ho).
  exists content, pw. rewrite Hw, Hd. done.
Qed.
End Processes.

Section Refinement.
Context {C : StdCrypto} {CL : StdCryptoLaws C} {A : AddressLib} {AL : AddressLaws A} {V : VaultLib} {VL : VaultLaws V}.
Context (la : launch) (Hfl : fl_BeneficiaryAddr (la_flags la) = "").

Lemma NewWallet_opened rnd d path pw w d' : well_random rnd -> NewWallet rnd d path pw = Ok (w, d') -> OpenWallet d' path pw = Ok w.
Proof.
  intros [Hr Hs] Hn. pose proof Hn as (Hex & Hwr & _)%NewWallet_file.
  assert (exists seed, r_seed rnd = Some seed) as [seed Hseed].
  { unfold NewWallet, NewAccount in Hn. destruct (r_seed rnd) as [seed|]; [by exists seed | done]. }
  rewrite (NewWallet_Restore rnd d path pw seed) in Hn by auto.
  destruct (RestoreWallet_opens rnd d path pw seed Hr (Hs _ Hseed) Hex Hwr) as (w0 & d0 & Hn0 & _ & Ho & _).
  rewrite Hn in Hn0. apply (inj Ok) in Hn0. by injection Hn0 as <- <-.
Qed.

Lemma change_sound s s' : change s s' -> sound la s -> sound la s'.
Proof.
  intros Hch (Hp & Hne & Hw). destruct (change_frame _ _ Hch) as (_ & Hw' & Hwf & Hpf).
  split_and!; [by apply (change_persistent _ s) | by rewrite Hwf, Hpf |].
  intros w. rewrite Hw'. intros H%Hw. by apply (held_change la s).
Qed.

(** Every change is one of the abstract node, or none. *)
Lemma change_refines s s' : change s s' -> sound la s -> rtc spec_step (abs s) (abs s').
Proof.
  intros Hch (Hp & Hne & Hheld). pose proof Hp as (l0 & c & _ & _ & _ & _ & _ & Hwf & _).
  destruct Hch as [s x pw | d l s Hw Hd Hr Hwr | addr l s Ha Hasc Hr Hwr | rnd pw w d s Hw Hrn Hn | pw d s Hfe Hw]; [apply rtc_refl | | | |].
  - destruct (n_wallet s) as [w|] eqn:Ew; [| done]. destruct (Hheld w eq_refl) as (content & pw & Hc & _). apply rtc_once.
    unfold abs. cbn. rewrite Ew, lookup_insert_ne, Hc by done. apply sp_save.
  - apply rtc_once. unfold abs. cbn. rewrite lookup_insert_ne by done. by apply sp_beneficiary.
  - apply rtc_once. pose proof (NewWallet_opened _ _ _ _ _ _ Hrn Hn) as Ho. apply NewWallet_file in Hn as (Hex & _ & text & ->).
    unfold FileExisted in Hex. apply bool_decide_eq_false in Hex. rewrite <- eq_None_not_Some in Hex.
    unfold abs. cbn [n_Parameters set_disk n_disk d_files n_wallet]. rewrite Hex, Hw, lookup_insert_eq. apply (sp_create _ text pw w).
    apply (opens_disk _ _ (Some text) pw w (lookup_insert_eq _ _ _)) in Ho. exact Ho.
  - unfold WriteFile in Hw. destruct (d_writable _ _); [| done]. apply (inj Ok) in Hw. subst d. unfold abs. cbn.
    rewrite lookup_insert_ne by done. apply rtc_refl.
Qed.

(** The same for a sequence. *)
Lemma changes_refine s s' : rtc change s s' -> sound la s ->
  sound la s' /\ rtc spec_step (abs s) (abs s') /\ n_wallet s' = n_wallet s
  /\ (forall w, held s w -> held s' w)
  /\ forall m nw fuel, startable m nw fuel (la_flags la) s -> startable m nw fuel (la_flags la) s'.
Proof.
  induction 1 as [s | s s1 s' Hch _ IH]; intros Hs; [split_and!; try done |].
  pose proof (change_sound _ _ Hch Hs) as Hs1. destruct (IH Hs1) as (Hs' & Hr & Hw & Hh & Hst). destruct (change_frame _ _ Hch) as (_ & Hw1 & _).
  split_and!; try done.
  - etrans; [by apply change_refines | done].
  - congruence.
  - intros w H. apply Hh, (held_change la s); [apply Hs | done | done].
  - intros m nw fuel H. by apply Hst, (change_persistent _ s s1 Hfl Hch), H; apply Hs.
Qed.

Lemma GetWallet_opened s s' w : GetWallet GetAccountPassword s = (s', Ok w) -> held s w.
Proof.
  rewrite GetWallet_eq. destruct (negb _); [done |]. destruct (account_password s) as [pw | e]; [| done].
  destruct (OpenWallet _ _ pw) as [w' | [m | |]] eqn:Eo; try done. intros [= _ <-]. by apply (held_open s pw).
Qed.

(** What the next start reads are the parameters of the process. *)
Lemma restart_parameters s m nw fuel c : persistent (la_flags la) s ->
  Config.Init m nw fuel (la_flags la) (n_disk s) = Some (Ok c) -> parameters_of c = n_Parameters s.
Proof.
  intros (l & c0 & _ & _ & Hc & Hcf & Hpar & _) Hi. rewrite Hcf in Hc. rewrite (Init_started _ _ _ _ _ _ Hc) in Hi.
  by rewrite (parameters_started _ _ _ _ _ _ Hi).
Qed.

Lemma step_consistent p p' : step la p p' -> consistent la p ->
  consistent la p' /\ rtc spec_step (abs (pr_server p)) (abs (pr_server p'))
  /\ forall m nw fuel, startable m nw fuel (la_flags la) (pr_server p) -> startable m nw fuel (la_flags la) (pr_server p').
Proof.
  intros Hst [Hs Hm]. unfold consistent. destruct Hst as [p rnd uuid now cookie i n sess rep Hserve Hr Hmod | p s r Hk Hround Hgo | p w Hk | p ln d g Hk | p m nw fuel c Hi].
  - pose proof (serve_changes rnd uuid now cookie i (pr_node p) Hr) as H. rewrite Hserve in H. cbn [fst] in H.
    destruct (changes_refine _ _ (H Hmod) Hs) as (Hs' & Href & Hw & Hh & Hst). split_and!; try done.
    change (pr_server {| pr_node := n; pr_main := pr_main p |}) with (nd_server n). cbn [pr_main]. unfold pr_server in *.
    destruct (pr_main p); [by rewrite Hw | rewrite Hw; split; [apply Hm | apply Hh, Hm] | done].
  - rewrite Hk in Hm. pose proof (GetWallet_changes (pr_server p)) as Hch.
    unfold wallet_round in Hround. destruct (GetWallet GetAccountPassword (pr_server p)) as [s1 [w | e]] eqn:Eg; cbn [fst] in Hch;
      destruct (changes_refine _ _ Hch Hs) as (Hs' & Href & Hw & Hh & Hst).
    + simplify_eq Hround. intros -> <-. split_and!; try done. cbn. apply GetWallet_opened in Eg.
      destruct (GetDefaultAccount w); cbn; [split; [congruence | by apply Hh] | congruence].
    + assert (s1 = s /\ r = None) as [-> ->] by (by destruct e; simplify_eq Hround). split_and!; try done. cbn. congruence.
  - rewrite Hk in Hm. destruct Hm as [Hn Hh]. destruct Hs as (Hp & Hne & Hheld). unfold sound. split_and!; try done.
    + intros w' H. cbn in H. by injection H as <-.
    + apply rtc_once. destruct Hh as (content & pw & Hc & Ho). unfold abs. cbn. change (nd_server (pr_node p)) with (pr_server p).
      rewrite Hc, Hn. by apply (sp_open _ content pw).
  - destruct Hs as (Hp & Hne & Hheld). unfold sound. split_and!; try done.
  - pose proof Hs as (Hp & Hne & Hheld). pose proof (restart_parameters _ _ _ _ _ Hp Hi) as Hpar. unfold sound. split_and!; try done.
    + destruct Hp as (l & c0 & H). exists l, c0. cbn [boot pr_server pr_node nd_server n_disk n_ConfigFile n_Parameters].
      rewrite Hpar. destruct H as (H1 & H2 & H3 & H4 & H5 & H6 & H7). rewrite H4 in *. by split_and!.
    + cbn [boot pr_server pr_node nd_server n_Parameters]. by rewrite Hpar.
    + unfold abs. cbn [boot pr_server pr_node nd_server n_disk n_wallet n_Parameters]. rewrite Hpar. destruct (d_files _ !! _) as [content|]; [| apply rtc_refl].
      destruct (n_wallet (pr_server p)) as [w|]; [apply rtc_once, sp_restart | apply rtc_refl].
Qed.

(** ** The theorems *)

(** A start on a file in the form of the node, with well-spelled members, no
    flag for the beneficiary, and three different paths. *)
Record starts (m : machine) (nw : network) (fuel : nat) (d : disk) (l : list (string * jsval)) (c : struct) : Prop := {
  st_init : Config.Init m nw fuel (la_flags la) d = Some (Ok c);
  st_file : file_holds d (fl_ConfigFile (la_flags la)) l;
  st_members : well_formed l;
  st_wallet : str_field c "WalletFile" <> GetConfigFile (fl_ConfigFile (la_flags la));
  st_password : str_field c "PasswordFile" <> GetConfigFile (fl_ConfigFile (la_flags la));
  st_paths : str_field c "PasswordFile" <> str_field c "WalletFile"
}.

Lemma boot_consistent m nw fuel d l c : starts m nw fuel d l c ->
  consistent la (boot la c d) /\ startable m nw fuel (la_flags la) (pr_server (boot la c d)).
Proof.
  intros [Hi Hf Hl Hw Hp Hwp]. destruct (Init_Ok _ _ _ _ _ _ Hi) as (c0 & Hc & Hs). split; [| by exists c]. split; [| done].
  split_and!; [| done | done]. exists l, c0. cbn [boot pr_server pr_node nd_server n_disk n_ConfigFile n_Parameters].
  rewrite <- (parameters_started _ _ _ _ _ _ Hs). by split_and!.
Qed.

Lemma run_consistent p p' : rtc (step la) p p' -> consistent la p ->
  consistent la p' /\ rtc spec_step (abs (pr_server p)) (abs (pr_server p'))
  /\ forall m nw fuel, startable m nw fuel (la_flags la) (pr_server p) -> startable m nw fuel (la_flags la) (pr_server p').
Proof.
  induction 1 as [p | p p1 p' Hst _ IH]; intros Hc; [by split_and! |].
  destruct (step_consistent _ _ Hst Hc) as (Hc1 & Hr1 & Hs1). destruct (IH Hc1) as (Hc' & Hr & Hs).
  split_and!; [done | by etrans | intros m nw fuel H; by apply Hs, Hs1].
Qed.



(** The content of the wallet file. *)
Definition wallet_content (a : spec) : option (option string) :=
  match sp_wallet a with NoFile => None | Closed content | Open content _ => Some content end.

Lemma spec_content a b x : rtc spec_step a b -> wallet_content a = Some x ->
  wallet_content b = Some x /\ p_WalletFile (sp_Parameters b) = p_WalletFile (sp_Parameters a).
Proof.
  induction 1 as [a | a a1 b Hst _ IH]; [done |]. intros Ha. destruct Hst; cbn in *; try done; by destruct (IH Ha).
Qed.


(** ** A wallet of the dashboard after a restart *)

Lemma wallet_round_password s pw w : account_password s = Ok pw -> OpenWallet (n_disk s) (p_WalletFile (n_Parameters s)) pw = Ok w ->
  exists s', wallet_round s = (s', Ok (Some w)).
Proof.
  intros Hp Ho. destruct (OpenWallet_account _ _ _ _ Ho) as (Hex & _ & a & Ha). unfold wallet_round. rewrite GetWallet_eq, Hex, Hp, Ho. cbn [negb].
  rewrite Ha. by eexists.
Qed.

(** The password of a node that was not given one is that of its file. *)
Lemma account_password_file s pw : n_Passwd s = "" -> p_PasswordFile (n_Parameters s) <> "" ->
  d_files (n_disk s) !! p_PasswordFile (n_Parameters s) = Some (Some pw) -> Trim (TrimPrefix pw bom) = pw -> pw <> "" -> account_password s = Ok pw.
Proof.
  intros Hn Hf Hd Ht Hpw. apply String.eqb_neq in Hf, Hpw.
  assert (Trim (default "" (result_to_option (ReadPasswordFile s))) = pw) as Hr by (unfold ReadPasswordFile, ReadFile; by rewrite Hd).
  unfold account_password, GetAccountPassword. rewrite Hn, Hf, Hr. cbn [String.eqb andb negb n_Passwd set_Passwd]. by rewrite Hpw.
Qed.

Lemma SavePassword_writes pw s : let p := n_Parameters s in p_WebGuiCreateWallet p = true -> p_PasswordFile p <> "" -> pw <> "" ->
  FileExisted (n_disk s) (p_PasswordFile p) = false -> d_writable (n_disk s) (p_PasswordFile p) = true ->
  (SavePassword pw s).1 = set_disk s {| d_files := <[p_PasswordFile p := Some pw]> (d_files (n_disk s)); d_writable := d_writable (n_disk s) |}.
Proof.
  intros p Hweb Hf Hpw Hex Hwr. apply String.eqb_neq in Hf, Hpw. unfold SavePassword, WriteFile. fold p. by rewrite Hf, Hpw, Hweb, Hex, Hwr.
Qed.

(** C15: A wallet that was created in the dashboard is there after a restart: the
    handler saved the password, and the first round of the startup loop opens
    the wallet with it, without asking. *)
Theorem created_reopens rnd text tok now s s' b body pw addr c :
  decrypt_body s false tok text now = Ok body -> unmarshal_struct set_create_data ("", "") body = Some (pw, addr) ->
  post_wallet_create rnd text tok now s = (s', Ok b) -> well_random rnd ->
  let p := n_Parameters s in
  p_WebGuiCreateWallet p = true -> p_PasswordFile p <> "" -> p_PasswordFile p <> p_WalletFile p ->
  p_PasswordFile p <> GetConfigFile (n_ConfigFile s) -> FileExisted (n_disk s) (p_PasswordFile p) = false ->
  d_writable (n_disk s) (p_PasswordFile p) = true -> pw <> "" -> Trim (TrimPrefix pw bom) = pw ->
  la_Passwd la = "" -> parameters_of c = n_Parameters s' ->
  exists s2 w, wallet_round (pr_server (boot la c (n_disk s'))) = (s2, Ok (Some w)) /\ w_PasswordHash w = PasswordHash pw.
Proof.
  intros Hdec Hum Hpost Hrnd p Hweb Hpf Hpw Hpc Hex Hwr Hne Htrim Hla Hc. unfold post_wallet_create in Hpost. rewrite Hdec, Hum in Hpost.
  destruct (n_wallet s); [done |]. fold p in Hpost. rewrite Hweb in Hpost.
  destruct (SetBeneficiaryAddr addr (p_AllowEmptyBeneficiaryAddress p) s) as [s1 [[] | e]] eqn:Eb; [| done].
  destruct (SetBeneficiaryAddr_cases _ _ _ _ Eb) as [[_ [e He]] | (l & _ & _ & _ & -> & _)]; [done |]. set (s1 := beneficiary_set addr l s) in *.
  destruct (NewWallet _ _ _ _) as [[w d] | e] eqn:En; [| done]. pose proof (NewWallet_opened _ _ _ _ _ _ Hrnd En) as Ho.
  apply NewWallet_file in En as (_ & _ & t & Hd). change (n_Passwd (set_Passwd ?x pw)) with pw in Hpost.
  change (p_WalletFile (n_Parameters s1)) with (p_WalletFile p) in *.
  set (s2 := set_Passwd (set_disk s1 d) pw) in *. rewrite (SavePassword_writes pw s2) in Hpost; try done.
  - injection Hpost as <- _.
    set (d' := {| d_files := <[p_PasswordFile p := Some pw]> (d_files d); d_writable := d_writable d |}).
    change (n_Parameters (raise_flag _ _)) with (n_Parameters s1) in Hc. change (n_disk (raise_flag _ _)) with d'.
    assert (OpenWallet d' (p_WalletFile p) pw = Ok w) as Ho' by (rewrite <- Ho; apply OpenWallet_ext; cbn; by rewrite lookup_insert_ne).
    destruct (wallet_round_password (pr_server (boot la c d')) pw w) as [s3 H3].
    + apply account_password_file; cbn [boot pr_server pr_node nd_server n_Passwd n_Parameters n_disk]; rewrite ?Hc; try done. cbn. by rewrite lookup_insert_eq.
    + cbn [boot pr_server pr_node nd_server n_Parameters n_disk]. by rewrite Hc.
    + exists s3, w. split; [done |]. by apply OpenWallet_account in Ho as (_ & ? & _).
  - cbn. subst d. unfold FileExisted in *. cbn. by rewrite !lookup_insert_ne.
  - cbn. by subst d.
Qed.
End Refinement.

(** ** The file that is shipped *)

(** config.mainnet.json *)
Definition mainnet_members : list (string * jsval) := [("beneficiaryAddr", VStr "")].
Definition config_mainnet : string :=
  ("{" +:+ break (Some "  ") 1 +:+ quoted "beneficiaryAddr" +:+ ": " +:+ quoted "" +:+ break (Some "  ") 0 +:+ "}" +:+ break (Some "  ") 0)%string.

Section Shipped.
Context {C : StdCrypto} {A : AddressLib}.

Lemma read_mainnet d : d_files d !! defaultConfigFile = Some (Some config_mainnet) -> read_map d "" = Ok (Some mainnet_members).
Proof.
  intros Hd. unfold read_map, OpenConfigFile, ReadFile. change (GetConfigFile "") with defaultConfigFile. rewrite Hd. vm_compute. reflexivity.
Qed.

(** Without its flag the beneficiary is that of the file. *)
Lemma with_flags_field fl c : fl_BeneficiaryAddr fl = "" -> with_flags fl c !! "BeneficiaryAddr" = c !! "BeneficiaryAddr".
Proof.
  intros Hfb. assert (forall n s c', n <> "BeneficiaryAddr" -> set_str n s c' !! "BeneficiaryAddr" = c' !! "BeneficiaryAddr") as H1
    by (intros n s c' Hn; unfold set_str; destruct (String.eqb s ""); [done | by rewrite lookup_insert_ne]).
  assert (forall n s c', n <> "BeneficiaryAddr" -> set_list n s c' !! "BeneficiaryAddr" = c' !! "BeneficiaryAddr") as H2
    by (intros n s c' Hn; unfold set_list; destruct (String.eqb s ""); [done | by rewrite lookup_insert_ne]).
  assert (forall n b c', n <> "BeneficiaryAddr" -> set_bool n b c' !! "BeneficiaryAddr" = c' !! "BeneficiaryAddr") as H3
    by (intros n b c' Hn; unfold set_bool; destruct b; [by rewrite lookup_insert_ne | done]).
  unfold with_flags, flags_after_ports, flags_before_ports. cbv zeta. rewrite !H1, H3, H1, H3, H1, !H2 by done. rewrite Hfb.
  change (set_str "BeneficiaryAddr" "" ?x) with x. by rewrite !H1 by done.
Qed.

(** Both spellings name the field. *)
Lemma set_beneficiary k raw v c : k = "BeneficiaryAddr" \/ k = "beneficiaryAddr" ->
  set_field k raw v c = (x ← decode KStr (get c beneficiary_field) raw v; Some (<["BeneficiaryAddr" := x]> c)).
Proof. by intros [-> | ->]. Qed.

(** The file after an address was assigned: the member that is shipped comes
    last. *)
Lemma load_assigned d addr : ascii_text addr = true ->
  exists c, load (written_disk d "" (file_text (assoc_set "BeneficiaryAddr" (VStr addr) mainnet_members))) "" = Ok c /\ str_field c "BeneficiaryAddr" = "".
Proof.
  intros Ha. set (l := [("BeneficiaryAddr", VStr addr); ("beneficiaryAddr", VStr "")]).
  assert (jsonable (VObj l) = true) as Hj by done.
  assert (plain (VObj l) = true) as Hp by (cbn [plain forallb fst snd l]; by rewrite Ha).
  destruct (marshal_reads (Some "    ") (VObj l) ltac:(by intros r) Hj Hp 0) as (text & Ht & _).
  assert (file_text (assoc_set "BeneficiaryAddr" (VStr addr) mainnet_members) = text) as ->.
  { unfold file_text. change (as_map _) with (VObj l). unfold MarshalIndent. by rewrite Ht. }
  destruct (unmarshal_written (Some "    ") l text "" Parameters ltac:(by intros r) Hj Hp Ht) as [_ Hu]; [by intros r | done |].
  exists (<["BeneficiaryAddr" := GStr ""]> (<["BeneficiaryAddr" := GStr addr]> Parameters)).
  split; [| unfold str_field; by rewrite lookup_insert_eq].
  unfold load, OpenConfigFile, ReadFile, written_disk. cbn [d_files]. rewrite lookup_insert_eq. bind_simpl.
  rewrite <- (string_app_nil_r text), (TrimPrefix_object _ _ _ _ Ht), Hu. unfold l. cbn [map written set_members fst snd].
  rewrite set_beneficiary, default_beneficiary by by left. cbn [decode]. unfold to_text. cbn [to_str fmap option_fmap option_map]. bind_simpl.
  rewrite (to_utf8_valid addr), set_beneficiary by (by apply ascii_utf8 || by right). unfold get. cbn [f_name f_kind beneficiary_field].
  rewrite lookup_insert_eq. reflexivity.
Qed.

(** C39: With the configuration file that is shipped, the beneficiary the dashboard
    saves is lost: the member of the file is spelled beneficiaryAddr, saving
    adds a second one, and the next start decodes both into the field, the empty
    one last. *)
Theorem beneficiary_lost addr s s' m nw fuel fl c :
  n_ConfigFile s = "" -> d_files (n_disk s) !! defaultConfigFile = Some (Some config_mainnet) ->
  ascii_text addr = true ->
  SetBeneficiaryAddr addr (p_AllowEmptyBeneficiaryAddress (n_Parameters s)) s = (s', Ok tt) ->
  fl_ConfigFile fl = "" -> fl_BeneficiaryAddr fl = "" ->
  Config.Init m nw fuel fl (n_disk s') = Some (Ok c) ->
  p_BeneficiaryAddr (n_Parameters s') = addr /\ p_BeneficiaryAddr (parameters_of c) = "".
Proof.
  intros Hcf Hd Ha Hset Hfc Hfb Hi. destruct (SetBeneficiaryAddr_cases _ _ _ _ Hset) as [[_ [e He]] | (l & _ & Hr & _ & -> & _)]; [done |].
  rewrite Hcf, (read_mainnet _ Hd) in Hr. apply (inj Ok), (inj Some) in Hr. subst l. split; [done |].
  destruct (load_assigned (n_disk s) addr Ha) as (c0 & Hc0 & Hb).
  change (n_disk (beneficiary_set addr mainnet_members s)) with (written_disk (n_disk s) (n_ConfigFile s) (file_text (assoc_set "BeneficiaryAddr" (VStr addr) mainnet_members))) in Hi.
  rewrite Hcf in Hi. rewrite (Init_started m nw fuel fl _ c0) in Hi by (by rewrite Hfc).
  rewrite (parameters_started _ _ _ _ _ _ Hi). unfold parameters_of, str_field in *. cbn [p_BeneficiaryAddr]. by rewrite with_flags_field.
Qed.
End Shipped.

(** ** The theorems at concrete inputs *)

Module RunSamples.
Import Toy ToyAddress ToyVault VaultSamples RouteSamples.

(** The disk of the sample wallet with a configuration file, and a launch with
    the password on the command line. *)
Definition run_members : list (string * jsval) := [("PasswordFile", VStr "wallet.pswd"); ("WebGuiCreateWallet", VBool true)].
Definition run_disk : disk := {|
  d_files := <["config.json" := Some (default "" (MarshalIndent (VObj run_members) "  "))]> (d_files sample_disk); d_writable := d_writable sample_disk |}.
Definition run_flags : flags := mk_flags "" "" "" "" "" "" "" "" false "" false "" "" "".
Definition run_launch : launch := mk_launch run_flags "hunter2" "" None.
Definition run_machine : machine := mk_machine 8589934592 (fun _ _ => 0).
Definition run_network : network := mk_network (fun _ _ => true) (fun _ _ => true) (fun _ _ => true).
Definition struct_of (o : option (go struct)) : struct := match o with Some (Ok c) => c | _ => ∅ end.
Definition succeeds (o : option (go struct)) : bool := match o with Some (Ok _) => true | _ => false end.
Lemma succeeds_eq o : succeeds o = true -> o = Some (Ok (struct_of o)).
Proof. by destruct o as [[c | e] |]. Qed.

Definition run_struct : struct :=
  struct_of (Config.Init run_machine run_network 1 run_flags run_disk).

Lemma run_starts_up : succeeds (Config.Init run_machine run_network 1 run_flags run_disk) = true.
Proof. vm_compute. reflexivity. Qed.
Lemma run_wallet_path : str_field run_struct "WalletFile" = "wallet.json".
Proof. vm_compute. reflexivity. Qed.
Lemma run_password_path : str_field run_struct "PasswordFile" = "wallet.pswd".
Proof. vm_compute. reflexivity. Qed.

Lemma run_init : Config.Init run_machine run_network 1 run_flags run_disk = Some (Ok run_struct).
Proof. exact (succeeds_eq _ run_starts_up). Qed.

Lemma run_well_formed : well_formed run_members.
Proof.
  split_and!; [reflexivity | reflexivity |].
  intros k v f [[= <- <-] | [[= <- <-] | []]] Hf; vm_compute in Hf; injection Hf as <-; reflexivity.
Qed.

Lemma run_starts : starts run_launch run_machine run_network 1 run_disk run_members run_struct.
Proof.
  constructor.
  - exact run_init.
  - exists (Some "  "), (default "" (MarshalIndent (VObj run_members) "  ")), "". split_and!; [by intros r | reflexivity | by intros r | exact I |].
    vm_compute. reflexivity.
  - exact run_well_formed.
  - rewrite run_wallet_path. discriminate.
  - rewrite run_password_path. discriminate.
  - rewrite run_wallet_path, run_password_path. discriminate.
Qed.

(** The node opens its wallet, gives it to the dashboard, and serves a request
    that saves settings. *)
Definition run_boot : process := boot run_launch run_struct run_disk.
Definition run_opened : server := (wallet_round (pr_server run_boot)).1.
Definition run_having : process := with_server run_boot run_opened (Having sample_wallet).
Definition run_running : process := with_server run_having (NodeState.Init run_opened None (Some sample_wallet) "") Running.

Definition run_settings : jsval := VObj [
  ("registerIDTxnFee", VInt 1); ("numLowFeeTxnPerBlock", VInt 2); ("lowFeeTxnSizePerBlock", VInt 3); ("lowTxnFee", VInt 4); ("lowTxnFeePerSize", VInt 5)].
Definition run_request : incoming := {|
  i_method := "PUT"; i_path := "/api/node/config"; i_unix := "1600000000";
  i_auth := hex_encode (password_key (PasswordHash "hunter2") "tok" (sample_now - 1));
  i_text := data_reply (EncryptData (wallet_hash (pr_server run_running)) true "tok" (default "" (Marshal run_settings)) sample_now)
|}.
Definition run_saved : node := (serve sample_random "tok" sample_now None run_request (pr_node run_running)).1.1.
Definition run_process : process := {| pr_node := run_saved; pr_main := Running |}.

Definition settings_of (p : Configuration) : Z * Z * Z * Z * num * string :=
  (p_RegisterIDTxnFee p, p_NumLowFeeTxnPerBlock p, p_LowFeeTxnSizePerBlock p, p_LowTxnFee p, p_LowTxnFeePerSize p, p_BeneficiaryAddr p).

Lemma run_round : (wallet_round (pr_server run_boot)).2 = Ok (Some sample_wallet).
Proof. vm_compute. reflexivity. Qed.
Lemma run_values : settings_of (n_Parameters (nd_server run_saved)) = (1, 2, 3, 4, num_of_Z 5, "").
Proof. vm_compute. reflexivity. Qed.
Lemma run_wallet : n_wallet (nd_server run_saved) = Some sample_wallet.
Proof. vm_compute. reflexivity. Qed.

Lemma modest_settings p : settings_of p = (1, 2, 3, 4, num_of_Z 5, "") -> modest_parameters p.
Proof.
  unfold settings_of. intros [= H1 H2 H3 H4 H5 H6]. unfold modest_parameters. rewrite H1, H2, H3, H4, H5, H6.
  split; [| reflexivity]. unfold modest, safe. cbn. split_and!; lia || reflexivity.
Qed.

Lemma sample_well_random : well_random sample_random.
Proof. split; [repeat split |]. intros seed H. vm_compute in H. injection H as <-. reflexivity. Qed.

Lemma run_opens : rtc (step run_launch) run_boot run_running.
Proof.
  apply (rtc_l _ _ run_having).
  - apply (step_wait run_launch run_boot run_opened (Some sample_wallet)); [reflexivity | | left; discriminate].
    unfold run_opened. rewrite <- run_round. apply surjective_pairing.
  - apply rtc_once. by apply (step_wallet run_launch run_having sample_wallet).
Qed.

Lemma run_saves : rtc (step run_launch) run_running run_process.
Proof.
  apply rtc_once.
  apply (step_serve run_launch run_running sample_random "tok" sample_now None run_request run_saved
           (serve sample_random "tok" sample_now None run_request (pr_node run_running)).1.2
           (serve sample_random "tok" sample_now None run_request (pr_node run_running)).2); [| exact sample_well_random | exact (modest_settings _ run_values)].
  unfold run_saved. by destruct (serve _ _ _ _ _ _) as [[n sess] rep].
Qed.



Lemma run_wallet_file : exists content, d_files run_disk !! "wallet.json" = Some content.
Proof. eexists. vm_compute. reflexivity. Qed.


(** A node that runs on the shipped file, and an address of its own. *)
Definition mainnet_disk : disk := {| d_files := {["config.json" := Some config_mainnet]}; d_writable := fun _ => true |}.
Definition mainnet_server : server := {|
  n_Status := 0; n_localNode := None; n_wallet := None; n_id := None;
  n_Parameters := mk_Configuration "" 0 0 8192 10000000 (num_of_Z 50000) true false "wallet.json" "wallet.pswd";
  n_ConfigFile := ""; n_disk := mainnet_disk; n_Passwd := ""; n_env := ""; n_terminal := None; n_ledger := None |}.
Definition mainnet_address : string := Eval vm_compute in wd_Address (s_WalletData (w_WalletStore sample_wallet)).
Definition mainnet_saved : server * go unit := SetBeneficiaryAddr mainnet_address false mainnet_server.
Definition mainnet_struct : struct :=
  struct_of (Config.Init run_machine run_network 1 run_flags (n_disk mainnet_saved.1)).

Lemma mainnet_done : mainnet_saved.2 = Ok tt.
Proof. vm_compute. reflexivity. Qed.
Lemma mainnet_starts : succeeds (Config.Init run_machine run_network 1 run_flags (n_disk mainnet_saved.1)) = true.
Proof. vm_compute. reflexivity. Qed.

Lemma beneficiary_lost_witness :
  p_BeneficiaryAddr (n_Parameters mainnet_saved.1) = mainnet_address /\ p_BeneficiaryAddr (parameters_of mainnet_struct) = "".
Proof.
  apply (beneficiary_lost mainnet_address mainnet_server mainnet_saved.1 run_machine run_network 1 run_flags mainnet_struct);
    [reflexivity | reflexivity | vm_compute; reflexivity | | reflexivity | reflexivity |].
  - rewrite <- mainnet_done. apply surjective_pairing.
  - exact (succeeds_eq _ mainnet_starts).
Defined.

(** A wallet is created, and the node is started again without a password. *)
Definition fresh_server : server := {|
  n_Status := 2; n_localNode := None; n_wallet := None; n_id := None;
  n_Parameters := mk_Configuration "" 0 0 8192 10000000 (num_of_Z 50000) true false "wallet.json" "wallet.pswd";
  n_ConfigFile := "";
  n_disk := {| d_files := {["config.json" := Some (default "" (MarshalIndent (VObj run_members) "  "))]}; d_writable := fun _ => true |};
  n_Passwd := ""; n_env := ""; n_terminal := None; n_ledger := None |}.
Definition fresh_body : string := Eval vm_compute in
  default "" (Marshal (VObj [("password", VStr "hunter2"); ("beneficiaryAddr", VStr mainnet_address)])).
Definition fresh_text : string := Eval vm_compute in data_reply (EncryptData None false "tok" fresh_body sample_now).
Definition fresh_created : server := Eval vm_compute in (post_wallet_create sample_random fresh_text "tok" sample_now fresh_server).1.
Definition again : launch := mk_launch run_flags "" "" None.
Definition again_struct : struct :=
  struct_of (Config.Init run_machine run_network 1 run_flags (n_disk fresh_created)).

Lemma fresh_decrypted : decrypt_body fresh_server false "tok" fresh_text sample_now = Ok fresh_body.
Proof. vm_compute. reflexivity. Qed.
Lemma fresh_created_eq : post_wallet_create sample_random fresh_text "tok" sample_now fresh_server = (fresh_created, Ok empty_json).
Proof. vm_compute. reflexivity. Qed.
Lemma fresh_unmarshalled : unmarshal_struct set_create_data ("", "") fresh_body = Some ("hunter2", mainnet_address).
Proof. vm_compute. reflexivity. Qed.
Lemma again_parameters : parameters_of again_struct = n_Parameters fresh_created.
Proof. vm_compute. reflexivity. Qed.

Lemma created_reopens_witness :
  exists s w, wallet_round (pr_server (boot again again_struct (n_disk fresh_created))) = (s, Ok (Some w)) /\ w_PasswordHash w = PasswordHash "hunter2".
Proof.
  pose proof (created_reopens again sample_random fresh_text "tok" sample_now fresh_server fresh_created empty_json fresh_body "hunter2" mainnet_address again_struct
           fresh_decrypted fresh_unmarshalled fresh_created_eq sample_well_random) as H. cbv zeta in H.
  apply H; [reflexivity | discriminate | discriminate | discriminate | reflexivity | reflexivity | discriminate | reflexivity | reflexivity | exact again_parameters].
Defined.
End RunSamples.
