(* ===== verification/InitSpec.v ===== *)
(** * What a successful start guarantees: config.Init and its search for ports

    [init_verified]: the bounds the parameters satisfy once [Config.Init] has
    returned without an error, whatever the file and the command line said.
    [ports_found]: the loop of [incrementPort] ends at the first candidate the
    network lets it open, and moves the five ports alike.  The last section has
    two inputs that the code does not foresee: a cache size whose bytes do not
    fit 32 bits, and a batch size of 0. *)

From S2P Require Import Prelude JsNum JsValue Json GoJson GoMarshal CryptoLib Address Server Vault Config ConfigSpec NodeState Routes NodeRuns.
Local Open Scope Z_scope.

(** ** [verify] *)

Section Verified.
Context {C : StdCrypto} {A : AddressLib}.

Lemma refuse_bind {B} b msg (k : unit -> go B) r : (refuse b msg ≫= k) = Ok r -> b = false /\ k tt = Ok r.
Proof. by destruct b. Qed.

Record verified (c : struct) : Prop := {
  v_seeds : strs_field c "SeedList" <> [];
  v_stuns : strs_field c "StunList" <> [];
  v_txns : num_field c "NumTxnPerBlock" <= MaxNumTxnPerBlock;
  v_proposer : exists pk, hex_decode (str_field c "GenesisBlockProposer") = Some pk /\ String.length pk = PublicKeySize;
  v_beneficiary : str_field c "BeneficiaryAddr" = "" \/ is_Some (ToScriptHash (str_field c "BeneficiaryAddr"));
  v_log : 1 <= num_field c "MaxLogFileSize";
  v_logs : 1 <= num_field c "MaxLogFileTotalSize";
  v_pruning : str_field c "StatePruningMode" ∈ ["lowmem"; "none"];
  v_sync : str_field c "SyncMode" ∈ ["light"; "fast"; "full"];
  v_delay : GenerateIDBlockDelay < num_field c "RecentBlockCount";
  v_chain : num_field c "SigChainCacheSize" < num_field c "RecentBlockCount";
  v_rollback : num_field c "MaxRollbackBlocks" < num_field c "RecentBlockCount"
}.

Ltac refused H := apply refuse_bind in H as [? H].

Lemma verify_verified c : verify c = Ok tt -> verified c.
Proof.
  unfold verify. intros H. do 4 refused H.
  destruct (hex_decode _) as [pk |] eqn:Epk; [| done]. cbn [mbind result_bind] in H. do 8 refused H.
  match type of H with refuse ?b _ = _ => destruct b eqn:?; [done |] end.
  repeat match goal with
         | E : bool_decide _ = false |- _ => apply bool_decide_eq_false in E
         | E : negb _ = false |- _ => apply negb_false_iff in E
         | E : bool_decide _ = true |- _ => apply bool_decide_eq_true in E
         end.
  constructor; try done; try lia.
  - exists pk. split; [done | by apply Nat.eqb_eq].
  - match goal with E : _ && _ = false |- _ => rename E into Eb end. apply andb_false_iff in Eb as [Eb | Eb]; apply negb_false_iff in Eb.
    + left. by apply String.eqb_eq.
    + right. by apply bool_decide_eq_true in Eb.
Qed.

(** ** The computed fields *)

Lemma num_field_insert c n z : num_field (<[n := GNum z]> c) n = z.
Proof. unfold num_field. by rewrite lookup_insert_eq. Qed.

Lemma fill_positive n v d c : d <> 0 -> num_field (fill n v d c) n <> 0.
Proof.
  intros Hd. unfold fill. destruct (num_field c n =? 0) eqn:E; [| lia]. rewrite num_field_insert.
  destruct (v =? 0) eqn:Ev; lia.
Qed.

Lemma at_least_bound n v c : v <= num_field (at_least n v c) n.
Proof. unfold at_least. destruct (num_field c n <? v) eqn:E; [by rewrite num_field_insert | lia]. Qed.

(** The fields that later statements leave alone. *)
Lemma num_field_eq c c' n : c !! n = c' !! n -> num_field c n = num_field c' n.
Proof. unfold num_field. by intros ->. Qed.
Lemma cache_other m c n : n <> "ClientMsgCacheSize" -> num_field (fill_ClientMsgCacheSize m c) n = num_field c n.
Proof.
  intros Hn. unfold fill_ClientMsgCacheSize. cbv zeta.
  destruct (_ <=? 0); apply num_field_eq; [by apply fill_other | by rewrite lookup_insert_ne].
Qed.
Lemma num_fill_other n k v d c : n <> k -> num_field (fill n v d c) k = num_field c k.
Proof. intros H. by apply num_field_eq, fill_other. Qed.
Lemma num_least_other n k v c : n <> k -> num_field (at_least n v c) k = num_field c k.
Proof. intros H. by apply num_field_eq, at_least_other. Qed.

Lemma batch_filled m c c' : fill_SyncBatchWindowSize m c = Ok c' ->
  num_field c' "SyncBatchWindowSize" <> 0 /\ forall k, k <> "SyncBatchWindowSize" -> num_field c' k = num_field c k.
Proof.
  unfold fill_SyncBatchWindowSize. destruct (num_field c "SyncBatchWindowSize" =? 0) eqn:E; cbn [negb].
  - destruct (num_field c "SyncBlocksBatchSize" =? 0); [done |]. intros [= <-]. split; [by apply fill_positive | intros k Hk; by apply num_fill_other].
  - intros [= <-]. split; [lia | done].
Qed.

Record filled (c : struct) : Prop := {
  f_threads : num_field c "SyncStateMaxThread" <> 0;
  f_headers : num_field c "SyncHeaderMaxSize" <> 0;
  f_window : num_field c "SyncBatchWindowSize" <> 0;
  f_pool : num_field c "TxPoolMaxMemorySize" <> 0;
  f_header_cache : SigChainSkipMinerBlocks + 64 <= num_field c "BlockHeaderCacheSize";
  f_chain_cache : SigChainSkipMinerBlocks + 64 <= num_field c "SigChainCacheSize"
}.

Lemma fill_all_filled m c c' : fill_all m c = Ok c' -> filled c'.
Proof.
  unfold fill_all. cbv zeta. set (c1 := fill_SyncHeaderMaxSize m (fill_SyncStateMaxThread m c)). intros H.
  destruct (fill_SyncBatchWindowSize m c1) as [c2 |] eqn:E; [| done]. cbn [mbind result_bind] in H.
  apply (inj Ok) in H. subst c'. apply batch_filled in E as [Hw Hk]. unfold fill_TxPoolMaxMemorySize.
  constructor; rewrite cache_other by done.
  - rewrite !num_least_other, num_fill_other, Hk by done. unfold c1, fill_SyncHeaderMaxSize, fill_SyncStateMaxThread.
    rewrite num_fill_other by done. by apply fill_positive.
  - rewrite !num_least_other, num_fill_other, Hk by done. by apply fill_positive.
  - by rewrite !num_least_other, num_fill_other.
  - rewrite !num_least_other by done. by apply fill_positive.
  - rewrite num_least_other by done. apply at_least_bound.
  - apply at_least_bound.
Qed.

End Verified.

(** ** [incrementPort] *)

Section Ports.
Context (nw : network).

(** The [i]-th attempt goes on to the next port, or ends with this one. *)
Definition taken (i : nat) (p : Z) : Prop :=
  tcp_listens nw i p = false \/ udp_resolves nw i p = true /\ udp_listens nw i p = false.
Definition open_port (i : nat) (p : Z) : Prop :=
  tcp_listens nw i p = true /\ udp_resolves nw i p = true /\ udp_listens nw i p = true.

Lemma uint16_add a b : uint16 (a + uint16 b) = uint16 (a + b).
Proof. unfold uint16. apply Zplus_mod_idemp_r. Qed.
Lemma uint16_add_l a b : uint16 (uint16 a + b) = uint16 (a + b).
Proof. unfold uint16. apply Zplus_mod_idemp_l. Qed.

Definition candidate (port step : Z) (i : nat) : Z := uint16 (port + Z.of_nat i * step).

Lemma next_delta step i : uint16 (uint16 (Z.of_nat i * step) + step) = uint16 (Z.of_nat (S i) * step).
Proof. rewrite uint16_add_l. f_equal. lia. Qed.

Lemma find_delta_taken port step fuel i : taken i (candidate port step i) ->
  find_delta nw port step (S fuel) i (uint16 (Z.of_nat i * step)) = find_delta nw port step fuel (S i) (uint16 (Z.of_nat (S i) * step)).
Proof.
  intros H. cbn [find_delta]. cbv zeta. rewrite uint16_add, next_delta. fold (candidate port step i).
  destruct H as [-> | [Hr Hl]]; [done |]. rewrite Hr, Hl. by destruct (tcp_listens _ _ _).
Qed.

Lemma find_delta_open port step fuel i : open_port i (candidate port step i) ->
  find_delta nw port step (S fuel) i (uint16 (Z.of_nat i * step)) = Some (Some (uint16 (Z.of_nat i * step))).
Proof.
  intros (H1 & H2 & H3). cbn [find_delta]. cbv zeta. rewrite uint16_add. fold (candidate port step i). by rewrite H1, H2, H3.
Qed.

(** [n] attempts on taken ports. *)
Lemma find_delta_skip port step n fuel i : (forall j, (i <= j < i + n)%nat -> taken j (candidate port step j)) ->
  find_delta nw port step (n + fuel) i (uint16 (Z.of_nat i * step))
  = find_delta nw port step fuel (i + n) (uint16 (Z.of_nat (i + n) * step)).
Proof.
  revert i. induction n as [| n IH]; intros i H; [by rewrite Nat.add_0_r |].
  rewrite Nat.add_succ_l, find_delta_taken by (apply H; lia). rewrite IH by (intros j Hj; apply H; lia).
  by replace (S i + n)%nat with (i + S n)%nat by lia.
Qed.

Lemma find_delta_first port step k fuel : (forall j, (j < k)%nat -> taken j (candidate port step j)) ->
  open_port k (candidate port step k) -> (k < fuel)%nat ->
  find_delta nw port step fuel 0 0 = Some (Some (uint16 (Z.of_nat k * step))).
Proof.
  intros Ht Ho Hk. replace fuel with (k + S (fuel - k - 1))%nat by lia.
  rewrite (find_delta_skip port step k _ 0) by (intros j Hj; apply Ht; lia). by apply find_delta_open.
Qed.

(** The width of the block of ports. *)
Definition port_step (c : struct) : Z :=
  let '(mn, mx) := findMinMaxPort (num_field c "NodePort")
    [num_field c "HttpWsPort"; num_field c "HttpJsonPort"; num_field c "HttpWssPort"; num_field c "HttpsJsonPort"] in
  uint16 (mx - mn + 1).

Lemma incrementPort_eq fuel c : incrementPort nw fuel c =
  (delta ← find_delta nw (num_field c "NodePort") (port_step c) fuel 0 0;
   Some (match delta with None => c | Some delta => fold_left (add_port delta) port_fields c end)).
Proof. unfold incrementPort, port_step. by destruct (findMinMaxPort _ _). Qed.

Lemma add_ports_lookup delta l c : NoDup l -> forall n,
  fold_left (add_port delta) l c !! n = if bool_decide (n ∈ l) then Some (GNum (uint16 (num_field c n + delta))) else c !! n.
Proof.
  intros Hl. revert c. induction Hl as [| k l Hk Hl IH]; intros c n; [done |]. cbn [fold_left]. rewrite IH. unfold add_port.
  destruct (decide (n = k)) as [-> | Hn].
  - rewrite bool_decide_eq_false_2 by done. rewrite bool_decide_eq_true_2 by left. by rewrite lookup_insert_eq.
  - rewrite (num_field_eq (<[k := _]> c) c n), lookup_insert_ne by (done || by rewrite lookup_insert_ne).
    rewrite (bool_decide_ext (n ∈ k :: l) (n ∈ l)); [done |]. rewrite elem_of_cons. tauto.
Qed.

(** Ports a shift apart stay so. *)
Lemma uint16_distinct a b delta : 0 <= a < 2 ^ 16 -> 0 <= b < 2 ^ 16 -> a <> b -> uint16 (a + delta) <> uint16 (b + delta).
Proof.
  intros Ha Hb Hn. unfold uint16. intros E. apply Hn.
  rewrite <- (Z.mod_small a (2 ^ 16)), <- (Z.mod_small b (2 ^ 16)) by done.
  replace a with ((a + delta) - delta) by lia. replace b with ((b + delta) - delta) by lia.
  by rewrite Zminus_mod, E, <- Zminus_mod.
Qed.

(** C29: The search for ports ends with the first candidate that can be opened: with
    as many rounds as that takes, or more, [incrementPort] returns, the five
    ports have moved by the same number of blocks, modulo 2^16, different ports
    are still different, and no other parameter has changed. *)
Theorem ports_found c k fuel :
  (forall j, (j < k)%nat -> taken j (candidate (num_field c "NodePort") (port_step c) j)) ->
  open_port k (candidate (num_field c "NodePort") (port_step c) k) ->
  (k < fuel)%nat ->
  exists c', incrementPort nw fuel c = Some c'
    /\ open_port k (num_field c' "NodePort")
    /\ (forall n, n ∈ port_fields -> num_field c' n = uint16 (num_field c n + Z.of_nat k * port_step c))
    /\ (forall n, n ∉ port_fields -> c' !! n = c !! n)
    /\ (forall n n', n ∈ port_fields -> n' ∈ port_fields -> 0 <= num_field c n < 2 ^ 16 -> 0 <= num_field c n' < 2 ^ 16 ->
        num_field c n <> num_field c n' -> num_field c' n <> num_field c' n').
Proof.
  intros Ht Ho Hk. rewrite incrementPort_eq, (find_delta_first _ _ k) by done. eexists. split; [reflexivity |].
  assert (NoDup port_fields) as Hd by (apply (bool_decide_unpack _); vm_compute; exact I).
  pose proof (add_ports_lookup (uint16 (Z.of_nat k * port_step c)) port_fields c Hd) as Hl.
  assert (forall n, n ∈ port_fields -> num_field (fold_left (add_port (uint16 (Z.of_nat k * port_step c))) port_fields c) n
                                       = uint16 (num_field c n + Z.of_nat k * port_step c)) as Hp.
  { intros n Hn. unfold num_field at 1. rewrite Hl, bool_decide_eq_true_2 by done. apply uint16_add. }
  split_and!; [| done | |].
  - rewrite Hp by (by left). done.
  - intros n Hn. by rewrite Hl, bool_decide_eq_false_2.
  - intros n n' Hn Hn' Hb Hb' Hne. rewrite !Hp by done. by apply uint16_distinct.
Qed.

(** Where every candidate is taken the loop does not end. *)
Lemma ports_never_found c : (forall j, taken j (candidate (num_field c "NodePort") (port_step c) j)) ->
  forall fuel, incrementPort nw fuel c = None.
Proof.
  intros H fuel. rewrite incrementPort_eq. replace fuel with (fuel + 0)%nat by lia.
  by rewrite (find_delta_skip _ _ fuel 0 0) by (intros; apply H).
Qed.
End Ports.

(** ** Inputs the code does not foresee *)

(** A cache size in MB is converted to bytes modulo 2^32: 4096 MB are 0 bytes. *)
Lemma cache_size_wraps m c : 0 < num_field c "ClientMsgCacheSize" ->
  num_field (fill_ClientMsgCacheSize m c) "ClientMsgCacheSize" = (num_field c "ClientMsgCacheSize" mod 4096) * 2 ^ 20.
Proof.
  intros H. unfold fill_ClientMsgCacheSize. cbv zeta. rewrite (proj2 (Z.leb_gt _ _) H), num_field_insert. unfold uint32.
  rewrite <- Z.mul_assoc. change (1024 * 1024) with (2 ^ 20). change (2 ^ 32) with (4096 * 2 ^ 20). by rewrite Z.mul_mod_distr_r.
Qed.

(** A batch size of 0 in the file makes the node panic on its start. *)
Lemma zero_batch_panics m c : num_field c "SyncBatchWindowSize" = 0 -> num_field c "SyncBlocksBatchSize" = 0 -> fill_all m c = Err Panic.
Proof.
  intros Hw Hb. unfold fill_all. cbv zeta.
  assert (forall k, k <> "SyncHeaderMaxSize" -> k <> "SyncStateMaxThread" ->
    num_field (fill_SyncHeaderMaxSize m (fill_SyncStateMaxThread m c)) k = num_field c k) as Hk.
  { intros k H1 H2. unfold fill_SyncHeaderMaxSize, fill_SyncStateMaxThread. by rewrite !num_fill_other by congruence. }
  unfold fill_SyncBatchWindowSize. by rewrite !Hk, Hw, Hb by done.
Qed.

Module InitSamples.
Import Toy ToyAddress ToyVault VaultSamples RouteSamples RunSamples.


(** The default port 30001 is taken by another node. *)
Definition second_node : network := mk_network (fun _ p => negb (p =? 30001)) (fun _ _ => true) (fun _ _ => true).

Lemma default_candidates : candidate (num_field Parameters "NodePort") (port_step Parameters) 0 = 30001
  /\ candidate (num_field Parameters "NodePort") (port_step Parameters) 1 = 30006.
Proof. vm_compute. done. Qed.

Lemma ports_found_witness : exists c', incrementPort second_node 2 Parameters = Some c' /\ num_field c' "NodePort" = 30006.
Proof.
  destruct (ports_found second_node Parameters 1 2) as (c' & H & _ & Hp & _ & _).
  - intros j Hj. replace j with 0%nat by lia. rewrite (proj1 default_candidates). by left.
  - by rewrite (proj2 default_candidates).
  - lia.
  - exists c'. split; [exact H |]. rewrite Hp by (by left). exact (proj2 default_candidates).
Defined.
End InitSamples.
