(* ===== verification/Protocol.v ===== *)
(** * Browser and node together

    The two ends of the dashboard protocol, plugins/axios.js and
    helpers/crypto.js on one side, dashboard/helpers and dashboard/auth on the
    other: they derive the same seeds and keys, the node accepts the header
    the browser computes, and each end reads what the other wrote, as long as
    the clocks are within the window. *)

From S2P Require Import Prelude JsNum JsValue Json CryptoLib CryptoHelpers Runtime Store AxiosPlugin Server.
Local Open Scope Z_scope.

Section Protocol.
Context {J : CryptoJS} {C : StdCrypto} {CL : StdCryptoLaws C} {JL : CryptoJSLaws C J}.

Lemma int_str_nonempty z : int_str z <> "".
Proof. destruct (starts_int z) as (c & r & -> & _). done. Qed.

Lemma app_nonempty (t s : string) : s <> "" -> (t +:+ s)%string <> "".
Proof. destruct t; [by rewrite string_app_empty | by rewrite string_app_cons]. Qed.

Lemma hmac_key_clock m t z : hmac_key m (t +:+ int_str z) = (t +:+ int_str z)%string.
Proof.
  unfold hmac_key. pose proof (app_nonempty t _ (int_str_nonempty z)) as H.
  by apply String.eqb_neq in H as ->.
Qed.

(** Both ends derive the same AES key from a secret. *)
Lemma aes_key_BuildPwd k : aes_key k = BuildPwd k.
Proof. reflexivity. Qed.

(** Both ends derive the same key for second [i] from a seed and a token. *)
Lemma secret_clock seed t i :
  safe i -> hmacSHA256 (VStr seed) (js_add (VStr t) (VInt i)) = Ok (seed_hash seed t i).
Proof. intros H. by rewrite js_add_str_int, hmacSHA256_spec, hmac_key_clock by done. Qed.

Lemma secret_at_clock w t seed i :
  token (common (w_state w)) = VStr t -> w_session w !! "seed" = Some seed -> safe i ->
  secret_at w (VInt i) = Ok (seed_hash seed t i).
Proof. intros Ht Hs Hi. unfold secret_at, sessionGet. rewrite Ht, Hs. by apply secret_clock. Qed.

Lemma seedHash_wallet pw : seedHash (VStr pw) = Ok (wallet_seed (Some (PasswordHash pw)) true).
Proof. apply seedHash_spec. Qed.

Lemma authorization_spec rs pw t u :
  token (common rs) = VStr t -> unix (common rs) = VInt u -> safe u ->
  authorization rs (VStr pw) = Ok (hex_encode (password_key (PasswordHash pw) t u)).
Proof.
  intros Ht Hu Hs. unfold authorization. rewrite authHash_spec. bind_simpl.
  rewrite Ht, Hu, secret_clock by done. bind_simpl. by rewrite passwordHash_spec.
Qed.

Lemma aesEncrypt_AesEncrypt p k : exists c, aesEncrypt p (VStr k) = Ok c /\ AesEncrypt p k = Some c.
Proof. eexists. split; [apply aesEncrypt_spec | apply AesEncrypt_eq]. Qed.

Lemma jsonable_finite v : jsonable v = true -> finite_numbers v = true.
Proof.
  induction v as [| |b|n|s|l IH|l IH|] using jsval_nested_ind; cbn [jsonable finite_numbers]; try done.
  - intros (z & Hz & ->)%int_num_inv.
    destruct (decide (z = 0)) as [-> | Hn]; [done | by rewrite num_of_Z_form].
  - rewrite !forallb_forall, List.Forall_forall in *. auto.
  - intros [_ H]%andb_true_iff. rewrite forallb_forall in *. rewrite List.Forall_forall in IH. auto.
Qed.

(** A body the browser encrypts is the node's ciphertext of its JSON text. *)
Lemma onRequest_body w now cfg t seed u d text :
  token (common (w_state w)) = VStr t -> unix (common (w_state w)) = VInt u -> safe u ->
  w_session w !! "seed" = Some seed -> c_data cfg = d -> is_plain_data d = true ->
  stringify d = Some text ->
  exists cfg' c, onRequest w now cfg = Ok cfg' /\ c_data cfg' = VObj [("data", VStr c)]
    /\ AesEncrypt text (seed_hash seed t u) = Some c.
Proof.
  intros Ht Hu Hs Hseed <- Hp Htext. unfold onRequest. rewrite Hp, Hu.
  rewrite (secret_at_clock w t seed u) by done. bind_simpl. rewrite Htext.
  destruct (aesEncrypt_AesEncrypt text (seed_hash seed t u)) as (c & Ec & Es).
  cbn [default from_option id]. rewrite Ec. bind_simpl. by eexists _, c.
Qed.

(** The key of the right second decrypts and parses. *)
Lemma try_key_hit w t seed s text v :
  token (common (w_state w)) = VStr t -> w_session w !! "seed" = Some seed -> safe s ->
  utf8_valid text = true -> parse text = Ok v ->
  try_key w (VStr (default "" (AesEncrypt text (seed_hash seed t s)))) (VInt s) = Ok (Some v).
Proof.
  intros Ht Hs Hsafe Hu Hp. unfold try_key. rewrite (secret_at_clock w t seed s) by done. bind_simpl.
  destruct (aesEncrypt_AesEncrypt text (seed_hash seed t s)) as (c & Ec & ->). cbn [default from_option id].
  rewrite aesEncrypt_spec in Ec. apply (inj Ok) in Ec.
  pose proof (aesDecrypt_spec c _ (seed_hash seed t s) ltac:(rewrite <- Ec; apply hex_decode_encode)) as Hd.
  cbv zeta in Hd. rewrite aes_inverse, Hu in Hd. rewrite Hd. bind_simpl. by rewrite Hp.
Qed.

(** The header of the store passes the filter. *)
Lemma header_accepted rs pw t u now :
  token (common rs) = VStr t -> unix (common rs) = VInt u -> safe u ->
  now - UnixRange <= u < now + UnixRange ->
  exists h, authorization rs (VStr pw) = Ok h
    /\ WalletAuth h (Some (PasswordHash pw)) (Some t) now = Ok tt.
Proof.
  intros Ht Hu Hs Hw. exists (hex_encode (password_key (PasswordHash pw) t u)).
  split; [by apply authorization_spec |]. unfold WalletAuth.
  pose proof (password_key_size (PasswordHash pw) t u) as Hl.
  destruct (String.eqb_spec (hex_encode (password_key (PasswordHash pw) t u)) "") as [E | _].
  - pose proof (hex_encode_length (password_key (PasswordHash pw) t u)) as HL.
    rewrite E, Hl in HL. done.
  - rewrite hex_decode_encode.
    replace (verifyPasswordKey _ _ _ _) with true; [done |]. symmetry.
    apply verifyPasswordKey_spec. by exists u.
Qed.

(** The node decrypts a body of the interceptor to its JSON text. *)
Lemma body_delivered w now_ms cfg t seed u fields wallet hasSeed now :
  token (common (w_state w)) = VStr t -> unix (common (w_state w)) = VInt u -> safe u ->
  w_session w !! "seed" = Some seed -> wallet_seed wallet hasSeed = seed ->
  c_data cfg = VObj fields -> jsonable (VObj fields) = true ->
  now - UnixRange <= u < now + UnixRange ->
  exists cfg' c text, onRequest w now_ms cfg = Ok cfg' /\ c_data cfg' = VObj [("data", VStr c)]
    /\ stringify (VObj fields) = Some text /\ parse text = Ok (VObj fields) /\ (exists b, c = hex_encode b)
    /\ ((forall j, now - UnixRange <= j < u ->
          (jsonData ← AesDecrypt c (seed_hash seed t j); unmarshal_map jsonData) = None) ->
        DecryptData wallet hasSeed (Some t) c now = Ok text).
Proof.
  intros Ht Hu Hs Hseed Hw Hd Hj Hwin.
  destruct (parse_stringify _ Hj) as (text & Hst & Hp).
  destruct (onRequest_body w now_ms cfg t seed u (VObj fields) text) as (cfg' & c & E1 & E2 & E3);
    try done.
  exists cfg', c, text. split_and!; try done; [rewrite AesEncrypt_eq in E3; apply (inj Some) in E3; by eexists |].
  intros Hnone. unfold DecryptData. rewrite Hw.
  rewrite (decrypt_loop_first _ seed t c _ u text); try done.
  - unfold UnixRange in *. lia.
  - by apply AesDecrypt_AesEncrypt.
  - unfold unmarshal_map. rewrite Hp. by rewrite (jsonable_finite _ Hj).
Qed.

(** The interceptor finds the key of the second an answer was encrypted at. *)
Lemma answer_recovered w t u s wallet text v r d fuel :
  token (common (w_state w)) = VStr t -> unix (common (w_state w)) = VInt u ->
  safe (u - padding) -> safe (u + padding) ->
  w_session w !! "seed" = Some (wallet_seed wallet true) ->
  utf8_valid text = true -> parse text = Ok v ->
  u - padding <= s < u + padding ->
  assoc "data" r = Some (VObj d) -> assoc "data" d = Some (VStr (EncryptData wallet true t text s)) ->
  (forall i, u - padding <= i < s ->
     try_key w (VStr (EncryptData wallet true t text s)) (VInt i) = Ok None) ->
  (40 < fuel)%nat ->
  onResponse fuel w (VObj r) = Some (Ok (VObj (assoc_set "data" v r))).
Proof.
  intros Ht Hu H1 H2 Hseed Hutf Hp Hs Hr Hd Hnone Hf. unfold onResponse.
  cbn [get_prop]. rewrite Hr. cbn [default from_option id]. bind_simpl. cbn [get_prop]. rewrite Hd.
  cbn [default from_option id]. rewrite Hu, try_keys_window by done.
  destruct (ticks_split u s Hs) as (l1 & l2 & -> & Hl1).
  rewrite (first_key_hit w _ l1 s l2 v); [done | |].
  - intros i Hi. apply Hnone. by apply Hl1.
  - apply try_key_hit; try done. unfold safe in *. lia.
Qed.

(** ** Theorems *)

(** C1: the node accepts the Authorization header the store computes from the
    wallet password, whenever both hold the same token and the clock of the
    store is in the node's window of forty seconds. *)
Theorem authorization_accepted rs pw t u now :
  token (common rs) = VStr t -> unix (common rs) = VInt u -> safe u ->
  now - UnixRange <= u < now + UnixRange ->
  exists h, authorization rs (VStr pw) = Ok h
    /\ WalletAuth h (Some (PasswordHash pw)) (Some t) now = Ok tt.
Proof. apply header_accepted. Qed.

(** The filter passes exactly the requests whose header is the hexadecimal
    text of the password key of some second of the window: a missing header is
    401, a missing wallet 500, everything else 403. *)
Theorem WalletAuth_exact auth wallet tok now :
  WalletAuth auth wallet tok now = Ok tt
  <-> exists ph t j, wallet = Some ph /\ tok = Some t
      /\ now - UnixRange <= j < now + UnixRange
      /\ hex_decode auth = Some (password_key ph t j).
Proof. apply WalletAuth_passes. Qed.

(** C2: the node decrypts every request body the interceptor encrypts, to the
    JSON text of the data the action sent, when the browser clock [u] is in
    the node's window and no earlier second of the window yields JSON too. *)
Theorem request_delivered w now_ms cfg t seed u fields wallet hasSeed now :
  token (common (w_state w)) = VStr t -> unix (common (w_state w)) = VInt u -> safe u ->
  w_session w !! "seed" = Some seed -> wallet_seed wallet hasSeed = seed ->
  c_data cfg = VObj fields -> jsonable (VObj fields) = true ->
  now - UnixRange <= u < now + UnixRange ->
  exists cfg' c text, onRequest w now_ms cfg = Ok cfg' /\ c_data cfg' = VObj [("data", VStr c)]
    /\ parse text = Ok (VObj fields)
    /\ ((forall j, now - UnixRange <= j < u ->
          (jsonData ← AesDecrypt c (seed_hash seed t j); unmarshal_map jsonData) = None) ->
        DecryptData wallet hasSeed (Some t) c now = Ok text).
Proof.
  intros Ht Hu Hs Hseed Hw Hd Hj Hwin.
  destruct (body_delivered w now_ms cfg t seed u fields wallet hasSeed now) as (cfg' & c & text & ? & ? & _ & ? & _ & ?);
    [done.. |]. by exists cfg', c, text.
Qed.

(** C3: the response interceptor recovers what the node encrypted at second
    [s], when [s] is within twenty seconds of the store's clock, the seeds and
    tokens agree and no earlier second of the window yields JSON; forty-one
    units of fuel are enough for the loop. *)
Theorem response_recovered w t u s wallet text v r d fuel :
  token (common (w_state w)) = VStr t -> unix (common (w_state w)) = VInt u ->
  safe (u - padding) -> safe (u + padding) ->
  w_session w !! "seed" = Some (wallet_seed wallet true) ->
  utf8_valid text = true -> parse text = Ok v ->
  u - padding <= s < u + padding ->
  assoc "data" r = Some (VObj d) -> assoc "data" d = Some (VStr (EncryptData wallet true t text s)) ->
  (forall i, u - padding <= i < s ->
     try_key w (VStr (EncryptData wallet true t text s)) (VInt i) = Ok None) ->
  (40 < fuel)%nat ->
  onResponse fuel w (VObj r) = Some (Ok (VObj (assoc_set "data" v r))).
Proof. apply answer_recovered. Qed.

(** The ciphers of the browser and of the node are the same: they give the
    same ciphertext, and either end decrypts a UTF-8 text the other encrypted
    under the same key. *)
Theorem ciphers_agree p k :
  utf8_valid p = true ->
  exists c, aesEncrypt p (VStr k) = Ok c /\ AesEncrypt p k = Some c
    /\ aesDecrypt (VStr c) (VStr k) = Ok p /\ AesDecrypt c k = Some p.
Proof.
  intros Hu. destruct (aesEncrypt_AesEncrypt p k) as (c & Ec & Es). exists c.
  split_and!; [done.. | | by apply AesDecrypt_AesEncrypt].
  rewrite aesEncrypt_spec in Ec. apply (inj Ok) in Ec.
  pose proof (aesDecrypt_spec c _ k ltac:(rewrite <- Ec; apply hex_decode_encode)) as Hd.
  cbv zeta in Hd. by rewrite aes_inverse, Hu in Hd.
Qed.

(** Until a token has been synchronised the Authorization header does not
    depend on the clock: the sum of the undefined token and the clock is NaN,
    [hmacSHA256] falls back to its message as the key, and the same password
    gives the same header at any time. *)
Theorem header_before_token rs rs' pw n n' :
  token (common rs) = VUndef -> unix (common rs) = VNum n ->
  token (common rs') = VUndef -> unix (common rs') = VNum n' ->
  authorization rs (VStr pw) = authorization rs' (VStr pw).
Proof.
  intros Ht Hu Ht' Hu'. unfold authorization. rewrite authHash_spec. bind_simpl.
  rewrite Ht, Hu, Ht', Hu'.
  assert (forall m, js_add VUndef (VNum m) = VNum num_nan) as Hn by (by intros []).
  by rewrite !Hn.
Qed.
End Protocol.

(** ** The theorems at concrete inputs *)

Lemma seconds_all (P : Z -> bool) a b :
  forallb P (seqZ a (b - a)) = true -> forall j, a <= j < b -> P j = true.
Proof. rewrite forallb_forall. intros H j Hj. apply H. rewrite <- list_elem_of_In, elem_of_seqZ. lia. Qed.

Module Samples.
Import Toy.

Definition sample_clock : Z := 1600000000.
Definition sample_world (seed : string) : world := {|
  w_state := with_common (store_init (num_of_Z 0))
    (set_clock (common_init (num_of_Z 0)) (VStr "tok") (VInt sample_clock));
  w_session := {["seed" := seed]}; w_headers := ∅; w_console := []; w_files := []
|}.
Definition sample_seed : string := Eval vm_compute in wallet_seed (Some (PasswordHash "hunter2")) true.
Definition sample_data : list (string * jsval) := [("beneficiaryAddr", VStr "NKN"); ("n", VInt 7)].
Definition sample_cipher : string := Eval vm_compute in
  EncryptData (Some (PasswordHash "hunter2")) true "tok" "[1]" (sample_clock + 2).

Lemma authorization_accepted_witness :
  exists h, authorization (w_state (sample_world "")) (VStr "hunter2") = Ok h
    /\ WalletAuth h (Some (PasswordHash "hunter2")) (Some "tok") (sample_clock + 5) = Ok tt.
Proof.
  apply (authorization_accepted _ "hunter2" "tok" sample_clock (sample_clock + 5));
    [reflexivity | reflexivity | unfold safe, sample_clock; lia | unfold UnixRange, sample_clock; lia].
Defined.

Lemma WalletAuth_exact_witness :
  WalletAuth (hex_encode (password_key (PasswordHash "hunter2") "tok" sample_clock))
    (Some (PasswordHash "hunter2")) (Some "tok") (sample_clock + 19) = Ok tt
  <-> exists ph t j, Some (PasswordHash "hunter2") = Some ph /\ Some "tok" = Some t
      /\ sample_clock + 19 - UnixRange <= j < sample_clock + 19 + UnixRange
      /\ hex_decode (hex_encode (password_key (PasswordHash "hunter2") "tok" sample_clock))
         = Some (password_key ph t j).
Proof.
  apply (WalletAuth_exact (hex_encode (password_key (PasswordHash "hunter2") "tok" sample_clock))
           (Some (PasswordHash "hunter2")) (Some "tok") (sample_clock + 19)).
Defined.

Lemma request_delivered_witness :
  exists cfg' c text,
    onRequest (sample_world sample_seed) (num_of_Z 0)
      (base_config (sample_world sample_seed) (mk_request "PUT" "/api/node/config" (VObj sample_data))) = Ok cfg'
    /\ c_data cfg' = VObj [("data", VStr c)]
    /\ parse text = Ok (VObj sample_data)
    /\ ((forall j, sample_clock + 3 - UnixRange <= j < sample_clock ->
          (jsonData ← AesDecrypt c (seed_hash sample_seed "tok" j); unmarshal_map jsonData) = None) ->
        DecryptData (Some (PasswordHash "hunter2")) true (Some "tok") c (sample_clock + 3) = Ok text).
Proof.
  apply (request_delivered _ _ _ "tok" sample_seed sample_clock sample_data
           (Some (PasswordHash "hunter2")) true (sample_clock + 3));
    [reflexivity | reflexivity | unfold safe, sample_clock; lia | reflexivity | reflexivity
    | reflexivity | vm_compute; reflexivity | unfold UnixRange, sample_clock; lia].
Defined.

Lemma sample_no_earlier : forall i, sample_clock - padding <= i < sample_clock + 2 ->
  try_key (sample_world sample_seed) (VStr sample_cipher) (VInt i) = Ok None.
Proof.
  intros i Hi. apply (bool_decide_eq_true_1 _). revert i Hi.
  apply (seconds_all (fun i => bool_decide (_ = _))). vm_compute. reflexivity.
Qed.

Lemma response_recovered_witness :
  onResponse 41 (sample_world sample_seed) (VObj [("data", VObj [("data", VStr sample_cipher)])])
  = Some (Ok (VObj [("data", VArr [VInt 1])])).
Proof.
  apply (response_recovered (sample_world sample_seed) "tok" sample_clock (sample_clock + 2)
           (Some (PasswordHash "hunter2")) "[1]" (VArr [VInt 1])
           [("data", VObj [("data", VStr sample_cipher)])] [("data", VStr sample_cipher)] 41);
    [reflexivity | reflexivity | unfold safe, padding, sample_clock; lia
    | unfold safe, padding, sample_clock; lia | reflexivity | reflexivity | vm_compute; reflexivity
    | unfold padding, sample_clock; lia | reflexivity | reflexivity | exact sample_no_earlier | lia].
Defined.

Lemma ciphers_agree_witness :
  exists c, aesEncrypt "[1]" (VStr "key") = Ok c /\ AesEncrypt "[1]" "key" = Some c
    /\ aesDecrypt (VStr c) (VStr "key") = Ok "[1]" /\ AesDecrypt c "key" = Some "[1]".
Proof. apply (ciphers_agree "[1]" "key"). reflexivity. Defined.

Lemma header_before_token_witness :
  authorization (store_init (num_of_Z 5)) (VStr "hunter2")
  = authorization (store_init (num_of_Z 1600000000)) (VStr "hunter2").
Proof.
  apply (header_before_token _ _ "hunter2" (num_of_Z 5) (num_of_Z 1600000000)); reflexivity.
Defined.
End Samples.
