(* ===== verification/StoreSpec.v ===== *)
(** * What the actions of the store do

    Each action sends exactly one request; what it does with the answer is
    stated for every answer and for the world at the time the answer arrives,
    so the theorems hold under every interleaving with other actions. *)

From S2P Require Import Prelude JsNum JsValue Json CryptoLib CryptoHelpers Runtime Store AxiosPlugin Server Protocol.
Local Open Scope Z_scope.

(** ** The specification of the error paths *)

(** The error is thrown again, with its status as [code], when the status is
    one of [codes]; another status is swallowed.  An error without a response
    (a network failure, or the interceptor's own error) is replaced by the
    TypeError of reading [e.response.status]. *)
Definition rethrow (codes : list Z) (e : jsval) : js jsval :=
  r ← get_prop e "response";
  s ← get_prop r "status";
  if existsb (fun c => strict_eq s (VInt c)) codes then e' ← set_prop e "code" s; Err e'
  else Ok VUndef.

(** An action that returns the body of the answer. *)
Definition settle (codes : list Z) (out : js jsval) : js jsval :=
  match out with
  | Ok res => match get_prop res "data" with Ok d => Ok d | Err e => rethrow codes e end
  | Err e => rethrow codes e
  end.

(** An axios error that carries a response with status [s]. *)
Definition http_error (s : Z) (e : jsval) : Prop :=
  exists l r, e = VObj l /\ assoc "response" l = Some (VObj r) /\ assoc "status" r = Some (VInt s).

Definition with_code (s : Z) (e : jsval) : jsval :=
  match e with VObj l => VObj (assoc_set "code" (VInt s) l) | _ => e end.

Lemma rethrow_http codes s e :
  http_error s e -> safe s -> Forall safe codes ->
  rethrow codes e = if bool_decide (s ∈ codes) then Err (with_code s e) else Ok VUndef.
Proof.
  intros (l & r & -> & Hr & Hs) Hsafe Hc. unfold rethrow. cbn [get_prop]. rewrite Hr. cbn.
  rewrite Hs. cbn [default from_option id].
  assert (existsb (fun c => strict_eq (VInt s) (VInt c)) codes = bool_decide (s ∈ codes)) as Hex.
  { induction Hc as [|c codes Hcs Hc IH]; [done |]. cbn [existsb]. rewrite IH, strict_eq_int by done.
    destruct (Z.eqb_spec s c) as [-> | Hne]; cbn.
    - symmetry. apply bool_decide_eq_true. by left.
    - apply bool_decide_ext. rewrite elem_of_cons. split; [by right | by intros [|]]. }
  unfold VInt in Hex. cbn in Hex |- *. rewrite Hex. by case_bool_decide.
Qed.

(** An error without a response is masked. *)
Lemma rethrow_masked codes l :
  assoc "response" l = None -> rethrow codes (VObj l) = Err TypeError.
Proof. intros H. unfold rethrow. cbn. by rewrite H. Qed.

(** ** Requests *)

Section Specs.
Context {J : CryptoJS}.

(** Running the first stage of [p] in [w] leaves [w'] and awaits request [r];
    [k] is what the action does with the answer. *)
Definition sends {A} (p : action A) (w w' : world) (r : request) (k : js jsval -> action A) : Prop :=
  run exec p w = (w', Await (Http r) k).

(** Answering with [out] in world [w] ends the action. *)
Definition ends {A} (k : js jsval -> action A) (out : js jsval) (w w' : world) (res : js A) : Prop :=
  run exec (k out) w = (w', Done res).

Lemma run_http m u d w :
  run exec (http m u d) w = (w, Await (Http (mk_request m u d)) lift).
Proof. reflexivity. Qed.

Lemma run_prop v k w : run exec (prop v k) w = (w, Done (get_prop v k)).
Proof. apply run_lift. Qed.

Lemma run_commit m v w :
  run exec (commit m v) w = let '(w', r) := exec_commit m v w in (w', Done r).
Proof. cbn. destruct (exec_commit m v w) as [w' r]. apply run_lift. Qed.

Lemma run_sessionSet k v w :
  run exec (sessionSet k v) w = (set_session w (<[k := v]> (w_session w)), Done (Ok tt)).
Proof. reflexivity. Qed.

Lemma run_response_status e w :
  run exec (response_status e) w = (w, Done (r ← get_prop e "response"; get_prop r "status")).
Proof.
  unfold response_status. rewrite run_bind, run_prop.
  destruct (get_prop e "response") as [r|]; [apply run_prop | done].
Qed.

Lemma run_throw_code e s w :
  run exec (throw_code e s) w = (w, Done (e' ← set_prop e "code" s; Err e')).
Proof. unfold throw_code. rewrite run_bind, run_lift. by destruct (set_prop e "code" s). Qed.

(** The two shapes of the [catch] blocks. *)
Lemma run_rethrow1 a e w :
  run exec (s ← response_status e;
            if strict_eq s (VInt a) then throw_code e s else Ret VUndef) w
  = (w, Done (rethrow [a] e)).
Proof.
  unfold rethrow. rewrite run_bind, run_response_status.
  destruct (get_prop e "response") as [r|]; [| done]. bind_simpl.
  destruct (get_prop r "status") as [s|]; [| done]. bind_simpl. cbn [existsb].
  rewrite orb_false_r. destruct (strict_eq s (VInt a)); [apply run_throw_code | done].
Qed.

Lemma run_rethrow2 a b e w :
  run exec (s ← response_status e;
            if strict_eq s (VInt a) || strict_eq s (VInt b) then throw_code e s else Ret VUndef) w
  = (w, Done (rethrow [a; b] e)).
Proof.
  unfold rethrow. rewrite run_bind, run_response_status.
  destruct (get_prop e "response") as [r|]; [| done]. bind_simpl.
  destruct (get_prop r "status") as [s|]; [| done]. bind_simpl. cbn [existsb].
  rewrite orb_false_r. destruct (_ || _); [apply run_throw_code | done].
Qed.

(** The Authorization header a password gives in a world. *)
Definition with_auth (w : world) (h : string) : world :=
  set_headers w (<["Authorization" := VStr h]> (w_headers w)).

Lemma run_setAuthorization pw h w :
  authorization (w_state w) pw = Ok h ->
  run exec (setAuthorization pw) w = (with_auth w h, Done (Ok tt)).
Proof.
  intros H. unfold setAuthorization, rootState. rewrite run_bind.
  rewrite (run_trigger exec RootState w w (w_state w)) by done. by rewrite run_bind, run_lift, H.
Qed.

(** ** The actions that carry the Authorization header and return the body *)

Inductive auth_call : Type :=
| CVerification
| CBeneficiary (addr : jsval)
| CConfig (config : jsval)
| CDetails.

Definition auth_action (c : auth_call) (pw : jsval) : action jsval :=
  match c with
  | CVerification => verification pw
  | CBeneficiary addr => setBeneficiaryAddr pw addr
  | CConfig config => setNodeConfig pw config
  | CDetails => getCurrentWalletDetails pw
  end.

Definition auth_request (c : auth_call) : request :=
  match c with
  | CVerification => mk_request "HEAD" "/api/verification" VUndef
  | CBeneficiary addr => mk_request "PUT" "/api/node/beneficiary" (VObj [("beneficiaryAddr", addr)])
  | CConfig config => mk_request "PUT" "/api/node/config" config
  | CDetails => mk_request "GET" "/api/current-wallet/details" VUndef
  end.

Definition auth_codes (c : auth_call) : list Z :=
  match c with
  | CVerification | CDetails => [401; 403]
  | CBeneficiary _ | CConfig _ => [400]
  end.

Lemma auth_action_spec c pw h w :
  authorization (w_state w) pw = Ok h ->
  exists k, sends (auth_action c pw) w (with_auth w h) (auth_request c) k
    /\ forall out w2, ends k out w2 w2 (settle (auth_codes c) out).
Proof.
  intros H. unfold sends, ends.
  destruct c; cbn [auth_action auth_request auth_codes];
    (eexists; split; [unfold verification, setBeneficiaryAddr, setNodeConfig, getCurrentWalletDetails;
       rewrite run_catch, run_bind, (run_setAuthorization _ _ _ H), run_bind, run_http; reflexivity |];
     intros out w2; cbv beta; rewrite run_catch, run_bind, run_lift;
     unfold settle; destruct out as [res | e]; [rewrite run_prop; destruct (get_prop res "data"); [done |] |];
     (apply run_rethrow1 || apply run_rethrow2)).
Qed.

(** ** Opening and creating a wallet *)

Inductive wallet_call : Type :=
| COpen
| CCreate (addr : jsval).

Definition wallet_action (c : wallet_call) (pw : jsval) : action jsval :=
  match c with COpen => openWallet pw | CCreate addr => createWallet pw addr end.

Definition wallet_request (c : wallet_call) (pw : jsval) : request :=
  match c with
  | COpen => mk_request "POST" "/api/wallet/open" (VObj [("password", pw)])
  | CCreate addr =>
      mk_request "POST" "/api/wallet/create" (VObj [("password", pw); ("beneficiaryAddr", addr)])
  end.

Definition wallet_codes (c : wallet_call) : list Z :=
  match c with COpen => [401; 403] | CCreate _ => [400] end.

(** The world after a successful answer: the session keeps the seed, the
    service is running and the other fields of the status are undefined. *)
Definition unlocked (w : world) (seed : string) : world :=
  let c := common (w_state w) in
  set_state (set_session w (<["seed" := seed]> (w_session w)))
    (with_common (w_state w) {|
       token := token c; unix := unix c; beneficiaryAddr := VUndef;
       serviceStatus := VInt SERVICE_STATUS_RUNNING;
       allowEmptyBeneficiaryAddress := VUndef; webGuiCreateWallet := VUndef |}).

Lemma exec_commit_running w :
  exec_commit MSyncServiceStatus (VObj [("status", VInt SERVICE_STATUS_RUNNING)]) w
  = (set_state w (w_state (unlocked w "")), Ok tt).
Proof. unfold exec_commit, add_logs. cbn. by rewrite app_nil_r. Qed.

Lemma wallet_action_spec c pw seed w :
  seedHash pw = Ok seed ->
  exists k, sends (wallet_action c pw) w w (wallet_request c pw) k
    /\ (forall res d w2, get_prop res "data" = Ok d -> ends k (Ok res) w2 (unlocked w2 seed) (Ok d))
    /\ (forall e w2, ends k (Err e) w2 w2 (rethrow (wallet_codes c) e)).
Proof.
  intros Hs. unfold sends, ends.
  destruct c; cbn [wallet_action wallet_request wallet_codes];
    (eexists; split; [unfold openWallet, createWallet; rewrite run_catch, run_bind, run_http; reflexivity |];
     split;
     [ intros res d w2 Hd; cbv beta; rewrite run_catch, run_bind, run_lift, run_bind, run_lift, Hs,
         run_bind, run_sessionSet, run_bind, run_commit, exec_commit_running, run_prop, Hd; done
     | intros e w2; cbv beta; rewrite run_catch, run_bind, run_lift;
       (apply run_rethrow1 || apply run_rethrow2) ]).
Qed.

(** ** Polling *)

(** What the poll of the node and of the wallet does with an answer. *)
Definition poll_outcome (m : mutation) (out : js jsval) (w : world) : world :=
  match (res ← out; get_prop res "data") with
  | Ok d => (exec_commit m d w).1
  | Err e => add_logs w [e]
  end.

Definition poll_action (m : mutation) : option (action jsval * request) :=
  match m with
  | MNodeStatus => Some (getNodeStatus, mk_request "GET" "/api/node/status" VUndef)
  | MWalletStatus => Some (getCurrentWalletStatus, mk_request "GET" "/api/current-wallet/status" VUndef)
  | _ => None
  end.

Lemma poll_spec m p r w :
  poll_action m = Some (p, r) ->
  exists k, sends p w w r k
    /\ forall out w2, ends k out w2 (poll_outcome m out w2) (Ok VUndef).
Proof.
  intros Hm. unfold sends, ends.
  destruct m; try done; injection Hm as <- <-;
    (eexists; split; [unfold getNodeStatus, getCurrentWalletStatus; rewrite run_catch, run_bind, run_http; reflexivity |];
     intros out w2; cbv beta; unfold poll_outcome;
     rewrite run_catch, run_bind, run_lift; destruct out as [res | e]; [| done];
     bind_simpl; rewrite run_bind, run_prop; destruct (get_prop res "data") as [d | e]; [| done];
     rewrite run_bind, run_commit; done).
Qed.

(** What the synchronisation of the status and of the token does. *)
Definition sync_action (m : mutation) : option (action jsval * request) :=
  match m with
  | MSyncServiceStatus => Some (getServiceStatus, mk_request "GET" "/api/sync/status" VUndef)
  | MSyncToken => Some (getToken, mk_request "GET" "/api/sync/token" VUndef)
  | _ => None
  end.

(** Every status but 200 is thrown again. *)
Definition rethrow_not_ok (e : jsval) : js jsval :=
  r ← get_prop e "response";
  s ← get_prop r "status";
  if strict_eq s (VInt 200) then Ok VUndef else e' ← set_prop e "code" s; Err e'.

Definition sync_outcome (m : mutation) (out : js jsval) (w : world) : world * js jsval :=
  match (res ← out; get_prop res "data") with
  | Ok d => match exec_commit m d w with
            | (w', Ok _) => (w', Ok VUndef)
            | (w', Err e) => (w', rethrow_not_ok e)
            end
  | Err e => (w, rethrow_not_ok e)
  end.

Lemma run_rethrow_not_ok e w :
  run exec (s ← response_status e;
            if negb (strict_eq s (VInt 200)) then throw_code e s else Ret VUndef) w
  = (w, Done (rethrow_not_ok e)).
Proof.
  unfold rethrow_not_ok. rewrite run_bind, run_response_status.
  destruct (get_prop e "response") as [r|]; [| done]. bind_simpl.
  destruct (get_prop r "status") as [s|]; [| done]. bind_simpl.
  destruct (strict_eq s (VInt 200)); [done | apply run_throw_code].
Qed.

Lemma sync_spec m p r w :
  sync_action m = Some (p, r) ->
  exists k, sends p w w r k
    /\ forall out w2, ends k out w2 (sync_outcome m out w2).1 (sync_outcome m out w2).2.
Proof.
  intros Hm. unfold sends, ends.
  destruct m; try done; injection Hm as <- <-;
    (eexists; split; [unfold getServiceStatus, getToken; rewrite run_catch, run_bind, run_http; reflexivity |];
     intros out w2; cbv beta; unfold sync_outcome;
     rewrite run_catch, run_bind, run_lift; destruct out as [res | e]; [| apply run_rethrow_not_ok];
     bind_simpl; rewrite run_bind, run_prop; destruct (get_prop res "data") as [d | e];
       [| apply run_rethrow_not_ok];
     rewrite run_bind, run_commit; destruct (exec_commit _ d w2) as [w' [[]|e]];
       [done | apply run_rethrow_not_ok]).
Qed.

(** A mutation either installs the whole payload or throws and changes nothing. *)
Lemma exec_commit_atomic m d w : (exec_commit m d w).2 <> Ok tt -> (exec_commit m d w).1 = w.
Proof. unfold exec_commit. by destruct (apply_mutation m (w_state w) d). Qed.

(** ** Downloading the wallet *)

Lemma download_spec pw h w :
  authorization (w_state w) pw = Ok h ->
  exists k, sends (downloadWallet pw) w (with_auth w h) (mk_request "GET" "/api/wallet/download" VUndef) k
    /\ (forall res data hs type text w2,
          get_prop res "data" = Ok data -> get_prop res "headers" = Ok hs ->
          get_prop hs "content-type" = Ok type -> stringify data = Some text ->
          ends k (Ok res) w2 (add_file w2 ("wallet.json", text, type)) (Ok VUndef))
    /\ (forall e w2, ends k (Err e) w2 w2 (Err e)).
Proof.
  intros H. unfold sends, ends. eexists. split; [| split].
  - unfold downloadWallet. rewrite run_catch, run_bind, (run_setAuthorization _ _ _ H), run_bind, run_http.
    reflexivity.
  - intros res data hs type text w2 Hd Hh Ht Hj. cbv beta.
    rewrite run_catch, run_bind, run_lift, run_bind, run_prop, Hd, run_bind, run_prop, Hh,
      run_bind, run_prop, Ht, Hj. done.
  - intros e w2. done.
Qed.
End Specs.

(** ** Theorems *)

Section Theorems.
Context {J : CryptoJS} {C : StdCrypto} {CL : StdCryptoLaws C} {JL : CryptoJSLaws C J}.

(** The four actions that need the password send one request, after
    setting a header the node accepts as long as its clock is within the
    window; when the answer comes, whatever happened meanwhile, they return
    the body or treat the error as [settle] says, and change nothing. *)
Theorem authenticated_call c pw t u w now :
  token (common (w_state w)) = VStr t -> unix (common (w_state w)) = VInt u -> safe u ->
  now - UnixRange <= u < now + UnixRange ->
  exists h k, sends (auth_action c (VStr pw)) w (with_auth w h) (auth_request c) k
    /\ verifyPasswordKey (default "" (hex_decode h)) (PasswordHash pw) t now = true
    /\ forall out w2, ends k out w2 w2 (settle (auth_codes c) out).
Proof.
  intros Ht Hu Hs Hw. pose proof (authorization_spec (w_state w) pw t u Ht Hu Hs) as H.
  destruct (auth_action_spec c _ _ w H) as (k & Hk & Hout).
  exists (hex_encode (password_key (PasswordHash pw) t u)), k. split_and!; [done | | done].
  rewrite hex_decode_encode. apply verifyPasswordKey_spec. by exists u.
Qed.

(** Of the HTTP errors, exactly the statuses the action lists reject the
    call, with the status as [code]; every other one resolves to undefined,
    as a success without body does. *)
Theorem authenticated_error c pw h w s e w2 :
  authorization (w_state w) pw = Ok h -> http_error s e -> safe s ->
  exists k, sends (auth_action c pw) w (with_auth w h) (auth_request c) k
    /\ ends k (Err e) w2 w2
         (if bool_decide (s ∈ auth_codes c) then Err (with_code s e) else Ok VUndef).
Proof.
  intros H He Hs. destruct (auth_action_spec c _ _ w H) as (k & Hk & Hout).
  exists k. split; [done |]. rewrite <- rethrow_http by (done || destruct c; repeat constructor).
  apply (Hout (Err e)).
Qed.

(** After a successful open or create, the session holds exactly the seed
    the node derives from the same password, and the service is running; after
    an error the world is as it was. *)
Theorem wallet_unlocked c pw w :
  exists k, sends (wallet_action c (VStr pw)) w w (wallet_request c (VStr pw)) k
    /\ (forall res d w2, get_prop res "data" = Ok d ->
          exists w3, ends k (Ok res) w2 w3 (Ok d)
            /\ w_session w3 !! "seed" = Some (wallet_seed (Some (PasswordHash pw)) true)
            /\ serviceStatus (common (w_state w3)) = VInt SERVICE_STATUS_RUNNING
            /\ token (common (w_state w3)) = token (common (w_state w2))
            /\ unix (common (w_state w3)) = unix (common (w_state w2)))
    /\ (forall e w2, ends k (Err e) w2 w2 (rethrow (wallet_codes c) e)).
Proof.
  destruct (wallet_action_spec c _ _ w (seedHash_wallet pw)) as (k & Hk & Hok & Herr).
  exists k. split_and!; [done | | done]. intros res d w2 Hd.
  eexists. split; [by apply Hok |]. cbn. by rewrite lookup_insert_eq.
Qed.

(** The polls of the node and the wallet never reject and never leave the
    store without a status: an answer with a truthy body installs it, every
    other answer keeps the old one. *)
Theorem poll_total m p r w :
  poll_action m = Some (p, r) ->
  exists k, sends p w w r k
    /\ forall out w2, exists w3, ends k out w2 w3 (Ok VUndef)
      /\ let shown s := match m with MNodeStatus => nodeStatus (node s)
                         | _ => currentWalletStatus (wallet s) end in
         shown (w_state w3) =
         match (res ← out; get_prop res "data") with
         | Ok d => if truthy d then d else shown (w_state w2)
         | Err _ => shown (w_state w2)
         end.
Proof.
  intros Hm. destruct (poll_spec m p r w Hm) as (k & Hk & Hout).
  exists k. split; [done |]. intros out w2. eexists. split; [apply Hout |].
  unfold poll_outcome. destruct (res ← out; get_prop res "data") as [d|]; [| by destruct m].
  destruct m; try done; cbn; unfold setNodeStatus, setCurrentWalletStatus; by destruct (truthy d).
Qed.

(** The downloaded file holds the wallet the node sent: its text parses
    back to the body of the answer; an error saves no file and is thrown on. *)
Theorem download_roundtrip pw t u w :
  token (common (w_state w)) = VStr t -> unix (common (w_state w)) = VInt u -> safe u ->
  exists h k, sends (downloadWallet (VStr pw)) w (with_auth w h) (mk_request "GET" "/api/wallet/download" VUndef) k
    /\ (forall data type w2, jsonable data = true ->
          exists text, parse text = Ok data
            /\ ends k (Ok (VObj [("data", data); ("headers", VObj [("content-type", type)])])) w2
                 (add_file w2 ("wallet.json", text, type)) (Ok VUndef))
    /\ (forall e w2, ends k (Err e) w2 w2 (Err e)).
Proof.
  intros Ht Hu Hs. pose proof (authorization_spec (w_state w) pw t u Ht Hu Hs) as H.
  destruct (download_spec _ _ w H) as (k & Hk & Hok & Herr).
  eexists _, k. split_and!; [done | | done]. intros data type w2 Hj.
  destruct (parse_stringify data Hj) as (text & Hst & Hp). exists text. split; [done |].
  by apply (Hok _ data (VObj [("content-type", type)])).
Qed.
End Theorems.

(** ** The theorems at concrete inputs *)

Module StoreSamples.
Import Toy Samples.

Lemma authenticated_call_witness :
  exists h k, sends (auth_action CDetails (VStr "hunter2")) (sample_world "") (with_auth (sample_world "") h)
      (auth_request CDetails) k
    /\ verifyPasswordKey (default "" (hex_decode h)) (PasswordHash "hunter2") "tok" (sample_clock + 5) = true
    /\ forall out w2, ends k out w2 w2 (settle (auth_codes CDetails) out).
Proof.
  apply (authenticated_call CDetails "hunter2" "tok" sample_clock (sample_world "") (sample_clock + 5));
    [reflexivity | reflexivity | unfold safe, sample_clock; lia | unfold UnixRange, sample_clock; lia].
Defined.

(** A server error, as axios reports it. *)
Definition error500 : jsval := VObj [("response", VObj [("status", VInt 500)])].
Definition sample_header : string :=
  match authorization (w_state (sample_world "")) (VStr "hunter2") with Ok h => h | Err _ => "" end.

Lemma authenticated_error_witness :
  exists k, sends (auth_action CVerification (VStr "hunter2")) (sample_world "")
      (with_auth (sample_world "") sample_header) (auth_request CVerification) k
    /\ ends k (Err error500) (sample_world "") (sample_world "") (Ok VUndef).
Proof.
  apply (authenticated_error CVerification (VStr "hunter2") sample_header (sample_world "") 500 error500
           (sample_world ""));
    [vm_compute; reflexivity | | unfold safe; lia].
  exists [("response", VObj [("status", VInt 500)])], [("status", VInt 500)]. repeat split.
Defined.

Lemma wallet_unlocked_witness :
  exists k, sends (wallet_action COpen (VStr "hunter2")) (sample_world "") (sample_world "")
      (wallet_request COpen (VStr "hunter2")) k
    /\ exists w3, ends k (Ok (VObj [("data", VBool true)])) (sample_world "") w3 (Ok (VBool true))
      /\ w_session w3 !! "seed" = Some sample_seed.
Proof.
  destruct (wallet_unlocked COpen "hunter2" (sample_world "")) as (k & Hk & Hok & _).
  exists k. split; [exact Hk |].
  destruct (Hok (VObj [("data", VBool true)]) (VBool true) (sample_world "") eq_refl) as (w3 & H1 & H2 & _).
  exists w3. split; [exact H1 | exact H2].
Defined.

Lemma poll_total_witness :
  exists k, sends getNodeStatus (sample_world "") (sample_world "") (mk_request "GET" "/api/node/status" VUndef) k
    /\ forall out w2, exists w3, ends k out w2 w3 (Ok VUndef)
      /\ nodeStatus (node (w_state w3)) =
         match (res ← out; get_prop res "data") with
         | Ok d => if truthy d then d else nodeStatus (node (w_state w2))
         | Err _ => nodeStatus (node (w_state w2))
         end.
Proof. apply (poll_total MNodeStatus). reflexivity. Defined.

Lemma download_roundtrip_witness :
  exists h k, sends (downloadWallet (VStr "hunter2")) (sample_world "") (with_auth (sample_world "") h)
      (mk_request "GET" "/api/wallet/download" VUndef) k
    /\ (forall data type w2, jsonable data = true ->
          exists text, parse text = Ok data
            /\ ends k (Ok (VObj [("data", data); ("headers", VObj [("content-type", type)])])) w2
                 (add_file w2 ("wallet.json", text, type)) (Ok VUndef))
    /\ (forall e w2, ends k (Err e) w2 w2 (Err e)).
Proof.
  apply (download_roundtrip "hunter2" "tok" sample_clock (sample_world ""));
    [reflexivity | reflexivity | unfold safe, sample_clock; lia].
Defined.
End StoreSamples.
