(* ===== verification/Transport.v ===== *)
(** * Requests and answers on their way

    What the interceptor of plugins/axios.js does to a request of the store, as
    it arrives at the routes of the node, and what becomes of the answer on its
    way back.  Browser and node agree when they have the same token and clocks
    within the window; a message is unambiguous when no earlier second of the
    window has a key that happens to decrypt it to JSON. *)

From S2P Require Import Prelude JsNum JsValue Json GoJson GoMarshal Fixed64 CryptoLib CryptoHelpers Address Runtime Store AxiosPlugin Server Vault NodeState Routes Protocol StoreSpec.
Local Open Scope Z_scope.

Section Transport.
Context {J : CryptoJS} {C : StdCrypto} {CL : StdCryptoLaws C} {JL : CryptoJSLaws C J}.
Context {A : AddressLib} {AL : AddressLaws A} {V : VaultLib} {VL : VaultLaws V}.

(** The text of a header the browser sends. *)
Definition header_text (cfg : axios_config) (name : string) : string :=
  match c_headers cfg !! name with Some v => to_string v | None => "" end.

Lemma clock_header_accepted v now : 0 <= v < 2 ^ 53 -> Z.abs (now - v) < UnixRange ->
  UnixRangeAuth (to_string (VInt v)) now = Ok tt.
Proof.
  intros Hv Hw. unfold UnixRangeAuth. cbn [to_string VInt]. rewrite num_str_int by (unfold safe; lia).
  pose proof (int_str_nonempty v) as Hne. apply String.eqb_neq in Hne as ->.
  rewrite ParseInt_int by lia. unfold verifyUnix, int64. rewrite Z.mod_small by (unfold UnixRange in *; lia).
  by destruct (Z.ltb_spec (Z.abs (now - v + 2 ^ 63 - 2 ^ 63)) UnixRange); [| lia].
Qed.

Lemma onRequest_headers w now_ms cfg cfg' :
  onRequest w now_ms cfg = Ok cfg' ->
  c_headers cfg' = <["Unix" := VNum (num_floor (num_div now_ms (num_of_Z 1000)))]> (c_headers cfg).
Proof.
  unfold onRequest. destruct (is_plain_data (c_data cfg)).
  - intros (sec & _ & (ct & _ & H)%bind_Ok)%bind_Ok. apply (inj Ok) in H. by subst cfg'.
  - intros H. apply (inj Ok) in H. by subst cfg'.
Qed.

(** A request as it arrives at the node. *)
Definition incoming_of (cfg : axios_config) : incoming := {|
  i_method := c_method cfg; i_path := c_url cfg; i_unix := header_text cfg "Unix";
  i_auth := header_text cfg "Authorization"; i_text := default "" (stringify (c_data cfg))
|}.

(** Browser and node agree: [t] is the token of both, [u] the synchronised clock
    of the store, [v] the second of its own clock, [now] that of the node. *)
Record agree (w : world) (now_ms : num) (uuid : string) (cookie : option session) (n : node) (t : string) (u v now : Z) : Prop := {
  ag_token : token (common (w_state w)) = VStr t;
  ag_session : (token_middleware uuid now (nd_tokens n) cookie).2.1 = t;
  ag_clock : unix (common (w_state w)) = VInt u;
  ag_window : now - UnixRange < u < now + UnixRange;
  ag_ms : num_floor (num_div now_ms (num_of_Z 1000)) = num_of_Z v;
  ag_v : 0 <= v < 2 ^ 53;
  ag_near : Z.abs (now - v) < UnixRange;
  ag_now : UnixRange <= now < 2 ^ 53 - 2 * UnixRange
}.

(** No earlier second of the window decrypts a body to an object, or an answer
    to JSON. *)
Definition body_unambiguous (seed t c : string) (u now : Z) : Prop := forall j, now - UnixRange <= j < u ->
  (jsonData ← AesDecrypt c (seed_hash seed t j); unmarshal_map jsonData) = None.
Definition answer_unambiguous (w : world) (c : string) (u now : Z) : Prop := forall j, u - padding <= j < now ->
  try_key w (VStr c) (VInt j) = Ok None.

Lemma bind_body_sent c text : html_free c = true ->
  stringify (VObj [("data", VStr c)]) = Some text -> bind_body text = Some c.
Proof.
  intros Hc Ht. assert (jsonable (VObj [("data", VStr c)]) = true) as Hj by done.
  destruct (jsonable_reads_back _ Hj) as (t & Et & _ & Hr). rewrite Ht in Et. apply (inj Some) in Et. subst t.
  unfold bind_body. specialize (Hr (S (String.length text)) "" ltac:(lia) I). rewrite string_app_nil_r in Hr. rewrite Hr.
  rewrite (object_members_stringify _ _ Hj) by done. cbn [mbind option_bind map written fst snd set_members].
  change (set_body "data" ?r ?v ?d) with (to_text d v). by rewrite to_text_ascii.
Qed.

(** A request with a body, from the interceptor to the handler. *)
Lemma request_arrives w now_ms uuid cookie n t u v now m url fields seed hasSeed :
  agree w now_ms uuid cookie n t u v now ->
  w_session w !! "seed" = Some seed -> wallet_seed (wallet_hash (nd_server n)) hasSeed = seed ->
  jsonable (VObj fields) = true ->
  exists cfg c text, onRequest w now_ms (base_config w (mk_request m url (VObj fields))) = Ok cfg
    /\ c_data cfg = VObj [("data", VStr c)] /\ stringify (VObj fields) = Some text /\ parse text = Ok (VObj fields)
    /\ i_method (incoming_of cfg) = m /\ i_path (incoming_of cfg) = url
    /\ UnixRangeAuth (i_unix (incoming_of cfg)) now = Ok tt
    /\ i_auth (incoming_of cfg) = match w_headers w !! "Authorization" with Some h => to_string h | None => "" end
    /\ (body_unambiguous seed t c u now -> decrypt_body (nd_server n) hasSeed t (i_text (incoming_of cfg)) now = Ok text).
Proof.
  intros [Ht Hsess Hu Hwin Hms Hv Hnear Hnow] Hseed Hws Hj. unfold UnixRange in *.
  destruct (body_delivered w now_ms (base_config w (mk_request m url (VObj fields))) t seed u fields (wallet_hash (nd_server n)) hasSeed now)
    as (cfg & c & text & Hreq & Hc & Hst & Hp & [b ->] & Hdec); try done; [unfold safe; lia | unfold UnixRange; lia |].
  exists cfg, (hex_encode b), text. pose proof (onRequest_headers _ _ _ _ Hreq) as Hh.
  assert (c_method cfg = m /\ c_url cfg = url) as [Hm Hurl].
  { clear - Hreq. unfold onRequest in Hreq. cbn [is_plain_data base_config c_data r_data] in Hreq.
    apply bind_Ok in Hreq as (sec & _ & (ct & _ & H)%bind_Ok). apply (inj Ok) in H. by subst cfg. }
  split_and!; try done.
  - cbn [incoming_of i_unix]. unfold header_text. rewrite Hh, lookup_insert_eq, Hms. by apply clock_header_accepted.
  - cbn [incoming_of i_auth]. unfold header_text. by rewrite Hh, lookup_insert_ne by done.
  - intros Hun. unfold decrypt_body. cbn [incoming_of i_text]. rewrite Hc.
    rewrite (bind_body_sent (hex_encode b)); [by apply Hdec | apply html_free_hex | done].
Qed.

(** A request without a body. *)
Lemma query_arrives w now_ms uuid cookie n t u v now m url :
  agree w now_ms uuid cookie n t u v now ->
  exists cfg, onRequest w now_ms (base_config w (mk_request m url VUndef)) = Ok cfg
    /\ i_method (incoming_of cfg) = m /\ i_path (incoming_of cfg) = url
    /\ UnixRangeAuth (i_unix (incoming_of cfg)) now = Ok tt
    /\ i_auth (incoming_of cfg) = match w_headers w !! "Authorization" with Some h => to_string h | None => "" end.
Proof.
  intros [Ht Hsess Hu Hwin Hms Hv Hnear Hnow]. eexists. split; [done |]. cbn [incoming_of i_method i_path i_unix i_auth c_method c_url].
  unfold header_text. cbn [c_headers]. split_and!; try done.
  - rewrite lookup_insert_eq, Hms. by apply clock_header_accepted.
  - by rewrite lookup_insert_ne by done.
Qed.

(** An answer, from the handler through the interceptor. *)
Lemma answer_arrives w now_ms uuid cookie n t u v now val s :
  agree w now_ms uuid cookie n t u v now ->
  w_session w !! "seed" = Some (wallet_seed (wallet_hash s) true) ->
  jsonable (as_map val) = true -> plain (as_map val) = true ->
  exists c, parse (data_reply (encrypt_json s t val now)) = Ok (VObj [("data", VStr c)])
    /\ (answer_unambiguous w c u now ->
        onResponse 41 w (VObj [("data", VObj [("data", VStr c)])]) = Some (Ok (VObj [("data", as_map val)]))).
Proof.
  intros [Ht Hsess Hu Hwin Hms Hv Hnear Hnow] Hseed Hj Hp. unfold UnixRange in *.
  destruct (parse_Marshal _ Hj Hp) as (text & Et & Hparse). exists (encrypt_json s t val now).
  assert (encrypt_json s t val now = EncryptData (wallet_hash s) true t text now) as Ee
    by (unfold encrypt_json; by rewrite Et).
  assert (exists b, EncryptData (wallet_hash s) true t text now = hex_encode b) as [b Hb]
    by (unfold EncryptData; rewrite AesEncrypt_eq; by eexists).
  split.
  - rewrite Ee, Hb. unfold data_reply, json_reply.
    change (as_map (VObj [("data", VStr (hex_encode b))])) with (VObj [("data", VStr (hex_encode b))]).
    destruct (parse_Marshal (VObj [("data", VStr (hex_encode b))])) as (body & -> & Hpb); [done | | done].
    cbn [plain forallb fst snd]. by rewrite (html_free_ascii (hex_encode b)) by apply html_free_hex.
  - intros Hun. rewrite Ee in *.
    apply (answer_recovered w t u now (wallet_hash s) text (as_map val) [("data", VObj [("data", VStr (EncryptData (wallet_hash s) true t text now))])]
             [("data", VStr (EncryptData (wallet_hash s) true t text now))]); try done; try (unfold safe, padding; lia).
    by apply ascii_utf8, (Marshal_ascii (as_map val) Hj Hp 0%nat).
Qed.

(** What the node is and answers after a request that passed the clock. *)
Definition served (uuid : string) (now : Z) (cookie : option session) (n : node) (x : server * reply)
    : node * option session * reply :=
  ({| nd_server := x.1; nd_tokens := (token_middleware uuid now (nd_tokens n) cookie).1 |},
   Some (token_middleware uuid now (nd_tokens n) cookie).2, x.2).

Lemma serve_to rnd uuid now cookie i n r t :
  Api.find (i_method i) (i_path i) = Some r -> unclocked r = false -> UnixRangeAuth (i_unix i) now = Ok tt ->
  (token_middleware uuid now (nd_tokens n) cookie).2.1 = t ->
  serve rnd uuid now cookie i n = served uuid now cookie n (handle r rnd i t now (nd_server n)).
Proof.
  intros Ef Eu Ha Ht. rewrite (serve_clocked _ _ _ _ _ _ r Ef Eu). unfold served. subst t.
  destruct (token_middleware uuid now (nd_tokens n) cookie) as [g sess]. rewrite Ha. cbn [fst snd]. by destruct (handle _ _ _ _ _ _).
Qed.

Lemma agree_auth w now_ms uuid cookie n t u v now h :
  agree w now_ms uuid cookie n t u v now -> agree (with_auth w h) now_ms uuid cookie n t u v now.
Proof. by intros []. Qed.

(** The header of the store, on its way to a handler. *)
Lemma header_arrives w now_ms uuid cookie n t u v now pw :
  agree w now_ms uuid cookie n t u v now ->
  exists h, authorization (w_state w) (VStr pw) = Ok h
    /\ match w_headers (with_auth w h) !! "Authorization" with Some x => to_string x | None => "" end = h
    /\ WalletAuth h (Some (PasswordHash pw)) (Some t) now = Ok tt.
Proof.
  intros [Ht Hsess Hu Hwin Hms Hv Hnear Hnow]. unfold UnixRange in *.
  destruct (header_accepted (w_state w) pw t u now Ht Hu) as (h & Hh & Ha); [unfold safe; lia | unfold UnixRange; lia |].
  exists h. split; [done |]. split; [| done]. cbn [with_auth w_headers set_headers]. by rewrite lookup_insert_eq.
Qed.
End Transport.
