(* ===== verification/System.v ===== *)
(** * The store as a concurrent system

    The browser interleaves the store's actions: while a request of one is in
    flight, others start, finish, and the clock ticks.  [Concrete] runs the
    programs of Store.v with their continuations; [Abstract] answers each call
    in one atomic step.  The first refines the second, and the invariants of
    the dashboard are proved on the second. *)

From S2P Require Import Prelude JsNum JsValue Json CryptoLib CryptoHelpers Runtime Store StoreSpec.
Local Open Scope Z_scope.

(** ** The calls the components and the polling tasks make *)

Inductive call : Type :=
| GetServiceStatus
| GetToken
| GetUnix
| GetNodeStatus
| GetNeighbors
| GetWalletStatus
| Authenticated (c : auth_call) (password : jsval)
| Unlock (c : wallet_call) (password : jsval)
| DownloadWallet (password : jsval).

#[export] Instance auth_call_eq_dec : EqDecision auth_call.
Proof. solve_decision. Defined.
#[export] Instance wallet_call_eq_dec : EqDecision wallet_call.
Proof. solve_decision. Defined.
#[export] Instance call_eq_dec : EqDecision call.
Proof. solve_decision. Defined.

Section System.
Context {J : CryptoJS}.

Definition call_action (c : call) : action jsval :=
  match c with
  | GetServiceStatus => getServiceStatus
  | GetToken => getToken
  | GetUnix => getUnix
  | GetNodeStatus => getNodeStatus
  | GetNeighbors => getNeighbors
  | GetWalletStatus => getCurrentWalletStatus
  | Authenticated c pw => auth_action c pw
  | Unlock c pw => wallet_action c pw
  | DownloadWallet pw => downloadWallet pw
  end.

(** ** The specification of a call: how it begins and how it is answered *)

Definition call_request (c : call) : request :=
  match c with
  | GetServiceStatus => mk_request "GET" "/api/sync/status" VUndef
  | GetToken => mk_request "GET" "/api/sync/token" VUndef
  | GetUnix => mk_request "GET" "/api/sync/unix" VUndef
  | GetNodeStatus => mk_request "GET" "/api/node/status" VUndef
  | GetNeighbors => mk_request "GET" "/api/node/neighbors" VUndef
  | GetWalletStatus => mk_request "GET" "/api/current-wallet/status" VUndef
  | Authenticated c pw => auth_request c
  | Unlock c pw => wallet_request c pw
  | DownloadWallet pw => mk_request "GET" "/api/wallet/download" VUndef
  end.

(** The password whose header the call sets before it sends. *)
Definition call_password (c : call) : option jsval :=
  match c with
  | Authenticated _ pw | DownloadWallet pw => Some pw
  | _ => None
  end.

(** How the call ends when it throws before it sends, or gets an error. *)
Definition call_error (c : call) (e : jsval) : js jsval :=
  match c with
  | GetServiceStatus | GetToken => rethrow_not_ok e
  | GetUnix => rethrow [400] e
  | GetNodeStatus | GetWalletStatus => Ok VUndef
  | GetNeighbors | DownloadWallet _ => Err e
  | Authenticated c _ => rethrow (auth_codes c) e
  | Unlock c _ => rethrow (wallet_codes c) e
  end.

(** Beginning a call: the world it leaves, and [None] when it sent its
    request, or its result when it threw before. *)
Definition call_begin (c : call) (w : world) : world * option (js jsval) :=
  match call_password c with
  | Some pw =>
      match authorization (w_state w) pw with
      | Ok h => (with_auth w h, None)
      | Err e => (w, Some (call_error c e))
      end
  | None => (w, None)
  end.

(** What the call does with the body of a successful answer. *)
Definition call_effect (c : call) (res : jsval) (w : world) : world * js jsval :=
  let data := get_prop res "data" in
  let commit_data m :=
    match data with
    | Ok d => match exec_commit m d w with (w', Ok _) => (w', Ok d) | (w', Err e) => (w', Err e) end
    | Err e => (w, Err e)
    end in
  match c with
  | GetServiceStatus => commit_data MSyncServiceStatus
  | GetToken => commit_data MSyncToken
  | GetNodeStatus => commit_data MNodeStatus
  | GetNeighbors => commit_data MNodeNeighbors
  | GetWalletStatus => commit_data MWalletStatus
  | GetUnix =>
      match (d ← data; get_prop d "unix") with
      | Ok u => ((exec_commit MSyncUnix (VNum (parse_int (to_string u))) w).1, Ok VUndef)
      | Err e => (w, Err e)
      end
  | Authenticated _ _ => (w, data)
  | Unlock _ pw =>
      match seedHash pw with
      | Ok seed => (unlocked w seed, data)
      | Err e => (w, Err e)
      end
  | DownloadWallet _ =>
      match (d ← data; hs ← get_prop res "headers"; t ← get_prop hs "content-type"; Ok (d, t)) with
      | Ok (d, t) => (add_file w ("wallet.json", default "undefined" (stringify d), t), Ok VUndef)
      | Err e => (w, Err e)
      end
  end.

(** The calls whose value is the body of the answer. *)
Definition returns_body (c : call) : bool :=
  match c with GetNeighbors | Authenticated _ _ | Unlock _ _ => true | _ => false end.

(** The polls of the node and the wallet log their errors. *)
Definition logs_errors (c : call) : bool :=
  match c with GetNodeStatus | GetWalletStatus => true | _ => false end.

Definition call_answer (c : call) (out : js jsval) (w : world) : world * js jsval :=
  let '(w', r) := match out with Ok res => call_effect c res w | Err e => (w, Err e) end in
  match r with
  | Ok d => (w', Ok (if returns_body c then d else VUndef))
  | Err e => (if logs_errors c then add_logs w' [e] else w', call_error c e)
  end.

(** ** The programs implement the specification *)

(** What is left of a call once its request is sent. *)
Definition implements (c : call) (k : js jsval -> action jsval) : Prop :=
  forall out w, ends k out w (call_answer c out w).1 (call_answer c out w).2.

(** The body of [try] after the answer, and the [catch] block. *)
Lemma implements_intro c (body : jsval -> action jsval) (h : jsval -> action jsval) :
  (forall res w, run exec (body res) w =
     let '(w', r) := call_effect c res w in
     (w', Done (match r with Ok d => Ok (if returns_body c then d else VUndef) | Err e => Err e end))) ->
  (forall e w, run exec (h e) w = (if logs_errors c then add_logs w [e] else w, Done (call_error c e))) ->
  implements c (fun out => catch (lift out ≫= body) h).
Proof.
  intros Hb Hh out w. unfold ends, call_answer. rewrite run_catch, run_bind, run_lift.
  destruct out as [res | e]; [| apply Hh].
  rewrite Hb. destruct (call_effect c res w) as [w' [d | e]]; [done | apply Hh].
Qed.

Lemma run_commit_then {A} m d (p : action A) w :
  run exec (commit m d;; p) w =
  match exec_commit m d w with
  | (w', Ok _) => run exec p w'
  | (w', Err e) => (w', Done (Err e))
  end.
Proof. rewrite run_bind, run_commit. by destruct (exec_commit m d w) as [w' [[]|e]]. Qed.

(** The calls that need no password before they send. *)
Lemma plain_call_spec c w :
  call_password c = None -> exists k, sends (call_action c) w w (call_request c) k /\ implements c k.
Proof.
  intros Hp. destruct c as [| | | | | | | c pw |]; try done.
  all: try destruct c as [|addr].
  all: eexists; split; [unfold sends; cbn [call_action wallet_action];
    unfold getServiceStatus, getToken, getUnix, getNodeStatus, getNeighbors, getCurrentWalletStatus,
      openWallet, createWallet; rewrite run_catch, run_bind, run_http; reflexivity |].
  all: apply implements_intro; [intros res w2; cbn [call_effect returns_body] | intros e w2].
  all: try done.
  all: try (apply run_rethrow_not_ok || apply run_rethrow1 || apply run_rethrow2).
  all: try (rewrite run_bind, run_prop; destruct (get_prop res "data") as [d | e] eqn:Hd; [| done]).
  all: try (rewrite run_commit_then; destruct (exec_commit _ d w2) as [w' [[]|e]]; [| done];
            try rewrite run_prop, Hd; done).
  all: rewrite run_bind.
  1: { rewrite run_prop. bind_simpl. destruct (get_prop d "unix"); done. }
  all: rewrite run_lift; destruct (seedHash pw) as [seed | e]; [| done];
    rewrite run_bind, run_sessionSet, run_commit_then, exec_commit_running, run_prop;
    by destruct (get_prop res "data").
Qed.

(** The calls that set the Authorization header first. *)
Lemma password_call_spec c pw w :
  call_password c = Some pw ->
  match authorization (w_state w) pw with
  | Ok h => exists k, sends (call_action c) w (with_auth w h) (call_request c) k /\ implements c k
  | Err e => run exec (call_action c) w = (w, Done (call_error c e))
  end.
Proof.
  intros Hp. destruct (authorization (w_state w) pw) as [h | e] eqn:Ha.
  - destruct c as [| | | | | | c pw' | |pw']; try done; injection Hp as ->.
    + destruct (auth_action_spec c pw h w Ha) as (k & Hk & Hout). exists k. split; [done |].
      intros out w2. specialize (Hout out w2). unfold ends in *. rewrite Hout. unfold call_answer, settle.
      destruct out as [res|e]; [| done]. cbn [call_effect call_error logs_errors returns_body].
      by destruct (get_prop res "data").
    + eexists. split.
      * unfold sends. cbn [call_action]. unfold downloadWallet.
        rewrite run_catch, run_bind, (run_setAuthorization _ _ _ Ha), run_bind, run_http. reflexivity.
      * apply implements_intro; [| done]. intros res w2. cbn [call_effect returns_body].
        rewrite run_bind, run_prop. destruct (get_prop res "data") as [d|]; [| done]. bind_simpl.
        rewrite run_bind, run_prop. destruct (get_prop res "headers") as [hs|]; [| done]. bind_simpl.
        rewrite run_bind, run_prop. by destruct (get_prop hs "content-type").
  - destruct c as [| | | | | | c pw' | |pw']; try done; injection Hp as ->.
    all: try destruct c; cbn [call_action auth_action];
      unfold verification, setBeneficiaryAddr, setNodeConfig, getCurrentWalletDetails, downloadWallet;
      rewrite run_catch, run_bind; unfold setAuthorization, rootState;
      rewrite run_bind, (run_trigger exec RootState w w (w_state w)), run_bind, run_lift, Ha by done;
      try done; (apply run_rethrow1 || apply run_rethrow2).
Qed.

Lemma call_spec c w :
  match call_begin c w with
  | (w', None) => exists k, sends (call_action c) w w' (call_request c) k /\ implements c k
  | (w', Some r) => run exec (call_action c) w = (w', Done r)
  end.
Proof.
  unfold call_begin. destruct (call_password c) as [pw|] eqn:Hp.
  - pose proof (password_call_spec c pw w Hp) as H. by destruct (authorization (w_state w) pw).
  - by apply plain_call_spec.
Qed.

End System.
