(* ===== verification/Interleaving.v ===== *)
(** * Interleavings of the store's calls

    [Concrete] keeps, for every request in flight, the continuation of the
    action that sent it; [Abstract] keeps only the call and answers it in one
    step of the specification of System.v.  The concrete system refines the
    abstract one, with the same observable events; the invariants are proved
    by rule induction on the abstract system. *)

From S2P Require Import Prelude JsNum JsValue Json CryptoLib CryptoHelpers Runtime Store AxiosPlugin StoreSpec System.
Local Open Scope Z_scope.

(** ** Events *)

(** A call that starts (with its result when it throws before sending), an
    answer to the [n]-th request in flight with the result of its promise,
    the clock task, and the pages that clear the seed. *)
Inductive event : Type :=
| EDispatch (c : call) (r : option (js jsval))
| EReply (n : nat) (c : call) (out : js jsval) (r : js jsval)
| ETick
| EClearSeed.

Definition do_tick (w : world) : world := (exec_commit MTick VUndef w).1.
Definition clear_seed (w : world) : world := set_session w (<["seed" := ""]> (w_session w)).

Section Interleaving.
Context {J : CryptoJS}.

(** ** The two systems *)

Record csys : Type := mk_csys {
  c_world : world;
  c_pending : list (call * (js jsval -> action jsval))
}.

Inductive cstep : csys -> event -> csys -> Prop :=
| c_dispatch w w' l c r k :
    run exec (call_action c) w = (w', Await (Http r) k) ->
    cstep (mk_csys w l) (EDispatch c None) (mk_csys w' (l ++ [(c, k)]))
| c_dispatch_done w w' l c r :
    run exec (call_action c) w = (w', Done r) ->
    cstep (mk_csys w l) (EDispatch c (Some r)) (mk_csys w' l)
| c_reply w w' l n c k out r :
    l !! n = Some (c, k) -> run exec (k out) w = (w', Done r) ->
    cstep (mk_csys w l) (EReply n c out r) (mk_csys w' (delete n l))
| c_tick w l : cstep (mk_csys w l) ETick (mk_csys (do_tick w) l)
| c_clear w l : cstep (mk_csys w l) EClearSeed (mk_csys (clear_seed w) l).

Record asys : Type := mk_asys {
  a_world : world;
  a_pending : list call
}.

Inductive astep : asys -> event -> asys -> Prop :=
| a_dispatch w w' l c :
    call_begin c w = (w', None) ->
    astep (mk_asys w l) (EDispatch c None) (mk_asys w' (l ++ [c]))
| a_dispatch_done w w' l c r :
    call_begin c w = (w', Some r) ->
    astep (mk_asys w l) (EDispatch c (Some r)) (mk_asys w' l)
| a_reply w w' l n c out r :
    l !! n = Some c -> call_answer c out w = (w', r) ->
    astep (mk_asys w l) (EReply n c out r) (mk_asys w' (delete n l))
| a_tick w l : astep (mk_asys w l) ETick (mk_asys (do_tick w) l)
| a_clear w l : astep (mk_asys w l) EClearSeed (mk_asys (clear_seed w) l).

(** Executions, the trace growing at its end. *)
Inductive creach (w0 : world) : list event -> csys -> Prop :=
| creach_init : creach w0 [] (mk_csys w0 [])
| creach_step tr s e s' : creach w0 tr s -> cstep s e s' -> creach w0 (tr ++ [e]) s'.

Inductive areach (w0 : world) : list event -> asys -> Prop :=
| areach_init : areach w0 [] (mk_asys w0 [])
| areach_step tr s e s' : areach w0 tr s -> astep s e s' -> areach w0 (tr ++ [e]) s'.

(** ** Refinement *)

Definition related (c : csys) (a : asys) : Prop :=
  c_world c = a_world a
  /\ Forall2 (fun ck c' => ck.1 = c' /\ implements c' ck.2) (c_pending c) (a_pending a).

(** The request an awaiting stage sent, and what is left of it. *)
Definition awaited {A} (st : stage cmd A) : option (request * (js jsval -> action A)) :=
  match st with
  | Done _ => None
  | Await c k =>
      match c in cmd R return (R -> action A) -> option (request * (js jsval -> action A)) with
      | Http r => fun k => Some (r, k)
      | _ => fun _ => None
      end k
  end.

Lemma Await_Http_inj {A} r r' (k k' : js jsval -> action A) :
  Await (Http r) k = Await (Http r') k' -> r = r' /\ k = k'.
Proof. intros H. apply (f_equal awaited) in H. cbn in H. by injection H. Qed.

Lemma call_run c w w' st :
  run exec (call_action c) w = (w', st) ->
  (exists k r, st = Await (Http r) k /\ call_begin c w = (w', None) /\ implements c k)
  \/ (exists r, st = Done r /\ call_begin c w = (w', Some r)).
Proof.
  intros Hr. pose proof (call_spec c w) as Hc. destruct (call_begin c w) as [w1 [r|]].
  - right. exists r. rewrite Hr in Hc. by simplify_eq.
  - left. destruct Hc as (k & Hs & Hi). unfold sends in Hs. rewrite Hr in Hs.
    exists k, (call_request c). assert (w1 = w') as -> by congruence.
    assert (st = Await (Http (call_request c)) k) as -> by congruence. done.
Qed.

Lemma Forall2_delete {A B} (P : A -> B -> Prop) l k n :
  Forall2 P l k -> Forall2 P (delete n l) (delete n k).
Proof. intros H. revert n. induction H; intros [|n]; cbn; try done; constructor; auto. Qed.

Lemma step_simulated s e s' a :
  related s a -> cstep s e s' -> exists a', astep a e a' /\ related s' a'.
Proof.
  destruct a as [wa la]. intros [Hw Hl] Hs. destruct Hs as [w w' l c r k Hr | w w' l c r Hr
    | w w' l n c k out r Hn Hr | w l | w l]; cbn in Hw, Hl; subst wa.
  - destruct (call_run _ _ _ _ Hr) as [(k' & r' & E & Hb & Hi) | (r' & [=] & _)].
    destruct (Await_Http_inj _ _ _ _ E) as [_ ->].
    eexists. split; [by apply a_dispatch |]. split; [done |]. cbn.
    apply Forall2_app; [done |]. by constructor.
  - destruct (call_run _ _ _ _ Hr) as [(? & ? & [=] & _) | (r' & [= <-] & Hb)].
    eexists. split; [by apply a_dispatch_done |]. by split.
  - destruct (Forall2_lookup_l _ _ _ _ _ Hl Hn) as (c' & Hc' & Hck & Hi). cbn in Hck, Hi. subst c'.
    specialize (Hi out w). unfold ends in Hi. rewrite Hr in Hi. injection Hi as -> ->.
    eexists. split; [apply a_reply; [done | apply surjective_pairing] |].
    split; [done |]. by apply Forall2_delete.
  - eexists. split; [apply a_tick |]. by split.
  - eexists. split; [apply a_clear |]. by split.
Qed.

Lemma reach_simulated w0 tr s :
  creach w0 tr s -> exists a, areach w0 tr a /\ related s a.
Proof.
  induction 1 as [|tr s e s' Hr (a & Ha & Hrel) Hs].
  - eexists. split; [constructor |]. split; [done | constructor].
  - destruct (step_simulated _ _ _ _ Hrel Hs) as (a' & Ha' & Hrel'). exists a'.
    split; [by econstructor | done].
Qed.

(** ** What an answer can change *)

(** Only mutations change the state, one for each answer. *)
Lemma call_answer_state c out w :
  w_state (call_answer c out w).1 = w_state w
  \/ exists m d, apply_mutation m (w_state w) d = Ok (w_state (call_answer c out w).1).
Proof.
  assert (forall m d, w_state (exec_commit m d w).1 = w_state w
            \/ exists m' d', apply_mutation m' (w_state w) d' = Ok (w_state (exec_commit m d w).1)) as Hc.
  { intros m d. unfold exec_commit. destruct (apply_mutation m (w_state w) d) eqn:E; [| by left].
    right. by exists m, d. }
  assert (forall res, w_state (call_effect c res w).1 = w_state w
            \/ exists m d, apply_mutation m (w_state w) d = Ok (w_state (call_effect c res w).1)) as He.
  { intros res. destruct c as [| | | | | | |cc pw|]; cbn [call_effect];
      [destruct (get_prop res "data") as [d|]; [| by left]..| | |].
    3: { bind_simpl. destruct (get_prop d "unix"); [apply Hc | by left]. }
    1-5: match goal with |- context [exec_commit ?m ?d _] =>
           specialize (Hc m d); destruct (exec_commit m d _) as [w' [[]|]]; exact Hc end.
    - by left.
    - destruct (seedHash pw); [| by left]. right.
      by exists MSyncServiceStatus, (VObj [("status", VInt SERVICE_STATUS_RUNNING)]).
    - destruct (_ ← _; _) as [[d t]|]; by left. }
  unfold call_answer. destruct out as [res|e]; [| by destruct (logs_errors c); left].
  specialize (He res). destruct (call_effect c res w) as [w' [d|e]]; [exact He |].
  by destruct (logs_errors c).
Qed.

Lemma call_begin_state c w : w_state (call_begin c w).1 = w_state w /\ w_session (call_begin c w).1 = w_session w.
Proof.
  unfold call_begin. destruct (call_password c) as [pw|]; [| done].
  by destruct (authorization (w_state w) pw).
Qed.

(** Only a successful answer to an open or a create changes the session. *)
Lemma call_answer_session c out w :
  w_session (call_answer c out w).1 = w_session w
  \/ exists cc pw res seed, c = Unlock cc pw /\ out = Ok res /\ seedHash pw = Ok seed
      /\ w_session (call_answer c out w).1 = <["seed" := seed]> (w_session w).
Proof.
  assert (forall m d, w_session (exec_commit m d w).1 = w_session w) as Hc.
  { intros m d. unfold exec_commit. by destruct (apply_mutation m (w_state w) d). }
  unfold call_answer. destruct out as [res|e]; [| left; by destruct (logs_errors c)].
  destruct c as [| | | | | | |cc pw|]; cbn [call_effect].
  8: { destruct (seedHash pw) as [seed|] eqn:Hs; [| by left]. right. exists cc, pw, res, seed.
       by destruct (get_prop res "data"). }
  all: left.
  8: { by destruct (_ ← _; _) as [[d t]|]. }
  all: destruct (get_prop res "data") as [d|]; [| done]; bind_simpl; try done.
  3: { destruct (get_prop d "unix"); [apply Hc | done]. }
  all: match goal with |- context [exec_commit ?m ?d _] =>
         specialize (Hc m d); destruct (exec_commit m d _) as [w' [[]|]]; exact Hc end.
Qed.

(** ** Invariants by rule induction *)

(** A property of the state that every mutation keeps holds in every reachable
    state. *)
Lemma state_invariant (P : root_state -> Prop) w0 tr a :
  P (w_state w0) ->
  (forall m s d s', P s -> apply_mutation m s d = Ok s' -> P s') ->
  areach w0 tr a -> P (w_state (a_world a)).
Proof.
  intros H0 Hm. induction 1 as [|tr s e s' Hr IH Hs]; [done |].
  destruct Hs as [w w' l c Hb | w w' l c r Hb | w w' l n c out r Hn Ha | w l | w l]; cbn in *.
  - pose proof (proj1 (call_begin_state c w)) as E. rewrite Hb in E. cbn in E. by rewrite E.
  - pose proof (proj1 (call_begin_state c w)) as E. rewrite Hb in E. cbn in E. by rewrite E.
  - pose proof (call_answer_state c out w) as [E | (m & d & E)]; rewrite Ha in E; cbn in E.
    + by rewrite E.
    + by eapply Hm.
  - by apply (Hm MTick (w_state w) VUndef).
  - done.
Qed.

Definition statuses_shown (s : root_state) : Prop :=
  truthy (nodeStatus (node s)) = true /\ truthy (currentWalletStatus (wallet s)) = true.

Lemma statuses_kept m s d s' : statuses_shown s -> apply_mutation m s d = Ok s' -> statuses_shown s'.
Proof.
  intros [Hn Hw]. unfold statuses_shown. destruct m; cbn.
  - unfold syncServiceStatus. intros Hok. by destruct d; try discriminate Hok; injection Hok as <-.
  - unfold syncToken. intros Hok. by destruct d; try discriminate Hok; injection Hok as <-.
  - by intros [= <-].
  - by intros [= <-].
  - intros [= <-]. unfold setNodeStatus. by destruct (truthy d) eqn:E.
  - unfold setBeneficiaryAddr_mut. destruct (nodeStatus (node s)); intros Hok; try discriminate Hok;
      by injection Hok as <-.
  - intros [= <-]. unfold setNeighbors. by destruct d.
  - intros [= <-]. unfold setCurrentWalletStatus. by destruct (truthy d) eqn:E.
Qed.

Definition seed_from (w0 : world) (tr : list event) (seed : string) : Prop :=
  seed = "" \/ w_session w0 !! "seed" = Some seed
  \/ exists n c pw res r, In (EReply n (Unlock c pw) (Ok res) r) tr /\ seedHash pw = Ok seed.

Lemma seed_from_mono w0 tr tr' seed : seed_from w0 tr seed -> seed_from w0 (tr ++ tr') seed.
Proof.
  intros [H | [H | (n & c & pw & res & r & Hin & H)]]; [by left | by right; left |].
  right; right. exists n, c, pw, res, r. split; [apply in_app_iff; by left | done].
Qed.

Lemma seed_invariant w0 tr a :
  areach w0 tr a -> forall seed, w_session (a_world a) !! "seed" = Some seed -> seed_from w0 tr seed.
Proof.
  induction 1 as [|tr s e s' Hr IH Hs]; [by right; left |]. intros seed.
  destruct Hs as [w w' l c Hb | w w' l c r Hb | w w' l n c out r Hn Ha | w l | w l]; cbn in *.
  - pose proof (proj2 (call_begin_state c w)) as E. rewrite Hb in E. cbn in E. rewrite E.
    intros H. by apply seed_from_mono, IH.
  - pose proof (proj2 (call_begin_state c w)) as E. rewrite Hb in E. cbn in E. rewrite E.
    intros H. by apply seed_from_mono, IH.
  - pose proof (call_answer_session c out w) as [E | (cc & pw & res & sd & -> & -> & Hsd & E)];
      rewrite Ha in E; cbn in E; rewrite E.
    + intros H. by apply seed_from_mono, IH.
    + rewrite lookup_insert_eq. intros H. apply (inj Some) in H as <-. right; right.
      exists n, cc, pw, res, r. split; [apply in_app_iff; right; by left | done].
  - intros H. by apply seed_from_mono, IH.
  - rewrite lookup_insert_eq. intros H. apply (inj Some) in H as <-. by left.
Qed.

(** ** The clock *)

(** What dashboard/routes/common/sync.go answers, up to second [tmax]. *)
Definition honest (tmax : Z) (e : event) : Prop :=
  match e with
  | EReply _ GetToken (Ok res) _ =>
      exists d t u, get_prop res "data" = Ok d /\ get_prop d "token" = Ok (VStr t)
        /\ get_prop d "unix" = Ok (VInt u) /\ 0 <= u <= tmax
  | EReply _ GetUnix (Ok res) _ =>
      exists d u, get_prop res "data" = Ok d /\ get_prop d "unix" = Ok (VInt u) /\ 0 <= u <= tmax
  | _ => True
  end.

Definition clock_within (b : Z) (c : common_state) : Prop :=
  (token c = VUndef \/ exists t, token c = VStr t) /\ exists u, unix c = VInt u /\ 0 <= u <= b.

Lemma clock_within_mono b b' c : b <= b' -> clock_within b c -> clock_within b' c.
Proof. intros Hb (Ht & u & Hu & Hr). split; [done |]. exists u. split; [done | lia]. Qed.

Lemma mutation_clock m s d s' :
  m <> MSyncToken -> m <> MSyncUnix -> m <> MTick -> apply_mutation m s d = Ok s' ->
  token (common s') = token (common s) /\ unix (common s') = unix (common s).
Proof.
  intros H1 H2 H3. destruct m; try done; cbn.
  - unfold syncServiceStatus. intros Hok. by destruct d; try discriminate Hok; injection Hok as <-.
  - by intros [= <-].
  - unfold setBeneficiaryAddr_mut. destruct (set_prop _ _ d); [| done]. by intros [= <-].
  - by intros [= <-].
  - by intros [= <-].
Qed.

(** The calls that do not synchronise the clock leave it alone. *)
Lemma call_answer_clock c out w :
  c <> GetToken -> c <> GetUnix ->
  token (common (w_state (call_answer c out w).1)) = token (common (w_state w))
  /\ unix (common (w_state (call_answer c out w).1)) = unix (common (w_state w)).
Proof.
  intros H1 H2.
  assert (forall m d, m <> MSyncToken -> m <> MSyncUnix -> m <> MTick ->
    token (common (w_state (exec_commit m d w).1)) = token (common (w_state w))
    /\ unix (common (w_state (exec_commit m d w).1)) = unix (common (w_state w))) as Hc.
  { intros m d ? ? ?. unfold exec_commit. destruct (apply_mutation m (w_state w) d) eqn:E; [| done].
    by apply (mutation_clock m _ d). }
  unfold call_answer. destruct out as [res|e]; [| by destruct (logs_errors c)].
  destruct c as [| | | | | | |cc pw|]; try done; cbn [call_effect].
  all: try (destruct (_ ← _; _) as [[d t]|]; done).
  all: try (destruct (seedHash pw); [destruct (get_prop res "data") |]; done).
  all: destruct (get_prop res "data") as [d|]; [| done]; try done.
  all: match goal with |- context [exec_commit ?m ?d _] =>
         specialize (Hc m d); destruct (exec_commit m d _) as [w' [[]|]]; by apply Hc end.
Qed.

Lemma token_answer tmax n res r w :
  honest tmax (EReply n GetToken (Ok res) r) ->
  clock_within tmax (common (w_state (call_answer GetToken (Ok res) w).1)).
Proof.
  intros (d & t & u & Hd & Ht & Hu & Hr). unfold call_answer. cbn [call_effect]. rewrite Hd.
  unfold exec_commit. cbn. unfold syncToken. rewrite Ht, Hu. cbn. split; [right; by exists t |].
  by exists u.
Qed.

Lemma unix_answer tmax n res r w b :
  honest tmax (EReply n GetUnix (Ok res) r) -> clock_within b (common (w_state w)) -> tmax < 2 ^ 53 ->
  clock_within tmax (common (w_state (call_answer GetUnix (Ok res) w).1)).
Proof.
  intros (d & u & Hd & Hu & Hr) [Ht _] Hb. unfold call_answer. cbn [call_effect]. rewrite Hd.
  bind_simpl. rewrite Hu. cbn -[parse_int]. split; [done |]. exists u. split; [| done].
  rewrite num_str_int by (unfold safe; lia). unfold int_str.
  destruct (Z.ltb_spec u 0); [lia |]. by rewrite parse_int_nat.
Qed.

(** A failed synchronisation leaves the clock alone. *)
Lemma failed_answer c e w :
  token (common (w_state (call_answer c (Err e) w).1)) = token (common (w_state w))
  /\ unix (common (w_state (call_answer c (Err e) w).1)) = unix (common (w_state w)).
Proof. unfold call_answer. by destruct (logs_errors c). Qed.

Lemma clock_same b c c' :
  token c' = token c /\ unix c' = unix c -> clock_within b c -> clock_within b c'.
Proof. intros [Ht Hu] H. unfold clock_within in *. by rewrite Ht, Hu. Qed.

Lemma clock_step tmax b a e a' :
  astep a e a' -> honest tmax e -> tmax <= b -> b + 1 < 2 ^ 53 ->
  clock_within b (common (w_state (a_world a))) -> clock_within (b + 1) (common (w_state (a_world a'))).
Proof.
  intros Hs He Hb Hmax Hc.
  destruct Hs as [w w' l c Hd | w w' l c r Hd | w w' l n c out r Hn Ha | w l | w l]; cbn in *.
  - pose proof (proj1 (call_begin_state c w)) as E. rewrite Hd in E. cbn in E. rewrite E.
    by apply (clock_within_mono b); [lia |].
  - pose proof (proj1 (call_begin_state c w)) as E. rewrite Hd in E. cbn in E. rewrite E.
    by apply (clock_within_mono b); [lia |].
  - replace w' with (call_answer c out w).1 by (by rewrite Ha).
    destruct out as [res|err].
    + destruct (decide (c = GetToken \/ c = GetUnix)) as [[-> | ->] | Hne].
      * apply (clock_within_mono tmax); [lia |]. by apply (token_answer tmax n res r).
      * apply (clock_within_mono tmax); [lia |]. apply (unix_answer tmax n res r w b); [done.. | lia].
      * apply (clock_within_mono b); [lia |]. eapply clock_same; [| exact Hc].
        apply call_answer_clock; tauto.
    + apply (clock_within_mono b); [lia |]. eapply clock_same; [apply failed_answer | exact Hc].
  - destruct Hc as (Ht & u & Hu & Hr). split; [done |]. exists (u + 1). cbn. split; [| lia].
    rewrite Hu. apply js_incr_int; unfold safe; lia.
  - by apply (clock_within_mono b); [lia |].
Qed.

Lemma clock_invariant tmax w0 tr a :
  clock_within tmax (common (w_state w0)) -> tmax + Z.of_nat (length tr) < 2 ^ 53 ->
  Forall (honest tmax) tr -> areach w0 tr a ->
  clock_within (tmax + Z.of_nat (length tr)) (common (w_state (a_world a))).
Proof.
  intros H0 Hb Hh Hr. revert Hb Hh. induction Hr as [|tr s e s' Hr IH Hs]; cbn.
  - intros _ _. by rewrite Z.add_0_r.
  - rewrite length_app. cbn. intros Hb [Hh He%Forall_inv]%Forall_app.
    replace (tmax + Z.of_nat (length tr + 1)) with (tmax + Z.of_nat (length tr) + 1) in * by lia.
    apply (clock_step tmax _ _ _ _ Hs He); [lia.. |]. apply IH; [lia | done].
Qed.

(** ** Theorems *)

(** C20: every execution of the asynchronous programs, with any interleaving
    of calls, answers, ticks and page loads, is an execution of the system in
    which each call is answered atomically as [call_answer] specifies: same
    events, same promise results, same world, same calls in flight. *)
Theorem store_refines w0 tr s :
  creach w0 tr s ->
  exists a, areach w0 tr a /\ c_world s = a_world a /\ (c_pending s).*1 = a_pending a.
Proof.
  intros H. destruct (reach_simulated _ _ _ H) as (a & Ha & Hw & Hl). exists a. split_and!; [done.. |].
  induction Hl as [|ck c l k [Hc _] _ IH]; [done |]. cbn. by rewrite Hc, IH.
Qed.

(** Every call in flight settles with its answer, whatever the answer is
    and whatever happened since it was sent: no action waits twice. *)
Theorem answers_settle w0 tr s n c k out :
  creach w0 tr s -> c_pending s !! n = Some (c, k) ->
  exists w r, cstep s (EReply n c out r) (mk_csys w (delete n (c_pending s))).
Proof.
  intros H Hn. destruct (reach_simulated _ _ _ H) as (a & Ha & Hw & Hl).
  destruct (Forall2_lookup_l _ _ _ _ _ Hl Hn) as (c' & _ & Hc & Hi). cbn in Hc, Hi. subst c'.
  destruct s as [w l]. eexists _, _. by eapply c_reply, Hi.
Qed.

Lemma reach_statuses w0 now tr s :
  w_state w0 = store_init now -> creach w0 tr s -> statuses_shown (w_state (c_world s)).
Proof.
  intros H0 H. destruct (reach_simulated _ _ _ H) as (a & Ha & Hw & _). rewrite Hw.
  apply (state_invariant statuses_shown w0 tr); [by rewrite H0 | apply statuses_kept | done].
Qed.

(** In every reachable state the node status and the wallet status can be
    read: no answer of the node makes a property access of the components
    throw. *)
Theorem statuses_readable w0 now tr s k :
  w_state w0 = store_init now -> creach w0 tr s ->
  is_Ok (get_prop (nodeStatus (node (w_state (c_world s)))) k) = true
  /\ is_Ok (get_prop (currentWalletStatus (wallet (w_state (c_world s)))) k) = true.
Proof.
  intros H0 H. destruct (reach_statuses w0 now tr s H0 H) as [Hn Hwl].
  by destruct (nodeStatus _), (currentWalletStatus _).
Qed.

(** C21: the seed in the session is one the browser session began with, the
    empty string, or the seed of a password with which a wallet was opened or
    created successfully: a password the node refused never leaves a seed. *)
Theorem seed_provenance w0 tr s seed :
  creach w0 tr s -> w_session (c_world s) !! "seed" = Some seed ->
  seed = "" \/ w_session w0 !! "seed" = Some seed
  \/ exists n c pw res r, In (EReply n (Unlock c pw) (Ok res) r) tr /\ seedHash pw = Ok seed.
Proof.
  intros H Hs. destruct (reach_simulated _ _ _ H) as (a & Ha & Hw & _). rewrite Hw in Hs.
  by apply (seed_invariant w0 tr a).
Qed.

(** C22: with the answers the node gives to the clock requests, the response
    interceptor ends in every reachable state, after at most forty rounds, with
    what the first working key of the window gives. *)
Theorem decryption_terminates w0 tmax tr s resp :
  clock_within tmax (common (w_state w0)) -> tmax + Z.of_nat (length tr) + padding < 2 ^ 53 ->
  Forall (honest tmax) tr -> creach w0 tr s ->
  exists u, unix (common (w_state (c_world s))) = VInt u
    /\ onResponse 41 (c_world s) resp = Some (decrypted (c_world s) u resp).
Proof.
  intros H0 Hb Hh H. destruct (reach_simulated _ _ _ H) as (a & Ha & Hw & _). rewrite Hw.
  unfold padding in *.
  destruct (clock_invariant tmax w0 tr a) as (_ & u & Hu & Hr); [done | lia | done | done |].
  exists u. split; [done |]. apply onResponse_search; [done | unfold safe, padding; lia.. | lia].
Qed.
End Interleaving.

(** ** The theorems at a concrete execution *)

Module InterleavingSamples.
Import Toy.

Definition start : world := {|
  w_state := store_init (num_of_Z 1600000000000);
  w_session := ∅; w_headers := ∅; w_console := []; w_files := []
|}.
Definition token_answer_body : jsval :=
  VObj [("data", VObj [("token", VStr "tok"); ("unix", VInt 1600000000)])].
Definition open_call : call := Unlock COpen (VStr "hunter2").
Definition open_answer : jsval := VObj [("data", VObj [])].

Definition trace : list event :=
  [ EDispatch GetToken None;
    EReply 0 GetToken (Ok token_answer_body) (Ok VUndef);
    ETick;
    EDispatch open_call None;
    EDispatch GetNodeStatus None;
    EReply 0 open_call (Ok open_answer) (Ok (VObj [])) ].

Definition finish : world :=
  (call_answer open_call (Ok open_answer) (do_tick (call_answer GetToken (Ok token_answer_body) start).1)).1.

(** The token is synchronised, a wallet is opened while the node is polled,
    and the answer to the open comes first. *)
Lemma trace_runs : exists k, creach start trace (mk_csys finish [(GetNodeStatus, k)]).
Proof.
  pose proof (creach_init start) as H.
  eapply creach_step in H; [| eapply (c_dispatch _ _ _ GetToken); reflexivity].
  eapply creach_step in H; [| eapply (c_reply _ (call_answer GetToken (Ok token_answer_body) start).1
    _ 0 _ _ (Ok token_answer_body)); reflexivity].
  eapply creach_step in H; [| apply c_tick].
  eapply creach_step in H; [| eapply (c_dispatch _ _ _ open_call); reflexivity].
  eapply creach_step in H; [| eapply (c_dispatch _ _ _ GetNodeStatus); reflexivity].
  eapply creach_step in H; [| eapply (c_reply _ finish _ 0 _ _ (Ok open_answer)); reflexivity].
  eexists. exact H.
Qed.

Lemma store_refines_witness :
  exists a, areach start trace a /\ finish = a_world a /\ [GetNodeStatus] = a_pending a.
Proof. destruct trace_runs as [k H]. apply (store_refines _ _ _ H). Defined.

Lemma answers_settle_witness :
  exists k w r, cstep (mk_csys finish [(GetNodeStatus, k)])
    (EReply 0 GetNodeStatus (Err TypeError) r) (mk_csys w []).
Proof.
  destruct trace_runs as [k H]. exists k.
  apply (answers_settle _ _ _ 0 GetNodeStatus k (Err TypeError) H). reflexivity.
Defined.

Lemma statuses_readable_witness :
  is_Ok (get_prop (nodeStatus (node (w_state finish))) "syncState") = true
  /\ is_Ok (get_prop (currentWalletStatus (wallet (w_state finish))) "syncState") = true.
Proof.
  destruct trace_runs as [k H].
  apply (statuses_readable start (num_of_Z 1600000000000) _ _ "syncState" eq_refl H).
Defined.

Definition opened_seed : string :=
  match seedHash (VStr "hunter2") with Ok s => s | Err _ => "" end.

Lemma seed_provenance_witness :
  opened_seed = "" \/ w_session start !! "seed" = Some opened_seed
  \/ exists n c pw res r, In (EReply n (Unlock c pw) (Ok res) r) trace /\ seedHash pw = Ok opened_seed.
Proof.
  destruct trace_runs as [k H]. apply (seed_provenance _ _ _ opened_seed H). vm_compute. reflexivity.
Defined.

Lemma decryption_terminates_witness :
  exists u, unix (common (w_state finish)) = VInt u
    /\ onResponse 41 finish open_answer = Some (decrypted finish u open_answer).
Proof.
  destruct trace_runs as [k H].
  apply (decryption_terminates start 1600000000000 trace (mk_csys finish [(GetNodeStatus, k)]) open_answer);
    [| | | exact H].
  - split; [by left |]. exists 1600000000000. split; [reflexivity | lia].
  - unfold padding. cbn. lia.
  - repeat constructor. cbn. exists (VObj [("token", VStr "tok"); ("unix", VInt 1600000000)]), "tok", 1600000000.
    repeat split; lia.
Defined.
End InterleavingSamples.
