(* ===== verification/NuxtConfig.v ===== *)
(** * The configuration: nuxt.config.js, and the plugins that only configure

    The configuration object as a value; what comes from outside the sources,
    the environment of npm and the palette of Vuetify, is an argument.  The
    routes are those of the files under pages/; how nuxt-i18n forms their paths
    is the law [I18nRoutes]. *)

From S2P Require Import Prelude JsNum JsValue.
Local Open Scope Z_scope.

Section Config.
(** [process.env.<name>] and [colors.<name>.<shade>]. *)
Variable env : string -> jsval.
Variable colors : string -> string -> jsval.

Definition router_base : string := "/web/".

Definition head : jsval := VObj [
  ("titleTemplate", js_add (VStr "%s - ") (env "npm_package_name"));
  ("title", js_or (env "npm_package_name") (VStr ""));
  ("meta", VArr [
    VObj [("name", VStr "theme-color"); ("content", VStr "#3f51b5")];
    VObj [("charset", VStr "utf-8")];
    VObj [("name", VStr "viewport"); ("content", VStr "width=device-width, initial-scale=1")];
    VObj [("hid", VStr "description"); ("name", VStr "description");
          ("content", js_or (env "npm_package_description") (VStr ""))]]);
  ("link", VArr [
    VObj [("rel", VStr "icon"); ("type", VStr "image/x-icon"); ("href", VStr "/web/favicon.ico")]])
].

(** In the order in which they are installed. *)
Definition plugins : list string :=
  ["~/plugins/vuetify"; "~/plugins/axios"; "~/plugins/i18n"; "~/plugins/task"; "~/plugins/router"].

Definition locale_entry (code name iso file : string) : jsval :=
  VObj [("code", VStr code); ("name", VStr name); ("iso", VStr iso); ("file", VStr file)].

Definition locales : list jsval :=
  [ locale_entry "en" "English" "en-US" "en/index.js";
    locale_entry "zh" "简体中文" "zh-CN" "zh/index.js" ].

Definition i18n_options : jsval := VObj [
  ("vueI18n", VObj []);
  ("vueI18nLoader", VBool false);
  ("locales", VArr locales);
  ("defaultLocale", VStr "en");
  ("lazy", VBool true);
  ("langDir", VStr "locales/");
  ("detectBrowserLanguage", VObj [
    ("useCookie", VBool true);
    ("cookieKey", VStr "i18n_redirected");
    ("alwaysRedirect", VBool false);
    ("fallbackLocale", VStr "en")]);
  ("encodePaths", VBool true)
].

Definition modules : jsval :=
  VArr [ VStr "@nuxtjs/axios"; VStr "@nuxtjs/vuetify"; VStr "@nuxtjs/pwa"; VArr [VStr "nuxt-i18n"; i18n_options] ].

Definition axios : jsval := VObj [("withCredentials", VBool true); ("baseURL", VStr "/")].

Definition vuetify : jsval := VObj [("theme", VObj [
  ("primary", colors "blue" "darken2");
  ("accent", colors "grey" "darken3");
  ("secondary", colors "amber" "darken3");
  ("info", colors "teal" "lighten1");
  ("warning", colors "amber" "base");
  ("error", colors "deepOrange" "accent4");
  ("success", colors "green" "accent3")])].

(** [build.extend]: the configuration of webpack it leaves. *)
Definition build_extend (config ctx : jsval) : js jsval :=
  isClient ← get_prop ctx "isClient";
  if truthy isClient then set_prop config "devtool" (VStr "eval-source-map") else Ok config.

(** The values of the exported object ([build] holds a function). *)
Definition nuxt_config : jsval := VObj [
  ("router", VObj [("base", VStr router_base)]);
  ("ssr", VBool false);
  ("mode", VStr "spa");
  ("head", head);
  ("loading", VBool false);
  ("css", VArr [VStr "@/styles/global.scss"]);
  ("plugins", VArr (map VStr plugins));
  ("modules", modules);
  ("axios", axios);
  ("vuetify", vuetify)
].
End Config.

(** plugins/vuetify.js: the options of Vuetify. *)
Definition vuetify_plugin : jsval := VObj [("icons", VObj [("iconfont", VStr "fa")])].

(** plugins/i18n.js: the hooks around a change of the language do nothing. *)
Definition beforeLanguageSwitch (oldLocale newLocale : string) : unit := tt.
Definition onLanguageSwitched (oldLocale newLocale : string) : unit := tt.

(** middleware/clipboard.js *)
Definition clipboard_config : jsval := VObj [("autoSetContainer", VBool true)].

(** ** Routes *)

(** The files under pages/, with the name and the path Nuxt gives their route. *)
Definition pages : list (string * string) :=
  [ ("index", "/"); ("loading", "/loading"); ("nodeStatus", "/nodeStatus"); ("overview", "/overview");
    ("settings", "/settings"); ("wallet-create", "/wallet/create"); ("wallet-open", "/wallet/open") ].

Definition codes : list string :=
  flat_map (fun l => match get_prop l "code" with Ok (VStr c) => [c] | _ => [] end) locales.

(** The prefix of the routes of a locale: none, or its code. *)
Definition prefixes : list string := "" :: map (fun c => ("/" +:+ c)%string) codes.

(** What nuxt-i18n documents of [localePath]: the path of the page, behind the
    prefix of the current locale. *)
Class I18nRoutes (localePath : string -> string) : Prop := {
  localized : exists prefix, In prefix prefixes
    /\ forall name path, In (name, path) pages -> path <> "/" -> localePath name = (prefix +:+ path)%string
}.

(** The paths of the routes of every locale. *)
Definition routes : list string :=
  flat_map (fun prefix => map (fun p => (prefix +:+ p.2)%string) pages) prefixes.
