(* ===== verification/RouterPlugin.v ===== *)
(** * plugins/router.js and the loading pages

    The navigation guards, the redirect of the loading page (pages/index.vue,
    pages/loading.vue), and where a navigation ends.  [localePath] of nuxt-i18n
    gives the path of a named route in the current locale. *)

From S2P Require Import Prelude JsNum JsValue Runtime Store AxiosPlugin NuxtConfig.
Local Open Scope Z_scope.

Section Router.
Variable localePath : string -> string.

(** ** The guards *)

(** [beforeEach] lets every navigation pass: [next()] without argument. *)
Definition beforeEach (to : string) : option string := None.

(** The path [afterEach] redirects to, if any. *)
Definition afterEach (w : world) (to : string) : option string :=
  let status := serviceStatus (common (w_state w)) in
  if strict_eq status (VInt SERVICE_STATUS_DEFAULT) then Some (localePath "loading")
  else if has_bit status SERVICE_STATUS_NO_WALLET_FILE then
    if str_contains "/wallet/create" to then None else Some (localePath "wallet-create")
  else if has_bit status SERVICE_STATUS_NO_PASSWORD then
    if str_contains "/wallet/open" to then None else Some (localePath "wallet-open")
  else
    if truthy (sessionGet w "seed") then None else Some (localePath "wallet-open").

(** [loadPage] of the loading page: the path it pushes, if any. *)
Definition loadPage (w : world) : option string :=
  let status := serviceStatus (common (w_state w)) in
  if has_bit status SERVICE_STATUS_NO_PASSWORD then Some (localePath "wallet-open")
  else if has_bit status SERVICE_STATUS_NO_WALLET_FILE then Some (localePath "wallet-create")
  else if has_bit status SERVICE_STATUS_RUNNING then Some (localePath "nodeStatus")
  else None.

(** The loading page over the worlds it sees: [created] calls [loadPage] in the
    first, the watcher of the computed [serviceStatus] in every later one whose
    value differs from the one before; a push leaves the page. *)
Fixpoint watch_serviceStatus (old : jsval) (ws : list world) : option string :=
  match ws with
  | [] => None
  | w :: ws =>
      let val := serviceStatus (common (w_state w)) in
      match (if strict_eq val old then None else loadPage w) with
      | Some p => Some p
      | None => watch_serviceStatus val ws
      end
  end.
Definition loading_page (w : world) (ws : list world) : option string :=
  match loadPage w with
  | Some p => Some p
  | None => watch_serviceStatus (serviceStatus (common (w_state w))) ws
  end.

(** pages/index.vue has the same parts. *)
Definition index_loadPage (w : world) : option string :=
  let status := serviceStatus (common (w_state w)) in
  if has_bit status SERVICE_STATUS_NO_PASSWORD then Some (localePath "wallet-open")
  else if has_bit status SERVICE_STATUS_NO_WALLET_FILE then Some (localePath "wallet-create")
  else if has_bit status SERVICE_STATUS_RUNNING then Some (localePath "nodeStatus")
  else None.
Fixpoint index_watch (old : jsval) (ws : list world) : option string :=
  match ws with
  | [] => None
  | w :: ws =>
      let val := serviceStatus (common (w_state w)) in
      match (if strict_eq val old then None else index_loadPage w) with
      | Some p => Some p
      | None => index_watch val ws
      end
  end.
Definition index_page (w : world) (ws : list world) : option string :=
  match index_loadPage w with
  | Some p => Some p
  | None => index_watch (serviceStatus (common (w_state w))) ws
  end.

(** ** A whole navigation *)

(** Vue Router drops a navigation to the path it is already at, so a redirect
    to the current path ends the navigation.  [None]: the fuel ran out. *)
Fixpoint navigate (fuel : nat) (w : world) (to : string) : option string :=
  match fuel with
  | O => None
  | S f =>
      match afterEach w to with
      | None => Some to
      | Some target => if String.eqb target to then Some to else navigate f w target
      end
  end.

(** What nuxt-i18n documents of the paths of the three routes: the locale
    prefix comes before the path of the page. *)
Class LocalePaths : Prop := {
  create_path : str_contains "/wallet/create" (localePath "wallet-create") = true;
  open_path : str_contains "/wallet/open" (localePath "wallet-open") = true;
  open_not_create : str_contains "/wallet/create" (localePath "wallet-open") = false;
  node_not_create : str_contains "/wallet/create" (localePath "nodeStatus") = false;
  node_not_open : str_contains "/wallet/open" (localePath "nodeStatus") = false
}.
Context {LP : LocalePaths}.

(** The page a state of the service leads to; [None] is the page asked for. *)
Inductive landing : Type := Loading | CreateWallet | OpenWallet | Requested.

Definition landing_of (w : world) : landing :=
  let status := serviceStatus (common (w_state w)) in
  if strict_eq status (VInt SERVICE_STATUS_DEFAULT) then Loading
  else if has_bit status SERVICE_STATUS_NO_WALLET_FILE then CreateWallet
  else if has_bit status SERVICE_STATUS_NO_PASSWORD then OpenWallet
  else if truthy (sessionGet w "seed") then Requested else OpenWallet.

Definition lands (w : world) (to final : string) : Prop :=
  match landing_of w with
  | Loading => final = localePath "loading"
  | CreateWallet => final = to /\ str_contains "/wallet/create" to = true \/ final = localePath "wallet-create"
  | OpenWallet => final = to /\ str_contains "/wallet/open" to = true \/ final = localePath "wallet-open"
  | Requested => final = to
  end.

Lemma navigate_once w to target :
  afterEach w to = Some target ->
  (afterEach w target = None \/ afterEach w target = Some target) ->
  navigate 2 w to = Some target.
Proof.
  intros H Ht. cbn [navigate]. rewrite H. destruct (String.eqb_spec target to) as [<- | _]; [done |].
  destruct Ht as [-> | ->]; [done |]. by rewrite String.eqb_refl.
Qed.

Lemma navigate_lands w to : exists final, navigate 2 w to = Some final /\ lands w to final.
Proof.
  unfold lands, landing_of.
  assert (forall t, afterEach w t = afterEach w t) as Ha by done. unfold afterEach in Ha at 2.
  destruct (strict_eq _ _).
  { exists (localePath "loading"). split; [| done]. apply navigate_once; [by rewrite Ha | right; by rewrite Ha]. }
  destruct (has_bit _ SERVICE_STATUS_NO_WALLET_FILE).
  { destruct (str_contains "/wallet/create" to) eqn:E.
    - exists to. split; [cbn; by rewrite Ha, E | by left].
    - exists (localePath "wallet-create"). split; [| by right].
      apply navigate_once; [by rewrite Ha, E | left; by rewrite Ha, create_path]. }
  destruct (has_bit _ SERVICE_STATUS_NO_PASSWORD).
  { destruct (str_contains "/wallet/open" to) eqn:E.
    - exists to. split; [cbn; by rewrite Ha, E | by left].
    - exists (localePath "wallet-open"). split; [| by right].
      apply navigate_once; [by rewrite Ha, E | left; by rewrite Ha, open_path]. }
  destruct (truthy _).
  - exists to. split; [cbn; by rewrite Ha | done].
  - exists (localePath "wallet-open"). split; [| by right].
    apply navigate_once; [by rewrite Ha | right; by rewrite Ha].
Qed.

(** ** Theorems *)

(** Every navigation ends after at most one redirect, on the page the
    state of the service asks for: the loading page before the first status,
    the create page without a wallet file, the open page without a password or
    a seed, and the requested page otherwise. *)
Theorem navigation_settles w to :
  exists final, navigate 2 w to = Some final /\ lands w to final.
Proof. exact (navigate_lands w to). Qed.

(** C31: a page that is none of the three entry pages is shown only when the
    service reported a status with neither a missing wallet nor a missing
    password, and the session holds a seed. *)
Theorem pages_guarded w to final s :
  serviceStatus (common (w_state w)) = VInt s -> 0 <= s < 2 ^ 31 ->
  navigate 2 w to = Some final ->
  final <> localePath "loading" ->
  str_contains "/wallet/create" final = false -> str_contains "/wallet/open" final = false ->
  s <> 0 /\ Z.testbit s 1 = false /\ Z.testbit s 2 = false
  /\ exists seed, w_session w !! "seed" = Some seed /\ seed <> "".
Proof.
  intros Hs Hr Hn Hl Hc Ho. destruct (navigate_lands w to) as (f & Hf & Hland).
  rewrite Hn in Hf. apply (inj Some) in Hf. subst f. unfold lands, landing_of in Hland. rewrite Hs in Hland.
  change SERVICE_STATUS_DEFAULT with 0 in Hland.
  rewrite strict_eq_int, !has_bit_int in Hland by flag_lia.
  destruct (Z.eqb_spec s 0) as [-> | Hz]; [done |].
  assert (forall n, 0 <= n -> Z.land s (Z.shiftl 1 n) = 0 -> Z.testbit s n = false) as Hbit.
  { intros n Hpos E. by rewrite <- flag_testbit, E. }
  destruct (Z.eqb_spec (Z.land s SERVICE_STATUS_NO_WALLET_FILE) 0) as [E1 | _]; cbn in Hland;
    [| destruct Hland as [[-> H] | ->]; [congruence | by rewrite create_path in Hc]].
  destruct (Z.eqb_spec (Z.land s SERVICE_STATUS_NO_PASSWORD) 0) as [E2 | _]; cbn in Hland;
    [| destruct Hland as [[-> H] | ->]; [congruence | by rewrite open_path in Ho]].
  split_and!; [done | by apply Hbit | by apply Hbit |].
  unfold sessionGet in Hland. destruct (w_session w !! "seed") as [seed|].
  - exists seed. split; [done |]. intros ->. destruct Hland as [[-> H] | ->]; [congruence |].
    by rewrite open_path in Ho.
  - destruct Hland as [[-> H] | ->]; [congruence | by rewrite open_path in Ho].
Qed.

(** Where the push of a loading page ends, by the guard: at the page of the
    highest priority. *)
Lemma loading_page_leads w s p :
  serviceStatus (common (w_state w)) = VInt s -> 0 <= s < 2 ^ 31 ->
  loadPage w = Some p ->
  navigate 2 w p = Some (localePath (
    if Z.testbit s 1 then "wallet-create"
    else if Z.testbit s 2 || negb (truthy (sessionGet w "seed")) then "wallet-open"
    else "nodeStatus")).
Proof.
  intros Hs Hr Hp.
  assert (forall n f, 0 <= n -> f = Z.shiftl 1 n -> negb (Z.land s f =? 0) = Z.testbit s n) as Hbit.
  { intros n f Hn ->. apply flag_testbit; lia. }
  unfold loadPage in Hp. rewrite Hs, !has_bit_int, (Hbit 1 SERVICE_STATUS_NO_WALLET_FILE),
    (Hbit 2 SERVICE_STATUS_NO_PASSWORD), (Hbit 4 SERVICE_STATUS_RUNNING) in Hp by flag_lia.
  assert (s <> 0) as Hz by (intros ->; rewrite !Z.bits_0 in Hp; done).
  pose proof (navigate_lands w p) as (final & -> & Hland). f_equal. unfold lands, landing_of in Hland.
  rewrite Hs in Hland. change SERVICE_STATUS_DEFAULT with 0 in Hland.
  rewrite strict_eq_int, !has_bit_int, (Hbit 1 SERVICE_STATUS_NO_WALLET_FILE),
    (Hbit 2 SERVICE_STATUS_NO_PASSWORD) in Hland by flag_lia.
  destruct (Z.eqb_spec s 0) as [| _]; [done |].
  destruct (Z.testbit s 1), (Z.testbit s 2), (truthy (sessionGet w "seed")), (Z.testbit s 4);
    simplify_eq/=; try done; destruct Hland as [[-> H] | ->]; try done;
    rewrite ?open_not_create, ?node_not_create, ?node_not_open in H; done.
Qed.

(** A status as the node reports it. *)
Definition reported (w : world) (s : Z) : Prop := serviceStatus (common (w_state w)) = VInt s /\ 0 <= s < 2 ^ 31.

Lemma loadPage_status w w' : serviceStatus (common (w_state w)) = serviceStatus (common (w_state w')) -> loadPage w = loadPage w'.
Proof. intros H. unfold loadPage. by rewrite H. Qed.

Lemma first_some {X Y} (f : X -> option Y) x l :
  hd_error (omap f (x :: l)) = match f x with Some y => Some y | None => hd_error (omap f l) end.
Proof. cbn. by destruct (f x). Qed.

(** The watcher misses nothing: a status that is not new was seen before. *)
Lemma loading_page_polls w ws : Forall (fun w => exists s, reported w s) (w :: ws) ->
  loading_page w ws = hd_error (omap loadPage (w :: ws)).
Proof.
  unfold loading_page. revert w. induction ws as [|w' ws IH]; intros w [[s [Hs Hr]] HF]%list.Forall_cons_1.
  { cbn. by destruct (loadPage w). }
  rewrite first_some. cbn [watch_serviceStatus]. destruct (loadPage w) eqn:E; [done |].
  destruct (list.Forall_cons_1 _ _ _ HF) as [[s' [Hs' Hr']] _]. specialize (IH w' HF). rewrite <- IH.
  destruct (strict_eq _ _) eqn:Eq; [| by destruct (loadPage w')].
  rewrite Hs, Hs', strict_eq_int in Eq by flag_lia. apply Z.eqb_eq in Eq. subst s'.
  by rewrite (loadPage_status w' w), E by congruence.
Qed.

Lemma loadPage_flags w s : reported w s -> loadPage w = None <-> Z.testbit s 1 = false /\ Z.testbit s 2 = false /\ Z.testbit s 4 = false.
Proof.
  intros [Hs Hr]. assert (forall n f, 0 <= n -> f = Z.shiftl 1 n -> negb (Z.land s f =? 0) = Z.testbit s n) as Hbit.
  { intros n f Hn ->. apply flag_testbit; lia. }
  unfold loadPage. rewrite Hs, !has_bit_int, (Hbit 1 SERVICE_STATUS_NO_WALLET_FILE),
    (Hbit 2 SERVICE_STATUS_NO_PASSWORD), (Hbit 4 SERVICE_STATUS_RUNNING) by flag_lia.
  destruct (Z.testbit s 1), (Z.testbit s 2), (Z.testbit s 4); cbn; split; (done || by intros (? & ? & ?)).
Qed.

(** C32: The two loading pages are left as soon as a status says where to go: with a
    missing file, a missing password or a running service among the statuses
    that arrive, the page pushes a path, and the guard ends the navigation at
    the page of the highest priority for the status it was pushed in; without
    one they stay. *)
Theorem loading_pages_left w ws : Forall (fun w => exists s, reported w s) (w :: ws) ->
  index_page w ws = loading_page w ws
  /\ (loading_page w ws = None <->
        Forall (fun w => forall s, reported w s -> Z.testbit s 1 = false /\ Z.testbit s 2 = false /\ Z.testbit s 4 = false) (w :: ws))
  /\ forall p, loading_page w ws = Some p -> exists w' s, In w' (w :: ws) /\ reported w' s
       /\ navigate 2 w' p = Some (localePath (
            if Z.testbit s 1 then "wallet-create"
            else if Z.testbit s 2 || negb (truthy (sessionGet w' "seed")) then "wallet-open"
            else "nodeStatus")).
Proof.
  intros HF. split; [done |]. rewrite (loading_page_polls w ws HF). generalize dependent (w :: ws). clear w ws. intros l HF. split.
  - induction HF as [|w l [s Hs] _ IH]; [by split |]. rewrite first_some. destruct (loadPage w) as [p|] eqn:E.
    + split; [done |]. intros [Hx _]%list.Forall_cons_1. pose proof (proj2 (loadPage_flags w s Hs) (Hx s Hs)). congruence.
    + rewrite IH. split; [| by intros [_ H]%list.Forall_cons_1].
      intros H. constructor; [| done]. intros s' Hs'. by apply (loadPage_flags w s' Hs').
  - induction HF as [|w l [s Hs] _ IH]; [done |]. rewrite first_some. intros p. destruct (loadPage w) as [p'|] eqn:E.
    + intros Hp. apply (inj Some) in Hp. subst p'. exists w, s. destruct Hs. split_and!; [by left | done | by apply loading_page_leads].
    + intros (w' & s' & Hin & H)%IH. exists w', s'. split; [by right | done].
Qed.
End Router.

(** The routes of the configuration have these paths, in every locale. *)
#[export] Instance i18n_paths localePath : I18nRoutes localePath -> LocalePaths localePath.
Proof.
  intros [(prefix & Hp & H)].
  constructor; rewrite ?(H "wallet-create" "/wallet/create"), ?(H "wallet-open" "/wallet/open"),
    ?(H "nodeStatus" "/nodeStatus") by (done || cbn; tauto);
    destruct Hp as [<- | [<- | [<- | []]]]; reflexivity.
Qed.

(** ** The theorems at a concrete locale *)

Module RouterSamples.
Definition path (name : string) : string :=
  if String.eqb name "wallet-create" then "/zh/wallet/create"
  else if String.eqb name "wallet-open" then "/zh/wallet/open"
  else ("/zh/" +:+ name)%string.

#[export] Instance routes_zh : I18nRoutes path.
Proof.
  constructor. exists "/zh". split; [cbn; tauto |].
  intros name p Hin Hp. cbn in Hin. repeat (destruct Hin as [[= <- <-] | Hin]; [done |]). destruct Hin.
Qed.

(** A running service, with the given status and seed. *)
Definition running (s : Z) (seed : string) : world := {|
  w_state := with_common (store_init (num_of_Z 0))
    {| token := VUndef; unix := VInt 0; beneficiaryAddr := VStr ""; serviceStatus := VInt s;
       allowEmptyBeneficiaryAddress := VBool false; webGuiCreateWallet := VBool false |};
  w_session := {["seed" := seed]}; w_headers := ∅; w_console := []; w_files := []
|}.

Lemma navigation_settles_witness :
  exists final, navigate path 2 (running 2 "") "/zh/settings" = Some final
    /\ lands path (running 2 "") "/zh/settings" final.
Proof. apply (navigation_settles path). Defined.

Lemma pages_guarded_witness :
  16 <> 0 /\ Z.testbit 16 1 = false /\ Z.testbit 16 2 = false
  /\ exists seed, w_session (running 16 "ab") !! "seed" = Some seed /\ seed <> "".
Proof.
  apply (pages_guarded path (running 16 "ab") "/zh/settings" "/zh/settings" 16);
    [reflexivity | lia | vm_compute; reflexivity | discriminate | reflexivity | reflexivity].
Defined.

Lemma loading_pages_left_witness : loading_page path (running 0 "ab") [running 0 "ab"; running 16 "ab"] = Some "/zh/nodeStatus"
  /\ exists w' s, In w' [running 0 "ab"; running 0 "ab"; running 16 "ab"] /\ reported w' s
       /\ navigate path 2 w' "/zh/nodeStatus" = Some (path (
            if Z.testbit s 1 then "wallet-create"
            else if Z.testbit s 2 || negb (truthy (sessionGet w' "seed")) then "wallet-open"
            else "nodeStatus")).
Proof.
  split; [vm_compute; reflexivity |].
  apply (loading_pages_left path (running 0 "ab") [running 0 "ab"; running 16 "ab"]); [| vm_compute; reflexivity].
  repeat constructor; [exists 0 | exists 0 | exists 16]; (split; [reflexivity | lia]).
Defined.
End RouterSamples.
