(* ===== verification/TaskPlugin.v ===== *)
(** * plugins/task.js and helpers/task.js

    The periodic tasks of the dashboard: the service status, the token, the
    clock and the polling of the node.  A task runs once when it is started
    and then at every multiple of its interval; time is in milliseconds since
    the plugin was loaded. *)

From S2P Require Import Prelude JsNum JsValue Json CryptoLib CryptoHelpers Runtime Store AxiosPlugin Server StoreSpec System Interleaving.
Local Open Scope Z_scope.

(** ** helpers/task.js *)

(** [startLoopTask(func, timeout)]: is [func] called at time [now]?  At once,
    and then by the interval timer. *)
Definition startLoopTask (timeout now : Z) : bool := (now =? 0) || (now mod timeout =? 0).

(** ** plugins/task.js *)

Definition loopInterval : Z := 2000.
Definition syncUnixInterval : Z := 5000.
Definition tickInterval : Z := 1000.

Inductive task : Type := TStatus | TToken | TTick | TPoll.

Definition interval (k : task) : Z :=
  match k with
  | TStatus => loopInterval
  | TToken => syncUnixInterval
  | TTick => tickInterval
  | TPoll => loopInterval
  end.

(** The condition under which the node is polled. *)
Definition poll_guard (status : jsval) : bool :=
  has_bit status SERVICE_STATUS_CREATE_ID || has_bit status SERVICE_STATUS_RUNNING.

(** What a task does to the store: calls it dispatches, or a tick. *)
Inductive task_effect : Type :=
| Call (c : call)
| Tick.

Definition task_body (k : task) (w : world) : list task_effect :=
  match k with
  | TStatus => [Call GetServiceStatus]
  | TToken => [Call GetToken]
  | TTick => [Tick]
  | TPoll =>
      if poll_guard (serviceStatus (common (w_state w)))
      then [Call GetWalletStatus; Call GetNodeStatus; Call GetNeighbors] else []
  end.

(** The tasks that run at a given millisecond, in the order they were started. *)
Definition due (now : Z) : list task :=
  List.filter (fun k => startLoopTask (interval k) now) [TStatus; TToken; TTick; TPoll].

(** The tasks that run after [a] and up to [b]. *)
Definition between (a b : Z) : list task := List.concat (map due (seqZ (a + 1) (b - a))).

(** The clock after the ticks of a list of tasks. *)
Fixpoint clock_after (c : common_state) (l : list task) : common_state :=
  match l with
  | [] => c
  | TTick :: l' => clock_after (tick c) l'
  | _ :: l' => clock_after c l'
  end.

(** ** Counting *)

Definition is_tick (k : task) : bool := match k with TTick => true | _ => false end.
Definition ticks_in (l : list task) : Z := Z.of_nat (length (List.filter is_tick l)).

Lemma ticks_app l k : ticks_in (l ++ k) = ticks_in l + ticks_in k.
Proof. unfold ticks_in. rewrite List.filter_app, length_app. lia. Qed.

Lemma ticks_due now : 0 < now -> ticks_in (due now) = if now mod tickInterval =? 0 then 1 else 0.
Proof.
  intros Hn. unfold due. cbn [List.filter]. unfold startLoopTask.
  destruct (Z.eqb_spec now 0); [lia |]. cbn [orb interval].
  destruct (now mod loopInterval =? 0), (now mod syncUnixInterval =? 0), (now mod tickInterval =? 0); done.
Qed.

Lemma div_succ a k : 0 < k -> (a + 1) / k = a / k + (if (a + 1) mod k =? 0 then 1 else 0).
Proof.
  intros Hk. pose proof (Z.div_mod a k ltac:(lia)). pose proof (Z.div_mod (a + 1) k ltac:(lia)).
  pose proof (Z.mod_pos_bound a k Hk). pose proof (Z.mod_pos_bound (a + 1) k Hk).
  destruct (Z.eqb_spec ((a + 1) mod k) 0); nia.
Qed.

(** The number of ticks between two times. *)
Lemma ticks_between a n :
  0 <= a -> ticks_in (between a (a + Z.of_nat n)) = (a + Z.of_nat n) / tickInterval - a / tickInterval.
Proof.
  intros Ha. unfold between. replace (a + Z.of_nat n - a) with (Z.of_nat n) by lia.
  induction n as [|n IH]; [by rewrite Z.add_0_r, Z.sub_diag |].
  replace (Z.of_nat (S n)) with (Z.of_nat n + 1) by lia.
  rewrite seqZ_app by lia. rewrite List.map_app, List.concat_app, ticks_app, IH. cbn [seqZ].
  change (seqZ (a + 1 + Z.of_nat n) 1) with [0 + (a + 1 + Z.of_nat n)]. cbn [map List.concat].
  rewrite app_nil_r, Z.add_0_l, ticks_due by lia.
  replace (a + (Z.of_nat n + 1)) with (a + Z.of_nat n + 1) by lia.
  rewrite (div_succ (a + Z.of_nat n)) by (unfold tickInterval; lia).
  replace (a + 1 + Z.of_nat n) with (a + Z.of_nat n + 1) by lia. lia.
Qed.

Lemma clock_after_ticks l c u :
  unix c = VInt u -> 0 <= u -> u + ticks_in l < 2 ^ 53 -> unix (clock_after c l) = VInt (u + ticks_in l).
Proof.
  revert c u. induction l as [|k l IH]; intros c u Hu H0 Hb.
  - by rewrite Z.add_0_r.
  - change (k :: l) with ([k] ++ l) in *. rewrite ticks_app in *. cbn [app].
    assert (0 <= ticks_in l) by (unfold ticks_in; lia).
    assert (ticks_in [k] = if is_tick k then 1 else 0) as Hk by (by destruct k). rewrite Hk in *.
    destruct k; cbn [clock_after is_tick] in *;
      try (rewrite Z.add_0_l in *; by apply IH).
    rewrite (IH (tick c) (u + 1)); [f_equal; lia | | lia | lia].
    cbn. rewrite Hu. apply js_incr_int; unfold safe; lia.
Qed.

(** ** Theorems *)

(** C33: with timers on time, the clock of the store stays inside the node's
    window: synchronised at millisecond [a] with the node's second, it is at
    any later [b] within one second of the node's clock, so that the node
    accepts the headers and the bodies made with it. *)
Theorem clock_in_window c a n node_ms :
  0 <= a -> 0 <= node_ms -> node_ms / 1000 + Z.of_nat n + 1 < 2 ^ 53 ->
  let b := a + Z.of_nat n in
  let now := (node_ms + Z.of_nat n) / 1000 in
  exists u, unix (clock_after (syncUnix c (VInt (node_ms / 1000))) (between a b)) = VInt u
    /\ now - 1 <= u <= now + 1 /\ now - UnixRange <= u < now + UnixRange.
Proof.
  intros Ha Hm Hb b now. pose proof (ticks_between a n Ha) as Ht. fold b in Ht.
  unfold tickInterval in Ht. assert (b = a + Z.of_nat n) by done.
  pose proof (Z.div_mod b 1000 ltac:(lia)). pose proof (Z.mod_pos_bound b 1000 ltac:(lia)).
  pose proof (Z.div_mod a 1000 ltac:(lia)). pose proof (Z.mod_pos_bound a 1000 ltac:(lia)).
  pose proof (Z.div_mod node_ms 1000 ltac:(lia)). pose proof (Z.mod_pos_bound node_ms 1000 ltac:(lia)).
  pose proof (Z.div_mod (node_ms + Z.of_nat n) 1000 ltac:(lia)).
  pose proof (Z.mod_pos_bound (node_ms + Z.of_nat n) 1000 ltac:(lia)).
  assert (now = (node_ms + Z.of_nat n) / 1000) as Hnow by done. clearbody b now.
  exists (node_ms / 1000 + ticks_in (between a b)). unfold UnixRange. split; [| lia].
  apply clock_after_ticks; [done | apply Z.div_pos; lia | lia].
Qed.

(** The node is polled exactly while the service creates its id or runs. *)
Theorem poll_when_running w s :
  serviceStatus (common (w_state w)) = VInt s -> 0 <= s < 2 ^ 31 ->
  task_body TPoll w =
  if Z.testbit s 3 || Z.testbit s 4
  then [Call GetWalletStatus; Call GetNodeStatus; Call GetNeighbors] else [].
Proof.
  intros Hs Hr. unfold task_body, poll_guard. rewrite Hs.
  rewrite !has_bit_int by flag_lia.
  unfold SERVICE_STATUS_CREATE_ID, SERVICE_STATUS_RUNNING. by rewrite !flag_testbit by lia.
Qed.

(** ** The theorems at concrete inputs *)

Module TaskSamples.
Lemma clock_in_window_witness :
  exists u, unix (clock_after (syncUnix (common_init (num_of_Z 0)) (VInt (1600000000999 / 1000)))
                    (between 700 (700 + Z.of_nat 301))) = VInt u
    /\ (1600000000999 + Z.of_nat 301) / 1000 - 1 <= u <= (1600000000999 + Z.of_nat 301) / 1000 + 1
    /\ (1600000000999 + Z.of_nat 301) / 1000 - UnixRange <= u
       < (1600000000999 + Z.of_nat 301) / 1000 + UnixRange.
Proof.
  apply (clock_in_window (common_init (num_of_Z 0)) 700 301 1600000000999);
    [lia | lia | vm_compute; reflexivity].
Defined.

Definition with_status (s : Z) : world := {|
  w_state := with_common (store_init (num_of_Z 0))
    {| token := VUndef; unix := VInt 0; beneficiaryAddr := VStr ""; serviceStatus := VInt s;
       allowEmptyBeneficiaryAddress := VBool false; webGuiCreateWallet := VBool false |};
  w_session := ∅; w_headers := ∅; w_console := []; w_files := []
|}.

Lemma poll_when_running_witness :
  task_body TPoll (with_status 17) = [Call GetWalletStatus; Call GetNodeStatus; Call GetNeighbors].
Proof. apply (poll_when_running (with_status 17) 17); [reflexivity | lia]. Defined.
End TaskSamples.
