(* ===== verification/Dialogs.v ===== *)
(** * The dialogs: components/dialog/*.vue

    Each dialog is a state machine.  Its events are what the user and the
    parent do and the settling of the actions it dispatched; a method that
    awaits an action is split there, and what follows reads the data of the
    dialog at that time.  Watchers run with the change that triggers them.  The
    templates, with the field [showPassword] and what the window of Vuetify
    writes to [step], are in [DialogViews]. *)

From S2P Require Import Prelude JsNum JsValue Runtime Store StoreSpec.
Local Open Scope Z_scope.

(** ** What the dialogs share *)

(** [v => !!v || this.$t(...)]: [None] is valid. *)
Definition rule_required (key : string) (v : jsval) : option string :=
  if truthy v then None else Some key.

(** [form.validate()] of Vuetify: every rule of every field returns true. *)
Definition validates (checks : list (option string)) : bool :=
  forallb (fun c => match c with None => true | Some _ => false end) checks.

(** [e.code === a || e.code === b]; reading [code] of null throws, and the
    handler stops there. *)
Definition code_in (codes : list Z) (e : jsval) : bool :=
  match get_prop e "code" with
  | Ok c => existsb (fun a => strict_eq c (VInt a)) codes
  | Err _ => false
  end.

(** What a dialog tells the outside. *)
Inductive effect (C : Type) : Type :=
| EmitInput (visible : bool)
| Dispatch (c : C)
| OnSuccess (arg : jsval).
Arguments EmitInput {C} visible.
Arguments Dispatch {C} c.
Arguments OnSuccess {C} arg.

(** ** VerificationPassword.vue *)

Module VerificationPassword.

Record state : Type := mk {
  step : Z;
  visible : bool;
  password : jsval;
  passwordError : bool;
  passwordErrorMessage : string;
  in_flight : nat  (* verifications not answered yet *)
}.

Inductive event : Type :=
| Prop_value (val : bool)
| Type_password (v : jsval)
| Click_next
| Click_cancel
| Answered (r : js jsval).

Section Dialog.
(** [$t], what [form.reset()] leaves in a field, and whether the parent gave
    the [onSuccess] prop. *)
Variable t : string -> string.
Variable reset_value : jsval.
Variable has_onSuccess : bool.

Definition data (value : bool) : state := {|
  step := 1; visible := value; password := VStr "";
  passwordError := false; passwordErrorMessage := ""; in_flight := 0
|}.

Definition watch_value (s : state) (val : bool) : state :=
  if val then
    {| step := step s; visible := true; password := password s; passwordError := passwordError s;
       passwordErrorMessage := passwordErrorMessage s; in_flight := in_flight s |}
  else
    {| step := 1; visible := false; password := reset_value; passwordError := false;
       passwordErrorMessage := ""; in_flight := in_flight s |}.

Definition set_password (s : state) (v : jsval) : state :=
  {| step := step s; visible := visible s; password := v; passwordError := false;
     passwordErrorMessage := ""; in_flight := in_flight s |}.

Definition cancel (s : state) : state * list (effect string) :=
  ({| step := step s; visible := false; password := password s; passwordError := passwordError s;
      passwordErrorMessage := passwordErrorMessage s; in_flight := in_flight s |}, [EmitInput false]).

(** [next] up to its [await]. *)
Definition next (s : state) : state * list (effect string) :=
  if (step s =? 1) && validates [rule_required "PASSWORD_REQUIRED" (password s)] then
    ({| step := step s; visible := visible s; password := password s; passwordError := passwordError s;
        passwordErrorMessage := passwordErrorMessage s; in_flight := S (in_flight s) |},
     [Dispatch "verification"])
  else (s, []).

(** [next] after its [await]. *)
Definition next_answered (s : state) (r : js jsval) : state * list (effect string) :=
  match in_flight s with
  | O => (s, [])
  | S n =>
      match r with
      | Ok _ =>
          let s1 := {| step := step s; visible := visible s; password := password s; passwordError := false;
                       passwordErrorMessage := ""; in_flight := n |} in
          let '(s2, out) := cancel s1 in
          (s2, (if has_onSuccess then [OnSuccess (password s1)] else []) ++ out)
      | Err e =>
          let err := code_in [401; 403] e in
          ({| step := step s; visible := visible s; password := password s;
              passwordError := if err then true else passwordError s;
              passwordErrorMessage := if err then t "PASSWORD_ERROR" else passwordErrorMessage s;
              in_flight := n |}, [])
      end
  end.

Definition handle (s : state) (e : event) : state * list (effect string) :=
  match e with
  | Prop_value val => (watch_value s val, [])
  | Type_password v => (set_password s v, [])
  | Click_next => next s
  | Click_cancel => cancel s
  | Answered r => next_answered s r
  end.

Fixpoint run (s : state) (es : list event) : state * list (effect string) :=
  match es with
  | [] => (s, [])
  | e :: es' =>
      let '(s1, out1) := handle s e in
      let '(s2, out2) := run s1 es' in (s2, out1 ++ out2)
  end.
End Dialog.
End VerificationPassword.

(** ** SecretSeed.vue *)

Module SecretSeed.

Record state : Type := mk {
  step : Z;
  visible : bool;
  password : jsval;
  secretSeed : jsval;
  passwordError : bool;
  passwordErrorMessage : string;
  in_flight : nat  (* requests for the wallet details not answered yet *)
}.

Inductive event : Type :=
| Prop_value (val : bool)
| Type_password (v : jsval)
| Click_next
| Click_cancel
| Answered (r : js jsval).

Section Dialog.
Variable t : string -> string.
Variable reset_value : jsval.

Definition data (value : bool) : state := {|
  step := 1; visible := value; password := VStr ""; secretSeed := VStr "";
  passwordError := false; passwordErrorMessage := ""; in_flight := 0
|}.

(** [form.reset()] changes the password, which clears its error. *)
Definition watch_value (s : state) (val : bool) : state :=
  if val then
    {| step := step s; visible := true; password := password s; secretSeed := secretSeed s;
       passwordError := passwordError s; passwordErrorMessage := passwordErrorMessage s;
       in_flight := in_flight s |}
  else
    let same := bool_decide (password s = reset_value) in
    {| step := 1; visible := false; password := reset_value; secretSeed := secretSeed s;
       passwordError := if same then passwordError s else false;
       passwordErrorMessage := if same then passwordErrorMessage s else "";
       in_flight := in_flight s |}.

Definition set_password (s : state) (v : jsval) : state :=
  {| step := step s; visible := visible s; password := v; secretSeed := secretSeed s;
     passwordError := false; passwordErrorMessage := ""; in_flight := in_flight s |}.

Definition cancel (s : state) : state * list (effect string) :=
  ({| step := step s; visible := false; password := password s; secretSeed := secretSeed s;
      passwordError := passwordError s; passwordErrorMessage := passwordErrorMessage s;
      in_flight := in_flight s |}, [EmitInput false]).

Definition next (s : state) : state * list (effect string) :=
  if validates [rule_required "PASSWORD_REQUIRED" (password s)] then
    ({| step := step s; visible := visible s; password := password s; secretSeed := secretSeed s;
        passwordError := passwordError s; passwordErrorMessage := passwordErrorMessage s;
        in_flight := S (in_flight s) |}, [Dispatch "wallet/getCurrentWalletDetails"])
  else (s, []).

(** The [catch] block of [next]. *)
Definition next_failed (s : state) (n : nat) (e : jsval) : state :=
  let err := code_in [401; 403] e in
  {| step := step s; visible := visible s; password := password s; secretSeed := secretSeed s;
     passwordError := if err then true else passwordError s;
     passwordErrorMessage := if err then t "PASSWORD_ERROR" else passwordErrorMessage s;
     in_flight := n |}.

Definition next_answered (s : state) (r : js jsval) : state * list (effect string) :=
  match in_flight s with
  | O => (s, [])
  | S n =>
      match (res ← r; get_prop res "secretSeed") with
      | Ok seed =>
          ({| step := step s + 1; visible := visible s; password := password s; secretSeed := seed;
              passwordError := false; passwordErrorMessage := ""; in_flight := n |}, [])
      | Err e => (next_failed s n e, [])
      end
  end.

Definition handle (s : state) (e : event) : state * list (effect string) :=
  match e with
  | Prop_value val => (watch_value s val, [])
  | Type_password v => (set_password s v, [])
  | Click_next => next s
  | Click_cancel => cancel s
  | Answered r => next_answered s r
  end.

Fixpoint run (s : state) (es : list event) : state :=
  match es with
  | [] => s
  | e :: es' => run (handle s e).1 es'
  end.
End Dialog.
End SecretSeed.

(** ** BeneficiaryAddr.vue *)

Module BeneficiaryAddr.

Record state : Type := mk {
  step : Z;
  visible : bool;
  beneficiaryAddr : jsval;
  password : jsval;
  passwordError : bool;
  passwordErrorMessage : string;
  beneficiaryAddrError : bool;
  beneficiaryAddrErrorMessage : string;
  verifying : nat;  (* verifications not answered yet *)
  setting : nat     (* changes of the address not answered yet *)
}.

Inductive event : Type :=
| Prop_value (val : bool)
| Type_password (v : jsval)
| Type_addr (v : jsval)
| Click_next
| Click_cancel
| Verified (r : js jsval)
| Set_answered (r : js jsval).

(** The actions it dispatches. *)
Inductive request : Type :=
| Verification (password : jsval)
| SetBeneficiaryAddr (password addr : jsval).

Section Dialog.
Variable t : string -> string.
Variable reset_value : jsval.
(** Whether the second form has been rendered ([$refs.form2] is set), which
    Vuetify decides. *)
Variable form2_rendered : state -> bool.
(** The [onSuccess] prop: a function that may throw, or none. *)
Variable onSuccess : option (jsval -> js unit).

Definition data (value : bool) : state := {|
  step := 1; visible := value; beneficiaryAddr := VStr ""; password := VStr "";
  passwordError := false; passwordErrorMessage := "";
  beneficiaryAddrError := false; beneficiaryAddrErrorMessage := "";
  verifying := 0; setting := 0
|}.

Definition set_flight (s : state) (v n : nat) : state :=
  {| step := step s; visible := visible s; beneficiaryAddr := beneficiaryAddr s; password := password s;
     passwordError := passwordError s; passwordErrorMessage := passwordErrorMessage s;
     beneficiaryAddrError := beneficiaryAddrError s;
     beneficiaryAddrErrorMessage := beneficiaryAddrErrorMessage s; verifying := v; setting := n |}.

Definition set_visible (s : state) (b : bool) : state :=
  {| step := step s; visible := b; beneficiaryAddr := beneficiaryAddr s; password := password s;
     passwordError := passwordError s; passwordErrorMessage := passwordErrorMessage s;
     beneficiaryAddrError := beneficiaryAddrError s;
     beneficiaryAddrErrorMessage := beneficiaryAddrErrorMessage s;
     verifying := verifying s; setting := setting s |}.

Definition set_step (s : state) (n : Z) : state :=
  {| step := n; visible := visible s; beneficiaryAddr := beneficiaryAddr s; password := password s;
     passwordError := passwordError s; passwordErrorMessage := passwordErrorMessage s;
     beneficiaryAddrError := beneficiaryAddrError s;
     beneficiaryAddrErrorMessage := beneficiaryAddrErrorMessage s;
     verifying := verifying s; setting := setting s |}.

Definition set_password_error (s : state) (b : bool) (m : string) : state :=
  {| step := step s; visible := visible s; beneficiaryAddr := beneficiaryAddr s; password := password s;
     passwordError := b; passwordErrorMessage := m;
     beneficiaryAddrError := beneficiaryAddrError s;
     beneficiaryAddrErrorMessage := beneficiaryAddrErrorMessage s;
     verifying := verifying s; setting := setting s |}.

Definition set_addr_error (s : state) (b : bool) (m : string) : state :=
  {| step := step s; visible := visible s; beneficiaryAddr := beneficiaryAddr s; password := password s;
     passwordError := passwordError s; passwordErrorMessage := passwordErrorMessage s;
     beneficiaryAddrError := b; beneficiaryAddrErrorMessage := m;
     verifying := verifying s; setting := setting s |}.

(** Closing clears the data; [reset] then empties the fields of the forms that
    are rendered. *)
Definition watch_value (s : state) (val : bool) : state :=
  if val then set_visible s true
  else {| step := 1; visible := false;
          beneficiaryAddr := if form2_rendered s then reset_value else VStr "";
          password := reset_value; passwordError := false; passwordErrorMessage := "";
          beneficiaryAddrError := false; beneficiaryAddrErrorMessage := "";
          verifying := verifying s; setting := setting s |}.

Definition set_password (s : state) (v : jsval) : state :=
  {| step := step s; visible := visible s; beneficiaryAddr := beneficiaryAddr s; password := v;
     passwordError := false; passwordErrorMessage := "";
     beneficiaryAddrError := beneficiaryAddrError s;
     beneficiaryAddrErrorMessage := beneficiaryAddrErrorMessage s;
     verifying := verifying s; setting := setting s |}.

Definition set_addr (s : state) (v : jsval) : state :=
  {| step := step s; visible := visible s; beneficiaryAddr := v; password := password s;
     passwordError := passwordError s; passwordErrorMessage := passwordErrorMessage s;
     beneficiaryAddrError := beneficiaryAddrError s;
     beneficiaryAddrErrorMessage := beneficiaryAddrErrorMessage s;
     verifying := verifying s; setting := setting s |}.

Definition cancel (s : state) : state * list (effect request) := (set_visible s false, [EmitInput false]).

(** [next] up to its [await], on both steps. *)
Definition next (s : state) : state * list (effect request) :=
  if step s =? 1 then
    if validates [rule_required "PASSWORD_REQUIRED" (password s)] then
      (set_flight s (S (verifying s)) (setting s), [Dispatch (Verification (password s))])
    else (s, [])
  else if step s =? 2 then
    if validates [] then
      (set_flight s (verifying s) (S (setting s)),
       [Dispatch (SetBeneficiaryAddr (password s) (beneficiaryAddr s))])
    else (s, [])
  else (s, []).

(** [next] after the verification. *)
Definition next_verified (s : state) (r : js jsval) : state * list (effect request) :=
  match verifying s with
  | O => (s, [])
  | S n =>
      let s := set_flight s n (setting s) in
      match r with
      | Ok _ => (set_step (set_password_error s false "") (step s + 1), [])
      | Err e =>
          (if code_in [401; 403] e then set_password_error s true (t "PASSWORD_ERROR") else s, [])
      end
  end.

(** [next] after the change of the address. *)
Definition next_set (s : state) (r : js jsval) : state * list (effect request) :=
  match setting s with
  | O => (s, [])
  | S n =>
      let s := set_flight s (verifying s) n in
      let failed s e :=
        if code_in [400] e then set_addr_error s true (t "settings.BENEFICIARY_ERROR") else s in
      match r with
      | Ok res =>
          let s1 := set_addr_error s false "" in
          match onSuccess with
          | None => cancel s1
          | Some f =>
              match f res with
              | Ok _ => let '(s2, out) := cancel s1 in (s2, OnSuccess res :: out)
              | Err e => (failed s1 e, [OnSuccess res])
              end
          end
      | Err e => (failed s e, [])
      end
  end.

Definition handle (s : state) (e : event) : state * list (effect request) :=
  match e with
  | Prop_value val => (watch_value s val, [])
  | Type_password v => (set_password s v, [])
  | Type_addr v => (set_addr s v, [])
  | Click_next => next s
  | Click_cancel => cancel s
  | Verified r => next_verified s r
  | Set_answered r => next_set s r
  end.

Fixpoint run (s : state) (es : list event) : state * list (effect request) :=
  match es with
  | [] => (s, [])
  | e :: es' =>
      let '(s1, out1) := handle s e in
      let '(s2, out2) := run s1 es' in (s2, out1 ++ out2)
  end.
End Dialog.
End BeneficiaryAddr.

(** ** Result.vue: the snackbar of the settings page *)

Module Result.
Definition message (t : string -> string) (type : string) : jsval :=
  if String.eqb type "success" then VStr (t "settings.UPDATE_CONFIG_SUCCESS")
  else if String.eqb type "error" then VStr (t "settings.UPDATE_CONFIG_ERROR")
  else VUndef.

(** The local [visible] and what it emits when it changes. *)
Definition set_visible (visible b : bool) : bool * list bool :=
  (b, if Bool.eqb visible b then [] else [b]).
Definition close (visible : bool) : bool * list bool := set_visible visible false.
Definition watch_value (visible value : bool) : bool * list bool := set_visible visible value.
End Result.

(** ** Theorems *)

Section DialogTheorems.
Variable t : string -> string.
Variable reset_value : jsval.

(** The password dialog of the settings and the download, with the answer
    of the node passed through the [verification] action: on an HTTP error it
    refuses the password exactly for the statuses 401 and 403; on every other
    status, a server error included, it reports success to its parent with
    the password then in the field. *)
Theorem verification_dialog_outcome s n e :
  http_error n e -> safe n ->
  truthy (VerificationPassword.password s) = true -> VerificationPassword.step s = 1 ->
  let s1 := (VerificationPassword.next s).1 in
  let '(s2, out) := VerificationPassword.next_answered t true s1 (settle [401; 403] (Err e)) in
  if bool_decide (n ∈ [401; 403])
  then out = [] /\ VerificationPassword.passwordError s2 = true
  else out = [OnSuccess (VerificationPassword.password s); EmitInput false]
       /\ VerificationPassword.visible s2 = false.
Proof.
  intros He Hn Hp Hs. unfold VerificationPassword.next. rewrite Hs. cbn [validates forallb].
  unfold rule_required. rewrite Hp. cbn [andb Z.eqb Pos.eqb fst].
  unfold VerificationPassword.next_answered. cbn [VerificationPassword.in_flight settle].
  rewrite (rethrow_http [401; 403] n e) by (done || (repeat constructor)).
  case_bool_decide as Hin; [| done].
  assert (code_in [401; 403] (with_code n e) = true) as ->; [| done].
  destruct He as (l & r & -> & _ & _). unfold code_in. cbn [with_code get_prop].
  rewrite assoc_set_eq. cbn [default from_option id existsb]. rewrite !strict_eq_int by (done || unfold safe; lia).
  apply elem_of_cons in Hin as [-> | Hin]; [done |]. apply list_elem_of_singleton in Hin as ->. done.
Qed.

(** ** SecretSeed.vue *)

(** A race shows the secret seed without a password: when the dialog is
    closed while the request is in flight, its answer stores the seed and
    advances the step of the closed dialog, so that opening it again shows the
    seed at once, with an empty password field. *)
Theorem seed_shown_without_password pw seed :
  truthy pw = true -> pw <> reset_value ->
  let s := SecretSeed.run t reset_value (SecretSeed.data false)
    [ SecretSeed.Prop_value true; SecretSeed.Type_password pw; SecretSeed.Click_next;
      SecretSeed.Click_cancel; SecretSeed.Prop_value false;
      SecretSeed.Answered (Ok (VObj [("secretSeed", seed)]));
      SecretSeed.Prop_value true ] in
  SecretSeed.visible s = true /\ SecretSeed.step s = 2 /\ SecretSeed.secretSeed s = seed
  /\ SecretSeed.password s = reset_value /\ SecretSeed.in_flight s = O.
Proof.
  intros Hp Hne. cbn [SecretSeed.run SecretSeed.handle fst]. unfold SecretSeed.next.
  cbn [SecretSeed.password SecretSeed.set_password validates forallb]. unfold rule_required. rewrite Hp.
  done.
Qed.

Lemma secret_step s e :
  (SecretSeed.secretSeed (SecretSeed.handle t reset_value s e).1 = SecretSeed.secretSeed s
   /\ (SecretSeed.step (SecretSeed.handle t reset_value s e).1 = SecretSeed.step s
       \/ SecretSeed.step (SecretSeed.handle t reset_value s e).1 = 1))
  \/ exists res seed n, e = SecretSeed.Answered (Ok res) /\ get_prop res "secretSeed" = Ok seed
      /\ SecretSeed.in_flight s = S n
      /\ SecretSeed.secretSeed (SecretSeed.handle t reset_value s e).1 = seed
      /\ SecretSeed.step (SecretSeed.handle t reset_value s e).1 = SecretSeed.step s + 1.
Proof.
  destruct e as [[]| | | |r]; try (left; split; [done | by auto]).
  - left. cbn. unfold SecretSeed.next. destruct (validates _); auto.
  - cbn. unfold SecretSeed.next_answered. destruct (SecretSeed.in_flight s) as [|n] eqn:En; [auto |].
    destruct r as [res|e]; [| auto]. bind_simpl.
    destruct (get_prop res "secretSeed") as [seed|] eqn:Er; [| auto].
    right. exists res, seed, n. done.
Qed.

(** The dialog shows its second step, and holds a seed, only after the
    node answered a request for the wallet details, and the seed it holds is
    the one of such an answer. *)
Theorem seed_from_answer es :
  let s := SecretSeed.run t reset_value (SecretSeed.data false) es in
  (SecretSeed.step s = 1 /\ SecretSeed.secretSeed s = VStr "")
  \/ exists res, In (SecretSeed.Answered (Ok res)) es
      /\ get_prop res "secretSeed" = Ok (SecretSeed.secretSeed s).
Proof.
  assert (forall s0, let s := SecretSeed.run t reset_value s0 es in
    (SecretSeed.secretSeed s = SecretSeed.secretSeed s0
     /\ (SecretSeed.step s = SecretSeed.step s0 \/ SecretSeed.step s = 1))
    \/ exists res, In (SecretSeed.Answered (Ok res)) es
      /\ get_prop res "secretSeed" = Ok (SecretSeed.secretSeed s)) as G.
  { induction es as [|e es IH]; intros s0; cbn [SecretSeed.run]; [by auto |].
    destruct (IH (SecretSeed.handle t reset_value s0 e).1) as [[Hs Hst] | (res & Hin & Hr)];
      [| right; exists res; split; [by right | done]].
    destruct (secret_step s0 e) as [[Hs' Hst'] | (res & seed & n & -> & Hr & _ & Hs' & _)].
    - left. rewrite Hs, Hs'. split; [done |].
      destruct Hst as [Hst | Hst]; [| by right]. destruct Hst'; [left | right]; congruence.
    - right. exists res. split; [by left |]. by rewrite Hs, Hs'. }
  destruct (G (SecretSeed.data false)) as [[Hs [Hst | Hst]] | H]; [left.. | right]; done.
Qed.

Lemma secret_quiet es : forall s,
  SecretSeed.step s = 1 -> SecretSeed.in_flight s = O -> ~ In SecretSeed.Click_next es ->
  SecretSeed.step (SecretSeed.run t reset_value s es) = 1.
Proof.
  induction es as [|e es IH]; intros s Hs Hf Hn; cbn [SecretSeed.run]; [done |].
  apply IH; [| | intros H; apply Hn; by right].
  - destruct e as [[]| | | |r]; try done; [exfalso; apply Hn; by left |].
    cbn. unfold SecretSeed.next_answered. by rewrite Hf.
  - destruct e as [[]| | | |r]; try done; [exfalso; apply Hn; by left |].
    cbn. unfold SecretSeed.next_answered. by rewrite Hf.
Qed.

(** Closed with no request in flight, the dialog stays on the password
    step until Next is clicked, however it is opened, typed into and closed. *)
Theorem closed_dialog_asks_again s es :
  SecretSeed.in_flight s = O -> ~ In SecretSeed.Click_next es ->
  SecretSeed.step (SecretSeed.run t reset_value s (SecretSeed.Prop_value false :: es)) = 1.
Proof. intros Hf Hn. cbn [SecretSeed.run]. by apply secret_quiet. Qed.

(** ** BeneficiaryAddr.vue *)

Section Beneficiary.
Variable form2 : BeneficiaryAddr.state -> bool.
Variable onSuccess : option (jsval -> js unit).

Definition not_verified (e : BeneficiaryAddr.event) : bool :=
  match e with BeneficiaryAddr.Verified (Ok _) => false | _ => true end.

(** No effect of a short list is the dispatch in question. *)
Ltac no_dispatch :=
  let H := fresh in
  intros ? ? H; repeat (destruct H as [H | H]; [discriminate H |]); destruct H.

(** Without a successful verification the dialog stays on its first step and
    only dispatches verifications. *)
Lemma unverified_run es : forall s,
  BeneficiaryAddr.step s = 1 -> forallb not_verified es = true ->
  let '(s', out) := BeneficiaryAddr.run t reset_value form2 onSuccess s es in
  BeneficiaryAddr.step s' = 1
  /\ forall pw a, ~ In (Dispatch (BeneficiaryAddr.SetBeneficiaryAddr pw a)) out.
Proof.
  induction es as [|e es IH]; intros s Hs Hv; cbn [BeneficiaryAddr.run]; [by split; [| intros pw a []] |].
  cbn [forallb] in Hv. apply andb_prop in Hv as [He Hv].
  assert (BeneficiaryAddr.step (BeneficiaryAddr.handle t reset_value form2 onSuccess s e).1 = 1
    /\ forall pw a, ~ In (Dispatch (BeneficiaryAddr.SetBeneficiaryAddr pw a))
                        (BeneficiaryAddr.handle t reset_value form2 onSuccess s e).2) as [H1 H2].
  { destruct e as [[]| | | | |[]|r]; cbn in *; try done; try (split; [done | by intros ? ? []]).
    - unfold BeneficiaryAddr.next. rewrite Hs. cbn. destruct (rule_required _ _); cbn; split; try done; no_dispatch.
    - unfold BeneficiaryAddr.next_verified. destruct (BeneficiaryAddr.verifying s); cbn; [by split; [| intros ? ? []] |].
      destruct (code_in _ _); by split; [| intros ? ? []].
    - unfold BeneficiaryAddr.next_set. destruct (BeneficiaryAddr.setting s); cbn; [by split; [| intros ? ? []] |].
      destruct r as [res|]; [destruct onSuccess as [f|]; [destruct (f res) |] |]; cbn;
        try destruct (code_in _ _); cbn; (split; [done |]); no_dispatch. }
  destruct (BeneficiaryAddr.handle t reset_value form2 onSuccess s e) as [s1 out1].
  specialize (IH s1 H1 Hv). destruct (BeneficiaryAddr.run _ _ _ _ s1 es) as [s2 out2].
  destruct IH as [IH1 IH2]. split; [done |]. intros pw a Hin. apply in_app_iff in Hin as [Hin | Hin].
  - by eapply H2.
  - by eapply IH2.
Qed.

(** By the methods and watchers of the dialog alone, the change of the
    beneficiary address is only ever sent after a verification of the password
    resolved; what the window can write to the step is not among them. *)
Theorem address_after_verification es pw a :
  In (Dispatch (BeneficiaryAddr.SetBeneficiaryAddr pw a))
     (BeneficiaryAddr.run t reset_value form2 onSuccess (BeneficiaryAddr.data false) es).2 ->
  exists r, In (BeneficiaryAddr.Verified (Ok r)) es.
Proof.
  intros H. destruct (forallb not_verified es) eqn:E.
  - pose proof (unverified_run es (BeneficiaryAddr.data false) eq_refl E) as Hu.
    destruct (BeneficiaryAddr.run _ _ _ _ _ es) as [s out]. destruct Hu as [_ Hu]. by apply Hu in H.
  - apply not_true_iff_false in E. rewrite forallb_forall in E.
    destruct (existsb (fun e => negb (not_verified e)) es) eqn:Ex.
    + apply existsb_exists in Ex as (e & Hin & He). destruct e as [| | | | |[r|]|]; try done. by exists r.
    + exfalso. apply E. intros e Hin. apply not_true_iff_false in Ex.
      destruct (not_verified e) eqn:En; [done |]. exfalso. apply Ex, existsb_exists. exists e. by rewrite En.
Qed.

Lemma next_verifies s :
  BeneficiaryAddr.step s = 1 -> truthy (BeneficiaryAddr.password s) = true ->
  BeneficiaryAddr.next s =
  (BeneficiaryAddr.set_flight s (S (BeneficiaryAddr.verifying s)) (BeneficiaryAddr.setting s),
   [Dispatch (BeneficiaryAddr.Verification (BeneficiaryAddr.password s))]).
Proof.
  intros Hs Hp. unfold BeneficiaryAddr.next. rewrite Hs. cbn [validates forallb Z.eqb Pos.eqb].
  unfold rule_required. by rewrite Hp.
Qed.

(** Two clicks on Next before the first verification is answered skip
    the address form: both answers advance the step, and the dialog ends on
    step three, where Next does nothing. *)
Theorem double_next_skips_form pw r1 r2 :
  truthy pw = true ->
  let '(s, out) := BeneficiaryAddr.run t reset_value form2 onSuccess (BeneficiaryAddr.data true)
    [ BeneficiaryAddr.Type_password pw; BeneficiaryAddr.Click_next; BeneficiaryAddr.Click_next;
      BeneficiaryAddr.Verified (Ok r1); BeneficiaryAddr.Verified (Ok r2) ] in
  BeneficiaryAddr.step s = 3 /\ BeneficiaryAddr.next s = (s, []).
Proof.
  intros Hp. cbn [BeneficiaryAddr.run BeneficiaryAddr.handle].
  rewrite (next_verifies (BeneficiaryAddr.set_password _ pw)) by done.
  rewrite next_verifies by done. done.
Qed.
End Beneficiary.
End DialogTheorems.

(** ** The theorems at concrete inputs *)

Module DialogSamples.
Definition tr (key : string) : string := key.
Definition error500 : jsval := VObj [("response", VObj [("status", VInt 500)])].
Definition typed : VerificationPassword.state :=
  VerificationPassword.set_password (VerificationPassword.data true) (VStr "hunter2").

Lemma verification_dialog_outcome_witness :
  let s1 := (VerificationPassword.next typed).1 in
  let '(s2, out) := VerificationPassword.next_answered tr true s1 (settle [401; 403] (Err error500)) in
  out = [OnSuccess (VStr "hunter2"); EmitInput false] /\ VerificationPassword.visible s2 = false.
Proof.
  apply (verification_dialog_outcome tr typed 500 error500);
    [| unfold safe; lia | reflexivity | reflexivity].
  exists [("response", VObj [("status", VInt 500)])], [("status", VInt 500)]. repeat split.
Defined.

Lemma seed_shown_without_password_witness :
  let s := SecretSeed.run tr VNull (SecretSeed.data false)
    [ SecretSeed.Prop_value true; SecretSeed.Type_password (VStr "pw"); SecretSeed.Click_next;
      SecretSeed.Click_cancel; SecretSeed.Prop_value false;
      SecretSeed.Answered (Ok (VObj [("secretSeed", VStr "5eed")]));
      SecretSeed.Prop_value true ] in
  SecretSeed.visible s = true /\ SecretSeed.step s = 2 /\ SecretSeed.secretSeed s = VStr "5eed"
  /\ SecretSeed.password s = VNull /\ SecretSeed.in_flight s = O.
Proof. apply (seed_shown_without_password tr VNull (VStr "pw") (VStr "5eed")); [reflexivity | discriminate]. Defined.

Lemma closed_dialog_asks_again_witness :
  SecretSeed.step (SecretSeed.run tr VNull (SecretSeed.data true)
    [SecretSeed.Prop_value false; SecretSeed.Type_password (VStr "x"); SecretSeed.Prop_value true]) = 1.
Proof.
  apply (closed_dialog_asks_again tr VNull (SecretSeed.data true)); [reflexivity |].
  intros [H | [H | []]]; discriminate H.
Defined.

Lemma address_after_verification_witness :
  exists r, In (BeneficiaryAddr.Verified (Ok r))
    [ BeneficiaryAddr.Type_password (VStr "pw"); BeneficiaryAddr.Click_next;
      BeneficiaryAddr.Verified (Ok VUndef); BeneficiaryAddr.Click_next ].
Proof.
  apply (address_after_verification tr VNull (fun _ => true) None _ (VStr "pw") (VStr "")).
  vm_compute. right. left. reflexivity.
Defined.

Lemma double_next_skips_form_witness :
  let '(s, out) := BeneficiaryAddr.run tr VNull (fun _ => true) None (BeneficiaryAddr.data true)
    [ BeneficiaryAddr.Type_password (VStr "pw"); BeneficiaryAddr.Click_next; BeneficiaryAddr.Click_next;
      BeneficiaryAddr.Verified (Ok VUndef); BeneficiaryAddr.Verified (Ok VUndef) ] in
  BeneficiaryAddr.step s = 3 /\ BeneficiaryAddr.next s = (s, []).
Proof. apply (double_next_skips_form tr VNull (fun _ => true) None (VStr "pw")). reflexivity. Defined.
End DialogSamples.
