(* ===== verification/Vue.v ===== *)
(** * Templates as trees

    The template of a component is a function from its data to a tree of
    elements, as the render function Vue compiles from it: [El] with the
    attributes in the order of the template, [Slot] for the content of a named
    slot, [Txt] for a text with its interpolated values, [Empty] where a [v-if]
    fails.  [E] is the type of the events the listeners raise.  Runs of white
    space in a text are written as one space, and white space between elements
    is left out, which HTML shows alike. *)

From S2P Require Import Prelude JsNum JsValue Dialogs.
Local Open Scope Z_scope.

Set Warnings "-register-all".

(** ** Attributes *)

Inductive attr (E : Type) : Type :=
| Attr (name : string) (v : jsval)               (* name="text", :name="value" *)
| Flag (name : string)                           (* an attribute without a value *)
| Model (v : jsval) (update : jsval -> E)        (* v-model *)
| On (event : string) (h : jsval -> E)           (* @event *)
| Call (name : string) (h : jsval -> E)          (* :name="method", a callback *)
| Rules (l : list (jsval -> option string))      (* :rules, None is valid *)
| Ref (name : string)                            (* ref *)
| Scope (name : string).                         (* v-on="on", listeners of the slot *)
Arguments Attr {E} name v.
Arguments Flag {E} name.
Arguments Model {E} v update.
Arguments On {E} event h.
Arguments Call {E} name h.
Arguments Rules {E} l.
Arguments Ref {E} name.
Arguments Scope {E} name.

(** [name="text"] *)
Abbreviation Static name s := (Attr name (VStr s)).

(** ** Trees *)

Inductive vnode (E : Type) : Type :=
| Empty
| Txt (parts : list jsval)
| El (tag : string) (ats : list (attr E)) (kids : list (vnode E))
| Slot (name : string) (kids : list (vnode E)).
Arguments Empty {E}.
Arguments Txt {E} parts.
Arguments El {E} tag ats kids.
Arguments Slot {E} name kids.

Section Ind.
Context {E : Type} (P : vnode E -> Prop).
Hypothesis Hempty : P Empty.
Hypothesis Htxt : forall l, P (Txt l).
Hypothesis Hel : forall tag ats kids, Forall P kids -> P (El tag ats kids).
Hypothesis Hslot : forall name kids, Forall P kids -> P (Slot name kids).

Fixpoint vnode_nested_ind (v : vnode E) : P v :=
  let all := fix go l := match l return Forall P l with
                         | [] => Forall_nil_2 _
                         | x :: l' => Forall_cons_2 _ _ _ (vnode_nested_ind x) (go l')
                         end in
  match v with
  | Empty => Hempty
  | Txt l => Htxt l
  | El tag ats kids => Hel tag ats kids (all kids)
  | Slot name kids => Hslot name kids (all kids)
  end.
End Ind.

(** [$slots.<name>]: a slot the parent filled. *)
Definition has_slot {E} (name : string) (slots : string -> list (vnode E)) : bool :=
  match slots name with [] => false | _ => true end.

(** [v-if] without [v-else]. *)
Definition v_if {E} (b : bool) (v : vnode E) : vnode E := if b then v else Empty.

(** A child component whose events are part of those of its parent. *)
Definition attr_map {E F} (f : E -> F) (a : attr E) : attr F :=
  match a with
  | Attr n v => Attr n v
  | Flag n => Flag n
  | Model v u => Model v (fun x => f (u x))
  | On n h => On n (fun x => f (h x))
  | Call n h => Call n (fun x => f (h x))
  | Rules l => Rules l
  | Ref n => Ref n
  | Scope n => Scope n
  end.

Fixpoint vmap {E F} (f : E -> F) (v : vnode E) : vnode F :=
  match v with
  | Empty => Empty
  | Txt l => Txt l
  | El tag ats kids => El tag (map (attr_map f) ats) (map (vmap f) kids)
  | Slot n kids => Slot n (map (vmap f) kids)
  end.

Section Trees.
Context {E : Type}.

(** ** What a tree holds *)

(** The value of a field: its [v-model] or its [value]. *)
Fixpoint value_of (ats : list (attr E)) : jsval :=
  match ats with
  | [] => VUndef
  | Model v _ :: _ => v
  | Attr n v :: l => if String.eqb n "value" then v else value_of l
  | _ :: l => value_of l
  end.

(** What a [v-model] does with a new value. *)
Fixpoint update_of (ats : list (attr E)) : option (jsval -> E) :=
  match ats with
  | [] => None
  | Model _ h :: _ => Some h
  | _ :: l => update_of l
  end.

Fixpoint prop_of (name : string) (ats : list (attr E)) : jsval :=
  match ats with
  | [] => VUndef
  | Attr n v :: l => if String.eqb n name then v else prop_of name l
  | _ :: l => prop_of name l
  end.

Definition has_ref (name : string) (ats : list (attr E)) : bool :=
  existsb (fun a => match a with Ref n => String.eqb n name | _ => false end) ats.

(** The elements, in document order. *)
Fixpoint elements (v : vnode E) : list (string * list (attr E)) :=
  match v with
  | Empty | Txt _ => []
  | El tag ats kids => (tag, ats) :: flat_map elements kids
  | Slot _ kids => flat_map elements kids
  end.

(** The texts, in document order. *)
Fixpoint txts (v : vnode E) : list (list jsval) :=
  match v with
  | Empty => []
  | Txt l => [l]
  | El _ _ kids => flat_map txts kids
  | Slot _ kids => flat_map txts kids
  end.

(** The elements with a tag, with what is below them. *)
Fixpoint by_tag (name : string) (v : vnode E) : list (vnode E) :=
  match v with
  | Empty | Txt _ => []
  | El tag ats kids => (if String.eqb tag name then [v] else []) ++ flat_map (by_tag name) kids
  | Slot _ kids => flat_map (by_tag name) kids
  end.

(** The listeners, with the element and the event they listen to. *)
Definition attr_handlers (tag : string) (a : attr E) : list (string * string * (jsval -> E)) :=
  match a with
  | On ev h => [(tag, ev, h)]
  | Model _ h => [(tag, "model", h)]
  | _ => []
  end.
Definition handlers (v : vnode E) : list (string * string * (jsval -> E)) :=
  flat_map (fun '(tag, ats) => flat_map (attr_handlers tag) ats) (elements v).

(** The tree offers an event: some listener raises it. *)
Definition offers (v : vnode E) (e : E) : Prop :=
  exists tag ev h x, In (tag, ev, h) (handlers v) /\ h x = e.

(** ** Forms *)

(** The form with the given [ref], and what its fields validate to. *)
Fixpoint form (name : string) (v : vnode E) : list (vnode E) :=
  match v with
  | Empty | Txt _ => []
  | El tag ats kids =>
      if String.eqb tag "v-form" && has_ref name ats then kids else flat_map (form name) kids
  | Slot _ kids => flat_map (form name) kids
  end.

Definition field_checks (ats : list (attr E)) : list (option string) :=
  flat_map (fun a => match a with Rules l => map (fun r => r (value_of ats)) l | _ => [] end) ats.

(** [this.$refs.<name>.validate()]: every rule of every field of the form. *)
Definition form_checks (name : string) (v : vnode E) : list (option string) :=
  flat_map (fun '(_, ats) => field_checks ats) (flat_map elements (form name v)).
End Trees.

Lemma elements_vmap {E F} (f : E -> F) (v : vnode E) :
  elements (vmap f v) = map (fun '(tag, ats) => (tag, map (attr_map f) ats)) (elements v).
Proof.
  induction v as [|l|tag ats kids IH|n kids IH] using vnode_nested_ind; try done; cbn [vmap elements map]; [f_equal |];
    (induction IH as [|k kids Hk _ IHk]; [done |]; cbn [map flat_map]; by rewrite map_app, Hk, IHk).
Qed.

Lemma prop_of_map {E F} (f : E -> F) name ats : prop_of name (map (attr_map f) ats) = prop_of name ats.
Proof. induction ats as [|[] l IH]; try done. cbn. by rewrite IH. Qed.

(** [v => !!v || this.$t(key)] *)
Definition required (t : string -> string) (key : string) (v : jsval) : option string :=
  t <$> rule_required key v.

(** ** What Vuetify shows

    A [v-dialog] and a [v-snackbar] show their content when their value is
    set, a [v-window] the items whose value is its own. *)

Class Vuetify : Type := {
  dialog_open : jsval -> bool;
  snackbar_open : jsval -> bool;
  item_active : jsval -> jsval -> bool
}.

Class VuetifyLaws (V : Vuetify) : Prop := {
  dialog_open_law : forall b, dialog_open (VBool b) = b;
  snackbar_open_law : forall b, snackbar_open (VBool b) = b;
  item_active_law : forall a b, safe a -> safe b -> item_active (VInt a) (VInt b) = (a =? b)
}.

Section Screen.
Context {V : Vuetify} {E : Type}.

(** The part of a tree on the screen; [w] is the value of the window around. *)
Fixpoint screen_in (w : jsval) (v : vnode E) : vnode E :=
  match v with
  | Empty => Empty
  | Txt l => Txt l
  | El tag ats kids =>
      if String.eqb tag "v-dialog" then
        if dialog_open (value_of ats) then El tag ats (map (screen_in w) kids) else Empty
      else if String.eqb tag "v-snackbar" then
        if snackbar_open (value_of ats) then El tag ats (map (screen_in w) kids) else Empty
      else if String.eqb tag "v-window" then El tag ats (map (screen_in (value_of ats)) kids)
      else if String.eqb tag "v-window-item" then
        if item_active w (value_of ats) then El tag ats (map (screen_in w) kids) else Empty
      else El tag ats (map (screen_in w) kids)
  | Slot n kids => Slot n (map (screen_in w) kids)
  end.
Definition screen : vnode E -> vnode E := screen_in VUndef.

(** The screen shows nothing the tree does not hold. *)
Lemma screen_elements w v : incl (elements (screen_in w v)) (elements v).
Proof.
  revert w. induction v as [|l|tag ats kids IH|n kids IH] using vnode_nested_ind; intros w; cbn [screen_in];
    try apply incl_refl.
  - assert (forall w, incl (flat_map elements (map (screen_in w) kids)) (flat_map elements kids)) as Hk.
    { intros w'. rewrite flat_map_concat_map, map_map, <- flat_map_concat_map. intros x.
      rewrite !in_flat_map. intros (k & Hk & Hx). exists k. split; [done |].
      rewrite List.Forall_forall in IH. by eapply IH. }
    repeat case_match; cbn [elements]; try (by intros ? []); apply incl_cons; (try by left); apply incl_tl, Hk.
  - cbn [elements]. rewrite flat_map_concat_map, map_map, <- flat_map_concat_map. intros x.
    rewrite !in_flat_map. intros (k & Hk & Hx). exists k. split; [done |].
    rewrite List.Forall_forall in IH. by eapply IH.
Qed.

(** ** Runs of a component through its screen

    A sequence of events the user can cause: an event is external (a prop, an
    answer), or the screen offers it when it happens. *)
Section Feasible.
Context {S : Type} (render : S -> vnode E) (handle : S -> E -> S) (external : E -> bool).

Fixpoint feasible (s : S) (es : list E) : Prop :=
  match es with
  | [] => True
  | e :: es' => (external e = true \/ offers (screen (render s)) e) /\ feasible (handle s e) es'
  end.
End Feasible.

Lemma screen_handlers w v : incl (handlers (screen_in w v)) (handlers v).
Proof.
  intros x. unfold handlers. rewrite !in_flat_map. intros (y & Hy & Hx). exists y.
  split; [by apply (screen_elements w) | done].
Qed.
End Screen.

Lemma offers_iff {E} (v : vnode E) (e : E) :
  offers v e <-> Exists (fun h => exists x, h.2 x = e) (handlers v).
Proof.
  unfold offers. rewrite List.Exists_exists. split.
  - intros (tag & ev & h & x & Hin & He). exists (tag, ev, h). split; [done | by exists x].
  - intros ([[tag ev] h] & Hin & x & He). by exists tag, ev, h, x.
Qed.

Lemma offers_empty {E} (e : E) : ~ offers Empty e.
Proof. rewrite offers_iff. by intros ?%List.Exists_nil. Qed.

(** Compute the screen of a template down to what Vuetify decides. *)
Ltac screen_simpl :=
  cbn [screen screen_in map String.eqb Ascii.eqb Bool.eqb value_of v_if];
  rewrite ?dialog_open_law, ?snackbar_open_law, ?item_active_law by (unfold safe in *; lia).

(** A concrete Vuetify. *)
Module ToyVuetify.
#[export] Instance vuetify : Vuetify := {
  dialog_open := truthy;
  snackbar_open := truthy;
  item_active := strict_eq
}.
#[export] Instance vuetify_laws : VuetifyLaws vuetify.
Proof. constructor; [by intros [] | by intros [] | by intros; apply strict_eq_int]. Qed.
End ToyVuetify.
