(* ===== verification/DialogViews.v ===== *)
(** * The templates of the dialogs: components/dialog/*.vue, ClipboardText.vue

    The trees the dialogs render, over the state machines of [Dialogs], with the
    part of the data only the templates use.  A two-way binding is an event of
    its own: [Set_visible] and [Set_step] are what Vuetify writes through the
    [v-model] of the dialog and of the window. *)

From S2P Require Import Prelude JsNum JsValue Runtime Store StoreSpec Dialogs Vue.
Local Open Scope Z_scope.

Set Warnings "-register-all".

(** ** What the dialogs share *)

(** The data of a dialog with [showPassword]. *)
Record view (S : Type) : Type := mk_view {
  v_data : S;
  v_showPassword : bool
}.
Arguments mk_view {S}.
Arguments v_data {S}.
Arguments v_showPassword {S}.

Inductive vevent (X : Type) : Type :=
| Ev (e : X)                (* a method, a watcher, an answer *)
| Toggle_password           (* showPassword = !showPassword *)
| Set_visible (v : jsval)   (* v-model="visible" *)
| Set_step (v : jsval).     (* v-model="step" *)
Arguments Ev {X} e.
Arguments Toggle_password {X}.
Arguments Set_visible {X} v.
Arguments Set_step {X} v.

(** The step a window writes: the number of one of its items. *)
Definition step_of (v : jsval) (old : Z) : Z :=
  match v with VNum n => default old (num_integer n) | _ => old end.

Section Handle.
Context {S X F : Type}.
Variable handle : S -> X -> S * list F.
Variable set_visible : S -> bool -> S.
Variable set_step : S -> (Z -> Z) -> S.

Definition vhandle (s : view S) (e : vevent X) : view S * list F :=
  match e with
  | Ev e => let '(d, out) := handle (v_data s) e in (mk_view d (v_showPassword s), out)
  | Toggle_password => (mk_view (v_data s) (negb (v_showPassword s)), [])
  | Set_visible v => (mk_view (set_visible (v_data s) (truthy v)) (v_showPassword s), [])
  | Set_step v => (mk_view (set_step (v_data s) (step_of v)) (v_showPassword s), [])
  end.

Fixpoint vrun (s : view S) (es : list (vevent X)) : view S * list F :=
  match es with
  | [] => (s, [])
  | e :: es' =>
      let '(s1, out1) := vhandle s e in
      let '(s2, out2) := vrun s1 es' in (s2, out1 ++ out2)
  end.
End Handle.

(** ** components/widget/ClipboardText.vue *)

Module ClipboardText.
Definition render {E} (value label hideDetails : jsval) : vnode E :=
  El "v-text-field" [ Attr "label" label; Attr "value" value; Flag "readonly"; Attr "hide-details" hideDetails ]
    [ Slot "append"
        [ El "v-btn" [Flag "icon"; Flag "small"; Attr "v-clipboard:copy" value]
            [ El "v-icon" [Static "color" "primary"; Static "class" "far fa-copy"; Flag "small"] [] ] ] ].
End ClipboardText.

(** ** VerificationPassword.vue *)

Module VerificationPasswordView.
Import VerificationPassword.

Definition set_visible (d : state) (b : bool) : state :=
  {| step := step d; visible := b; password := password d; passwordError := passwordError d; passwordErrorMessage := passwordErrorMessage d; in_flight := in_flight d |}.

Definition set_step (d : state) (f : Z -> Z) : state :=
  {| step := f (step d); visible := visible d; password := password d; passwordError := passwordError d; passwordErrorMessage := passwordErrorMessage d; in_flight := in_flight d |}.

Section Render.
Variable t : string -> string.
Abbreviation tr k := (VStr (t k)).

Definition render (title : jsval) (s : view state) : vnode (vevent event) :=
  let d := v_data s in
  El "v-dialog" [Model (VBool (visible d)) Set_visible; Flag "persistent"; Static "max-width" "600px"]
    [ El "v-card" []
        [ El "v-card-title" []
            [ El "span" [Static "class" "headline"] [Txt [title]];
              El "v-spacer" [] [];
              El "v-btn" [ Static "class" "mr-0"; Flag "icon"; Flag "small";
                    On "click" (fun _ => Ev Click_cancel) ]
                [ El "v-icon" [ Static "class" "fas fa-times"; Static "color" "grey darken-2"; Flag "small" ] [] ] ];
          El "div" [Static "class" "divider"] [];
          El "v-window" [Model (VInt (step d)) Set_step]
            [ El "v-window-item" [Attr "value" (VInt 1)]
                [ El "v-form" [Ref "form"; On "submit.prevent" (fun _ => Ev Click_next)]
                    [ El "v-card-text" []
                        [ El "v-text-field" [ Flag "autofocus"; Ref "password";
                                Model (password d) (fun v => Ev (Type_password v));
                                Attr "label" (js_add (tr "PASSWORD") (VStr "*"));
                                Attr "hint" (tr "PASSWORD_HINT"); Flag "persistent-hint";
                                Attr "append-icon" (VStr (if v_showPassword s then "visibility" else "visibility_off"));
                                Attr "type" (VStr (if v_showPassword s then "text" else "password"));
                                Rules [required t "PASSWORD_REQUIRED"];
                                Attr "error" (VBool (passwordError d));
                                Attr "error-messages" (VStr (passwordErrorMessage d));
                                On "click:append" (fun _ => Toggle_password) ] [] ] ] ] ];
          El "v-card-actions" [Static "class" "pa-3"]
            [ El "v-btn" [ Static "color" "blue darken-1"; Flag "text"; On "click" (fun _ => Ev Click_cancel) ] [Txt [tr "CANCEL"]];
              El "v-spacer" [] [];
              (if (step d =? 3) then El "v-btn" [Static "color" "primary"; On "click" (fun _ => Ev Click_cancel)] [Txt [tr "CLOSE"]]
              else El "v-btn" [Static "color" "primary"; On "click" (fun _ => Ev Click_next)] [Txt [tr "NEXT"]]) ] ] ].
End Render.
End VerificationPasswordView.

(** ** SecretSeed.vue *)

Module SecretSeedView.
Import SecretSeed.

Definition set_visible (d : state) (b : bool) : state :=
  {| step := step d; visible := b; password := password d; secretSeed := secretSeed d; passwordError := passwordError d; passwordErrorMessage := passwordErrorMessage d; in_flight := in_flight d |}.

Definition set_step (d : state) (f : Z -> Z) : state :=
  {| step := f (step d); visible := visible d; password := password d; secretSeed := secretSeed d; passwordError := passwordError d; passwordErrorMessage := passwordErrorMessage d; in_flight := in_flight d |}.

Section Render.
Variable t : string -> string.
Abbreviation tr k := (VStr (t k)).

Definition render (s : view state) : vnode (vevent event) :=
  let d := v_data s in
  El "v-dialog" [Model (VBool (visible d)) Set_visible; Flag "persistent"; Static "max-width" "600px"]
    [ El "v-card" []
        [ El "v-card-title" []
            [ El "span" [Static "class" "headline"] [Txt [tr "SECRET_SEED"]];
              El "v-spacer" [] [];
              El "v-btn" [ Static "class" "mr-0"; Flag "icon"; Flag "small";
                    On "click" (fun _ => Ev Click_cancel) ]
                [ El "v-icon" [ Static "class" "fas fa-times"; Static "color" "grey darken-2"; Flag "small" ] [] ] ];
          El "div" [Static "class" "divider"] [];
          El "v-window" [Model (VInt (step d)) Set_step]
            [ El "v-window-item" [Attr "value" (VInt 1)]
                [ El "v-form" [Ref "form"; On "submit.prevent" (fun _ => Ev Click_next)]
                    [ El "v-card-text" []
                        [ El "v-text-field" [ Flag "autofocus"; Ref "password";
                                Model (password d) (fun v => Ev (Type_password v));
                                Attr "label" (js_add (tr "PASSWORD") (VStr "*"));
                                Attr "hint" (tr "PASSWORD_HINT"); Flag "persistent-hint";
                                Attr "append-icon" (VStr (if v_showPassword s then "visibility" else "visibility_off"));
                                Attr "type" (VStr (if v_showPassword s then "text" else "password"));
                                Rules [required t "PASSWORD_REQUIRED"];
                                Attr "error" (VBool (passwordError d));
                                Attr "error-messages" (VStr (passwordErrorMessage d));
                                On "click:append" (fun _ => Toggle_password) ] [] ] ] ];
              El "v-window-item" [Attr "value" (VInt 2)]
                [ El "v-card-text" []
                    [ClipboardText.render (secretSeed d) (tr "SECRET_SEED") (VBool false)] ] ];
          El "v-card-actions" [Static "class" "pa-3"]
            [ El "v-btn" [ Static "color" "blue darken-1"; Flag "text"; On "click" (fun _ => Ev Click_cancel) ] [Txt [tr "CANCEL"]];
              El "v-spacer" [] [];
              v_if (step d =? 1) (El "v-btn" [Static "color" "primary"; On "click" (fun _ => Ev Click_next)] [Txt [tr "NEXT"]]);
              v_if (step d =? 2) (El "v-btn" [Static "color" "primary"; On "click" (fun _ => Ev Click_cancel)] [Txt [tr "CLOSE"]]) ] ] ].
End Render.
End SecretSeedView.

(** ** BeneficiaryAddr.vue *)

Module BeneficiaryAddrView.
Import BeneficiaryAddr.

Definition set_step_by (d : state) (f : Z -> Z) : state := set_step d (f (step d)).

Section Render.
Variable t : string -> string.
Abbreviation tr k := (VStr (t k)).

Definition render (s : view state) : vnode (vevent event) :=
  let d := v_data s in
  El "v-dialog" [Model (VBool (visible d)) Set_visible; Flag "persistent"; Static "max-width" "600px"]
    [ El "v-card" []
        [ El "v-card-title" []
            [ El "span" [Static "class" "headline"] [Txt [tr "BENEFICIARY"]];
              El "v-spacer" [] [];
              El "v-btn" [ Static "class" "mr-0"; Flag "icon"; Flag "small";
                    On "click" (fun _ => Ev Click_cancel) ]
                [ El "v-icon" [ Static "class" "fas fa-times"; Static "color" "grey darken-2"; Flag "small" ] [] ] ];
          El "div" [Static "class" "divider"] [];
          El "v-window" [Model (VInt (step d)) Set_step]
            [ El "v-window-item" [Attr "value" (VInt 1)]
                [ El "v-form" [Ref "form1"; On "submit.prevent" (fun _ => Ev Click_next)]
                    [ El "v-card-text" []
                        [ El "v-text-field" [ Flag "autofocus"; Ref "password";
                                Model (password d) (fun v => Ev (Type_password v));
                                Attr "label" (js_add (tr "PASSWORD") (VStr "*"));
                                Attr "hint" (tr "PASSWORD_HINT"); Flag "persistent-hint";
                                Attr "append-icon" (VStr (if v_showPassword s then "visibility" else "visibility_off"));
                                Attr "type" (VStr (if v_showPassword s then "text" else "password"));
                                Rules [required t "PASSWORD_REQUIRED"];
                                Attr "error" (VBool (passwordError d));
                                Attr "error-messages" (VStr (passwordErrorMessage d));
                                On "click:append" (fun _ => Toggle_password) ] [] ] ] ];
              El "v-window-item" [Attr "value" (VInt 2)]
                [ El "v-form" [Ref "form2"; On "submit.prevent" (fun _ => Ev Click_next)]
                    [ El "v-card-text" []
                        [ El "v-text-field" [ Flag "autofocus"; Model (beneficiaryAddr d) (fun v => Ev (Type_addr v));
                                Attr "label" (tr "BENEFICIARY");
                                Attr "hint" (tr "settings.BENEFICIARY_HINT"); Flag "persistent-hint";
                                Attr "error" (VBool (beneficiaryAddrError d));
                                Attr "error-messages" (VStr (beneficiaryAddrErrorMessage d)) ] [] ] ] ] ];
          El "v-card-actions" [Static "class" "pa-3"]
            [ El "v-btn" [ Static "color" "blue darken-1"; Flag "text"; On "click" (fun _ => Ev Click_cancel) ] [Txt [tr "CANCEL"]];
              El "v-spacer" [] [];
              (if (step d =? 3) then El "v-btn" [Static "color" "primary"; On "click" (fun _ => Ev Click_cancel)] [Txt [tr "CLOSE"]]
              else El "v-btn" [Static "color" "primary"; On "click" (fun _ => Ev Click_next)] [Txt [tr "NEXT"]]) ] ] ].
End Render.
End BeneficiaryAddrView.

(** ** Result.vue *)

Module ResultView.
Inductive event : Type :=
| Click_close
| Model_visible (v : jsval).

(** The props and the local [visible]. *)
Definition render (t : string -> string) (type : string) (timeout : num) (visible : bool) : vnode event :=
  El "v-snackbar" [ Model (VBool visible) Model_visible; Attr "color" (VStr type); Flag "multi-line";
        Attr "timeout" (VNum timeout); Flag "left" ]
    [ Txt [Result.message t type; VStr " "];
      El "v-btn" [Flag "dark"; Flag "text"; On "click" (fun _ => Click_close)] [Txt [VStr "Close"]] ].

(** The default of the [timeout] prop. *)
Definition default_timeout : num := num_of_Z 2000.
Definition default_type : string := "success".

Definition handle (visible : bool) (e : event) : bool * list bool :=
  match e with
  | Click_close => Result.close visible
  | Model_visible v => Result.set_visible visible (truthy v)
  end.
End ResultView.

(** ** Lemmas *)

(** The listeners of a computed screen, and the events they raise. *)
Ltac offers_simpl :=
  rewrite offers_iff; unfold handlers, ClipboardText.render;
  cbn [screen screen_in elements flat_map attr_handlers app map String.eqb Ascii.eqb Bool.eqb value_of v_if];
  rewrite ?List.Exists_cons, ?List.Exists_nil; cbn [snd].

(** An event of a component is one of those its listeners raise. *)
Ltac solve_offers :=
  split;
  [ intros Ho; repeat (destruct Ho as [[? <-] | Ho]; [split; [done | cbn; auto; lia] |]); destruct Ho
  | intros [Hv Ho]; try discriminate Hv;
    match goal with e : vevent _ |- _ => destruct e as [ev| | |]; [destruct ev |..]; cbn in Ho; try lia; try done end;
    repeat (first [by left; exists VUndef | left; eexists; reflexivity | right]) ].

Section Lemmas.
Context {V : Vuetify} {VL : VuetifyLaws V}.
Variable t : string -> string.

(** *** SecretSeed.vue *)

(** The same dialog with another seed. *)
Definition with_seed (s : view SecretSeed.state) (x : jsval) : view SecretSeed.state :=
  let d := v_data s in
  mk_view {| SecretSeed.step := SecretSeed.step d; SecretSeed.visible := SecretSeed.visible d;
             SecretSeed.password := SecretSeed.password d; SecretSeed.secretSeed := x;
             SecretSeed.passwordError := SecretSeed.passwordError d;
             SecretSeed.passwordErrorMessage := SecretSeed.passwordErrorMessage d;
             SecretSeed.in_flight := SecretSeed.in_flight d |} (v_showPassword s).

(** What the user can do on the screen of the dialog. *)
Definition secret_enabled (step : Z) (e : vevent SecretSeed.event) : Prop :=
  match e with
  | Ev SecretSeed.Click_cancel | Set_visible _ | Set_step _ => True
  | Ev SecretSeed.Click_next | Ev (SecretSeed.Type_password _) | Toggle_password => step = 1
  | Ev (SecretSeed.Prop_value _) | Ev (SecretSeed.Answered _) => False
  end.

Lemma secret_offers s e :
  safe (SecretSeed.step (v_data s)) ->
  offers (screen (SecretSeedView.render t s)) e
  <-> SecretSeed.visible (v_data s) = true /\ secret_enabled (SecretSeed.step (v_data s)) e.
Proof.
  intros Hs. unfold SecretSeedView.render. cbn [v_data v_showPassword]. screen_simpl.
  destruct (SecretSeed.visible (v_data s)); [| split; [by intros ?%offers_empty | by intros [? _]]].
  destruct (Z.eqb_spec (SecretSeed.step (v_data s)) 1), (Z.eqb_spec (SecretSeed.step (v_data s)) 2); try lia;
    offers_simpl; solve_offers.
Qed.

(** *** BeneficiaryAddr.vue and VerificationPassword.vue *)

Definition address_enabled (step : Z) (e : vevent BeneficiaryAddr.event) : Prop :=
  match e with
  | Ev BeneficiaryAddr.Click_cancel | Set_visible _ | Set_step _ => True
  | Ev BeneficiaryAddr.Click_next => step <> 3
  | Ev (BeneficiaryAddr.Type_password _) | Toggle_password => step = 1
  | Ev (BeneficiaryAddr.Type_addr _) => step = 2
  | Ev (BeneficiaryAddr.Prop_value _) | Ev (BeneficiaryAddr.Verified _) | Ev (BeneficiaryAddr.Set_answered _) => False
  end.

Lemma address_offers s e :
  safe (BeneficiaryAddr.step (v_data s)) ->
  offers (screen (BeneficiaryAddrView.render t s)) e
  <-> BeneficiaryAddr.visible (v_data s) = true /\ address_enabled (BeneficiaryAddr.step (v_data s)) e.
Proof.
  intros Hs. unfold BeneficiaryAddrView.render. cbn [v_data v_showPassword]. screen_simpl.
  destruct (BeneficiaryAddr.visible (v_data s)); [| split; [by intros ?%offers_empty | by intros [? _]]].
  destruct (Z.eqb_spec (BeneficiaryAddr.step (v_data s)) 1), (Z.eqb_spec (BeneficiaryAddr.step (v_data s)) 2),
    (Z.eqb_spec (BeneficiaryAddr.step (v_data s)) 3); try lia; offers_simpl; solve_offers.
Qed.

Definition verification_enabled (step : Z) (e : vevent VerificationPassword.event) : Prop :=
  match e with
  | Ev VerificationPassword.Click_cancel | Set_visible _ | Set_step _ => True
  | Ev VerificationPassword.Click_next => step <> 3
  | Ev (VerificationPassword.Type_password _) | Toggle_password => step = 1
  | Ev (VerificationPassword.Prop_value _) | Ev (VerificationPassword.Answered _) => False
  end.

Lemma verification_offers title s e :
  safe (VerificationPassword.step (v_data s)) ->
  offers (screen (VerificationPasswordView.render t title s)) e
  <-> VerificationPassword.visible (v_data s) = true /\ verification_enabled (VerificationPassword.step (v_data s)) e.
Proof.
  intros Hs. unfold VerificationPasswordView.render. cbn [v_data v_showPassword]. screen_simpl.
  destruct (VerificationPassword.visible (v_data s)); [| split; [by intros ?%offers_empty | by intros [? _]]].
  destruct (Z.eqb_spec (VerificationPassword.step (v_data s)) 1),
    (Z.eqb_spec (VerificationPassword.step (v_data s)) 3); try lia; offers_simpl; solve_offers.
Qed.

(** *** Forms *)

Lemma verification_form title s :
  validates (form_checks "form" (VerificationPasswordView.render t title s))
  = validates [rule_required "PASSWORD_REQUIRED" (VerificationPassword.password (v_data s))].
Proof. cbn. unfold required. by destruct (rule_required _ _), (VerificationPassword.step (v_data s) =? 3). Qed.

Lemma secret_form s :
  validates (form_checks "form" (SecretSeedView.render t s))
  = validates [rule_required "PASSWORD_REQUIRED" (SecretSeed.password (v_data s))].
Proof.
  cbn. unfold required.
  by destruct (rule_required _ _), (SecretSeed.step (v_data s) =? 1), (SecretSeed.step (v_data s) =? 2).
Qed.

Lemma address_form1 s :
  validates (form_checks "form1" (BeneficiaryAddrView.render t s))
  = validates [rule_required "PASSWORD_REQUIRED" (BeneficiaryAddr.password (v_data s))].
Proof. cbn. unfold required. by destruct (rule_required _ _), (BeneficiaryAddr.step (v_data s) =? 3). Qed.

Lemma address_form2 s : form_checks "form2" (BeneficiaryAddrView.render t s) = [].
Proof. cbn. by destruct (BeneficiaryAddr.step (v_data s) =? 3). Qed.
End Lemmas.

(** ** Theorems *)

Section Theorems.
Context {V : Vuetify} {VL : VuetifyLaws V}.
Variable t : string -> string.
Variable reset_value : jsval.

(** A field of the screen that shows a value. *)
Definition shows {E} (v : vnode E) (tag : string) (x : jsval) : Prop :=
  exists ats, In (tag, ats) (elements v) /\ value_of ats = x.

(** The first element with a given tag in a computed screen. *)
Ltac find_el := unfold ClipboardText.render; cbn; repeat (first [left; reflexivity | right]).

(** C24: the seed is confined to the second step of the open dialog: there a
    field shows it, and on every other screen of the dialog nothing depends on
    it. *)
Theorem seed_confined s x y :
  safe (SecretSeed.step (v_data s)) ->
  if SecretSeed.visible (v_data s) && (SecretSeed.step (v_data s) =? 2)
  then shows (screen (SecretSeedView.render t (with_seed s x))) "v-text-field" x
  else screen (SecretSeedView.render t (with_seed s x)) = screen (SecretSeedView.render t (with_seed s y)).
Proof.
  intros Hs. unfold SecretSeedView.render, with_seed.
  cbn [v_data v_showPassword SecretSeed.step SecretSeed.visible SecretSeed.secretSeed]. screen_simpl.
  destruct (SecretSeed.visible (v_data s)); cbn [andb]; [| done].
  destruct (Z.eqb_spec (SecretSeed.step (v_data s)) 2) as [E | E]; [| done].
  rewrite E. eexists. split; [find_el | reflexivity].
Qed.

(** What a user can do on the screen of each dialog, exactly: nothing when
    it is closed; on the password step type, toggle and go on; Next is gone from
    the second step of the seed dialog and from the third of the others; Cancel
    is always there. *)
Theorem dialogs_offer title ver sec adr ev es ea :
  safe (VerificationPassword.step (v_data ver)) -> safe (SecretSeed.step (v_data sec)) ->
  safe (BeneficiaryAddr.step (v_data adr)) ->
  (offers (screen (VerificationPasswordView.render t title ver)) ev
   <-> VerificationPassword.visible (v_data ver) = true
       /\ verification_enabled (VerificationPassword.step (v_data ver)) ev)
  /\ (offers (screen (SecretSeedView.render t sec)) es
      <-> SecretSeed.visible (v_data sec) = true /\ secret_enabled (SecretSeed.step (v_data sec)) es)
  /\ (offers (screen (BeneficiaryAddrView.render t adr)) ea
      <-> BeneficiaryAddr.visible (v_data adr) = true
          /\ address_enabled (BeneficiaryAddr.step (v_data adr)) ea).
Proof. intros. split_and!; [by apply verification_offers | by apply secret_offers | by apply address_offers]. Qed.

(** *** Runs through the screen *)

Definition secret_external (e : vevent SecretSeed.event) : bool :=
  match e with Ev (SecretSeed.Prop_value _) | Ev (SecretSeed.Answered _) => true | _ => false end.

Definition secret_vhandle : view SecretSeed.state -> vevent SecretSeed.event -> view SecretSeed.state * list (effect string) :=
  vhandle (SecretSeed.handle t reset_value) SecretSeedView.set_visible SecretSeedView.set_step.

Definition secret_start : view SecretSeed.state := mk_view (SecretSeed.data false) false.

Lemma secret_next_dispatches s :
  truthy (SecretSeed.password s) = true ->
  SecretSeed.next s =
  ({| SecretSeed.step := SecretSeed.step s; SecretSeed.visible := SecretSeed.visible s;
      SecretSeed.password := SecretSeed.password s; SecretSeed.secretSeed := SecretSeed.secretSeed s;
      SecretSeed.passwordError := SecretSeed.passwordError s;
      SecretSeed.passwordErrorMessage := SecretSeed.passwordErrorMessage s;
      SecretSeed.in_flight := S (SecretSeed.in_flight s) |}, [Dispatch "wallet/getCurrentWalletDetails"]).
Proof. intros Hp. unfold SecretSeed.next, rule_required. cbn [validates forallb]. by rewrite Hp. Qed.

(** The events of a run, one after the other. *)
Ltac feasible_step :=
  cbn [feasible]; split; [first [by left | right; apply secret_offers; cbn; unfold safe; done || lia] |];
  cbn [secret_vhandle vhandle SecretSeed.handle v_data v_showPassword fst];
  try (rewrite secret_next_dispatches by done);
  cbn [fst v_data v_showPassword].

(** C38: a user can come to see the seed without having typed the password
    since the dialog was opened: closing it while the request is in flight and
    opening it again shows the seed of the late answer, next to an empty
    password. *)
Theorem seed_on_screen_unasked pw seed :
  truthy pw = true -> pw <> reset_value ->
  let es := [ Ev (SecretSeed.Prop_value true); Ev (SecretSeed.Type_password pw); Ev SecretSeed.Click_next;
              Ev SecretSeed.Click_cancel; Ev (SecretSeed.Prop_value false);
              Ev (SecretSeed.Answered (Ok (VObj [("secretSeed", seed)]))); Ev (SecretSeed.Prop_value true) ] in
  let s := (vrun (SecretSeed.handle t reset_value) SecretSeedView.set_visible SecretSeedView.set_step secret_start es).1 in
  feasible (SecretSeedView.render t) (fun s e => (secret_vhandle s e).1) secret_external secret_start es
  /\ shows (screen (SecretSeedView.render t s)) "v-text-field" seed
  /\ SecretSeed.password (v_data s) = reset_value.
Proof.
  intros Hp Hne es s. split; [| split].
  - unfold es. repeat feasible_step. done.
  - unfold s, es. cbn [vrun vhandle SecretSeed.handle v_data v_showPassword].
    rewrite secret_next_dispatches by done. cbn.
    rewrite dialog_open_law, !item_active_law by (unfold safe; lia).
    eexists. split; [find_el | reflexivity].
  - unfold s, es. cbn [vrun vhandle SecretSeed.handle v_data v_showPassword].
    by rewrite secret_next_dispatches.
Qed.

(** Two clicks on Next before the first answer leave the seed dialog on a
    third step, where it shows no field, neither the password nor the seed, and
    offers nothing but Cancel. *)
Theorem double_next_blank pw seed1 seed2 :
  truthy pw = true ->
  let es := [ Ev (SecretSeed.Prop_value true); Ev (SecretSeed.Type_password pw); Ev SecretSeed.Click_next;
              Ev SecretSeed.Click_next; Ev (SecretSeed.Answered (Ok (VObj [("secretSeed", seed1)])));
              Ev (SecretSeed.Answered (Ok (VObj [("secretSeed", seed2)]))) ] in
  let s := (vrun (SecretSeed.handle t reset_value) SecretSeedView.set_visible SecretSeedView.set_step secret_start es).1 in
  feasible (SecretSeedView.render t) (fun s e => (secret_vhandle s e).1) secret_external secret_start es
  /\ (forall ats, ~ In ("v-text-field", ats) (elements (screen (SecretSeedView.render t s))))
  /\ (forall e, offers (screen (SecretSeedView.render t s)) (Ev e) <-> e = SecretSeed.Click_cancel).
Proof.
  intros Hp es s.
  assert (v_data s = {| SecretSeed.step := 3; SecretSeed.visible := true; SecretSeed.password := pw;
            SecretSeed.secretSeed := seed2; SecretSeed.passwordError := false;
            SecretSeed.passwordErrorMessage := ""; SecretSeed.in_flight := 0 |}
          /\ v_showPassword s = false) as [Ed Ev].
  { unfold s, es. cbn [vrun vhandle SecretSeed.handle v_data v_showPassword].
    by rewrite !secret_next_dispatches by done. }
  split; [unfold es; repeat feasible_step; done |]. split.
  - intros ats. unfold SecretSeedView.render. rewrite Ed, Ev. cbn [SecretSeed.step SecretSeed.visible].
    screen_simpl. cbn. intuition discriminate.
  - intros e. rewrite secret_offers by (rewrite Ed; cbn; unfold safe; lia). rewrite Ed. cbn.
    split; [intros [_ H]; destruct e; done || lia | by intros ->].
Qed.

(** The window of the address dialog is bound to the step both ways, so
    that what it writes, a swipe to its second item, sends the change of the
    address with whatever password is typed and no verification before. *)
Theorem swipe_skips_verification form2 onSuccess pw addr :
  let handle := BeneficiaryAddr.handle t reset_value form2 onSuccess in
  let es := [ Ev (BeneficiaryAddr.Prop_value true); Ev (BeneficiaryAddr.Type_password pw); Set_step (VInt 2);
              Ev (BeneficiaryAddr.Type_addr addr); Ev BeneficiaryAddr.Click_next ] in
  let s0 := mk_view (BeneficiaryAddr.data false) false in
  feasible (BeneficiaryAddrView.render t)
    (fun s e => (vhandle handle BeneficiaryAddr.set_visible BeneficiaryAddrView.set_step_by s e).1)
    (fun e => match e with Ev (BeneficiaryAddr.Prop_value _) => true | _ => false end) s0 es
  /\ (vrun handle BeneficiaryAddr.set_visible BeneficiaryAddrView.set_step_by s0 es).2
     = [Dispatch (BeneficiaryAddr.SetBeneficiaryAddr pw addr)].
Proof.
  intros handle es s0. split; [| done]. unfold es.
  repeat (cbn [feasible]; split;
    [first [by left | right; apply address_offers; cbn; unfold safe; done || lia] |];
    cbn [vhandle handle BeneficiaryAddr.handle v_data v_showPassword fst]).
  done.
Qed.
End Theorems.

(** ** The theorems at concrete inputs *)

Module DialogViewSamples.
Import ToyVuetify.
Definition tr (key : string) : string := key.

Definition opened : view SecretSeed.state := mk_view (SecretSeed.data true) false.

Lemma seed_confined_witness :
  screen (SecretSeedView.render tr (with_seed opened (VStr "5eed")))
  = screen (SecretSeedView.render tr (with_seed opened (VStr "other"))).
Proof. apply (seed_confined tr opened (VStr "5eed") (VStr "other")). cbn. unfold safe. lia. Defined.

Lemma dialogs_offer_witness :
  ~ offers (screen (SecretSeedView.render tr secret_start)) (Ev SecretSeed.Click_next).
Proof.
  intros H.
  pose proof (dialogs_offer tr VUndef (mk_view (VerificationPassword.data false) false) secret_start
    (mk_view (BeneficiaryAddr.data false) false) Toggle_password (Ev SecretSeed.Click_next) Toggle_password) as D.
  destruct D as (_ & D & _); [cbn; unfold safe; lia.. |].
  apply D in H as [H _]. discriminate H.
Defined.

Lemma seed_on_screen_unasked_witness :
  let s := (vrun (SecretSeed.handle tr VNull) SecretSeedView.set_visible SecretSeedView.set_step secret_start
    [ Ev (SecretSeed.Prop_value true); Ev (SecretSeed.Type_password (VStr "pw")); Ev SecretSeed.Click_next;
      Ev SecretSeed.Click_cancel; Ev (SecretSeed.Prop_value false);
      Ev (SecretSeed.Answered (Ok (VObj [("secretSeed", VStr "5eed")]))); Ev (SecretSeed.Prop_value true) ]).1 in
  shows (screen (SecretSeedView.render tr s)) "v-text-field" (VStr "5eed").
Proof. apply (seed_on_screen_unasked tr VNull (VStr "pw") (VStr "5eed")); [reflexivity | discriminate]. Defined.

Lemma double_next_blank_witness :
  let s := (vrun (SecretSeed.handle tr VNull) SecretSeedView.set_visible SecretSeedView.set_step secret_start
    [ Ev (SecretSeed.Prop_value true); Ev (SecretSeed.Type_password (VStr "pw")); Ev SecretSeed.Click_next;
      Ev SecretSeed.Click_next; Ev (SecretSeed.Answered (Ok (VObj [("secretSeed", VStr "5eed")])));
      Ev (SecretSeed.Answered (Ok (VObj [("secretSeed", VStr "5eed")]))) ]).1 in
  offers (screen (SecretSeedView.render tr s)) (Ev SecretSeed.Click_cancel)
  /\ ~ In ("v-text-field", []) (elements (screen (SecretSeedView.render tr s))).
Proof.
  destruct (double_next_blank tr VNull (VStr "pw") (VStr "5eed") (VStr "5eed") eq_refl) as (_ & Hf & Ho).
  split; [by apply Ho | apply Hf].
Defined.

Lemma swipe_skips_verification_witness :
  (vrun (BeneficiaryAddr.handle tr VNull (fun _ => true) None) BeneficiaryAddr.set_visible
     BeneficiaryAddrView.set_step_by (mk_view (BeneficiaryAddr.data false) false)
     [ Ev (BeneficiaryAddr.Prop_value true); Ev (BeneficiaryAddr.Type_password (VStr "")); Set_step (VInt 2);
       Ev (BeneficiaryAddr.Type_addr (VStr "NKN1")); Ev BeneficiaryAddr.Click_next ]).2
  = [Dispatch (BeneficiaryAddr.SetBeneficiaryAddr (VStr "") (VStr "NKN1"))].
Proof. apply (swipe_skips_verification tr VNull (fun _ => true) None (VStr "") (VStr "NKN1")). Defined.
End DialogViewSamples.
