(* ===== verification/Pages.v ===== *)
(** * The pages: wallet/open.vue, wallet/create.vue, settings.vue, nodeStatus.vue

    The methods of the pages as asynchronous programs over the commands of the
    store, the local data of the page and the router; the theorems compose
    them with the actions they dispatch. *)

From S2P Require Import Prelude JsNum JsValue Json DecimalLib MathHelpers CryptoLib CryptoHelpers Runtime Store AxiosPlugin Server Protocol StoreSpec Dialogs.
Local Open Scope Z_scope.

(** ** Programs of a page *)

Inductive ui (P : Type) : Type -> Type :=
| FromStore R (c : cmd R) : ui P R
| GetData : ui P P
| PutData (p : P) : ui P unit
| Push (path : string) : ui P unit.
Arguments FromStore {P R} c.
Arguments GetData {P}.
Arguments PutData {P} p.
Arguments Push {P} path.

(** The world, the data of the page and the paths pushed to the router. *)
Record page (P : Type) : Type := mk_page {
  pg_world : world;
  pg_data : P;
  pg_pushed : list string
}.
Arguments mk_page {P}.
Arguments pg_world {P}.
Arguments pg_data {P}.
Arguments pg_pushed {P}.

Definition set_world {P} (q : page P) (w : world) : page P := mk_page w (pg_data q) (pg_pushed q).
Definition set_data {P} (q : page P) (d : P) : page P := mk_page (pg_world q) d (pg_pushed q).
Definition pushed {P} (q : page P) (path : string) : page P :=
  mk_page (pg_world q) (pg_data q) (pg_pushed q ++ [path]).

Definition ui_exec {P} : handler (ui P) (page P) := fun R c =>
  match c in ui _ R return page P -> option (page P * R) with
  | FromStore c => fun q =>
      match exec _ c (pg_world q) with Some (w, r) => Some (set_world q w, r) | None => None end
  | GetData => fun q => Some (q, pg_data q)
  | PutData d => fun q => Some (set_data q d, tt)
  | Push path => fun q => Some (pushed q path, tt)
  end.

(** [await this.action(...)] *)
Definition dispatch {P A} (p : action A) : prog (ui P) A := hoist (fun R c => FromStore c) p.

Definition modify {P} (f : P -> P) : prog (ui P) unit :=
  d ← trigger GetData; trigger (PutData (f d)).

Lemma run_dispatch {P A} (p : action A) (q : page P) :
  run ui_exec (dispatch p) q =
  match run exec p (pg_world q) with
  | (w, Done r) => (set_world q w, Done r)
  | (w, Await c k) => (set_world q w, Await (FromStore c) (fun r => dispatch (k r)))
  end.
Proof.
  revert q. induction p as [a | e | R c k IH]; intros q.
  - by destruct q.
  - by destruct q.
  - cbn [dispatch hoist run ui_exec]. destruct (exec R c (pg_world q)) as [[w r]|] eqn:E; [| by destruct q].
    fold (@dispatch P A). rewrite (IH r). cbn [pg_world set_world].
    by destruct (run exec (k r) w) as [w' []].
Qed.

Lemma run_modify {P} (f : P -> P) (q : page P) :
  run ui_exec (modify f) q = (set_data q (f (pg_data q)), Done (Ok tt)).
Proof. reflexivity. Qed.

(** A dispatched action that awaits a request, and its answer. *)
Lemma dispatch_sends {P A} (p : action A) (q : page P) w r k :
  sends p (pg_world q) w r k ->
  run ui_exec (dispatch p) q = (set_world q w, Await (FromStore (Http r)) (fun out => dispatch (k out))).
Proof. unfold sends. intros H. by rewrite run_dispatch, H. Qed.

Lemma dispatch_ends {P A} (k : js jsval -> action A) out (q : page P) w res :
  ends k out (pg_world q) w res -> run ui_exec (dispatch (k out)) q = (set_world q w, Done res).
Proof. unfold ends. intros H. by rewrite run_dispatch, H. Qed.

Section Pages.
Variable t : string -> string.
Variable localePath : string -> string.
Context {J : CryptoJS}.

(** ** pages/wallet/open.vue *)

Record open_data : Type := mk_open {
  o_password : jsval;
  o_passwordError : bool;
  o_passwordErrorMessage : string
}.

Definition open_valid (d : open_data) : bool := validates [rule_required "PASSWORD_REQUIRED" (o_password d)].

Definition open_failed (d : open_data) : open_data :=
  {| o_password := o_password d; o_passwordError := true; o_passwordErrorMessage := t "PASSWORD_ERROR" |}.

Definition open_submit : prog (ui open_data) unit :=
  dispatch (sessionSet "seed" "");;
  d ← trigger GetData;
  if open_valid d then
    tryc
      d ← trigger GetData;
      dispatch (openWallet (o_password d));;
      trigger (Push (localePath "loading"))
    with e => modify open_failed
  else Ret tt.

(** ** pages/wallet/create.vue *)

Record create_data : Type := mk_create {
  k_password : jsval;
  k_passwordConfirm : jsval;
  k_beneficiaryAddr : jsval;
  k_beneficiaryAddrError : bool;
  k_beneficiaryAddrErrorMessage : string
}.

(** The [created] hook, once its tick has come. *)
Definition create_created : prog (ui create_data) unit :=
  rs ← dispatch rootState;
  modify (fun d => {| k_password := k_password d; k_passwordConfirm := k_passwordConfirm d;
                      k_beneficiaryAddr := beneficiaryAddr (common rs);
                      k_beneficiaryAddrError := k_beneficiaryAddrError d;
                      k_beneficiaryAddrErrorMessage := k_beneficiaryAddrErrorMessage d |}).

Definition create_rules (c : common_state) (d : create_data) : list (option string) :=
  [ rule_required "PASSWORD_REQUIRED" (k_password d);
    rule_required "PASSWORD_CONFIRM_REQUIRED" (k_passwordConfirm d);
    (if strict_eq (k_password d) (k_passwordConfirm d) then None else Some "PASSWORD_CONFIRM_ERROR");
    (if truthy (beneficiaryAddrRequired c)
     then rule_required "settings.BENEFICIARY_REQUIRED" (k_beneficiaryAddr d) else None) ].

Definition create_failed (d : create_data) : create_data :=
  {| k_password := k_password d; k_passwordConfirm := k_passwordConfirm d;
     k_beneficiaryAddr := k_beneficiaryAddr d; k_beneficiaryAddrError := true;
     k_beneficiaryAddrErrorMessage := t "settings.BENEFICIARY_ERROR" |}.

Definition create_submit : prog (ui create_data) unit :=
  dispatch (sessionSet "seed" "");;
  d ← trigger GetData;
  rs ← dispatch rootState;
  if validates (create_rules (common rs) d) then
    tryc
      d ← trigger GetData;
      dispatch (createWallet (k_password d) (k_beneficiaryAddr d));;
      trigger (Push (localePath "loading"))
    with e => modify create_failed
  else Ret tt.

(** ** pages/settings.vue *)

Record settings_data : Type := mk_settings {
  s_loaded : bool;
  s_beneficiaryAddrDialog : bool;
  s_submitDialog : bool;
  s_submitResult : string;
  s_submitResultDialog : bool;
  s_beneficiaryAddr : jsval;
  s_registerIDTxnFee : jsval;
  s_numLowFeeTxnPerBlock : jsval;
  s_lowFeeTxnSizePerBlock : jsval;
  s_lowTxnFee : jsval;
  s_lowTxnFeePerSize : jsval
}.

Definition settings_init_data : settings_data := {|
  s_loaded := false; s_beneficiaryAddrDialog := false; s_submitDialog := false;
  s_submitResult := "error"; s_submitResultDialog := false; s_beneficiaryAddr := VStr "";
  s_registerIDTxnFee := VInt 0; s_numLowFeeTxnPerBlock := VInt 0; s_lowFeeTxnSizePerBlock := VInt 0;
  s_lowTxnFee := VInt 0; s_lowTxnFeePerSize := VInt 0
|}.

(** The five fields of the form. *)
Inductive field : Type :=
| RegisterIDTxnFee | NumLowFeeTxnPerBlock | LowFeeTxnSizePerBlock | LowTxnFee | LowTxnFeePerSize.

Definition field_name (f : field) : string :=
  match f with
  | RegisterIDTxnFee => "registerIDTxnFee"
  | NumLowFeeTxnPerBlock => "numLowFeeTxnPerBlock"
  | LowFeeTxnSizePerBlock => "lowFeeTxnSizePerBlock"
  | LowTxnFee => "lowTxnFee"
  | LowTxnFeePerSize => "lowTxnFeePerSize"
  end.

(** [this.<field> = v] *)
Definition set_field (f : field) (v : jsval) (d : settings_data) : settings_data := {|
  s_loaded := s_loaded d; s_beneficiaryAddrDialog := s_beneficiaryAddrDialog d;
  s_submitDialog := s_submitDialog d; s_submitResult := s_submitResult d;
  s_submitResultDialog := s_submitResultDialog d; s_beneficiaryAddr := s_beneficiaryAddr d;
  s_registerIDTxnFee := match f with RegisterIDTxnFee => v | _ => s_registerIDTxnFee d end;
  s_numLowFeeTxnPerBlock := match f with NumLowFeeTxnPerBlock => v | _ => s_numLowFeeTxnPerBlock d end;
  s_lowFeeTxnSizePerBlock := match f with LowFeeTxnSizePerBlock => v | _ => s_lowFeeTxnSizePerBlock d end;
  s_lowTxnFee := match f with LowTxnFee => v | _ => s_lowTxnFee d end;
  s_lowTxnFeePerSize := match f with LowTxnFeePerSize => v | _ => s_lowTxnFeePerSize d end
|}.

Definition set_loaded (d : settings_data) : settings_data := {|
  s_loaded := true; s_beneficiaryAddrDialog := s_beneficiaryAddrDialog d;
  s_submitDialog := s_submitDialog d; s_submitResult := s_submitResult d;
  s_submitResultDialog := s_submitResultDialog d; s_beneficiaryAddr := s_beneficiaryAddr d;
  s_registerIDTxnFee := s_registerIDTxnFee d; s_numLowFeeTxnPerBlock := s_numLowFeeTxnPerBlock d;
  s_lowFeeTxnSizePerBlock := s_lowFeeTxnSizePerBlock d; s_lowTxnFee := s_lowTxnFee d;
  s_lowTxnFeePerSize := s_lowTxnFeePerSize d
|}.

(** [this.submitResult = r; this.submitResultDialog = true] *)
Definition set_result (r : string) (d : settings_data) : settings_data := {|
  s_loaded := s_loaded d; s_beneficiaryAddrDialog := s_beneficiaryAddrDialog d;
  s_submitDialog := s_submitDialog d; s_submitResult := r; s_submitResultDialog := true;
  s_beneficiaryAddr := s_beneficiaryAddr d;
  s_registerIDTxnFee := s_registerIDTxnFee d; s_numLowFeeTxnPerBlock := s_numLowFeeTxnPerBlock d;
  s_lowFeeTxnSizePerBlock := s_lowFeeTxnSizePerBlock d; s_lowTxnFee := s_lowTxnFee d;
  s_lowTxnFeePerSize := s_lowTxnFeePerSize d
|}.

Definition set_dialogs (addr : jsval) (submit : bool) (d : settings_data) : settings_data := {|
  s_loaded := s_loaded d; s_beneficiaryAddrDialog := s_beneficiaryAddrDialog d;
  s_submitDialog := submit; s_submitResult := s_submitResult d;
  s_submitResultDialog := s_submitResultDialog d; s_beneficiaryAddr := addr;
  s_registerIDTxnFee := s_registerIDTxnFee d; s_numLowFeeTxnPerBlock := s_numLowFeeTxnPerBlock d;
  s_lowFeeTxnSizePerBlock := s_lowFeeTxnSizePerBlock d; s_lowTxnFee := s_lowTxnFee d;
  s_lowTxnFeePerSize := s_lowTxnFeePerSize d
|}.

Section Settings.
Context {D : DecimalJS}.

Definition onDialogSuccess (data : jsval) : prog (ui settings_data) unit :=
  addr ← lift (get_prop data "beneficiaryAddr");
  modify (fun d => set_dialogs addr (s_submitDialog d) d).

(** [this.<field> = formatFee(this.nodeStatus.<field>)] *)
Definition init_fee (f : field) : prog (ui settings_data) unit :=
  rs ← dispatch rootState;
  v ← lift (x ← get_prop (nodeStatus (node rs)) (field_name f); formatFee x);
  modify (set_field f v).

(** [this.<field> = this.nodeStatus.<field>] *)
Definition init_plain (f : field) : prog (ui settings_data) unit :=
  rs ← dispatch rootState;
  v ← lift (get_prop (nodeStatus (node rs)) (field_name f));
  modify (set_field f v).

Definition settings_init : prog (ui settings_data) unit :=
  init_fee RegisterIDTxnFee;;
  init_plain NumLowFeeTxnPerBlock;;
  init_plain LowFeeTxnSizePerBlock;;
  init_fee LowTxnFee;;
  init_fee LowTxnFeePerSize.

(** The watcher of [nodeStatus]. *)
Definition watch_nodeStatus : prog (ui settings_data) unit :=
  d ← trigger GetData;
  if s_loaded d then Ret tt else modify set_loaded;; settings_init.

Definition settings_reset : prog (ui settings_data) unit :=
  modify (set_field RegisterIDTxnFee (VInt 0));;
  modify (set_field NumLowFeeTxnPerBlock (VInt 0));;
  modify (set_field LowFeeTxnSizePerBlock (VInt 4096));;
  modify (set_field LowTxnFee (VNum (num_of_decimal false 1 (-1))));;
  modify (set_field LowTxnFeePerSize (VNum (num_of_decimal false 5 (-4)))).

(** [submit]; [valid] is what [form.validate()] returns. *)
Definition settings_submit (valid : bool) : prog (ui settings_data) unit :=
  if valid then modify (fun d => set_dialogs (s_beneficiaryAddr d) true d) else Ret tt.

(** The configuration the form stands for. *)
Definition form_config (d : settings_data) : js jsval :=
  a ← parseFee (s_registerIDTxnFee d);
  e ← parseFee (s_lowTxnFee d);
  f ← parseFee (s_lowTxnFeePerSize d);
  Ok (VObj [ ("registerIDTxnFee", a);
             ("numLowFeeTxnPerBlock", VNum (to_number (s_numLowFeeTxnPerBlock d)));
             ("lowFeeTxnSizePerBlock", VNum (to_number (s_lowFeeTxnSizePerBlock d)));
             ("lowTxnFee", e);
             ("lowTxnFeePerSize", f) ]).

Definition onSubmitSuccess (password : jsval) : prog (ui settings_data) unit :=
  tryc
    d ← trigger GetData;
    config ← lift (form_config d);
    dispatch (setNodeConfig password config);;
    modify (set_result "success")
  with e => modify (set_result "error").
End Settings.

(** ** pages/nodeStatus.vue *)

Definition onVerificationPasswordSuccess (password : jsval) : prog (ui unit) unit :=
  dispatch (downloadWallet password);; Ret tt.

(** The instance of the page as [this] sees it: its data and computed
    properties. *)
Definition node_page_this (w : world) (secretSeedDialog verificationPasswordDialog : bool) : jsval := VObj [
  ("secretSeedDialog", VBool secretSeedDialog); ("verificationPasswordDialog", VBool verificationPasswordDialog);
  ("nodeStatus", nodeStatus (node (w_state w))); ("currentWalletStatus", currentWalletStatus (wallet (w_state w)))].

(** [remove] reads [this.wallets], which no page has; [nodeStatus] is not a
    variable in its scope either. *)
Definition remove (this item : jsval) : js jsval :=
  wallets ← get_prop this "wallets";
  indexOf ← get_prop wallets "indexOf";
  name ← get_prop item "name";
  Err (Error "nodeStatus is not defined").

End Pages.

(** ** Lemmas *)

(** Nothing can be removed: every call throws. *)
Lemma remove_throws w a b item : remove (node_page_this w a b) item = Err TypeError.
Proof. done. Qed.

Section PageLemmas.
Context {J : CryptoJS}.

(** [try { await this.<wallet action>(...); this.$router.push(path) } catch]. *)
Lemma wallet_submit {P} c pw seed path (fail : P -> P) (q : page P) :
  seedHash pw = Ok seed ->
  exists k,
    run ui_exec (tryc dispatch (wallet_action c pw);; trigger (Push path) with e => modify fail) q
      = (q, Await (FromStore (Http (wallet_request c pw))) k)
    /\ (forall res d q2, get_prop res "data" = Ok d ->
          run ui_exec (k (Ok res)) q2
          = (pushed (set_world q2 (unlocked (pg_world q2) seed)) path, Done (Ok tt)))
    /\ (forall e q2,
          run ui_exec (k (Err e)) q2
          = (match rethrow (wallet_codes c) e with
             | Ok _ => pushed q2 path
             | Err _ => set_data q2 (fail (pg_data q2))
             end, Done (Ok tt))).
Proof.
  intros Hs. destruct (wallet_action_spec c pw seed (pg_world q) Hs) as (k & Hk & Hok & Herr).
  eexists. split_and!.
  - rewrite run_catch, run_bind, (dispatch_sends _ q _ _ _ Hk). by destruct q.
  - intros res d q2 Hd. cbv beta. rewrite run_catch, run_bind.
    by rewrite (dispatch_ends k _ q2 _ _ (Hok res d (pg_world q2) Hd)).
  - intros e q2. cbv beta. rewrite run_catch, run_bind.
    rewrite (dispatch_ends k _ q2 _ _ (Herr e (pg_world q2))).
    destruct q2 as [w d l]. by destruct (rethrow (wallet_codes c) e).
Qed.

(** The seed of the session is cleared before anything else. *)
Definition cleared {P} (q : page P) : page P :=
  set_world q (set_session (pg_world q) (<["seed" := ""]> (w_session (pg_world q)))).

Lemma run_getdata {P A} (f : P -> prog (ui P) A) (q : page P) :
  run ui_exec (d ← trigger GetData; f d) q = run ui_exec (f (pg_data q)) q.
Proof. reflexivity. Qed.

Lemma run_rootState {P A} (f : root_state -> prog (ui P) A) (q : page P) :
  run ui_exec (rs ← dispatch rootState; f rs) q = run ui_exec (f (w_state (pg_world q))) q.
Proof. rewrite run_bind, run_dispatch. by destruct q. Qed.

Lemma run_clear {P A} (p : prog (ui P) A) (q : page P) :
  run ui_exec (dispatch (sessionSet "seed" "");; p) q = run ui_exec p (cleared q).
Proof. reflexivity. Qed.
End PageLemmas.

(** ** Theorems *)

Section PageTheorems.
Variable t : string -> string.
Variable localePath : string -> string.
Context {J : CryptoJS} {C : StdCrypto} {CL : StdCryptoLaws C} {JL : CryptoJSLaws C J}.

(** The open page clears the seed and sends the password; on success the
    session holds the node's seed and the loading page is pushed; on an HTTP
    error the page shows the error exactly for 401 and 403, and pushes the
    loading page, the wallet still closed, on every other status. *)
Theorem open_page_outcome pw q :
  o_password (pg_data q) = VStr pw -> pw <> "" ->
  exists k,
    run ui_exec (open_submit t localePath) q
      = (cleared q, Await (FromStore (Http (wallet_request COpen (VStr pw)))) k)
    /\ (forall res d q2, get_prop res "data" = Ok d ->
          exists q3, run ui_exec (k (Ok res)) q2 = (q3, Done (Ok tt))
            /\ w_session (pg_world q3) !! "seed" = Some (wallet_seed (Some (PasswordHash pw)) true)
            /\ pg_pushed q3 = pg_pushed q2 ++ [localePath "loading"])
    /\ (forall s e q2, http_error s e -> safe s ->
          run ui_exec (k (Err e)) q2
          = (if bool_decide (s ∈ [401; 403]) then set_data q2 (open_failed t (pg_data q2))
             else pushed q2 (localePath "loading"), Done (Ok tt))).
Proof.
  intros Hp Hne. unfold open_submit.
  destruct (wallet_submit COpen (VStr pw) _ (localePath "loading") (open_failed t) (cleared q)
              (seedHash_wallet pw)) as (k & Hk & Hok & Herr).
  assert (open_valid (pg_data q) = true) as Hv.
  { unfold open_valid, rule_required. rewrite Hp. cbn. apply String.eqb_neq in Hne. by rewrite Hne. }
  exists k. split_and!.
  - rewrite run_clear, run_getdata. change (pg_data (cleared q)) with (pg_data q). rewrite Hv, run_catch, run_getdata.
    change (pg_data (cleared q)) with (pg_data q). rewrite Hp.
    rewrite run_catch in Hk. exact Hk.
  - intros res d q2 Hd. eexists. split; [by eapply Hok |]. cbn. by rewrite lookup_insert_eq.
  - intros s e q2 He Hs. rewrite Herr, (rethrow_http _ s) by (done || (repeat constructor)).
    cbn [wallet_codes]. by case_bool_decide.
Qed.

(** The create page sends nothing unless the password is not empty, is
    repeated exactly, and the beneficiary address is given where the service
    requires one; then it sends exactly what was typed. *)
Theorem create_page_validates q pw confirm addr :
  k_password (pg_data q) = VStr pw -> k_passwordConfirm (pg_data q) = VStr confirm ->
  k_beneficiaryAddr (pg_data q) = VStr addr ->
  let required := truthy (beneficiaryAddrRequired (common (w_state (pg_world q)))) in
  if bool_decide (pw <> "" /\ pw = confirm /\ (required = true -> addr <> ""))
  then exists k, run ui_exec (create_submit t localePath) q
         = (cleared q, Await (FromStore (Http (wallet_request (CCreate (VStr addr)) (VStr pw)))) k)
  else run ui_exec (create_submit t localePath) q = (cleared q, Done (Ok tt)).
Proof.
  intros Hp Hc Ha required. unfold create_submit.
  rewrite run_clear, run_getdata, run_rootState. change (pg_data (cleared q)) with (pg_data q).
  change (w_state (pg_world (cleared q))) with (w_state (pg_world q)).
  assert (validates (create_rules (common (w_state (pg_world q))) (pg_data q))
    = bool_decide (pw <> "" /\ pw = confirm /\ (required = true -> addr <> ""))) as ->.
  { unfold create_rules, rule_required. rewrite Hp, Hc, Ha. fold required. cbn [truthy strict_eq].
    destruct (String.eqb_spec pw ""), (String.eqb_spec confirm ""), (String.eqb_spec pw confirm),
      required, (String.eqb_spec addr "");
      cbn; symmetry; (apply bool_decide_eq_true || apply bool_decide_eq_false); intuition congruence. }
  destruct (bool_decide _) eqn:E; [| done].
  destruct (wallet_submit (CCreate (VStr addr)) (VStr pw) _ (localePath "loading") (create_failed t)
              (cleared q) (seedHash_wallet pw)) as (k & Hk & _).
  exists k. rewrite run_catch, run_getdata. change (pg_data (cleared q)) with (pg_data q). rewrite Hp, Ha.
  rewrite run_catch in Hk. exact Hk.
Qed.

Section SettingsTheorems.
Context {D : DecimalJS} {DL : DecimalLaws D}.

Lemma run_init_fee f z (q : page settings_data) :
  get_prop (nodeStatus (node (w_state (pg_world q)))) (field_name f) = Ok (VInt z) -> 0 <= z < 2 ^ 53 ->
  run ui_exec (init_fee f) q = (set_data q (set_field f (shown_fee z) (pg_data q)), Done (Ok tt)).
Proof.
  intros Hf Hz. unfold init_fee. rewrite run_rootState, run_bind, run_lift, Hf. bind_simpl.
  by rewrite formatFee_shown, run_modify.
Qed.

Lemma run_init_plain f v (q : page settings_data) :
  get_prop (nodeStatus (node (w_state (pg_world q)))) (field_name f) = Ok v ->
  run ui_exec (init_plain f) q = (set_data q (set_field f v (pg_data q)), Done (Ok tt)).
Proof.
  intros Hf. unfold init_plain. rewrite run_rootState, run_bind, run_lift, Hf. apply run_modify.
Qed.

(** The form after the first status of the node. *)
Definition filled (z : field -> Z) (d : settings_data) : settings_data :=
  set_field LowTxnFeePerSize (shown_fee (z LowTxnFeePerSize))
  (set_field LowTxnFee (shown_fee (z LowTxnFee))
  (set_field LowFeeTxnSizePerBlock (VInt (z LowFeeTxnSizePerBlock))
  (set_field NumLowFeeTxnPerBlock (VInt (z NumLowFeeTxnPerBlock))
  (set_field RegisterIDTxnFee (shown_fee (z RegisterIDTxnFee)) (set_loaded d))))).

Lemma run_watch_nodeStatus z (q : page settings_data) :
  s_loaded (pg_data q) = false ->
  (forall f, get_prop (nodeStatus (node (w_state (pg_world q)))) (field_name f) = Ok (VInt (z f))
             /\ 0 <= z f < 2 ^ 53) ->
  run ui_exec watch_nodeStatus q = (set_data q (filled z (pg_data q)), Done (Ok tt)).
Proof.
  intros Hl Hz. unfold watch_nodeStatus. rewrite run_getdata, Hl, run_bind, run_modify.
  unfold settings_init.
  rewrite run_bind, (run_init_fee RegisterIDTxnFee (z RegisterIDTxnFee)) by apply Hz.
  rewrite run_bind, (run_init_plain NumLowFeeTxnPerBlock (VInt (z NumLowFeeTxnPerBlock))) by apply Hz.
  rewrite run_bind, (run_init_plain LowFeeTxnSizePerBlock (VInt (z LowFeeTxnSizePerBlock))) by apply Hz.
  rewrite run_bind, (run_init_fee LowTxnFee (z LowTxnFee)) by apply Hz.
  by rewrite (run_init_fee LowTxnFeePerSize (z LowTxnFeePerSize)) by apply Hz.
Qed.

(** The configuration with the given values. *)
Definition config_of (z : field -> Z) : jsval :=
  VObj (map (fun f => (field_name f, VInt (z f)))
    [RegisterIDTxnFee; NumLowFeeTxnPerBlock; LowFeeTxnSizePerBlock; LowTxnFee; LowTxnFeePerSize]).

Lemma form_config_filled z d :
  (forall f, 0 <= z f < 2 ^ 53) -> form_config (filled z d) = Ok (config_of z).
Proof.
  intros Hz. unfold form_config. cbn [filled set_field s_registerIDTxnFee s_numLowFeeTxnPerBlock
    s_lowFeeTxnSizePerBlock s_lowTxnFee s_lowTxnFeePerSize].
  by rewrite !parseFee_shown by apply Hz.
Qed.

Lemma run_onSubmitSuccess pw config h (q : page settings_data) :
  form_config (pg_data q) = Ok config -> authorization (w_state (pg_world q)) pw = Ok h ->
  exists k, run ui_exec (onSubmitSuccess pw) q
      = (set_world q (with_auth (pg_world q) h),
         Await (FromStore (Http (mk_request "PUT" "/api/node/config" config))) k)
    /\ forall out q2, run ui_exec (k out) q2
      = (set_data q2 (set_result (if is_Ok (settle [400] out) then "success" else "error") (pg_data q2)),
         Done (Ok tt)).
Proof.
  intros Hc Ha. destruct (auth_action_spec (CConfig config) pw h (pg_world q) Ha) as (k & Hk & Hout).
  cbn [auth_action auth_request] in Hk. eexists. split.
  - unfold onSubmitSuccess. rewrite run_catch, run_getdata, run_bind, run_lift, Hc, run_bind.
    rewrite (dispatch_sends _ q _ _ _ Hk). reflexivity.
  - intros out q2. cbv beta. rewrite run_catch, run_bind.
    rewrite (dispatch_ends k out q2 _ _ (Hout out (pg_world q2))). destruct q2 as [w d l].
    by destruct (settle (auth_codes (CConfig config)) out) eqn:E; cbn in E; rewrite E.
Qed.

(** Saving the settings without editing them sends the node exactly the
    configuration it reported: formatting the fees for the form and parsing
    them back changes no value. *)
Theorem settings_roundtrip z pw h (q : page settings_data) :
  s_loaded (pg_data q) = false -> authorization (w_state (pg_world q)) pw = Ok h ->
  (forall f, get_prop (nodeStatus (node (w_state (pg_world q)))) (field_name f) = Ok (VInt (z f))
             /\ 0 <= z f < 2 ^ 53) ->
  exists q1 k, run ui_exec watch_nodeStatus q = (q1, Done (Ok tt))
    /\ run ui_exec (onSubmitSuccess pw) q1
       = (set_world q1 (with_auth (pg_world q1) h),
          Await (FromStore (Http (mk_request "PUT" "/api/node/config" (config_of z)))) k).
Proof.
  intros Hl Ha Hz. pose proof (run_watch_nodeStatus z q Hl Hz) as Hw.
  destruct (run_onSubmitSuccess pw (config_of z) h (set_data q (filled z (pg_data q)))) as (k & Hk & _).
  - apply form_config_filled. intros f. apply Hz.
  - exact Ha.
  - eexists _, k. split; [exact Hw | exact Hk].
Qed.

(** The settings page reports an error exactly when the node answers
    with status 400: on every other HTTP error, a refused password or a failed
    server included, it reports success. *)
Theorem settings_report pw config h s e (q : page settings_data) :
  form_config (pg_data q) = Ok config -> authorization (w_state (pg_world q)) pw = Ok h ->
  http_error s e -> safe s ->
  exists k, run ui_exec (onSubmitSuccess pw) q
      = (set_world q (with_auth (pg_world q) h),
         Await (FromStore (Http (mk_request "PUT" "/api/node/config" config))) k)
    /\ forall q2, exists q3, run ui_exec (k (Err e)) q2 = (q3, Done (Ok tt))
      /\ s_submitResultDialog (pg_data q3) = true
      /\ s_submitResult (pg_data q3) = (if s =? 400 then "error" else "success").
Proof.
  intros Hc Ha He Hs. destruct (run_onSubmitSuccess pw config h q Hc Ha) as (k & Hk & Hout).
  exists k. split; [done |]. intros q2. eexists. split; [apply Hout |].
  split; [done |]. cbn [settle]. rewrite (rethrow_http [400] s) by (done || (repeat constructor)).
  destruct (Z.eqb_spec s 400) as [-> | Hne]; [done |].
  rewrite bool_decide_eq_false_2; [done |]. by rewrite list_elem_of_singleton.
Qed.
End SettingsTheorems.
End PageTheorems.

(** ** The theorems at concrete inputs *)

Module PageSamples.
Import Toy ToyDecimal Samples.

Definition tr (key : string) : string := key.
Definition path (name : string) : string := ("/" +:+ name)%string.
Definition open_page : page open_data := mk_page (sample_world "old") (mk_open (VStr "hunter2") false "") [].

Lemma open_page_outcome_witness :
  exists k,
    run ui_exec (open_submit tr path) open_page
      = (cleared open_page, Await (FromStore (Http (wallet_request COpen (VStr "hunter2")))) k)
    /\ run ui_exec (k (Err StoreSamples.error500)) (cleared open_page)
      = (pushed (cleared open_page) "/loading", Done (Ok tt)).
Proof.
  destruct (open_page_outcome tr path "hunter2" open_page eq_refl) as (k & Hk & _ & He); [discriminate |].
  exists k. split; [exact Hk |].
  apply (He 500 StoreSamples.error500 (cleared open_page)); [| unfold safe; lia].
  exists [("response", VObj [("status", VInt 500)])], [("status", VInt 500)]. repeat split.
Defined.

Definition create_page : page create_data :=
  mk_page (sample_world "old") (mk_create (VStr "a") (VStr "b") (VStr "") false "") [].

Lemma create_page_validates_witness :
  run ui_exec (create_submit tr path) create_page = (cleared create_page, Done (Ok tt)).
Proof. apply (create_page_validates tr path create_page "a" "b" ""); reflexivity. Defined.

(** A node that reports a fee of 1.5 NKN for the registration. *)
Definition fees (f : field) : Z :=
  match f with RegisterIDTxnFee => 150000000 | LowFeeTxnSizePerBlock => 4096 | _ => 0 end.
Definition settings_page : page settings_data :=
  mk_page (set_state (sample_world "") (with_node (w_state (sample_world ""))
             (mk_node (config_of fees) []))) settings_init_data [].
Definition header : string :=
  match authorization (w_state (pg_world settings_page)) (VStr "pw") with Ok h => h | Err _ => "" end.

Lemma settings_roundtrip_witness :
  exists q1 k, run ui_exec watch_nodeStatus settings_page = (q1, Done (Ok tt))
    /\ run ui_exec (onSubmitSuccess (VStr "pw")) q1
       = (set_world q1 (with_auth (pg_world q1) header),
          Await (FromStore (Http (mk_request "PUT" "/api/node/config" (config_of fees)))) k).
Proof.
  apply (settings_roundtrip fees (VStr "pw") header settings_page); [reflexivity | vm_compute; reflexivity |].
  intros []; (split; [reflexivity | cbn; lia]).
Defined.

Definition empty_config : jsval :=
  match form_config settings_init_data with Ok c => c | Err _ => VUndef end.

Lemma settings_report_witness :
  exists k, run ui_exec (onSubmitSuccess (VStr "pw")) settings_page
      = (set_world settings_page (with_auth (pg_world settings_page) header),
         Await (FromStore (Http (mk_request "PUT" "/api/node/config" empty_config))) k)
    /\ forall q2, exists q3, run ui_exec (k (Err StoreSamples.error500)) q2 = (q3, Done (Ok tt))
      /\ s_submitResultDialog (pg_data q3) = true /\ s_submitResult (pg_data q3) = "success".
Proof.
  apply (settings_report (VStr "pw") empty_config header 500 StoreSamples.error500 settings_page);
    [vm_compute; reflexivity | vm_compute; reflexivity | | unfold safe; lia].
  exists [("response", VObj [("status", VInt 500)])], [("status", VInt 500)]. repeat split.
Defined.
End PageSamples.
