(* ===== verification/Widgets.v ===== *)
(** * Status widgets: NodeRunStatus.vue, Neighbors.vue, WatchOutBoundCount.vue

    The labels and colours of the node and of its neighbours, and the warning
    shown when the node has no inbound neighbour. *)

From S2P Require Import Prelude JsNum JsValue Runtime Store.
Local Open Scope Z_scope.

(** [table[key]]: the key is converted to a string; an absent one is undefined. *)
Definition index (table : list (string * string)) (key : jsval) : jsval :=
  match assoc (to_string key) table with Some v => VStr v | None => VUndef end.

(** ** components/status/NodeRunStatus.vue *)

Module NodeRunStatus.
Section Labels.
Variable t : string -> string.

Definition color : list (string * string) :=
  [ ("DEFAULT", "grey"); ("WAIT_FOR_SYNCING", "yellow accent-2"); ("SYNC_STARTED", "green accent-4");
    ("SYNC_FINISHED", "green accent-4"); ("PERSIST_FINISHED", "green accent-4") ].

Definition statusEnum : list (string * string) :=
  [ ("WAIT_FOR_SYNCING", t "node.state.WAIT_FOR_SYNCING"); ("SYNC_STARTED", t "node.state.SYNC_STARTED");
    ("SYNC_FINISHED", t "node.state.SYNC_FINISHED"); ("PERSIST_FINISHED", t "node.state.PERSIST_FINISHED") ].

Definition getServiceStatus (state : jsval) : jsval :=
  if has_bit state SERVICE_STATUS_CREATE_ID then VStr (t "node.serviceStatus.SERVICE_STATUS_CREATE_ID")
  else VUndef.

Definition getStatus (serviceStatus stateStr : jsval) : jsval :=
  js_or (js_or (index statusEnum stateStr) (getServiceStatus serviceStatus)) (VStr (t "node.state.DEFAULT")).

Definition getStatusColor (stateStr : jsval) : jsval := index color (js_or stateStr (VStr "DEFAULT")).
End Labels.
End NodeRunStatus.

(** ** components/widget/Neighbors.vue *)

Module Neighbors.
Section Labels.
Variable t : string -> string.

Definition statusEnum : list (string * string) :=
  [ ("DEFAULT", t "node.state.DEFAULT"); ("WAIT_FOR_SYNCING", t "node.state.WAIT_FOR_SYNCING");
    ("SYNC_STARTED", t "node.state.SYNC_STARTED"); ("SYNC_FINISHED", t "node.state.SYNC_FINISHED");
    ("PERSIST_FINISHED", t "node.state.PERSIST_FINISHED") ].

Definition getStatus (stateStr : jsval) : jsval :=
  js_or (index statusEnum stateStr) (VStr (t "node.state.DEFAULT")).

Definition getBound (str : jsval) : jsval :=
  index [("true", t "neighbor.OUT_BOUND"); ("false", t "neighbor.IN_BOUND")] str.
End Labels.
End Neighbors.

(** ** components/widget/WatchOutBoundCount.vue *)

Module WatchOutBoundCount.
(** Time in milliseconds; the times at which a closed warning comes back. *)
Record state : Type := mk {
  visible : bool;
  timers : list Z
}.

Definition data : state := {| visible := true; timers := [] |}.

Definition close (now : Z) (s : state) : state :=
  {| visible := false; timers := timers s ++ [now + 10000] |}.

(** The timers that are due fire. *)
Definition advance (now : Z) (s : state) : state :=
  {| visible := visible s || existsb (fun x => x <=? now) (timers s);
     timers := List.filter (fun x => now <? x) (timers s) |}.

(** The warning is rendered when the getter is exactly 0, and shown when
    [visible]. *)
Definition shown (inBoundCount : jsval) (s : state) : bool :=
  strict_eq inBoundCount (VInt 0) && visible s.
End WatchOutBoundCount.

(** ** The getter behind the warning *)

Section Lodash.
Context {L : Lodash} {LL : LodashLaws L}.

Definition inbound (v : jsval) : bool :=
  match get_prop v "isOutbound" with Ok o => negb (truthy o) | Err _ => false end.

(** A JavaScript array has fewer than 2^32 elements. *)
Definition readable (st : node_state) : Prop :=
  Forall (fun v => is_Ok (get_prop v "isOutbound") = true) (neighbors st)
  /\ Z.of_nat (length (neighbors st)) < 2 ^ 32.

Lemma filter_length_le {A} (f : A -> bool) l : (length (List.filter f l) <= length l)%nat.
Proof. induction l as [|x l IH]; cbn; [done |]. destruct (f x); cbn; lia. Qed.

Lemma inBoundCount_spec st :
  readable st ->
  inBoundCount st = Ok (match neighbors st with
                        | [] => VUndef
                        | l => VInt (Z.of_nat (length (List.filter inbound l)))
                        end).
Proof.
  intros [Hall Hlen]. unfold inBoundCount. destruct (neighbors st) as [|x l] eqn:El; [done |].
  destruct (countBy_true (x :: l)
    (fun item => o ← get_prop item "isOutbound"; Ok (negb (truthy o))) inbound) as (o & -> & Ho).
  - intros v Hv. rewrite List.Forall_forall in Hall. specialize (Hall v Hv). unfold inbound.
    by destruct (get_prop v "isOutbound").
  - bind_simpl. rewrite Ho. bind_simpl. f_equal. pose proof (filter_length_le inbound (x :: l)).
    destruct (length (List.filter inbound (x :: l))) as [|n]; [done |].
    unfold js_or. rewrite truthy_int by (unfold safe; lia).
    by destruct (Z.eqb_spec (Z.of_nat (S n)) 0); [lia |].
Qed.

(** When the warning is shown. *)
Lemma warning_shown st s :
  readable st ->
  exists c, inBoundCount st = Ok c
    /\ (WatchOutBoundCount.shown c s = true
        <-> WatchOutBoundCount.visible s = true /\ neighbors st <> []
            /\ forall v, In v (neighbors st) -> inbound v = false).
Proof.
  intros Hr. eexists. split; [by apply inBoundCount_spec |]. unfold WatchOutBoundCount.shown.
  destruct Hr as [_ Hlen]. destruct (neighbors st) as [|x l]; [cbn; split; [done | by intros (_ & ? & _)] |].
  pose proof (filter_length_le inbound (x :: l)). rewrite strict_eq_int by (unfold safe; lia).
  rewrite andb_true_iff, Z.eqb_eq. split.
  - intros [Hz Hv]. split_and!; [done.. |]. intros v Hin. destruct (inbound v) eqn:E; [| done].
    assert (In v (List.filter inbound (x :: l))) as Hf by (by apply List.filter_In).
    destruct (List.filter inbound (x :: l)); [done | cbn in Hz; lia].
  - intros (Hv & _ & Hall). split; [| done].
    destruct (List.filter inbound (x :: l)) as [|y k] eqn:E; [done |]. exfalso.
    assert (In y (List.filter inbound (x :: l))) as Hf by (rewrite E; by left).
    apply List.filter_In in Hf as [Hin Hy]. rewrite (Hall y Hin) in Hy. done.
Qed.
End Lodash.

(** ** A concrete [countBy] *)

Module ToyLodash.
Fixpoint count (l : list jsval) (f : jsval -> js bool) (yes no : Z) : js jsval :=
  match l with
  | [] => Ok (VObj ((if yes =? 0 then [] else [("true", VInt yes)])
                    ++ (if no =? 0 then [] else [("false", VInt no)])))
  | x :: l' => b ← f x; if b : bool then count l' f (yes + 1) no else count l' f yes (no + 1)
  end.

#[export] Instance lodash : Lodash := { countBy := fun l f => count l f 0 0 }.

Lemma count_true l f g yes no :
  (forall x, In x l -> f x = Ok (g x)) -> 0 <= yes ->
  exists o, count l f yes no = Ok o /\
    get_prop o "true" = Ok (let n := yes + Z.of_nat (length (List.filter g l)) in
                            if n =? 0 then VUndef else VInt n).
Proof.
  revert yes no. induction l as [|x l IH]; intros yes no Hf Hy; cbn [count].
  - eexists. split; [done |]. cbn. rewrite Z.add_0_r. destruct (yes =? 0), (no =? 0); done.
  - rewrite (Hf x) by (by left). bind_simpl. cbn [List.filter].
    destruct (g x); cbn [length].
    + destruct (IH (yes + 1) no) as (o & Ho & Hp); [intros; apply Hf; by right | lia |].
      exists o. split; [done |]. rewrite Hp. cbv zeta.
      by replace (yes + Z.of_nat (S _)) with (yes + 1 + Z.of_nat (length (List.filter g l))) by lia.
    + apply IH; [intros; apply Hf; by right | done].
Qed.

#[export] Instance lodash_laws : LodashLaws lodash.
Proof.
  constructor. intros l f g Hf. destruct (count_true l f g 0 0 Hf) as (o & Ho & Hp); [done |].
  exists o. split; [done |]. rewrite Hp. cbn [Z.add]. by destruct (length (List.filter g l)).
Qed.
End ToyLodash.
