(* ===== verification/WidgetViews.v ===== *)
(** * The templates of the widgets

    components/Balance.vue, components/status/*.vue, components/widget/*.vue and
    components/material/*.vue: the trees they render, over the scripts of
    [Widgets] and [NumberInput].  Reading a property of what the node sent may
    throw, so that some of them return [js].  What a [v-data-table] passes to
    its slots is an argument, with the documented law that the rows of a page
    are items of the table. *)

From S2P Require Import Prelude JsNum JsValue DecimalLib MathHelpers NumberInput Runtime Store Widgets Dialogs Vue.
Local Open Scope Z_scope.

Set Warnings "-register-all".

(** A property of an object of the component's own. *)
Definition own (o : jsval) (k : string) : jsval :=
  match get_prop o k with Ok v => v | Err _ => VUndef end.

(** What [v-data-table] shows of its items: the rows of the page, and the
    positions of the first and of the last one. *)
Class DataTable : Type := {
  table_page : list jsval -> jsval -> list jsval;
  table_start : list jsval -> jsval -> jsval;
  table_stop : list jsval -> jsval -> jsval;
  table_length : list jsval -> jsval -> jsval
}.

Class DataTableLaws (T : DataTable) : Prop := {
  table_page_items : forall items search, incl (table_page items search) items
}.

(** ** components/Balance.vue *)

(** [nkn_icon] is the inline image of the logo. *)
Module BalanceView.
Definition render {E} (nkn_icon balance : jsval) : vnode E :=
  El "div" [Static "class" "balance"]
    [ El "v-img" [Static "width" "20"; Flag "contain"; Static "style" "flex-grow: 0;"; Attr "src" nkn_icon] [];
      El "span" [Static "class" "ml-2"] [Txt [balance; VStr " NKN"]] ].
End BalanceView.

(** ** components/status/NodeRunStatus.vue *)

Module NodeRunStatusView.
Definition render {E} (t : string -> string) (serviceStatus nodeStatus : jsval) : js (vnode E) :=
  syncState ← get_prop nodeStatus "syncState";
  Ok (El "v-badge" [Static "color" "transparent"; Static "class" "breathe mr-4"]
    [ Slot "badge"
        [ El "v-icon" [Flag "dark"; Flag "small"; Attr "color" (NodeRunStatus.getStatusColor syncState)]
            [Txt [VStr "fa-circle"]] ];
      El "span" [] [Txt [NodeRunStatus.getStatus t serviceStatus syncState]] ]).
End NodeRunStatusView.

(** ** components/status/DetailStatus.vue *)

Module DetailStatusView.
Definition render {E} : vnode E :=
  El "v-card" [Static "min-width" "800"]
    [ El "v-card-title" [Static "class" "headline"] [Txt [VStr "Latest mining rewards"]];
      El "div" [Static "class" "divider"] [];
      El "v-card-text" [] [El "v-layout" [Flag "wrap"] []] ].
End DetailStatusView.

(** ** components/widget/Neighbors.vue *)

Module NeighborsView.
Inductive event : Type := Set_search (v : jsval).

Section Render.
Variable t : string -> string.
Abbreviation tr k := (VStr (t k)).
Context {T : DataTable}.

Definition headers : list jsval :=
  [ VObj [("text", tr "neighbor.header.ID"); ("value", VStr "id"); ("align", VStr "left"); ("sortable", VBool false)];
    VObj [("width", VStr "260px"); ("text", tr "neighbor.header.IP"); ("value", VStr "addr");
          ("align", VStr "left"); ("sortable", VBool true)];
    VObj [("width", VStr "240px"); ("text", tr "neighbor.header.STATE"); ("value", VStr "syncState");
          ("align", VStr "left"); ("sortable", VBool true)];
    VObj [("width", VStr "120px"); ("text", tr "neighbor.header.BOUND"); ("value", VStr "isOutbound");
          ("align", VStr "left"); ("sortable", VBool true)];
    VObj [("width", VStr "100px"); ("text", tr "neighbor.header.PING"); ("value", VStr "roundTripTime");
          ("align", VStr "left"); ("sortable", VBool true)] ].

(** The local data: [pagination] is not used. *)
Definition data_search : jsval := VStr "".
Definition data_pagination : jsval :=
  VObj [("descending", VBool false); ("rowsPerPage", VInt 10); ("sortBy", VStr "id")].

Definition row (item : jsval) : js (vnode event) :=
  id ← get_prop item "id";
  addr ← get_prop item "addr";
  syncState ← get_prop item "syncState";
  isOutbound ← get_prop item "isOutbound";
  roundTripTime ← get_prop item "roundTripTime";
  Ok (El "tr" [Attr "key" id]
        [ El "td" [] [Txt [id]];
          El "td" [] [Txt [addr]];
          El "td" [] [Txt [Neighbors.getStatus t syncState]];
          El "td" [] [Txt [Neighbors.getBound t isOutbound]];
          El "td" [] [Txt [roundTripTime]] ]).

Definition render (nd : node_state) (search : jsval) : js (vnode event) :=
  rows ← mapM row (table_page (neighbors nd) search);
  Ok (El "v-card" [Static "min-width" "800"]
    [ El "v-card-title" [Static "class" "headline"] [Txt [tr "neighbor.TITLE"]];
      El "div" [Static "class" "divider"] [];
      El "v-card-text" []
        [ El "v-layout" [Flag "wrap"]
            [ El "v-flex" [Flag "xs12"; Flag "sm6"; Flag "offset-sm6"]
                [ El "v-text-field" [ Model search Set_search; Static "append-icon" "search";
                        Attr "label" (tr "SEARCH"); Flag "single-line"; Flag "hide-details" ] [] ];
              El "v-flex" []
                [ El "v-data-table" [ Attr "headers" (VArr headers); Attr "items" (VArr (neighbors nd));
                        Attr "sort-by" (VArr [VStr "addr"]); Attr "sort-desc" (VArr [VBool false]);
                        Attr "search" search; Attr "no-data-text" (tr "NO_DATA");
                        Attr "footer-props" (VObj [("itemsPerPageText", tr "PER_PAGE_TEXT")]) ]
                    [ Slot "headerCell"
                        (map (fun header => El "span" [ Static "class" "subheading font-weight-light";
                                                        Attr "v-text" (own header "text") ] []) headers);
                      Slot "body" [El "tbody" [] rows];
                      Slot "page-text"
                        [ Txt [ table_start (neighbors nd) search; VStr " - "; table_stop (neighbors nd) search;
                                VStr " of "; table_length (neighbors nd) search ] ] ] ] ] ] ]).
End Render.
End NeighborsView.

(** ** components/widget/WatchOutBoundCount.vue *)

Module WatchOutBoundCountView.
Import WatchOutBoundCount.
Inductive event : Type :=
| Click_close
| Set_visible (v : jsval).

Definition render (t : string -> string) (inBoundCount : jsval) (s : state) : vnode event :=
  v_if (strict_eq inBoundCount (VInt 0))
    (El "v-snackbar" [ Model (VBool (visible s)) Set_visible; Static "color" "warning"; Flag "multi-line";
          Attr "timeout" (VInt 0); Flag "right" ]
      [ Txt [VStr (t "neighbor.WARNING"); VStr " "];
        El "v-btn" [Flag "dark"; Flag "text"; On "click" (fun _ => Click_close)] [Txt [VStr "Close"]] ]).

Definition handle (now : Z) (s : state) (e : event) : state :=
  match e with
  | Click_close => close now s
  | Set_visible v => {| visible := truthy v; timers := timers s |}
  end.
End WatchOutBoundCountView.

(** ** components/widget/NumberInput.vue *)

Module NumberInputView.
Inductive event : Type :=
| Input_text (v : jsval)
| Set_val (v : jsval)
| Slider_change
| Click_minus
| Click_plus.

Section Render.
Context {D : DecimalJS}.
(** [$t] with the parameters of a message. *)
Variable tp : string -> list (string * jsval) -> string.

(** The rule with its message; a rule that throws does not validate. *)
Definition rule_message (p : props) (v : jsval) : option string :=
  match rule_number p v with
  | Ok Valid => None
  | Ok (Invalid key params) => Some (tp key params)
  | Err _ => Some ""
  end.

Definition render (p : props) (label suffix : jsval) (slots : string -> list (vnode event)) (s : input_state)
    : vnode event :=
  El "v-layout" []
    [ El "v-flex" [Flag "md4"]
        [ El "v-text-field" [ Attr "label" label; Attr "value" (p_value p); Attr "step" (VNum (p_step p));
                On "input" Input_text; Static "type" "text"; Attr "suffix" suffix;
                Flag "persistent-hint"; Rules [rule_message p]; Attr "error" (VBool (i_numberError s));
                Attr "error-messages" (VStr (i_numberErrorMessage s)) ]
            [Slot "append" (slots "append-icon"); Slot "append-outer" (slots "append-outer")] ];
      El "v-flex" [Flag "md8"; Flag "d-flex"; Flag "align-end"]
        [ El "v-slider" [ Model (i_val s) Set_val; On "change" (fun _ => Slider_change);
                Attr "color" (VStr (color p s)); Static "track-color" "grey"; Flag "always-dirty";
                Attr "min" (VNum (p_min p)); Attr "max" (VNum (p_max p)); Attr "step" (VNum (p_step p)) ]
            [ Slot "prepend"
                [ El "v-icon" [Attr "color" (VStr (color p s)); On "click" (fun _ => Click_minus)]
                    [Txt [VStr "mdi-minus"]] ];
              Slot "append"
                [ El "v-icon" [Attr "color" (VStr (color p s)); On "click" (fun _ => Click_plus)]
                    [Txt [VStr "mdi-plus"]] ] ] ] ].

(** What the listeners do. *)
Definition handle (p : props) (s : input_state) (e : event) : js (input_state * list jsval) :=
  match e with
  | Input_text v => Ok (onInput p s v)
  | Set_val v => Ok (set_val s v, [])
  | Slider_change => Ok (onValueChange s)
  | Click_minus => decrement p s
  | Click_plus => increment p s
  end.
End Render.
End NumberInputView.

(** ** components/widget/LastMiningRewards.vue, with its placeholder data *)

Module LastMiningRewardsView.
Inductive event : Type :=
| Set_search (v : jsval)
| Set_pagination (v : jsval).

Definition header (text value : string) : jsval :=
  VObj [("text", VStr text); ("align", VStr "left"); ("sortable", VBool false); ("value", VStr value)].

Definition headers : list jsval :=
  [header "Transaction" "name"; header "Value" "value"; header "Height" "height"; header "Time" "time"].

Definition dessert (transaction : string) (value : Z) (height : num) (time : Z) : jsval :=
  VObj [("transaction", VStr transaction); ("value", VInt value); ("height", VNum height); ("time", VInt time)].

Definition desserts : list jsval :=
  [ dessert "Frozen Yogurt" 159 (lit 60 (-1)) 24;
    dessert "Ice cream sandwich" 237 (lit 90 (-1)) 37;
    dessert "Eclair" 262 (lit 160 (-1)) 23;
    dessert "Cupcake" 305 (lit 37 (-1)) 67;
    dessert "Gingerbread" 356 (lit 160 (-1)) 49;
    dessert "Jelly bean" 375 (lit 0 (-1)) 94;
    dessert "Lollipop" 392 (lit 2 (-1)) 98;
    dessert "Honeycomb" 408 (lit 32 (-1)) 87;
    dessert "Donut" 452 (lit 250 (-1)) 51;
    dessert "KitKat" 518 (lit 260 (-1)) 65 ].

Definition data_search : jsval := VStr "".
Definition data_pagination : jsval := VObj [("descending", VBool false); ("rowsPerPage", VInt 10)].

Section Render.
Context {T : DataTable}.

(** The slot [items] for one item; the items are the component's own. *)
Definition cells (item : jsval) : list (vnode event) :=
  [ El "td" [] [Txt [own item "transaction"]];
    El "td" [] [Txt [own item "value"]];
    El "td" [] [Txt [own item "height"]];
    El "td" [] [Txt [own item "time"]] ].

Definition render (search pagination : jsval) : vnode event :=
  El "v-card" [Static "min-width" "800"]
    [ El "v-card-title" [Static "class" "headline"] [Txt [VStr "Latest mining rewards"]];
      El "div" [Static "class" "divider"] [];
      El "v-card-text" []
        [ El "v-layout" [Flag "wrap"]
            [ El "v-flex" [Flag "xs12"; Flag "sm6"; Flag "offset-sm6"]
                [ El "v-text-field" [ Model search Set_search; Static "append-icon" "search";
                        Static "label" "Search"; Flag "single-line"; Flag "hide-details" ] [] ];
              El "v-flex" []
                [ El "v-data-table" [ Attr "headers" (VArr headers); Attr "items" (VArr desserts);
                        Attr "search" search; Static "prev-icon" "chevron_left";
                        Static "next-icon" "chevron_right"; Static "sort-icon" "arrow_upward";
                        Attr "rows-per-page-items" (VArr []); Attr "pagination" pagination;
                        On "update:pagination" Set_pagination ]
                    [ Slot "headerCell"
                        (map (fun header => El "span" [ Static "class" "subheading font-weight-light";
                                                        Attr "v-text" (own header "text") ] []) headers);
                      Slot "items" (flat_map cells (table_page desserts search));
                      Slot "pageText"
                        [ Txt [ table_start desserts search; VStr " - "; table_stop desserts search;
                                VStr " of "; table_length desserts search ] ] ] ] ] ] ].
End Render.
End LastMiningRewardsView.

(** ** components/material: cards and notifications

    They pass what the parent gives them ([$attrs], [$listeners], [$slots]) to
    a card or an alert. *)

Module CardView.
Record props : Type := mk_props {
  c_color : jsval;
  c_elevation : jsval;
  c_inline : bool;
  c_fullWidth : bool;
  c_offset : jsval;
  c_title : jsval;
  c_text : jsval
}.

Definition default_props : props := {|
  c_color := VStr "secondary"; c_elevation := VInt 10; c_inline := false; c_fullWidth := false;
  c_offset := VInt 24; c_title := VUndef; c_text := VUndef
|}.

Section Render.
Context {E : Type}.
Variable p : props.
Variable slots : string -> list (vnode E).

Definition hasOffset : bool :=
  has_slot "header" slots || has_slot "offset" slots || truthy (c_title p) || truthy (c_text p).

Definition styles : jsval :=
  if negb hasOffset then VNull
  else VObj [ ("marginBottom", VStr (to_string (c_offset p) +:+ "px"));
              ("marginTop", VStr (num_str (num_mul (to_number (c_offset p)) (num_of_Z 2)) +:+ "px")) ].

Definition render (attrs listeners : list (attr E)) : vnode E :=
  El "v-card" (attrs ++ [Attr "style" styles] ++ listeners)
    [ v_if hasOffset
        (El "helper-offset" [ Attr "inline" (VBool (c_inline p)); Attr "full-width" (VBool (c_fullWidth p));
              Attr "offset" (c_offset p) ]
          (if negb (has_slot "offset" slots) then
             [ El "v-card" [ Attr "color" (c_color p); Attr "class" (js_add (VStr "elevation-") (c_elevation p));
                     Static "class" "v-card--material__header"; Flag "dark" ]
                 (if negb (truthy (c_title p)) && negb (truthy (c_text p)) then slots "header"
                  else [ El "span" []
                           [ El "h4" [Static "class" "title font-weight-light mb-2"; Attr "v-text" (c_title p)] [];
                             El "p" [Static "class" "category font-weight-thin"; Attr "v-text" (c_text p)] [] ] ]) ]
           else slots "offset"));
      El "v-card-text" [] (slots "default");
      v_if (has_slot "actions" slots) (El "v-divider" [Static "class" "mx-3"] []);
      v_if (has_slot "actions" slots) (El "v-card-actions" [] (slots "actions")) ].
End Render.
End CardView.

Module ChartCardView.
Record props : Type := mk_props {
  ch_data : jsval;
  ch_eventHandlers : jsval;
  ch_options : jsval;
  ch_ratio : jsval;
  ch_responsiveOptions : jsval;
  ch_type : jsval
}.

(** [type] is required; its validator. *)
Definition default_props (type : jsval) : props := {|
  ch_data := VObj []; ch_eventHandlers := VArr []; ch_options := VObj []; ch_ratio := VUndef;
  ch_responsiveOptions := VArr []; ch_type := type
|}.
Definition type_valid (v : jsval) : bool := existsb (fun s => strict_eq v (VStr s)) ["Bar"; "Line"; "Pie"].

Definition render {E} (p : props) (slots : string -> list (vnode E)) (attrs listeners : list (attr E)) : vnode E :=
  El "material-card" (attrs ++ [Static "class" "v-card--material-chart"] ++ listeners)
    ([ Slot "header"
         [ El "chartist" [ Attr "data" (ch_data p); Attr "event-handlers" (ch_eventHandlers p);
                 Attr "options" (ch_options p); Attr "ratio" (ch_ratio p);
                 Attr "responsive-options" (ch_responsiveOptions p); Attr "type" (ch_type p) ] [] ] ] ++
     slots "default" ++
     [Slot "actions" (slots "actions")]).
End ChartCardView.

Module StatsCardView.
Import CardView.

(** The props of the card, with [title] overridden. *)
Record props : Type := mk_props {
  st_card : CardView.props;
  st_icon : jsval;
  st_subIcon : jsval;
  st_subIconColor : jsval;
  st_subTextColor : jsval;
  st_subText : jsval;
  st_title : jsval;
  st_value : jsval;
  st_smallValue : jsval
}.

Definition default_props (icon : jsval) : props := {|
  st_card := CardView.default_props; st_icon := icon; st_subIcon := VUndef; st_subIconColor := VUndef;
  st_subTextColor := VUndef; st_subText := VUndef; st_title := VUndef; st_value := VUndef;
  st_smallValue := VUndef
|}.

Definition render {E} (p : props) (attrs listeners : list (attr E)) : vnode E :=
  El "material-card" (attrs ++ [Static "class" "v-card--material-stats"] ++ listeners)
    [ Slot "offset"
        [ El "v-card" [ Attr "class" (js_add (VStr "elevation-") (c_elevation (st_card p)));
                Attr "color" (c_color (st_card p)); Static "class" "pa-4"; Flag "dark" ]
            [El "v-icon" [Static "size" "40"] [Txt [st_icon p]]] ];
      El "div" [Static "class" "text-xs-right"]
        [ El "p" [Static "class" "category grey--text font-weight-light"; Attr "v-text" (st_title p)] [];
          El "h3" [Static "class" "title display-1 font-weight-light"]
            [Txt [st_value p; VStr " "]; El "small" [] [Txt [st_smallValue p]]] ];
      Slot "actions"
        [ El "v-icon" [Attr "color" (st_subIconColor p); Static "size" "20"; Static "class" "mr-2"]
            [Txt [st_subIcon p]];
          El "span" [ Attr "class" (st_subTextColor p); Static "class" "caption font-weight-light";
                Attr "v-text" (st_subText p) ] [] ] ].
End StatsCardView.

Module NotificationView.
Definition default_elevation : jsval := VInt 6.
Definition default_value : bool := true.

Definition render {E} (elevation : jsval) (value : bool) (slots : string -> list (vnode E))
    (attrs listeners : list (attr E)) : vnode E :=
  El "v-alert" (attrs ++ [ Attr "class" (VArr [js_add (VStr "elevation-") elevation]); Attr "value" (VBool value);
                           Static "class" "v-alert--notification" ] ++ listeners)
    (slots "default").
End NotificationView.

(** ** Theorems *)

Section Theorems.
Variable t : string -> string.

(** The texts of the cells of the rows of a tree. *)
Definition row_texts {E} (v : vnode E) : list (list (list jsval)) := map txts (by_tag "tr" v).

(** What the column of a header shows of an item. *)
Definition column (header item : jsval) : jsval :=
  let field := to_string (own header "value") in
  let v := own item field in
  if String.eqb field "syncState" then Neighbors.getStatus t v
  else if String.eqb field "isOutbound" then Neighbors.getBound t v
  else v.

Lemma row_columns item :
  is_Ok (get_prop item "id") = true ->
  exists v, NeighborsView.row t item = Ok v
    /\ row_texts v = [map (fun h => [column h item]) (NeighborsView.headers t)].
Proof.
  intros H. unfold NeighborsView.row.
  assert (forall k, get_prop item k = Ok (own item k)) as Hg.
  { intros k. unfold own. by destruct item. }
  rewrite !Hg. bind_simpl. eexists. split; [done |]. reflexivity.
Qed.

Lemma rows_columns l :
  Forall (fun item => is_Ok (get_prop item "id") = true) l ->
  exists vs, mapM (NeighborsView.row t) l = Ok vs
    /\ flat_map row_texts vs = map (fun item => map (fun h => [column h item]) (NeighborsView.headers t)) l.
Proof.
  induction 1 as [|item l Hi Hl IH]; [by exists [] |].
  destruct (row_columns item Hi) as (v & Ev & Hv), IH as (vs & Evs & Hvs).
  exists (v :: vs). cbn [mapM]. rewrite Ev, Evs. split; [done |].
  cbn [flat_map map]. by rewrite Hv, Hvs.
Qed.

Lemma row_texts_flat {E} (l : list (vnode E)) :
  flat_map row_texts l = map txts (flat_map (by_tag "tr") l).
Proof. induction l as [|v l IH]; [done |]. cbn [flat_map]. by rewrite map_app, <- IH. Qed.

Context {T : DataTable} {TL : DataTableLaws T}.

(** The neighbour table shows one row per neighbour of the page, and under
    each header the field the header sorts and searches by, with the state and
    the direction translated; it renders for whatever list of objects the node
    sends. *)
Theorem neighbors_table nd search :
  Forall (fun item => is_Ok (get_prop item "id") = true) (neighbors nd) ->
  exists v, NeighborsView.render t nd search = Ok v
    /\ row_texts v = map (fun item => map (fun h => [column h item]) (NeighborsView.headers t))
                         (table_page (neighbors nd) search).
Proof.
  intros Hall. destruct (rows_columns (table_page (neighbors nd) search)) as (vs & Evs & Hvs).
  { rewrite List.Forall_forall in *. intros x Hx. apply Hall. by apply (table_page_items _ search). }
  unfold NeighborsView.render. rewrite Evs. eexists. split; [done |]. rewrite <- Hvs, row_texts_flat.
  unfold row_texts. f_equal. cbn. by rewrite ?app_nil_r.
Qed.

Context {L : Lodash} {LL : LodashLaws L} {V : Vuetify} {VL : VuetifyLaws V}.

(** The warning is on the screen exactly when it was not dismissed, there
    are neighbours and every one of them is outbound: never before the first
    answer, and not with a single inbound neighbour. *)
Theorem warning_on_screen st s :
  readable st ->
  exists c, inBoundCount st = Ok c
    /\ (screen (WatchOutBoundCountView.render t c s) <> Empty
        <-> WatchOutBoundCount.visible s = true /\ neighbors st <> []
            /\ forall v, In v (neighbors st) -> inbound v = false).
Proof.
  intros Hr. destruct (warning_shown st s Hr) as (c & Hc & Hs). exists c. split; [done |].
  rewrite <- Hs. unfold WatchOutBoundCount.shown, WatchOutBoundCountView.render, v_if.
  destruct (strict_eq c (VInt 0)); cbn [andb]; [| split; [by intros ? | done]].
  screen_simpl. by destruct (WatchOutBoundCount.visible s).
Qed.
End Theorems.

(** ** The theorems at concrete inputs *)

Module WidgetViewSamples.
Import ToyLodash ToyVuetify.

(** A table that shows every item on one page. *)
#[export] Instance table : DataTable := {
  table_page := fun items _ => items;
  table_start := fun _ _ => VInt 1;
  table_stop := fun items _ => VInt (Z.of_nat (length items));
  table_length := fun items _ => VInt (Z.of_nat (length items))
}.
#[export] Instance table_laws : DataTableLaws table.
Proof. constructor. intros items search x Hx. exact Hx. Qed.

Definition tr (key : string) : string := key.
Definition outbound_only : node_state :=
  {| nodeStatus := VObj [];
     neighbors := [VObj [("id", VStr "a1"); ("isOutbound", VBool true)]; VObj [("isOutbound", VBool true)]] |}.

Lemma neighbors_table_witness :
  exists v, NeighborsView.render tr outbound_only (VStr "") = Ok v
    /\ row_texts v = map (fun item => map (fun h => [column tr h item]) (NeighborsView.headers tr))
                         (table_page (neighbors outbound_only) (VStr "")).
Proof. apply (neighbors_table tr outbound_only (VStr "")). repeat constructor. Defined.

Lemma warning_on_screen_witness :
  exists c, inBoundCount outbound_only = Ok c
    /\ (screen (WatchOutBoundCountView.render tr c WatchOutBoundCount.data) <> Empty
        <-> WatchOutBoundCount.visible WatchOutBoundCount.data = true /\ neighbors outbound_only <> []
            /\ forall v, In v (neighbors outbound_only) -> inbound v = false).
Proof.
  apply (warning_on_screen tr outbound_only WatchOutBoundCount.data). split; [repeat constructor | cbn; lia].
Defined.
End WidgetViewSamples.
