(* ===== verification/Locales.v ===== *)
(** * The messages: locales/en and locales/zh

    The message tables of the two locales, how a key is resolved in them, and
    that the components never show a raw key: the tables have the same keys
    with the same placeholders, and the keys the components build exist. *)

From S2P Require Import Prelude JsNum JsValue DecimalLib MathHelpers NumberInput Runtime Store Widgets.
Local Open Scope Z_scope.

Set Warnings "-register-all".

(** A message, or a group of messages. *)
Inductive message : Type :=
| Text (s : string)
| Group (l : list (string * message)).

Module En.
(** locales/en/menu.js *)
Definition menu : list (string * message) := [
  ("NODE_STATUS", Text "Node status");
  ("OVERVIEW", Text "Neighbors");
  ("SETTINGS", Text "settings") ].

(** locales/en/node.js *)
Definition node : list (string * message) := [
  ("state", Group [
    ("DEFAULT", Text "not started");
    ("WAIT_FOR_SYNCING", Text "wait for chain db syncing");
    ("SYNC_STARTED", Text "chain db sync started");
    ("SYNC_FINISHED", Text "chain db sync finished");
    ("PERSIST_FINISHED", Text "mining") ]);
  ("serviceStatus", Group [
    ("SERVICE_STATUS_CREATE_ID", Text "creating ID") ]) ].

(** locales/en/settings.js *)
Definition settings : list (string * message) := [
  ("TITLE", Text "Settings");
  ("RESTART_NKN", Text "Restart NKN.");
  ("BENEFICIARY_TITLE", Text "Input a beneficiary address for auto transfer.");
  ("BENEFICIARY_HINT", Text "New amount will auto transfer to this address.");
  ("BENEFICIARY_REQUIRED", Text "Beneficiary is required");
  ("BENEFICIARY_ERROR", Text "Invalid Beneficiary.");
  ("BENEFICIARY_WARING", Text "Need restart NKN for enabled beneficiary address. (New beneficiary address: {beneficiaryAddr})");
  ("CONFIG_TITLE", Text "Node configure");
  ("UPDATE_CONFIG_SUCCESS", Text "Update node configure success.");
  ("UPDATE_CONFIG_ERROR", Text "Update node configure error.") ].

(** locales/en/neighbor.js *)
Definition neighbor : list (string * message) := [
  ("TITLE", Text "Neighbors");
  ("WARNING", Text "Warning: Local node has no inbound neighbor, it's possible that local node is unreachable from outside, e.g. behind firewall or NAT.");
  ("OUT_BOUND", Text "out");
  ("IN_BOUND", Text "in");
  ("header", Group [
    ("ID", Text "ID");
    ("IP", Text "IP");
    ("STATE", Text "State");
    ("BOUND", Text "Direction");
    ("PING", Text "Ping") ]) ].

(** locales/en/config.js *)
Definition config : list (string * message) := [
  ("Register_ID_Txn_Fee", Text "Generate ID txn fee");
  ("Low_Fee_Txn_Size_Per_Block", Text "Low fee txn size per block");
  ("Num_Low_Fee_Txn_Per_Block", Text "Num low fee txn per block");
  ("Low_Txn_Fee", Text "Low txn fee");
  ("Low_Txn_Fee_Per_Size", Text "Low txn fee per byte") ].

(** locales/en/tooltip.js *)
Definition tooltip : list (string * message) := [
  ("BENEFICIARY_TOOLTIP", Text "Mining rewards will be deposited to this address.");
  ("Register_ID_Txn_Fee_TOOLTIP", Text "Generate ID transaction fee.");
  ("Low_Fee_Txn_Size_Per_Block_TOOLTIP", Text "Total transaction size per block of low fee transactions.");
  ("Num_Low_Fee_Txn_Per_Block_TOOLTIP", Text "The number of low fee transactions per block.");
  ("Low_Txn_Fee_TOOLTIP", Text "Transaction fee threshold of low fee transactions.");
  ("Low_Txn_Fee_Per_Size_TOOLTIP", Text "Transaction fee per byte threshold of low fee transactions.") ].

(** locales/en/index.js *)
Definition index : list (string * message) := [
  ("language", Text "English");
  ("menu", Group menu);
  ("node", Group node);
  ("settings", Group settings);
  ("neighbor", Group neighbor);
  ("config", Group config);
  ("tooltip", Group tooltip);
  ("LOADING", Text "loading");
  ("SEARCH", Text "Search");
  ("NEXT", Text "Next");
  ("CLOSE", Text "Close");
  ("CANCEL", Text "Cancel");
  ("RESTART", Text "Restart");
  ("START", Text "Start");
  ("STOP", Text "Stop");
  ("SUBMIT", Text "Submit");
  ("RESET", Text "Reset");
  ("BENEFICIARY", Text "Beneficiary");
  ("BALANCE", Text "Balance");
  ("WALLET_ADDRESS", Text "Wallet address");
  ("PUBLIC_KEY", Text "Public key");
  ("SECRET_SEED", Text "Secret seed");
  ("PASSWORD", Text "Password");
  ("PASSWORD_ERROR", Text "Invalid password.");
  ("PASSWORD_REQUIRED", Text "Password is required.");
  ("PASSWORD_HINT", Text "Please enter wallet password.");
  ("FIELD_REQUIRED", Text "This field is required.");
  ("NUMBER_FIELD_ERROR", Text "This field must be a number.");
  ("POSITIVE_NUMBER_FIELD_ERROR", Text "This field cannot be negative.");
  ("NUMBER_MIN_ERROR", Text "This field must be greater than {min}");
  ("NUMBER_MAX_ERROR", Text "This field must be less than {max}");
  ("NUMBER_DP_ERROR", Text "The number of decimal places cannot exceed {dp} digits");
  ("PASSWORD_CONFIRM", Text "Please enter password again");
  ("PASSWORD_CONFIRM_ERROR", Text "Password does not match.");
  ("PASSWORD_CONFIRM_REQUIRED", Text "Please enter password again.");
  ("PASSWORD_CONFIRM_HINT", Text "Please enter password confirm.");
  ("WALLET_CREATE", Text "Create wallet");
  ("WALLET_OPEN", Text "Open wallet");
  ("CREATE", Text "Create");
  ("OPEN", Text "Open");
  ("WALLET_DOWNLOAD", Text "Download wallet");
  ("WALLET_UPLOAD", Text "Upload wallet");
  ("NO_DATA", Text "No data available");
  ("PER_PAGE_TEXT", Text "Rows per pages");
  ("footer", Group [
    ("TITLE", Text "NKN: Network Infra for Decentralized Internet");
    ("TEXT", Text "NKN is the new kind of P2P network connectivity protocol & ecosystem powered by a novel public blockchain. We use economic incentives to motivate Internet users to share network connection and utilize unused bandwidth. NKN's open, efficient, and robust networking infrastructure enables application developers to build the decentralized Internet so everyone can enjoy secure, low cost, and universally accessible connectivity.") ]);
  ("node_status", Group [
    ("TITLE", Text "Node status");
    ("NODE_STATUS", Text "Node status");
    ("NODE_VERSION", Text "Node version");
    ("ID", Text "ID");
    ("RELAY_MESSAGE_COUNT", Text "Message relayed by node");
    ("HEIGHT", Text "NKN node block height");
    ("BENEFICIARY_ADDR", Text "Beneficiary address") ]);
  ("current_wallet_status", Group [
    ("TITLE", Text "Current wallet status") ]) ].
End En.

Module Zh.
(** locales/zh/menu.js *)
Definition menu : list (string * message) := [
  ("NODE_STATUS", Text "节点状态");
  ("OVERVIEW", Text "邻居");
  ("SETTINGS", Text "设置") ].

(** locales/zh/node.js *)
Definition node : list (string * message) := [
  ("state", Group [
    ("DEFAULT", Text "等待运行");
    ("WAIT_FOR_SYNCING", Text "等待账本同步");
    ("SYNC_STARTED", Text "账本开始同步");
    ("SYNC_FINISHED", Text "账本同步完成");
    ("PERSIST_FINISHED", Text "运行中") ]);
  ("serviceStatus", Group [
    ("SERVICE_STATUS_CREATE_ID", Text "正在创建ID") ]) ].

(** locales/zh/settings.js *)
Definition settings : list (string * message) := [
  ("TITLE", Text "设置");
  ("RESTART_NKN", Text "重启NKN.");
  ("BENEFICIARY_TITLE", Text "输入受益人地址开启自动转账.");
  ("BENEFICIARY_HINT", Text "新的收益会自动转到这个地址.");
  ("BENEFICIARY_REQUIRED", Text "受益人地址不能为空.");
  ("BENEFICIARY_ERROR", Text "无效的收益人地址.");
  ("BENEFICIARY_WARING", Text "需要重启NKN来启用受益人地址. (新的受益人地址: {beneficiaryAddr})");
  ("CONFIG_TITLE", Text "节点配置");
  ("UPDATE_CONFIG_SUCCESS", Text "修改节点配置成功.");
  ("UPDATE_CONFIG_ERROR", Text "修改节点配置失败.") ].

(** locales/zh/neighbor.js *)
Definition neighbor : list (string * message) := [
  ("TITLE", Text "邻居");
  ("WARNING", Text "警告：节点没有入向邻居，外部节点可能无法访问。请检查路由器或者设备的防火墙设置。");
  ("OUT_BOUND", Text "出向");
  ("IN_BOUND", Text "入向");
  ("header", Group [
    ("ID", Text "ID");
    ("IP", Text "IP");
    ("STATE", Text "状态");
    ("BOUND", Text "连接方向");
    ("PING", Text "Ping") ]) ].

(** locales/zh/config.js *)
Definition config : list (string * message) := [
  ("Register_ID_Txn_Fee", Text "注册ID交易费");
  ("Low_Fee_Txn_Size_Per_Block", Text "低费交易大小");
  ("Num_Low_Fee_Txn_Per_Block", Text "低费交易数量");
  ("Low_Txn_Fee", Text "低费交易费");
  ("Low_Txn_Fee_Per_Size", Text "低费交易每 byte 交易费") ].

(** locales/zh/tooltip.js *)
Definition tooltip : list (string * message) := [
  ("BENEFICIARY_TOOLTIP", Text "挖矿收益会发放到这个地址.");
  ("Register_ID_Txn_Fee_TOOLTIP", Text "注册ID交易费.");
  ("Low_Fee_Txn_Size_Per_Block_TOOLTIP", Text "每个区块打包的低费交易总大小.");
  ("Num_Low_Fee_Txn_Per_Block_TOOLTIP", Text "每个区块打包的低费交易数量.");
  ("Low_Txn_Fee_TOOLTIP", Text "低费交易的交易费阈值.");
  ("Low_Txn_Fee_Per_Size_TOOLTIP", Text "低费交易的每 byte 交易费阈值.") ].

(** locales/zh/index.js *)
Definition index : list (string * message) := [
  ("language", Text "简体中文");
  ("menu", Group menu);
  ("node", Group node);
  ("settings", Group settings);
  ("neighbor", Group neighbor);
  ("config", Group config);
  ("tooltip", Group tooltip);
  ("LOADING", Text "加载中");
  ("SEARCH", Text "搜索");
  ("NEXT", Text "下一步");
  ("CLOSE", Text "关闭");
  ("CANCEL", Text "取消");
  ("RESTART", Text "重启");
  ("START", Text "开始");
  ("STOP", Text "停止");
  ("SUBMIT", Text "提交");
  ("RESET", Text "重置");
  ("BENEFICIARY", Text "受益人");
  ("BALANCE", Text "余额");
  ("WALLET_ADDRESS", Text "钱包地址");
  ("PUBLIC_KEY", Text "公钥");
  ("SECRET_SEED", Text "私钥种子");
  ("PASSWORD", Text "密码");
  ("PASSWORD_ERROR", Text "无效的密码.");
  ("PASSWORD_REQUIRED", Text "密码不能为空.");
  ("PASSWORD_HINT", Text "请输入钱包密码.");
  ("FIELD_REQUIRED", Text "该字段不能为空.");
  ("NUMBER_FIELD_ERROR", Text "该字段必须是数字");
  ("POSITIVE_NUMBER_FIELD_ERROR", Text "该字段不能为负数");
  ("NUMBER_MIN_ERROR", Text "该字段必须大于 {min}");
  ("NUMBER_MAX_ERROR", Text "该字段必须小于 {max}");
  ("NUMBER_DP_ERROR", Text "小数位数不能超过 {dp} 位");
  ("PASSWORD_CONFIRM", Text "确认密码");
  ("PASSWORD_CONFIRM_ERROR", Text "两次密码不一致.");
  ("PASSWORD_CONFIRM_REQUIRED", Text "确认密码不能为空.");
  ("PASSWORD_CONFIRM_HINT", Text "请再次输入密码.");
  ("WALLET_CREATE", Text "创建钱包");
  ("WALLET_OPEN", Text "打开钱包");
  ("CREATE", Text "创建");
  ("OPEN", Text "打开");
  ("WALLET_DOWNLOAD", Text "下载钱包");
  ("WALLET_UPLOAD", Text "上传钱包");
  ("NO_DATA", Text "没有数据");
  ("PER_PAGE_TEXT", Text "每页数量");
  ("footer", Group [
    ("TITLE", Text "NKN：新一代互联网的网络基础设施");
    ("TEXT", Text "NKN是区块链技术驱动的一种开放、去中心化的新型网络。NKN倡导用户共享网络资源，鼓励大家构建人人为我，我为人人的共建共享对等网络，在让共建者因协助数据传输而获得经济回报的同时为开发者提供一个开放，便捷，高效和安全的网络平台，让所有人都能体验更好的网络应用和服务。") ]);
  ("node_status", Group [
    ("TITLE", Text "节点状态");
    ("NODE_STATUS", Text "节点状态");
    ("NODE_VERSION", Text "节点版本");
    ("ID", Text "ID");
    ("RELAY_MESSAGE_COUNT", Text "节点转发消息数量");
    ("HEIGHT", Text "NKN节点区块高度");
    ("BENEFICIARY_ADDR", Text "受益人地址") ]);
  ("current_wallet_status", Group [
    ("TITLE", Text "运行中的钱包状态") ]) ].
End Zh.

(** ** Resolving a key *)

(** The part of a key before its first dot, and what follows it. *)
Fixpoint split_key (k : string) : string * option string :=
  match k with
  | EmptyString => ("", None)
  | String c r =>
      if Ascii.eqb c "." then ("", Some r)
      else let '(h, rest) := split_key r in (String c h, rest)
  end.

(** Follow a dotted key; the fuel is the depth of the table. *)
Fixpoint lookup_key (fuel : nat) (l : list (string * message)) (k : string) : option string :=
  match fuel with
  | O => None
  | S f =>
      let '(h, rest) := split_key k in
      match assoc h l, rest with
      | Some (Text s), None => Some s
      | Some (Group l'), Some r => lookup_key f l' r
      | _, _ => None
      end
  end.

Inductive locale : Type := LEn | LZh.
Definition messages (loc : locale) : list (string * message) :=
  match loc with LEn => En.index | LZh => Zh.index end.
Definition resolve (loc : locale) (k : string) : option string := lookup_key 3 (messages loc) k.

(** [$t] of vue-i18n, configured without a fallback locale: the text of the
    locale, or the key itself. *)
Definition translate (loc : locale) (k : string) : string := default k (resolve loc k).

(** The texts of a table with their full keys. *)
Fixpoint texts_of (m : message) (pre : string) : list (string * string) :=
  match m with
  | Text s => [(pre, s)]
  | Group l =>
      (fix go l := match l with
                   | [] => []
                   | (k, x) :: l' =>
                       texts_of x (if String.eqb pre "" then k else (pre +:+ "." +:+ k)%string) ++ go l'
                   end) l
  end.
Definition texts (loc : locale) : list (string * string) := texts_of (Group (messages loc)) "".

(** The names between braces in a text, in order. *)
Fixpoint placeholders_go (s : string) (cur : option string) : list string :=
  match s with
  | EmptyString => []
  | String c r =>
      match cur with
      | None => placeholders_go r (if Ascii.eqb c "{" then Some "" else None)
      | Some name =>
          if Ascii.eqb c "}" then name :: placeholders_go r None
          else placeholders_go r (Some (name +:+ String c "")%string)
      end
  end.
Definition placeholders (s : string) : list string := placeholders_go s None.

(** ** Theorems *)

(** Every text of [a] has a counterpart in [b] with the same placeholders. *)
Definition covers (a b : locale) : bool :=
  forallb (fun ks => match resolve b ks.1 with
                     | Some s => bool_decide (placeholders s = placeholders ks.2)
                     | None => false
                     end) (texts a).

Lemma covers_spec a b k s :
  covers a b = true -> In (k, s) (texts a) ->
  exists s', resolve b k = Some s' /\ placeholders s' = placeholders s.
Proof.
  unfold covers. rewrite forallb_forall. intros H Hin. specialize (H (k, s) Hin).
  cbn [fst snd] in H. destruct (resolve b k) as [s'|]; [| done]. apply bool_decide_eq_true in H. by exists s'.
Qed.

(** The two locales have the same messages: every text of one has a text
    in the other under the same key, with the same placeholders. *)
Theorem locales_agree a b k s :
  In (k, s) (texts a) -> exists s', resolve b k = Some s' /\ placeholders s' = placeholders s.
Proof. apply covers_spec. destruct a, b; vm_compute; reflexivity. Qed.

(** The messages of the rule of the number field, with their parameters. *)
Definition rule_keys : list (string * list string) :=
  [ ("NUMBER_FIELD_ERROR", []); ("POSITIVE_NUMBER_FIELD_ERROR", []); ("NUMBER_MIN_ERROR", ["min"]);
    ("NUMBER_MAX_ERROR", ["max"]); ("NUMBER_DP_ERROR", ["dp"]) ].

(** Every message the number field can show exists in every locale, and
    its placeholders are the parameters the field passes. *)
Theorem rule_messages_complete {D : DecimalJS} p v key params loc :
  rule_number p v = Ok (Invalid key params) ->
  exists s, resolve loc key = Some s /\ placeholders s = map fst params.
Proof.
  unfold rule_number. intros H.
  assert (In (key, map fst params) rule_keys) as Hin.
  { repeat match type of H with
    | context [if ?b then _ else _] => destruct b
    | (_ ← _; _) = _ => apply bind_Ok in H as (? & _ & H)
    end; try discriminate H; injection H as <- <-; cbn; tauto. }
  assert (forallb (fun kp => match resolve loc kp.1 with
                             | Some s => bool_decide (placeholders s = kp.2) | None => false end) rule_keys
          = true) as Hall by (destruct loc; vm_compute; reflexivity).
  rewrite forallb_forall in Hall. specialize (Hall _ Hin). cbn [fst snd] in Hall.
  destruct (resolve loc key) as [s|]; [| done]. apply bool_decide_eq_true in Hall. by exists s.
Qed.

(** [v] is a text of the locale. *)
Definition is_text (loc : locale) (v : string) : Prop :=
  exists k, resolve loc k = Some v /\ v <> "".

Definition label_keys : list string :=
  [ "node.state.DEFAULT"; "node.state.WAIT_FOR_SYNCING"; "node.state.SYNC_STARTED";
    "node.state.SYNC_FINISHED"; "node.state.PERSIST_FINISHED";
    "node.serviceStatus.SERVICE_STATUS_CREATE_ID" ].

Lemma label_is_text loc k : In k label_keys -> is_text loc (translate loc k).
Proof.
  intros Hk. exists k. unfold translate.
  assert (forallb (fun k => match resolve loc k with Some s => negb (String.eqb s "") | None => false end)
            label_keys = true) as H by (destruct loc; vm_compute; reflexivity).
  rewrite forallb_forall in H. specialize (H k Hk). destruct (resolve loc k) as [s|]; [| done].
  cbn. split; [done |]. by apply negb_true_iff, String.eqb_neq in H.
Qed.

Lemma index_values table key :
  index table key = VUndef \/ exists v, In v (map snd table) /\ index table key = VStr v.
Proof.
  unfold index. induction table as [|[a b] l IH]; cbn; [by left |].
  destruct (String.eqb (to_string key) a); [right; exists b; auto |].
  destruct IH as [IH | (v & Hv & IH)]; [by left | right; exists v; auto].
Qed.

(** The first text of a chain of [||] is shown. *)
Lemma or_text loc v d :
  v = VUndef \/ (exists s, v = VStr s /\ is_text loc s) -> is_text loc d ->
  exists s, js_or v (VStr d) = VStr s /\ is_text loc s.
Proof.
  intros [-> | (s & -> & k & Hk & Hne)] Hd; [by exists d |].
  exists s. unfold js_or. cbn. apply String.eqb_neq in Hne as E. rewrite E. split; [done | by exists k].
Qed.

(** Whatever state a node or a neighbour reports, its label is a text of
    the chosen locale, never undefined, empty or a raw key. *)
Theorem status_labels_translated loc service state :
  (exists s, NodeRunStatus.getStatus (translate loc) service state = VStr s /\ is_text loc s)
  /\ (exists s, Neighbors.getStatus (translate loc) state = VStr s /\ is_text loc s).
Proof.
  assert (forall k, In k label_keys -> is_text loc (translate loc k)) as Ht by apply label_is_text.
  unfold label_keys in Ht. split.
  - unfold NodeRunStatus.getStatus. apply or_text; [| apply Ht; cbn; tauto].
    destruct (index_values (NodeRunStatus.statusEnum (translate loc)) state) as [-> | (v & Hv & ->)].
    + unfold NodeRunStatus.getServiceStatus. destruct (has_bit _ _); [right | by left].
      eexists. split; [reflexivity | apply Ht; cbn; tauto].
    + right. assert (is_text loc v) as (k & Hk & Hne)
        by (cbn [NodeRunStatus.statusEnum map snd In] in Hv; repeat (destruct Hv as [<- | Hv]; [apply Ht; cbn; tauto |]); destruct Hv).
      exists v. unfold js_or. cbn [truthy]. apply String.eqb_neq in Hne as E. rewrite E.
      split; [done | by exists k].
  - unfold Neighbors.getStatus. apply or_text; [| apply Ht; cbn; tauto].
    destruct (index_values (Neighbors.statusEnum (translate loc)) state) as [-> | (v & Hv & ->)]; [by left |].
    right. exists v. split; [done |].
    cbn [Neighbors.statusEnum map snd In] in Hv. repeat (destruct Hv as [<- | Hv]; [apply Ht; cbn; tauto |]). destruct Hv.
Qed.

(** ** The theorems at concrete inputs *)

Module LocaleSamples.
Import ToyDecimal InputSamples.

Lemma locales_agree_witness :
  exists s', resolve LZh "NEXT" = Some s' /\ placeholders s' = placeholders "Next".
Proof. apply (locales_agree LEn LZh "NEXT" "Next"). vm_compute. tauto. Defined.

Lemma rule_messages_complete_witness :
  exists s, resolve LZh "NUMBER_MIN_ERROR" = Some s /\ placeholders s = ["min"].
Proof.
  apply (rule_messages_complete slider (VInt 1) "NUMBER_MIN_ERROR" [("min", VInt 2)] LZh). vm_compute. reflexivity.
Defined.
End LocaleSamples.
