(* ===== verification/PageViews.v ===== *)
(** * The templates of the pages: pages/*.vue

    The trees the pages render over the data of [Pages], the events their
    listeners raise and what these do.  The data of a page is extended with the
    fields only its template uses.  [nkn_icon] is the inline image of the logo. *)

From S2P Require Import Prelude JsNum JsValue Json DecimalLib MathHelpers NumberInput CryptoLib CryptoHelpers Runtime Store AxiosPlugin Server Protocol StoreSpec System Interleaving Dialogs Vue DialogViews Pages Widgets WidgetViews.
Local Open Scope Z_scope.

Set Warnings "-register-all".

(** ** pages/loading.vue and pages/index.vue *)

Definition loading_render {E} : vnode E :=
  El "v-container" [Flag "fluid"; Flag "grid-list-lg"; Flag "fill-height"]
    [ El "v-layout" [Flag "flex"; Flag "align-center"; Flag "justify-center"; Flag "fill-height"]
        [ El "v-progress-circular" [ Attr "size" (VInt 70); Attr "width" (VInt 7); Static "color" "grey";
                Flag "indeterminate" ] [] ] ].

Definition index_render {E} : vnode E :=
  El "v-container" [Flag "fluid"; Flag "grid-list-lg"; Flag "fill-height"]
    [ El "v-layout" [Flag "flex"; Flag "align-center"; Flag "justify-center"; Flag "fill-height"]
        [ El "v-progress-circular" [ Attr "size" (VInt 70); Attr "width" (VInt 7); Static "color" "grey";
                Flag "indeterminate" ] [] ] ].

(** ** pages/wallet/open.vue *)

Inductive open_event : Type :=
| Open_password (v : jsval)
| Open_toggle
| Open_submit.

(** ** pages/wallet/create.vue *)

Record create_view : Type := mk_create_view {
  k_data : create_data;
  k_showPassword : bool;
  k_showPasswordConfirm : bool
}.

Inductive create_event : Type :=
| Create_password (v : jsval)
| Create_confirm (v : jsval)
| Create_addr (v : jsval)
| Create_toggle
| Create_toggle_confirm
| Create_submit.

(** ** pages/settings.vue *)

Inductive settings_event : Type :=
| Settings_set (f : field) (v : jsval)
| Settings_addr_dialog (v : jsval)
| Settings_addr_success (v : jsval)
| Settings_submit
| Settings_reset
| Settings_submit_dialog (v : jsval)
| Settings_submit_success (v : jsval)
| Settings_result_dialog (v : jsval).

(** ** pages/nodeStatus.vue *)

Record node_page : Type := mk_node_page {
  n_secretSeedDialog : bool;
  n_verificationPasswordDialog : bool
}.

Definition node_page_data : node_page := {| n_secretSeedDialog := false; n_verificationPasswordDialog := false |}.

Inductive node_event : Type :=
| Node_seed_dialog (v : jsval)
| Node_download_dialog (v : jsval)
| Node_verified (v : jsval).

Section Templates.
Variable t : string -> string.
Abbreviation tr k := (VStr (t k)).
Variable nkn_icon : jsval.

Definition open_render (s : view open_data) : vnode open_event :=
  let d := v_data s in
  El "v-container" [Flag "fluid"; Flag "grid-list-lg"]
    [ El "v-form" [Ref "form"; On "submit.prevent" (fun _ => Open_submit)]
        [ El "v-card" [Static "class" "card"]
            [ El "v-card-title" [Static "class" "headline"] [Txt [tr "WALLET_OPEN"]];
              El "div" [Static "class" "divider"] [];
              El "v-card-text" []
                [ El "v-text-field" [ Flag "autofocus"; Ref "password"; Model (o_password d) Open_password;
                        Attr "label" (js_add (tr "PASSWORD") (VStr "*"));
                        Attr "hint" (tr "PASSWORD_HINT"); Flag "persistent-hint";
                        Attr "append-icon" (VStr (if v_showPassword s then "visibility" else "visibility_off"));
                        Attr "type" (VStr (if v_showPassword s then "text" else "password"));
                        Rules [required t "PASSWORD_REQUIRED"];
                        Attr "error" (VBool (o_passwordError d));
                        Attr "error-messages" (VStr (o_passwordErrorMessage d));
                        On "click:append" (fun _ => Open_toggle) ] [] ];
              El "v-card-actions" [Static "class" "pa-3"]
                [ El "v-spacer" [] [];
                  El "v-btn" [ Static "color" "primary"; Flag "small"; On "click" (fun _ => Open_submit) ] [Txt [tr "OPEN"]] ] ] ] ].

(** [v => this.password === v || this.$t('PASSWORD_CONFIRM_ERROR')] *)
Definition rule_confirm (d : create_data) (v : jsval) : option string :=
  if strict_eq (k_password d) v then None else Some (t "PASSWORD_CONFIRM_ERROR").

(** [v => !this.beneficiaryAddrRequired || !!v || this.$t(...)] *)
Definition rule_beneficiary (c : common_state) (v : jsval) : option string :=
  if negb (truthy (beneficiaryAddrRequired c)) then None else required t "settings.BENEFICIARY_REQUIRED" v.

(** [$t('BENEFICIARY') + (beneficiaryAddrRequired && '*')] *)
Definition label_beneficiary (c : common_state) : jsval :=
  js_add (tr "BENEFICIARY") (if truthy (beneficiaryAddrRequired c) then VStr "*" else beneficiaryAddrRequired c).

Definition create_render (c : common_state) (s : create_view) : vnode create_event :=
  let d := k_data s in
  El "v-container" [Flag "fluid"; Flag "grid-list-lg"]
    [ El "v-form" [Ref "form"]
        [ El "v-card" [Static "class" "card"]
            [ El "v-card-title" [Static "class" "headline"] [Txt [tr "WALLET_CREATE"]];
              El "div" [Static "class" "divider"] [];
              El "v-card-text" []
                [ El "v-text-field" [ Flag "autofocus"; Ref "password"; Model (k_password d) Create_password;
                        Attr "label" (js_add (tr "PASSWORD") (VStr "*"));
                        Attr "hint" (tr "PASSWORD_HINT"); Flag "persistent-hint";
                        Attr "append-icon" (VStr (if k_showPassword s then "visibility" else "visibility_off"));
                        Attr "type" (VStr (if k_showPassword s then "text" else "password"));
                        Rules [required t "PASSWORD_REQUIRED"]; Attr "error" (VBool false);
                        Attr "error-messages" (VStr ""); On "click:append" (fun _ => Create_toggle) ] [];
                  El "v-text-field" [ Ref "password_confirm"; Model (k_passwordConfirm d) Create_confirm;
                        Attr "label" (js_add (tr "PASSWORD_CONFIRM") (VStr "*"));
                        Attr "hint" (tr "PASSWORD_HINT"); Flag "persistent-hint";
                        Attr "append-icon" (VStr (if k_showPasswordConfirm s then "visibility" else "visibility_off"));
                        Attr "type" (VStr (if k_showPasswordConfirm s then "text" else "password"));
                        Rules [required t "PASSWORD_CONFIRM_REQUIRED"; rule_confirm d];
                        Attr "error" (VBool false); Attr "error-messages" (VStr "");
                        On "click:append" (fun _ => Create_toggle_confirm) ] [];
                  El "v-text-field" [ Model (k_beneficiaryAddr d) Create_addr; Attr "label" (label_beneficiary c);
                        Attr "hint" (tr "settings.BENEFICIARY_HINT"); Flag "persistent-hint";
                        Rules [rule_beneficiary c]; Attr "error" (VBool (k_beneficiaryAddrError d));
                        Attr "error-messages" (VStr (k_beneficiaryAddrErrorMessage d)) ] [] ];
              El "v-card-actions" [Static "class" "pa-3"]
                [ El "v-spacer" [] [];
                  El "v-btn" [ Static "color" "primary"; Flag "small"; On "click" (fun _ => Create_submit) ] [Txt [tr "CREATE"]] ] ] ] ].

Definition settings_render (nd : node_state) (d : settings_data) : js (vnode settings_event) :=
  addr ← get_prop (nodeStatus nd) "beneficiaryAddr";
  Ok (El "v-card" []
    [ El "v-card-title" [Static "class" "headline"] [Txt [tr "settings.TITLE"]];
      El "div" [Static "class" "divider"] [];
      El "v-card-text" []
        [ El "v-layout" [Flag "wrap"]
            [ El "v-flex" [Flag "xs12"; Flag "md6"]
                [ El "v-subheader" [Static "class" "pa-0"] [Txt [tr "settings.BENEFICIARY_TITLE"]];
                  El "v-text-field" [ Attr "label" (tr "BENEFICIARY"); Attr "value" addr; Flag "filled";
                        Flag "readonly"; Flag "persistent-hint";
                        Attr "hint" (tr "settings.BENEFICIARY_HINT") ]
                    [ Slot "append"
                        [ El "v-btn" [Flag "icon"; Flag "small"; Attr "v-clipboard:copy" addr]
                            [ El "v-icon" [ Static "color" "primary"; Static "class" "far fa-copy"; Flag "small" ] [] ];
                          El "v-btn" [ Flag "icon"; Flag "small";
                                On "click" (fun _ => Settings_addr_dialog (VBool true)) ]
                            [ El "v-icon" [ Static "color" "primary"; Static "class" "far fa-edit"; Flag "small" ] [] ] ] ] ] ];
          El "v-form" [Ref "form"]
            [ El "v-subheader" [Static "class" "pa-0"] [Txt [tr "settings.CONFIG_TITLE"]];
              El "v-layout" [Flag "wrap"]
                [ El "v-flex" [Flag "xs12"; Flag "md6"]
                    [ El "NumberInput" [ Attr "label" (tr "config.Register_ID_Txn_Fee");
                            Model (s_registerIDTxnFee d) (Settings_set RegisterIDTxnFee);
                            Attr "min" (VInt 0); Attr "max" (VInt 10); Attr "step" (VNum (lit 1 (-2))) ]
                        [ Slot "append-icon"
                            [ El "v-img" [ Static "width" "20"; Flag "contain"; Static "style" "flex-grow: 0;";
                                    Attr "src" nkn_icon ] [] ];
                          Slot "append-outer"
                            [ El "v-tooltip" [Flag "top"]
                                [ Slot "activator"
                                    [ El "v-icon" [ Static "color" "grey darken-3"; Flag "dark"; Scope "on" ] [Txt [VStr "mdi-help-circle"]] ];
                                  El "span" []
                                    [Txt [tr "tooltip.Register_ID_Txn_Fee_TOOLTIP"]] ] ] ] ] ];
              El "v-layout" [Flag "wrap"]
                [ El "v-flex" [Flag "xs12"; Flag "md6"]
                    [ El "NumberInput" [ Attr "label" (tr "config.Low_Fee_Txn_Size_Per_Block");
                            Model (s_lowFeeTxnSizePerBlock d) (Settings_set LowFeeTxnSizePerBlock);
                            Static "suffix" "kb"; Attr "min" (VInt 0); Attr "max" (VInt 102400);
                            Attr "step" (VInt 1) ]
                        [ Slot "append-outer"
                            [ El "v-tooltip" [Flag "top"]
                                [ Slot "activator"
                                    [ El "v-icon" [ Static "color" "grey darken-3"; Flag "dark"; Scope "on" ] [Txt [VStr "mdi-help-circle"]] ];
                                  El "span" []
                                    [Txt [tr "tooltip.Low_Fee_Txn_Size_Per_Block_TOOLTIP"]] ] ] ] ] ];
              El "v-layout" [Flag "wrap"]
                [ El "v-flex" [Flag "xs12"; Flag "md6"]
                    [ El "NumberInput" [ Attr "label" (tr "config.Num_Low_Fee_Txn_Per_Block");
                            Model (s_numLowFeeTxnPerBlock d) (Settings_set NumLowFeeTxnPerBlock);
                            Attr "min" (VInt 0); Attr "max" (VInt 100); Attr "step" (VInt 1) ]
                        [ Slot "append-outer"
                            [ El "v-tooltip" [Flag "top"]
                                [ Slot "activator"
                                    [ El "v-icon" [ Static "color" "grey darken-3"; Flag "dark"; Scope "on" ] [Txt [VStr "mdi-help-circle"]] ];
                                  El "span" []
                                    [Txt [tr "tooltip.Num_Low_Fee_Txn_Per_Block_TOOLTIP"]] ] ] ] ] ];
              El "v-layout" [Flag "wrap"]
                [ El "v-flex" [Flag "xs12"; Flag "md6"]
                    [ El "NumberInput" [ Attr "label" (tr "config.Low_Txn_Fee");
                            Model (s_lowTxnFee d) (Settings_set LowTxnFee); Attr "min" (VInt 0);
                            Attr "max" (VInt 10); Attr "step" (VNum (lit 1 (-2))) ]
                        [ Slot "append-icon"
                            [ El "v-img" [ Static "width" "20"; Flag "contain"; Static "style" "flex-grow: 0;";
                                    Attr "src" nkn_icon ] [] ];
                          Slot "append-outer"
                            [ El "v-tooltip" [Flag "top"]
                                [ Slot "activator"
                                    [ El "v-icon" [ Static "color" "grey darken-3"; Flag "dark"; Scope "on" ] [Txt [VStr "mdi-help-circle"]] ];
                                  El "span" [] [Txt [tr "tooltip.Low_Txn_Fee_TOOLTIP"]] ] ] ] ] ];
              El "v-layout" [Flag "wrap"]
                [ El "v-flex" [Flag "xs12"; Flag "md6"]
                    [ El "NumberInput" [ Attr "label" (tr "config.Low_Txn_Fee_Per_Size");
                            Model (s_lowTxnFeePerSize d) (Settings_set LowTxnFeePerSize);
                            Attr "min" (VInt 0); Attr "max" (VInt 1); Attr "step" (VNum (lit 1 (-2))) ]
                        [ Slot "append-icon"
                            [ El "v-img" [ Static "width" "20"; Flag "contain"; Static "style" "flex-grow: 0;";
                                    Attr "src" nkn_icon ] [] ];
                          Slot "append-outer"
                            [ El "v-tooltip" [Flag "top"]
                                [ Slot "activator"
                                    [ El "v-icon" [ Static "color" "grey darken-3"; Flag "dark"; Scope "on" ] [Txt [VStr "mdi-help-circle"]] ];
                                  El "span" []
                                    [Txt [tr "tooltip.Low_Txn_Fee_Per_Size_TOOLTIP"]] ] ] ] ] ] ] ];
      El "div" [Static "class" "divider"] [];
      El "v-card-actions" [Static "class" "pa-3"]
        [ El "v-btn" [Static "color" "primary"; On "click" (fun _ => Settings_submit)] [Txt [tr "SUBMIT"]];
          El "v-btn" [Static "color" "primary"; Flag "text"; On "click" (fun _ => Settings_reset)] [Txt [tr "RESET"]] ];
      El "BeneficiaryAddrDialog" [ Model (VBool (s_beneficiaryAddrDialog d)) Settings_addr_dialog;
            Call "on-success" Settings_addr_success ] [];
      El "VerificationPassword" [ Model (VBool (s_submitDialog d)) Settings_submit_dialog; Attr "title" (tr "SUBMIT");
            Call "on-success" Settings_submit_success ] [];
      El "Result" [ Model (VBool (s_submitResultDialog d)) Settings_result_dialog;
            Attr "type" (VStr (s_submitResult d)); Attr "timeout" (VInt 3000) ] [] ]).

Section NodeStatus.
Context {D : DecimalJS}.

(** The first card: the status of the node. *)
Definition node_card (serviceStatus ns : jsval) : js (vnode node_event) :=
  run_status ← NodeRunStatusView.render t serviceStatus ns;
  version ← get_prop ns "version";
  id ← get_prop ns "id";
  relayMessageCount ← get_prop ns "relayMessageCount";
  height ← get_prop ns "height";
  beneficiaryAddr ← get_prop ns "beneficiaryAddr";
  registerIDTxnFee ← (fee ← get_prop ns "registerIDTxnFee"; formatFee fee);
  lowFeeTxnSizePerBlock ← get_prop ns "lowFeeTxnSizePerBlock";
  numLowFeeTxnPerBlock ← get_prop ns "numLowFeeTxnPerBlock";
  lowTxnFee ← (fee ← get_prop ns "lowTxnFee"; formatFee fee);
  lowTxnFeePerSize ← (fee ← get_prop ns "lowTxnFeePerSize"; formatFee fee);
  Ok (El "v-card" [Static "min-width" "800"; Static "class" "node-status"]
    [ El "v-card-title" [Static "class" "headline"] [Txt [tr "node_status.TITLE"]];
      El "div" [Static "class" "divider"] [];
      El "v-card-text" []
        [ El "v-layout" [Flag "wrap"]
            [ El "v-flex" [Flag "xs12"]
                [ El "v-layout" [Flag "wrap"]
                    [ El "v-flex" [Flag "shrink"; Static "class" "label"]
                        [El "span" [] [Txt [tr "node_status.NODE_STATUS"; VStr ":"]]];
                      El "v-flex" [] [run_status] ] ];
              El "v-flex" [Flag "xs12"]
                [ El "v-layout" [Flag "wrap"]
                    [ El "v-flex" [Flag "shrink"; Static "class" "label"]
                        [El "span" [] [Txt [tr "node_status.NODE_VERSION"; VStr ":"]]];
                      El "v-flex" [] [Txt [version]] ] ];
              El "v-flex" [Flag "xs12"]
                [ El "v-layout" [Flag "wrap"]
                    [ El "v-flex" [Flag "shrink"; Static "class" "label"] [El "span" [] [Txt [tr "node_status.ID"; VStr ":"]]];
                      El "v-flex" [] [Txt [id]] ] ];
              El "v-flex" [Flag "xs12"]
                [ El "v-layout" [Flag "wrap"]
                    [ El "v-flex" [Flag "shrink"; Static "class" "label"]
                        [ El "span" []
                            [Txt [tr "node_status.RELAY_MESSAGE_COUNT"; VStr ":"]] ];
                      El "v-flex" [] [Txt [relayMessageCount]] ] ];
              El "v-flex" [Flag "xs12"]
                [ El "v-layout" [Flag "wrap"]
                    [ El "v-flex" [Flag "shrink"; Static "class" "label"]
                        [El "span" [] [Txt [tr "node_status.HEIGHT"; VStr ":"]]];
                      El "v-flex" [] [Txt [height]] ] ];
              El "v-flex" [Flag "xs12"]
                [ El "v-layout" [Flag "wrap"]
                    [ El "v-flex" [Flag "shrink"; Static "class" "label"]
                        [ El "v-badge" [Static "color" "transparent"; Static "class" "breathe mr-4"] [Slot "badge" []];
                          El "span" []
                            [ Txt [tr "node_status.BENEFICIARY_ADDR"; VStr " "];
                              El "v-tooltip" [Flag "top"]
                                [ Slot "activator"
                                    [ El "v-icon" [ Static "color" "grey darken-3"; Flag "dark"; Flag "small";
                                            Scope "on" ] [Txt [VStr "mdi-help-circle"]] ];
                                  El "span" [] [Txt [tr "tooltip.BENEFICIARY_TOOLTIP"]] ];
                              Txt [VStr ":"] ] ];
                      El "v-flex" [] [Txt [beneficiaryAddr]] ] ];
              El "v-flex" [Flag "xs12"]
                [ El "v-layout" [Flag "wrap"]
                    [ El "v-flex" [Flag "shrink"; Static "class" "label"]
                        [ El "span" []
                            [ Txt [tr "config.Register_ID_Txn_Fee"; VStr " "];
                              El "v-tooltip" [Flag "top"]
                                [ Slot "activator"
                                    [ El "v-icon" [ Static "color" "grey darken-3"; Flag "dark"; Flag "small";
                                            Scope "on" ] [Txt [VStr "mdi-help-circle"]] ];
                                  El "span" []
                                    [Txt [tr "tooltip.Register_ID_Txn_Fee_TOOLTIP"]] ];
                              Txt [VStr ":"] ] ];
                      El "v-flex" [Flag "d-flex"; Flag "algin-center"] [BalanceView.render nkn_icon registerIDTxnFee] ] ];
              El "v-flex" [Flag "xs12"]
                [ El "v-layout" [Flag "wrap"]
                    [ El "v-flex" [Flag "shrink"; Static "class" "label"]
                        [ El "span" []
                            [ Txt [tr "config.Low_Fee_Txn_Size_Per_Block"; VStr " "];
                              El "v-tooltip" [Flag "top"]
                                [ Slot "activator"
                                    [ El "v-icon" [ Static "color" "grey darken-3"; Flag "dark"; Flag "small";
                                            Scope "on" ] [Txt [VStr "mdi-help-circle"]] ];
                                  El "span" []
                                    [Txt [tr "tooltip.Low_Fee_Txn_Size_Per_Block_TOOLTIP"]] ];
                              Txt [VStr ":"] ] ];
                      El "v-flex" [] [Txt [lowFeeTxnSizePerBlock; VStr " kb"]] ] ];
              El "v-flex" [Flag "xs12"]
                [ El "v-layout" [Flag "wrap"]
                    [ El "v-flex" [Flag "shrink"; Static "class" "label"]
                        [ El "span" []
                            [ Txt [tr "config.Num_Low_Fee_Txn_Per_Block"; VStr " "];
                              El "v-tooltip" [Flag "top"]
                                [ Slot "activator"
                                    [ El "v-icon" [ Static "color" "grey darken-3"; Flag "dark"; Flag "small";
                                            Scope "on" ] [Txt [VStr "mdi-help-circle"]] ];
                                  El "span" []
                                    [Txt [tr "tooltip.Num_Low_Fee_Txn_Per_Block_TOOLTIP"]] ];
                              Txt [VStr ":"] ] ];
                      El "v-flex" [] [Txt [numLowFeeTxnPerBlock]] ] ];
              El "v-flex" [Flag "xs12"]
                [ El "v-layout" [Static "class" "text"; Flag "align-center"]
                    [ El "v-flex" [Flag "shrink"; Static "class" "label"]
                        [ El "span" []
                            [ Txt [tr "config.Low_Txn_Fee"; VStr " "];
                              El "v-tooltip" [Flag "top"]
                                [ Slot "activator"
                                    [ El "v-icon" [ Static "color" "grey darken-3"; Flag "dark"; Flag "small";
                                            Scope "on" ] [Txt [VStr "mdi-help-circle"]] ];
                                  El "span" [] [Txt [tr "tooltip.Low_Txn_Fee_TOOLTIP"]] ];
                              Txt [VStr ":"] ] ];
                      El "v-flex" [Flag "d-flex"; Flag "algin-center"] [BalanceView.render nkn_icon lowTxnFee] ] ];
              El "v-flex" [Flag "xs12"]
                [ El "v-layout" [Static "class" "text"; Flag "align-center"]
                    [ El "v-flex" [Flag "shrink"; Static "class" "label"]
                        [ El "span" []
                            [ Txt [tr "config.Low_Txn_Fee_Per_Size"; VStr " "];
                              El "v-tooltip" [Flag "top"]
                                [ Slot "activator"
                                    [ El "v-icon" [ Static "color" "grey darken-3"; Flag "dark"; Flag "small";
                                            Scope "on" ] [Txt [VStr "mdi-help-circle"]] ];
                                  El "span" []
                                    [Txt [tr "tooltip.Low_Txn_Fee_Per_Size_TOOLTIP"]] ];
                              Txt [VStr ":"] ] ];
                      El "v-flex" [Flag "d-flex"; Flag "algin-center"]
                        [BalanceView.render nkn_icon lowTxnFeePerSize; Txt [VStr "/Byte"]] ] ] ] ] ]).

(** The second card: the wallet. *)
Definition wallet_card (ws : jsval) : js (vnode node_event) :=
  balance ← get_prop ws "balance";
  address ← get_prop ws "address";
  publicKey ← get_prop ws "publicKey";
  Ok (El "v-card" [Static "min-width" "800"]
    [ El "v-card-title" [Static "class" "headline"]
        [ Txt [tr "current_wallet_status.TITLE"; VStr " "];
          El "v-spacer" [] [];
          El "v-btn" [Flag "icon"; Flag "small"]
            [ El "v-icon" [ Static "color" "primary"; Static "class" "fa fa-download"; Flag "small";
                    On "click" (fun _ => Node_download_dialog (VBool true)) ] [] ] ];
      El "div" [Static "class" "divider"] [];
      El "v-card-text" []
        [ El "v-layout" [Flag "wrap"]
            [ El "v-flex" [Flag "xs12"; Flag "d-flex"; Static "align-items" "center"]
                [ El "v-layout" [Static "class" "text"; Flag "align-center"]
                    [ El "v-flex" [Flag "shrink"] [Txt [tr "BALANCE"; VStr ":"]];
                      BalanceView.render nkn_icon (js_or balance (VInt 0)) ] ] ];
          El "v-layout" [Flag "wrap"]
            [ El "v-flex" [Flag "xs12"; Flag "md6"; Flag "xs6"]
                [ClipboardText.render address (tr "WALLET_ADDRESS") (VBool true)] ];
          El "v-layout" [Flag "wrap"]
            [ El "v-flex" [Flag "xs12"; Flag "md6"; Flag "xs6"] [ClipboardText.render publicKey (tr "PUBLIC_KEY") (VBool true)] ];
          El "v-layout" []
            [ El "v-flex" [Flag "xs12"]
                [ El "span" []
                    [ Txt [tr "SECRET_SEED"; VStr ": "];
                      El "v-btn" [Flag "icon"; Flag "small"]
                        [ El "v-icon" [ Static "class" "far fa-eye"; Flag "small"; Static "color" "primary";
                                On "click" (fun _ => Node_seed_dialog (VBool true)) ] [] ] ] ] ] ] ]).

Definition node_render (rs : root_state) (d : node_page) : js (vnode node_event) :=
  card1 ← node_card (serviceStatus (common rs)) (nodeStatus (node rs));
  card2 ← wallet_card (currentWalletStatus (wallet rs));
  Ok (El "v-layout" [Flag "flex"; Flag "row"; Flag "wrap"]
    [ El "v-flex" [] [card1];
      El "v-flex" [] [card2];
      El "SecretSeedDialog" [Model (VBool (n_secretSeedDialog d)) Node_seed_dialog] [];
      El "VerificationPasswordDialog" [ Model (VBool (n_verificationPasswordDialog d)) Node_download_dialog;
            Attr "title" (tr "WALLET_DOWNLOAD"); Call "on-success" Node_verified ] [] ]).
End NodeStatus.

(** ** pages/overview.vue *)

Definition overview_render {T : DataTable} (nd : node_state) (search : jsval) : js (vnode NeighborsView.event) :=
  neighbors_view ← NeighborsView.render t nd search;
  Ok (El "v-layout" [Flag "flex"; Flag "row"; Flag "wrap"] [El "v-flex" [] [neighbors_view]]).
End Templates.

(** ** What the listeners do *)

(** The assignments of the templates; [Open_submit] and [Create_submit] call
    the methods [open_submit] and [create_submit]. *)
Definition open_update (s : view open_data) (e : open_event) : view open_data :=
  let d := v_data s in
  match e with
  | Open_password v =>
      mk_view {| o_password := v; o_passwordError := o_passwordError d;
                 o_passwordErrorMessage := o_passwordErrorMessage d |} (v_showPassword s)
  | Open_toggle => mk_view d (negb (v_showPassword s))
  | Open_submit => s
  end.

Definition create_update (s : create_view) (e : create_event) : create_view :=
  let d := k_data s in
  let typed pw confirm addr :=
    mk_create_view {| k_password := pw; k_passwordConfirm := confirm; k_beneficiaryAddr := addr;
                      k_beneficiaryAddrError := k_beneficiaryAddrError d;
                      k_beneficiaryAddrErrorMessage := k_beneficiaryAddrErrorMessage d |}
                   (k_showPassword s) (k_showPasswordConfirm s) in
  match e with
  | Create_password v => typed v (k_passwordConfirm d) (k_beneficiaryAddr d)
  | Create_confirm v => typed (k_password d) v (k_beneficiaryAddr d)
  | Create_addr v => typed (k_password d) (k_passwordConfirm d) v
  | Create_toggle => mk_create_view d (negb (k_showPassword s)) (k_showPasswordConfirm s)
  | Create_toggle_confirm => mk_create_view d (k_showPassword s) (negb (k_showPasswordConfirm s))
  | Create_submit => s
  end.

Definition node_update (d : node_page) (e : node_event) : node_page :=
  match e with
  | Node_seed_dialog v => mk_node_page (truthy v) (n_verificationPasswordDialog d)
  | Node_download_dialog v => mk_node_page (n_secretSeedDialog d) (truthy v)
  | Node_verified _ => d
  end.

Section Settings.
Context {J : CryptoJS} {D : DecimalJS}.

Definition set_addr_dialog (b : bool) (d : settings_data) : settings_data := {|
  s_loaded := s_loaded d; s_beneficiaryAddrDialog := b; s_submitDialog := s_submitDialog d;
  s_submitResult := s_submitResult d; s_submitResultDialog := s_submitResultDialog d;
  s_beneficiaryAddr := s_beneficiaryAddr d;
  s_registerIDTxnFee := s_registerIDTxnFee d; s_numLowFeeTxnPerBlock := s_numLowFeeTxnPerBlock d;
  s_lowFeeTxnSizePerBlock := s_lowFeeTxnSizePerBlock d; s_lowTxnFee := s_lowTxnFee d;
  s_lowTxnFeePerSize := s_lowTxnFeePerSize d
|}.

Definition set_result_dialog (b : bool) (d : settings_data) : settings_data := {|
  s_loaded := s_loaded d; s_beneficiaryAddrDialog := s_beneficiaryAddrDialog d;
  s_submitDialog := s_submitDialog d; s_submitResult := s_submitResult d; s_submitResultDialog := b;
  s_beneficiaryAddr := s_beneficiaryAddr d;
  s_registerIDTxnFee := s_registerIDTxnFee d; s_numLowFeeTxnPerBlock := s_numLowFeeTxnPerBlock d;
  s_lowFeeTxnSizePerBlock := s_lowFeeTxnSizePerBlock d; s_lowTxnFee := s_lowTxnFee d;
  s_lowTxnFeePerSize := s_lowTxnFeePerSize d
|}.

(** The props of a [NumberInput] of the template, the others by default. *)
Definition num_prop {E} (name : string) (d : num) (ats : list (attr E)) : num :=
  match prop_of name ats with VNum n => n | _ => d end.
Definition number_props {E} (ats : list (attr E)) : props := {|
  p_value := value_of ats;
  p_min := num_prop "min" (p_min default_props) ats;
  p_max := num_prop "max" (p_max default_props) ats;
  p_numberMin := num_prop "numberMin" (p_numberMin default_props) ats;
  p_numberMax := num_prop "numberMax" (p_numberMax default_props) ats;
  p_step := num_prop "step" (p_step default_props) ats
|}.

(** The number fields of a form. *)
Definition number_inputs {E} (v : vnode E) : list (list (attr E)) :=
  flat_map (fun '(tag, ats) => if String.eqb tag "NumberInput" then [ats] else [])
           (flat_map elements (form "form" v)).

Definition accepts (p : props) (v : jsval) : bool :=
  match rule_number p v with Ok Valid => true | _ => false end.

(** [this.$refs.form.validate()] of the settings page. *)
Definition settings_valid {E} (v : vnode E) : bool :=
  forallb (fun ats => accepts (number_props ats) (value_of ats)) (number_inputs v).

Definition settings_handle (t : string -> string) (nkn_icon : jsval) (e : settings_event)
    : prog (ui settings_data) unit :=
  match e with
  | Settings_set f v => modify (set_field f v)
  | Settings_addr_dialog v => modify (set_addr_dialog (truthy v))
  | Settings_addr_success v => onDialogSuccess v
  | Settings_submit =>
      rs ← dispatch rootState;
      d ← trigger GetData;
      v ← lift (settings_render t nkn_icon (node rs) d);
      settings_submit (settings_valid v)
  | Settings_reset => settings_reset
  | Settings_submit_dialog v => modify (fun d => set_dialogs (s_beneficiaryAddr d) (truthy v) d)
  | Settings_submit_success v => onSubmitSuccess v
  | Settings_result_dialog v => modify (set_result_dialog (truthy v))
  end.
End Settings.

(** ** Theorems *)

Section Theorems.
Variable t : string -> string.
Variable nkn_icon : jsval.

Lemma create_form c s :
  validates (form_checks "form" (create_render t c s)) = validates (create_rules c (k_data s)).
Proof.
  cbn. unfold required, rule_confirm, rule_beneficiary.
  destruct (rule_required "PASSWORD_REQUIRED" _), (rule_required "PASSWORD_CONFIRM_REQUIRED" _),
    (strict_eq _ _), (truthy (beneficiaryAddrRequired c)); try done.
  unfold required, rule_required. by destruct (truthy (k_beneficiaryAddr (k_data s))).
Qed.

(** What the methods of the dialogs and pages take for the validation of
    their form is the rules of exactly the fields that the template puts into
    the form with that reference, applied to what they hold. *)
Theorem forms_validated title ver sec adr open c create :
  validates (form_checks "form" (VerificationPasswordView.render t title ver))
    = validates [rule_required "PASSWORD_REQUIRED" (VerificationPassword.password (v_data ver))]
  /\ validates (form_checks "form" (SecretSeedView.render t sec))
    = validates [rule_required "PASSWORD_REQUIRED" (SecretSeed.password (v_data sec))]
  /\ validates (form_checks "form1" (BeneficiaryAddrView.render t adr))
    = validates [rule_required "PASSWORD_REQUIRED" (BeneficiaryAddr.password (v_data adr))]
  /\ validates (form_checks "form2" (BeneficiaryAddrView.render t adr)) = validates []
  /\ validates (form_checks "form" (open_render t open)) = open_valid (v_data open)
  /\ validates (form_checks "form" (create_render t c create)) = validates (create_rules c (k_data create)).
Proof.
  split_and!; [apply verification_form | apply secret_form | apply address_form1 | by rewrite address_form2
    | | apply create_form].
  cbn. unfold open_valid, required. by destruct (rule_required _ _).
Qed.

(** When the address is optional its label ends in "false". *)
Lemma optional_label c :
  truthy (allowEmptyBeneficiaryAddress c) = true ->
  label_beneficiary t c = VStr (t "BENEFICIARY" +:+ "false").
Proof. intros H. unfold label_beneficiary, beneficiaryAddrRequired. by rewrite H. Qed.

(** ** The settings form *)

Section SettingsForm.
Context {J : CryptoJS} {D : DecimalJS}.

Definition fields : list field :=
  [RegisterIDTxnFee; LowFeeTxnSizePerBlock; NumLowFeeTxnPerBlock; LowTxnFee; LowTxnFeePerSize].

Definition get_field (f : field) (d : settings_data) : jsval :=
  match f with
  | RegisterIDTxnFee => s_registerIDTxnFee d
  | NumLowFeeTxnPerBlock => s_numLowFeeTxnPerBlock d
  | LowFeeTxnSizePerBlock => s_lowFeeTxnSizePerBlock d
  | LowTxnFee => s_lowTxnFee d
  | LowTxnFeePerSize => s_lowTxnFeePerSize d
  end.

(** The props of the number field of a setting. *)
Definition field_props (f : field) (d : settings_data) : props := {|
  p_value := get_field f d;
  p_min := num_of_Z 0;
  p_max := num_of_Z match f with
                    | RegisterIDTxnFee | LowTxnFee => 10
                    | LowFeeTxnSizePerBlock => 102400
                    | NumLowFeeTxnPerBlock => 100
                    | LowTxnFeePerSize => 1
                    end;
  p_numberMin := num_of_Z 0;
  p_numberMax := MAX_SAFE_INTEGER;
  p_step := match f with LowFeeTxnSizePerBlock | NumLowFeeTxnPerBlock => num_of_Z 1 | _ => lit 1 (-2) end
|}.

Lemma settings_rendered nd d :
  is_Ok (get_prop (nodeStatus nd) "beneficiaryAddr") = true ->
  exists v, settings_render t nkn_icon nd d = Ok v
    /\ map value_of (number_inputs v) = map (fun f => get_field f d) fields
    /\ map update_of (number_inputs v) = map (fun f => Some (Settings_set f)) fields
    /\ settings_valid v = forallb (fun f => accepts (field_props f d) (get_field f d)) fields.
Proof.
  intros H. unfold settings_render. destruct (get_prop _ _); [| done]. bind_simpl.
  eexists. split; [reflexivity |]. by split_and!.
Qed.

(** Each number field of the settings form reads and writes its own
    setting: a value entered in one of them changes that one and no other. *)
Theorem settings_fields_bound q i v ats x :
  settings_render t nkn_icon (node (w_state (pg_world q))) (pg_data q) = Ok v ->
  number_inputs v !! i = Some ats ->
  exists h q' v', update_of ats = Some h
    /\ run ui_exec (settings_handle t nkn_icon (h x)) q = (q', Done (Ok tt))
    /\ settings_render t nkn_icon (node (w_state (pg_world q'))) (pg_data q') = Ok v'
    /\ map value_of (number_inputs v') = <[i := x]> (map value_of (number_inputs v)).
Proof.
  intros Hv Hi.
  assert (is_Ok (get_prop (nodeStatus (node (w_state (pg_world q)))) "beneficiaryAddr") = true) as Hb.
  { unfold settings_render in Hv. by destruct (get_prop _ _). }
  destruct (settings_rendered (node (w_state (pg_world q))) (pg_data q) Hb) as (v0 & E0 & Hval & Hupd & _).
  rewrite E0 in Hv. injection Hv as <-.
  pose proof (list_lookup_fmap update_of (number_inputs v0) i) as Hl. rewrite Hi in Hl.
  change (update_of <$> number_inputs v0) with (map update_of (number_inputs v0)) in Hl. rewrite Hupd in Hl.
  assert (exists f, fields !! i = Some f /\ update_of ats = Some (Settings_set f)) as (f & Hf & Hu).
  { destruct (fields !! i) as [f|] eqn:Ef; pose proof (list_lookup_fmap (fun f => Some (Settings_set f)) fields i) as Hm;
      rewrite Ef in Hm; setoid_rewrite Hm in Hl; [| done]. injection Hl as Hl. by exists f. }
  destruct (settings_rendered (node (w_state (pg_world q))) (set_field f x (pg_data q)) Hb) as (v' & E' & Hval' & _ & _).
  eexists _, (set_data q (set_field f x (pg_data q))), v'. split_and!; [exact Hu | apply run_modify | exact E' |].
  rewrite Hval, Hval'. destruct i as [|[|[|[|[|i]]]]]; cbn in Hf; try discriminate Hf; injection Hf as <-; reflexivity.
Qed.

Section Reset.
Context {DL : DecimalLaws D} {C : StdCrypto} {CL : StdCryptoLaws C} {JL : CryptoJSLaws C J}.

(** The settings the Reset button stands for. *)
Definition defaults (f : field) : Z :=
  match f with
  | RegisterIDTxnFee | NumLowFeeTxnPerBlock => 0
  | LowFeeTxnSizePerBlock => 4096
  | LowTxnFee => 10000000
  | LowTxnFeePerSize => 50000
  end.

Definition reset_data (d : settings_data) : settings_data :=
  set_field LowTxnFeePerSize (VNum (lit 5 (-4)))
  (set_field LowTxnFee (VNum (lit 1 (-1)))
  (set_field LowFeeTxnSizePerBlock (VInt 4096)
  (set_field NumLowFeeTxnPerBlock (VInt 0) (set_field RegisterIDTxnFee (VInt 0) d)))).

Lemma accepts_decimal (p : props) n m k :
  0 <= m -> is_nan n = false -> num_str n = fixed_str m k -> decimals m k <= 8 ->
  num_ltb n (num_of_Z 0) = false -> num_ltb n (p_numberMin p) = false -> num_gtb n (p_numberMax p) = false ->
  accepts p (VNum n) = true.
Proof.
  intros Hm Hn Hs Hk H0 H1 H2. unfold accepts.
  assert (rule_number p (VNum n) = Ok Valid) as ->; [| done].
  apply (rule_number_spec p (VNum n) m k); [done | done | done | done | lia | done].
Qed.

Lemma reset_valid d : forallb (fun f => accepts (field_props f (reset_data d)) (get_field f (reset_data d))) fields = true.
Proof.
  cbn [forallb fields get_field reset_data set_field s_registerIDTxnFee s_numLowFeeTxnPerBlock s_lowFeeTxnSizePerBlock
       s_lowTxnFee s_lowTxnFeePerSize].
  rewrite !andb_true_iff. split_and!; try done; unfold VInt;
    [ apply (accepts_decimal _ _ 0 0) | apply (accepts_decimal _ _ 4096 0) | apply (accepts_decimal _ _ 0 0)
    | apply (accepts_decimal _ _ 1 1) | apply (accepts_decimal _ _ 5 4) ];
    (lia || vm_compute; (reflexivity || discriminate)).
Qed.

Lemma reset_config d b : form_config (set_dialogs (s_beneficiaryAddr d) b (reset_data d)) = Ok (config_of defaults).
Proof.
  unfold form_config. cbn [set_dialogs reset_data set_field s_registerIDTxnFee s_numLowFeeTxnPerBlock
    s_lowFeeTxnSizePerBlock s_lowTxnFee s_lowTxnFeePerSize s_beneficiaryAddr].
  rewrite (parseFee_num (lit 1 (-1)) 1 1 7) by (lia || vm_compute; reflexivity).
  rewrite (parseFee_num (lit 5 (-4)) 5 4 4) by (lia || vm_compute; reflexivity).
  reflexivity.
Qed.

(** The Reset button fills the form with values its own rules accept, so
    that Submit opens the password dialog, and what is then sent is that
    configuration in the smallest unit. *)
Theorem reset_submits_defaults pw h (q : page settings_data) :
  is_Ok (get_prop (nodeStatus (node (w_state (pg_world q)))) "beneficiaryAddr") = true ->
  authorization (w_state (pg_world q)) pw = Ok h ->
  exists q1 q2 q3 k,
    run ui_exec (settings_handle t nkn_icon Settings_reset) q = (q1, Done (Ok tt))
    /\ run ui_exec (settings_handle t nkn_icon Settings_submit) q1 = (q2, Done (Ok tt))
    /\ s_submitDialog (pg_data q2) = true
    /\ run ui_exec (settings_handle t nkn_icon (Settings_submit_success pw)) q2
       = (q3, Await (FromStore (Http (mk_request "PUT" "/api/node/config" (config_of defaults)))) k).
Proof.
  intros Hb Ha. set (q1 := set_data q (reset_data (pg_data q))).
  destruct (settings_rendered (node (w_state (pg_world q))) (reset_data (pg_data q)) Hb) as (v & Ev & _ & _ & Hval).
  set (d2 := set_dialogs (s_beneficiaryAddr (pg_data q1)) true (pg_data q1)).
  destruct (run_onSubmitSuccess pw (config_of defaults) h (set_data q1 d2)) as (k & Hk & _);
    [apply reset_config | exact Ha |].
  exists q1, (set_data q1 d2). eexists _, k. split_and!; [by destruct q | | done | exact Hk].
  cbn [settings_handle]. rewrite run_rootState, run_getdata, run_bind, run_lift.
  change (pg_data q1) with (reset_data (pg_data q)). change (pg_world q1) with (pg_world q).
  rewrite Ev. cbv iota beta. by rewrite Hval, reset_valid.
Qed.
End Reset.
End SettingsForm.

(** ** The status page *)

Section NodePage.
Context {J : CryptoJS} {D : DecimalJS} {DL : DecimalLaws D}.

Definition fee_fields : list string := ["registerIDTxnFee"; "lowTxnFee"; "lowTxnFeePerSize"].

(** A fee as the node reports it, if it does, and its text. *)
Definition fee_reported (v : jsval) (z : Z) : Prop := (v = VUndef /\ z = 0) \/ (v = VInt z /\ 0 <= z < 2 ^ 53).

Lemma formatFee_reported v z : fee_reported v z -> formatFee v = Ok (shown_fee z).
Proof. intros [[-> ->] | [-> Hz]]; [done | by apply formatFee_shown]. Qed.

Lemma own_prop o k : truthy o = true -> get_prop o k = Ok (own o k).
Proof. unfold own. by destruct o. Qed.

(** A member of a concrete list, and of each element of one. *)
Ltac find_in := repeat (first [left; reflexivity | right]).
Ltac each_in H := repeat (destruct H as [<- | H]; [find_in |]); destruct H.

(** What the status page shows in a state the calls lead to. *)
Lemma node_page_shows w0 now tr s d fee :
  w_state w0 = store_init now -> creach w0 tr s ->
  let rs := w_state (c_world s) in
  (forall f, In f fee_fields -> fee_reported (own (nodeStatus (node rs)) f) (fee f)) ->
  exists v, node_render t nkn_icon rs d = Ok v
    /\ (forall f, In f ["version"; "id"; "relayMessageCount"; "height"; "beneficiaryAddr"; "numLowFeeTxnPerBlock"] ->
          In [own (nodeStatus (node rs)) f] (txts v))
    /\ (forall f, In f fee_fields -> In [shown_fee (fee f); VStr " NKN"] (txts v))
    /\ In [js_or (own (currentWalletStatus (wallet rs)) "balance") (VInt 0); VStr " NKN"] (txts v).
Proof.
  intros H0 Hr rs Hfee. destruct (reach_statuses w0 now tr s H0 Hr) as [Hn Hw]. fold rs in Hn, Hw.
  unfold node_render, node_card, wallet_card, NodeRunStatusView.render.
  rewrite !(own_prop (nodeStatus (node rs))), !(own_prop (currentWalletStatus (wallet rs))) by done. bind_simpl.
  rewrite (formatFee_reported _ _ (Hfee "registerIDTxnFee" ltac:(find_in))). bind_simpl.
  rewrite (formatFee_reported _ _ (Hfee "lowTxnFee" ltac:(find_in))). bind_simpl.
  rewrite (formatFee_reported _ _ (Hfee "lowTxnFeePerSize" ltac:(find_in))). bind_simpl.
  eexists. split; [reflexivity |]. cbn [txts flat_map app BalanceView.render ClipboardText.render].
  split_and!; [intros f Hf; each_in Hf.. | find_in].
Qed.

(** Whatever calls were made and however they were answered, the status
    page renders as long as the fees the node reports are non-negative
    integers; it shows the fields of the status as they are, the fees in NKN and
    the balance, 0 before the first answer. *)
Theorem node_page_renders w0 now tr s d fee :
  w_state w0 = store_init now -> creach w0 tr s ->
  let rs := w_state (c_world s) in
  (forall f, In f fee_fields -> fee_reported (own (nodeStatus (node rs)) f) (fee f)) ->
  exists v, node_render t nkn_icon rs d = Ok v
    /\ (forall f, In f ["version"; "id"; "relayMessageCount"; "height"; "beneficiaryAddr"; "numLowFeeTxnPerBlock"] ->
          In [own (nodeStatus (node rs)) f] (txts v))
    /\ (forall f, In f fee_fields -> In [shown_fee (fee f); VStr " NKN"] (txts v))
    /\ In [js_or (own (currentWalletStatus (wallet rs)) "balance") (VInt 0); VStr " NKN"] (txts v).
Proof. apply node_page_shows. Qed.
End NodePage.
End Theorems.

(** ** The theorems at concrete inputs *)

Module PageViewSamples.
Import Toy ToyDecimal Samples PageSamples.

Definition icon : jsval := VStr "data:image/png;base64,".
Definition shown_settings : vnode settings_event :=
  match settings_render tr icon (node (w_state (pg_world settings_page))) settings_init_data with
  | Ok v => v | Err _ => Empty end.
Definition third_field : list (attr settings_event) := default [] (number_inputs shown_settings !! 2%nat).

Lemma settings_fields_bound_witness :
  exists h q' v', update_of third_field = Some h
    /\ run ui_exec (settings_handle tr icon (h (VStr "7"))) settings_page = (q', Done (Ok tt))
    /\ settings_render tr icon (node (w_state (pg_world q'))) (pg_data q') = Ok v'
    /\ map value_of (number_inputs v') = <[2%nat := VStr "7"]> (map value_of (number_inputs shown_settings)).
Proof.
  apply (settings_fields_bound tr icon settings_page 2 shown_settings third_field (VStr "7")); reflexivity.
Defined.

Lemma reset_submits_defaults_witness :
  exists q1 q2 q3 k,
    run ui_exec (settings_handle tr icon Settings_reset) settings_page = (q1, Done (Ok tt))
    /\ run ui_exec (settings_handle tr icon Settings_submit) q1 = (q2, Done (Ok tt))
    /\ s_submitDialog (pg_data q2) = true
    /\ run ui_exec (settings_handle tr icon (Settings_submit_success (VStr "pw"))) q2
       = (q3, Await (FromStore (Http (mk_request "PUT" "/api/node/config" (config_of defaults)))) k).
Proof.
  apply (reset_submits_defaults tr icon (VStr "pw") header settings_page); [reflexivity | vm_compute; reflexivity].
Defined.

Lemma node_page_renders_witness :
  exists v, node_render tr icon (w_state InterleavingSamples.start) node_page_data = Ok v
    /\ In [VInt 0; VStr " NKN"] (txts v).
Proof.
  destruct (node_page_renders tr icon InterleavingSamples.start (num_of_Z 1600000000000) []
              (mk_csys InterleavingSamples.start []) node_page_data (fun _ => 0)) as (v & Hv & _ & _ & Hb).
  - reflexivity.
  - constructor.
  - intros f [<- | [<- | [<- | []]]]; by left.
  - exists v. split; [exact Hv | exact Hb].
Defined.
End PageViewSamples.
