(* ===== verification/LayoutViews.v ===== *)
(** * The layouts: layouts/*.vue, Footer.vue, Drawer.vue, and the whole page

    The templates of the layouts around the pages, the reload of the tabs after
    a change of the language, and the tree of the whole application: the layout
    of a page around the page.  [localePath] and [switchLocalePath] are those
    of nuxt-i18n; [$i18n.locales] is the list of the configuration.  A child
    that throws is taken to break its parent, which is stricter than Vue. *)

From S2P Require Import Prelude JsNum JsValue DecimalLib MathHelpers NumberInput CryptoLib CryptoHelpers Runtime Store AxiosPlugin Server StoreSpec System Interleaving NuxtConfig RouterPlugin Dialogs Vue DialogViews Pages Widgets WidgetViews PageViews.
Local Open Scope Z_scope.

Set Warnings "-register-all".

(** ** components/Footer.vue *)

Module FooterView.
Definition icon (icon tooltip url : string) : jsval :=
  VObj [("icon", VStr icon); ("tooltip", VStr tooltip); ("url", VStr url)].

Definition icons : list jsval :=
  [ icon "fab fa-github" "GitHub" "https://github.com/nknorg";
    icon "fab fa-discord" "Discord" "https://discord.gg/hrZvrVa";
    icon "fab fa-twitter" "Twitter" "https://twitter.com/NKN_ORG";
    icon "fas fa-comments" "Forum" "https://forum.nkn.org/";
    icon "fab fa-youtube" "Youtube" "http://www.youtube.com/c/NKNORG";
    icon "fab fa-telegram" "Telegram" "https://t.me/nknorg";
    icon "fab fa-medium" "Medium" "https://medium.com/nknetwork" ].

Definition render {E} (t : string -> string) : vnode E :=
  El "v-footer" [Static "class" "pl-0 pr-0"; Static "height" "auto"]
    [ El "v-card" [ Flag "flat"; Flag "dark"; Flag "tile"; Static "class" "indigo lighten-1 text-center";
            Static "width" "100%" ]
        [ El "v-card-text" []
            (map (fun item => El "v-tooltip" [Flag "top"; Attr "key" (own item "icon")]
                [ Slot "activator"
                    [ El "v-btn" [ Attr "href" (own item "url"); Static "target" "_blank";
                            Static "class" "mx-3 white--text"; Flag "icon"; Scope "on" ]
                        [El "v-icon" [Static "size" "24px"] [Txt [own item "icon"]]] ];
                  El "span" [] [Txt [own item "tooltip"]] ]) icons);
          El "v-card-text" [Static "class" "white--text pt-0"]
            [El "h4" [] [Txt [VStr (t "footer.TITLE")]]; Txt [VStr " "; VStr (t "footer.TEXT")]];
          El "v-divider" [] [];
          El "v-card-text" [Static "class" "white--text"]
            [Txt [VStr "Copyright © 2019 — "]; El "strong" [] [Txt [VStr "nkn-web"]]] ] ].
End FooterView.

(** ** components/Drawer.vue, with the components it does not register *)

Module DrawerView.
Record state : Type := mk {
  clipped : bool;
  drawer : bool;
  miniVariant : bool
}.

Definition data : state := {| clipped := false; drawer := true; miniVariant := false |}.

Inductive event : Type := Set_drawer (v : jsval).

Definition render (s : state) : vnode event :=
  El "v-navigation-drawer" [ Static "class" "border-right card-border"; Model (VBool (drawer s)) Set_drawer;
        Attr "mini-variant" (VBool (miniVariant s)); Attr "clipped" (VBool (clipped s)); Flag "fixed";
        Flag "floating"; Flag "app" ]
    [ El "v-toolbar" [Flag "flat"; Static "class" "transparent"]
        [ El "v-list" []
            [ El "v-list-tile" []
                [El "v-list-tile-title" [Static "class" "title"] [Txt [VStr "My wallet"]]] ] ];
      El "div" [Static "class" "divider"] [];
      El "v-container" [Flag "grid-list-lg"]
        [ El "v-layout" [Flag "row"; Flag "wrap"]
            [ El "v-flex" [Flag "xs12"] [El "Wallet" [] []];
              El "v-flex" [Flag "xs12"] [El "Wallet2" [] []];
              El "v-flex" [Flag "xs12"] [El "AddWallet" [] []] ] ] ].

Definition handle (s : state) (e : event) : state :=
  match e with Set_drawer v => {| clipped := clipped s; drawer := truthy v; miniVariant := miniVariant s |} end.
End DrawerView.

(** ** The data of the layouts and their [reload] *)

(** [timers]: when the calls of [setTimeout] are due, in milliseconds;
    [ticks]: the callbacks given to [$nextTick] that have not run. *)
Record layout_state : Type := mk_layout {
  l_clipped : bool;
  l_update : bool;
  l_timers : list Z;
  l_ticks : nat
}.

Definition layout_data : layout_state := {| l_clipped := false; l_update := true; l_timers := []; l_ticks := 0 |}.

Definition reload (now : Z) (s : layout_state) : layout_state :=
  {| l_clipped := l_clipped s; l_update := l_update s; l_timers := l_timers s ++ [now + 10]; l_ticks := l_ticks s |}.

(** The timers that are due run: each one clears [update] and asks for a tick. *)
Definition reload_timers (now : Z) (s : layout_state) : layout_state :=
  let due := length (List.filter (fun x => x <=? now) (l_timers s)) in
  {| l_clipped := l_clipped s; l_update := match due with O => l_update s | _ => false end;
     l_timers := List.filter (fun x => now <? x) (l_timers s); l_ticks := l_ticks s + due |}.

(** The next tick: every callback sets [update]. *)
Definition reload_ticks (s : layout_state) : layout_state :=
  {| l_clipped := l_clipped s; l_update := match l_ticks s with O => l_update s | _ => true end;
     l_timers := l_timers s; l_ticks := 0 |}.

Inductive layout_event (P : Type) : Type :=
| Reload
| In_page (e : P)
| In_warning (e : WatchOutBoundCountView.event).
Arguments Reload {P}.
Arguments In_page {P} e.
Arguments In_warning {P} e.

Definition availableLocales : list jsval := locales.

Section Layouts.
Variable t : string -> string.
Abbreviation tr k := (VStr (t k)).
Variable localePath : string -> string.
Variable switchLocalePath : jsval -> string.
Context {P : Type}.

(** ** layouts/default.vue *)

Definition default_layout {L : Lodash} (rs : root_state) (s : layout_state) (warn : WatchOutBoundCount.state)
    (page : vnode P) : js (vnode (layout_event P)) :=
  run_status ← NodeRunStatusView.render t (serviceStatus (common rs)) (nodeStatus (node rs));
  version ← get_prop (nodeStatus (node rs)) "version";
  count ← inBoundCount (node rs);
  Ok (El "v-app" []
    [ El "v-app-bar" [ Flag "dark"; Flag "app"; Static "color" "indigo"; Flag "dense"; Flag "fade-img-on-scroll" ]
        [ El "v-toolbar-title" [Static "class" "ml-2"]
            [ El "h3" []
                [ El "v-avatar" [Flag "tile"; Static "size" "35"]
                    [El "img" [Static "src" "~/static/img/logo.png"; Static "alt" "avatar"] []];
                  Txt [VStr " NKN WEB"] ] ];
          El "v-flex" [ Static "class" "toolbar"; Flag "d-flex"; Flag "align-center"; Flag "justify-end" ]
            [ El "span" [Static "class" "mr-1"] [Txt [tr "node_status.NODE_STATUS"; VStr ":"]];
              run_status;
              El "div" [Static "class" "divider-vertical mx-3"] [];
              El "v-badge" [Static "color" "transparent"]
                [El "span" [] [Txt [tr "node_status.NODE_VERSION"; VStr ": "; version]]];
              El "div" [Static "class" "divider-vertical mx-3"] [];
              El "v-menu" [Flag "offset-y"]
                [ Slot "activator"
                    [ El "v-btn" [Flag "icon"; Scope "on"] [El "v-icon" [] [Txt [VStr "language"]]] ];
                  El "v-list" []
                    (map (fun locale => El "v-list-item" [ Attr "key" (own locale "code");
                            Attr "to" (VStr (switchLocalePath (own locale "code")));
                            On "click" (fun _ => Reload) ]
                        [ El "v-list-item-content" []
                            [El "v-list-item-title" [] [Txt [own locale "name"]]] ]) availableLocales) ] ];
          Slot "extension"
            [ v_if (l_update s) (El "v-tabs" [Flag "align-with-title"; Static "background-color" "transparent"]
                [ El "v-tab" [Static "href" "#nodeStatus"; Attr "to" (VStr (localePath "nodeStatus"))] [Txt [tr "menu.NODE_STATUS"]];
                  El "v-tab" [Static "href" "#overview"; Attr "to" (VStr (localePath "overview"))] [Txt [tr "menu.OVERVIEW"]];
                  El "v-tab" [Static "href" "#settings"; Attr "to" (VStr (localePath "settings"))] [Txt [tr "menu.SETTINGS"]];
                  El "v-tabs-slider" [Static "color" "pink accent-3"] [] ]) ] ];
      El "v-content" []
        [El "v-container" [Flag "fluid"; Flag "grid-list-lg"] [vmap In_page page]; FooterView.render t];
      vmap In_warning (WatchOutBoundCountView.render t count warn) ]).

(** ** layouts/sign.vue *)

Definition sign_layout (page : vnode P) : vnode (layout_event P) :=
  El "v-app" []
    [ El "v-app-bar" [ Flag "dark"; Flag "app"; Static "color" "indigo"; Flag "dense"; Flag "fade-img-on-scroll" ]
        [ El "v-toolbar-title" [Static "class" "ml-2"]
            [ El "h3" [Static "class" "pt-0 mt-2"]
                [ El "v-avatar" [Flag "tile"; Static "size" "35"]
                    [El "img" [Static "src" "~/static/img/logo.png"; Static "alt" "avatar"] []];
                  Txt [VStr " NKN WEB"] ] ];
          El "v-flex" [ Static "class" "toolbar"; Flag "d-flex"; Flag "align-center"; Flag "justify-end" ]
            [ El "v-menu" [Flag "offset-y"]
                [ Slot "activator"
                    [ El "v-btn" [Flag "icon"; Scope "on"] [El "v-icon" [] [Txt [VStr "language"]]] ];
                  El "v-list" []
                    (map (fun locale => El "v-list-item" [ Attr "key" (own locale "code");
                            Attr "to" (VStr (switchLocalePath (own locale "code")));
                            On "click" (fun _ => Reload) ]
                        [ El "v-list-item-content" []
                            [El "v-list-item-title" [] [Txt [own locale "name"]]] ]) availableLocales) ] ] ];
      El "v-content" []
        [El "v-container" [Flag "fluid"; Flag "grid-list-lg"] [vmap In_page page]; FooterView.render t] ].

(** ** layouts/null.vue *)

Definition null_layout (page : vnode P) : vnode (layout_event P) := El "v-app" [] [vmap In_page page].
End Layouts.

(** ** layouts/error.vue *)

Module ErrorLayout.
Definition pageNotFound : string := "404 Not Found".
Definition otherError : string := "An error occurred".

Definition not_found (error : jsval) : js bool :=
  code ← get_prop error "statusCode"; Ok (strict_eq code (VInt 404)).

(** The title of the page. *)
Definition head (error : jsval) : js string :=
  missing ← not_found error; Ok (if missing : bool then pageNotFound else otherError).

Definition home : string := "/web".

Definition render {E} (error : jsval) : js (vnode E) :=
  missing ← not_found error;
  Ok (El "v-app" []
    [ (if missing : bool then El "h1" [] [Txt [VStr pageNotFound]]
       else El "h1" [] [Txt [VStr otherError]]);
      El "NuxtLink" [Static "to" home] [Txt [VStr "Home"]] ]).
End ErrorLayout.

(** ** The whole application *)

(** A page with its data. *)
Inductive page_view : Type :=
| Index_page
| Loading_page
| Open_page (s : view open_data)
| Create_page (s : create_view)
| Settings_page (d : settings_data)
| Node_page (d : node_page)
| Overview_page (search : jsval).

Inductive page_event : Type :=
| In_open (e : open_event)
| In_create (e : create_event)
| In_settings (e : settings_event)
| In_node (e : node_event)
| In_overview (e : NeighborsView.event).

(** The layout a page names; without one it is the default layout. *)
Inductive layout : Type := Null_layout | Sign_layout | Default_layout.

Definition page_layout (p : page_view) : layout :=
  match p with
  | Index_page | Loading_page => Null_layout
  | Open_page _ | Create_page _ => Sign_layout
  | Settings_page _ | Node_page _ | Overview_page _ => Default_layout
  end.

Section App.
Variable t : string -> string.
Variable nkn_icon : jsval.
Variable localePath : string -> string.
Variable switchLocalePath : jsval -> string.
Context {D : DecimalJS} {T : DataTable} {L : Lodash}.

Definition page_render (rs : root_state) (p : page_view) : js (vnode page_event) :=
  match p with
  | Index_page => Ok index_render
  | Loading_page => Ok loading_render
  | Open_page s => Ok (vmap In_open (open_render t s))
  | Create_page s => Ok (vmap In_create (create_render t (common rs) s))
  | Settings_page d => v ← settings_render t nkn_icon (node rs) d; Ok (vmap In_settings v)
  | Node_page d => v ← node_render t nkn_icon rs d; Ok (vmap In_node v)
  | Overview_page search => v ← overview_render t (node rs) search; Ok (vmap In_overview v)
  end.

Definition app_render (rs : root_state) (s : layout_state) (warn : WatchOutBoundCount.state) (p : page_view)
    : js (vnode (layout_event page_event)) :=
  v ← page_render rs p;
  match page_layout p with
  | Null_layout => Ok (null_layout v)
  | Sign_layout => Ok (sign_layout t switchLocalePath v)
  | Default_layout => default_layout t localePath switchLocalePath rs s warn v
  end.

End App.

(** ** Theorems *)

Section Tabs.
Variable t : string -> string.
Variable localePath : string -> string.
Variable switchLocalePath : jsval -> string.
Context {L : Lodash}.

(** The links of the tabs. *)
Definition tab_links {E} (v : vnode E) : list jsval :=
  flat_map (fun '(tag, ats) => if String.eqb tag "v-tab" then [prop_of "to" ats] else []) (elements v).

Lemma tab_links_vmap {E F} (f : E -> F) v : tab_links (vmap f v) = tab_links v.
Proof.
  unfold tab_links. rewrite elements_vmap. induction (elements v) as [|[tag ats] l IH]; [done |].
  cbn [map flat_map]. rewrite IH. by destruct (String.eqb tag "v-tab"); [rewrite prop_of_map |].
Qed.

Definition tab_pages : list string := ["nodeStatus"; "overview"; "settings"].

Lemma warning_no_tabs count warn : tab_links (WatchOutBoundCountView.render t count warn) = [].
Proof. unfold WatchOutBoundCountView.render, v_if. by destruct (strict_eq _ _). Qed.

Lemma default_tabs {P} rs s warn (page : vnode P) v :
  default_layout t localePath switchLocalePath rs s warn page = Ok v ->
  tab_links v = (if l_update s then map (fun p => VStr (localePath p)) tab_pages else []) ++ tab_links page.
Proof.
  unfold default_layout, NodeRunStatusView.render. intros H.
  apply bind_Ok in H as (status & (state & _ & [= <-])%bind_Ok & (version & _ & (count & _ & [= <-])%bind_Ok)%bind_Ok).
  pose proof (tab_links_vmap In_page page) as Hp.
  pose proof (tab_links_vmap (@In_warning P) (WatchOutBoundCountView.render t count warn)) as Hw.
  rewrite warning_no_tabs in Hw. unfold tab_links in *. unfold v_if.
  destruct (l_update s); cbn [elements flat_map app map tab_pages]; repeat (rewrite flat_map_app || cbn);
    by rewrite Hp, Hw, !app_nil_r.
Qed.

Section Links.
Context {IR : I18nRoutes localePath}.

Lemma tab_path p : In p tab_pages ->
  In (localePath p) routes
  /\ str_contains "/wallet/create" (localePath p) = false /\ str_contains "/wallet/open" (localePath p) = false.
Proof.
  destruct IR as [(prefix & Hp & H)]. intros Hin.
  assert (exists path, In (p, path) pages /\ path <> "/" /\ p <> "wallet-create" /\ p <> "wallet-open") as (path & Hpath & Hne & Hc & Ho).
  { destruct Hin as [<- | [<- | [<- | []]]]; eexists; (split; [cbn; tauto | done]). }
  rewrite (H p path) by done. split.
  - apply in_flat_map. exists prefix. split; [done |]. apply in_map_iff. by exists (p, path).
  - cbn in Hp, Hpath. destruct Hp as [<- | [<- | [<- | []]]];
      repeat (destruct Hpath as [[= <- <-] | Hpath]; [try done; exfalso; cbn in Hin; intuition discriminate |]); destruct Hpath.
Qed.

(** Every tab of the default layout leads to a page of the application: its
    navigation ends on that page once the wallet is open, and on the page that
    opens or creates it, or on the loading page, before. *)
Theorem tabs_lead {P} rs s warn (page : vnode P) v w link :
  tab_links page = [] ->
  default_layout t localePath switchLocalePath rs s warn page = Ok v ->
  In link (tab_links v) ->
  exists path, link = VStr path /\ In path routes
    /\ navigate localePath 2 w path = Some match landing_of w with
         | Loading => localePath "loading"
         | CreateWallet => localePath "wallet-create"
         | OpenWallet => localePath "wallet-open"
         | Requested => path
         end.
Proof.
  intros Hp Hv Hin. rewrite (default_tabs _ _ _ _ _ Hv), Hp, app_nil_r in Hin.
  destruct (l_update s); [| destruct Hin]. apply in_map_iff in Hin as (p & <- & Htab).
  destruct (tab_path p Htab) as (Hr & Hc & Ho). exists (localePath p). split_and!; [done.. |].
  destruct (navigate_lands localePath w (localePath p)) as (final & -> & Hland). f_equal.
  unfold lands in Hland. destruct (landing_of w); try done; destruct Hland as [[_ E] | ->]; congruence.
Qed.
End Links.

(** ** The reload of the tabs *)

Inductive layout_step : Type :=
| Do_reload (now : Z)
| Do_timers (now : Z)
| Do_ticks.

Definition layout_do (s : layout_state) (e : layout_step) : layout_state :=
  match e with
  | Do_reload now => reload now s
  | Do_timers now => reload_timers now s
  | Do_ticks => reload_ticks s
  end.

(** The tabs are hidden only while a tick is due. *)
Lemma reload_inv es : let s := fold_left layout_do es layout_data in l_update s = true \/ (0 < l_ticks s)%nat.
Proof.
  cbv zeta. assert (l_update layout_data = true \/ (0 < l_ticks layout_data)%nat) as H0 by by left.
  revert H0. generalize layout_data. induction es as [|e es IH]; intros s Hs; [done |]. cbn. apply IH.
  destruct e as [now|now|]; cbn; [done | |].
  - destruct (length _); [| right; lia]. rewrite Nat.add_0_r. done.
  - destruct Hs as [-> | Hs]; [left; by destruct (l_ticks s) | left]. by destruct (l_ticks s); [lia |].
Qed.

(** A change of the language takes the tabs off and puts them back: after
    any sequence of steps, ten milliseconds after the click they are not
    rendered, and from the next tick on they are, with their three links; no
    sequence leaves them hidden. *)
Theorem reload_restores_tabs {P} es now later rs warn (page : vnode P) v1 v2 :
  let s := fold_left layout_do es layout_data in
  let s1 := reload_timers later (reload now s) in
  let s2 := reload_ticks s1 in
  now + 10 <= later -> tab_links page = [] ->
  default_layout t localePath switchLocalePath rs s1 warn page = Ok v1 ->
  default_layout t localePath switchLocalePath rs s2 warn page = Ok v2 ->
  tab_links v1 = [] /\ tab_links v2 = map (fun p => VStr (localePath p)) tab_pages
  /\ l_update (reload_ticks s) = true.
Proof.
  intros s s1 s2 Hl Hp H1 H2. rewrite (default_tabs _ _ _ _ _ H1), (default_tabs _ _ _ _ _ H2), Hp, !app_nil_r.
  assert (l_update s1 = false /\ (0 < l_ticks s1)%nat) as [-> Ht].
  { unfold s1, reload_timers, reload. cbn. rewrite List.filter_app, length_app. cbn.
    destruct (Z.leb_spec (now + 10) later); [| lia]. cbn. rewrite Nat.add_1_r. split; [done | lia]. }
  assert (l_update s2 = true) as ->.
  { unfold s2, reload_ticks. cbn [l_update]. destruct (l_ticks s1); [lia | done]. }
  split_and!; [done.. |]. pose proof (reload_inv es) as Hi. cbv zeta in Hi. fold s in Hi.
  unfold reload_ticks. cbn [l_update]. destruct (l_ticks s); [| done]. destruct Hi; [done | lia].
Qed.
End Tabs.

(** ** The whole application renders *)

Section Renders.
Variable t : string -> string.
Variable nkn_icon : jsval.
Variable localePath : string -> string.
Variable switchLocalePath : jsval -> string.
Context {D : DecimalJS} {T : DataTable} {L : Lodash}.
Context {J : CryptoJS} {DL : DecimalLaws D} {TL : DataTableLaws T} {LL : LodashLaws L}.

Lemma default_ok {P} rs s warn (page : vnode P) :
  truthy (nodeStatus (node rs)) = true -> readable (node rs) ->
  is_Ok (default_layout t localePath switchLocalePath rs s warn page) = true.
Proof.
  intros Hn Hr. unfold default_layout, NodeRunStatusView.render. rewrite !own_prop by done.
  bind_simpl. by rewrite (inBoundCount_spec (node rs) Hr).
Qed.

Lemma overview_ok nd search : readable nd -> is_Ok (overview_render t nd search) = true.
Proof.
  intros [Hall _]. unfold overview_render, NeighborsView.render.
  destruct (rows_columns t (table_page (neighbors nd) search)) as (vs & -> & _); [| done].
  rewrite List.Forall_forall in *. intros x Hx. apply (table_page_items _ search) in Hx.
  specialize (Hall x Hx). by destruct x.
Qed.

(** C23: no page throws: whatever calls were made and however they were answered,
    every page renders inside its layout, as long as the fees of the status are
    non-negative integers and the neighbours are objects. *)
Theorem app_renders w0 now tr c s warn p fee :
  w_state w0 = store_init now -> creach w0 tr c ->
  let rs := w_state (c_world c) in
  (forall f, In f fee_fields -> fee_reported (own (nodeStatus (node rs)) f) (fee f)) ->
  readable (node rs) ->
  exists v, app_render t nkn_icon localePath switchLocalePath rs s warn p = Ok v.
Proof.
  intros H0 Hc rs Hfee Hr. destruct (reach_statuses w0 now tr c H0 Hc) as [Hn _]. fold rs in Hn.
  assert (is_Ok (app_render t nkn_icon localePath switchLocalePath rs s warn p) = true) as H;
    [| destruct (app_render _ _ _ _ _ _ _ _); [by eexists | done]].
  unfold app_render. destruct p as [| | |  | d | d | search]; try done; cbn [page_render page_layout].
  - unfold settings_render. rewrite own_prop by done. bind_simpl. by apply default_ok.
  - destruct (node_page_shows t nkn_icon w0 now tr c d fee H0 Hc Hfee) as (v & Hv & _). fold rs in Hv.
    rewrite Hv. bind_simpl. by apply default_ok.
  - pose proof (overview_ok (node rs) search Hr) as Ho. destruct (overview_render _ _ _); [| done].
    bind_simpl. by apply default_ok.
Qed.
End Renders.

(** ** The error page *)

(** Its heading is its title, and its link leads to no page of the application:
    the router adds the base to the path. *)
Lemma error_page error title :
  ErrorLayout.head error = Ok title ->
  exists v, ErrorLayout.render (E := unit) error = Ok v /\ txts v = [[VStr title]; [VStr "Home"]]
    /\ ~ In ErrorLayout.home routes.
Proof.
  unfold ErrorLayout.head, ErrorLayout.render. intros (missing & -> & [= <-])%bind_Ok. eexists.
  split_and!; [reflexivity | by destruct missing |]. vm_compute. intuition discriminate.
Qed.

(** ** The theorems at concrete inputs *)

Module LayoutSamples.
Import Toy ToyDecimal ToyLodash WidgetViewSamples RouterSamples InterleavingSamples.

Definition switch (code : jsval) : string := "/" +:+ to_string code.
Definition body : vnode unit := Txt [VStr "page"].
Definition laid_out (s : layout_state) : vnode (layout_event unit) :=
  match default_layout tr path switch (w_state start) s WatchOutBoundCount.data body with Ok v => v | Err _ => Empty end.

Lemma tabs_lead_witness :
  exists p, VStr "/zh/settings" = VStr p /\ In p routes
    /\ navigate path 2 (running 2 "") p = Some "/zh/wallet/create".
Proof.
  apply (tabs_lead tr path switch (w_state start) layout_data WatchOutBoundCount.data body (laid_out layout_data)
           (running 2 "") (VStr "/zh/settings")); [reflexivity | reflexivity | vm_compute; tauto].
Defined.

Definition hidden : layout_state := reload_timers 15 (reload 5 layout_data).

Lemma reload_restores_tabs_witness :
  tab_links (laid_out hidden) = [] /\ tab_links (laid_out (reload_ticks hidden)) = map (fun p => VStr (path p)) tab_pages
  /\ l_update (reload_ticks layout_data) = true.
Proof.
  apply (reload_restores_tabs tr path switch [] 5 15 (w_state start) WatchOutBoundCount.data body);
    [lia | reflexivity | reflexivity | reflexivity].
Defined.

Lemma app_renders_witness :
  exists v, app_render tr (VStr "data:") path switch (w_state start) layout_data WatchOutBoundCount.data
              (Node_page node_page_data) = Ok v.
Proof.
  apply (app_renders tr (VStr "data:") path switch start (num_of_Z 1600000000000) [] (mk_csys start [])
           layout_data WatchOutBoundCount.data (Node_page node_page_data) (fun _ => 0)).
  - reflexivity.
  - constructor.
  - intros f [<- | [<- | [<- | []]]]; by left.
  - split; [constructor | cbn; lia].
Defined.
End LayoutSamples.
