(* ===== verification/Translations.v ===== *)
(** * Every text of the application is translated

    A template reads its texts through [$t].  A key is known when both locales
    have a text for it; a template that gives the same tree for two
    translations that agree on the known keys uses no other key. *)

From S2P Require Import Prelude JsNum JsValue DecimalLib MathHelpers NumberInput Runtime Store Widgets Dialogs Vue DialogViews Pages WidgetViews Locales PageViews LayoutViews.
From Stdlib Require Import FunctionalExtensionality.

Definition known (k : string) : bool :=
  forallb (fun loc => match resolve loc k with Some _ => true | None => false end) [LEn; LZh].

Section Translations.
Variables t t' : string -> string.
Hypothesis same : forall k, known k = true -> t k = t' k.

Ltac key k := rewrite (same k) by (vm_compute; reflexivity).
Ltac keys := repeat match goal with |- context [t ?k] => key k end.

Lemma required_same k : known k = true -> required t k = required t' k.
Proof.
  intros Hk. apply functional_extensionality. intros v. unfold required, rule_required.
  destruct (truthy v); [done |]. cbn. by rewrite same.
Qed.
Ltac rules := repeat match goal with |- context [required t ?k] => rewrite (required_same k) by (vm_compute; reflexivity) end.


Lemma open_same s : open_render t s = open_render t' s.
Proof. unfold open_render. rules. keys. reflexivity. Qed.

Lemma create_same c s : create_render t c s = create_render t' c s.
Proof.
  assert (rule_confirm t = rule_confirm t') as Hc.
  { apply functional_extensionality. intros d. apply functional_extensionality. intros v. unfold rule_confirm.
    keys. reflexivity. }
  assert (rule_beneficiary t = rule_beneficiary t') as Hb.
  { apply functional_extensionality. intros d. unfold rule_beneficiary. rules. reflexivity. }
  unfold create_render, label_beneficiary. rewrite Hc, Hb. rules. keys. reflexivity.
Qed.

Lemma settings_same nkn_icon nd d : settings_render t nkn_icon nd d = settings_render t' nkn_icon nd d.
Proof. unfold settings_render. destruct (get_prop _ _) as [addr|]; [| done]. bind_simpl. keys. reflexivity. Qed.

Lemma run_status_same {E} s ns : NodeRunStatusView.render (E := E) t s ns = NodeRunStatusView.render t' s ns.
Proof.
  unfold NodeRunStatusView.render, NodeRunStatus.getStatus, NodeRunStatus.getServiceStatus, NodeRunStatus.statusEnum.
  destruct (get_prop _ _); [| done]. bind_simpl. keys. reflexivity.
Qed.

Lemma node_card_same {D : DecimalJS} nkn_icon s ns : node_card t nkn_icon s ns = node_card t' nkn_icon s ns.
Proof.
  unfold node_card. rewrite run_status_same.
  repeat (match goal with |- mbind _ ?m = _ => destruct m; [| done] end; bind_simpl).
  keys. reflexivity.
Qed.

Lemma wallet_card_same nkn_icon ws : wallet_card t nkn_icon ws = wallet_card t' nkn_icon ws.
Proof.
  unfold wallet_card. repeat (destruct (get_prop _ _); [| done]; bind_simpl). keys. reflexivity.
Qed.

Lemma node_same {D : DecimalJS} nkn_icon rs d : node_render t nkn_icon rs d = node_render t' nkn_icon rs d.
Proof.
  unfold node_render. rewrite node_card_same, wallet_card_same. destruct (node_card _ _ _ _); [| done].
  bind_simpl. destruct (wallet_card _ _ _); [| done]. bind_simpl. keys. reflexivity.
Qed.

Lemma overview_same {T : DataTable} nd search : overview_render t nd search = overview_render t' nd search.
Proof.
  assert (NeighborsView.row t = NeighborsView.row t') as Hr.
  { apply functional_extensionality. intros item.
    unfold NeighborsView.row, Neighbors.getStatus, Neighbors.statusEnum, Neighbors.getBound. keys. reflexivity. }
  unfold overview_render, NeighborsView.render, NeighborsView.headers. rewrite Hr.
  destruct (mapM _ _); [| done]. bind_simpl. keys. reflexivity.
Qed.

Lemma default_same {L : Lodash} {P} lp slp rs s warn (page : vnode P) :
  default_layout t lp slp rs s warn page = default_layout t' lp slp rs s warn page.
Proof.
  unfold default_layout. rewrite run_status_same. destruct (NodeRunStatusView.render _ _ _); [| done]. bind_simpl.
  destruct (get_prop _ _); [| done]. bind_simpl. destruct (inBoundCount _); [| done]. bind_simpl.
  unfold WatchOutBoundCountView.render, FooterView.render. keys. reflexivity.
Qed.

Lemma sign_same {P} slp (page : vnode P) : sign_layout t slp page = sign_layout t' slp page.
Proof. unfold sign_layout, FooterView.render. keys. reflexivity. Qed.

End Translations.

(** ** The theorem at concrete inputs *)

Module TranslationSamples.
Import ToyDecimal ToyLodash WidgetViewSamples.

(** A translation that differs from the English one on every other key. *)
Definition marked (k : string) : string := if known k then translate LEn k else "?".

Definition shown : page_view := Open_page (mk_view (mk_open (VStr "") false "") false).

End TranslationSamples.
