(* ===== verification/ServiceWorker.v ===== *)
(** * The service worker: src/web/sw.js

    The script as a sequence of calls into Workbox, which is not part of the
    sources: its objects, constructors and regular expressions are parameters,
    with the documented laws the script relies on.  A value that is iterated is
    an array; other iterables do not occur in the options.  The precache answers
    the requests for its own entries before any of the routes. *)

From S2P Require Import Prelude JsNum JsValue Runtime Store StoreSpec System.
Local Open Scope Z_scope.

(** ** Workbox *)

(** The plugins of a strategy: the interceptor of the script, or an instance
    of a class of Workbox. *)
Inductive plugin (I : Type) : Type :=
| Interceptor
| Instance_of (i : I).
Arguments Interceptor {I}.
Arguments Instance_of {I} i.

Class Workbox : Type := {
  wobj : Type;                                   (* [workbox] and what it holds *)
  workbox : wobj;
  member : wobj -> string -> js wobj;            (* [p[c]] *)
  instance : Type;
  construct : wobj -> list jsval -> js instance; (* [new C(...args)] *)
  strategy : Type;
  new_strategy : wobj -> list (string * jsval) -> list (plugin instance) -> js strategy;
  regexp : Type;
  RegExp : jsval -> js regexp;                   (* [new RegExp(v)] *)
  test : regexp -> string -> bool;
  strategy_name : strategy -> string
}.

(** A pattern without special characters. *)
Definition literal_char (c : ascii) : bool :=
  let n := nat_of_ascii c in
  ((97 <=? n) && (n <=? 122) || (n =? 47) || (n =? 95))%nat%bool.
Fixpoint literal (s : string) : bool :=
  match s with EmptyString => true | String c s' => literal_char c && literal s' end.

Class WorkboxLaws (W : Workbox) : Prop := {
  regexp_literal : forall s, literal s = true ->
    exists re, RegExp (VStr s) = Ok re /\ forall url, test re url = str_contains s url;
  strategies_law : exists o, member workbox "strategies" = Ok o
    /\ forall name, In name ["CacheFirst"; "NetworkFirst"] ->
       exists c, member o name = Ok c
       /\ forall opts plugins, exists s, new_strategy c opts plugins = Ok s /\ strategy_name s = name
}.

Section Worker.
Context {W : Workbox}.

(** What a route does with a request. *)
Inductive route_handler : Type :=
| With (s : strategy)
| Or_offline (strategy_name : jsval) (page : jsval).

Inductive wcall : Type :=
| ImportScripts (urls : list jsval)
| SetConfig (v : jsval)
| SetCacheNameDetails (v : jsval)
| ClientsClaim
| SkipWaiting
| CleanupOutdatedCaches
| GoogleAnalytics
| PrecacheAndRoute (entries cacheOptions : jsval)
| RegisterRoute (pattern : regexp) (handler : route_handler) (method : jsval).

Inductive wcmd : Type -> Type :=
| Do_call (c : wcall) : wcmd unit.

Definition do (c : wcall) : prog wcmd unit := trigger (Do_call c).

Definition record_call : handler wcmd (list wcall) :=
  fun R c w => match c with Do_call x => Some (w ++ [x], tt) end.

(** ** The script *)

Definition when (b : bool) (p : prog wcmd unit) : prog wcmd unit := if b then p else Ret tt.

Definition items (v : jsval) : js (list jsval) :=
  match v with VArr l => Ok l | _ => Err TypeError end.

Definition length_of (v : jsval) : js jsval :=
  match v with VArr l => Ok (VInt (Z.of_nat (length l))) | _ => get_prop v "length" end.

(** [prop.split('.')] *)
Fixpoint split_dot (acc s : string) : list string :=
  match s with
  | EmptyString => [acc]
  | String c s' => if Ascii.eqb c "." then acc :: split_dot "" s' else split_dot (acc +:+ String c "") s'
  end.

Fixpoint reduce_members (p : wobj) (l : list string) : js wobj :=
  match l with
  | [] => Ok p
  | c :: l' => q ← member p c; reduce_members q l'
  end.

Definition getProp (obj : wobj) (prop : string) : js wobj := reduce_members obj (split_dot "" prop).

Definition initWorkbox (options : jsval) : prog wcmd unit :=
  config ← lift (get_prop options "config");
  _ ← when (truthy config) (do (SetConfig config));
  cacheNames ← lift (get_prop options "cacheNames");
  _ ← when (truthy cacheNames) (do (SetCacheNameDetails cacheNames));
  clientsClaim ← lift (get_prop options "clientsClaim");
  _ ← when (truthy clientsClaim) (do ClientsClaim);
  skipWaiting ← lift (get_prop options "skipWaiting");
  _ ← when (truthy skipWaiting) (do SkipWaiting);
  cleanup ← lift (get_prop options "cleanupOutdatedCaches");
  _ ← when (truthy cleanup) (do CleanupOutdatedCaches);
  analytics ← lift (get_prop options "offlineAnalytics");
  when (truthy analytics) (do GoogleAnalytics).

Definition precacheAssets (options : jsval) : prog wcmd unit :=
  preCaching ← lift (get_prop options "preCaching");
  n ← lift (length_of preCaching);
  if truthy n then
    cacheOptions ← lift (get_prop options "cacheOptions");
    do (PrecacheAndRoute preCaching cacheOptions)
  else Ret tt.

(** [p => new (getProp(workbox, p.use))(...p.config)] *)
Definition new_plugin (p : jsval) : js (plugin instance) :=
  use ← get_prop p "use";
  cls ← match use with VStr s => getProp workbox s | _ => Err TypeError end;
  config ← get_prop p "config";
  args ← items config;
  i ← construct cls args;
  Ok (Instance_of i).

(** The properties of [{...v}]. *)
Definition spread (v : jsval) : list (string * jsval) := match v with VObj l => l | _ => [] end.

Definition caching_route (entry : jsval) : js (regexp * strategy * jsval) :=
  pattern ← get_prop entry "urlPattern";
  urlPattern ← RegExp pattern;
  method ← get_prop entry "method";
  strategyPlugins ← get_prop entry "strategyPlugins";
  l ← items (js_or strategyPlugins (VArr []));
  plugins ← mapM new_plugin l;
  strategyOptions ← get_prop entry "strategyOptions";
  strategies ← member workbox "strategies";
  name ← get_prop entry "handler";
  cls ← member strategies (to_string name);
  s ← new_strategy cls (spread strategyOptions) (Interceptor :: plugins);
  Ok (urlPattern, s, js_or method (VStr "GET")).

Fixpoint register_all (entries : list jsval) : prog wcmd unit :=
  match entries with
  | [] => Ret tt
  | entry :: l =>
      r ← lift (caching_route entry);
      _ ← do (RegisterRoute r.1.1 (With r.1.2) r.2);
      register_all l
  end.

Definition runtimeCaching (options : jsval) : prog wcmd unit :=
  v ← lift (get_prop options "runtimeCaching");
  entries ← lift (items v);
  register_all entries.

Definition offlinePage (options : jsval) : prog wcmd unit :=
  page ← lift (get_prop options "offlinePage");
  if truthy page then
    pagesURLPattern ← lift (get_prop options "pagesURLPattern");
    re ← lift (RegExp pagesURLPattern);
    offlineStrategy ← lift (get_prop options "offlineStrategy");
    do (RegisterRoute re (Or_offline offlineStrategy page) (VStr "GET"))
  else Ret tt.

Definition workboxExtensions (options : jsval) : prog wcmd unit := Ret tt.
Definition cachingExtensions (options : jsval) : prog wcmd unit := Ret tt.
Definition routingExtensions (options : jsval) : prog wcmd unit := Ret tt.

Definition service_worker (options : jsval) : prog wcmd unit :=
  url ← lift (get_prop options "workboxURL");
  importScripts ← lift (get_prop options "importScripts");
  scripts ← lift (items importScripts);
  _ ← do (ImportScripts (url :: scripts));
  _ ← initWorkbox options;
  _ ← workboxExtensions options;
  _ ← precacheAssets options;
  _ ← cachingExtensions options;
  _ ← runtimeCaching options;
  _ ← offlinePage options;
  routingExtensions options.
End Worker.

(** ** The options *)

Definition caching_entry (urlPattern handler : string) : jsval :=
  VObj [ ("urlPattern", VStr urlPattern); ("handler", VStr handler); ("method", VStr "GET");
         ("strategyPlugins", VArr []) ].

Definition options : jsval := VObj [
  ("workboxURL", VStr "https://cdn.jsdelivr.net/npm/workbox-cdn@5.1.4/workbox/workbox-sw.js");
  ("importScripts", VArr []);
  ("config", VObj [("debug", VBool false)]);
  ("cacheOptions", VObj [("cacheId", VStr "nkn-web-prod"); ("directoryIndex", VStr "/");
                         ("revision", VStr "jCFmMrKmtsAI")]);
  ("clientsClaim", VBool true);
  ("skipWaiting", VBool true);
  ("cleanupOutdatedCaches", VBool true);
  ("offlineAnalytics", VBool false);
  ("preCaching", VArr [VObj [("revision", VStr "jCFmMrKmtsAI"); ("url", VStr "/web/?standalone=true")]]);
  ("runtimeCaching", VArr [caching_entry "/web/_nuxt/" "CacheFirst"; caching_entry "/web/" "NetworkFirst"]);
  ("offlinePage", VNull);
  ("pagesURLPattern", VStr "/web/");
  ("offlineStrategy", VStr "NetworkFirst")
].

(** ** The interceptor *)

(** A request, as [fetch] reads it; [new Request(url, init)] takes from [init]
    its own properties, which a spread request has none of. *)
Record Request : Type := mk_Request {
  rq_url : string;
  rq_method : string;
  rq_cache : string;
  rq_mode : string
}.

Definition requestWillFetch (request : Request) : Request :=
  if String.eqb (rq_cache request) "only-if-cached" && String.eqb (rq_mode request) "no-cors"
  then mk_Request (rq_url request) "GET" "default" "no-cors"
  else request.

(** [ctx.error.message = message]: what is left of [ctx], and what
    [console.error] is given. *)
Definition report (ctx : jsval) (message : jsval -> js jsval) : js (jsval * list jsval) :=
  error ← get_prop ctx "error";
  text ← message error;
  error' ← set_prop error "message" text;
  ctx' ← set_prop ctx "error" error';
  Ok (ctx', [error'; VStr "Details:"; ctx']).

Definition fetchDidFail (ctx : jsval) : js (jsval * list jsval) :=
  report ctx (fun error =>
    request ← get_prop ctx "request";
    url ← get_prop request "url";
    message ← get_prop error "message";
    Ok (js_add (js_add (js_add (VStr "[workbox] Network request for ") url) (VStr " threw an error: ")) message)).

(** The handler's answer is [null]. *)
Definition handlerDidError (ctx : jsval) : js (jsval * list jsval * jsval) :=
  out ← report ctx (fun error =>
    message ← get_prop error "message";
    Ok (js_add (VStr "[workbox] Network handler threw an error: ") message));
  Ok (out, VNull).

(** ** Which route answers a request *)

Section Routing.
Context {W : Workbox}.

Definition own_option (k : string) : jsval := match get_prop options k with Ok v => v | Err _ => VUndef end.

(** The routes are tried in the order in which they were registered. *)
Fixpoint route_for (trace : list wcall) (method url : string) : option route_handler :=
  match trace with
  | [] => None
  | RegisterRoute re h m :: l =>
      if strict_eq m (VStr method) && test re url then Some h else route_for l method url
  | _ :: l => route_for l method url
  end.

(** What the options ask for: the handler of the first entry that matches. *)
Definition handler_for (method url : string) : option string :=
  if String.eqb method "GET" then
    if str_contains "/web/_nuxt/" url then Some "CacheFirst"
    else if str_contains "/web/" url then Some "NetworkFirst" else None
  else None.

Definition strategy_of (h : option route_handler) : option string :=
  match h with Some (With s) => Some (strategy_name s) | _ => None end.

Lemma run_do c (p : prog wcmd unit) w : run record_call (_ ← do c; p) w = run record_call p (w ++ [c]).
Proof. done. Qed.

Context {WL : WorkboxLaws W}.

Lemma caching_route_entry pattern name :
  literal pattern = true -> In name ["CacheFirst"; "NetworkFirst"] ->
  exists re s, caching_route (caching_entry pattern name) = Ok (re, s, VStr "GET")
    /\ (forall url, test re url = str_contains pattern url) /\ strategy_name s = name.
Proof.
  intros Hl Hn. destruct (regexp_literal pattern Hl) as (re & Hre & Htest).
  destruct strategies_law as (o & Ho & Hs). destruct (Hs name Hn) as (c & Hc & Hnew).
  destruct (Hnew [] [Interceptor]) as (s & Es & Hname). exists re, s. split; [| done].
  unfold caching_route. cbn. rewrite Hre. bind_simpl. rewrite Ho. bind_simpl. rewrite Hc. bind_simpl.
  cbn. by rewrite Es.
Qed.

(** What the script leaves: its calls, with the two routes. *)
Lemma worker_runs :
  exists re1 s1 re2 s2,
    run record_call (service_worker options) []
      = ([ ImportScripts [VStr "https://cdn.jsdelivr.net/npm/workbox-cdn@5.1.4/workbox/workbox-sw.js"];
           SetConfig (VObj [("debug", VBool false)]); ClientsClaim; SkipWaiting; CleanupOutdatedCaches;
           PrecacheAndRoute (own_option "preCaching") (own_option "cacheOptions");
           RegisterRoute re1 (With s1) (VStr "GET"); RegisterRoute re2 (With s2) (VStr "GET") ], Done (Ok tt))
    /\ (forall url, test re1 url = str_contains "/web/_nuxt/" url) /\ strategy_name s1 = "CacheFirst"
    /\ (forall url, test re2 url = str_contains "/web/" url) /\ strategy_name s2 = "NetworkFirst".
Proof.
  destruct (caching_route_entry "/web/_nuxt/" "CacheFirst") as (re1 & s1 & E1 & T1 & N1); [done | cbn; tauto |].
  destruct (caching_route_entry "/web/" "NetworkFirst") as (re2 & s2 & E2 & T2 & N2); [done | cbn; tauto |].
  exists re1, s1, re2, s2. split; [| done].
  cbn -[caching_route caching_entry]. rewrite E1. cbn -[caching_route caching_entry]. by rewrite E2.
Qed.

Definition registered : list wcall := (run record_call (service_worker options) []).1.

Lemma registered_routes method url : strategy_of (route_for registered method url) = handler_for method url.
Proof.
  unfold registered. destruct worker_runs as (re1 & s1 & re2 & s2 & -> & T1 & N1 & T2 & N2).
  cbn [fst route_for strict_eq]. rewrite T1, T2, (String.eqb_sym "GET"). unfold handler_for.
  destruct (String.eqb method "GET"); [| done]. cbn [andb].
  destruct (str_contains "/web/_nuxt/" url); [cbn; by rewrite N1 |].
  destruct (str_contains "/web/" url); [cbn; by rewrite N2 | done].
Qed.

(** ** The calls of the store *)

Lemma contains_cons p q c s :
  Ascii.eqb p c = false -> str_contains (String p q) (String c s) = str_contains (String p q) s.
Proof.
  intros H. cbn [str_contains String.prefix]. destruct (ascii_dec p c) as [-> | _]; [| done].
  by rewrite Ascii.eqb_refl in H.
Qed.

Lemma contains_slash q s :
  str_contains (String "/" q) (String "/" s) = String.prefix q s || str_contains (String "/" q) s.
Proof. reflexivity. Qed.

(** A text without a slash does not matter to a search that begins with one. *)
Lemma contains_skip q host s :
  str_contains "/" host = false ->
  str_contains (String "/" q) (host +:+ s) = str_contains (String "/" q) s.
Proof.
  induction host as [|c host IH]; intros H; [done |]. rewrite string_app_cons.
  cbn [str_contains String.prefix] in H. apply orb_false_iff in H as [H1 H2].
  destruct (ascii_dec "/" c) as [<- | Hc]; [by destruct host |].
  rewrite contains_cons by (by apply Ascii.eqb_neq). by apply IH.
Qed.

Lemma prefix_host host s :
  str_contains "/" host = false -> str_contains ":" host = true -> String.prefix "web/" (host +:+ String "/" s) = false.
Proof.
  intros Hs Hc. destruct (String.prefix "web/" _) eqn:E; [| done]. exfalso.
  destruct host as [|a [|b [|c [|d host]]]]; [done | ..]; rewrite ?string_app_cons in E; cbn in E;
    repeat (case_match; simplify_eq/=; try done).
  by destruct host.
Qed.

Lemma contains_weaken p q s : str_contains (p +:+ q) s = true -> str_contains p s = true.
Proof.
  assert (forall p s, String.prefix (p +:+ q) s = true -> String.prefix p s = true) as Hp.
  { clear. induction p as [|c p IH]; intros [|d s]; rewrite ?string_app_cons; try done.
    cbn. destruct (ascii_dec c d); [apply IH | done]. }
  induction s as [|c s IH]; cbn [str_contains]; rewrite !orb_true_iff; intros [H | H]; try done; [left; by apply Hp.. |].
  right. by apply IH.
Qed.

(** The address of a page of the server: a host with its port. *)
Definition at_host (scheme host path : string) : string := scheme +:+ ("://" +:+ (host +:+ path)).

Lemma api_not_web scheme host c :
  In scheme ["http"; "https"] -> str_contains "/" host = false -> str_contains ":" host = true ->
  str_contains "/web/" (at_host scheme host (r_url (call_request c))) = false.
Proof.
  intros Hsch Hs Hc. set (u := r_url (call_request c)).
  assert (exists v, u = String "/" v /\ str_contains "/web/" u = false) as (v & Hv & Hu).
  { unfold u. destruct c as [ | | | | | | c pw | c pw | pw]; [.. | destruct c | destruct c |]; eexists; by split. }
  assert (str_contains "/web/" (host +:+ u) = false) as Hh by (by rewrite contains_skip).
  assert (String.prefix "web/" (host +:+ u) = false) as Hp by (rewrite Hv; by apply prefix_host).
  unfold at_host. generalize dependent (host +:+ u)%string. intros r Hr Hp.
  destruct Hsch as [<- | [<- | []]]; str_simpl; rewrite ?contains_cons by reflexivity;
    rewrite !contains_slash, Hp, Hr; reflexivity.
Qed.

End Routing.

(** ** The theorem at a concrete Workbox *)

Module WorkerSamples.
#[export] Instance toy : Workbox := {
  wobj := list string;
  workbox := [];
  member := fun p c => Ok (p ++ [c]);
  instance := unit;
  construct := fun _ _ => Ok tt;
  strategy := string;
  new_strategy := fun c _ _ => Ok (List.last c "");
  regexp := string;
  RegExp := fun v => Ok (to_string v);
  test := str_contains;
  strategy_name := fun s => s
}.
#[export] Instance toy_laws : WorkboxLaws toy.
Proof.
  constructor.
  - intros s _. by exists s.
  - exists ["strategies"]. split; [done |]. intros name _. exists ["strategies"; name]. split; [done |].
    intros opts plugins. by exists name.
Qed.

End WorkerSamples.
