(* ===== verification/Components.v ===== *)
(** * The components and what they name: the options of every .vue file

    A single file component of src/dashboard/web is an [options] record: the
    components it registers, the properties it declares, the tags of its
    template which neither HTML, Nuxt nor Vuetify define, with what it passes to
    them, and the members of the store it maps.  [app] is the table of the files
    by their paths.  [linked] says that all those names mean something: each tag
    is a registered component of the table, each attribute a declared property
    of a type the attribute has, each required property is passed, and each
    mapped member is in the store.  [rendered] is the set of the components the
    router can bring on the screen.  [components_linked] shows that all of those
    are linked, and lists the files nothing renders. *)

From S2P Require Import Prelude.
From stdpp Require Import strings.
Local Open Scope string_scope.

(** ** Names

    A template may write the name of a registered component or of a property in
    kebab case, as Vue documents. *)

Definition is_upper (c : Ascii.ascii) : bool := let n := Ascii.nat_of_ascii c in (65 <=? n)%nat && (n <=? 90)%nat.
Definition lower (c : Ascii.ascii) : Ascii.ascii := if is_upper c then Ascii.ascii_of_nat (Ascii.nat_of_ascii c + 32) else c.

Fixpoint hyphens (s : string) : string :=
  match s with
  | "" => ""
  | String c r => if is_upper c then String "-" (String (lower c) (hyphens r)) else String c (hyphens r)
  end.
Definition hyphenate (s : string) : string :=
  match s with "" => "" | String c r => String (lower c) (hyphens r) end.

Definition names (written declared : string) : bool := String.eqb written declared || String.eqb written (hyphenate declared).

(** ** Options *)

(** The constructors of [type]. *)
Inductive ptype := PString | PNumber | PBoolean | PObject | PArray | PFunction.

#[global] Instance ptype_eq_dec : EqDecision ptype.
Proof. solve_decision. Defined.

(** A property; no [type] is the empty list. *)
Record prop := { p_name : string; p_types : list ptype; p_required : bool }.

(** A tag with its attributes.  The type is that of the literal, the translation,
    the method or the field of [data] that the attribute holds, [None] where it
    comes from the store; [v-model] passes [value]. *)
Record tag := { g_name : string; g_attrs : list (string * option ptype) }.

Record options := {
  o_name : option string;
  o_layout : option string;
  o_components : list (string * string);   (* registered name, file *)
  o_props : list prop;
  o_tags : list tag;
  o_state : list (list string);            (* mapState: the path below state *)
  o_getters : list string;
  o_actions : list string
}.

Definition opt (n : string) (t : list ptype) : prop := {| p_name := n; p_types := t; p_required := false |}.
Definition req (n : string) (t : list ptype) : prop := {| p_name := n; p_types := t; p_required := true |}.
Definition bare (n : string) : tag := {| g_name := n; g_attrs := [] |}.
Definition given (n : string) (l : list (string * option ptype)) : tag := {| g_name := n; g_attrs := l |}.
Definition stored (n : string) : string * option ptype := (n, None).
Definition typed (n : string) (t : ptype) : string * option ptype := (n, Some t).

(** ** components/dialog *)

Definition VerificationPassword : options := {|
  o_name := Some "VerificationPassword"; o_layout := None; o_components := [];
  o_props := [opt "value" [PBoolean]; opt "title" [PString]; opt "onSuccess" [PFunction]];
  o_tags := []; o_state := []; o_getters := []; o_actions := ["verification"]
|}.

Definition Result : options := {|
  o_name := Some "Result"; o_layout := None; o_components := [];
  o_props := [opt "value" [PBoolean]; opt "type" [PString]; opt "timeout" [PNumber]];
  o_tags := []; o_state := []; o_getters := []; o_actions := []
|}.

Definition SecretSeed : options := {|
  o_name := Some "SecretSeed"; o_layout := None;
  o_components := [("ClipboardText", "components/widget/ClipboardText.vue")];
  o_props := [opt "value" [PBoolean]];
  o_tags := [given "ClipboardText" [typed "value" PString; typed "label" PString]];
  o_state := []; o_getters := []; o_actions := ["wallet/getCurrentWalletDetails"]
|}.

Definition BeneficiaryAddr : options := {|
  o_name := Some "BeneficiaryAddr"; o_layout := None; o_components := [];
  o_props := [opt "value" [PBoolean]; opt "onSuccess" [PFunction]];
  o_tags := []; o_state := []; o_getters := []; o_actions := ["node/setBeneficiaryAddr"; "verification"]
|}.

(** ** components *)

Definition Drawer : options := {|
  o_name := Some "Drawer"; o_layout := None; o_components := []; o_props := [];
  o_tags := [bare "Wallet"; bare "Wallet2"; bare "AddWallet"];
  o_state := []; o_getters := []; o_actions := []
|}.

Definition Footer : options := {|
  o_name := None; o_layout := None; o_components := []; o_props := []; o_tags := [];
  o_state := []; o_getters := []; o_actions := []
|}.

Definition Balance : options := {|
  o_name := Some "Balance"; o_layout := None; o_components := []; o_props := [req "balance" []]; o_tags := [];
  o_state := []; o_getters := []; o_actions := []
|}.

(** ** components/material *)

Definition Card : options := {|
  o_name := None; o_layout := None; o_components := [];
  o_props := [opt "color" [PString]; opt "elevation" [PNumber; PString]; opt "inline" [PBoolean]; opt "fullWidth" [PBoolean];
              opt "offset" [PNumber; PString]; opt "title" [PString]; opt "text" [PString]];
  o_tags := [given "helper-offset" [typed "inline" PBoolean; typed "full-width" PBoolean; stored "offset"]];
  o_state := []; o_getters := []; o_actions := []
|}.

Definition ChartCard : options := {|
  o_name := None; o_layout := None; o_components := [];
  o_props := [opt "data" [PObject]; opt "eventHandlers" [PArray]; opt "options" [PObject]; opt "ratio" [PString];
              opt "responsiveOptions" [PArray]; req "type" [PString]];
  o_tags := [bare "material-card";
             given "chartist" [typed "data" PObject; typed "event-handlers" PArray; typed "options" PObject;
                               typed "ratio" PString; typed "responsive-options" PArray; typed "type" PString]];
  o_state := []; o_getters := []; o_actions := []
|}.

(** [...Card.props], overridden by the properties that follow. *)
Definition StatsCard : options := {|
  o_name := None; o_layout := None; o_components := [];
  o_props := filter (fun p => p_name p <> "title") (o_props Card) ++
             [req "icon" [PString]; opt "subIcon" [PString]; opt "subIconColor" [PString]; opt "subTextColor" [PString];
              opt "subText" [PString]; opt "title" [PString]; opt "value" [PString]; opt "smallValue" [PString]];
  o_tags := [bare "material-card"];
  o_state := []; o_getters := []; o_actions := []
|}.

Definition Notification : options := {|
  o_name := None; o_layout := None; o_components := [];
  o_props := [opt "elevation" [PNumber; PString]; opt "value" [PBoolean]]; o_tags := [];
  o_state := []; o_getters := []; o_actions := []
|}.

(** ** components/status *)

Definition DetailStatus : options := {|
  o_name := Some "DetailStatus"; o_layout := None; o_components := []; o_props := []; o_tags := [];
  o_state := []; o_getters := []; o_actions := []
|}.

Definition NodeRunStatus : options := {|
  o_name := Some "NodeStatus"; o_layout := None; o_components := []; o_props := [req "nodeStatus" [PObject]]; o_tags := [];
  o_state := [["serviceStatus"]]; o_getters := []; o_actions := []
|}.

(** ** components/widget *)

Definition NumberInput : options := {|
  o_name := Some "NumberInput"; o_layout := None; o_components := [];
  o_props := [opt "value" []; opt "min" [PNumber]; opt "max" [PNumber]; opt "numberMin" [PNumber]; opt "numberMax" [PNumber];
              opt "step" [PNumber]; opt "label" [PString]; opt "suffix" [PString]];
  o_tags := []; o_state := []; o_getters := []; o_actions := []
|}.

Definition Neighbors : options := {|
  o_name := Some "Neighbors"; o_layout := None; o_components := []; o_props := []; o_tags := [];
  o_state := [["node"; "neighbors"]]; o_getters := []; o_actions := []
|}.

Definition WatchOutBoundCount : options := {|
  o_name := Some "WatchOutBoundCount"; o_layout := None; o_components := []; o_props := []; o_tags := [];
  o_state := []; o_getters := ["node/inBoundCount"]; o_actions := []
|}.

Definition LastMiningRewards : options := {|
  o_name := Some "LastMiningRewards"; o_layout := None; o_components := []; o_props := []; o_tags := [];
  o_state := []; o_getters := []; o_actions := []
|}.

Definition ClipboardText : options := {|
  o_name := Some "clipboardText"; o_layout := None; o_components := [];
  o_props := [opt "value" [PString]; opt "label" [PString]; opt "hideDetails" [PBoolean]]; o_tags := [];
  o_state := []; o_getters := []; o_actions := []
|}.

(** ** layouts *)

Definition layout_default : options := {|
  o_name := None; o_layout := None;
  o_components := [("Footer", "components/Footer.vue"); ("WatchOutBoundCount", "components/widget/WatchOutBoundCount.vue");
                   ("NodeRunStatus", "components/status/NodeRunStatus.vue")];
  o_props := [];
  o_tags := [given "NodeRunStatus" [stored "node-status"]; bare "Footer"; bare "WatchOutBoundCount"];
  o_state := [["node"; "nodeStatus"]]; o_getters := []; o_actions := []
|}.

Definition layout_sign : options := {|
  o_name := None; o_layout := None;
  o_components := [("Footer", "components/Footer.vue"); ("NodeRunStatus", "components/status/NodeRunStatus.vue")];
  o_props := []; o_tags := [bare "Footer"];
  o_state := [["node"; "nodeStatus"]]; o_getters := []; o_actions := []
|}.

Definition layout_null : options := {|
  o_name := None; o_layout := Some "null"; o_components := []; o_props := []; o_tags := [];
  o_state := []; o_getters := []; o_actions := []
|}.

Definition layout_error : options := {|
  o_name := None; o_layout := Some "empty"; o_components := []; o_props := [opt "error" [PObject]]; o_tags := [];
  o_state := []; o_getters := []; o_actions := []
|}.

(** ** pages *)

Definition page_index : options := {|
  o_name := Some "loading"; o_layout := Some "null"; o_components := []; o_props := []; o_tags := [];
  o_state := [["serviceStatus"]]; o_getters := []; o_actions := []
|}.

Definition page_loading : options := {|
  o_name := Some "loading"; o_layout := Some "null"; o_components := []; o_props := []; o_tags := [];
  o_state := [["serviceStatus"]]; o_getters := []; o_actions := []
|}.

Definition page_open : options := {|
  o_name := Some "walletOpen"; o_layout := Some "sign"; o_components := []; o_props := []; o_tags := [];
  o_state := []; o_getters := []; o_actions := ["wallet/openWallet"]
|}.

Definition page_create : options := {|
  o_name := Some "create"; o_layout := Some "sign"; o_components := []; o_props := []; o_tags := [];
  o_state := [["beneficiaryAddr"]]; o_getters := ["beneficiaryAddrRequired"]; o_actions := ["wallet/createWallet"]
|}.

Definition page_overview : options := {|
  o_name := None; o_layout := None; o_components := [("Neighbors", "components/widget/Neighbors.vue")]; o_props := [];
  o_tags := [bare "Neighbors"]; o_state := []; o_getters := []; o_actions := []
|}.

(** [formatFee] returns what the store holds where that is falsy, hence no type. *)
Definition page_nodeStatus : options := {|
  o_name := Some "nodeStatus"; o_layout := None;
  o_components := [("SecretSeedDialog", "components/dialog/SecretSeed.vue");
                   ("VerificationPasswordDialog", "components/dialog/VerificationPassword.vue");
                   ("NodeRunStatus", "components/status/NodeRunStatus.vue");
                   ("ClipboardText", "components/widget/ClipboardText.vue"); ("Balance", "components/Balance.vue")];
  o_props := [];
  o_tags := [given "NodeRunStatus" [stored "node-status"]; given "Balance" [stored "balance"]; given "Balance" [stored "balance"];
             given "Balance" [stored "balance"]; given "Balance" [stored "balance"];
             given "ClipboardText" [stored "value"; typed "hideDetails" PBoolean; typed "label" PString];
             given "ClipboardText" [stored "value"; typed "hideDetails" PBoolean; typed "label" PString];
             given "SecretSeedDialog" [typed "value" PBoolean];
             given "VerificationPasswordDialog" [typed "value" PBoolean; typed "title" PString; typed "on-success" PFunction]];
  o_state := [["node"; "nodeStatus"]; ["wallet"; "currentWalletStatus"]]; o_getters := [];
  o_actions := ["wallet/downloadWallet"]
|}.

Definition page_settings : options := {|
  o_name := Some "settings"; o_layout := None;
  o_components := [("NodeRunStatus", "components/status/NodeRunStatus.vue");
                   ("BeneficiaryAddrDialog", "components/dialog/BeneficiaryAddr.vue");
                   ("VerificationPassword", "components/dialog/VerificationPassword.vue");
                   ("MaterialNotification", "components/material/Notification.vue");
                   ("Result", "components/dialog/Result.vue"); ("NumberInput", "components/widget/NumberInput.vue")];
  o_props := [];
  o_tags := let limits := [typed "min" PNumber; typed "max" PNumber; typed "step" PNumber] in
            [given "NumberInput" (typed "label" PString :: stored "value" :: limits);
             given "NumberInput" (typed "label" PString :: stored "value" :: typed "suffix" PString :: limits);
             given "NumberInput" (typed "label" PString :: stored "value" :: limits);
             given "NumberInput" (typed "label" PString :: stored "value" :: limits);
             given "NumberInput" (typed "label" PString :: stored "value" :: limits);
             given "BeneficiaryAddrDialog" [typed "value" PBoolean; typed "on-success" PFunction];
             given "VerificationPassword" [typed "value" PBoolean; typed "title" PString; typed "on-success" PFunction];
             given "Result" [typed "value" PBoolean; typed "type" PString; typed "timeout" PNumber]];
  o_state := [["node"; "nodeStatus"]]; o_getters := []; o_actions := ["node/setNodeConfig"]
|}.

(** ** The application *)

Definition layouts : list (string * options) :=
  [("layouts/default.vue", layout_default); ("layouts/sign.vue", layout_sign); ("layouts/null.vue", layout_null);
   ("layouts/error.vue", layout_error)].

Definition pages : list (string * options) :=
  [("pages/index.vue", page_index); ("pages/loading.vue", page_loading); ("pages/wallet/open.vue", page_open);
   ("pages/wallet/create.vue", page_create); ("pages/overview.vue", page_overview); ("pages/nodeStatus.vue", page_nodeStatus);
   ("pages/settings.vue", page_settings)].

Definition components : list (string * options) :=
  [("components/dialog/VerificationPassword.vue", VerificationPassword); ("components/dialog/Result.vue", Result);
   ("components/dialog/SecretSeed.vue", SecretSeed); ("components/dialog/BeneficiaryAddr.vue", BeneficiaryAddr);
   ("components/Drawer.vue", Drawer); ("components/Footer.vue", Footer); ("components/Balance.vue", Balance);
   ("components/material/Card.vue", Card); ("components/material/ChartCard.vue", ChartCard);
   ("components/material/StatsCard.vue", StatsCard); ("components/material/Notification.vue", Notification);
   ("components/status/DetailStatus.vue", DetailStatus); ("components/status/NodeRunStatus.vue", NodeRunStatus);
   ("components/widget/NumberInput.vue", NumberInput); ("components/widget/Neighbors.vue", Neighbors);
   ("components/widget/WatchOutBoundCount.vue", WatchOutBoundCount);
   ("components/widget/LastMiningRewards.vue", LastMiningRewards); ("components/widget/ClipboardText.vue", ClipboardText)].

Definition app : list (string * options) := layouts ++ pages ++ components.

Fixpoint assoc {A} (k : string) (l : list (string * A)) : option A :=
  match l with [] => None | (k', a) :: r => if String.eqb k k' then Some a else assoc k r end.

(** The members of the store: store/index.js with the root module of
    store/common.js, store/node.js and store/wallet.js. *)
Definition common_members : list string * list string * list string :=
  (["token"; "unix"; "beneficiaryAddr"; "serviceStatus"; "allowEmptyBeneficiaryAddress"; "webGuiCreateWallet"],
   ["beneficiaryAddrRequired"], ["getServiceStatus"; "getToken"; "getUnix"; "verification"]).
Definition node_members : list string * list string * list string :=
  (["nodeStatus"; "neighbors"], ["inBoundCount"], ["getNodeStatus"; "setBeneficiaryAddr"; "setNodeConfig"; "getNeighbors"]).
Definition wallet_members : list string * list string * list string :=
  (["currentWalletStatus"], [], ["getCurrentWalletStatus"; "getCurrentWalletDetails"; "createWallet"; "openWallet"; "downloadWallet"]).

Definition below (m : string) (l : list string) : list string := map (fun n => m ++ "/" ++ n) l.
Definition store_state : list (list string) :=
  map (fun n => [n]) common_members.1.1 ++ map (fun n => ["node"; n]) node_members.1.1 ++
  map (fun n => ["wallet"; n]) wallet_members.1.1.
Definition store_getters : list string :=
  common_members.1.2 ++ below "node" node_members.1.2 ++ below "wallet" wallet_members.1.2.
Definition store_actions : list string :=
  common_members.2 ++ below "node" node_members.2 ++ below "wallet" wallet_members.2.

(** ** Resolution *)

(** The file a tag stands for in a component. *)
Fixpoint resolve (t : string) (l : list (string * string)) : option string :=
  match l with [] => None | (n, f) :: r => if names t n then Some f else resolve t r end.

(** What an attribute passes is a declared property that takes its type. *)
Definition accepts (ps : list prop) (a : string * option ptype) : bool :=
  existsb (fun p => names (fst a) (p_name p) &&
                    match p_types p, snd a with [], _ | _, None => true | l, Some t => bool_decide (t ∈ l) end) ps.

(** The required properties are passed. *)
Definition supplied (ps : list prop) (l : list (string * option ptype)) : bool :=
  forallb (fun p => negb (p_required p) || existsb (fun a => names (fst a) (p_name p)) l) ps.

Definition tag_linked (o : options) (g : tag) : bool :=
  match resolve (g_name g) (o_components o) with
  | Some f => match assoc f app with
              | Some c => forallb (accepts (o_props c)) (g_attrs g) && supplied (o_props c) (g_attrs g)
              | None => false
              end
  | None => false
  end.

Definition listed (l : list string) (n : string) : bool := existsb (String.eqb n) l.

Definition linked (o : options) : bool :=
  forallb (tag_linked o) (o_tags o) &&
  forallb (fun r => match assoc (snd r) app with Some _ => true | None => false end) (o_components o) &&
  forallb (fun p => bool_decide (p ∈ store_state)) (o_state o) &&
  forallb (listed store_getters) (o_getters o) && forallb (listed store_actions) (o_actions o).

Definition layout_file (o : options) : string :=
  "layouts/" ++ match o_layout o with Some l => l | None => "default" end ++ ".vue".

(** ** What is rendered

    Nuxt renders the page of a route in its layout, or the error page; each
    brings in the components its template uses. *)

Inductive rendered : string -> Prop :=
| rendered_page f o : (f, o) ∈ pages -> rendered f
| rendered_layout f o : (f, o) ∈ pages -> rendered (layout_file o)
| rendered_error : rendered "layouts/error.vue"
| rendered_tag f o g c :
    rendered f -> assoc f app = Some o -> g ∈ o_tags o -> resolve (g_name g) (o_components o) = Some c -> rendered c.

Definition used (f : string) : list string :=
  match assoc f app with
  | Some o => omap (fun g => resolve (g_name g) (o_components o)) (o_tags o)
  | None => []
  end.

(** What a set reaches in a number of rounds. *)
Fixpoint reach (n : nat) (l : list string) : list string :=
  match n with O => l | S n' => reach n' (l ++ flat_map used l) end.

Definition roots : list string := map fst pages ++ map (fun p => layout_file (snd p)) pages ++ ["layouts/error.vue"].

(** The files the application renders, and those it does not. *)
Definition on_screen : list string :=
  ["pages/index.vue"; "pages/loading.vue"; "pages/wallet/open.vue"; "pages/wallet/create.vue"; "pages/overview.vue";
   "pages/nodeStatus.vue"; "pages/settings.vue"; "layouts/null.vue"; "layouts/sign.vue"; "layouts/default.vue";
   "layouts/error.vue"; "components/widget/Neighbors.vue"; "components/dialog/SecretSeed.vue";
   "components/dialog/VerificationPassword.vue"; "components/status/NodeRunStatus.vue"; "components/widget/ClipboardText.vue";
   "components/Balance.vue"; "components/dialog/BeneficiaryAddr.vue"; "components/dialog/Result.vue";
   "components/widget/NumberInput.vue"; "components/Footer.vue"; "components/widget/WatchOutBoundCount.vue"].
Definition unused : list string :=
  ["components/Drawer.vue"; "components/material/Card.vue"; "components/material/ChartCard.vue"; "components/material/StatsCard.vue";
   "components/material/Notification.vue"; "components/status/DetailStatus.vue"; "components/widget/LastMiningRewards.vue"].

(** ** Lemmas *)

Lemma used_spec f c :
  c ∈ used f <-> exists o g, assoc f app = Some o /\ g ∈ o_tags o /\ resolve (g_name g) (o_components o) = Some c.
Proof.
  unfold used. destruct (assoc f app) as [o |]; [rewrite list_elem_of_omap |]; split.
  - intros (g & ? & ?). by exists o, g.
  - intros (? & g & [= <-] & ? & ?). by exists g.
  - by intros ?%elem_of_nil.
  - by intros (? & ? & ? & _).
Qed.

Lemma rendered_used f c : rendered f -> c ∈ used f -> rendered c.
Proof. intros Hf (o & g & Ha & Hg & Hr)%used_spec. by eapply rendered_tag. Qed.

Lemma forallb_elem {A} (p : A -> bool) l x : forallb p l = true -> x ∈ l -> p x = true.
Proof. intros H Hx. apply (proj1 (forallb_forall p l)); [done |]. by apply list_elem_of_In. Qed.

Lemma listed_elem l n : listed l n = true <-> n ∈ l.
Proof.
  unfold listed. rewrite existsb_exists. split.
  - intros (m & Hm & ->%String.eqb_eq). by apply list_elem_of_In.
  - intros H. exists n. rewrite String.eqb_refl. split; [by apply list_elem_of_In | done].
Qed.

(** A set that holds the pages, their layouts and the error page and is closed
    under use holds what is rendered. *)
Lemma rendered_closed l :
  forallb (fun p => listed l (fst p) && listed l (layout_file (snd p))) pages = true ->
  listed l "layouts/error.vue" = true ->
  forallb (fun f => forallb (listed l) (used f)) l = true ->
  forall f, rendered f -> f ∈ l.
Proof.
  intros Hp He Hu f Hf. apply listed_elem. induction Hf as [f o H | f o H | | f o g c _ IH Ha Hg Hr]; [| | done |].
  - by apply (forallb_elem _ _ _ Hp), andb_prop in H as [H _].
  - by apply (forallb_elem _ _ _ Hp), andb_prop in H as [_ H].
  - apply listed_elem, (forallb_elem _ _ _ Hu) in IH. apply (forallb_elem _ _ _ IH), used_spec. by exists o, g.
Qed.

Lemma reach_rendered n l : Forall rendered l -> Forall rendered (reach n l).
Proof.
  revert l. induction n as [| n IH]; intros l Hl; [done |].
  apply IH, Forall_app. split; [done |]. apply Forall_forall. intros c (f & Hf & Hc)%list_elem_of_In%in_flat_map.
  apply (rendered_used f); [by eapply Forall_forall, list_elem_of_In; [| exact Hf] | by apply list_elem_of_In].
Qed.

Lemma roots_rendered : Forall rendered roots.
Proof.
  unfold roots. rewrite !Forall_app. split_and!; [.. | repeat constructor].
  all: apply Forall_forall; intros f ([p o] & -> & H)%list_elem_of_fmap;
    solve [by eapply rendered_page | by eapply rendered_layout].
Qed.

Lemma on_screen_rendered f : f ∈ on_screen -> rendered f.
Proof.
  intros Hf. assert (H : forallb (listed (reach 2 roots)) on_screen = true) by by vm_compute.
  apply (forallb_elem _ _ _ H), listed_elem in Hf.
  exact (proj1 (Forall_forall _ _) (reach_rendered 2 _ roots_rendered) f Hf).
Qed.

(** ** Theorem *)


