(* ===== verification/EndToEnd.v ===== *)
(** * The browser and the node together

    What a user does on a page, and what it does to the node: the requests of
    the store go through the interceptor to the routes, and the answers back
    (Transport.v).  Opening and creating the wallet, the settings, the
    beneficiary, the seed, the backup, and what the pages show of the node. *)

From S2P Require Import Prelude JsNum JsValue Json GoJson GoMarshal Fixed64 CryptoLib CryptoHelpers Address DecimalLib MathHelpers Runtime Store AxiosPlugin NuxtConfig RouterPlugin Widgets Server Vault Config ConfigSpec NodeState Routes NodeRuns Protocol StoreSpec Transport System Interleaving Pages.
Local Open Scope Z_scope.

(** The answers of the sync routes are what the clock of the store relies on. *)
Lemma sync_honest tmax n g now r :
  0 <= now <= tmax ->
  honest tmax (EReply n GetToken (Ok (VObj [("data", sync_token g now)])) r)
  /\ honest tmax (EReply n GetUnix (Ok (VObj [("data", sync_unix now)])) r).
Proof. intros H. split; [by exists (sync_token g now), (Token g), now | by exists (sync_unix now), now]. Qed.

(** ** How browser and node come to agree *)

(** The world after [j] ticks of the clock of the store. *)
Definition ticked (j : nat) (w : world) : world := Nat.iter j do_tick w.

Lemma ticked_clock j w t u : token (common (w_state w)) = t -> unix (common (w_state w)) = VInt u -> 0 <= u ->
  u + Z.of_nat j < 2 ^ 53 ->
  token (common (w_state (ticked j w))) = t /\ unix (common (w_state (ticked j w))) = VInt (u + Z.of_nat j).
Proof.
  intros Ht Hu H0. induction j as [|j IH]; intros Hj.
  - cbn. by rewrite Z.add_0_r.
  - destruct IH as [IHt IHu]; [lia |]. change (ticked (S j) w) with (do_tick (ticked j w)).
    unfold do_tick, exec_commit. cbn [apply_mutation fst]. cbn [w_state add_logs set_state common with_common tick set_clock token unix].
    rewrite IHu. split; [done |]. cbn [to_number VInt]. rewrite num_add_int by (unfold safe; lia). unfold VInt. do 2 f_equal. lia.
Qed.

(** The token that is in force does not change before it expires. *)
Lemma token_kept uuid uuid' now now' g cookie cookie' :
  0 <= now ->
  let m := token_middleware uuid now g cookie in
  m.2.1 = Token m.1 -> cookie' = Some m.2 \/ cookie' = None -> now' <= TokenExp m.1 + TokenExpSec ->
  (token_middleware uuid' now' m.1 cookie').2.1 = Token m.1.
Proof.
  intros Hn m Hm Hc Hexp. assert (TokenExp m.1 <> 0) as Hz.
  { unfold m, token_middleware, TokenExpSec. destruct (Z.eqb_spec (TokenExp g) 0); cbn; [lia |]. by destruct (_ <? _); cbn; lia. }
  unfold token_middleware at 1. apply Z.eqb_neq in Hz as ->. destruct (Z.ltb_spec (TokenExp m.1 + TokenExpSec) now'); [lia |].
  cbn. by destruct Hc as [-> | ->].
Qed.

(** A node that misses its wallet file sends every navigation of the browser to
    the create page, also one that is running. *)
Lemma created_still_asked localePath (LP : LocalePaths localePath) w s to :
  serviceStatus (common (w_state w)) = VInt (n_Status s) -> 0 <= n_Status s < 2 ^ 31 -> flag_at 1 s = true ->
  str_contains "/wallet/create" to = false -> navigate localePath 2 w to = Some (localePath "wallet-create").
Proof.
  intros Hs Hr Hf Hto. destruct (navigate_lands localePath w to) as (final & -> & Hland). f_equal.
  assert (n_Status s <> 0) as Hz by (intros E; unfold flag_at in Hf; by rewrite E, Z.bits_0 in Hf).
  unfold lands, landing_of in Hland. rewrite Hs in Hland. change SERVICE_STATUS_DEFAULT with 0 in Hland.
  rewrite strict_eq_int, has_bit_int in Hland by flag_lia. destruct (Z.eqb_spec (n_Status s) 0) as [| _]; [done |].
  change SERVICE_STATUS_NO_WALLET_FILE with (Z.shiftl 1 1) in Hland. rewrite flag_testbit in Hland by lia.
  unfold flag_at in Hf. rewrite Hf in Hland. by destruct Hland as [[-> H] | ->]; [congruence |].
Qed.

(** ** The settings form and the node *)

Section EndToEnd.
Context {J : CryptoJS} {C : StdCrypto} {CL : StdCryptoLaws C} {JL : CryptoJSLaws C J}.
Context {A : AddressLib} {AL : AddressLaws A} {V : VaultLib} {VL : VaultLaws V}.

Lemma set_field_name f raw v d :
  NodeConfig.set (field_name f) raw v d =
  match f with
  | RegisterIDTxnFee => x ← to_int64 (NodeConfig.RegisterIDTxnFee d) raw v;
      Some (NodeConfig.mk x (NodeConfig.NumLowFeeTxnPerBlock d) (NodeConfig.LowFeeTxnSizePerBlock d)
              (NodeConfig.LowTxnFee d) (NodeConfig.LowTxnFeePerSize d))
  | NumLowFeeTxnPerBlock => x ← to_uint32 (NodeConfig.NumLowFeeTxnPerBlock d) raw v;
      Some (NodeConfig.mk (NodeConfig.RegisterIDTxnFee d) x (NodeConfig.LowFeeTxnSizePerBlock d)
              (NodeConfig.LowTxnFee d) (NodeConfig.LowTxnFeePerSize d))
  | LowFeeTxnSizePerBlock => x ← to_uint32 (NodeConfig.LowFeeTxnSizePerBlock d) raw v;
      Some (NodeConfig.mk (NodeConfig.RegisterIDTxnFee d) (NodeConfig.NumLowFeeTxnPerBlock d) x
              (NodeConfig.LowTxnFee d) (NodeConfig.LowTxnFeePerSize d))
  | LowTxnFee => x ← to_int64 (NodeConfig.LowTxnFee d) raw v;
      Some (NodeConfig.mk (NodeConfig.RegisterIDTxnFee d) (NodeConfig.NumLowFeeTxnPerBlock d)
              (NodeConfig.LowFeeTxnSizePerBlock d) x (NodeConfig.LowTxnFeePerSize d))
  | LowTxnFeePerSize => x ← to_float64 (NodeConfig.LowTxnFeePerSize d) v;
      Some (NodeConfig.mk (NodeConfig.RegisterIDTxnFee d) (NodeConfig.NumLowFeeTxnPerBlock d)
              (NodeConfig.LowFeeTxnSizePerBlock d) (NodeConfig.LowTxnFee d) x)
  end.
Proof. by destruct f. Qed.

Definition fits (z : field -> Z) : bool := (z NumLowFeeTxnPerBlock <? 2 ^ 32) && (z LowFeeTxnSizePerBlock <? 2 ^ 32).

Definition data_of (z : field -> Z) : NodeConfig.SetConfigData :=
  NodeConfig.mk (z RegisterIDTxnFee) (z NumLowFeeTxnPerBlock) (z LowFeeTxnSizePerBlock) (z LowTxnFee)
    (num_of_Z (z LowTxnFeePerSize)).

Lemma modest_data z : (forall f, 0 <= z f < 2 ^ 53) -> fits z = true -> modest (data_of z).
Proof.
  intros Hz [H1%Z.ltb_lt H2%Z.ltb_lt]%andb_true_iff. pose proof Hz as Hz'. unfold modest, data_of, safe. cbn.
  assert (int_num (num_of_Z (z LowTxnFeePerSize)) = true) as ->.
  { apply int_num_of_Z. specialize (Hz LowTxnFeePerSize). unfold safe. lia. }
  pose proof (Hz RegisterIDTxnFee). pose proof (Hz LowTxnFee). pose proof (Hz NumLowFeeTxnPerBlock). pose proof (Hz LowFeeTxnSizePerBlock).
  split_and!; lia || done.
Qed.

Lemma jsonable_config z : (forall f, 0 <= z f < 2 ^ 53) -> jsonable (config_of z) = true.
Proof.
  intros Hz. assert (forall f, jsonable (VInt (z f)) = true) as Hj.
  { intros f. apply int_num_of_Z. specialize (Hz f). unfold safe. lia. }
  unfold config_of. cbn [jsonable map fst snd forallb]. by rewrite !Hj.
Qed.

Lemma unmarshal_config z text :
  (forall f, 0 <= z f < 2 ^ 53) -> stringify (config_of z) = Some text -> parse text = Ok (config_of z) ->
  NodeConfig.unmarshal text = if fits z then Some (data_of z) else None.
Proof.
  intros Hz Hs Hp. unfold NodeConfig.unmarshal, unmarshal_struct. rewrite Hp. unfold config_of in *.
  rewrite (object_members_stringify _ _ (jsonable_config z Hz)) by done.
  cbn [mbind option_bind map written fst snd set_members].
  rewrite set_field_name, to_int64_int by apply Hz. cbn [mbind option_bind].
  rewrite set_field_name, to_uint32_int by apply Hz. unfold fits.
  destruct (z NumLowFeeTxnPerBlock <? 2 ^ 32); [| done]. cbn [mbind option_bind].
  rewrite set_field_name, to_uint32_int by apply Hz. destruct (z LowFeeTxnSizePerBlock <? 2 ^ 32); [| done].
  cbn [mbind option_bind andb]. rewrite set_field_name, to_int64_int by apply Hz.
  cbn [mbind option_bind]. rewrite set_field_name, to_float64_int by (pose proof (Hz LowTxnFeePerSize); unfold safe; lia).
  done.
Qed.


(** C7: the settings form reaches the node: the request the store sends with
    the wallet password passes the clock check and the password check of the
    node, is decrypted to the values of the form, and these are stored in the
    parameters and in the file as the numbers they are; a value that does not
    fit the node's 32 bits is refused with 400 and nothing changes. *)
Theorem settings_reach_node w now_ms uuid cookie n t u v now rnd pw z l :
  agree w now_ms uuid cookie n t u v now ->
  w_session w !! "seed" = Some (wallet_seed (Some (PasswordHash pw)) true) ->
  wallet_hash (nd_server n) = Some (PasswordHash pw) ->
  let s := nd_server n in
  (forall f, 0 <= z f < 2 ^ 53) -> read_map (n_disk s) (n_ConfigFile s) = Ok (Some l) ->
  d_writable (n_disk s) (GetConfigFile (n_ConfigFile s)) = true ->
  exists h cfg c, authorization (w_state w) (VStr pw) = Ok h
    /\ onRequest (with_auth w h) now_ms (base_config (with_auth w h) (auth_request (CConfig (config_of z)))) = Ok cfg
    /\ c_data cfg = VObj [("data", VStr c)]
    /\ (body_unambiguous (wallet_seed (Some (PasswordHash pw)) true) t c u now ->
        serve rnd uuid now cookie (incoming_of cfg) n
        = served uuid now cookie n
            (if fits z
             then (saved s (NodeConfig.with_settings (data_of z) (n_Parameters s)) (file_text (NodeConfig.file_with (data_of z) l)), Ok empty_json)
             else (s, Err 400))).
Proof.
  intros Hag Hseed Hw s Hz Hf Hwr. subst s. destruct (header_arrives _ _ _ _ _ _ _ _ _ pw Hag) as (h & Hh & Hhd & Hacc).
  destruct (request_arrives (with_auth w h) now_ms uuid cookie n t u v now "PUT" "/api/node/config"
              (map (fun f => (field_name f, VInt (z f)))
                [RegisterIDTxnFee; NumLowFeeTxnPerBlock; LowFeeTxnSizePerBlock; LowTxnFee; LowTxnFeePerSize])
              (wallet_seed (Some (PasswordHash pw)) true) true)
    as (cfg & c & text & Hreq & Hc & Hst & Hp & Hm & Hurl & Hclk & Hauth & Hdec);
    [by apply agree_auth | done | by rewrite Hw | by apply jsonable_config |].
  exists h, cfg, c. split_and!; [done.. |]. intros Hun.
  rewrite (serve_to _ _ _ _ _ _ Api.NodeConfig t); [| by rewrite Hm, Hurl | done | done | apply Hag].
  f_equal. cbn [handle]. unfold put_node_config. rewrite Hw, Hauth, Hhd, Hacc, Hdec by done.
  pose proof (unmarshal_config z text Hz Hst Hp) as Hu. destruct (fits z) eqn:Efit.
  - rewrite (store_eq text (data_of z) l); [by rewrite Hwr | done | by apply modest_data | done].
  - unfold NodeConfig.store. by rewrite Hu.
Qed.
(** ** The seed of the wallet *)

(** C13: The seed dialog shows the seed of the wallet: the request of the store is
    accepted, the node answers with the seed of its account, the interceptor
    decrypts the answer and the action returns it; the node keeps its state. *)
Theorem seed_from_node w now_ms uuid cookie n t u v now rnd pw path seed wal :
  agree w now_ms uuid cookie n t u v now ->
  w_session w !! "seed" = Some (wallet_seed (Some (PasswordHash pw)) true) ->
  n_wallet (nd_server n) = Some wal -> wallet_for path pw seed wal -> String.length seed = 32%nat ->
  exists h k cfg body c, authorization (w_state w) (VStr pw) = Ok h
    /\ sends (auth_action CDetails (VStr pw)) w (with_auth w h) (auth_request CDetails) k
    /\ onRequest (with_auth w h) now_ms (base_config (with_auth w h) (auth_request CDetails)) = Ok cfg
    /\ serve rnd uuid now cookie (incoming_of cfg) n = served uuid now cookie n (nd_server n, Ok body)
    /\ parse body = Ok (VObj [("data", VStr c)])
    /\ (answer_unambiguous (with_auth w h) c u now ->
        exists res, onResponse 41 (with_auth w h) (VObj [("data", VObj [("data", VStr c)])]) = Some (Ok res)
          /\ forall w2, ends k (Ok res) w2 w2 (Ok (VObj [("secretSeed", VStr (hex_encode seed))]))).
Proof.
  intros Hag Hseed Hn (a & Ha & Hacc & Hph & _ & _) Hlen. destruct (header_arrives _ _ _ _ _ _ _ _ _ pw Hag) as (h & Hh & Hhd & Hok).
  assert (wallet_hash (nd_server n) = Some (PasswordHash pw)) as Hw by (unfold wallet_hash; rewrite Hn; cbn; by rewrite Hph).
  destruct (auth_action_spec CDetails (VStr pw) h w Hh) as (k & Hk & Hends).
  destruct (query_arrives (with_auth w h) now_ms uuid cookie n t u v now "GET" "/api/current-wallet/details")
    as (cfg & Hreq & Hm & Hurl & Hclk & Hauth); [by apply agree_auth |].
  destruct (NewAccountWithSeed_total seed Hlen) as (a' & Ha' & Hsd & _). rewrite Ha in Ha'. apply (inj Ok) in Ha'. subst a'.
  destruct (answer_arrives (with_auth w h) now_ms uuid cookie n t u v now (VObj [("secretSeed", VStr (hex_encode seed))]) (nd_server n))
    as (c & Hpar & Hres); [by apply agree_auth | by rewrite Hw | done | |].
  { cbn [as_map insert_key fold_right fst snd plain forallb]. by rewrite (html_free_ascii (hex_encode seed)) by apply html_free_hex. }
  exists h, k, cfg, (data_reply (encrypt_json (nd_server n) t (VObj [("secretSeed", VStr (hex_encode seed))]) now)), c.
  split_and!; [done | done | done | | done |].
  - rewrite (serve_to _ _ _ _ _ _ Api.WalletDetails t); [| by rewrite Hm, Hurl | done | done | apply Hag].
    f_equal. cbn [handle]. unfold get_wallet_details, GetDefaultAccount. by rewrite Hw, Hauth, Hhd, Hok, Hn, Hacc, Hsd.
  - intros Hun. eexists. split; [by apply Hres |]. intros w2. apply Hends.
Qed.
(** ** The backup *)

Lemma blank_indent : blank "    ".
Proof. by intros r. Qed.

(** A file with the data of a wallet opens with its password. *)
Lemma OpenWallet_text d path text wd pw a :
  d_files d !! path = Some (Some text) -> unmarshal_wallet text = Some wd ->
  MinCompatibleWalletVersion <= wd_Version wd <= MaxCompatibleWalletVersion ->
  account_of wd pw = Ok a -> exists w, OpenWallet d path pw = Ok w /\ w_account w = Some a /\ w_PasswordHash w = PasswordHash pw.
Proof.
  intros Hd Hu [Hlo Hhi] Ha. destruct (CreateContext_total (a_PublicKey a)) as (c & Hc). eexists.
  unfold OpenWallet, LoadWalletStore, FileExisted, ReadFile. rewrite Hd, bool_decide_eq_true_2 by done.
  cbn [negb]. bind_simpl. rewrite Hu. cbn [lib]. bind_simpl. cbn [s_WalletData].
  destruct (Z.ltb_spec (wd_Version wd) MinCompatibleWalletVersion), (Z.ltb_spec MaxCompatibleWalletVersion (wd_Version wd)); try lia.
  cbn [orb]. rewrite Ha. bind_simpl. by rewrite Hc.
Qed.

(** The answer of the download route, as axios hands it to the interceptor. *)
Definition download_response (data : jsval) : jsval :=
  VObj [("data", data); ("headers", VObj [("content-type", VStr "application/json")])].

(** C14: The backup restores the wallet: the file the browser saves, put anywhere on
    a disk, opens with the password to the account of the node, whatever the
    indentation of the answer became on the way. *)
Theorem backup_restores w now_ms uuid cookie n t u v now rnd pw path seed wal :
  agree w now_ms uuid cookie n t u v now ->
  n_wallet (nd_server n) = Some wal -> wallet_for path pw seed wal ->
  storable (s_WalletData (w_WalletStore wal)) ->
  MinCompatibleWalletVersion <= wd_Version (s_WalletData (w_WalletStore wal)) <= MaxCompatibleWalletVersion ->
  exists h k cfg body data text, authorization (w_state w) (VStr pw) = Ok h
    /\ sends (downloadWallet (VStr pw)) w (with_auth w h) (mk_request "GET" "/api/wallet/download" VUndef) k
    /\ onRequest (with_auth w h) now_ms (base_config (with_auth w h) (mk_request "GET" "/api/wallet/download" VUndef)) = Ok cfg
    /\ serve rnd uuid now cookie (incoming_of cfg) n = served uuid now cookie n (nd_server n, Ok body)
    /\ parse body = Ok data
    /\ onResponse 41 (with_auth w h) (download_response data) = Some (Ok (download_response data))
    /\ (forall w2, ends k (Ok (download_response data)) w2
                     (add_file w2 ("wallet.json", text, VStr "application/json")) (Ok VUndef))
    /\ (forall d p, d_files d !! p = Some (Some text) ->
          exists w', OpenWallet d p pw = Ok w' /\ w_account w' = w_account wal /\ w_PasswordHash w' = w_PasswordHash wal).
Proof.
  intros Hag Hn (a & Ha & Hacc & Hph & _ & Hopen) Hst Hver. destruct (header_arrives _ _ _ _ _ _ _ _ _ pw Hag) as (h & Hh & Hhd & Hok).
  assert (wallet_hash (nd_server n) = Some (PasswordHash pw)) as Hw by (unfold wallet_hash; rewrite Hn; cbn; by rewrite Hph).
  destruct (download_spec (VStr pw) h w Hh) as (k & Hk & Hends & _).
  destruct (query_arrives (with_auth w h) now_ms uuid cookie n t u v now "GET" "/api/wallet/download")
    as (cfg & Hreq & Hm & Hurl & Hclk & Hauth); [by apply agree_auth |].
  pose proof (storable_jsonable _ Hst) as Hj. destruct Hst as [Htame Hst'] eqn:E; clear E.
  destruct (parse_MarshalIndent _ "    " blank_indent Hj (tame_plain _ Htame)) as (body & Eb & Hpb).
  destruct (parse_stringify _ Hj) as (text & Et & _).
  exists h, k, cfg, body, (wallet_json (s_WalletData (w_WalletStore wal))), text. split_and!; try done.
  - rewrite (serve_to _ _ _ _ _ _ Api.WalletDownload t); [| by rewrite Hm, Hurl | done | done | apply Hag].
    f_equal. cbn [handle]. unfold get_wallet_download. by rewrite Hw, Hauth, Hhd, Hok, Hn, Eb.
  - intros w2. by apply (Hends _ (wallet_json (s_WalletData (w_WalletStore wal))) (VObj [("content-type", VStr "application/json")])).
  - intros d p Hd. rewrite Hacc, Hph.
    by apply (OpenWallet_text d p text (s_WalletData (w_WalletStore wal))); [| apply unmarshal_wallet_stringify | |].
Qed.
(** ** The beneficiary address *)

Lemma to_text_valid old s : utf8_valid s = true -> to_text old (VStr s) = Some s.
Proof. intros Hs. unfold to_text. cbn. by rewrite to_utf8_valid. Qed.

Lemma unmarshal_beneficiary addr text :
  utf8_valid addr = true -> stringify (VObj [("beneficiaryAddr", VStr addr)]) = Some text ->
  parse text = Ok (VObj [("beneficiaryAddr", VStr addr)]) ->
  unmarshal_struct set_beneficiary_data "" text = Some addr.
Proof.
  intros Hu Hs Hp. unfold unmarshal_struct. rewrite Hp, (object_members_stringify [("beneficiaryAddr", VStr addr)] _ eq_refl) by done.
  cbn [mbind option_bind map written fst snd set_members]. change (set_beneficiary_data "beneficiaryAddr" ?r ?v ?d) with (to_text d v).
  by rewrite to_text_valid.
Qed.

(** C12: The beneficiary address reaches the node: an address the node can parse, or
    an empty one where the node allows it, is stored in the parameters and in
    the file, and the browser is told the address that is now in force; any
    other address is refused with 400 and nothing changes. *)
Theorem beneficiary_reaches_node w now_ms uuid cookie n t u v now rnd pw addr l :
  agree w now_ms uuid cookie n t u v now ->
  w_session w !! "seed" = Some (wallet_seed (Some (PasswordHash pw)) true) ->
  wallet_hash (nd_server n) = Some (PasswordHash pw) -> ascii_text addr = true ->
  read_map (n_disk (nd_server n)) (n_ConfigFile (nd_server n)) = Ok (Some l) ->
  d_writable (n_disk (nd_server n)) (GetConfigFile (n_ConfigFile (nd_server n))) = true ->
  exists h cfg c, authorization (w_state w) (VStr pw) = Ok h
    /\ onRequest (with_auth w h) now_ms (base_config (with_auth w h) (auth_request (CBeneficiary (VStr addr)))) = Ok cfg
    /\ c_data cfg = VObj [("data", VStr c)]
    /\ (body_unambiguous (wallet_seed (Some (PasswordHash pw)) true) t c u now ->
        if acceptable addr (nd_server n)
        then exists body c', serve rnd uuid now cookie (incoming_of cfg) n
                 = served uuid now cookie n (beneficiary_set addr l (nd_server n), Ok body)
               /\ parse body = Ok (VObj [("data", VStr c')])
               /\ (answer_unambiguous (with_auth w h) c' u now ->
                   onResponse 41 (with_auth w h) (VObj [("data", VObj [("data", VStr c')])])
                   = Some (Ok (VObj [("data", VObj [("beneficiaryAddr", VStr addr); ("currentBeneficiaryAddr", VStr addr)])])))
        else serve rnd uuid now cookie (incoming_of cfg) n = served uuid now cookie n (nd_server n, Err 400)).
Proof.
  intros Hag Hseed Hw Haddr Hf Hwr. destruct (header_arrives _ _ _ _ _ _ _ _ _ pw Hag) as (h & Hh & Hhd & Hacc).
  destruct (request_arrives (with_auth w h) now_ms uuid cookie n t u v now "PUT" "/api/node/beneficiary" [("beneficiaryAddr", VStr addr)]
              (wallet_seed (Some (PasswordHash pw)) true) true)
    as (cfg & c & text & Hreq & Hc & Hst & Hp & Hm & Hurl & Hclk & Hauth & Hdec);
    [by apply agree_auth | done | by rewrite Hw | done |].
  exists h, cfg, c. split_and!; [done.. |]. intros Hun.
  rewrite (serve_to _ _ _ _ _ _ Api.NodeBeneficiary t); [| by rewrite Hm, Hurl | done | done | apply Hag].
  cbn [handle]. unfold put_node_beneficiary. rewrite Hw, Hauth, Hhd, Hacc, Hdec by done.
  rewrite (unmarshal_beneficiary addr text) by (done || by apply ascii_utf8).
  destruct (SetBeneficiaryAddr_eq addr l (nd_server n) Hf Hwr) as [Hyes Hno]. destruct (acceptable addr (nd_server n)).
  - rewrite Hyes by done. destruct (answer_arrives (with_auth w h) now_ms uuid cookie n t u v now
      (VObj [("beneficiaryAddr", VStr addr); ("currentBeneficiaryAddr", VStr addr)]) (beneficiary_set addr l (nd_server n)))
      as (c' & Hpar & Hres); [by apply agree_auth | | done | |].
    + change (wallet_hash (beneficiary_set addr l (nd_server n))) with (wallet_hash (nd_server n)). by rewrite Hw.
    + change (as_map ?x) with x. cbn [plain forallb fst snd]. by rewrite Haddr.
    + eexists _, c'. split_and!; done.
  - destruct (Hno eq_refl) as [m ->]. done.
Qed.
(** ** The status and the settings form *)

(** The parameters of the node, as the fields of the form. *)
Definition configured (s : server) (z : field -> Z) : Prop :=
  let p := n_Parameters s in
  p_RegisterIDTxnFee p = z RegisterIDTxnFee /\ p_NumLowFeeTxnPerBlock p = z NumLowFeeTxnPerBlock
  /\ p_LowFeeTxnSizePerBlock p = z LowFeeTxnSizePerBlock /\ p_LowTxnFee p = z LowTxnFee
  /\ p_LowTxnFeePerSize p = num_of_Z (z LowTxnFeePerSize).

Lemma assoc_status s out f z : configured s z -> assoc (field_name f) (status_fields s out) = Some (VInt (z f)).
Proof.
  intros (H1 & H2 & H3 & H4 & H5). unfold status_fields. rewrite H1, H2, H3, H4, H5.
  destruct f; cbn [field_name]; rewrite ?assoc_set_ne by done; by rewrite assoc_set_eq.
Qed.

Lemma status_fields_keeps s out z : configured s z -> (forall f, 0 <= z f < 2 ^ 53) ->
  jsonable (VObj out) = true -> plain (VObj out) = true -> ascii_text (p_BeneficiaryAddr (n_Parameters s)) = true ->
  jsonable (VObj (status_fields s out)) = true /\ plain (VObj (status_fields s out)) = true.
Proof.
  intros (H1 & H2 & H3 & H4 & H5) Hz Hj Hp Ha. unfold status_fields. rewrite H1, H2, H3, H4, H5.
  assert (forall f, jsonable (VInt (z f)) = true) as Hi by (intros f; apply jsonable_int, Hz).
  repeat (apply assoc_set_keeps; [by apply Hi | done | done | |]); by apply assoc_set_keeps.
Qed.
(** C11: The settings survive the form: the status the node reports is decrypted by
    the browser, fills the form, and saving the form unedited stores in the
    node the parameters it has. *)
Theorem settings_survive `{DL : DecimalLaws} w now_ms uuid cookie n t u v now rnd out z :
  agree w now_ms uuid cookie n t u v now ->
  w_session w !! "seed" = Some (wallet_seed (wallet_hash (nd_server n)) true) ->
  node_fields (nd_server n) = Ok out -> jsonable (VObj out) = true -> plain (VObj out) = true ->
  ascii_text (p_BeneficiaryAddr (n_Parameters (nd_server n))) = true ->
  configured (nd_server n) z -> (forall f, 0 <= z f < 2 ^ 53) ->
  exists cfg body c status,
    onRequest w now_ms (base_config w (mk_request "GET" "/api/node/status" VUndef)) = Ok cfg
    /\ serve rnd uuid now cookie (incoming_of cfg) n = served uuid now cookie n (nd_server n, Ok body)
    /\ parse body = Ok (VObj [("data", VStr c)])
    /\ (answer_unambiguous w c u now ->
        onResponse 41 w (VObj [("data", VObj [("data", VStr c)])]) = Some (Ok (VObj [("data", status)])))
    /\ (forall q, s_loaded (pg_data q) = false -> nodeStatus (Store.node (w_state (pg_world q))) = status ->
          exists q', run ui_exec watch_nodeStatus q = (q', Done (Ok tt)) /\ form_config (pg_data q') = Ok (config_of z))
    /\ NodeConfig.with_settings (data_of z) (n_Parameters (nd_server n)) = n_Parameters (nd_server n).
Proof.
  intros Hag Hseed Hout Hj Hp Ha Hz Hb.
  destruct (query_arrives w now_ms uuid cookie n t u v now "GET" "/api/node/status" Hag) as (cfg & Hreq & Hm & Hurl & Hclk & _).
  destruct (status_fields_keeps _ out z Hz Hb Hj Hp Ha) as [Hj' Hp']. destruct (as_map_keeps _ Hj' Hp') as [Hj'' Hp''].
  destruct (answer_arrives w now_ms uuid cookie n t u v now _ (nd_server n) Hag Hseed Hj'' Hp'') as (c & Hpar & Hres).
  eexists cfg, _, c, (as_map (VObj (status_fields (nd_server n) out))). split_and!; [done | | exact Hpar | exact Hres | |].
  - rewrite (serve_to _ _ _ _ _ _ Api.NodeStatus t); [| by rewrite Hm, Hurl | done | done | apply Hag].
    f_equal. cbn [handle]. unfold get_node_status. by rewrite Hout.
  - intros q Hl Hst. eexists. split.
    + apply (run_watch_nodeStatus z); [done |]. intros f. split; [| apply Hb]. rewrite Hst.
      change (as_map (VObj ?l)) with (VObj (sort_members l)). cbn [get_prop]. by rewrite assoc_sort, (assoc_status _ _ f z).
    + by apply form_config_filled.
  - destruct Hz as (H1 & H2 & H3 & H4 & H5). unfold NodeConfig.with_settings, data_of. cbn. rewrite <- H1, <- H2, <- H3, <- H4, <- H5.
    by destruct (n_Parameters (nd_server n)).
Qed.
(** ** Opening the wallet *)

Lemma unmarshal_open pw text :
  utf8_valid pw = true -> stringify (VObj [("password", VStr pw)]) = Some text ->
  parse text = Ok (VObj [("password", VStr pw)]) -> unmarshal_struct set_open_data "" text = Some pw.
Proof.
  intros Hu Hs Hp. unfold unmarshal_struct. rewrite Hp, (object_members_stringify [("password", VStr pw)] _ eq_refl) by done.
  cbn [mbind option_bind map written fst snd set_members]. change (set_open_data "password" ?r ?v ?d) with (to_text d v).
  by rewrite to_text_valid.
Qed.

(** What the open route makes of a password. *)
Definition opening (pw : string) (s : server) : server * reply :=
  match n_wallet s with
  | Some wallet =>
      (s, match VerifyPassword (s_WalletData (w_WalletStore wallet)) pw with Ok _ => Ok empty_json | Err e => Err (fault_code e 403) end)
  | None =>
      match GetWallet GetAccountPassword (set_Passwd s pw) with
      | (s, Err e) => (s, Err (fault_code e 403))
      | (s, Ok _) => ((SavePassword (n_Passwd s) s).1, Ok empty_json)
      end
  end.

Lemma open_arrives w now_ms uuid cookie n t u v now rnd pw :
  agree w now_ms uuid cookie n t u v now -> w_session w !! "seed" = Some "" -> utf8_valid pw = true ->
  exists cfg c, onRequest w now_ms (base_config w (wallet_request COpen (VStr pw))) = Ok cfg
    /\ c_data cfg = VObj [("data", VStr c)]
    /\ (body_unambiguous "" t c u now ->
        serve rnd uuid now cookie (incoming_of cfg) n = served uuid now cookie n (opening pw (nd_server n))).
Proof.
  intros Hag Hseed Hu.
  destruct (request_arrives w now_ms uuid cookie n t u v now "POST" "/api/wallet/open" [("password", VStr pw)] "" false)
    as (cfg & c & text & Hreq & Hc & Hst & Hp & Hm & Hurl & Hclk & _ & Hdec); [done | done | | done |].
  { by destruct (wallet_hash (nd_server n)). }
  exists cfg, c. split_and!; [done.. |]. intros Hun.
  rewrite (serve_to _ _ _ _ _ _ Api.WalletOpen t); [| by rewrite Hm, Hurl | done | done | apply Hag].
  f_equal. cbn [handle]. unfold post_wallet_open, opening. rewrite Hdec by done. rewrite (unmarshal_open pw text) by done.
  destruct (n_wallet (nd_server n)) as [wal|]; [| done]. by destruct (VerifyPassword _ _).
Qed.

(** Once the answer to an open or create request is in, the session of the
    browser has the seed of the node. *)
Definition same_seed (k : js jsval -> action jsval) (w : world) (s : server) : Prop :=
  exists w', ends k (Ok (VObj [("data", VStr "")])) w w' (Ok (VStr ""))
    /\ w_session w' !! "seed" = Some (wallet_seed (wallet_hash s) true).

(** A password the wallet file does not open with. *)
Lemma open_refused s e : n_Passwd s <> "" -> n_wallet s = None ->
  OpenWallet (n_disk s) (p_WalletFile (n_Parameters s)) (n_Passwd s) = Err e ->
  exists s' r, match GetWallet GetAccountPassword s with
               | (s, Err e) => (s, Err (fault_code e 403))
               | (s, Ok _) => ((SavePassword (n_Passwd s) s).1, Ok empty_json)
               end = (s', r)
    /\ match e with
       | Panic => r = Err 500
       | _ => r = Err 403 /\ (FileExisted (n_disk s) (p_WalletFile (n_Parameters s)) = true -> flag_at 2 s' = true)
           /\ n_wallet s' = None /\ n_disk s' = n_disk s
       end.
Proof.
  intros Hne Hn Eo. rewrite GetWallet_eq. unfold account_password. rewrite GetAccountPassword_given by done. cbn [snd].
  rewrite Eo. destruct (FileExisted (n_disk s) _) eqn:Ex; cbn [negb].
  - assert (n_wallet (NodeState.cleared s) = None /\ n_disk (NodeState.cleared s) = n_disk s) as [Hcw Hcd]
      by (unfold NodeState.cleared; rewrite GetAccountPassword_given by done; by split).
    assert (flag_at 2 (raise_flag Flags.SERVICE_STATUS_NO_PASSWORD (NodeState.cleared s)) = true) as HF
      by (unfold Flags.SERVICE_STATUS_NO_PASSWORD; by rewrite flag_raise by lia).
    destruct e; eexists _, _; (split; [done |]); first [done | by split_and!].
  - eexists _, _. split; [done |]. unfold OpenWallet, LoadWalletStore in Eo. rewrite Ex in Eo. cbn in Eo.
    injection Eo as <-. by split_and!.
Qed.

(** C6: opening the wallet from the browser.  Before the node has opened its
    wallet: with the password of the wallet file it answers 200, reports that it
    is running and misses nothing, and the next round of the startup loop opens
    the wallet, after which browser and node have the same seed; with any other
    password the answer is 403 and the node reports the missing password; a file
    that makes the node panic is answered 500.  Afterwards: the node checks the
    password against the wallet it has, keeps its state, and browser and node
    have the same seed if the password is that of the wallet. *)
Theorem open_reaches_node w now_ms uuid cookie n t u v now rnd pw :
  agree w now_ms uuid cookie n t u v now -> w_session w !! "seed" = Some "" ->
  utf8_valid pw = true -> pw <> "" ->
  exists k cfg c, sends (wallet_action COpen (VStr pw)) w w (wallet_request COpen (VStr pw)) k
    /\ onRequest w now_ms (base_config w (wallet_request COpen (VStr pw))) = Ok cfg
    /\ c_data cfg = VObj [("data", VStr c)]
    /\ (body_unambiguous "" t c u now ->
        exists s rep, serve rnd uuid now cookie (incoming_of cfg) n = served uuid now cookie n (s, rep)
          /\ match n_wallet (nd_server n), OpenWallet (n_disk (nd_server n)) (p_WalletFile (n_Parameters (nd_server n))) pw with
             | Some wal, _ => s = nd_server n
                 /\ match VerifyPassword (s_WalletData (w_WalletStore wal)) pw with
                    | Ok _ => rep = Ok empty_json /\ (w_PasswordHash wal = PasswordHash pw -> same_seed k w s)
                    | Err e => rep = Err (fault_code e 403)
                    end
             | None, Ok wal => rep = Ok empty_json
                 /\ flag_at 0 s = false /\ flag_at 1 s = false /\ flag_at 2 s = false /\ flag_at 4 s = true
                 /\ exists s', wallet_round s = (s', Ok (Some wal)) /\ same_seed k w (Init s' None (Some wal) "")
             | None, Err Panic => rep = Err 500
             | None, Err _ => rep = Err 403 /\ (FileExisted (n_disk (nd_server n)) (p_WalletFile (n_Parameters (nd_server n))) = true -> flag_at 2 s = true)
                 /\ n_wallet s = None /\ n_disk s = n_disk (nd_server n)
             end).
Proof.
  intros Hag Hseed Hu Hne. destruct (open_arrives w now_ms uuid cookie n t u v now rnd pw) as (cfg & c & Hreq & Hc & Hserve); try done.
  destruct (wallet_action_spec COpen (VStr pw) _ w (seedHash_wallet pw)) as (k & Hk & Hends & _).
  assert (forall s, wallet_hash s = Some (PasswordHash pw) -> same_seed k w s) as Hsame.
  { intros s Hs. eexists. split; [by apply Hends |]. cbn. by rewrite lookup_insert_eq, Hs. }
  exists k, cfg, c. split_and!; [done.. |]. intros Hun. rewrite (Hserve Hun). unfold opening.
  destruct (n_wallet (nd_server n)) as [wal|] eqn:Hn.
  { eexists _, _. split; [done |]. split; [done |]. destruct (VerifyPassword _ _) as [? | e]; [| done].
    split; [done |]. intros Hph. apply Hsame. unfold wallet_hash. rewrite Hn. cbn. by rewrite Hph. }
  set (sp := set_Passwd (nd_server n) pw). change (n_disk (nd_server n)) with (n_disk sp). change (n_Parameters (nd_server n)) with (n_Parameters sp).
  destruct (OpenWallet (n_disk sp) (p_WalletFile (n_Parameters sp)) pw) as [wal | e] eqn:Eo.
  - destruct (wallet_round_opens sp wal Hne Eo) as (s1 & _ & -> & Hpw & Hd & Hpar & Hw & F0 & F1 & F2 & F4).
    destruct (OpenWallet_account _ _ _ _ Eo) as (Hex & Hph & _). rewrite <- Hd in Hex.
    destruct (SavePassword_keeps (n_Passwd s1) s1 _ Hex) as (d & -> & Hfile). eexists _, _. split; [done |]. split_and!; try done.
    destruct (wallet_round_opens (set_disk s1 d) wal) as (s2 & Hr & _).
    + cbn. by rewrite Hpw.
    + cbn. rewrite Hpw, Hpar. rewrite <- Eo. apply OpenWallet_ext. rewrite Hfile. by rewrite Hd.
    + exists s2. split; [done |]. apply Hsame. cbn. by rewrite Hph.
  - destruct (open_refused sp e Hne Hn Eo) as (s1 & r & -> & Hr). by exists s1, r.
Qed.

(** ** Creating the wallet *)

Lemma unmarshal_create pw addr text :
  utf8_valid pw = true -> utf8_valid addr = true ->
  stringify (VObj [("password", VStr pw); ("beneficiaryAddr", VStr addr)]) = Some text ->
  parse text = Ok (VObj [("password", VStr pw); ("beneficiaryAddr", VStr addr)]) ->
  unmarshal_struct set_create_data ("", "") text = Some (pw, addr).
Proof.
  intros Hu Ha Hs Hp. unfold unmarshal_struct.
  rewrite Hp, (object_members_stringify [("password", VStr pw); ("beneficiaryAddr", VStr addr)] _ eq_refl) by done.
  cbn [mbind option_bind map written fst snd set_members].
  change (set_create_data "password" ?r ?v ?d) with (x ← to_text d.1 v; Some (x, d.2)). rewrite to_text_valid by done.
  cbn [mbind option_bind].
  change (set_create_data "beneficiaryAddr" ?r ?v ?d) with (x ← to_text d.2 v; Some (d.1, x)). by rewrite to_text_valid.
Qed.

(** A new wallet on the disk of a node that has its password. *)
Lemma created_opens rnd s pw seed : good_random rnd -> r_seed rnd = Some seed -> String.length seed = 32%nat -> pw <> "" ->
  let path := p_WalletFile (n_Parameters s) in
  FileExisted (n_disk s) path = false -> d_writable (n_disk s) path = true ->
  exists wal d s', NewWallet rnd (n_disk s) path pw = Ok (wal, d)
    /\ (SavePassword pw (set_Passwd (set_disk s d) pw)).1 = s'
    /\ n_Parameters s' = n_Parameters s /\ n_Passwd s' = pw /\ n_Status s' = n_Status s
    /\ OpenWallet (n_disk s') path pw = Ok wal /\ wallet_for path pw seed wal.
Proof.
  intros Hr Hrs Hlen Hne path Hex Hwr. destruct (RestoreWallet_opens rnd (n_disk s) path pw seed) as (wal & d & Hw & Hfor & Hopen & Hex'); try done.
  destruct (SavePassword_keeps pw (set_Passwd (set_disk s d) pw) path Hex') as (d' & Hs & Hd').
  exists wal, d, (set_disk (set_Passwd (set_disk s d) pw) d'). split_and!; try done.
  - by rewrite (NewWallet_Restore rnd (n_disk s) path pw seed).
  - rewrite <- Hopen. by apply OpenWallet_ext.
Qed.

(** C5: Creating the wallet from the browser: the node stores the beneficiary, writes
    a wallet for a fresh seed under the password, answers 200, and the next
    round of the startup loop opens that wallet, after which browser and node
    have the same seed and the node misses nothing.  Until that round the flags
    of the missing file and of the missing password are as they were. *)
Theorem create_reaches_node w now_ms uuid cookie n t u v now rnd pw addr seed l :
  agree w now_ms uuid cookie n t u v now -> w_session w !! "seed" = Some "" ->
  utf8_valid pw = true -> pw <> "" -> utf8_valid addr = true ->
  let s := nd_server n in
  let path := p_WalletFile (n_Parameters s) in
  n_wallet s = None -> p_WebGuiCreateWallet (n_Parameters s) = true -> acceptable addr s = true ->
  read_map (n_disk s) (n_ConfigFile s) = Ok (Some l) -> d_writable (n_disk s) (GetConfigFile (n_ConfigFile s)) = true ->
  path <> GetConfigFile (n_ConfigFile s) -> FileExisted (n_disk s) path = false -> d_writable (n_disk s) path = true ->
  good_random rnd -> r_seed rnd = Some seed -> String.length seed = 32%nat ->
  exists k cfg c, sends (wallet_action (CCreate (VStr addr)) (VStr pw)) w w (wallet_request (CCreate (VStr addr)) (VStr pw)) k
    /\ onRequest w now_ms (base_config w (wallet_request (CCreate (VStr addr)) (VStr pw))) = Ok cfg
    /\ c_data cfg = VObj [("data", VStr c)]
    /\ (body_unambiguous "" t c u now ->
        exists s1, serve rnd uuid now cookie (incoming_of cfg) n = served uuid now cookie n (s1, Ok empty_json)
          /\ p_BeneficiaryAddr (n_Parameters s1) = addr
          /\ flag_at 4 s1 = true /\ flag_at 1 s1 = flag_at 1 s /\ flag_at 2 s1 = flag_at 2 s
          /\ exists s2 wal, wallet_round s1 = (s2, Ok (Some wal)) /\ wallet_for path pw seed wal
               /\ flag_at 0 s2 = false /\ flag_at 1 s2 = false /\ flag_at 2 s2 = false /\ flag_at 4 s2 = true
               /\ same_seed k w (Init s2 None (Some wal) "")).
Proof.
  intros Hag Hseed Hu Hne Hua s path Hn Hweb Hok Hf Hwr Hpath Hex Hpw Hr Hrs Hlen.
  destruct (request_arrives w now_ms uuid cookie n t u v now "POST" "/api/wallet/create" [("password", VStr pw); ("beneficiaryAddr", VStr addr)] "" false)
    as (cfg & c & text & Hreq & Hc & Hst & Hp & Hm & Hurl & Hclk & _ & Hdec); [done | done | by destruct (wallet_hash (nd_server n)) | done |].
  destruct (wallet_action_spec (CCreate (VStr addr)) (VStr pw) _ w (seedHash_wallet pw)) as (k & Hk & Hends & _).
  exists k, cfg, c. split_and!; [done.. |]. intros Hun.
  rewrite (serve_to _ _ _ _ _ _ Api.WalletCreate t); [| by rewrite Hm, Hurl | done | done | apply Hag].
  cbn [handle]. unfold post_wallet_create. rewrite Hdec by done. rewrite (unmarshal_create pw addr text) by done.
  fold s. rewrite Hn, Hweb. destruct (SetBeneficiaryAddr_eq addr l s Hf Hwr) as [Hyes _]. rewrite Hyes by done.
  assert (FileExisted (n_disk (beneficiary_set addr l s)) path = false) as Hex'
    by (unfold FileExisted in *; cbn; by rewrite lookup_insert_ne by done).
  destruct (created_opens rnd (beneficiary_set addr l s) pw seed Hr Hrs Hlen Hne Hex' Hpw) as (wal & d & s' & Hnew & Hsave & Hpar & Hpass & Hstat & Hopen & Hfor).
  rewrite Hnew. change (n_Passwd (set_Passwd ?x pw)) with pw. rewrite Hsave.
  set (s1 := raise_flag Flags.SERVICE_STATUS_RUNNING s'). exists s1. split; [done |].
  assert (forall i, 0 <= i -> flag_at i s1 = (4 =? i) || flag_at i s) as HF.
  { intros i Hi. unfold s1, Flags.SERVICE_STATUS_RUNNING. rewrite flag_raise by lia. unfold flag_at. by rewrite Hstat. }
  rewrite !HF by lia. change (n_Parameters s1) with (n_Parameters s'). split_and!; try (by rewrite Hpar); try done.
  destruct (wallet_round_opens s1 wal) as (s2 & Hround & _ & _ & _ & _ & _ & F0 & F1 & F2 & F4).
  - change (n_Passwd s1) with (n_Passwd s'). by rewrite Hpass.
  - change (n_Passwd s1) with (n_Passwd s'). change (n_Parameters s1) with (n_Parameters s'). rewrite Hpar, Hpass. exact Hopen.
  - exists s2, wal. split_and!; try done. destruct Hfor as (a & _ & _ & Hph & _). eexists. split; [by apply Hends |].
    cbn. by rewrite lookup_insert_eq, Hph.
Qed.

(** C40: A node whose wallet is closed lets anybody change its beneficiary: the
    request to create a wallet, which needs no password, is refused with 500
    because there is a wallet file, but the address it carries has been saved
    before. *)
Theorem create_moves_beneficiary w now_ms uuid cookie n t u v now rnd pw addr l :
  agree w now_ms uuid cookie n t u v now -> w_session w !! "seed" = Some "" ->
  utf8_valid pw = true -> utf8_valid addr = true ->
  let s := nd_server n in
  n_wallet s = None -> p_WebGuiCreateWallet (n_Parameters s) = true -> acceptable addr s = true ->
  read_map (n_disk s) (n_ConfigFile s) = Ok (Some l) -> d_writable (n_disk s) (GetConfigFile (n_ConfigFile s)) = true ->
  FileExisted (n_disk s) (p_WalletFile (n_Parameters s)) = true ->
  exists cfg c, onRequest w now_ms (base_config w (wallet_request (CCreate (VStr addr)) (VStr pw))) = Ok cfg
    /\ c_data cfg = VObj [("data", VStr c)]
    /\ (body_unambiguous "" t c u now ->
        serve rnd uuid now cookie (incoming_of cfg) n = served uuid now cookie n (beneficiary_set addr l s, Err 500)).
Proof.
  intros Hag Hseed Hu Hua s Hn Hweb Hok Hf Hwr Hex.
  destruct (request_arrives w now_ms uuid cookie n t u v now "POST" "/api/wallet/create" [("password", VStr pw); ("beneficiaryAddr", VStr addr)] "" false)
    as (cfg & c & text & Hreq & Hc & Hst & Hp & Hm & Hurl & Hclk & _ & Hdec); [done | done | by destruct (wallet_hash (nd_server n)) | done |].
  exists cfg, c. split_and!; [done.. |]. intros Hun.
  rewrite (serve_to _ _ _ _ _ _ Api.WalletCreate t); [| by rewrite Hm, Hurl | done | done | apply Hag].
  cbn [handle]. unfold post_wallet_create. rewrite Hdec by done. rewrite (unmarshal_create pw addr text) by done.
  fold s. rewrite Hn, Hweb. destruct (SetBeneficiaryAddr_eq addr l s Hf Hwr) as [Hyes _]. rewrite Hyes by done.
  destruct (NewWallet _ _ _ _) as [[wal d] | e] eqn:En; [| done]. apply NewWallet_file in En as (Hno & _).
  assert (FileExisted (n_disk (beneficiary_set addr l s)) (p_WalletFile (n_Parameters s)) = true) as H.
  { unfold FileExisted in *. apply bool_decide_eq_true in Hex. apply bool_decide_eq_true_2. cbn. apply lookup_insert_is_Some'. by right. }
  cbn [n_Parameters beneficiary_set saved set_config with_beneficiary p_WalletFile] in Hno. congruence.
Qed.
(** ** The status of the wallet *)

(** C16: What the wallet page shows is what the node holds: the decrypted status has
    an address that names the program hash of the account, an amount that is
    read back as the balance of that hash in the ledger, and the public key. *)
Theorem wallet_status_from_node w now_ms uuid cookie n t u v now rnd pw path seed wal ledger :
  agree w now_ms uuid cookie n t u v now ->
  w_session w !! "seed" = Some (wallet_seed (Some (PasswordHash pw)) true) ->
  n_wallet (nd_server n) = Some wal -> wallet_for path pw seed wal -> String.length seed = 32%nat ->
  n_ledger (nd_server n) = Some ledger -> (forall h, - 2 ^ 63 <= ledger h < 2 ^ 63) ->
  exists cfg body c account address balance,
    onRequest w now_ms (base_config w (mk_request "GET" "/api/current-wallet/status" VUndef)) = Ok cfg
    /\ serve rnd uuid now cookie (incoming_of cfg) n = served uuid now cookie n (nd_server n, Ok body)
    /\ parse body = Ok (VObj [("data", VStr c)])
    /\ (answer_unambiguous w c u now ->
        onResponse 41 w (VObj [("data", VObj [("data", VStr c)])])
        = Some (Ok (VObj [("data", VObj [("address", VStr address); ("balance", VStr balance);
                                         ("publicKey", VStr (hex_encode (a_PublicKey account)))])])))
    /\ w_account wal = Some account /\ NewAccountWithSeed seed = Ok account
    /\ ToScriptHash address = Some (a_ProgramHash account) /\ StringToFixed64 balance = Some (ledger (a_ProgramHash account)).
Proof.
  intros Hag Hseed Hn (a & Ha & Hacc & Hph & _ & _) Hlen Hled Hrange.
  assert (wallet_hash (nd_server n) = Some (PasswordHash pw)) as Hw by (unfold wallet_hash; rewrite Hn; cbn; by rewrite Hph).
  destruct (query_arrives w now_ms uuid cookie n t u v now "GET" "/api/current-wallet/status" Hag) as (cfg & Hreq & Hm & Hurl & Hclk & _).
  destruct (NewAccountWithSeed_total seed Hlen) as (a' & Ha' & _ & Hsz). rewrite Ha in Ha'. apply (inj Ok) in Ha'. subst a'.
  destruct (ToScriptHash_ToAddress (a_ProgramHash a) Hsz) as (addr & Haddr & Hback).
  set (bal := Fixed64_String (ledger (a_ProgramHash a))).
  set (val := VObj [("balance", VStr bal); ("address", VStr addr); ("publicKey", VStr (hex_encode (a_PublicKey a)))]).
  destruct (answer_arrives w now_ms uuid cookie n t u v now val (nd_server n) Hag) as (c & Hpar & Hres);
    [by rewrite Hw | done | |].
  { unfold val. change (as_map _) with (VObj [("address", VStr addr); ("balance", VStr bal); ("publicKey", VStr (hex_encode (a_PublicKey a)))]).
    cbn [plain forallb fst snd]. unfold bal. rewrite Fixed64_String_ascii, (html_free_ascii addr) by (by eapply ToAddress_html_free).
    by rewrite (html_free_ascii (hex_encode (a_PublicKey a))) by apply html_free_hex. }
  eexists cfg, _, c, a, addr, bal. split_and!; [done | | exact Hpar | exact Hres | done | done | done |].
  - rewrite (serve_to _ _ _ _ _ _ Api.WalletStatus t); [| by rewrite Hm, Hurl | done | done | apply Hag].
    f_equal. cbn [handle]. unfold get_wallet_status, GetDefaultAccount. rewrite Hn, Hacc. bind_simpl. rewrite Haddr. cbn [lib]. bind_simpl.
    by rewrite Hled.
  - by apply StringToFixed64_String.
Qed.
(** ** The neighbours *)

Lemma neighbor_bound r v : RemoteNode_MarshalJSON r = Some v -> get_prop (as_map v) "isOutbound" = Ok (VBool (rn_isOutbound r)).
Proof.
  unfold RemoteNode_MarshalJSON. intros (out & _ & H)%bind_Some. apply (inj Some) in H. subst v.
  change (as_map (VObj ?l)) with (VObj (sort_members l)). cbn [get_prop].
  by rewrite assoc_sort, !assoc_set_ne, assoc_set_eq by done.
Qed.

Lemma neighbors_bounds rs l : mapM RemoteNode_MarshalJSON rs = Some l ->
  Forall2 (fun r v => get_prop v "isOutbound" = Ok (VBool (rn_isOutbound r))) rs (map as_map l).
Proof.
  intros H%mapM_Some. induction H as [|r v rs l Hr _ IH]; [constructor |]. constructor; [by apply neighbor_bound | done].
Qed.

(** C17: The browser sees the neighbours of the node: the decrypted list has one
    element for each of them, in their order, and the warning of the node page
    is shown exactly when it was not dismissed, the node has neighbours, and
    all of them are outbound. *)
Theorem neighbors_from_node `{LL : LodashLaws} w now_ms uuid cookie n t u v now rnd ln l :
  agree w now_ms uuid cookie n t u v now ->
  w_session w !! "seed" = Some (wallet_seed (wallet_hash (nd_server n)) true) ->
  n_localNode (nd_server n) = Some ln -> GetNeighborInfo ln = Some (VArr l) ->
  jsonable (VArr l) = true -> plain (VArr l) = true -> Z.of_nat (length l) < 2 ^ 32 ->
  exists cfg body c data,
    onRequest w now_ms (base_config w (mk_request "GET" "/api/node/neighbors" VUndef)) = Ok cfg
    /\ serve rnd uuid now cookie (incoming_of cfg) n = served uuid now cookie n (nd_server n, Ok body)
    /\ parse body = Ok (VObj [("data", VStr c)])
    /\ (answer_unambiguous w c u now ->
        onResponse 41 w (VObj [("data", VObj [("data", VStr c)])]) = Some (Ok (VObj [("data", data)])))
    /\ forall st s, length (neighbors (setNeighbors st data)) = length (ln_neighbors ln)
         /\ exists cnt, inBoundCount (setNeighbors st data) = Ok cnt
              /\ (WatchOutBoundCount.shown cnt s = true
                  <-> WatchOutBoundCount.visible s = true /\ ln_neighbors ln <> []
                      /\ Forall (fun r => rn_isOutbound r = true) (ln_neighbors ln)).
Proof.
  intros Hag Hseed Hln Hinfo Hj Hp Hlen.
  destruct (query_arrives w now_ms uuid cookie n t u v now "GET" "/api/node/neighbors" Hag) as (cfg & Hreq & Hm & Hurl & Hclk & _).
  destruct (as_map_keeps _ Hj Hp) as [Hj' Hp'].
  destruct (answer_arrives w now_ms uuid cookie n t u v now _ (nd_server n) Hag Hseed Hj' Hp') as (c & Hpar & Hres).
  eexists cfg, _, c, (as_map (VArr l)). split_and!; [done | | exact Hpar | exact Hres |].
  - rewrite (serve_to _ _ _ _ _ _ Api.NodeNeighbors t); [| by rewrite Hm, Hurl | done | done | apply Hag].
    f_equal. cbn [handle]. unfold get_node_neighbors. by rewrite Hln, Hinfo.
  - intros st s. unfold GetNeighborInfo in Hinfo. apply fmap_Some in Hinfo as (l' & Hl & E). injection E as <-.
    apply neighbors_bounds in Hl. cbn [as_map setNeighbors neighbors]. split; [symmetry; by eapply list.Forall2_length |].
    destruct (warning_shown {| nodeStatus := nodeStatus st; neighbors := map as_map l |} s) as (cnt & Hc & Hs).
    { split; [| cbn [neighbors]; by rewrite length_map]. cbn [neighbors]. clear - Hl. induction Hl as [|r x rs xs Hr _ IH]; [constructor |].
      constructor; [by rewrite Hr | done]. }
    exists cnt. split; [done |]. rewrite Hs. cbn [neighbors]. clear - Hl.
    assert (map as_map l <> [] <-> ln_neighbors ln <> []) as -> by (destruct Hl; done).
    assert ((forall x, In x (map as_map l) -> inbound x = false) <-> Forall (fun r => rn_isOutbound r = true) (ln_neighbors ln)) as ->; [| done].
    induction Hl as [|r x rs xs Hr _ IH]; [by split |]. rewrite list.Forall_cons, <- IH. unfold inbound in *. split.
    + intros H. split; [| intros y Hy; by apply H; right]. specialize (H x (or_introl eq_refl)). rewrite Hr in H. by destruct (rn_isOutbound r).
    + intros [Hb H] y [<- | Hy]; [by rewrite Hr, Hb | by apply H].
Qed.
End EndToEnd.

(** ** The theorems at concrete inputs *)

Module EndToEndSamples.
Import Toy ToyAddress ToyVault ToyDecimal ToyLodash VaultSamples Samples RouteSamples.

Definition sample_ms : num := num_of_Z 1600000001000.

Lemma sample_agree seed s :
  agree (sample_world seed) sample_ms "-" sample_cookie {| nd_server := s; nd_tokens := sample_tokens |} "tok" sample_clock 1600000001 sample_now.
Proof. constructor; try reflexivity; unfold UnixRange, sample_clock, sample_now; lia. Qed.

Lemma sample_session : w_session (sample_world sample_seed) !! "seed" = Some (wallet_seed (Some (PasswordHash "hunter2")) true).
Proof. vm_compute. reflexivity. Qed.

Definition sample_header : string := Eval vm_compute in
  match authorization (w_state (sample_world sample_seed)) (VStr "hunter2") with Ok h => h | Err _ => "" end.
Definition sample_auth : world := with_auth (sample_world sample_seed) sample_header.

(** The file of the samples is read. *)
Lemma sample_read d : read_map (sample_files d) "" = Ok (Some sample_members).
Proof. unfold read_map, OpenConfigFile, ReadFile, sample_files. cbn [d_files]. rewrite lookup_insert_eq. vm_compute. reflexivity. Qed.

(** What the interceptor puts in the body of a request, and what the node
    answers. *)
Definition sample_request (w : world) (r : request) : option axios_config :=
  result_to_option (onRequest w sample_ms (base_config w r)).
Definition sample_body (w : world) (r : request) : string :=
  match c_data <$> sample_request w r with Some (VObj [(_, VStr c)]) => c | _ => "" end.
Definition sample_reply (w : world) (r : request) (s : server) : string :=
  match sample_request w r with
  | Some cfg =>
      match (serve sample_random "-" sample_now sample_cookie (incoming_of cfg) {| nd_server := s; nd_tokens := sample_tokens |}).2 with
      | Ok body => match parse body with Ok (VObj [(_, VStr c)]) => c | _ => "" end
      | Err _ => ""
      end
  | None => ""
  end.

Lemma sample_body_eq w r cfg c :
  onRequest w sample_ms (base_config w r) = Ok cfg -> c_data cfg = VObj [("data", VStr c)] -> sample_body w r = c.
Proof. intros H Hc. unfold sample_body, sample_request. rewrite H. cbn. by rewrite Hc. Qed.

Lemma sample_reply_eq w r s cfg body c x :
  onRequest w sample_ms (base_config w r) = Ok cfg ->
  serve sample_random "-" sample_now sample_cookie (incoming_of cfg) {| nd_server := s; nd_tokens := sample_tokens |} = (x, Ok body) ->
  parse body = Ok (VObj [("data", VStr c)]) -> sample_reply w r s = c.
Proof. intros H Hs Hp. unfold sample_reply, sample_request. rewrite H. cbn [result_to_option]. rewrite Hs. cbn [snd]. by rewrite Hp. Qed.

(** No earlier second decrypts the bodies and the answers. *)
Ltac no_earlier :=
  intros j Hj; apply (bool_decide_eq_true_1 _); revert j Hj;
  apply (seconds_all (fun j => bool_decide (_ = _))); vm_compute; reflexivity.

Lemma sample_header_eq h : authorization (w_state (sample_world sample_seed)) (VStr "hunter2") = Ok h -> h = sample_header.
Proof.
  assert (authorization (w_state (sample_world sample_seed)) (VStr "hunter2") = Ok sample_header) as -> by (vm_compute; reflexivity).
  by intros [= <-].
Qed.

Definition sample_config : request := auth_request (CConfig (config_of (fun _ => 7))).
Definition sample_config_text : string := Eval vm_compute in sample_body sample_auth sample_config.
Lemma sample_config_body : sample_body sample_auth sample_config = sample_config_text.
Proof. vm_compute. reflexivity. Qed.
Lemma sample_config_quiet : body_unambiguous sample_seed "tok" sample_config_text sample_clock sample_now.
Proof. no_earlier. Qed.

Lemma settings_reach_node_witness :
  exists cfg, onRequest sample_auth sample_ms (base_config sample_auth sample_config) = Ok cfg
    /\ serve sample_random "-" sample_now sample_cookie (incoming_of cfg) sample_node
       = served "-" sample_now sample_cookie sample_node
           (saved sample_server (NodeConfig.with_settings (data_of (fun _ => 7)) (n_Parameters sample_server))
              (file_text (NodeConfig.file_with (data_of (fun _ => 7)) sample_members)), Ok empty_json).
Proof.
  destruct (settings_reach_node (sample_world sample_seed) sample_ms "-" sample_cookie sample_node "tok" sample_clock 1600000001 sample_now
              sample_random "hunter2" (fun _ => 7) sample_members (sample_agree _ _) sample_session sample_hash)
    as (h & cfg & c & Hh & Hr & Hc & Hput); [lia | exact (sample_read sample_disk) | reflexivity |].
  rewrite (sample_header_eq h Hh) in Hr. exists cfg. split; [exact Hr |].
  apply Hput. rewrite <- (sample_body_eq sample_auth sample_config _ _ Hr Hc), sample_config_body. exact sample_config_quiet.
Defined.
(** The wallet of the node is that of its seed. *)
Lemma sample_wallet_for : wallet_for "wallet.json" "hunter2" (Toy.hash 32 "seed") sample_wallet.
Proof. eexists. split; [vm_compute; reflexivity |]. repeat split; vm_compute; reflexivity. Qed.

Lemma sample_storable : storable (s_WalletData (w_WalletStore sample_wallet)).
Proof. vm_compute. intuition congruence. Qed.

Lemma sample_version : wd_Version (s_WalletData (w_WalletStore sample_wallet)) = 2.
Proof. vm_compute. reflexivity. Qed.

Definition sample_details : string := Eval vm_compute in sample_reply sample_auth (auth_request CDetails) sample_server.
Lemma sample_details_eq : sample_reply sample_auth (auth_request CDetails) sample_server = sample_details.
Proof. vm_compute. reflexivity. Qed.
Lemma sample_details_quiet : answer_unambiguous sample_auth sample_details sample_clock sample_now.
Proof. no_earlier. Qed.

Lemma seed_from_node_witness :
  exists k c res, sends (auth_action CDetails (VStr "hunter2")) (sample_world sample_seed) sample_auth (auth_request CDetails) k
    /\ onResponse 41 sample_auth (VObj [("data", VObj [("data", VStr c)])]) = Some (Ok res)
    /\ ends k (Ok res) sample_auth sample_auth (Ok (VObj [("secretSeed", VStr (hex_encode (Toy.hash 32 "seed")))])).
Proof.
  destruct (seed_from_node (sample_world sample_seed) sample_ms "-" sample_cookie sample_node "tok" sample_clock 1600000001 sample_now
              sample_random "hunter2" "wallet.json" (Toy.hash 32 "seed") sample_wallet (sample_agree _ _) sample_session eq_refl sample_wallet_for eq_refl)
    as (h & k & cfg & body & c & Hh & Hs & Hr & Hserve & Hp & Hres).
  rewrite (sample_header_eq h Hh) in *.
  destruct Hres as (res & Hres & Hends).
  { rewrite <- (sample_reply_eq sample_auth (auth_request CDetails) sample_server _ _ _ _ Hr Hserve Hp), sample_details_eq. exact sample_details_quiet. }
  exists k, c, res. split; [exact Hs | split; [exact Hres | apply Hends]].
Defined.
Lemma backup_restores_witness :
  exists k data text w',
    sends (downloadWallet (VStr "hunter2")) (sample_world sample_seed) sample_auth (mk_request "GET" "/api/wallet/download" VUndef) k
    /\ ends k (Ok (download_response data)) sample_auth (add_file sample_auth ("wallet.json", text, VStr "application/json")) (Ok VUndef)
    /\ OpenWallet {| d_files := {["copy.json" := Some text]}; d_writable := fun _ => false |} "copy.json" "hunter2" = Ok w'
    /\ w_account w' = w_account sample_wallet.
Proof.
  destruct (backup_restores (sample_world sample_seed) sample_ms "-" sample_cookie sample_node "tok" sample_clock 1600000001 sample_now
              sample_random "hunter2" "wallet.json" (Toy.hash 32 "seed") sample_wallet (sample_agree _ _) eq_refl sample_wallet_for sample_storable)
    as (h & k & cfg & body & data & text & Hh & Hs & _ & _ & _ & _ & Hends & Hopen);
    [rewrite sample_version; unfold MinCompatibleWalletVersion, MaxCompatibleWalletVersion; lia |].
  destruct (Hopen {| d_files := {["copy.json" := Some text]}; d_writable := fun _ => false |} "copy.json") as (w' & Ho & Ha & _);
    [reflexivity |].
  rewrite (sample_header_eq h Hh) in *. exists k, data, text, w'.
  split; [exact Hs | split; [apply Hends | split; [exact Ho | exact Ha]]].
Defined.

(** The address of the wallet as its beneficiary. *)
Definition sample_address : string := Eval vm_compute in wd_Address (s_WalletData (w_WalletStore sample_wallet)).
Lemma sample_address_ok : ascii_text sample_address = true /\ acceptable sample_address sample_server = true.
Proof. split; vm_compute; reflexivity. Qed.

Definition sample_beneficiary : request := auth_request (CBeneficiary (VStr sample_address)).
Definition sample_beneficiary_text : string := Eval vm_compute in sample_body sample_auth sample_beneficiary.
Definition sample_beneficiary_answer : string := Eval vm_compute in sample_reply sample_auth sample_beneficiary sample_server.
Lemma sample_beneficiary_eq :
  sample_body sample_auth sample_beneficiary = sample_beneficiary_text
  /\ sample_reply sample_auth sample_beneficiary sample_server = sample_beneficiary_answer.
Proof. split; vm_compute; reflexivity. Qed.
Lemma sample_beneficiary_quiet :
  body_unambiguous sample_seed "tok" sample_beneficiary_text sample_clock sample_now
  /\ answer_unambiguous sample_auth sample_beneficiary_answer sample_clock sample_now.
Proof. split; no_earlier. Qed.

Lemma beneficiary_reaches_node_witness :
  exists cfg body c, onRequest sample_auth sample_ms (base_config sample_auth sample_beneficiary) = Ok cfg
    /\ serve sample_random "-" sample_now sample_cookie (incoming_of cfg) sample_node
       = served "-" sample_now sample_cookie sample_node
           (beneficiary_set sample_address sample_members sample_server, Ok body)
    /\ onResponse 41 sample_auth (VObj [("data", VObj [("data", VStr c)])])
       = Some (Ok (VObj [("data", VObj [("beneficiaryAddr", VStr sample_address); ("currentBeneficiaryAddr", VStr sample_address)])])).
Proof.
  destruct sample_address_ok as [Hascii Hok]. destruct sample_beneficiary_quiet as [Hq1 Hq2], sample_beneficiary_eq as [E1 E2].
  destruct (beneficiary_reaches_node (sample_world sample_seed) sample_ms "-" sample_cookie sample_node "tok" sample_clock 1600000001 sample_now
              sample_random "hunter2" sample_address sample_members (sample_agree _ _) sample_session sample_hash Hascii (sample_read sample_disk) eq_refl)
    as (h & cfg & c & Hh & Hr & Hc & H).
  rewrite (sample_header_eq h Hh) in *. change (nd_server sample_node) with sample_server in H. rewrite Hok in H.
  destruct H as (body & c' & Hserve & Hp & Hres); [rewrite <- (sample_body_eq sample_auth sample_beneficiary _ _ Hr Hc), E1; exact Hq1 |].
  exists cfg, body, c'. split; [exact Hr | split; [exact Hserve |]]. apply Hres.
  rewrite <- (sample_reply_eq sample_auth sample_beneficiary sample_server _ _ _ _ Hr Hserve Hp), E2. exact Hq2.
Defined.
(** The parameters of the node in the form. *)
Definition sample_fields (f : field) : Z :=
  match f with
  | RegisterIDTxnFee | NumLowFeeTxnPerBlock => 0
  | LowFeeTxnSizePerBlock => 8192
  | LowTxnFee => 10000000
  | LowTxnFeePerSize => 50000
  end.
Definition sample_status_request : request := mk_request "GET" "/api/node/status" VUndef.
Definition sample_status : string := Eval vm_compute in sample_reply (sample_world sample_seed) sample_status_request sample_server.
Lemma sample_status_eq : sample_reply (sample_world sample_seed) sample_status_request sample_server = sample_status.
Proof. vm_compute. reflexivity. Qed.
Lemma sample_status_quiet : answer_unambiguous (sample_world sample_seed) sample_status sample_clock sample_now.
Proof. no_earlier. Qed.

Lemma sample_node_session : w_session (sample_world sample_seed) !! "seed" = Some (wallet_seed (wallet_hash sample_server) true).
Proof. rewrite sample_hash. exact sample_session. Qed.

Lemma settings_survive_witness :
  exists c status q', onResponse 41 (sample_world sample_seed) (VObj [("data", VObj [("data", VStr c)])]) = Some (Ok (VObj [("data", status)]))
    /\ form_config (pg_data q') = Ok (config_of sample_fields)
    /\ NodeConfig.with_settings (data_of sample_fields) (n_Parameters sample_server) = n_Parameters sample_server.
Proof.
  destruct (settings_survive (sample_world sample_seed) sample_ms "-" sample_cookie sample_node "tok" sample_clock 1600000001 sample_now
              sample_random [] sample_fields (sample_agree _ _) sample_node_session eq_refl eq_refl eq_refl eq_refl)
    as (cfg & body & c & status & Hr & Hserve & Hp & Hres & Hform & Hsame).
  - repeat split.
  - intros []; cbn; lia.
  - destruct (Hform (mk_page (set_state (sample_world sample_seed) (with_node (w_state (sample_world sample_seed)) (Store.mk_node status [])))
                       settings_init_data [])) as (q' & _ & Hq); [reflexivity | reflexivity |].
    exists c, status, q'. split; [| split; [exact Hq | apply Hsame]]. apply Hres.
    rewrite <- (sample_reply_eq (sample_world sample_seed) sample_status_request sample_server _ _ _ _ Hr Hserve Hp), sample_status_eq. exact sample_status_quiet.
Defined.
(** A node without an open wallet: its file is there, or it is not. *)
Definition closed_server (d : disk) : server := {|
  n_Status := 6; n_localNode := None; n_wallet := None; n_id := None;
  n_Parameters := n_Parameters sample_server; n_ConfigFile := ""; n_disk := sample_files d;
  n_Passwd := ""; n_env := ""; n_terminal := None; n_ledger := None
|}.

Definition sample_open_text : string := Eval vm_compute in sample_body (sample_world "") (wallet_request COpen (VStr "hunter2")).
Lemma sample_open_eq : sample_body (sample_world "") (wallet_request COpen (VStr "hunter2")) = sample_open_text.
Proof. vm_compute. reflexivity. Qed.
Lemma sample_open_quiet : body_unambiguous "" "tok" sample_open_text sample_clock sample_now.
Proof. no_earlier. Qed.
Lemma sample_disk_opens : OpenWallet (sample_files sample_disk) "wallet.json" "hunter2" = Ok sample_wallet.
Proof. vm_compute. reflexivity. Qed.

Lemma open_reaches_node_witness :
  exists cfg s s' sess, onRequest (sample_world "") sample_ms (base_config (sample_world "") (wallet_request COpen (VStr "hunter2"))) = Ok cfg
    /\ serve sample_random "-" sample_now sample_cookie (incoming_of cfg) {| nd_server := closed_server sample_disk; nd_tokens := sample_tokens |}
       = ({| nd_server := s; nd_tokens := sample_tokens |}, sess, Ok empty_json)
    /\ flag_at 2 s = false /\ wallet_round s = (s', Ok (Some sample_wallet)).
Proof.
  destruct (open_reaches_node (sample_world "") sample_ms "-" sample_cookie {| nd_server := closed_server sample_disk; nd_tokens := sample_tokens |}
              "tok" sample_clock 1600000001 sample_now sample_random "hunter2" (sample_agree _ _) eq_refl eq_refl ltac:(discriminate))
    as (k & cfg & c & _ & Hr & Hc & H).
  destruct H as (s & rep & Hserve & H).
  { rewrite <- (sample_body_eq (sample_world "") (wallet_request COpen (VStr "hunter2")) _ _ Hr Hc), sample_open_eq. exact sample_open_quiet. }
  change (n_wallet (nd_server _)) with (@None Wallet) in H. change (OpenWallet (n_disk _) _ _) with (OpenWallet (sample_files sample_disk) "wallet.json" "hunter2") in H.
  rewrite sample_disk_opens in H. destruct H as (-> & _ & _ & F2 & _ & s' & Hround & _).
  eexists cfg, s, s', _. split; [exact Hr | split; [exact Hserve | split; [exact F2 | exact Hround]]].
Defined.

Definition sample_create : request := wallet_request (CCreate (VStr sample_address)) (VStr "hunter2").
Definition sample_create_text : string := Eval vm_compute in sample_body (sample_world "") sample_create.
Lemma sample_create_eq : sample_body (sample_world "") sample_create = sample_create_text.
Proof. vm_compute. reflexivity. Qed.
Lemma sample_create_quiet : body_unambiguous "" "tok" sample_create_text sample_clock sample_now.
Proof. no_earlier. Qed.
Lemma sample_address_taken : utf8_valid sample_address = true /\ acceptable sample_address (closed_server empty_disk) = true.
Proof. split; vm_compute; reflexivity. Qed.

Lemma create_reaches_node_witness :
  exists cfg s s' sess wal, onRequest (sample_world "") sample_ms (base_config (sample_world "") sample_create) = Ok cfg
    /\ serve sample_random "-" sample_now sample_cookie (incoming_of cfg) {| nd_server := closed_server empty_disk; nd_tokens := sample_tokens |}
       = ({| nd_server := s; nd_tokens := sample_tokens |}, sess, Ok empty_json)
    /\ flag_at 1 s = true /\ flag_at 2 s = true
    /\ wallet_round s = (s', Ok (Some wal)) /\ flag_at 1 s' = false /\ flag_at 2 s' = false.
Proof.
  destruct sample_address_taken as [Hutf Htaken].
  destruct (create_reaches_node (sample_world "") sample_ms "-" sample_cookie {| nd_server := closed_server empty_disk; nd_tokens := sample_tokens |}
              "tok" sample_clock 1600000001 sample_now sample_random "hunter2" sample_address (Toy.hash 32 "seed") sample_members
              (sample_agree _ _) eq_refl eq_refl ltac:(discriminate) Hutf eq_refl eq_refl Htaken (sample_read empty_disk) eq_refl ltac:(discriminate) eq_refl eq_refl)
    as (k & cfg & c & _ & Hr & Hc & H); [repeat split | reflexivity | reflexivity |].
  destruct H as (s & Hserve & _ & _ & F1 & F2 & s' & wal & Hround & _ & _ & G1 & G2 & _).
  { rewrite <- (sample_body_eq (sample_world "") sample_create _ _ Hr Hc), sample_create_eq. exact sample_create_quiet. }
  eexists cfg, s, s', _, wal.
  split; [exact Hr | split; [exact Hserve | split; [exact F1 | split; [exact F2 | split; [exact Hround | split; [exact G1 | exact G2]]]]]].
Defined.

Lemma sample_address_accepted : acceptable sample_address (closed_server sample_disk) = true.
Proof. vm_compute. reflexivity. Qed.
Lemma sample_wallet_there : FileExisted (n_disk (closed_server sample_disk)) "wallet.json" = true.
Proof. vm_compute. reflexivity. Qed.

Lemma create_moves_beneficiary_witness :
  exists cfg, onRequest (sample_world "") sample_ms (base_config (sample_world "") sample_create) = Ok cfg
    /\ serve sample_random "-" sample_now sample_cookie (incoming_of cfg) {| nd_server := closed_server sample_disk; nd_tokens := sample_tokens |}
       = served "-" sample_now sample_cookie {| nd_server := closed_server sample_disk; nd_tokens := sample_tokens |}
           (beneficiary_set sample_address sample_members (closed_server sample_disk), Err 500).
Proof.
  destruct sample_address_taken as [Hutf _].
  destruct (create_moves_beneficiary (sample_world "") sample_ms "-" sample_cookie {| nd_server := closed_server sample_disk; nd_tokens := sample_tokens |}
              "tok" sample_clock 1600000001 sample_now sample_random "hunter2" sample_address sample_members
              (sample_agree _ _) eq_refl eq_refl Hutf eq_refl eq_refl sample_address_accepted (sample_read sample_disk) eq_refl sample_wallet_there)
    as (cfg & c & Hr & Hc & H).
  exists cfg. split; [exact Hr |]. apply H.
  rewrite <- (sample_body_eq (sample_world "") sample_create _ _ Hr Hc), sample_create_eq. exact sample_create_quiet.
Defined.
(** With two browsers the right password can be refused: the header is made of
    the token the sync route reports, the session still has the old one. *)
Lemma second_browser_locked_out :
  exists h, authorization (w_state (set_state (sample_world "") (with_common (w_state (sample_world ""))
              (set_clock (common_init (num_of_Z 0)) (VStr "b") (VInt 1122))))) (VStr "hunter2") = Ok h
    /\ WalletAuth h (Some (PasswordHash "hunter2")) (session_token 0 renewed) 1122 = Err 403.
Proof. eexists. split; vm_compute; reflexivity. Qed.
(** The node with a balance in its ledger. *)
Definition ledger_server : server := {|
  n_Status := 16; n_localNode := None; n_wallet := Some sample_wallet; n_id := None;
  n_Parameters := n_Parameters sample_server; n_ConfigFile := ""; n_disk := sample_disk;
  n_Passwd := "hunter2"; n_env := ""; n_terminal := None; n_ledger := Some (fun _ => 1234500000)
|}.
Definition sample_wallet_request : request := mk_request "GET" "/api/current-wallet/status" VUndef.
Definition sample_wallet_status : string := Eval vm_compute in sample_reply (sample_world sample_seed) sample_wallet_request ledger_server.
Lemma sample_wallet_status_eq : sample_reply (sample_world sample_seed) sample_wallet_request ledger_server = sample_wallet_status.
Proof. vm_compute. reflexivity. Qed.
Lemma sample_wallet_status_quiet : answer_unambiguous (sample_world sample_seed) sample_wallet_status sample_clock sample_now.
Proof. no_earlier. Qed.

Lemma wallet_status_from_node_witness :
  exists c address balance key,
    onResponse 41 (sample_world sample_seed) (VObj [("data", VObj [("data", VStr c)])])
    = Some (Ok (VObj [("data", VObj [("address", VStr address); ("balance", VStr balance); ("publicKey", VStr key)])]))
    /\ StringToFixed64 balance = Some 1234500000.
Proof.
  destruct (wallet_status_from_node (sample_world sample_seed) sample_ms "-" sample_cookie {| nd_server := ledger_server; nd_tokens := sample_tokens |}
              "tok" sample_clock 1600000001 sample_now sample_random "hunter2" "wallet.json" (Toy.hash 32 "seed") sample_wallet (fun _ => 1234500000)
              (sample_agree _ _) sample_session eq_refl sample_wallet_for eq_refl eq_refl ltac:(intros; lia))
    as (cfg & body & c & a & addr & bal & Hr & Hserve & Hp & Hres & _ & _ & _ & Hbal).
  exists c, addr, bal, (hex_encode (a_PublicKey a)). split; [| exact Hbal]. apply Hres.
  rewrite <- (sample_reply_eq (sample_world sample_seed) sample_wallet_request ledger_server _ _ _ _ Hr Hserve Hp), sample_wallet_status_eq.
  exact sample_wallet_status_quiet.
Defined.
(** A node with one outbound neighbour. *)
Definition sample_info : node_info := mk_node_info (Some [("addr", VStr "tcp://1.2.3.4:30001")]) "id" (Some [("rpcPort", VInt 30003)]) "key" "PERSIST_FINISHED".
Definition sample_local : local_node := mk_local_node sample_info 7 60 "v2" 5 None [mk_remote_node sample_info 7 true 12 1000].
Definition local_server : server := {|
  n_Status := 16; n_localNode := Some sample_local; n_wallet := Some sample_wallet; n_id := None;
  n_Parameters := n_Parameters sample_server; n_ConfigFile := ""; n_disk := sample_disk;
  n_Passwd := "hunter2"; n_env := ""; n_terminal := None; n_ledger := None
|}.
Definition sample_neighbors_request : request := mk_request "GET" "/api/node/neighbors" VUndef.
Definition sample_neighbors : string := Eval vm_compute in sample_reply (sample_world sample_seed) sample_neighbors_request local_server.
Lemma sample_neighbors_eq : sample_reply (sample_world sample_seed) sample_neighbors_request local_server = sample_neighbors.
Proof. vm_compute. reflexivity. Qed.
Lemma sample_neighbors_quiet : answer_unambiguous (sample_world sample_seed) sample_neighbors sample_clock sample_now.
Proof. no_earlier. Qed.
Lemma local_session : w_session (sample_world sample_seed) !! "seed" = Some (wallet_seed (wallet_hash local_server) true).
Proof. exact sample_node_session. Qed.

Lemma neighbors_from_node_witness :
  exists c data cnt, onResponse 41 (sample_world sample_seed) (VObj [("data", VObj [("data", VStr c)])]) = Some (Ok (VObj [("data", data)]))
    /\ inBoundCount (setNeighbors node_init data) = Ok cnt /\ WatchOutBoundCount.shown cnt WatchOutBoundCount.data = true.
Proof.
  destruct (neighbors_from_node (sample_world sample_seed) sample_ms "-" sample_cookie {| nd_server := local_server; nd_tokens := sample_tokens |}
              "tok" sample_clock 1600000001 sample_now sample_random sample_local
              (default [] (mapM RemoteNode_MarshalJSON (ln_neighbors sample_local))) (sample_agree _ _) local_session eq_refl)
    as (cfg & body & c & data & Hr & Hserve & Hp & Hres & H); [vm_compute; reflexivity | vm_compute; reflexivity | vm_compute; reflexivity | vm_compute; reflexivity |].
  destruct (H node_init WatchOutBoundCount.data) as (_ & cnt & Hc & Hshown). exists c, data, cnt. split; [| split; [exact Hc |]].
  - apply Hres. rewrite <- (sample_reply_eq (sample_world sample_seed) sample_neighbors_request local_server _ _ _ _ Hr Hserve Hp), sample_neighbors_eq.
    exact sample_neighbors_quiet.
  - apply Hshown. repeat split; [discriminate | repeat constructor].
Defined.
(** A browser that meets a fresh node. *)
Definition fresh_node : node := {| nd_server := sample_server; nd_tokens := tokens_init |}.
End EndToEndSamples.
